(* ===== verification/_CoqProject ===== *)
-Q . S2P
Prelude.v
Mmu.v
Mem.v
Console.v
Kstate.v
Pmap.v
PmapAlloc.v
PmapSpace.v
PmapMap.v
PmapDir.v
Env.v
Kbytes.v
PmapChecks.v
Sched.v
Syscall.v
Trap.v
EnvSpec.v
KernInv.v
SchedSpec.v
UserMem.v
DestroySpec.v
SyscallSpec.v
IpcSpec.v
TrapSpec.v
PmapChecksSpec.v
Cstring.v
CstringSpec.v
Printfmt.v
PrintfmtSpec.v
Spinlock.v
Kdebug.v
KdebugSpec.v
Ulib.v
UserRun.v
UserCalls.v
Mpconfig.v
Lapic.v
Init.v
Smp.v
Monitor.v
MonitorSpec.v
Boot.v
Entry.v
ForkSpec.v
PgfaultSpec.v
KernMap.v
InitSpec.v
UserIpc.v
