(* ===== verification/Prelude.v ===== *)
(** * JOS: a verification of the kernel and its libraries

    The program is the JOS teaching kernel through its fourth lab: a small
    multiprocessor exokernel for the 32-bit PC ([src/jos/kern]), the C library the
    kernel and the user programs share ([src/jos/lib], [src/jos/inc]) and the user
    library built on the system calls.  This file is the root of the development;
    besides this description it holds what all files share: machine integers and
    their bounds, bit operations, lists of addresses, loops with a bound, and the
    tactics and the hint database [jos].

    ** The parts of the program and how they meet

    A trap from user mode enters [trap] (kern/trap.c), which takes the big kernel
    lock (kern/spinlock.c), saves the registers in the current [struct Env] and
    dispatches: to a system call (kern/syscall.c), to the page-fault upcall, to the
    scheduler (kern/sched.c) or to the destruction of the environment.  System
    calls work on environments (kern/env.c) and on their page tables (kern/pmap.c),
    which are bytes of physical memory; [page_insert], [page_remove] and
    [page_alloc] keep reference counts and the free list.  [env_run] gives the
    lock back and resumes the chosen environment.  Below that lie the console
    (kern/console.c), the formatted output (lib/printfmt.c, kern/printf.c,
    lib/printf.c, lib/readline.c), the strings (lib/string.c) and the debugger
    information (kern/kdebug.c).

    Before that, the boot loader (boot/main.c) loads the kernel from the disk, entry.S
    runs it on the page tables of kern/entrypgdir.c, and [i386_init] (kern/init.c) sets
    up the console, the memory, the environments, the interrupts, reads the tables of the
    multiprocessor (kern/mpconfig.c), sets up the interrupt controllers (kern/lapic.c,
    kern/picirq.c), starts the other CPUs and schedules.  A panic, or a CPU with
    nothing left to run, ends in the monitor (kern/monitor.c).  Above it, the user
    library turns system calls into copy-on-write [fork], page-fault handlers written
    in C and inter-process communication (lib/fork.c, lib/pgfault.c, lib/ipc.c).

    ** The model

    - Integers are [Z]; each C operation that can wrap is written with [u8], [u16],
      [u32] or [i32] where it does (Prelude.v, Mmu.v).
    - Kstate.v: the state of the whole kernel is the record [kstate], with one field
      per global variable or array and per processor register the code uses.
      Physical memory is a finite map of bytes (Mem.v).  A pointer into [pages],
      [envs] or [cpus] is an index, [None] is null; page tables are not abstracted:
      a [pte_t *] is an address, and the processor's view of it is read from the
      bytes.  A kernel function is a computation [K A], from a state to an
      [outcome]: it returns ([Ret]), panics, resumes an environment ([Resume],
      that is [iret]), halts the processor, enters the monitor, waits for ever for
      a lock or a device ([Spin]), or makes an access the hardware refuses ([Fault]).
    - Mmu.v (inc/mmu.h, inc/memlayout.h, inc/types.h, inc/error.h), Console.v
      (kern/console.c), Pmap.v and PmapChecks.v (kern/pmap.c, kern/pmap.h,
      kern/kclock.c), Env.v (kern/env.c), Sched.v (kern/sched.c and the functions of
      env.c and pmap.c that schedule), Syscall.v (kern/syscall.c), Trap.v
      (kern/trap.c, [lapic_eoi] of kern/lapic.c), Cstring.v (lib/string.c),
      Printfmt.v (lib/printfmt.c and its clients), Kdebug.v (kern/kdebug.c), Mpconfig.v
      (kern/mpconfig.c), Lapic.v (kern/lapic.c, kern/picirq.c), Init.v (kern/init.c),
      Monitor.v (kern/monitor.c), Boot.v (boot/main.c), Entry.v (kern/entrypgdir.c), Ulib.v
      (lib/syscall.c, lib/fork.c, lib/pgfault.c, lib/ipc.c, lib/libmain.c, lib/exit.c,
      lib/panic.c, lib/console.c) have one
      definition per function, with the name it has in C, composed as the code
      composes them; loop bodies and long [else] branches are definitions of their
      own.  Kbytes.v has the accesses to bytes of kernel memory that they share.
    - Spinlock.v models kern/spinlock.c a second time, one memory access of one
      processor per step, as a transition system, and Smp.v the start of the other CPUs
      in kern/init.c (the variable [mpentry_kstack] that they all take their stack
      from, their status, the kernel lock).
    - A user program is a computation on the same state: its system calls raise the trap
      of Trap.v, its loads and stores go through the page tables with user rights.
      The boot loader, which runs before there is a kernel, has a state of its own.

    ** The specifications and the theorems

    - PmapSpace.v defines the abstract address spaces: a finite map [M] from (page
      directory, virtual page) to page table entry.  [vm_ok s l D M X] ties a
      kernel state to it: [l] is the free list, [D] the directories in use, the
      page tables in memory are [M], every counter is the number of mappings (plus
      the references [X] in transit), tables are not shared, nothing free is used,
      and every directory is its own page table at UVPT.  PmapAlloc.v refines the
      allocator to a list; PmapMap.v shows that [page_insert], [page_remove] and
      [page_lookup] are insert, delete and lookup on [M]; PmapDir.v treats whole
      tables and directories.
    - KernInv.v: [kinv], the invariant of the kernel between two system calls, which
      adds the table of environments.  EnvSpec.v, DestroySpec.v, SchedSpec.v,
      SyscallSpec.v, IpcSpec.v and TrapSpec.v give the behaviour of each operation
      on every branch, errors included, as a relation between abstract states, and
      that [kinv] is kept: ids, creation and release of environments, round robin
      and its fairness, every branch of the memory and process system calls, send
      and receive, the way of a system call through the trap handler, the page
      fault upcall (whose frame is given byte by byte, through UserMem.v), and the end
      of an environment that traps without a handler.
    - UserRun.v, UserCalls.v, ForkSpec.v, PgfaultSpec.v, UserIpc.v: programs on that kernel.
      [uready] says that an environment runs in user mode with [kinv]; each system
      call keeps it, from the trap to the return; [fork] gives a child whose address
      space shares every page of the parent's copy-on-write, or panics without
      memory; the fault handler gives the faulting page a private copy; [ipc_send] to a
      waiting environment delivers its message in one turn.
    - KernMap.v: [kdir], a directory whose tables are apart from each other and from the
      free list; [boot_map_region], [mmio_map_region] and the mappings of [mem_init], page by
      page.  InitSpec.v: [boot_aps] on it, every other CPU started on a stack of its own.
    - Spinlock.v: mutual exclusion, exactness of the test for holding, and the
      absence of deadlock, over all interleavings.  Smp.v: in every interleaving no CPU
      takes another's stack, none schedules before the first CPU has given the lock
      back, and from every reachable state all can still be started.
    - Mpconfig.v: for every memory the BIOS may leave, a reference function on its bytes
      says whether [mp_init] panics, finds no valid table (and which check failed), or
      numbers the processors of a table.  Boot.v: a well-formed image is loaded.  Entry.v:
      the literal tables against the arithmetic they stand for.  MonitorSpec.v: the
      command line against a reference function on lists, and the loop never returns.
    - CstringSpec.v, PrintfmtSpec.v, KdebugSpec.v, PmapChecksSpec.v, Console.v:
      the libraries: the string instructions against the portable loops, printing
      and reading back, buffers never overrun, the binary search over the stabs,
      the boot-time self-tests, the console's ring and screen.

    Each theorem that states a property of the program is followed, where it has
    hypotheses, by a lemma [..._witness] that applies it to a concrete state.

    ** Bounds

    A loop that the C code leaves only on a condition it reads from memory runs
    with a bound that is larger than the number of different states: [ADDRS] =
    2^32 for a pointer that walks through memory, 2^33 turns in [stab_binsearch],
    0x100001 pages in [for_free_list] (pmap.c walks a list of at most 2^20 pages),
    64 digits in [printnum], 2^32 turns in the loops over indices, [TURNS] = 2^23 + 1
    sectors in [readseg] (2^23 sectors of 512 bytes are the whole address space),
    [MAXARGS] = 16 turns in [parse_args], which leaves its loop at the sixteenth word.
    A device that is waited for is a list of the values it returns, and waiting beyond
    the list is waiting for ever.  Where the theorems speak of such a loop they show
    that it ends within the bound.  The loops of [vprintfmt] tell running out of fuel
    ([OutOfFuel]) from an argument that C leaves undefined ([Undefined]), and never do the
    first.

    Two numbers of free pages: [KERN_TABLES] = 77 are enough for the tables of
    [mem_init]'s mappings, and with [fork_need] = 960, a child's directory and tables and
    both exception stacks, fork does not panic for want of memory.

    ** Idealisations

    [cprintf] in the kernel is an event of the trace with its format and its
    arguments; what it prints is the subject of Printfmt.v.  The arrays [pages] and
    [envs] are kept apart from the bytes of memory, although boot_alloc's
    mistake lets them overlap on a machine of 128 MB (see the findings with
    [boot_alloc_returns_end]).  The processor does not set the accessed and dirty
    bits.  Device registers are streams the model is given, writes to the local APIC
    and to ports are events; the disk is a function, read through the registers of
    the ATA protocol: a sector that was asked for comes without error, and only
    from a controller that has been waited for.  The boot loader's own code and stack
    are not in the memory that it loads to.  Where C would write past the array [cpus]
    ([mp_init] with the boot processor in the ninth place) the model has a [Fault].  In [kbd_proc_data] the message before a reboot is left out,
    in the user's [_panic] the message.  The locals of a user program are in
    registers, its stack is not used.  It reads [envs] through the kernel's table, not through the
    mapping at UENVS.  The monitor's strings are recorded by address, and the bytes
    that [readline] leaves after the terminator of a line are not kept.  While
    [boot_aps] waits for a CPU, Init.v runs that CPU's part in its place; what else
    the CPUs can do meanwhile is in Smp.v.

    ** Not modelled

    Assembly (boot.S, entry.S, mpentry.S, trapentry.S, pfentry.S, lib/entry.S) and
    linker scripts, except for the frames they build, the trap numbers that the entry
    points of trapentry.S push ([handler] in Trap.v), and what the C code sees of them
    (which stack a CPU takes, where the registers are); the user test programs under
    user/, which exercise the library and have no contract of their own; the
    stale copy of pmap.c in kern/%5C, which no makefile names; the build and grading
    scripts. *)
From stdpp Require Export base numbers list gmap option strings.
From Stdlib Require Export ZArith Lia.

(** ** Machine integers *)

Declare Scope cint_scope.
Delimit Scope cint_scope with cint.
Open Scope Z_scope.

Notation "a .& b" := (Z.land a b) (at level 41, left associativity) : cint_scope.
Notation "a .| b" := (Z.lor a b) (at level 46, left associativity) : cint_scope.
Notation "a .<< b" := (Z.shiftl a b) (at level 38, left associativity) : cint_scope.
Notation "a .>> b" := (Z.shiftr a b) (at level 38, left associativity) : cint_scope.
Open Scope cint_scope.

(** Unsigned wrap-around at 8, 16 and 32 bits, and the two's complement
    reading of a 32-bit word. *)
Definition u8 (z : Z) : Z := z mod 0x100.
Definition u16 (z : Z) : Z := z mod 0x10000.
Definition u32 (z : Z) : Z := z mod 0x100000000.
Definition i32 (z : Z) : Z :=
  let u := u32 z in if u <? 0x80000000 then u else u - 0x100000000.

(** C truth value of a flag test [x & flag]. *)
Definition has (x flag : Z) : bool := negb (x .& flag =? 0).

(** [for (i = lo; i < lo + n; i++)] as the list of its indices. *)
Definition range (lo : Z) (n : nat) : list Z := seqZ lo (Z.of_nat n).

(** [lia] also reasons about [/] and [mod]. *)
Ltac Zify.zify_post_hook ::= Z.to_euclidean_division_equations.

(** [lia] after powers of two with a literal exponent have been computed. *)
Ltac zpow :=
  repeat match goal with
  | |- context [2 ^ (Zpos ?n)] =>
      let v := eval vm_compute in (2 ^ (Zpos n)) in change (2 ^ (Zpos n)) with v in *
  | H : context [2 ^ (Zpos ?n)] |- _ =>
      let v := eval vm_compute in (2 ^ (Zpos n)) in change (2 ^ (Zpos n)) with v in *
  end.
Ltac zlia := zpow; lia.

(** ** Generic lemmas *)

Lemma u32_range z : 0 <= u32 z < 0x100000000.
Proof. unfold u32. apply Z.mod_pos_bound. lia. Qed.

Lemma u32_small z : 0 <= z < 0x100000000 -> u32 z = z.
Proof. intros. unfold u32. by apply Z.mod_small. Qed.

Lemma u16_range z : 0 <= u16 z < 0x10000.
Proof. unfold u16. apply Z.mod_pos_bound. lia. Qed.

Lemma u16_small z : 0 <= z < 0x10000 -> u16 z = z.
Proof. intros. unfold u16. by apply Z.mod_small. Qed.

Lemma u8_range z : 0 <= u8 z < 0x100.
Proof. unfold u8. apply Z.mod_pos_bound. lia. Qed.

Lemma i32_small z : - 0x80000000 <= z < 0x80000000 -> i32 z = z.
Proof.
  intros. unfold i32, u32. destruct (decide (0 <= z)).
  - rewrite Z.mod_small by lia. case_match; lia.
  - replace (z mod 0x100000000) with (z + 0x100000000).
    + case_match; lia.
    + apply (Z.mod_unique_pos _ _ (-1)); lia.
Qed.

Lemma i32_u32 z : - 0x80000000 <= z < 0x80000000 -> i32 (u32 z) = z.
Proof.
  intros H. transitivity (i32 z); [|by apply i32_small]. unfold i32.
  by rewrite (u32_small (u32 z)) by apply u32_range.
Qed.

Lemma land_ones_mod a n : 0 <= n -> a .& Z.ones n = a mod 2 ^ n.
Proof. intros. by apply Z.land_ones. Qed.

Lemma testbit_high b n i : 0 <= b < 2 ^ n -> 0 <= n <= i -> Z.testbit b i = false.
Proof. intros Hb Hi. rewrite <- (Z.mod_small b (2 ^ n)) by lia. by apply Z.mod_pow2_bits_high. Qed.

Lemma testbit_low_mult a n i : a mod 2 ^ n = 0 -> i < n -> Z.testbit a i = false.
Proof. intros Ha Hi. rewrite <- (Z.mod_pow2_bits_low a n i) by lia. rewrite Ha. apply Z.bits_0. Qed.

Lemma land_disjoint a b n :
  0 <= n -> a mod 2 ^ n = 0 -> 0 <= b < 2 ^ n -> a .& b = 0.
Proof.
  intros Hn Ha Hb. apply Z.bits_inj'. intros i Hi. rewrite Z.land_spec, Z.bits_0.
  destruct (decide (i < n)).
  - by rewrite (testbit_low_mult a n).
  - by rewrite (testbit_high b n), andb_false_r by lia.
Qed.

Lemma lor_add_low a b n :
  0 <= n -> a mod 2 ^ n = 0 -> 0 <= b < 2 ^ n -> a .| b = a + b.
Proof.
  intros Hn Ha Hb. rewrite Z.add_nocarry_lxor by (by eapply land_disjoint).
  apply Z.bits_inj'. intros i Hi. rewrite Z.lor_spec, Z.lxor_spec.
  destruct (decide (i < n)).
  - by rewrite (testbit_low_mult a n).
  - rewrite (testbit_high b n) by lia. by destruct (Z.testbit a i).
Qed.

Lemma lor_range a b n :
  0 <= n -> 0 <= a < 2 ^ n -> 0 <= b < 2 ^ n -> 0 <= a .| b < 2 ^ n.
Proof.
  intros Hn [Ha1 Ha2] [Hb1 Hb2]. split; [by apply Z.lor_nonneg|].
  destruct (decide (a .| b = 0)) as [->|Hne]; [lia|].
  apply Z.log2_lt_pow2.
  - assert (0 <= a .| b) by (by apply Z.lor_nonneg). lia.
  - rewrite Z.log2_lor by lia.
    assert (Hlog : forall c, 0 <= c < 2 ^ n -> c <> 0 -> Z.log2 c < n).
    { intros c ? ?. apply Z.log2_lt_pow2; lia. }
    destruct (decide (a = 0)) as [->|]; destruct (decide (b = 0)) as [->|];
      try (by rewrite ?Z.lor_0_r in Hne); simpl.
    + rewrite Z.max_r by apply Z.log2_nonneg. by apply Hlog.
    + rewrite Z.max_l by apply Z.log2_nonneg. by apply Hlog.
    + apply Z.max_lub_lt; by apply Hlog.
Qed.

Lemma land_nonneg_range a b n : 0 <= b < 2 ^ n -> 0 <= n -> 0 <= a .& b < 2 ^ n.
Proof.
  intros [Hb1 Hb2] Hn. split; [apply Z.land_nonneg; by right|].
  destruct (decide (a .& b = 0)) as [->|Hne]; [lia|].
  assert (a .& b <= b); [|lia].
  assert (Hle : a .& b = b - Z.ldiff b a).
  { rewrite Z.sub_nocarry_ldiff.
    - apply Z.bits_inj'. intros i Hi. rewrite Z.ldiff_spec, Z.ldiff_spec, Z.land_spec.
      by destruct (Z.testbit a i), (Z.testbit b i).
    - apply Z.bits_inj'. intros i Hi. rewrite Z.ldiff_spec, Z.ldiff_spec, Z.bits_0.
      by destruct (Z.testbit a i), (Z.testbit b i). }
  rewrite Hle. assert (0 <= Z.ldiff b a) by (apply Z.ldiff_nonneg; by left). lia.
Qed.

Lemma has_lor_r x f : 0 < f -> has (x .| f) f = true.
Proof.
  intros Hf. unfold has. rewrite negb_true_iff, Z.eqb_neq. intros H0.
  rewrite Z.land_lor_distr_l, Z.land_diag in H0. apply Z.lor_eq_0_iff in H0. lia.
Qed.

Lemma has_0 f : has 0 f = false.
Proof. done. Qed.

Create HintDb jos discriminated.
#[export] Hint Resolve u32_range u16_range u8_range : jos.


Lemma filter_all {A} (P : A -> Prop) `{HP : forall x, Decision (P x)} (l : list A) :
  (forall x, x ∈ l -> P x) -> filter P l = l.
Proof.
  induction l as [|x l IH]; intros Hall; [done|].
  rewrite filter_cons_True by (apply Hall; set_solver). f_equal. apply IH. set_solver.
Qed.

Lemma filter_none {A} (P : A -> Prop) `{HP : forall x, Decision (P x)} (l : list A) :
  (forall x, x ∈ l -> ~ P x) -> filter P l = [].
Proof.
  induction l as [|x l IH]; intros Hall; [done|].
  rewrite filter_cons_False by (apply Hall; set_solver). apply IH. set_solver.
Qed.

(** ** Loops with an exit

    [loop_upto p f a] runs the body [f] from [a] at most [p] times, and stops
    as soon as it returns [inr]. *)
Fixpoint loop_upto {A R : Type} (p : positive) (f : A -> A + R) (a : A) : A + R :=
  match p with
  | xH => f a
  | xO q => match loop_upto q f a with inl a => loop_upto q f a | inr r => inr r end
  | xI q =>
      match f a with
      | inl a => match loop_upto q f a with inl a => loop_upto q f a | inr r => inr r end
      | inr r => inr r
      end
  end.

(** The same loop counted in unary, for induction. *)
Fixpoint loop_nat {A R : Type} (n : nat) (f : A -> A + R) (a : A) : A + R :=
  match n with
  | O => inl a
  | S n => match f a with inl a => loop_nat n f a | inr r => inr r end
  end.

Lemma loop_nat_add {A R} n m (f : A -> A + R) a :
  loop_nat (n + m) f a = match loop_nat n f a with inl a => loop_nat m f a | inr r => inr r end.
Proof. revert a. induction n as [|n IH]; intros a; simpl; [done|]. by destruct (f a). Qed.

Lemma loop_upto_nat {A R} p (f : A -> A + R) a : loop_upto p f a = loop_nat (Pos.to_nat p) f a.
Proof.
  revert a. induction p as [p IH|p IH|]; intros a; simpl loop_upto.
  - rewrite Pos2Nat.inj_xI. replace (S (2 * Pos.to_nat p)) with (S (Pos.to_nat p + Pos.to_nat p)) by lia.
    simpl. destruct (f a) as [a'|r]; [|done]. rewrite loop_nat_add, IH. by destruct (loop_nat _ f a').
  - rewrite Pos2Nat.inj_xO. replace (2 * Pos.to_nat p)%nat with (Pos.to_nat p + Pos.to_nat p)%nat by lia.
    rewrite loop_nat_add, IH. by destruct (loop_nat _ f a).
  - simpl. by destruct (f a).
Qed.

(** A loop that ends within [n] iterations ends the same way with more. *)
Lemma loop_nat_exit {A R} n m (f : A -> A + R) a r :
  loop_nat n f a = inr r -> (n <= m)%nat -> loop_nat m f a = inr r.
Proof.
  intros H Hm. replace m with (n + (m - n))%nat by lia. by rewrite loop_nat_add, H.
Qed.

Lemma loop_upto_exit {A R} n p (f : A -> A + R) a r :
  loop_nat n f a = inr r -> Z.of_nat n <= Z.pos p -> loop_upto p f a = inr r.
Proof. intros H Hn. rewrite loop_upto_nat. eapply loop_nat_exit; [done|]. lia. Qed.

(** The state of a loop as a function of the number of iterations. *)
Lemma loop_trace {A R} (P : nat -> A) (k : nat) p (f : A -> A + R) a r :
  P O = a -> (forall i, (i < k)%nat -> f (P i) = inl (P (S i))) -> f (P k) = inr r ->
  Z.of_nat k < Z.pos p -> loop_upto p f a = inr r.
Proof.
  intros <- Hs Hr Hk. apply (loop_upto_exit (S k)); [|lia]. revert P Hs Hr. clear Hk.
  induction k as [|k IH]; intros P Hs Hr; simpl; [by rewrite Hr|].
  rewrite (Hs O) by lia. apply (IH (fun i => P (S i))); [|done]. intros i Hi. apply Hs. lia.
Qed.

Lemma iter_trace {A} (P : Z -> A) (n : Z) (f : A -> A) a :
  0 <= n -> P 0 = a -> (forall i, 0 <= i < n -> f (P i) = P (i + 1)) -> Z.iter n f a = P n.
Proof.
  intros Hn <- Hs. rewrite iter_nat_of_Z by done. replace n with (Z.of_nat (Z.abs_nat n)) at 2 by lia.
  assert (Hk : (Z.abs_nat n <= Z.to_nat n)%nat) by lia. revert Hk. generalize (Z.abs_nat n) as k.
  induction k as [|k IH]; intros Hk; [done|]. simpl. rewrite IH, Hs by lia. f_equal. lia.
Qed.
