(* ===== verification/Mmu.v ===== *)
(** * inc/mmu.h, inc/memlayout.h, inc/types.h, inc/error.h

    The x86 paging arithmetic, the layout of the address space, the rounding
    macros, the error codes and the segment and gate descriptors, with the
    lemmas that turn the shifts and masks into divisions. *)
From S2P Require Import Prelude.

(** ** Paging constants (inc/mmu.h) *)
Definition NPDENTRIES : Z := 1024.
Definition NPTENTRIES : Z := 1024.
Definition PGSIZE : Z := 4096.
Definition PGSHIFT : Z := 12.
Definition PTSIZE : Z := PGSIZE * NPTENTRIES.
Definition PTXSHIFT : Z := 12.
Definition PDXSHIFT : Z := 22.

Definition PTE_P : Z := 0x001.
Definition PTE_W : Z := 0x002.
Definition PTE_U : Z := 0x004.
Definition PTE_PWT : Z := 0x008.
Definition PTE_PCD : Z := 0x010.
Definition PTE_AVAIL : Z := 0xE00.
Definition PTE_SYSCALL : Z := ((PTE_AVAIL .| PTE_P) .| PTE_W) .| PTE_U.

Definition FL_IF : Z := 0x200.
Definition FEC_PR : Z := 0x1.
Definition FEC_WR : Z := 0x2.
Definition FEC_U : Z := 0x4.

Definition CR0_PE : Z := 0x00000001.
Definition CR0_MP : Z := 0x00000002.
Definition CR0_EM : Z := 0x00000004.
Definition CR0_TS : Z := 0x00000008.
Definition CR0_NE : Z := 0x00000020.
Definition CR0_WP : Z := 0x00010000.
Definition CR0_AM : Z := 0x00040000.
Definition CR0_PG : Z := 0x80000000.

(** ** Linear addresses *)
Definition PGNUM (la : Z) : Z := la .>> PTXSHIFT.
Definition PDX (la : Z) : Z := (la .>> PDXSHIFT) .& 0x3FF.
Definition PTX (la : Z) : Z := (la .>> PTXSHIFT) .& 0x3FF.
Definition PGOFF (la : Z) : Z := la .& 0xFFF.
Definition PGADDR (d t o : Z) : Z := ((d .<< PDXSHIFT) .| (t .<< PTXSHIFT)) .| o.
Definition PTE_ADDR (pte : Z) : Z := pte .& Z.lnot 0xFFF.

(** ** Rounding (inc/types.h) *)
Definition ROUNDDOWN (a n : Z) : Z := u32 a - u32 a mod n.
Definition ROUNDUP (a n : Z) : Z := ROUNDDOWN (u32 (u32 a + n - 1)) n.

(** ** Memory layout (inc/memlayout.h) *)
Definition GD_KT : Z := 0x08.
Definition GD_KD : Z := 0x10.
Definition GD_UT : Z := 0x18.
Definition GD_UD : Z := 0x20.
Definition GD_TSS0 : Z := 0x28.

Definition KERNBASE : Z := 0xF0000000.
Definition IOPHYSMEM : Z := 0x0A0000.
Definition EXTPHYSMEM : Z := 0x100000.
Definition KSTACKTOP : Z := KERNBASE.
Definition KSTKSIZE : Z := 8 * PGSIZE.
Definition KSTKGAP : Z := 8 * PGSIZE.
Definition MMIOLIM : Z := KSTACKTOP - PTSIZE.
Definition MMIOBASE : Z := MMIOLIM - PTSIZE.
Definition ULIM : Z := MMIOBASE.
Definition UVPT : Z := ULIM - PTSIZE.
Definition UPAGES : Z := UVPT - PTSIZE.
Definition UENVS : Z := UPAGES - PTSIZE.
Definition UTOP : Z := UENVS.
Definition UXSTACKTOP : Z := UTOP.
Definition USTACKTOP : Z := UTOP - 2 * PGSIZE.
Definition UTEXT : Z := 2 * PTSIZE.
Definition UTEMP : Z := PTSIZE.
Definition PFTEMP : Z := UTEMP + PTSIZE - PGSIZE.
Definition USTABDATA : Z := PTSIZE / 2.
Definition MPENTRY_PADDR : Z := 0x7000.
Definition NCPU : Z := 8.

(** ** Error codes (inc/error.h) *)
Definition E_UNSPECIFIED : Z := 1.
Definition E_BAD_ENV : Z := 2.
Definition E_INVAL : Z := 3.
Definition E_NO_MEM : Z := 4.
Definition E_NO_FREE_ENV : Z := 5.
Definition E_FAULT : Z := 6.
Definition E_IPC_NOT_RECV : Z := 7.
Definition E_EOF : Z := 8.
Definition MAXERROR : Z := 9.

(** ** Segment descriptors *)
Record Segdesc := mkSegdesc {
  sd_lim_15_0 : Z; sd_base_15_0 : Z; sd_base_23_16 : Z; sd_type : Z;
  sd_s : Z; sd_dpl : Z; sd_p : Z; sd_lim_19_16 : Z; sd_avl : Z; sd_rsv1 : Z;
  sd_db : Z; sd_g : Z; sd_base_31_24 : Z }.

Definition SEG_NULL : Segdesc := mkSegdesc 0 0 0 0 0 0 0 0 0 0 0 0 0.
Definition SEG (type base lim dpl : Z) : Segdesc :=
  mkSegdesc ((lim .>> 12) .& 0xffff) (base .& 0xffff) ((base .>> 16) .& 0xff)
    type 1 dpl 1 (lim .>> 28) 0 0 1 1 (base .>> 24).
Definition SEG16 (type base lim dpl : Z) : Segdesc :=
  mkSegdesc (lim .& 0xffff) (base .& 0xffff) ((base .>> 16) .& 0xff)
    type 1 dpl 1 (lim .>> 16) 0 0 1 0 (base .>> 24).
Definition set_sd_s (v : Z) (d : Segdesc) : Segdesc :=
  mkSegdesc (sd_lim_15_0 d) (sd_base_15_0 d) (sd_base_23_16 d) (sd_type d) v
    (sd_dpl d) (sd_p d) (sd_lim_19_16 d) (sd_avl d) (sd_rsv1 d) (sd_db d) (sd_g d)
    (sd_base_31_24 d).

Definition STA_X : Z := 0x8.
Definition STA_W : Z := 0x2.
Definition STA_R : Z := 0x2.
Definition STS_T32A : Z := 0x9.
Definition STS_IG32 : Z := 0xE.
Definition STS_TG32 : Z := 0xF.

(** The base address and the limit, in bytes, as the processor reads them. *)
Definition seg_base (d : Segdesc) : Z :=
  (sd_base_31_24 d .<< 24) .| ((sd_base_23_16 d .<< 16) .| sd_base_15_0 d).
Definition seg_limit (d : Segdesc) : Z :=
  let l := (sd_lim_19_16 d .<< 16) .| sd_lim_15_0 d in
  if sd_g d =? 1 then (l .<< 12) .| 0xfff else l.

(** ** Gate descriptors *)
Record Gatedesc := mkGatedesc {
  gd_off_15_0 : Z; gd_sel : Z; gd_args : Z; gd_rsv1 : Z; gd_type : Z;
  gd_s : Z; gd_dpl : Z; gd_p : Z; gd_off_31_16 : Z }.

Definition gate_zero : Gatedesc := mkGatedesc 0 0 0 0 0 0 0 0 0.

Definition SETGATE (istrap : bool) (sel off dpl : Z) : Gatedesc :=
  mkGatedesc (off .& 0xffff) sel 0 0 (if istrap then STS_TG32 else STS_IG32)
    0 dpl 1 (off .>> 16).

(** The handler address the processor reassembles from a gate. *)
Definition gate_off (g : Gatedesc) : Z := (gd_off_31_16 g .<< 16) .| gd_off_15_0 g.

Create HintDb jconst.
#[export] Hint Unfold NPDENTRIES NPTENTRIES PGSIZE PGSHIFT PTSIZE PTXSHIFT PDXSHIFT
  KERNBASE IOPHYSMEM EXTPHYSMEM KSTACKTOP KSTKSIZE KSTKGAP MMIOLIM MMIOBASE ULIM UVPT
  UPAGES UENVS UTOP UXSTACKTOP USTACKTOP UTEXT UTEMP PFTEMP USTABDATA MPENTRY_PADDR NCPU
  E_UNSPECIFIED E_BAD_ENV E_INVAL E_NO_MEM E_NO_FREE_ENV E_FAULT E_IPC_NOT_RECV E_EOF
  PTE_P PTE_W PTE_U : jconst.

(** [zlia] after the constants of the source have been replaced by their values. *)
Ltac jlia := autounfold with jconst in *; zlia.

(** ** Shifts and masks as divisions *)

Lemma PGNUM_div la : PGNUM la = la / 4096.
Proof. unfold PGNUM, PTXSHIFT. by rewrite Z.shiftr_div_pow2. Qed.

Lemma PTX_div la : PTX la = la / 4096 mod 1024.
Proof.
  unfold PTX, PTXSHIFT. change 0x3FF with (Z.ones 10).
  by rewrite Z.land_ones, Z.shiftr_div_pow2.
Qed.

Lemma PDX_div la : PDX la = la / 4194304 mod 1024.
Proof.
  unfold PDX, PDXSHIFT. change 0x3FF with (Z.ones 10).
  by rewrite Z.land_ones, Z.shiftr_div_pow2.
Qed.

Lemma PGOFF_mod la : PGOFF la = la mod 4096.
Proof. unfold PGOFF. change 0xFFF with (Z.ones 12). by rewrite Z.land_ones. Qed.

Lemma PTE_ADDR_div pte : PTE_ADDR pte = 4096 * (pte / 4096).
Proof.
  unfold PTE_ADDR. change 0xFFF with (Z.ones 12).
  rewrite <- Z.ldiff_land, Z.ldiff_ones_r by zlia.
  rewrite Z.shiftr_div_pow2, Z.shiftl_mul_pow2 by zlia.
  zlia.
Qed.

Lemma PDX_range la : 0 <= PDX la < 1024.
Proof. rewrite PDX_div. apply Z.mod_pos_bound. zlia. Qed.

Lemma PTX_range la : 0 <= PTX la < 1024.
Proof. rewrite PTX_div. apply Z.mod_pos_bound. zlia. Qed.

Lemma PGADDR_sum d t o :
  0 <= d -> 0 <= t < 1024 -> 0 <= o < 4096 ->
  PGADDR d t o = 4194304 * d + 4096 * t + o.
Proof.
  intros Hd Ht Ho. unfold PGADDR, PDXSHIFT, PTXSHIFT.
  rewrite !Z.shiftl_mul_pow2 by zlia.
  rewrite (lor_add_low _ (t * 2 ^ 12) 22) by zlia.
  rewrite (lor_add_low _ o 12) by zlia. zlia.
Qed.

(** A linear address is put together again from its three parts. *)
Lemma PGADDR_parts la :
  0 <= la < 0x100000000 -> PGADDR (PDX la) (PTX la) (PGOFF la) = la.
Proof.
  intros Hla. rewrite PDX_div, PTX_div, PGOFF_mod, PGADDR_sum by zlia. zlia.
Qed.

Lemma PDX_PGADDR d t o :
  0 <= d < 1024 -> 0 <= t < 1024 -> 0 <= o < 4096 -> PDX (PGADDR d t o) = d.
Proof. intros. rewrite PDX_div, PGADDR_sum by zlia. zlia. Qed.

Lemma PTX_PGADDR d t o :
  0 <= d < 1024 -> 0 <= t < 1024 -> 0 <= o < 4096 -> PTX (PGADDR d t o) = t.
Proof. intros. rewrite PTX_div, PGADDR_sum by zlia. zlia. Qed.

(** Two addresses with the same directory and table index lie in one page. *)
Lemma same_page_iff a b :
  0 <= a < 0x100000000 -> 0 <= b < 0x100000000 ->
  PDX a = PDX b /\ PTX a = PTX b <-> a / 4096 = b / 4096.
Proof. intros Ha Hb. rewrite !PDX_div, !PTX_div. zlia. Qed.

(** The address and the flags of an entry can be taken apart again. *)
Lemma PTE_ADDR_make f perm :
  0 <= f -> 0 <= perm < 4096 -> PTE_ADDR ((4096 * f .| perm) .| PTE_P) = 4096 * f.
Proof.
  intros Hf Hp. rewrite <- Z.lor_assoc, (lor_add_low _ (perm .| PTE_P) 12).
  - rewrite PTE_ADDR_div. assert (0 <= perm .| PTE_P < 2 ^ 12).
    { apply lor_range; unfold PTE_P; zlia. } zlia.
  - zlia.
  - zlia.
  - apply lor_range; unfold PTE_P; zlia.
Qed.

(** The low bits of an entry decide its flags. *)
Lemma land_mod e p : 0 <= p < 4096 -> e .& p = (e mod 4096) .& p.
Proof.
  intros Hp. change 4096 with (2 ^ 12). rewrite <- Z.land_ones by lia.
  rewrite <- Z.land_assoc, (Z.land_comm (Z.ones 12)), Z.land_ones, Z.mod_small by lia. done.
Qed.
Lemma has_mod e p : 0 <= p < 4096 -> has e p = has (e mod 4096) p.
Proof. intros Hp. unfold has. by rewrite land_mod. Qed.

Lemma ROUNDDOWN_spec a n :
  0 <= a < 0x100000000 -> 0 < n ->
  ROUNDDOWN a n <= a < ROUNDDOWN a n + n /\ ROUNDDOWN a n mod n = 0 /\ 0 <= ROUNDDOWN a n.
Proof.
  intros Ha Hn. unfold ROUNDDOWN. rewrite u32_small by zlia.
  pose proof (Z.mod_pos_bound a n Hn) as Hm. pose proof (Z.mod_le a n ltac:(zlia) Hn).
  split; [zlia|]. split; [|zlia].
  rewrite Zminus_mod_idemp_r, Z.sub_diag. by apply Z.mod_0_l; zlia.
Qed.

(** Rounding up is exact as long as [a + n - 1] does not wrap. *)
Lemma ROUNDUP_spec a n :
  0 <= a -> 0 < n -> a + n - 1 < 0x100000000 ->
  a <= ROUNDUP a n < a + n /\ ROUNDUP a n mod n = 0.
Proof.
  intros Ha Hn Hov. unfold ROUNDUP.
  rewrite (u32_small a), (u32_small (a + n - 1)) by zlia.
  pose proof (ROUNDDOWN_spec (a + n - 1) n ltac:(zlia) Hn). zlia.
Qed.

Lemma gate_off_SETGATE istrap sel off dpl :
  0 <= off < 0x100000000 -> gate_off (SETGATE istrap sel off dpl) = off.
Proof.
  intros Hoff. unfold gate_off, SETGATE. cbn [gd_off_31_16 gd_off_15_0].
  change 0xffff with (Z.ones 16). rewrite Z.land_ones, Z.shiftr_div_pow2 by zlia.
  rewrite Z.shiftl_mul_pow2 by zlia. rewrite (lor_add_low _ _ 16) by zlia. zlia.
Qed.
