(* ===== verification/Mem.v ===== *)
(** * Byte-addressed memory

    The memory the C code and the processor share: bytes at integer addresses,
    32-bit words in little-endian order, and the block operations.  A byte that
    was never written reads as 0. *)
From S2P Require Import Prelude.

Abbreviation bytemem := (gmap Z Z).

Definition load8 (m : bytemem) (a : Z) : Z := default 0 (m !! a).
Definition store8 (m : bytemem) (a v : Z) : bytemem := <[a := u8 v]> m.

Definition load32 (m : bytemem) (a : Z) : Z :=
  load8 m a + 0x100 * load8 m (a + 1) + 0x10000 * load8 m (a + 2) + 0x1000000 * load8 m (a + 3).
Definition store32 (m : bytemem) (a v : Z) : bytemem :=
  store8 (store8 (store8 (store8 m a v) (a + 1) (v / 0x100)) (a + 2) (v / 0x10000))
    (a + 3) (v / 0x1000000).

(** [n] bytes equal to [c] from address [a]. *)
Definition fill (m : bytemem) (a c : Z) (n : nat) : bytemem :=
  foldr (fun x m => store8 m x c) m (range a n).

(** The bytes of [l] written from address [a]. *)
Fixpoint store_bytes (m : bytemem) (a : Z) (l : list Z) : bytemem :=
  match l with
  | [] => m
  | x :: l' => store_bytes (store8 m a x) (a + 1) l'
  end.

Definition load_bytes (m : bytemem) (a : Z) (n : nat) : list Z :=
  map (load8 m) (range a n).

(** Memory whose bytes are bytes. *)
Definition mem_ok (m : bytemem) : Prop := forall a, 0 <= load8 m a < 256.

(** ** Lemmas *)

Lemma load8_store8_eq m a v : load8 (store8 m a v) a = u8 v.
Proof. unfold load8, store8. by rewrite lookup_insert_eq. Qed.

Lemma load8_store8_ne m a b v : a <> b -> load8 (store8 m a v) b = load8 m b.
Proof. intros. unfold load8, store8. by rewrite lookup_insert_ne. Qed.

Lemma load8_store8 m a b v :
  load8 (store8 m a v) b = if decide (a = b) then u8 v else load8 m b.
Proof. case_decide; [subst; apply load8_store8_eq | by apply load8_store8_ne]. Qed.

Lemma load32_store32_eq m a v : load32 (store32 m a v) a = u32 v.
Proof.
  unfold load32, store32. rewrite !load8_store8. repeat case_decide; try lia.
  unfold u8, u32. lia.
Qed.

(** Words that do not overlap are independent. *)
Lemma load32_store32_ne m a b v :
  a + 4 <= b \/ b + 4 <= a -> load32 (store32 m a v) b = load32 m b.
Proof.
  intros. unfold load32, store32. rewrite !load8_store8. by repeat (case_decide; [lia|]).
Qed.

Lemma load8_store32_ne m a b v :
  b < a \/ a + 4 <= b -> load8 (store32 m a v) b = load8 m b.
Proof. intros. unfold store32. rewrite !load8_store8. by repeat (case_decide; [lia|]). Qed.

Lemma load8_fill m a c n b :
  load8 (fill m a c n) b =
    if decide (a <= b < a + Z.of_nat n) then u8 c else load8 m b.
Proof.
  unfold fill. assert (H : forall l,
    load8 (foldr (fun x m => store8 m x c) m l) b = if decide (b ∈ l) then u8 c else load8 m b).
  { induction l as [|x l IH]; cbn [foldr].
    - case_decide; set_solver.
    - rewrite load8_store8, IH. repeat case_decide; set_solver. }
  rewrite H. unfold range.
  destruct (decide (b ∈ seqZ a (Z.of_nat n))) as [Hin|Hin]; rewrite elem_of_seqZ in Hin;
    case_decide; lia || done.
Qed.

Lemma load32_fill0_in m a n b :
  a <= b -> b + 4 <= a + Z.of_nat n -> load32 (fill m a 0 n) b = 0.
Proof. intros. unfold load32. rewrite !load8_fill, !decide_True by lia. done. Qed.

Lemma load32_fill_out m a c n b :
  b + 4 <= a \/ a + Z.of_nat n <= b -> load32 (fill m a c n) b = load32 m b.
Proof. intros. unfold load32. by rewrite !load8_fill, !decide_False by lia. Qed.

Lemma load8_store_bytes m a l b :
  load8 (store_bytes m a l) b =
    if decide (a <= b < a + Z.of_nat (length l))
    then u8 (default 0 (l !! Z.to_nat (b - a))) else load8 m b.
Proof.
  revert m a. induction l as [|x l IH]; intros m a; simpl.
  - rewrite decide_False; [done|lia].
  - rewrite IH, load8_store8. repeat case_decide; try lia; try done.
    + f_equal. replace (Z.to_nat (b - a)) with (S (Z.to_nat (b - (a + 1)))) by lia. done.
    + subst. by rewrite Z.sub_diag.
Qed.

Lemma length_load_bytes m a n : length (load_bytes m a n) = n.
Proof. unfold load_bytes, range. rewrite length_map, length_seqZ. lia. Qed.

Lemma load_bytes_lookup m a n i :
  (i < n)%nat -> load_bytes m a n !! i = Some (load8 m (a + Z.of_nat i)).
Proof.
  intros Hi. unfold load_bytes, range. rewrite list_lookup_fmap, lookup_seqZ_lt by lia. done.
Qed.

Lemma mem_ok_empty : mem_ok ∅.
Proof. intros a. unfold load8. rewrite lookup_empty. simpl. lia. Qed.

Lemma mem_ok_store8 m a v : mem_ok m -> mem_ok (store8 m a v).
Proof. intros Hm b. rewrite load8_store8. case_decide; [apply u8_range | apply Hm]. Qed.

Lemma mem_ok_store32 m a v : mem_ok m -> mem_ok (store32 m a v).
Proof. intros Hm. unfold store32. by repeat apply mem_ok_store8. Qed.

Lemma mem_ok_fill m a c n : mem_ok m -> mem_ok (fill m a c n).
Proof. intros Hm b. rewrite load8_fill. case_decide; [apply u8_range | apply Hm]. Qed.

Lemma load32_range m a : mem_ok m -> 0 <= load32 m a < 0x100000000.
Proof.
  intros Hm. unfold load32.
  pose proof (Hm a). pose proof (Hm (a + 1)). pose proof (Hm (a + 2)). pose proof (Hm (a + 3)).
  lia.
Qed.

#[export] Hint Resolve mem_ok_store8 mem_ok_store32 mem_ok_fill : jos.

#[global] Arguments fill : simpl never.
#[global] Strategy 1000 [fill].

(** ** Blocks of bytes *)

Lemma lookup_store_bytes m a l b :
  store_bytes m a l !! b =
    if decide (a <= b < a + Z.of_nat (length l))
    then Some (u8 (default 0 (l !! Z.to_nat (b - a)))) else m !! b.
Proof.
  revert m a. induction l as [|x l IH]; intros m a; simpl.
  - rewrite decide_False; [done|lia].
  - rewrite IH. unfold store8. rewrite lookup_insert. repeat case_decide; try lia; try done.
    + do 2 f_equal. replace (Z.to_nat (b - a)) with (S (Z.to_nat (b - (a + 1)))) by lia. done.
    + subst. by rewrite Z.sub_diag.
Qed.

Lemma store_bytes_app m a l1 l2 :
  store_bytes m a (l1 ++ l2) = store_bytes (store_bytes m a l1) (a + Z.of_nat (length l1)) l2.
Proof.
  revert m a. induction l1 as [|x l1 IH]; intros m a; simpl; [f_equal; lia|].
  rewrite IH. f_equal. lia.
Qed.

(** Blocks one after the other can be written in either order. *)
Lemma store_bytes_app_rev m a l1 l2 :
  store_bytes (store_bytes m (a + Z.of_nat (length l1)) l2) a l1 = store_bytes m a (l1 ++ l2).
Proof.
  apply map_eq. intros b. rewrite store_bytes_app, !lookup_store_bytes.
  repeat case_decide; lia || done.
Qed.

Lemma load_bytes_app m a n k :
  load_bytes m a (n + k) = load_bytes m a n ++ load_bytes m (a + Z.of_nat n) k.
Proof.
  unfold load_bytes, range. rewrite Nat2Z.inj_add, seqZ_app by lia. by rewrite map_app.
Qed.

Lemma load_bytes_ext m m' a n :
  (forall b, a <= b < a + Z.of_nat n -> load8 m b = load8 m' b) -> load_bytes m a n = load_bytes m' a n.
Proof.
  intros H. unfold load_bytes, range. apply map_ext_in. intros b Hb%list_elem_of_In%elem_of_seqZ.
  by apply H.
Qed.

Lemma store32_load32 m m' d s :
  mem_ok m' -> store32 m d (load32 m' s) = store_bytes m d (load_bytes m' s 4).
Proof.
  intros Hm. unfold store32, load32, load_bytes, range.
  replace (seqZ s (Z.of_nat 4)) with [s; s + 1; s + 2; s + 3]
    by (unfold seqZ; simpl; do 4 (f_equal; try lia)).
  simpl. pose proof (Hm s). pose proof (Hm (s + 1)). pose proof (Hm (s + 2)). pose proof (Hm (s + 3)).
  replace (d + 1 + 1) with (d + 2) by lia. replace (d + 2 + 1) with (d + 3) by lia.
  unfold store8. repeat (f_equal; try (unfold u8; lia)).
Qed.

Lemma mem_ok_store_bytes m a l : mem_ok m -> mem_ok (store_bytes m a l).
Proof. revert m a. induction l as [|x l IH]; intros m a Hm; simpl; [done|]. by apply IH, mem_ok_store8. Qed.

Lemma fill_store_bytes m a c n : fill m a c n = store_bytes m a (replicate n c).
Proof.
  apply map_eq. intros b. rewrite lookup_store_bytes, length_replicate.
  assert (H : forall l, foldr (fun x m => store8 m x c) m l !! b = if decide (b ∈ l) then Some (u8 c) else m !! b).
  { induction l as [|x l IH]; cbn [foldr].
    - case_decide; set_solver.
    - unfold store8 at 1. rewrite lookup_insert, IH. repeat case_decide; set_solver. }
  unfold fill. rewrite H. unfold range.
  destruct (decide (b ∈ seqZ a (Z.of_nat n))) as [Hin|Hin]; rewrite elem_of_seqZ in Hin;
    case_decide as Hd; try lia; [|done].
  by rewrite lookup_replicate_2 by lia.
Qed.
