(* ===== verification/Console.v ===== *)
(** * kern/console.c: console input and output

    The circular input buffer fed by the serial port and the keyboard, the
    keyboard state machine, the serial and parallel output loops and the CGA
    text screen.  The devices are the inputs of the model: the bytes waiting in
    the serial port and in the keyboard controller are lists in the state, the
    status registers polled by the output loops are functions of the number of
    the poll. *)
From S2P Require Import Prelude Mmu.

(** ** Constants (inc/kbdreg.h, kern/console.h, kern/console.c) *)
Definition COM1 : Z := 0x3F8.
Definition COM_TX : Z := 0.
Definition COM_DLL : Z := 0.
Definition COM_DLM : Z := 1.
Definition COM_IER : Z := 1.
Definition COM_FCR : Z := 2.
Definition COM_LCR : Z := 3.
Definition COM_MCR : Z := 4.
Definition COM_LSR_TXRDY : Z := 0x20.
Definition COM_LCR_DLAB : Z := 0x80.
Definition COM_LCR_WLEN8 : Z := 0x03.
Definition COM_IER_RDI : Z := 0x01.
Definition CGA_BASE : Z := 0x3D4.
Definition MONO_BASE : Z := 0x3B4.
Definition CRT_ROWS : Z := 25.
Definition CRT_COLS : Z := 80.
Definition CRT_SIZE : Z := CRT_ROWS * CRT_COLS.
Definition CONSBUFSIZE : Z := 512.

Definition SHIFT : Z := 1.
Definition CTL : Z := 2.
Definition ALT : Z := 4.
Definition CAPSLOCK : Z := 8.
Definition NUMLOCK : Z := 16.
Definition SCROLLLOCK : Z := 32.
Definition E0ESC : Z := 64.
Definition KEY_DEL : Z := 0xE9.

(** ** Scan code tables *)

Definition shiftcode (d : Z) : Z :=
  match d with
  | 0x1D => CTL | 0x2A => SHIFT | 0x36 => SHIFT | 0x38 => ALT | 0x9D => CTL | 0xB8 => ALT
  | _ => 0
  end.

Definition togglecode (d : Z) : Z :=
  match d with 0x3A => CAPSLOCK | 0x45 => NUMLOCK | 0x46 => SCROLLLOCK | _ => 0 end.

(** The named entries the three maps share (the first one differs). *)
Definition special_key (d : Z) : Z :=
  match d with
  | 0xC8 => 0xE2 (* KEY_UP *) | 0xC9 => 0xE6 (* KEY_PGUP *) | 0xCB => 0xE4 (* KEY_LF *)
  | 0xCD => 0xE5 (* KEY_RT *) | 0xCF => 0xE1 (* KEY_END *) | 0xD0 => 0xE3 (* KEY_DN *)
  | 0xD1 => 0xE7 (* KEY_PGDN *) | 0xD2 => 0xE8 (* KEY_INS *) | 0xD3 => KEY_DEL
  | _ => 0
  end.

Definition normal_row : list Z :=
  [0; 0x1B; 49; 50; 51; 52; 53; 54;   55; 56; 57; 48; 45; 61; 8; 9;
   113; 119; 101; 114; 116; 121; 117; 105;   111; 112; 91; 93; 10; 0; 97; 115;
   100; 102; 103; 104; 106; 107; 108; 59;   39; 96; 0; 92; 122; 120; 99; 118;
   98; 110; 109; 44; 46; 47; 0; 42;   0; 32; 0; 0; 0; 0; 0; 0;
   0; 0; 0; 0; 0; 0; 0; 55;   56; 57; 45; 52; 53; 54; 43; 49;
   50; 51; 48; 46; 0; 0; 0; 0].

Definition normalmap (d : Z) : Z :=
  if d <? 88 then normal_row !!! Z.to_nat d else
  match d with 0xC7 => 0xE0 | 0x9C => 10 | 0xB5 => 47 | _ => special_key d end.

Definition shift_row : list Z :=
  [0; 27; 33; 64; 35; 36; 37; 94;   38; 42; 40; 41; 95; 43; 8; 9;
   81; 87; 69; 82; 84; 89; 85; 73;   79; 80; 123; 125; 10; 0; 65; 83;
   68; 70; 71; 72; 74; 75; 76; 58;   34; 126; 0; 124; 90; 88; 67; 86;
   66; 78; 77; 60; 62; 63; 0; 42;   0; 32; 0; 0; 0; 0; 0; 0;
   0; 0; 0; 0; 0; 0; 0; 55;   56; 57; 45; 52; 53; 54; 43; 49;
   50; 51; 48; 46; 0; 0; 0; 0].

Definition shiftmap (d : Z) : Z :=
  if d <? 88 then shift_row !!! Z.to_nat d else
  match d with 0xC7 => 0xE0 | 0x9C => 10 | 0xB5 => 47 | _ => special_key d end.

(** [C(x) = x - '@'], stored in an unsigned byte. *)
Definition Cc (x : Z) : Z := u8 (x - 64).

Definition ctl_row : list Z :=
  [0; 0; 0; 0; 0; 0; 0; 0;   0; 0; 0; 0; 0; 0; 0; 0;
   Cc 81; Cc 87; Cc 69; Cc 82; Cc 84; Cc 89; Cc 85; Cc 73;
   Cc 79; Cc 80; 0; 0; 13; 0; Cc 65; Cc 83;
   Cc 68; Cc 70; Cc 71; Cc 72; Cc 74; Cc 75; Cc 76; 0;
   0; 0; 0; Cc 92; Cc 90; Cc 88; Cc 67; Cc 86;
   Cc 66; Cc 78; Cc 77; 0; 0; Cc 47; 0; 0].

Definition ctlmap (d : Z) : Z :=
  if d <? 56 then ctl_row !!! Z.to_nat d else
  match d with 0x97 => 0xE0 | 0xB5 => Cc 47 | _ => special_key d end.

(** [charcode[shift & (CTL | SHIFT)][d]] *)
Definition charcode (s d : Z) : Z :=
  match s with 0 => normalmap d | 1 => shiftmap d | _ => ctlmap d end.

(** ** State *)

Record constate := mkcon {
  serial_exists : bool;
  serial_in : list Z;             (** bytes the serial port will deliver *)
  kbd_in : list (bool * Z);       (** keyboard controller: (from the mouse, data) *)
  kbd_shift : Z;                  (** the static [shift] of kbd_proc_data *)
  cons_buf : list Z;
  cons_rpos : Z;
  cons_wpos : Z;
  color : Z;                      (** the attribute printfmt.c leaves behind *)
  addr_6845 : Z;
  crt_buf : list Z;
  crt_pos : Z;
  ports : list (Z * Z) }.         (** outb(port, value), oldest first *)

Definition set_serial_exists v st := mkcon v (serial_in st) (kbd_in st) (kbd_shift st)
  (cons_buf st) (cons_rpos st) (cons_wpos st) (color st) (addr_6845 st) (crt_buf st) (crt_pos st) (ports st).
Definition set_serial_in v st := mkcon (serial_exists st) v (kbd_in st) (kbd_shift st)
  (cons_buf st) (cons_rpos st) (cons_wpos st) (color st) (addr_6845 st) (crt_buf st) (crt_pos st) (ports st).
Definition set_kbd v w st := mkcon (serial_exists st) (serial_in st) v w
  (cons_buf st) (cons_rpos st) (cons_wpos st) (color st) (addr_6845 st) (crt_buf st) (crt_pos st) (ports st).
Definition set_ring b r w st := mkcon (serial_exists st) (serial_in st) (kbd_in st) (kbd_shift st)
  b r w (color st) (addr_6845 st) (crt_buf st) (crt_pos st) (ports st).
Definition set_crt a b p st := mkcon (serial_exists st) (serial_in st) (kbd_in st) (kbd_shift st)
  (cons_buf st) (cons_rpos st) (cons_wpos st) (color st) a b p (ports st).
Definition outb (p v : Z) st := mkcon (serial_exists st) (serial_in st) (kbd_in st) (kbd_shift st)
  (cons_buf st) (cons_rpos st) (cons_wpos st) (color st) (addr_6845 st) (crt_buf st) (crt_pos st)
  (ports st ++ [(p, u8 v)]).

(** ** Console input *)

(** [serial_proc_data]: -1 when the port has no data. *)
Definition serial_proc_data (st : constate) : Z * constate :=
  match serial_in st with
  | [] => (-1, st)
  | b :: rest => (u8 b, set_serial_in rest st)
  end.

(** The last part of [kbd_proc_data], once the scan code is complete. *)
Definition kbd_translate (shift data : Z) : Z * Z :=
  let shift := shift .| shiftcode data in
  let shift := Z.lxor shift (togglecode data) in
  let c := charcode (shift .& (CTL .| SHIFT)) data in
  let c := if has shift CAPSLOCK then
             if (97 <=? c) && (c <=? 122) then c + (65 - 97)
             else if (65 <=? c) && (c <=? 90) then c + (97 - 65) else c
           else c in
  (c, shift).

Definition kbd_proc_data (st : constate) : Z * constate :=
  match kbd_in st with
  | [] => (-1, st)
  | (true, _) :: _ => (-1, st)
  | (false, data) :: rest =>
      let shift := kbd_shift st in
      if data =? 0xE0 then (0, set_kbd rest (shift .| E0ESC) st)
      else if has data 0x80 then
        let data := if has shift E0ESC then data else data .& 0x7F in
        (0, set_kbd rest (shift .& Z.lnot (shiftcode data .| E0ESC)) st)
      else
        let '(data, shift) :=
          if has shift E0ESC then (data .| 0x80, shift .& Z.lnot E0ESC) else (data, shift) in
        let '(c, shift) := kbd_translate shift data in
        let st := set_kbd rest shift st in
        let st := if (Z.lnot shift .& (CTL .| ALT) =? 0) && (c =? KEY_DEL)
                  then outb 0x92 0x3 st else st in
        (c, st)
  end.

(** [cons.buf[cons.wpos++] = c; if (cons.wpos == CONSBUFSIZE) cons.wpos = 0] *)
Definition cons_put (c : Z) (st : constate) : constate :=
  let buf := <[Z.to_nat (cons_wpos st) := u8 c]> (cons_buf st) in
  let w := cons_wpos st + 1 in
  set_ring buf (cons_rpos st) (if w =? CONSBUFSIZE then 0 else w) st.

(** [cons_intr(proc)]: poll the device until it has no more data. *)
Fixpoint cons_intr (proc : constate -> Z * constate) (fuel : nat) (st : constate) : constate :=
  match fuel with
  | O => st
  | S fuel =>
      let '(c, st) := proc st in
      if c =? -1 then st
      else if c =? 0 then cons_intr proc fuel st
      else cons_intr proc fuel (cons_put c st)
  end.

Definition serial_intr (st : constate) : constate :=
  if serial_exists st then cons_intr serial_proc_data (S (length (serial_in st))) st else st.

Definition kbd_intr (st : constate) : constate :=
  cons_intr kbd_proc_data (S (length (kbd_in st))) st.

Definition cons_getc (st : constate) : Z * constate :=
  let st := serial_intr st in
  let st := kbd_intr st in
  if negb (cons_rpos st =? cons_wpos st) then
    let c := cons_buf st !!! Z.to_nat (cons_rpos st) in
    let r := cons_rpos st + 1 in
    (c, set_ring (cons_buf st) (if r =? CONSBUFSIZE then 0 else r) (cons_wpos st) st)
  else (0, st).

(** ** Console output *)

Section output.
(** The value of the [i]-th read of the line status register of the serial
    port and of the status register of the parallel port. *)
Context (lsr lpt : nat -> Z).

(** [for (i = 0; !ready && i < 12800; i++) delay();] from index [i]: the
    index at which the loop stops. *)
Fixpoint poll_wait (status : nat -> Z) (flag : Z) (fuel i : nat) : nat :=
  match fuel with
  | O => i
  | S fuel =>
      if negb (has (status i) flag) && (Z.of_nat i <? 12800)
      then poll_wait status flag fuel (S i) else i
  end.

Definition serial_wait : nat := poll_wait lsr COM_LSR_TXRDY (Z.to_nat 12801) 0.
Definition serial_putc (c : Z) (st : constate) : constate := outb (COM1 + COM_TX) c st.

Definition lpt_wait : nat := poll_wait lpt 0x80 (Z.to_nat 12801) 0.
Definition lpt_putc (c : Z) (st : constate) : constate :=
  outb (0x378 + 2) 0x08 (outb (0x378 + 2) ((0x08 .| 0x04) .| 0x01) (outb (0x378 + 0) c st)).

(** The scroll and the cursor at the end of [cga_putc]. *)
Definition cga_scroll (st : constate) : constate :=
  if crt_pos st >=? CRT_SIZE then
    set_crt (addr_6845 st)
      (drop (Z.to_nat CRT_COLS) (crt_buf st) ++ replicate (Z.to_nat CRT_COLS) (0x0700 .| 32))
      (u16 (crt_pos st - CRT_COLS)) st
  else st.
Definition cga_cursor (st : constate) : constate :=
  let a := addr_6845 st in
  outb (a + 1) (crt_pos st) (outb a 15 (outb (a + 1) (crt_pos st .>> 8) (outb a 14 st))).

(** The [switch] of [cga_putc] on the character [c] with the colour in; [tab]
    is what the five [cons_putc(' ')] of a tab do. *)
Definition cga_switch (tab : constate -> constate) (c : Z) (st : constate) : constate :=
  let low := c .& 0xff in
  let cr st := set_crt (addr_6845 st) (crt_buf st)
                 (u16 (crt_pos st - crt_pos st mod CRT_COLS)) st in
  if low =? 8 then
    if 0 <? crt_pos st then
      let p := crt_pos st - 1 in
      set_crt (addr_6845 st)
        (<[Z.to_nat p := u16 ((c .& Z.lnot 0xff) .| 32)]> (crt_buf st)) p st
    else st
  else if low =? 10 then
    cr (set_crt (addr_6845 st) (crt_buf st) (u16 (crt_pos st + CRT_COLS)) st)
  else if low =? 13 then cr st
  else if low =? 9 then tab st
  else set_crt (addr_6845 st) (<[Z.to_nat (crt_pos st) := u16 c]> (crt_buf st))
         (u16 (crt_pos st + 1)) st.

(** [cga_putc] and [cons_putc] for a character that is not a tab. *)
Definition cga_putc_plain (c : Z) (st : constate) : constate :=
  cga_cursor (cga_scroll (cga_switch id (c .| color st) st)).
Definition cons_putc_plain (c : Z) (st : constate) : constate :=
  cga_putc_plain c (lpt_putc c (serial_putc c st)).

Definition cga_putc (c : Z) (st : constate) : constate :=
  cga_cursor (cga_scroll (cga_switch (Nat.iter 5 (cons_putc_plain 32)) (c .| color st) st)).
Definition cons_putc (c : Z) (st : constate) : constate :=
  cga_putc c (lpt_putc c (serial_putc c st)).
Definition cputchar (c : Z) (st : constate) : constate := cons_putc c st.
End output.

(** [serial_init]; [lsr0] is the value of the line status register. *)
Definition serial_init (lsr0 : Z) (st : constate) : constate :=
  let st := outb (COM1 + COM_FCR) 0 st in
  let st := outb (COM1 + COM_LCR) COM_LCR_DLAB st in
  let st := outb (COM1 + COM_DLL) (115200 / 9600) st in
  let st := outb (COM1 + COM_DLM) 0 st in
  let st := outb (COM1 + COM_LCR) (COM_LCR_WLEN8 .& Z.lnot COM_LCR_DLAB) st in
  let st := outb (COM1 + COM_MCR) 0 st in
  let st := outb (COM1 + COM_IER) COM_IER_RDI st in
  set_serial_exists (negb (lsr0 =? 0xFF)) st.

(** [cga_init]: [cga] tells whether the word at CGA_BUF keeps what is written
    to it, [hi] and [lo] are the cursor registers, [screen] the text memory. *)
Definition cga_init (cga : bool) (hi lo : Z) (screen : list Z) (st : constate) : constate :=
  let a := if cga then CGA_BASE else MONO_BASE in
  let st := outb a 15 (outb a 14 st) in
  set_crt a screen (u16 ((hi .<< 8) .| lo)) st.

(** ** The input buffer as a bounded queue *)

Definition ring_ok (st : constate) : Prop :=
  length (cons_buf st) = 512%nat /\ 0 <= cons_rpos st < 512 /\ 0 <= cons_wpos st < 512.

(** The characters waiting, oldest first. *)
Definition qcontents (st : constate) : list Z :=
  map (fun i => cons_buf st !!! Z.to_nat ((cons_rpos st + i) mod 512))
      (seqZ 0 ((cons_wpos st - cons_rpos st) mod 512)).

(** What a device will feed into the buffer: the non-zero values it returns
    before it answers -1. *)
Fixpoint device_chars (proc : constate -> Z * constate) (fuel : nat) (st : constate) : list Z :=
  match fuel with
  | O => []
  | S fuel =>
      let '(c, st) := proc st in
      if c =? -1 then [] else
      if c =? 0 then device_chars proc fuel st else u8 c :: device_chars proc fuel st
  end.

Definition serial_chars (st : constate) : list Z :=
  if serial_exists st then device_chars serial_proc_data (S (length (serial_in st))) st else [].
Definition kbd_chars (st : constate) : list Z :=
  device_chars kbd_proc_data (S (length (kbd_in st))) st.

(** A device procedure leaves the buffer alone and is independent of it. *)
Class device (proc : constate -> Z * constate) (pending : constate -> nat) : Prop := {
  device_ring st b r w :
    proc (set_ring b r w st) = (fst (proc st), set_ring b r w (snd (proc st)));
  device_step st : fst (proc st) <> -1 -> (pending (snd (proc st)) < pending st)%nat;
  device_pending st b r w : pending (set_ring b r w st) = pending st;
  device_frame st : cons_buf (snd (proc st)) = cons_buf st /\
    cons_rpos (snd (proc st)) = cons_rpos st /\ cons_wpos (snd (proc st)) = cons_wpos st }.

Lemma set_ring_id st : set_ring (cons_buf st) (cons_rpos st) (cons_wpos st) st = st.
Proof. by destruct st. Qed.

#[export] Instance serial_device : device serial_proc_data (fun st => length (serial_in st)).
Proof.
  split; unfold serial_proc_data; intros st; try intros b r w; destruct st as [? [|x l]]; simpl; try done.
  intros _. lia.
Qed.

Ltac kbd_cases :=
  repeat (let E := fresh "E" in first
    [ match goal with |- context [if ?b then _ else _] => destruct b eqn:E end
    | match goal with |- context [let '(_, _) := ?b in _] => destruct b eqn:E end ]; simpl).

#[export] Instance kbd_device : device kbd_proc_data (fun st => length (kbd_in st)).
Proof.
  split; unfold kbd_proc_data; intros st; try intros b r w;
    destruct st as [? ? [|[[] d] l]]; simpl; try done; try lia; kbd_cases; try done; simpl; lia.
Qed.

Section drain.
Context (proc : constate -> Z * constate) (pending : constate -> nat) `{!device proc pending}.

(** The number of polls is bounded by what is pending: with that much fuel
    the loop of [cons_intr] has ended. *)
Lemma cons_intr_fuel n m st :
  (pending st < n)%nat -> (pending st < m)%nat -> cons_intr proc n st = cons_intr proc m st.
Proof.
  revert m st. induction n as [|n IH]; intros [|m] st Hn Hm; try lia. simpl.
  pose proof (device_step st) as Hs. destruct (proc st) as [c st'] eqn:E. simpl in Hs.
  destruct (Z.eqb_spec c (-1)); [done|]. specialize (Hs ltac:(done)).
  case_match; apply IH; unfold cons_put; rewrite ?device_pending; lia.
Qed.

Lemma device_chars_ring n st b r w :
  device_chars proc n (set_ring b r w st) = device_chars proc n st.
Proof.
  revert st. induction n as [|n IH]; intros st; [done|]. simpl.
  rewrite device_ring. destruct (proc st) as [c st']. simpl. by rewrite IH.
Qed.

Lemma qcontents_eq st st' :
  cons_buf st = cons_buf st' -> cons_rpos st = cons_rpos st' ->
  cons_wpos st = cons_wpos st' -> qcontents st = qcontents st'.
Proof. unfold qcontents. by intros -> -> ->. Qed.

Lemma length_qcontents st : length (qcontents st) = Z.to_nat ((cons_wpos st - cons_rpos st) mod 512).
Proof. unfold qcontents. by rewrite length_map, length_seqZ. Qed.

Lemma ring_ok_put c st : ring_ok st -> ring_ok (cons_put c st).
Proof.
  intros (Hl & Hr & Hw). unfold ring_ok, cons_put, CONSBUFSIZE. simpl.
  rewrite length_insert. case_match; lia.
Qed.

(** A character is appended while there is room for it. *)
Lemma qcontents_put c st :
  ring_ok st -> (length (qcontents st) < 511)%nat ->
  qcontents (cons_put c st) = qcontents st ++ [u8 c].
Proof.
  intros (Hl & Hr & Hw) Hlen. rewrite length_qcontents in Hlen.
  set (n := (cons_wpos st - cons_rpos st) mod 512) in *.
  assert (Hw' : (if cons_wpos st + 1 =? CONSBUFSIZE then 0 else cons_wpos st + 1)
                = (cons_wpos st + 1) mod 512).
  { unfold CONSBUFSIZE. destruct (Z.eqb_spec (cons_wpos st + 1) 512) as [->|]; [done|lia]. }
  unfold qcontents, cons_put. cbn [set_ring cons_buf cons_rpos cons_wpos]. rewrite Hw'.
  fold n. replace (((cons_wpos st + 1) mod 512 - cons_rpos st) mod 512) with (n + 1) by lia.
  rewrite seqZ_app by lia. rewrite map_app. f_equal.
  - apply map_ext_in. intros i Hi%list_elem_of_In%elem_of_seqZ.
    rewrite list_lookup_total_insert_ne; [done|]. lia.
  - assert (seqZ (0 + n) 1 = [n]) as -> by (rewrite seqZ_cons by lia; f_equal; lia).
    cbn [map]. replace ((cons_rpos st + n) mod 512) with (cons_wpos st) by lia.
    by rewrite list_lookup_total_insert_eq by lia.
Qed.

(** [cons_intr] appends what the device delivers, in order. *)
Lemma cons_intr_queue n st :
  ring_ok st -> (length (qcontents st) + length (device_chars proc n st) <= 511)%nat ->
  ring_ok (cons_intr proc n st) /\
  qcontents (cons_intr proc n st) = qcontents st ++ device_chars proc n st.
Proof.
  revert st. induction n as [|n IH]; intros st Hok; simpl.
  { by rewrite app_nil_r. }
  pose proof (device_frame st) as (Hb & Hr & Hw).
  destruct (proc st) as [c st'] eqn:E. simpl in Hb, Hr, Hw.
  assert (Hok' : ring_ok st') by (unfold ring_ok in *; by rewrite Hb, Hr, Hw).
  assert (Hq : qcontents st' = qcontents st) by (by apply qcontents_eq).
  destruct (Z.eqb_spec c (-1)); [by rewrite app_nil_r|].
  destruct (Z.eqb_spec c 0).
  - intros Hlen. rewrite <- Hq in Hlen |- *. by apply IH.
  - simpl. intros Hlen. rewrite <- Hq in Hlen |- *.
    assert (Hput : qcontents (cons_put c st') = qcontents st' ++ [u8 c])
      by (apply qcontents_put; [done|lia]).
    destruct (IH (cons_put c st')) as [? ->].
    + by apply ring_ok_put.
    + rewrite Hput, length_app. unfold cons_put. rewrite device_chars_ring. simpl. lia.
    + split; [done|]. rewrite Hput, <- app_assoc. simpl. do 2 f_equal.
      unfold cons_put. by rewrite device_chars_ring.
Qed.
End drain.

Lemma kbd_chars_indep n st st' :
  kbd_in st = kbd_in st' -> kbd_shift st = kbd_shift st' ->
  device_chars kbd_proc_data n st = device_chars kbd_proc_data n st'.
Proof.
  revert st st'. induction n as [|n IH]; intros st st' Hi Hs; [done|]. simpl.
  assert (H : fst (kbd_proc_data st) = fst (kbd_proc_data st') /\
    kbd_in (snd (kbd_proc_data st)) = kbd_in (snd (kbd_proc_data st')) /\
    kbd_shift (snd (kbd_proc_data st)) = kbd_shift (snd (kbd_proc_data st'))).
  { clear IH. destruct st, st' as [? ? l ? ? ? ? ? ? ? ? ?]. simpl in Hi, Hs. subst.
    unfold kbd_proc_data. destruct l as [|[[] d] l]; simpl; [done..|]. by kbd_cases. }
  destruct (kbd_proc_data st) as [c t], (kbd_proc_data st') as [c' t']. simpl in H.
  destruct H as (-> & ? & ?). by rewrite (IH t t').
Qed.

Lemma serial_intr_kbd n st :
  kbd_in (cons_intr serial_proc_data n st) = kbd_in st /\
  kbd_shift (cons_intr serial_proc_data n st) = kbd_shift st.
Proof.
  revert st. induction n as [|n IH]; intros st; [done|]. simpl.
  assert (H : kbd_in (snd (serial_proc_data st)) = kbd_in st /\
    kbd_shift (snd (serial_proc_data st)) = kbd_shift st).
  { unfold serial_proc_data. by destruct (serial_in st). }
  destruct (serial_proc_data st) as [c st']. simpl in H. destruct H as [<- <-].
  case_match; [done|]. case_match; by rewrite ?(proj1 (IH _)), ?(proj2 (IH _)).
Qed.

Lemma cons_buf_lookup0 st :
  ring_ok st -> (0 < length (qcontents st))%nat ->
  qcontents st =
    cons_buf st !!! Z.to_nat (cons_rpos st) ::
    qcontents (set_ring (cons_buf st)
      (if cons_rpos st + 1 =? CONSBUFSIZE then 0 else cons_rpos st + 1) (cons_wpos st) st).
Proof.
  intros (Hl & Hr & Hw) Hlen. rewrite length_qcontents in Hlen.
  assert ((if cons_rpos st + 1 =? CONSBUFSIZE then 0 else cons_rpos st + 1)
          = (cons_rpos st + 1) mod 512) as ->.
  { unfold CONSBUFSIZE. destruct (Z.eqb_spec (cons_rpos st + 1) 512) as [->|]; [done|lia]. }
  unfold qcontents. cbn [set_ring cons_buf cons_rpos cons_wpos].
  set (n := (cons_wpos st - cons_rpos st) mod 512) in *.
  rewrite seqZ_cons by lia. cbn [map]. f_equal; [f_equal; lia|].
  replace ((cons_wpos st - (cons_rpos st + 1) mod 512) mod 512) with (Z.pred n) by lia.
  assert (seqZ (Z.succ 0) (Z.pred n) = Z.add 1 <$> seqZ 0 (Z.pred n)) as ->
    by (by rewrite fmap_add_seqZ).
  change (@map Z Z) with (@fmap list _ Z Z). rewrite <- list_fmap_compose.
  apply list_fmap_ext. intros i x _. simpl. do 2 f_equal. lia.
Qed.

(** ** Properties *)

(** C39: [cons_getc] is a FIFO: while at most 511 characters are pending, it
    polls the serial port and the keyboard, returns the oldest pending
    character (0 if there is none) and leaves the others in order. *)
Theorem cons_getc_fifo (st : constate) :
  ring_ok st ->
  let pending := qcontents st ++ serial_chars st ++ kbd_chars st in
  (length pending <= 511)%nat ->
  let '(c, st') := cons_getc st in
  ring_ok st' /\ c = hd 0 pending /\ qcontents st' = tail pending.
Proof.
  intros Hok pending. subst pending. rewrite !length_app. intros Hlen.
  unfold cons_getc. set (st1 := serial_intr st).
  assert (H1 : ring_ok st1 /\ qcontents st1 = qcontents st ++ serial_chars st /\
               kbd_chars st1 = kbd_chars st).
  { unfold st1, serial_intr, serial_chars in *. destruct (serial_exists st).
    - destruct (cons_intr_queue serial_proc_data (fun st => length (serial_in st))
        (S (length (serial_in st))) st Hok) as [? Hq]; [simpl in *; lia|].
      split; [done|]. split; [done|]. unfold kbd_chars.
      destruct (serial_intr_kbd (S (length (serial_in st))) st) as [Hi Hs].
      rewrite Hi. by apply kbd_chars_indep.
    - by rewrite app_nil_r. }
  destruct H1 as (Hok1 & Hq1 & Hk1).
  destruct (cons_intr_queue kbd_proc_data (fun st => length (kbd_in st))
    (S (length (kbd_in st1))) st1 Hok1) as [Hok2 Hq2].
  { rewrite Hq1, length_app. change (device_chars kbd_proc_data _ st1) with (kbd_chars st1).
    rewrite Hk1. lia. }
  fold (kbd_intr st1) in Hok2, Hq2. change (device_chars kbd_proc_data _ st1) with (kbd_chars st1) in Hq2.
  rewrite Hk1, Hq1, <- app_assoc in Hq2. set (st2 := kbd_intr st1) in *. rewrite <- Hq2.
  pose proof Hok2 as (Hl & Hr & Hw). pose proof (length_qcontents st2) as Hlq.
  destruct (Z.eqb_spec (cons_rpos st2) (cons_wpos st2)) as [Heq|Hne]; simpl.
  - rewrite Heq, Z.sub_diag in Hlq. by destruct (qcontents st2).
  - split; [unfold ring_ok, CONSBUFSIZE; simpl; case_match; lia|].
    rewrite (cons_buf_lookup0 st2) by (try done; lia). done.
Qed.

(** The ring holds 511 characters and no more: when 511 are pending, the
    next character makes the whole buffer look empty, so that all 512 of them
    are lost. *)
Theorem cons_put_overflow (st : constate) c :
  ring_ok st -> length (qcontents st) = 511%nat -> qcontents (cons_put c st) = [].
Proof.
  intros (Hl & Hr & Hw) Hlen. rewrite length_qcontents in Hlen. apply nil_length_inv.
  rewrite length_qcontents. unfold cons_put, CONSBUFSIZE. simpl. case_match; lia.
Qed.

(** The screen: 25 x 80 cells, the cursor on one of them. *)
Definition cga_ok (st : constate) : Prop :=
  length (crt_buf st) = 2000%nat /\ 0 <= crt_pos st < CRT_SIZE.

Lemma cga_scroll_ok st :
  length (crt_buf st) = 2000%nat -> 0 <= crt_pos st < CRT_SIZE + CRT_COLS ->
  cga_ok (cga_scroll st).
Proof.
  unfold cga_ok, cga_scroll, CRT_SIZE, CRT_ROWS, CRT_COLS. intros Hl Hp.
  destruct (Z.geb_spec (crt_pos st) (25 * 80)) as [Hge|Hlt]; [|lia].
  cbn [set_crt crt_buf crt_pos]. rewrite length_app, length_drop, length_replicate, Hl.
  rewrite u16_small by lia. lia.
Qed.

Lemma cga_switch_ok tab c st :
  (forall st, cga_ok st -> cga_ok (tab st)) -> cga_ok st ->
  length (crt_buf (cga_switch tab c st)) = 2000%nat /\
  0 <= crt_pos (cga_switch tab c st) < CRT_SIZE + CRT_COLS.
Proof.
  intros Htab Hok. pose proof Hok as [Hl Hp]. unfold cga_switch.
  pose proof (Htab st Hok) as [Hl' Hp'].
  unfold CRT_SIZE, CRT_ROWS, CRT_COLS in *.
  repeat case_match; cbn [set_crt crt_buf crt_pos]; rewrite ?length_insert;
    rewrite ?(u16_small (crt_pos st + 80)), ?u16_small by lia; lia.
Qed.

Lemma cga_cursor_ok st : cga_ok st -> cga_ok (cga_cursor st).
Proof. done. Qed.

Lemma cga_iter_ok n c st : cga_ok st -> cga_ok (Nat.iter n (cons_putc_plain c) st).
Proof.
  intros Hok. induction n as [|n IH]; [done|]. simpl. unfold cons_putc_plain, cga_putc_plain.
  apply cga_cursor_ok, cga_scroll_ok; apply cga_switch_ok; done.
Qed.

(** Whatever character is printed, the cursor stays on the screen and no
    write falls outside the 2000 cells; a printable character is stored, with the
    attribute, under the old cursor, and the screen scrolls by one row exactly
    when the cursor would leave it. *)
Theorem cga_putc_screen (c : Z) (st : constate) :
  cga_ok st ->
  cga_ok (cga_putc c st) /\
  let low := (c .| color st) .& 0xff in
  (low <> 8 -> low <> 9 -> low <> 10 -> low <> 13 ->
   let written := <[Z.to_nat (crt_pos st) := u16 (c .| color st)]> (crt_buf st) in
   if crt_pos st =? CRT_SIZE - 1
   then crt_buf (cga_putc c st) = drop 80 written ++ replicate 80 0x0720 /\
        crt_pos (cga_putc c st) = CRT_SIZE - CRT_COLS
   else crt_buf (cga_putc c st) = written /\ crt_pos (cga_putc c st) = crt_pos st + 1).
Proof.
  intros Hok. split.
  { unfold cga_putc. apply cga_cursor_ok, cga_scroll_ok;
      apply cga_switch_ok; try done; intros; by apply cga_iter_ok. }
  intros low H8 H9 H10 H13 written. pose proof Hok as [Hl Hp].
  unfold cga_putc, cga_switch. fold low.
  destruct (Z.eqb_spec low 8), (Z.eqb_spec low 10), (Z.eqb_spec low 13), (Z.eqb_spec low 9); try done.
  fold written. unfold cga_scroll. cbn [set_crt crt_pos crt_buf].
  unfold CRT_SIZE, CRT_ROWS, CRT_COLS in *. rewrite u16_small by lia.
  destruct (Z.eqb_spec (crt_pos st) (25 * 80 - 1)) as [Heq|Hne].
  - rewrite Heq. simpl. done.
  - destruct (Z.geb_spec (crt_pos st + 1) (25 * 80)); [lia|]. done.
Qed.

(** The five spaces a tab stands for never reach the tab case again,
    whatever the colour: the recursion through [cons_putc] has depth one. *)
Theorem cga_tab_depth (st : constate) (k : constate -> constate) :
  cga_switch k (32 .| color st) st = cga_switch id (32 .| color st) st.
Proof.
  unfold cga_switch. assert (H : (32 .| color st) .& 0xff <> 9).
  { intros H. apply (f_equal (fun z => Z.testbit z 5)) in H.
    by rewrite Z.land_spec, Z.lor_spec in H. }
  apply Z.eqb_neq in H. by rewrite H.
Qed.

(** The loop that waits for the serial or the parallel port delays at most
    12800 times, and it stops early only because the port is ready. *)
Theorem poll_wait_bound (status : nat -> Z) (flag : Z) :
  let n := poll_wait status flag (Z.to_nat 12801) 0 in
  Z.of_nat n <= 12800 /\ (has (status n) flag = true \/ Z.of_nat n = 12800).
Proof.
  assert (H : forall fuel i, Z.of_nat i + Z.of_nat fuel = 12801 ->
    let n := poll_wait status flag fuel i in
    fuel <> O -> Z.of_nat n <= 12800 /\ (has (status n) flag = true \/ Z.of_nat n = 12800)).
  { induction fuel as [|fuel IH]; intros i Hi n Hf; [done|]. subst n. simpl.
    destruct (has (status i) flag) eqn:Eh; simpl; [split; [lia|by left]|].
    destruct (Z.ltb_spec (Z.of_nat i) 12800); [|split; [lia|right; lia]].
    apply IH; lia. }
  apply (H (Z.to_nat 12801) O); lia.
Qed.

(** ** A concrete console: two characters on the serial line, one key pressed,
    nothing pending. *)
Definition example_con : constate :=
  mkcon true [97; 98] [(false, 0x1E)] 0 (replicate 512 0) 7 7 0 CGA_BASE (replicate 2000 0x0720) 1999 [].

Lemma cons_getc_fifo_witness :
  let '(c, st') := cons_getc example_con in ring_ok st' /\ c = 97 /\ qcontents st' = [98; 97].
Proof.
  assert (Hok : ring_ok example_con) by (split; [reflexivity|vm_compute; repeat split; discriminate]).
  assert (Hlen : (length (qcontents example_con ++ serial_chars example_con ++ kbd_chars example_con) <= 511)%nat)
    by (vm_compute; lia).
  exact (cons_getc_fifo example_con Hok Hlen).
Defined.

Lemma cons_put_overflow_witness : qcontents (cons_put 65 (set_ring (replicate 512 0) 1 0 example_con)) = [].
Proof. apply cons_put_overflow; [split; [reflexivity|vm_compute; repeat split; discriminate]|reflexivity]. Defined.

Lemma cga_putc_screen_witness :
  cga_ok (cga_putc 65 example_con) /\ crt_pos (cga_putc 65 example_con) = 1920.
Proof.
  assert (Hok : cga_ok example_con) by (split; [reflexivity|vm_compute; split; [discriminate|reflexivity]]).
  pose proof (cga_putc_screen 65 example_con Hok) as [H H']. split; [exact H|].
  apply H'; vm_compute; discriminate.
Defined.
