(* ===== verification/Kstate.v ===== *)
(** * Kernel state and control flow

    The records of the kernel's C structures, the state of the whole kernel as
    one record, and the monad the kernel code is written in.  A pointer into
    one of the global arrays ([pages], [envs], [cpus]) is the index of its
    element, [None] is the null pointer; a [pte_t *] or [pde_t *] is a kernel
    virtual address; every scalar is the integer the C variable holds.

    A kernel function either returns or ends the kernel's run on this CPU: by a
    panic, by [iret] into an environment, by [hlt], by entering the monitor, by
    spinning on the big lock, or by an access the C code does not check for
    (a null or out-of-range pointer, an unmapped address). *)
From S2P Require Import Prelude Mmu Mem Console.

(** ** inc/trap.h *)
Record PushRegs := mkRegs {
  reg_edi : Z; reg_esi : Z; reg_ebp : Z; reg_oesp : Z;
  reg_ebx : Z; reg_edx : Z; reg_ecx : Z; reg_eax : Z }.

Record Trapframe := mkTf {
  tf_regs : PushRegs; tf_es : Z; tf_ds : Z; tf_trapno : Z; tf_err : Z; tf_eip : Z;
  tf_cs : Z; tf_eflags : Z; tf_esp : Z; tf_ss : Z }.

Record UTrapframe := mkUtf {
  utf_fault_va : Z; utf_err : Z; utf_regs : PushRegs; utf_eip : Z; utf_eflags : Z;
  utf_esp : Z }.

Definition regs_zero : PushRegs := mkRegs 0 0 0 0 0 0 0 0.
Definition tf_zero : Trapframe := mkTf regs_zero 0 0 0 0 0 0 0 0 0.

(** ** inc/memlayout.h *)
Record PageInfo := mkPage { pp_link : option Z; pp_ref : Z }.

(** ** inc/env.h *)
Definition ENV_FREE : Z := 0.
Definition ENV_DYING : Z := 1.
Definition ENV_RUNNABLE : Z := 2.
Definition ENV_RUNNING : Z := 3.
Definition ENV_NOT_RUNNABLE : Z := 4.
Definition ENV_TYPE_USER : Z := 0.
Definition LOG2NENV : Z := 10.
Definition NENV : Z := 1 .<< LOG2NENV.
Definition ENVX (envid : Z) : Z := envid .& (NENV - 1).

Record Env := mkEnv {
  env_tf : Trapframe; env_link : option Z; env_id : Z; env_parent_id : Z;
  env_type : Z; env_status : Z; env_runs : Z; env_cpunum : Z; env_pgdir : Z;
  env_pgfault_upcall : Z; env_ipc_recving : bool; env_ipc_dstva : Z;
  env_ipc_value : Z; env_ipc_from : Z; env_ipc_perm : Z }.

(** ** kern/cpu.h and kern/spinlock.h *)
Definition CPU_UNUSED : Z := 0.
Definition CPU_STARTED : Z := 1.
Definition CPU_HALTED : Z := 2.

Record Taskstate := mkTs { ts_esp0 : Z; ts_ss0 : Z; ts_iomb : Z }.
Record CpuInfo := mkCpu { cpu_id : Z; cpu_status : Z; cpu_env : option Z; cpu_ts : Taskstate }.
Definition cpu_zero : CpuInfo := mkCpu 0 CPU_UNUSED None (mkTs 0 0 0).

Record spinlock := mkLock { locked : bool; lk_cpu : option Z }.

(** ** Effects the model records *)
Inductive varg := VInt (z : Z) | VStr (s : string) | VBytes (l : list Z).

Inductive kevent :=
| EPrintf (fmt : string) (args : list varg)
| EInvlpg (va : Z)
| ELcr3 (v : Z)
| ELcr0 (v : Z)
| ELtr (sel : Z)
| ELidt
| ELgdt
| EEoi
| EOutb (port v : Z)
| ELapicw (index v : Z).

(** ** The kernel's state *)

Record kstate := mkks {
  mem : bytemem;  (** physical memory *)
  npages : Z;  (** pmap.c: amount of physical memory, in pages *)
  npages_basemem : Z;  (** pmap.c: amount of base memory, in pages *)
  pages : gmap Z PageInfo;  (** pmap.c: the array of page descriptors *)
  page_free_list : option Z;  (** pmap.c: head of the free list *)
  kern_pgdir : Z;  (** pmap.c: kernel virtual address of the page directory *)
  nextfree : Z;  (** the static of boot_alloc, 0 before the first call *)
  mmio_base : Z;  (** the static [base] of mmio_map_region *)
  user_mem_check_addr : Z;  (** pmap.c: first address that failed a check *)
  envs : gmap Z Env;  (** env.c: the array of environments *)
  env_free_list : option Z;  (** env.c: head of the free list *)
  cpus : gmap Z CpuInfo;  (** mpconfig.c: the array of CPUs *)
  this_cpu : Z;  (** the value of cpunum() on the running CPU *)
  kernel_lock : spinlock;  (** spinlock.c: the big kernel lock *)
  cr3 : Z;  (** the page directory in force, a physical address *)
  cr2 : Z;  (** the address of the last page fault *)
  gdt : gmap Z Segdesc;  (** env.c: segment descriptors *)
  idt : gmap Z Gatedesc;  (** trap.c: interrupt descriptors *)
  panicstr : bool;  (** init.c: some CPU has called panic *)
  con : constate;  (** console.c *)
  trace : list kevent }.  (** what the kernel did to the outside, oldest first *)

Definition set_mem v s := mkks v (npages s) (npages_basemem s) (pages s) (page_free_list s)
  (kern_pgdir s) (nextfree s) (mmio_base s) (user_mem_check_addr s) (envs s) (env_free_list s)
  (cpus s) (this_cpu s) (kernel_lock s) (cr3 s) (cr2 s) (gdt s) (idt s) (panicstr s) (con s)
  (trace s).
Definition set_npages v s := mkks (mem s) v (npages_basemem s) (pages s) (page_free_list s)
  (kern_pgdir s) (nextfree s) (mmio_base s) (user_mem_check_addr s) (envs s) (env_free_list s)
  (cpus s) (this_cpu s) (kernel_lock s) (cr3 s) (cr2 s) (gdt s) (idt s) (panicstr s) (con s)
  (trace s).
Definition set_npages_basemem v s := mkks (mem s) (npages s) v (pages s) (page_free_list s)
  (kern_pgdir s) (nextfree s) (mmio_base s) (user_mem_check_addr s) (envs s) (env_free_list s)
  (cpus s) (this_cpu s) (kernel_lock s) (cr3 s) (cr2 s) (gdt s) (idt s) (panicstr s) (con s)
  (trace s).
Definition set_pages v s := mkks (mem s) (npages s) (npages_basemem s) v (page_free_list s)
  (kern_pgdir s) (nextfree s) (mmio_base s) (user_mem_check_addr s) (envs s) (env_free_list s)
  (cpus s) (this_cpu s) (kernel_lock s) (cr3 s) (cr2 s) (gdt s) (idt s) (panicstr s) (con s)
  (trace s).
Definition set_page_free_list v s := mkks (mem s) (npages s) (npages_basemem s) (pages s) v
  (kern_pgdir s) (nextfree s) (mmio_base s) (user_mem_check_addr s) (envs s) (env_free_list s)
  (cpus s) (this_cpu s) (kernel_lock s) (cr3 s) (cr2 s) (gdt s) (idt s) (panicstr s) (con s)
  (trace s).
Definition set_kern_pgdir v s := mkks (mem s) (npages s) (npages_basemem s) (pages s)
  (page_free_list s) v (nextfree s) (mmio_base s) (user_mem_check_addr s) (envs s) (env_free_list
  s) (cpus s) (this_cpu s) (kernel_lock s) (cr3 s) (cr2 s) (gdt s) (idt s) (panicstr s) (con s)
  (trace s).
Definition set_nextfree v s := mkks (mem s) (npages s) (npages_basemem s) (pages s)
  (page_free_list s) (kern_pgdir s) v (mmio_base s) (user_mem_check_addr s) (envs s)
  (env_free_list s) (cpus s) (this_cpu s) (kernel_lock s) (cr3 s) (cr2 s) (gdt s) (idt s)
  (panicstr s) (con s) (trace s).
Definition set_mmio_base v s := mkks (mem s) (npages s) (npages_basemem s) (pages s)
  (page_free_list s) (kern_pgdir s) (nextfree s) v (user_mem_check_addr s) (envs s) (env_free_list
  s) (cpus s) (this_cpu s) (kernel_lock s) (cr3 s) (cr2 s) (gdt s) (idt s) (panicstr s) (con s)
  (trace s).
Definition set_user_mem_check_addr v s := mkks (mem s) (npages s) (npages_basemem s) (pages s)
  (page_free_list s) (kern_pgdir s) (nextfree s) (mmio_base s) v (envs s) (env_free_list s) (cpus
  s) (this_cpu s) (kernel_lock s) (cr3 s) (cr2 s) (gdt s) (idt s) (panicstr s) (con s) (trace s).
Definition set_envs v s := mkks (mem s) (npages s) (npages_basemem s) (pages s) (page_free_list s)
  (kern_pgdir s) (nextfree s) (mmio_base s) (user_mem_check_addr s) v (env_free_list s) (cpus s)
  (this_cpu s) (kernel_lock s) (cr3 s) (cr2 s) (gdt s) (idt s) (panicstr s) (con s) (trace s).
Definition set_env_free_list v s := mkks (mem s) (npages s) (npages_basemem s) (pages s)
  (page_free_list s) (kern_pgdir s) (nextfree s) (mmio_base s) (user_mem_check_addr s) (envs s) v
  (cpus s) (this_cpu s) (kernel_lock s) (cr3 s) (cr2 s) (gdt s) (idt s) (panicstr s) (con s)
  (trace s).
Definition set_cpus v s := mkks (mem s) (npages s) (npages_basemem s) (pages s) (page_free_list s)
  (kern_pgdir s) (nextfree s) (mmio_base s) (user_mem_check_addr s) (envs s) (env_free_list s) v
  (this_cpu s) (kernel_lock s) (cr3 s) (cr2 s) (gdt s) (idt s) (panicstr s) (con s) (trace s).
Definition set_this_cpu v s := mkks (mem s) (npages s) (npages_basemem s) (pages s)
  (page_free_list s) (kern_pgdir s) (nextfree s) (mmio_base s) (user_mem_check_addr s) (envs s)
  (env_free_list s) (cpus s) v (kernel_lock s) (cr3 s) (cr2 s) (gdt s) (idt s) (panicstr s) (con
  s) (trace s).
Definition set_kernel_lock v s := mkks (mem s) (npages s) (npages_basemem s) (pages s)
  (page_free_list s) (kern_pgdir s) (nextfree s) (mmio_base s) (user_mem_check_addr s) (envs s)
  (env_free_list s) (cpus s) (this_cpu s) v (cr3 s) (cr2 s) (gdt s) (idt s) (panicstr s) (con s)
  (trace s).
Definition set_cr3 v s := mkks (mem s) (npages s) (npages_basemem s) (pages s) (page_free_list s)
  (kern_pgdir s) (nextfree s) (mmio_base s) (user_mem_check_addr s) (envs s) (env_free_list s)
  (cpus s) (this_cpu s) (kernel_lock s) v (cr2 s) (gdt s) (idt s) (panicstr s) (con s) (trace s).
Definition set_cr2 v s := mkks (mem s) (npages s) (npages_basemem s) (pages s) (page_free_list s)
  (kern_pgdir s) (nextfree s) (mmio_base s) (user_mem_check_addr s) (envs s) (env_free_list s)
  (cpus s) (this_cpu s) (kernel_lock s) (cr3 s) v (gdt s) (idt s) (panicstr s) (con s) (trace s).
Definition set_gdt v s := mkks (mem s) (npages s) (npages_basemem s) (pages s) (page_free_list s)
  (kern_pgdir s) (nextfree s) (mmio_base s) (user_mem_check_addr s) (envs s) (env_free_list s)
  (cpus s) (this_cpu s) (kernel_lock s) (cr3 s) (cr2 s) v (idt s) (panicstr s) (con s) (trace s).
Definition set_idt v s := mkks (mem s) (npages s) (npages_basemem s) (pages s) (page_free_list s)
  (kern_pgdir s) (nextfree s) (mmio_base s) (user_mem_check_addr s) (envs s) (env_free_list s)
  (cpus s) (this_cpu s) (kernel_lock s) (cr3 s) (cr2 s) (gdt s) v (panicstr s) (con s) (trace s).
Definition set_panicstr v s := mkks (mem s) (npages s) (npages_basemem s) (pages s)
  (page_free_list s) (kern_pgdir s) (nextfree s) (mmio_base s) (user_mem_check_addr s) (envs s)
  (env_free_list s) (cpus s) (this_cpu s) (kernel_lock s) (cr3 s) (cr2 s) (gdt s) (idt s) v (con
  s) (trace s).
Definition set_con v s := mkks (mem s) (npages s) (npages_basemem s) (pages s) (page_free_list s)
  (kern_pgdir s) (nextfree s) (mmio_base s) (user_mem_check_addr s) (envs s) (env_free_list s)
  (cpus s) (this_cpu s) (kernel_lock s) (cr3 s) (cr2 s) (gdt s) (idt s) (panicstr s) v (trace s).
Definition set_trace v s := mkks (mem s) (npages s) (npages_basemem s) (pages s) (page_free_list
  s) (kern_pgdir s) (nextfree s) (mmio_base s) (user_mem_check_addr s) (envs s) (env_free_list s)
  (cpus s) (this_cpu s) (kernel_lock s) (cr3 s) (cr2 s) (gdt s) (idt s) (panicstr s) (con s) v.

(** Field updates of [struct Env], [struct PageInfo], [struct CpuInfo] and the frames. *)
Definition set_env_tf v e := mkEnv v (env_link e) (env_id e) (env_parent_id e) (env_type e)
  (env_status e) (env_runs e) (env_cpunum e) (env_pgdir e) (env_pgfault_upcall e) (env_ipc_recving
  e) (env_ipc_dstva e) (env_ipc_value e) (env_ipc_from e) (env_ipc_perm e).
Definition set_env_link v e := mkEnv (env_tf e) v (env_id e) (env_parent_id e) (env_type e)
  (env_status e) (env_runs e) (env_cpunum e) (env_pgdir e) (env_pgfault_upcall e) (env_ipc_recving
  e) (env_ipc_dstva e) (env_ipc_value e) (env_ipc_from e) (env_ipc_perm e).
Definition set_env_id v e := mkEnv (env_tf e) (env_link e) v (env_parent_id e) (env_type e)
  (env_status e) (env_runs e) (env_cpunum e) (env_pgdir e) (env_pgfault_upcall e) (env_ipc_recving
  e) (env_ipc_dstva e) (env_ipc_value e) (env_ipc_from e) (env_ipc_perm e).
Definition set_env_parent_id v e := mkEnv (env_tf e) (env_link e) (env_id e) v (env_type e)
  (env_status e) (env_runs e) (env_cpunum e) (env_pgdir e) (env_pgfault_upcall e) (env_ipc_recving
  e) (env_ipc_dstva e) (env_ipc_value e) (env_ipc_from e) (env_ipc_perm e).
Definition set_env_type v e := mkEnv (env_tf e) (env_link e) (env_id e) (env_parent_id e) v
  (env_status e) (env_runs e) (env_cpunum e) (env_pgdir e) (env_pgfault_upcall e) (env_ipc_recving
  e) (env_ipc_dstva e) (env_ipc_value e) (env_ipc_from e) (env_ipc_perm e).
Definition set_env_status v e := mkEnv (env_tf e) (env_link e) (env_id e) (env_parent_id e)
  (env_type e) v (env_runs e) (env_cpunum e) (env_pgdir e) (env_pgfault_upcall e) (env_ipc_recving
  e) (env_ipc_dstva e) (env_ipc_value e) (env_ipc_from e) (env_ipc_perm e).
Definition set_env_runs v e := mkEnv (env_tf e) (env_link e) (env_id e) (env_parent_id e)
  (env_type e) (env_status e) v (env_cpunum e) (env_pgdir e) (env_pgfault_upcall e)
  (env_ipc_recving e) (env_ipc_dstva e) (env_ipc_value e) (env_ipc_from e) (env_ipc_perm e).
Definition set_env_cpunum v e := mkEnv (env_tf e) (env_link e) (env_id e) (env_parent_id e)
  (env_type e) (env_status e) (env_runs e) v (env_pgdir e) (env_pgfault_upcall e) (env_ipc_recving
  e) (env_ipc_dstva e) (env_ipc_value e) (env_ipc_from e) (env_ipc_perm e).
Definition set_env_pgdir v e := mkEnv (env_tf e) (env_link e) (env_id e) (env_parent_id e)
  (env_type e) (env_status e) (env_runs e) (env_cpunum e) v (env_pgfault_upcall e)
  (env_ipc_recving e) (env_ipc_dstva e) (env_ipc_value e) (env_ipc_from e) (env_ipc_perm e).
Definition set_env_pgfault_upcall v e := mkEnv (env_tf e) (env_link e) (env_id e) (env_parent_id
  e) (env_type e) (env_status e) (env_runs e) (env_cpunum e) (env_pgdir e) v (env_ipc_recving e)
  (env_ipc_dstva e) (env_ipc_value e) (env_ipc_from e) (env_ipc_perm e).
Definition set_env_ipc_recving v e := mkEnv (env_tf e) (env_link e) (env_id e) (env_parent_id e)
  (env_type e) (env_status e) (env_runs e) (env_cpunum e) (env_pgdir e) (env_pgfault_upcall e) v
  (env_ipc_dstva e) (env_ipc_value e) (env_ipc_from e) (env_ipc_perm e).
Definition set_env_ipc_dstva v e := mkEnv (env_tf e) (env_link e) (env_id e) (env_parent_id e)
  (env_type e) (env_status e) (env_runs e) (env_cpunum e) (env_pgdir e) (env_pgfault_upcall e)
  (env_ipc_recving e) v (env_ipc_value e) (env_ipc_from e) (env_ipc_perm e).
Definition set_env_ipc_value v e := mkEnv (env_tf e) (env_link e) (env_id e) (env_parent_id e)
  (env_type e) (env_status e) (env_runs e) (env_cpunum e) (env_pgdir e) (env_pgfault_upcall e)
  (env_ipc_recving e) (env_ipc_dstva e) v (env_ipc_from e) (env_ipc_perm e).
Definition set_env_ipc_from v e := mkEnv (env_tf e) (env_link e) (env_id e) (env_parent_id e)
  (env_type e) (env_status e) (env_runs e) (env_cpunum e) (env_pgdir e) (env_pgfault_upcall e)
  (env_ipc_recving e) (env_ipc_dstva e) (env_ipc_value e) v (env_ipc_perm e).
Definition set_env_ipc_perm v e := mkEnv (env_tf e) (env_link e) (env_id e) (env_parent_id e)
  (env_type e) (env_status e) (env_runs e) (env_cpunum e) (env_pgdir e) (env_pgfault_upcall e)
  (env_ipc_recving e) (env_ipc_dstva e) (env_ipc_value e) (env_ipc_from e) v.
Definition set_pp_link v p := mkPage v (pp_ref p).
Definition set_pp_ref v p := mkPage (pp_link p) v.
Definition set_cpu_id v c := mkCpu v (cpu_status c) (cpu_env c) (cpu_ts c).
Definition set_cpu_status v c := mkCpu (cpu_id c) v (cpu_env c) (cpu_ts c).
Definition set_cpu_env v c := mkCpu (cpu_id c) (cpu_status c) v (cpu_ts c).
Definition set_cpu_ts v c := mkCpu (cpu_id c) (cpu_status c) (cpu_env c) v.
Definition set_tf_regs v t := mkTf v (tf_es t) (tf_ds t) (tf_trapno t) (tf_err t) (tf_eip t)
  (tf_cs t) (tf_eflags t) (tf_esp t) (tf_ss t).
Definition set_tf_es v t := mkTf (tf_regs t) v (tf_ds t) (tf_trapno t) (tf_err t) (tf_eip t)
  (tf_cs t) (tf_eflags t) (tf_esp t) (tf_ss t).
Definition set_tf_ds v t := mkTf (tf_regs t) (tf_es t) v (tf_trapno t) (tf_err t) (tf_eip t)
  (tf_cs t) (tf_eflags t) (tf_esp t) (tf_ss t).
Definition set_tf_trapno v t := mkTf (tf_regs t) (tf_es t) (tf_ds t) v (tf_err t) (tf_eip t)
  (tf_cs t) (tf_eflags t) (tf_esp t) (tf_ss t).
Definition set_tf_err v t := mkTf (tf_regs t) (tf_es t) (tf_ds t) (tf_trapno t) v (tf_eip t)
  (tf_cs t) (tf_eflags t) (tf_esp t) (tf_ss t).
Definition set_tf_eip v t := mkTf (tf_regs t) (tf_es t) (tf_ds t) (tf_trapno t) (tf_err t) v
  (tf_cs t) (tf_eflags t) (tf_esp t) (tf_ss t).
Definition set_tf_cs v t := mkTf (tf_regs t) (tf_es t) (tf_ds t) (tf_trapno t) (tf_err t) (tf_eip
  t) v (tf_eflags t) (tf_esp t) (tf_ss t).
Definition set_tf_eflags v t := mkTf (tf_regs t) (tf_es t) (tf_ds t) (tf_trapno t) (tf_err t)
  (tf_eip t) (tf_cs t) v (tf_esp t) (tf_ss t).
Definition set_tf_esp v t := mkTf (tf_regs t) (tf_es t) (tf_ds t) (tf_trapno t) (tf_err t) (tf_eip
  t) (tf_cs t) (tf_eflags t) v (tf_ss t).
Definition set_tf_ss v t := mkTf (tf_regs t) (tf_es t) (tf_ds t) (tf_trapno t) (tf_err t) (tf_eip
  t) (tf_cs t) (tf_eflags t) (tf_esp t) v.
Definition set_reg_edi v r := mkRegs v (reg_esi r) (reg_ebp r) (reg_oesp r) (reg_ebx r) (reg_edx
  r) (reg_ecx r) (reg_eax r).
Definition set_reg_esi v r := mkRegs (reg_edi r) v (reg_ebp r) (reg_oesp r) (reg_ebx r) (reg_edx
  r) (reg_ecx r) (reg_eax r).
Definition set_reg_ebp v r := mkRegs (reg_edi r) (reg_esi r) v (reg_oesp r) (reg_ebx r) (reg_edx
  r) (reg_ecx r) (reg_eax r).
Definition set_reg_oesp v r := mkRegs (reg_edi r) (reg_esi r) (reg_ebp r) v (reg_ebx r) (reg_edx
  r) (reg_ecx r) (reg_eax r).
Definition set_reg_ebx v r := mkRegs (reg_edi r) (reg_esi r) (reg_ebp r) (reg_oesp r) v (reg_edx
  r) (reg_ecx r) (reg_eax r).
Definition set_reg_edx v r := mkRegs (reg_edi r) (reg_esi r) (reg_ebp r) (reg_oesp r) (reg_ebx r)
  v (reg_ecx r) (reg_eax r).
Definition set_reg_ecx v r := mkRegs (reg_edi r) (reg_esi r) (reg_ebp r) (reg_oesp r) (reg_ebx r)
  (reg_edx r) v (reg_eax r).
Definition set_reg_eax v r := mkRegs (reg_edi r) (reg_esi r) (reg_ebp r) (reg_oesp r) (reg_ebx r)
  (reg_edx r) (reg_ecx r) v.

(** ** Outcomes *)
Inductive outcome (A : Type) :=
| Ret (a : A) (s : kstate)            (** the function returned *)
| Panic (s : kstate)                  (** _panic: the monitor, for ever *)
| Resume (tf : Trapframe) (s : kstate) (** env_pop_tf: iret into user mode *)
| Halted (s : kstate)                 (** sched_halt: sti; hlt, for ever *)
| Monitor (s : kstate)                (** the kernel monitor, which never returns *)
| Spin (s : kstate)                   (** waiting for ever, for the big kernel lock or a device *)
| Fault (s : kstate).                 (** an access outside the program's objects *)
Arguments Ret {A}. Arguments Panic {A}. Arguments Resume {A}. Arguments Halted {A}.
Arguments Monitor {A}. Arguments Spin {A}. Arguments Fault {A}.

Definition K (A : Type) : Type := kstate -> outcome A.

Definition ret {A} (a : A) : K A := fun s => Ret a s.
Definition bind {A B} (m : K A) (f : A -> K B) : K B := fun s =>
  match m s with
  | Ret a s' => f a s'
  | Panic s' => Panic s'
  | Resume tf s' => Resume tf s'
  | Halted s' => Halted s'
  | Monitor s' => Monitor s'
  | Spin s' => Spin s'
  | Fault s' => Fault s'
  end.

Declare Scope k_scope.
Delimit Scope k_scope with K.
Notation "x <- m ;; k" := (bind m (fun x => k))
  (at level 100, m at next level, k at level 200, right associativity) : k_scope.
Notation "m ;; k" := (bind m (fun _ => k)) (at level 100, k at level 200, right associativity) : k_scope.
Open Scope k_scope.

Definition gets {A} (f : kstate -> A) : K A := fun s => Ret (f s) s.
Definition modify (f : kstate -> kstate) : K unit := fun s => Ret tt (f s).
Definition emit (e : kevent) : K unit := modify (fun s => set_trace (trace s ++ [e]) s).
Definition cprintf (fmt : string) (args : list varg) : K unit := emit (EPrintf fmt args).
Definition panic {A} : K A := fun s => Panic (set_panicstr true s).
Definition fault {A} : K A := fun s => Fault s.
Definition when (b : bool) (m : K unit) : K unit := if b then m else ret tt.
Definition liftopt {A} (o : option A) : K A := match o with Some a => ret a | None => fault end.

(** A loop over the values of its index. *)
Fixpoint for_each {A} (l : list A) (f : A -> K unit) : K unit :=
  match l with
  | [] => ret tt
  | a :: l => f a ;; for_each l f
  end.

(** A loop with an exit: at most [p] iterations of [f], from [a]. *)
Fixpoint kloop {A R} (p : positive) (f : A -> K (A + R)) (a : A) : K (A + R) :=
  match p with
  | xH => f a
  | xO q => r <- kloop q f a ;; match r with inl a => kloop q f a | inr r => ret (inr r) end
  | xI q =>
      r <- f a ;;
      match r with
      | inl a => r <- kloop q f a ;; match r with inl a => kloop q f a | inr r => ret (inr r) end
      | inr r => ret (inr r)
      end
  end.

(** Array elements: an index outside the array is a fault. *)
Definition get_page (i : Z) : K PageInfo := fun s => liftopt (pages s !! i) s.
Definition put_page (i : Z) (p : PageInfo) : K unit := fun s =>
  match pages s !! i with Some _ => Ret tt (set_pages (<[i := p]> (pages s)) s) | None => Fault s end.
Definition get_env (i : Z) : K Env := fun s => liftopt (envs s !! i) s.
Definition put_env (i : Z) (e : Env) : K unit := fun s =>
  match envs s !! i with Some _ => Ret tt (set_envs (<[i := e]> (envs s)) s) | None => Fault s end.
Definition upd_env (i : Z) (f : Env -> Env) : K unit := e <- get_env i ;; put_env i (f e).

(** [thiscpu] and [curenv] (kern/cpu.h, kern/env.h). *)
Definition cpu_of (s : kstate) (c : Z) : CpuInfo := default cpu_zero (cpus s !! c).
Definition thiscpu (s : kstate) : CpuInfo := cpu_of s (this_cpu s).
Definition curenv (s : kstate) : option Z := cpu_env (thiscpu s).
Definition upd_thiscpu (f : CpuInfo -> CpuInfo) (s : kstate) : kstate :=
  set_cpus (<[this_cpu s := f (thiscpu s)]> (cpus s)) s.
Definition set_curenv (e : option Z) : K unit := modify (upd_thiscpu (set_cpu_env e)).

(** Dereferencing a null [struct Env *] is a fault. *)
Definition curenv_deref : K Z := fun s => liftopt (curenv s) s.

Definition lcr3 (v : Z) : K unit := modify (set_cr3 v) ;; emit (ELcr3 v).

(** ** The big kernel lock as one CPU sees it (kern/spinlock.c, kern/spinlock.h) *)
Definition holding (lk : spinlock) (c : Z) : bool := locked lk && bool_decide (lk_cpu lk = Some c).

Definition spin_lock : K unit := fun s =>
  if holding (kernel_lock s) (this_cpu s) then panic s
  else if locked (kernel_lock s) then Spin s
  else Ret tt (set_kernel_lock (mkLock true (Some (this_cpu s))) s).
Definition lock_kernel : K unit := spin_lock.

Definition spin_unlock : K unit := fun s =>
  if negb (holding (kernel_lock s) (this_cpu s)) then panic s
  else Ret tt (set_kernel_lock (mkLock false None) s).
Definition unlock_kernel : K unit := spin_unlock.

(** ** A machine with [n] pages, all descriptors zero, no environment *)

Definition zero_pages (n : nat) : gmap Z PageInfo :=
  list_to_map (map (fun i => (i, mkPage None 0)) (seqZ 0 (Z.of_nat n))).
Definition env_zero : Env := mkEnv tf_zero None 0 0 0 ENV_FREE 0 0 0 0 false 0 0 0 0.
Definition zero_envs : gmap Z Env :=
  list_to_map (map (fun i => (i, env_zero)) (seqZ 0 NENV)).
Definition zero_con : constate :=
  mkcon false [] [] 0 (replicate 512 0) 0 0 0 CGA_BASE (replicate 2000 0x0720) 0 [].
Definition zero_kstate (n : nat) : kstate :=
  mkks ∅ (Z.of_nat n) (Z.of_nat (n `min` 160)) (zero_pages n) None 0 0 MMIOBASE 0 zero_envs None ∅ 0
    (mkLock false None) 0 0 ∅ ∅ false zero_con [].

(** ** Reasoning about the monad *)

Lemma zero_map_lookup {A} (a : A) (n i : Z) :
  (list_to_map (map (fun i => (i, a)) (seqZ 0 n)) : gmap Z A) !! i =
    if decide (0 <= i < n) then Some a else None.
Proof.
  case_decide as Hi.
  - apply elem_of_list_to_map_1.
    + rewrite map_map. simpl. rewrite map_id. apply NoDup_seqZ.
    + apply list_elem_of_fmap. exists i. split; [done|]. apply elem_of_seqZ. lia.
  - apply not_elem_of_list_to_map_1. rewrite <- list_fmap_compose.
    intros (j & -> & Hj%elem_of_seqZ)%list_elem_of_fmap. simpl in Hi. lia.
Qed.

Lemma zero_pages_lookup n i :
  zero_pages n !! i = if decide (0 <= i < Z.of_nat n) then Some (mkPage None 0) else None.
Proof. apply zero_map_lookup. Qed.

Lemma zero_envs_lookup i :
  zero_envs !! i = if decide (0 <= i < NENV) then Some env_zero else None.
Proof. apply zero_map_lookup. Qed.

#[global] Opaque zero_envs.

Lemma bind_ret {A B} (m : K A) (f : A -> K B) s a s' :
  m s = Ret a s' -> bind m f s = f a s'.
Proof. unfold bind. by intros ->. Qed.

Lemma bind_gets {A B} (f : kstate -> A) (k : A -> K B) s : bind (gets f) k s = k (f s) s.
Proof. done. Qed.

Lemma bind_modify {B} f (k : unit -> K B) s : bind (modify f) k s = k tt (f s).
Proof. done. Qed.

Lemma bind_ret_l {A B} (a : A) (k : A -> K B) s : bind (ret a) k s = k a s.
Proof. done. Qed.

Lemma bind_some {A B} (a : A) (k : A -> K B) s : bind (liftopt (Some a)) k s = k a s.
Proof. done. Qed.

Lemma bind_assoc {A B C} (m : K A) (f : A -> K B) (g : B -> K C) s :
  bind (bind m f) g s = bind m (fun a => bind (f a) g) s.
Proof. unfold bind. by destruct (m s). Qed.

Lemma bind_if {A B} (b : bool) (m1 m2 : K A) (k : A -> K B) s :
  bind (if b then m1 else m2) k s = if b then bind m1 k s else bind m2 k s.
Proof. by destruct b. Qed.

(** One step of a kernel function: read or change the state, or run a call
    whose result is known ([H : m s = Ret a s']). *)
Ltac kpure := repeat first
  [ rewrite bind_gets | rewrite bind_modify | rewrite bind_ret_l | rewrite bind_some | rewrite bind_assoc ].
Tactic Notation "kstep" := kpure.
Tactic Notation "kstep" uconstr(H) := rewrite (bind_ret _ _ _ _ _ H); kpure.

Lemma bind_inv {A B} (m : K A) (f : A -> K B) s b s'' :
  bind m f s = Ret b s'' -> exists a s', m s = Ret a s' /\ f a s' = Ret b s''.
Proof. unfold bind. destruct (m s) eqn:E; try done. eauto. Qed.

Lemma get_page_eq i p s : pages s !! i = Some p -> get_page i s = Ret p s.
Proof. unfold get_page. by intros ->. Qed.

Lemma put_page_eq i p p' s :
  pages s !! i = Some p' -> put_page i p s = Ret tt (set_pages (<[i := p]> (pages s)) s).
Proof. unfold put_page. by intros ->. Qed.

Lemma get_env_eq i e s : envs s !! i = Some e -> get_env i s = Ret e s.
Proof. unfold get_env. by intros ->. Qed.

Lemma put_env_eq i e e' s :
  envs s !! i = Some e' -> put_env i e s = Ret tt (set_envs (<[i := e]> (envs s)) s).
Proof. unfold put_env. by intros ->. Qed.

Lemma curenv_deref_eq c s : curenv s = Some c -> curenv_deref s = Ret c s.
Proof. unfold curenv_deref. by intros ->. Qed.

Lemma upd_env_eq i f e s :
  envs s !! i = Some e -> upd_env i f s = Ret tt (set_envs (<[i := f e]> (envs s)) s).
Proof.
  intros H. unfold upd_env. erewrite bind_ret by (by apply get_env_eq).
  by eapply put_env_eq.
Qed.

(** Loops: an invariant that every iteration keeps holds at the end. *)
Lemma for_each_inv {A} (l : list A) (f : A -> K unit) (P : kstate -> Prop) s :
  P s -> (forall a s, a ∈ l -> P s -> exists s', f a s = Ret tt s' /\ P s') ->
  exists s', for_each l f s = Ret tt s' /\ P s'.
Proof.
  revert s. induction l as [|a l IH]; intros s Hs Hf; simpl; [by eauto|].
  destruct (Hf a s) as (s1 & H1 & HP1); [set_solver|done|].
  rewrite (bind_ret _ _ _ _ _ H1). apply IH; [done|]. intros. apply Hf; [set_solver|done].
Qed.

Lemma for_each_app {A} (l1 l2 : list A) (f : A -> K unit) s :
  for_each (l1 ++ l2) f s = (for_each l1 f ;; for_each l2 f) s.
Proof.
  revert s. induction l1 as [|a l IH]; intros s; simpl; [done|].
  unfold bind in *. by destruct (f a s).
Qed.

Lemma for_each_seqZ (P : Z -> kstate -> Prop) a n (f : Z -> K unit) s :
  0 <= n -> P a s ->
  (forall i s, a <= i < a + n -> P i s -> exists s', f i s = Ret tt s' /\ P (i + 1) s') ->
  exists s', for_each (seqZ a n) f s = Ret tt s' /\ P (a + n) s'.
Proof.
  intros Hn. replace n with (Z.of_nat (Z.to_nat n)) by lia. generalize (Z.to_nat n) as k. clear Hn n.
  intros k. revert a s. induction k as [|k IH]; intros a s Hs Hf.
  - exists s. rewrite Z.add_0_r. by rewrite seqZ_nil.
  - rewrite seqZ_cons by lia. simpl. destruct (Hf a s) as (s1 & H1 & Hs1); [lia|done|].
    rewrite (bind_ret _ _ _ _ _ H1). replace (Z.pred (Z.of_nat (S k))) with (Z.of_nat k) by lia.
    destruct (IH (Z.succ a) s1) as (s2 & H2 & Hs2); [done| |].
    + intros i s0 Hi. apply Hf. lia.
    + exists s2. split; [done|]. by replace (a + Z.of_nat (S k)) with (Z.succ a + Z.of_nat k) by lia.
Qed.

Lemma thiscpu_upd f s : thiscpu (upd_thiscpu f s) = f (thiscpu s).
Proof. unfold thiscpu, cpu_of, upd_thiscpu. simpl. by rewrite lookup_insert_eq. Qed.

Lemma curenv_set_cpu_env e s : curenv (upd_thiscpu (set_cpu_env e) s) = e.
Proof. unfold curenv. by rewrite thiscpu_upd. Qed.

Lemma curenv_set_cpu_status v s : curenv (upd_thiscpu (set_cpu_status v) s) = curenv s.
Proof. unfold curenv. by rewrite thiscpu_upd. Qed.

(** [kloop] counted in unary, for induction. *)
Fixpoint kloop_nat {A R} (n : nat) (f : A -> K (A + R)) (a : A) : K (A + R) :=
  match n with
  | O => ret (inl a)
  | S n => r <- f a ;; match r with inl a => kloop_nat n f a | inr r => ret (inr r) end
  end.

Lemma kloop_nat_add {A R} n m (f : A -> K (A + R)) a s :
  kloop_nat (n + m) f a s =
    (r <- kloop_nat n f a ;; match r with inl a => kloop_nat m f a | inr r => ret (inr r) end) s.
Proof.
  revert a s. induction n as [|n IH]; intros a s; simpl; [done|]. rewrite bind_assoc.
  unfold bind at 1 2. by destruct (f a s) as [[a'|r] s'| | | | | |].
Qed.

Lemma kloop_unary {A R} p (f : A -> K (A + R)) a s : kloop p f a s = kloop_nat (Pos.to_nat p) f a s.
Proof.
  revert a s. induction p as [p IH|p IH|]; intros a s; simpl kloop.
  - rewrite Pos2Nat.inj_xI. replace (S (2 * Pos.to_nat p)) with (S (Pos.to_nat p + Pos.to_nat p)) by lia.
    simpl kloop_nat. unfold bind at 1 3. destruct (f a s) as [[a'|r] s'| | | | | |]; try done.
    rewrite kloop_nat_add. unfold bind. rewrite IH. by destruct (kloop_nat _ f a' s') as [[?|?] ?| | | | | |].
  - rewrite Pos2Nat.inj_xO. replace (2 * Pos.to_nat p)%nat with (Pos.to_nat p + Pos.to_nat p)%nat by lia.
    rewrite kloop_nat_add. unfold bind. rewrite IH. by destruct (kloop_nat _ f a s) as [[?|?] ?| | | | | |].
  - simpl. unfold bind. destruct (f a s) as [[?|?] ?| | | | | |]; done.
Qed.

(** A loop that ends within [n] turns ends the same way with more. *)
Lemma kloop_exit {A R} n p (f : A -> K (A + R)) a s r s' :
  kloop_nat n f a s = Ret (inr r) s' -> Z.of_nat n <= Z.pos p -> kloop p f a s = Ret (inr r) s'.
Proof.
  intros H Hn. rewrite kloop_unary. replace (Pos.to_nat p) with (n + (Pos.to_nat p - n))%nat by lia.
  by rewrite kloop_nat_add, (bind_ret _ _ _ _ _ H).
Qed.

#[global] Arguments bind : simpl never.
