(* ===== verification/Pmap.v ===== *)
(** * kern/pmap.h and kern/pmap.c: physical pages and page tables

    Detection of the memory, the boot allocator, the free list of physical
    pages, the two-level page tables, the MMIO region, the check of user
    addresses and the construction of the kernel's address space.  The
    self-tests of pmap.c and [mem_init] as a whole are in PmapChecks.v, the
    theorems in PmapAlloc.v, PmapSpace.v, PmapMap.v and PmapDir.v. *)
From S2P Require Import Prelude Mmu Mem Console Kstate.

(** ** kern/pmap.h *)

Definition ALLOC_ZERO : Z := 1 .<< 0.

Definition PADDR (kva : Z) : K Z :=
  if kva <? KERNBASE then panic else ret (kva - KERNBASE).

Definition KADDR (pa : Z) : K Z := fun s =>
  if PGNUM pa >=? npages s then panic s else Ret (u32 (pa + KERNBASE)) s.

Definition page2pa (pp : Z) : Z := u32 (pp .<< PGSHIFT).

Definition pa2page (pa : Z) : K Z := fun s =>
  if PGNUM pa >=? npages s then panic s else Ret (PGNUM pa) s.

Definition page2kva (pp : Z) : K Z := KADDR (page2pa pp).

(** Memory behind a kernel pointer: the kernel maps physical address [a] at
    [KERNBASE + a]; a pointer below KERNBASE does not point to an object of
    the kernel. *)
Definition kload32 (kva : Z) : K Z := fun s =>
  if kva <? KERNBASE then Fault s else Ret (load32 (mem s) (kva - KERNBASE)) s.
Definition kstore32 (kva v : Z) : K unit := fun s =>
  if kva <? KERNBASE then Fault s
  else Ret tt (set_mem (store32 (mem s) (kva - KERNBASE) v) s).
Definition kmemset (kva c n : Z) : K unit := fun s =>
  if kva <? KERNBASE then Fault s
  else Ret tt (set_mem (fill (mem s) (kva - KERNBASE) c (Z.to_nat n)) s).

Definition upd_page (i : Z) (f : PageInfo -> PageInfo) : K unit :=
  p <- get_page i ;; put_page i (f p).

(** ** Memory detection *)

Section detect.
(** [nvram r]: the byte of the real-time clock's memory at [r]. *)
Context (nvram : Z -> Z).

Definition mc146818_read (reg : Z) : Z := nvram reg.
Definition nvram_read (r : Z) : Z := mc146818_read r .| (mc146818_read (r + 1) .<< 8).

Definition NVRAM_BASELO : Z := 0xe + 7.
Definition NVRAM_EXTLO : Z := 0xe + 9.
Definition NVRAM_EXT16LO : Z := 0xe + 38.

Definition i386_detect_memory : K unit :=
  let basemem := nvram_read NVRAM_BASELO in
  let extmem := nvram_read NVRAM_EXTLO in
  let ext16mem := u32 (nvram_read NVRAM_EXT16LO * 64) in
  let totalmem :=
    if negb (ext16mem =? 0) then u32 (16 * 1024 + ext16mem)
    else if negb (extmem =? 0) then u32 (1 * 1024 + extmem)
    else basemem in
  modify (set_npages (totalmem / (PGSIZE / 1024))) ;;
  modify (set_npages_basemem (basemem / (PGSIZE / 1024))) ;;
  s <- gets (fun s => s) ;;
  cprintf "Physical memory: %uK available, base = %uK, extended = %uK, PG_Size = %uB, Npages = %u\n"
    [VInt totalmem; VInt basemem; VInt (u32 (totalmem - basemem)); VInt PGSIZE; VInt (npages s)].
End detect.

(** ** The boot allocator *)

Section boot.
(** [end_]: the address of the linker symbol [end]. *)
Context (end_ : Z).

Definition boot_alloc (n : Z) : K Z :=
  nf <- gets nextfree ;;
  (if nf =? 0 then modify (set_nextfree (ROUNDUP (u32 (end_ + 1)) PGSIZE)) else ret tt) ;;
  result <- gets nextfree ;;
  if 0 <? n then
    modify (set_nextfree (ROUNDUP (u32 (result + n)) PGSIZE)) ;;
    nf <- gets nextfree ;;
    np <- gets npages ;;
    (if u32 (nf - KERNBASE) >? u32 (np * PGSIZE) then panic else ret tt) ;;
    ret nf
  else ret result.

(** ** The free list *)

(** [pages[i].pp_ref = 0; pages[i].pp_link = page_free_list;
    page_free_list = &pages[i];] *)
Definition page_init_free (i : Z) : K unit :=
  upd_page i (set_pp_ref 0) ;;
  fl <- gets page_free_list ;;
  upd_page i (set_pp_link fl) ;;
  modify (set_page_free_list (Some i)).

Definition page_init : K unit :=
  let markMP := PGNUM MPENTRY_PADDR in
  nf <- boot_alloc 0 ;;
  let kernel := u32 (nf - KERNBASE) / PGSIZE in
  upd_page 0 (set_pp_ref 1) ;;
  nbase <- gets npages_basemem ;;
  for_each (seqZ 1 (nbase - 1)) (fun i =>
    if i =? markMP then upd_page i (set_pp_ref 1) else page_init_free i) ;;
  for_each (seqZ 160 96) (fun i => upd_page i (set_pp_ref 1)) ;;
  for_each (seqZ 256 kernel) (fun i => upd_page i (set_pp_ref 1)) ;;
  np <- gets npages ;;
  for_each (seqZ (256 + kernel) (np - (256 + kernel))) page_init_free.
End boot.

Definition page_alloc (alloc_flags : Z) : K (option Z) :=
  fl <- gets page_free_list ;;
  match fl with
  | None => ret None
  | Some pp =>
      (if has alloc_flags ALLOC_ZERO
       then kva <- page2kva pp ;; kmemset kva 0 PGSIZE
       else ret tt) ;;
      p <- get_page pp ;;
      modify (set_page_free_list (pp_link p)) ;;
      upd_page pp (set_pp_link None) ;;
      ret (Some pp)
  end.

Definition page_free (pp : Z) : K unit :=
  p <- get_page pp ;;
  if negb (pp_ref p =? 0) || bool_decide (pp_link p <> None) then panic
  else
    fl <- gets page_free_list ;;
    upd_page pp (set_pp_link fl) ;;
    modify (set_page_free_list (Some pp)).

Definition page_decref (pp : Z) : K unit :=
  p <- get_page pp ;;
  let r := u16 (pp_ref p - 1) in
  upd_page pp (set_pp_ref r) ;;
  if r =? 0 then page_free pp else ret tt.

(** [pp->pp_ref++] on a 16-bit counter. *)
Definition page_incref (pp : Z) : K unit := upd_page pp (fun p => set_pp_ref (u16 (pp_ref p + 1)) p).

(** ** Page tables *)

Definition pgdir_walk (pgdir va create : Z) : K (option Z) :=
  let table := PTX va in
  pde <- kload32 (pgdir + 4 * PDX va) ;;
  if has pde PTE_P then
    holder <- KADDR (PTE_ADDR pde) ;;
    ret (Some (holder + 4 * table))
  else if negb (create =? 0) then
    pNew <- page_alloc ALLOC_ZERO ;;
    match pNew with
    | None => ret None
    | Some n =>
        page_incref n ;;
        kstore32 (pgdir + 4 * PDX va) (((page2pa n .| PTE_P) .| PTE_U) .| PTE_W) ;;
        holder <- KADDR (page2pa n) ;;
        ret (Some (holder + 4 * table))
    end
  else ret None.

(** One iteration of the loop of [boot_map_region], at offset [i]. *)
Definition boot_map_page (pgdir va pa perm i : Z) : K unit :=
  result <- pgdir_walk pgdir (u32 (va + i)) 1 ;;
  match result with
  | None => panic
  | Some p => kstore32 p ((PTE_ADDR (u32 (pa + i)) .| perm) .| PTE_P)
  end.

(** [for (i = 0; i < size; i += PGSIZE)]: the loop runs for the multiples of
    PGSIZE below [size].  Above 2^32 - PGSIZE the index wraps to 0 before it reaches
    [size], and the loop never ends. *)
Definition boot_map_region (pgdir va size pa perm : Z) : K unit :=
  for_each (seqZ 0 ((size + PGSIZE - 1) / PGSIZE)) (fun k => boot_map_page pgdir va pa perm (PGSIZE * k)) ;;
  if size <=? 0x100000000 - PGSIZE then ret tt else Spin.

Definition tlb_invalidate (pgdir va : Z) : K unit :=
  ce <- gets curenv ;;
  match ce with
  | None => emit (EInvlpg va)
  | Some c => e <- get_env c ;; if env_pgdir e =? pgdir then emit (EInvlpg va) else ret tt
  end.

(** The page and the address of its entry ([*pte_store]). *)
Definition page_lookup (pgdir va : Z) : K (option (Z * Z)) :=
  pp <- pgdir_walk pgdir va 0 ;;
  match pp with
  | None => ret None
  | Some p =>
      pte <- kload32 p ;;
      if negb (has pte PTE_P) then ret None
      else pg <- pa2page (PTE_ADDR pte) ;; ret (Some (pg, p))
  end.

Definition page_remove (pgdir va : Z) : K unit :=
  got <- page_lookup pgdir va ;;
  match got with
  | None => ret tt
  | Some (pg, pte_store) =>
      pte <- kload32 pte_store ;;
      if has pte PTE_P then
        page_decref pg ;;
        kstore32 pte_store 0 ;;
        tlb_invalidate pgdir va
      else ret tt
  end.

Definition page_insert (pgdir pp va perm : Z) : K Z :=
  pte <- pgdir_walk pgdir va 1 ;;
  match pte with
  | None => ret (- E_NO_MEM)
  | Some p =>
      page_incref pp ;;
      v <- kload32 p ;;
      (if has v PTE_P then page_remove pgdir va else ret tt) ;;
      kstore32 p ((page2pa pp .| perm) .| PTE_P) ;;
      ret 0
  end.

(** ** Memory-mapped I/O *)

Definition mmio_map_region (pa size : Z) : K Z :=
  let fixed := ROUNDUP size PGSIZE in
  base <- gets mmio_base ;;
  if u32 (base + fixed) >? MMIOLIM then panic
  else
    kp <- gets kern_pgdir ;;
    boot_map_region kp base fixed pa ((PTE_PCD .| PTE_PWT) .| PTE_W) ;;
    modify (set_mmio_base (u32 (base + fixed))) ;;
    ret base.

(** ** User addresses *)

(** The loop of [user_mem_check] over the page addresses [l]. *)
Fixpoint user_mem_check_pages (pgdir va perm : Z) (l : list Z) : K Z :=
  match l with
  | [] => ret 0
  | start_va :: l =>
      pp <- pgdir_walk pgdir start_va 0 ;;
      bad <- match pp with
             | None => ret true
             | Some p =>
                 if start_va >=? ULIM then ret true
                 else pte <- kload32 p ;; ret (negb (has pte PTE_P) || negb (pte .& perm =? perm))
             end ;;
      if bad then
        modify (set_user_mem_check_addr (if start_va <? va then va else start_va)) ;;
        ret (- E_FAULT)
      else user_mem_check_pages pgdir va perm l
  end.

Definition page_starts (start_va end_va : Z) : list Z :=
  map (fun k => start_va + PGSIZE * k) (seqZ 0 ((end_va - start_va) / PGSIZE)).

Definition user_mem_check (env va len perm : Z) : K Z :=
  let start_va := ROUNDDOWN va PGSIZE in
  let end_va := ROUNDUP (u32 (va + len)) PGSIZE in
  if start_va <? end_va then
    e <- get_env env ;;
    user_mem_check_pages (env_pgdir e) va perm (page_starts start_va end_va)
  else ret 0.

(** ** The kernel's address space *)

Section mem_init.
(** Linker symbols: the end of the kernel, the boot stack and the per-CPU
    stacks; and the memory sizes in the real-time clock. *)
Context (end_ bootstack percpu_kstacks : Z) (nvram : Z -> Z).

Definition sizeof_PageInfo : Z := 8.
Definition sizeof_ptr : Z := 4.
Definition sizeof_Env : Z := 124.

Definition mem_init_mp : K unit :=
  kp <- gets kern_pgdir ;;
  for_each (seqZ 0 NCPU) (fun i =>
    let kstacktop_i := KSTACKTOP - i * (KSTKSIZE + KSTKGAP) in
    pa <- PADDR (percpu_kstacks + i * KSTKSIZE) ;;
    boot_map_region kp (kstacktop_i - KSTKSIZE) KSTKSIZE pa (PTE_W .| PTE_P)).

(** [memset(pages, 0, n)]: the fields whose bytes are all among the first [n]
    of the array. *)
Definition memset_pages (n : Z) : K unit :=
  modify (fun s => set_pages (map_imap (fun i p => Some
    (mkPage (if sizeof_PageInfo * i + 4 <=? n then None else pp_link p)
            (if sizeof_PageInfo * i + 6 <=? n then 0 else pp_ref p))) (pages s)) s).

(** [mem_init] up to and including the first use of the free list: the
    boot-time allocations.  Returns the addresses of [pages] and [envs]. *)
Definition mem_init_alloc : K (Z * Z) :=
  i386_detect_memory nvram ;;
  kp <- boot_alloc end_ PGSIZE ;;
  modify (set_kern_pgdir kp) ;;
  kmemset kp 0 PGSIZE ;;
  kpa <- PADDR kp ;;
  kstore32 (kp + 4 * PDX UVPT) ((kpa .| PTE_U) .| PTE_P) ;;
  np <- gets npages ;;
  pages_va <- boot_alloc end_ (u32 (np * sizeof_ptr)) ;;
  memset_pages np ;;
  envs_va <- boot_alloc end_ (NENV * sizeof_Env) ;;
  page_init end_ ;;
  ret (pages_va, envs_va).

(** The mappings above UTOP. *)
Definition mem_init_map (pages_va envs_va : Z) : K unit :=
  np <- gets npages ;;
  kp <- gets kern_pgdir ;;
  let pages_size := u32 (np * sizeof_PageInfo) in
  pages_pa <- PADDR pages_va ;;
  boot_map_region kp UPAGES pages_size pages_pa (PTE_U .| PTE_P) ;;
  boot_map_region kp pages_va pages_size pages_pa (PTE_W .| PTE_P) ;;
  envs_pa <- PADDR envs_va ;;
  boot_map_region kp UENVS (NENV * sizeof_Env) envs_pa (PTE_U .| PTE_P) ;;
  stack_pa <- PADDR bootstack ;;
  boot_map_region kp (KSTACKTOP - KSTKSIZE) KSTKSIZE stack_pa (PTE_W .| PTE_P) ;;
  mem_init_mp ;;
  boot_map_region kp KERNBASE (u32 (- KERNBASE)) 0 (PTE_W .| PTE_P).

(** The switch to the new page directory. *)
Definition mem_init_switch : K unit :=
  kp <- gets kern_pgdir ;;
  kpa <- PADDR kp ;;
  lcr3 kpa.

(** The flags of %cr0, which holds [cr0]. *)
Definition mem_init_cr0 (cr0 : Z) : K unit :=
  let cr0 := cr0 .| (((((CR0_PE .| CR0_PG) .| CR0_AM) .| CR0_WP) .| CR0_NE) .| CR0_MP) in
  let cr0 := cr0 .& Z.lnot (CR0_TS .| CR0_EM) in
  emit (ELcr0 cr0).
End mem_init.
