(* ===== verification/PmapAlloc.v ===== *)
(** * The physical page allocator

    The free list of pmap.c as a mathematical list, and what page_init,
    page_alloc, page_free and page_decref do to it. *)
From S2P Require Import Prelude Mmu Mem Console Kstate Pmap.

(** The pages array covers the machine's pages, of which there are at most
    65536: the kernel maps 256 MB at KERNBASE. *)
Definition pages_ok (s : kstate) : Prop :=
  0 <= npages s <= 65536 /\ forall i, is_Some (pages s !! i) <-> 0 <= i < npages s.

(** The chain of [pp_link] from [h] is exactly [l], and its pages have no
    references. *)
Fixpoint flist (pg : gmap Z PageInfo) (h : option Z) (l : list Z) : Prop :=
  match l with
  | [] => h = None
  | i :: l => h = Some i /\ exists p, pg !! i = Some p /\ pp_ref p = 0 /\ flist pg (pp_link p) l
  end.

(** The allocator's invariant: [l] is the free list. *)
Record alloc_ok (s : kstate) (l : list Z) : Prop := {
  ao_pages : pages_ok s;
  ao_list : flist (pages s) (page_free_list s) l;
  ao_nodup : NoDup l;
  ao_used : forall i p, pages s !! i = Some p -> i ∉ l -> pp_link p = None }.

(** The state after page [i], described by [p], left the free list. *)
Definition alloc_post (flags i : Z) (p : PageInfo) (s : kstate) : kstate :=
  let s := if has flags ALLOC_ZERO then set_mem (fill (mem s) (4096 * i) 0 4096) s else s in
  set_pages (<[i := set_pp_link None p]> (pages s)) (set_page_free_list (pp_link p) s).

Definition free_post (i : Z) (p : PageInfo) (s : kstate) : kstate :=
  set_page_free_list (Some i) (set_pages (<[i := set_pp_link (page_free_list s) p]> (pages s)) s).

(** ** Lemmas *)

Lemma page2pa_eq i : 0 <= i < 1048576 -> page2pa i = 4096 * i.
Proof.
  intros. unfold page2pa, PGSHIFT. rewrite Z.shiftl_mul_pow2 by lia. rewrite u32_small; zlia.
Qed.

Lemma KADDR_eq s pa :
  pages_ok s -> 0 <= pa < 4096 * npages s -> KADDR pa s = Ret (pa + KERNBASE) s.
Proof.
  intros [Hn _] Hpa. unfold KADDR. rewrite PGNUM_div.
  destruct (Z.geb_spec (pa / 4096) (npages s)); [lia|]. rewrite u32_small; [done|].
  unfold KERNBASE. lia.
Qed.

Lemma page2kva_eq s i :
  pages_ok s -> 0 <= i < npages s -> page2kva i s = Ret (4096 * i + KERNBASE) s.
Proof.
  intros Hok Hi. pose proof Hok as [? _]. unfold page2kva.
  rewrite page2pa_eq by lia. apply KADDR_eq; [done|lia].
Qed.

Lemma pa2page_eq s pa :
  0 <= pa < 4096 * npages s -> pa2page pa s = Ret (pa / 4096) s.
Proof.
  intros Hpa. unfold pa2page. rewrite PGNUM_div.
  by destruct (Z.geb_spec (pa / 4096) (npages s)); [lia|].
Qed.

Lemma upd_page_eq i f p s :
  pages s !! i = Some p -> upd_page i f s = Ret tt (set_pages (<[i := f p]> (pages s)) s).
Proof.
  intros H. unfold upd_page. erewrite bind_ret by (by apply get_page_eq). by eapply put_page_eq.
Qed.

Lemma pages_ok_lookup s i : pages_ok s -> 0 <= i < npages s -> exists p, pages s !! i = Some p.
Proof. intros [_ H] Hi. by apply H in Hi as [p ?]; eauto. Qed.

Lemma pages_ok_range s i p : pages_ok s -> pages s !! i = Some p -> 0 <= i < npages s.
Proof. intros [_ H] Hi. apply H. by eexists. Qed.

Lemma pages_ok_upd s i p q :
  pages_ok s -> pages s !! i = Some q -> pages_ok (set_pages (<[i := p]> (pages s)) s).
Proof.
  intros [Hn Hd] Hi. split; [done|]. intros j. simpl. rewrite <- Hd, !lookup_insert_is_Some.
  destruct (decide (i = j)); naive_solver.
Qed.

Lemma flist_insert pg h l i p : i ∉ l -> flist pg h l -> flist (<[i := p]> pg) h l.
Proof.
  revert h. induction l as [|j l IH]; intros h Hi; simpl; [done|].
  intros (-> & q & Hq & Hr & Hl). apply not_elem_of_cons in Hi as [Hij Hil].
  split; [done|]. exists q. rewrite lookup_insert_ne by done. auto.
Qed.

Lemma flist_dom pg h l i : flist pg h l -> i ∈ l -> exists p, pg !! i = Some p /\ pp_ref p = 0.
Proof.
  revert h. induction l as [|j l IH]; intros h; simpl; [set_solver|].
  intros (-> & q & Hq & Hr & Hl) [->|?]%elem_of_cons; eauto.
Qed.

Lemma flist_det pg h l l' : flist pg h l -> flist pg h l' -> l = l'.
Proof.
  revert h l'. induction l as [|i l IH]; intros h [|j l']; simpl; try done.
  - intros ->. by intros [? _].
  - intros [-> _]. done.
  - intros (-> & p & Hp & _ & Hl) ([= <-] & p' & Hp' & _ & Hl').
    simplify_eq. f_equal. eauto.
Qed.

(** The chain determines the list: an invariant holds of one list only. *)
Lemma alloc_ok_det s l l' : alloc_ok s l -> alloc_ok s l' -> l = l'.
Proof. intros [_ H _ _] [_ H' _ _]. eapply flist_det; eauto. Qed.

Lemma alloc_ok_range s l i : alloc_ok s l -> i ∈ l -> 0 <= i < npages s.
Proof.
  intros [Hp Hl _ _] Hi. destruct (flist_dom _ _ _ _ Hl Hi) as (p & ? & _).
  by eapply pages_ok_range.
Qed.

(** A change of memory, or of anything else the allocator does not look at. *)
Lemma alloc_ok_frame s s' l :
  npages s' = npages s -> pages s' = pages s -> page_free_list s' = page_free_list s ->
  alloc_ok s l -> alloc_ok s' l.
Proof.
  intros Hn Hp Hf [[Ha Hb] Hl Hd Hu]. split; unfold pages_ok; rewrite ?Hn, ?Hp, ?Hf; try done.
Qed.

(** A used page may get any reference count. *)
Lemma alloc_ok_ref s l i p r :
  alloc_ok s l -> pages s !! i = Some p -> i ∉ l ->
  alloc_ok (set_pages (<[i := set_pp_ref r p]> (pages s)) s) l.
Proof.
  intros [Hok Hl Hd Hu] Hi Hn. split.
  - by eapply pages_ok_upd.
  - simpl. by apply flist_insert.
  - done.
  - simpl. intros j q. destruct (decide (i = j)) as [->|].
    + rewrite lookup_insert_eq. intros [= <-] ?. simpl. by eapply Hu.
    + rewrite lookup_insert_ne by done. apply Hu.
Qed.

Lemma page_alloc_nil s flags : alloc_ok s [] -> page_alloc flags s = Ret None s.
Proof. intros [_ Hl _ _]. simpl in Hl. unfold page_alloc. kpure. by rewrite Hl. Qed.

Lemma page_alloc_cons s flags i l :
  alloc_ok s (i :: l) ->
  exists p, pages s !! i = Some p /\ pp_ref p = 0 /\
    page_alloc flags s = Ret (Some i) (alloc_post flags i p s) /\
    alloc_ok (alloc_post flags i p s) l.
Proof.
  intros Hok. pose proof Hok as [Hp (Hh & p & Hi & Hr & Hl) Hd Hu].
  exists p. do 2 (split; [done|]). apply NoDup_cons in Hd as [Hil Hd].
  assert (Hrange : 0 <= i < npages s) by (by eapply pages_ok_range).
  split.
  - unfold page_alloc. kpure. rewrite Hh.
    assert (Hz : (if has flags ALLOC_ZERO then kva <- page2kva i;; kmemset kva 0 PGSIZE else ret tt) s
      = Ret tt (if has flags ALLOC_ZERO then set_mem (fill (mem s) (4096 * i) 0 4096) s else s)).
    { destruct (has flags ALLOC_ZERO); [|done].
      erewrite bind_ret by (by apply page2kva_eq). unfold kmemset.
      destruct (Z.ltb_spec (4096 * i + KERNBASE) KERNBASE); [lia|].
      by replace (4096 * i + KERNBASE - KERNBASE) with (4096 * i) by lia. }
    kstep Hz. unfold alloc_post.
    set (s1 := if has flags ALLOC_ZERO then _ else s).
    assert (Hs1 : pages s1 = pages s) by (by unfold s1; case_match).
    erewrite bind_ret by (apply get_page_eq; by rewrite Hs1).
    kpure.
    erewrite bind_ret by (apply upd_page_eq; simpl; by rewrite Hs1).
    done.
  - unfold alloc_post. set (s1 := if has flags ALLOC_ZERO then _ else s).
    assert (Hs1 : pages s1 = pages s /\ npages s1 = npages s) by (by unfold s1; case_match).
    destruct Hs1 as [Hs1 Hn1]. split.
    + destruct Hp as [Hp1 Hp2]. split; simpl; rewrite ?Hn1, ?Hs1; [done|].
      intros j. rewrite <- Hp2, lookup_insert_is_Some. destruct (decide (i = j)); naive_solver.
    + simpl. rewrite Hs1. by apply flist_insert.
    + done.
    + simpl. rewrite Hs1. intros j q. destruct (decide (i = j)) as [->|].
      * rewrite lookup_insert_eq. by intros [= <-].
      * rewrite lookup_insert_ne by done. intros ? ?. eapply Hu; [done|set_solver].
Qed.

Lemma page_free_eq s i p :
  pages s !! i = Some p -> pp_ref p = 0 -> pp_link p = None ->
  page_free i s = Ret tt (free_post i p s).
Proof.
  intros Hi Hr Hl. unfold page_free. erewrite bind_ret by (by apply get_page_eq).
  rewrite Hr, Hl. simpl. kpure.
  erewrite bind_ret by (by apply upd_page_eq). done.
Qed.

Lemma alloc_ok_free s l i p :
  alloc_ok s l -> pages s !! i = Some p -> pp_ref p = 0 -> i ∉ l ->
  alloc_ok (free_post i p s) (i :: l).
Proof.
  intros [Hok Hl Hd Hu] Hi Hr Hn. split.
  - destruct Hok as [Hp1 Hp2]. split; [done|]. intros j. simpl.
    rewrite <- Hp2, lookup_insert_is_Some. destruct (decide (i = j)); naive_solver.
  - simpl. split; [done|]. eexists. rewrite lookup_insert_eq. split; [done|]. simpl.
    split; [done|]. by apply flist_insert.
  - by apply NoDup_cons.
  - simpl. intros j q Hj [? ?]%not_elem_of_cons. rewrite lookup_insert_ne in Hj by done. eauto.
Qed.

(** Dropping a reference: the page is freed exactly when it was the last one. *)
Lemma page_decref_eq s l i p :
  alloc_ok s l -> pages s !! i = Some p -> i ∉ l -> 0 < pp_ref p < 0x10000 ->
  exists s', page_decref i s = Ret tt s' /\
    mem s' = mem s /\ alloc_ok s' (if pp_ref p =? 1 then i :: l else l) /\
    (exists fl pg, s' = set_page_free_list fl (set_pages pg s)) /\
    (forall j, pp_ref <$> pages s' !! j =
       if decide (j = i) then Some (pp_ref p - 1) else pp_ref <$> pages s !! j).
Proof.
  intros Hok Hi Hn Hr. pose proof Hok as [_ _ _ Hu].
  unfold page_decref. erewrite bind_ret by (by apply get_page_eq).
  rewrite u16_small by lia. erewrite bind_ret by (by apply upd_page_eq).
  set (q := set_pp_ref (pp_ref p - 1) p). set (s1 := set_pages _ s).
  assert (Hok1 : alloc_ok s1 l) by (by apply alloc_ok_ref).
  assert (Hq : pages s1 !! i = Some q) by (simpl; apply lookup_insert_eq).
  assert (Href : forall j, pp_ref <$> pages s1 !! j =
       if decide (j = i) then Some (pp_ref p - 1) else pp_ref <$> pages s !! j).
  { intros j. simpl. rewrite lookup_insert. repeat case_decide; subst; done. }
  destruct (Z.eqb_spec (pp_ref p - 1) 0) as [E|E].
  - assert (Hlink : pp_link q = None) by (by eapply (Hu i p)).
    exists (free_post i q s1). split; [by apply page_free_eq|].
    split; [done|]. assert (pp_ref p =? 1 = true) as -> by lia.
    split; [by apply alloc_ok_free|].
    split; [by repeat eexists|]. intros j. rewrite <- Href. simpl.
    destruct (decide (i = j)) as [->|]; [|by rewrite lookup_insert_ne].
    rewrite !lookup_insert_eq. done.
  - exists s1. split; [done|]. split; [done|]. assert (pp_ref p =? 1 = false) as -> by lia.
    split; [done|]. split; [|done]. exists (page_free_list s), (<[i:=q]> (pages s)).
    by destruct s.
Qed.

(** ** States that differ only in the page descriptors *)

Definition same_but_pages (s s' : kstate) : Prop :=
  exists fl pg, s' = set_page_free_list fl (set_pages pg s).

Lemma sbp_refl s : same_but_pages s s.
Proof. exists (page_free_list s), (pages s). by destruct s. Qed.

Lemma sbp_trans s1 s2 s3 : same_but_pages s1 s2 -> same_but_pages s2 s3 -> same_but_pages s1 s3.
Proof. intros (fl & pg & ->) (fl' & pg' & ->). by exists fl', pg'. Qed.

Lemma sbp_pages pg s : same_but_pages s (set_pages pg s).
Proof. exists (page_free_list s), pg. by destruct s. Qed.

#[export] Instance sbp_preorder : PreOrder same_but_pages.
Proof. split; [intros s; apply sbp_refl | intros s1 s2 s3; apply sbp_trans]. Qed.

(** ** page_init *)

Lemma page_init_free_spec s l i :
  alloc_ok s l -> 0 <= i < npages s -> i ∉ l ->
  exists s', page_init_free i s = Ret tt s' /\ alloc_ok s' (i :: l) /\ same_but_pages s s' /\
    forall j, pp_ref <$> pages s' !! j = if decide (j = i) then Some 0 else pp_ref <$> pages s !! j.
Proof.
  intros Hok Hi Hn. destruct (pages_ok_lookup s i (ao_pages _ _ Hok) Hi) as [p Hp].
  unfold page_init_free. erewrite bind_ret by (by apply upd_page_eq). kpure.
  set (s1 := set_pages _ s). assert (Hp1 : pages s1 !! i = Some (set_pp_ref 0 p))
    by (simpl; apply lookup_insert_eq).
  erewrite bind_ret by (by apply upd_page_eq).
  exists (free_post i (set_pp_ref 0 p) s1). split; [done|].
  split; [apply alloc_ok_free; try done; by apply alloc_ok_ref|].
  split; [by repeat eexists|]. intros j. simpl.
  destruct (decide (j = i)) as [->|]; [by rewrite !lookup_insert_eq|by rewrite !lookup_insert_ne].
Qed.

(** A loop of [page_init]: the indices for which [c] holds are freed, in order,
    the others are marked in use. *)
Lemma page_init_loop (c : Z -> bool) xs s l :
  alloc_ok s l -> NoDup xs -> (forall i, i ∈ xs -> 0 <= i < npages s /\ i ∉ l) ->
  exists s',
    for_each xs (fun i => if c i then page_init_free i else upd_page i (set_pp_ref 1)) s = Ret tt s' /\
    alloc_ok s' (rev (filter (fun i => c i = true) xs) ++ l) /\ same_but_pages s s' /\
    forall j, pp_ref <$> pages s' !! j =
      if decide (j ∈ xs) then Some (if c j then 0 else 1) else pp_ref <$> pages s !! j.
Proof.
  revert s l. induction xs as [|i xs IH]; intros s l Hok Hd Hx.
  { exists s. do 2 (split; [done|]). split; [apply sbp_refl|].
    intros j. by rewrite decide_False by set_solver. }
  apply NoDup_cons in Hd as [Hi Hd]. destruct (Hx i ltac:(set_solver)) as [Hr Hn].
  set (l1 := if c i then i :: l else l).
  assert (H1 : exists s1, (if c i then page_init_free i else upd_page i (set_pp_ref 1)) s = Ret tt s1 /\
    alloc_ok s1 l1 /\ same_but_pages s s1 /\
    forall j, pp_ref <$> pages s1 !! j =
      if decide (j = i) then Some (if c i then 0 else 1) else pp_ref <$> pages s !! j).
  { unfold l1. destruct (c i); [by apply page_init_free_spec|].
    destruct (pages_ok_lookup s i (ao_pages _ _ Hok) Hr) as [p Hp].
    eexists. split; [by apply upd_page_eq|]. split; [by apply alloc_ok_ref|].
    split; [apply sbp_pages|]. intros j. simpl.
    destruct (decide (j = i)) as [->|]; [by rewrite lookup_insert_eq|by rewrite lookup_insert_ne]. }
  destruct H1 as (s1 & Hs1 & Hok1 & Hb1 & Hf1).
  destruct (IH s1 l1 Hok1 Hd) as (s' & Hs' & Hok' & Hb' & Hf').
  { intros j Hj. destruct Hb1 as (fl & pg & ->). destruct (Hx j ltac:(set_solver)).
    split; [done|]. unfold l1. destruct (c i); set_solver. }
  exists s'. split; [cbn [for_each]; by rewrite (bind_ret _ _ _ _ _ Hs1)|].
  split; [|split; [by etrans|]].
  - rewrite filter_cons. unfold l1 in Hok'. destruct (c i); case_decide; try done.
    simpl. by rewrite <- app_assoc.
  - intros j. rewrite Hf', Hf1. destruct (decide (j = i)) as [->|].
    + rewrite decide_False by done. by rewrite decide_True by set_solver.
    + destruct (decide (j ∈ xs)), (decide (j ∈ i :: xs)); set_solver.
Qed.

Lemma page_init_reserve xs s l :
  alloc_ok s l -> NoDup xs -> (forall i, i ∈ xs -> 0 <= i < npages s /\ i ∉ l) ->
  exists s', for_each xs (fun i => upd_page i (set_pp_ref 1)) s = Ret tt s' /\
    alloc_ok s' l /\ same_but_pages s s' /\
    forall j, pp_ref <$> pages s' !! j =
      if decide (j ∈ xs) then Some 1 else pp_ref <$> pages s !! j.
Proof.
  intros Hok Hd Hx. destruct (page_init_loop (fun _ => false) xs s l Hok Hd Hx)
    as (s' & Hs & Ho & Hb & Hf). exists s'. split; [done|]. split; [|done].
  by rewrite filter_none in Ho by done.
Qed.

Lemma page_init_release xs s l :
  alloc_ok s l -> NoDup xs -> (forall i, i ∈ xs -> 0 <= i < npages s /\ i ∉ l) ->
  exists s', for_each xs page_init_free s = Ret tt s' /\
    alloc_ok s' (rev xs ++ l) /\ same_but_pages s s' /\
    forall j, pp_ref <$> pages s' !! j =
      if decide (j ∈ xs) then Some 0 else pp_ref <$> pages s !! j.
Proof.
  intros Hok Hd Hx. destruct (page_init_loop (fun _ => true) xs s l Hok Hd Hx)
    as (s' & Hs & Ho & Hb & Hf). exists s'. split; [done|]. split; [|done].
  by rewrite filter_all in Ho by done.
Qed.

Lemma zero_alloc_ok n : Z.of_nat n <= 65536 -> alloc_ok (zero_kstate n) [].
Proof.
  intros Hn. split; simpl; try done.
  - split; simpl; [lia|]. intros i. rewrite zero_pages_lookup. case_decide; naive_solver.
  - apply NoDup_nil_2.
  - intros i p. rewrite zero_pages_lookup. case_decide; [by intros [= <-]|done].
Qed.

Lemma flist_segment pg pg' h l i l1 :
  flist pg h (l ++ [i]) -> i ∉ l -> (forall j, j ∈ l -> pg' !! j = pg !! j) ->
  flist pg' h l1 -> exists l2, l1 = l ++ l2 /\ flist pg' (Some i) l2.
Proof.
  revert h l1. induction l as [|j l IH]; intros h l1; simpl.
  - intros [-> _] _ _ ?. by exists l1.
  - intros (-> & p & Hp & Hr & Hl) Hi Heq. destruct l1 as [|j' l1]; simpl; [done|].
    intros ([= <-] & p' & Hp' & _ & Hl'). rewrite Heq, Hp in Hp' by set_solver.
    injection Hp' as <-. destruct (IH _ l1 Hl) as (l2 & -> & ?);
      [set_solver | intros; apply Heq; set_solver | done | by exists l2].
Qed.

(** ** Properties *)

(** [page_alloc] returns the head of the free list, or NULL exactly when the
    list is empty; it takes that page, and only it, off the list, clears its
    link, clears its 4096 bytes exactly when ALLOC_ZERO is given, touches no other
    memory and no reference count, and keeps the allocator's invariant. *)
Theorem page_alloc_correct (s : kstate) (l : list Z) (flags : Z) :
  alloc_ok s l ->
  match l with
  | [] => page_alloc flags s = Ret None s
  | i :: l' => exists s',
      page_alloc flags s = Ret (Some i) s' /\ alloc_ok s' l' /\
      (forall j, pp_ref <$> pages s' !! j = pp_ref <$> pages s !! j) /\
      pp_link <$> pages s' !! i = Some None /\
      (forall a, load8 (mem s') a =
         if has flags ALLOC_ZERO && bool_decide (4096 * i <= a < 4096 * i + 4096)
         then 0 else load8 (mem s) a)
  end.
Proof.
  intros Hok. destruct l as [|i l']; [by apply page_alloc_nil|].
  destruct (page_alloc_cons s flags i l' Hok) as (p & Hp & Hr & Heq & Hok').
  exists (alloc_post flags i p s). do 2 (split; [done|]). split; [|split].
  - intros j. unfold alloc_post. destruct (has flags ALLOC_ZERO); simpl;
      (destruct (decide (i = j)) as [->|]; [by rewrite lookup_insert_eq, Hp|by rewrite lookup_insert_ne]).
  - unfold alloc_post. destruct (has flags ALLOC_ZERO); simpl; by rewrite lookup_insert_eq.
  - intros a. unfold alloc_post. destruct (has flags ALLOC_ZERO); simpl; [|done].
    rewrite load8_fill. destruct (decide (4096 * i <= a < 4096 * i + Z.of_nat 4096)).
    + by rewrite bool_decide_true by lia.
    + by rewrite bool_decide_false by lia.
Qed.

(** A machine with 8 pages of which page 5 is free. *)
Definition one_free : kstate := free_post 5 (mkPage None 0) (zero_kstate 8).
Lemma one_free_ok : alloc_ok one_free [5].
Proof. apply alloc_ok_free; [by apply zero_alloc_ok|reflexivity|done|set_solver]. Qed.

Lemma page_alloc_correct_witness :
  exists s', page_alloc ALLOC_ZERO one_free = Ret (Some 5) s' /\ alloc_ok s' [].
Proof.
  destruct (page_alloc_correct one_free [5] ALLOC_ZERO one_free_ok) as (s' & H & Hok & _).
  exists s'. exact (conj H Hok).
Defined.

(** Freeing a page and allocating again gives the same page back and the
    state as it was: the free list is a stack. *)
Theorem page_free_alloc_roundtrip (s : kstate) (l : list Z) (i : Z) (p : PageInfo) :
  alloc_ok s l -> pages s !! i = Some p -> pp_ref p = 0 -> i ∉ l ->
  (page_free i ;; page_alloc 0) s = Ret (Some i) s.
Proof.
  intros Hok Hp Hr Hn. pose proof (ao_used _ _ Hok _ _ Hp Hn) as Hl.
  rewrite (bind_ret _ _ _ _ _ (page_free_eq _ _ _ Hp Hr Hl)).
  pose proof (alloc_ok_free _ _ _ _ Hok Hp Hr Hn) as Hok'.
  destruct (page_alloc_cons _ 0 _ _ Hok') as (q & Hq & _ & -> & _).
  simpl in Hq. rewrite lookup_insert_eq in Hq. injection Hq as <-. f_equal.
  unfold alloc_post, free_post, has. simpl. rewrite insert_insert_eq.
  assert (set_pp_link None (set_pp_link (page_free_list s) p) = p) as ->.
  { destruct p. simpl in *. by subst. }
  rewrite insert_id by done. by destruct s.
Qed.

Lemma page_free_alloc_roundtrip_witness :
  (page_free 3 ;; page_alloc 0) one_free = Ret (Some 3) one_free.
Proof.
  apply (page_free_alloc_roundtrip one_free [5] 3 (mkPage None 0));
    [exact one_free_ok | reflexivity | reflexivity | set_solver].
Defined.

(** [page_free] on a page that is already free panics, except on the last
    page of the free list: that one is taken, and the list becomes a cycle. *)
Theorem page_double_free (s : kstate) (l : list Z) (i : Z) :
  alloc_ok s (l ++ [i]) ->
  (forall j, j ∈ l -> exists s', page_free j s = Panic s') /\
  exists s', page_free i s = Ret tt s' /\ forall l', ~ flist (pages s') (page_free_list s') l'.
Proof.
  intros [Hp Hl Hd Hu]. split.
  - intros j Hj. apply list_elem_of_split in Hj as (l1 & l2 & ->).
    assert (H : exists p, pages s !! j = Some p /\ pp_link p <> None).
    { clear Hd Hu Hp. revert Hl. generalize (page_free_list s) as h.
      rewrite <- app_assoc. simpl. induction l1 as [|k l1 IH]; intros h; simpl.
      - intros (-> & p & Hp & _ & Hn). exists p. split; [done|].
        by destruct l2; simpl in Hn; destruct Hn as [Hn _]; rewrite Hn.
      - intros (_ & p & _ & _ & Hn). by eapply IH. }
    destruct H as (p & Hj & Hlink). exists (set_panicstr true s). unfold page_free.
    erewrite bind_ret by (by apply get_page_eq).
    rewrite bool_decide_true by done. by rewrite orb_true_r.
  - apply NoDup_app in Hd as (_ & Hil & _).
    assert (Hni : i ∉ l) by (intros Hi; by apply (Hil i Hi); set_solver).
    assert (H : exists p, pages s !! i = Some p /\ pp_ref p = 0 /\ pp_link p = None).
    { clear - Hl. revert Hl. generalize (page_free_list s) as h.
      induction l as [|k l IH]; intros h; simpl.
      - intros (-> & p & ? & ? & ?). eauto.
      - intros (_ & p & _ & _ & Hn). by eapply IH. }
    destruct H as (p & Hi & Hr & Hlink). exists (free_post i p s).
    split; [by apply page_free_eq|]. simpl. set (pg' := <[i:=_]> _). intros l' Hl'.
    destruct l' as [|i' l1]; [done|]. pose proof Hl' as ([= <-] & q & Hq & _ & Hl1).
    unfold pg' in Hq. rewrite lookup_insert_eq in Hq. injection Hq as <-. simpl in Hl1.
    destruct (flist_segment _ pg' _ _ _ l1 Hl Hni) as (l2 & -> & Hl2); [|done|].
    { intros j Hj. unfold pg'. rewrite lookup_insert_ne; [done|]. congruence. }
    pose proof (flist_det _ _ _ _ Hl' Hl2) as E. apply (f_equal length) in E.
    rewrite length_cons, length_app in E. lia.
Qed.

Lemma page_double_free_witness :
  exists s', page_free 5 one_free = Ret tt s' /\
    forall l', ~ flist (pages s') (page_free_list s') l'.
Proof. exact (proj2 (page_double_free one_free [] 5 one_free_ok)). Defined.

(** [boot_alloc(0)] after the first call: the end of the allocated region. *)
Lemma boot_alloc_0 end_ s : nextfree s <> 0 -> boot_alloc end_ 0 s = Ret (nextfree s) s.
Proof. intros H. unfold boot_alloc. kpure. apply Z.eqb_neq in H. by rewrite H. Qed.

(** C33: [page_init] builds the free list: exactly the base memory pages 1 to
    [npages_basemem - 1] without the one at MPENTRY_PADDR, and the pages from 256
    plus the size of the kernel (as [boot_alloc(0)] gives it, counted from
    physical address 0) upwards, highest page first; the free pages have
    reference count 0, and with 640K of base memory all the others have 1. *)
Theorem page_init_free_list (end_ : Z) (s : kstate) :
  alloc_ok s [] -> KERNBASE <= nextfree s < 0x100000000 ->
  1 <= npages_basemem s <= 160 ->
  let kernel := (nextfree s - KERNBASE) / PGSIZE in
  256 + kernel <= npages s ->
  let free := rev (seqZ (256 + kernel) (npages s - (256 + kernel))) ++
              rev (filter (fun i => negb (i =? 7) = true) (seqZ 1 (npages_basemem s - 1))) in
  exists s', page_init end_ s = Ret tt s' /\ alloc_ok s' free /\ same_but_pages s s' /\
    (npages_basemem s = 160 -> forall i, 0 <= i < npages s ->
       pp_ref <$> pages s' !! i = Some (if decide (i ∈ free) then 0 else 1)).
Proof.
  intros Hok Hnf Hnb. assert (Hnf0 : nextfree s <> 0) by (unfold KERNBASE in Hnf; lia).
  intros kernel Hk free. unfold page_init.
  erewrite bind_ret by (by apply boot_alloc_0).
  assert (u32 (nextfree s - KERNBASE) / PGSIZE = kernel) as ->.
  { unfold kernel. rewrite u32_small; [done|]. clear -Hnf. unfold KERNBASE in *. lia. }
  assert (0 <= kernel) by (unfold kernel, PGSIZE; clear -Hnf; lia).
  clearbody kernel.
  destruct (page_init_reserve [0] s [] Hok) as (s0 & H0 & Hok0 & Hb0 & Hf0).
  { apply NoDup_singleton. } { intros i ->%list_elem_of_singleton. split; [lia|set_solver]. }
  assert (H0' : upd_page 0 (set_pp_ref 1) s = Ret tt s0).
  { cbn [for_each] in H0. apply bind_inv in H0 as ([] & ? & ? & Hr). by injection Hr as <-. }
  rewrite (bind_ret _ _ _ _ _ H0'). kpure.
  assert (Hn0 : npages s0 = npages s /\ npages_basemem s0 = npages_basemem s)
    by (by destruct Hb0 as (? & ? & ->)).
  destruct Hn0 as [Hn0 Hm0]. rewrite Hm0.
  change (PGNUM MPENTRY_PADDR) with 7.
  set (xs1 := seqZ 1 (npages_basemem s - 1)).
  destruct (page_init_loop (fun i => negb (i =? 7)) xs1 s0 [] Hok0) as (s1 & H1 & Hok1 & Hb1 & Hf1).
  { apply NoDup_seqZ. } { intros i Hi%elem_of_seqZ. split; [lia|set_solver]. }
  assert (H1' : for_each xs1 (fun i => if i =? 7 then upd_page i (set_pp_ref 1) else page_init_free i) s0
    = Ret tt s1).
  { rewrite <- H1. clear. generalize xs1 as xs, s0. induction xs as [|i xs IH]; [done|].
    intros t. cbn [for_each]. unfold bind in *. destruct (i =? 7); simpl; case_match; done. }
  rewrite (bind_ret _ _ _ _ _ H1'). clear H1 H1'. rewrite app_nil_r in Hok1.
  set (l1 := rev (filter _ xs1)) in *.
  assert (Hl1 : forall i, i ∈ l1 <-> 1 <= i < npages_basemem s /\ i <> 7).
  { intros i. unfold l1. rewrite list_elem_of_In, <- in_rev, <- list_elem_of_In.
    rewrite list_elem_of_filter. unfold xs1. rewrite elem_of_seqZ.
    rewrite negb_true_iff, Z.eqb_neq. lia. }
  assert (Hn1 : npages s1 = npages s) by (by destruct Hb1 as (? & ? & ->)).
  destruct (page_init_reserve (seqZ 160 96) s1 l1 Hok1) as (s2 & H2 & Hok2 & Hb2 & Hf2).
  { apply NoDup_seqZ. } { intros i Hi%elem_of_seqZ. split; [lia|]. rewrite Hl1. lia. }
  rewrite (bind_ret _ _ _ _ _ H2).
  assert (Hn2 : npages s2 = npages s) by (by destruct Hb2 as (? & ? & ->)).
  destruct (page_init_reserve (seqZ 256 kernel) s2 l1 Hok2) as (s3 & H3 & Hok3 & Hb3 & Hf3).
  { apply NoDup_seqZ. } { intros i Hi%elem_of_seqZ. split; [lia|]. rewrite Hl1. lia. }
  rewrite (bind_ret _ _ _ _ _ H3). kpure.
  assert (Hn3 : npages s3 = npages s) by (by destruct Hb3 as (? & ? & ->)).
  rewrite Hn3.
  destruct (page_init_release (seqZ (256 + kernel) (npages s - (256 + kernel))) s3 l1 Hok3)
    as (s4 & H4 & Hok4 & Hb4 & Hf4).
  { apply NoDup_seqZ. } { intros i Hi%elem_of_seqZ. split; [lia|]. rewrite Hl1. lia. }
  exists s4. split; [done|]. split; [done|]. split.
  { by do 4 (etrans; [eassumption|]). }
  intros Hnb' i Hi. rewrite Hf4, Hf3, Hf2, Hf1, Hf0.
  assert (Hfree : i ∈ free <-> 256 + kernel <= i \/ (1 <= i < 160 /\ i <> 7)).
  { unfold free. rewrite elem_of_app. fold xs1. fold l1. rewrite Hl1. rewrite list_elem_of_In, <- in_rev, <- list_elem_of_In.
    rewrite elem_of_seqZ. lia. }
  unfold xs1. rewrite (decide_ext _ _ _ _ Hfree), !(decide_ext _ _ _ _ (elem_of_seqZ _ _ _)).
  rewrite (decide_ext _ _ _ _ (list_elem_of_singleton _ _)).
  clear -Hi Hk Hnb' H. destruct (Z.eqb_spec i 7); repeat case_decide; simpl; try done; lia.
Qed.

Lemma page_init_free_list_witness :
  let s := set_nextfree (KERNBASE + 0x120000) (zero_kstate 1024) in
  exists s', page_init 0 s = Ret tt s' /\
    alloc_ok s' (rev (seqZ 544 480) ++ rev (filter (fun i => negb (i =? 7) = true) (seqZ 1 159))).
Proof.
  intros s. destruct (page_init_free_list 0 s) as (s' & H & Hok & _).
  - eapply alloc_ok_frame; [..|apply (zero_alloc_ok 1024)]; reflexivity || (unfold KERNBASE; lia).
  - unfold s, KERNBASE. simpl. lia.
  - simpl. lia.
  - vm_compute. discriminate.
  - exists s'. exact (conj H Hok).
Defined.

(** [boot_alloc(n)] for [n > 0] returns the end of the region it has just
    reserved, not its start: the [n] bytes at the returned address lie above
    [nextfree], outside everything [boot_alloc] has accounted for, so that what
    [boot_alloc(0)] reports as the first free byte is the returned address itself. *)
Theorem boot_alloc_returns_end (end_ n : Z) (s : kstate) :
  0 < n -> nextfree s <> 0 -> 0 <= nextfree s -> nextfree s + n + PGSIZE <= 0x100000000 ->
  KERNBASE <= nextfree s -> nextfree s + n + PGSIZE - KERNBASE <= npages s * PGSIZE < 0x100000000 ->
  exists a, a = ROUNDUP (nextfree s + n) PGSIZE /\ nextfree s + n <= a /\
    boot_alloc end_ n s = Ret a (set_nextfree a s) /\
    boot_alloc end_ 0 (set_nextfree a s) = Ret a (set_nextfree a s).
Proof.
  intros Hn Hz Hnf Hov Hk Hm. exists (ROUNDUP (nextfree s + n) PGSIZE).
  unfold PGSIZE, KERNBASE in *.
  pose proof (ROUNDUP_spec (nextfree s + n) 4096 ltac:(lia) ltac:(lia) ltac:(lia)) as [Hr _].
  set (a := ROUNDUP (nextfree s + n) 4096) in *. split; [done|]. split; [lia|].
  split; [|by apply boot_alloc_0; simpl; lia].
  unfold boot_alloc. kpure. apply Z.eqb_neq in Hz. rewrite Hz. kpure.
  assert (0 <? n = true) as -> by lia. kpure. unfold PGSIZE. rewrite (u32_small (nextfree s + n)) by lia.
  fold a. simpl. rewrite !u32_small by (unfold KERNBASE; lia). unfold KERNBASE.
  destruct (Z.gtb_spec (a - 4026531840) (npages s * 4096)); [lia|]. by kpure.
Qed.

Lemma boot_alloc_returns_end_witness :
  let s := set_nextfree (KERNBASE + 0x120000) (zero_kstate 1024) in
  exists a, a = KERNBASE + 0x121000 /\ boot_alloc 0 PGSIZE s = Ret a (set_nextfree a s).
Proof.
  intros s. destruct (boot_alloc_returns_end 0 PGSIZE s) as (a & Ha & _ & H & _);
    [unfold s; cbn [nextfree npages set_nextfree zero_kstate]; unfold KERNBASE, PGSIZE; lia ..|].
  exists a. split; [exact Ha|exact H].
Defined.
