(* ===== verification/PmapSpace.v ===== *)
(** * User address spaces

    The page tables of all the environments as one finite map from (page
    directory, virtual page number) to page table entry, the invariant that ties
    the map, the reference counts and the free list to the bytes in memory, and
    its preservation by pgdir_walk and by the store of a page table entry. *)
From S2P Require Import Prelude Mmu Mem Console Kstate Pmap PmapAlloc.

(** ** Reading page tables

    A page directory or page table is named by its physical page number. *)
Definition frame_of (e : Z) : Z := e / 4096.
Definition ent_addr (t j : Z) : Z := 4096 * t + 4 * j.
Definition entry (m : bytemem) (t j : Z) : Z := load32 m (ent_addr t j).
Definition pgdir_kva (d : Z) : Z := KERNBASE + 4096 * d.

Definition present (m : bytemem) (d i : Z) : bool := has (entry m d i) PTE_P.
(** The page table entry [j] of the page table [i] of directory [d]. *)
Definition uent (m : bytemem) (d i j : Z) : option Z :=
  if present m d i then
    let e := entry m (frame_of (entry m d i)) j in if has e PTE_P then Some e else None
  else None.

(** What the processor finds for linear address [va] in directory [d]. *)
Definition mmu_walk (m : bytemem) (d va : Z) : option Z := uent m d (PDX va) (PTX va).

(** Page directory entries below UTOP, and virtual pages below UTOP. *)
Definition NUPDE : Z := 955.
Definition NUVPN : Z := 955 * 1024.

(** The entry of a directory through which it is its own page table. *)
Definition UVPDE : Z := 957.

Lemma NUPDE_eq : NUPDE = PDX UTOP.
Proof. reflexivity. Qed.
Lemma NUVPN_eq : NUVPN * PGSIZE = UTOP.
Proof. reflexivity. Qed.
Lemma UVPDE_eq : UVPDE = PDX UVPT.
Proof. reflexivity. Qed.

(** ** The abstract address spaces *)

Abbreviation aspace := (gmap (Z * Z) Z).

(** The number of mappings of physical page [i]. *)
Definition mappings (M : aspace) (i : Z) : Z :=
  Z.of_nat (size (filter (fun kv => frame_of kv.2 = i) M)).

(** The invariant: [l] is the free list, [D] the page directories in use, [M]
    the user mappings and [X i] the references to page [i] held by the kernel
    on its way between two consistent states (zero at rest). *)
Record vm_ok (s : kstate) (l : list Z) (D : gset Z) (M : aspace) (X : Z -> Z) : Prop := {
  vo_alloc : alloc_ok s l;
  vo_mem : mem_ok (mem s);
  vo_dir d : d ∈ D -> d ∉ l /\ pp_ref <$> pages s !! d = Some 1;
  vo_tab d i : d ∈ D -> 0 <= i < NUPDE -> present (mem s) d i = true ->
    let t := frame_of (entry (mem s) d i) in
    t ∉ l /\ t ∉ D /\ pp_ref <$> pages s !! t = Some 1;
  vo_inj d i d' i' : d ∈ D -> d' ∈ D -> 0 <= i < NUPDE -> 0 <= i' < NUPDE ->
    present (mem s) d i = true -> present (mem s) d' i' = true ->
    frame_of (entry (mem s) d i) = frame_of (entry (mem s) d' i') -> d = d' /\ i = i';
  vo_map d i j : d ∈ D -> 0 <= i < NUPDE -> 0 <= j < 1024 ->
    uent (mem s) d i j = M !! (d, 1024 * i + j);
  vo_dom d v e : M !! (d, v) = Some e -> d ∈ D /\ 0 <= v < NUVPN;
  vo_data i : 0 < mappings M i + X i ->
    i ∉ l /\ i ∉ D /\ pp_ref <$> pages s !! i = Some (mappings M i + X i) /\
    forall d k, d ∈ D -> 0 <= k < NUPDE -> present (mem s) d k = true ->
      frame_of (entry (mem s) d k) <> i;
  vo_X i : 0 <= X i;
  vo_bound i : mappings M i + X i < 0x10000;
  vo_self d : d ∈ D -> entry (mem s) d UVPDE = 4096 * d + 5;
  vo_pde d i : d ∈ D -> 0 <= i < NUPDE -> present (mem s) d i = true -> entry (mem s) d i mod 4096 = 7 }.

(** Page [p] is neither a directory nor a page table. *)
Definition no_table (s : kstate) (D : gset Z) (p : Z) : Prop :=
  p ∉ D /\ forall d i, d ∈ D -> 0 <= i < NUPDE -> present (mem s) d i = true ->
    frame_of (entry (mem s) d i) <> p.

(** The pages that are neither free nor part of the page tables keep their
    contents (and stay what they are). *)
Definition data_frame (s s' : kstate) (l : list Z) (D : gset Z) : Prop :=
  forall t, t ∉ l -> no_table s D t ->
    no_table s' D t /\ forall j, 0 <= j < 1024 -> entry (mem s') t j = entry (mem s) t j.

(** Page [pp] may be mapped: it is neither free nor part of the page tables,
    and its counter counts its mappings. *)
Definition insertable (s : kstate) (l : list Z) (D : gset Z) (M : aspace) (pp : Z) : Prop :=
  pp ∉ l /\ pp ∉ D /\ pp_ref <$> pages s !! pp = Some (mappings M pp) /\
  forall d k, d ∈ D -> 0 <= k < NUPDE -> present (mem s) d k = true ->
    frame_of (entry (mem s) d k) <> pp.

(** ** Counting mappings *)

Lemma mappings_nonneg M i : 0 <= mappings M i.
Proof. unfold mappings. lia. Qed.

Lemma mappings_insert M k e i :
  M !! k = None -> mappings (<[k := e]> M) i = mappings M i + (if decide (frame_of e = i) then 1 else 0).
Proof.
  intros Hk. unfold mappings. rewrite map_filter_insert. cbn [snd]. case_decide as He.
  - rewrite map_size_insert_None; [lia|]. apply map_lookup_filter_None. by left.
  - rewrite delete_id by done. lia.
Qed.

Lemma mappings_delete M k e i :
  M !! k = Some e -> mappings (delete k M) i = mappings M i - (if decide (frame_of e = i) then 1 else 0).
Proof.
  intros Hk. rewrite <- (insert_delete_id M k e Hk) at 2.
  rewrite mappings_insert by apply lookup_delete_eq. lia.
Qed.

Lemma mappings_pos M k e : M !! k = Some e -> 0 < mappings M (frame_of e).
Proof.
  intros Hk. pose proof (mappings_delete M k e (frame_of e) Hk) as H.
  rewrite decide_True in H by done. pose proof (mappings_nonneg (delete k M) (frame_of e)). lia.
Qed.

Lemma mappings_exists M i : 0 < mappings M i -> exists k e, M !! k = Some e /\ frame_of e = i.
Proof.
  unfold mappings. intros H. destruct (map_choose (filter (fun kv => frame_of kv.2 = i) M)) as (k & e & Hk).
  - intros E. rewrite E, map_size_empty in H. lia.
  - apply map_lookup_filter_Some in Hk as [? ?]. by exists k, e.
Qed.

(** ** Entries in memory *)

Lemma ent_addr_sep t j t' j' :
  0 <= j < 1024 -> 0 <= j' < 1024 -> (t, j) <> (t', j') ->
  ent_addr t j + 4 <= ent_addr t' j' \/ ent_addr t' j' + 4 <= ent_addr t j.
Proof.
  intros Hj Hj' Hne. unfold ent_addr. destruct (decide (t = t')) as [->|].
  - assert (j <> j') by congruence. lia.
  - lia.
Qed.

Lemma entry_store_eq m t j v : entry (store32 m (ent_addr t j) v) t j = u32 v.
Proof. unfold entry. by rewrite load32_store32_eq. Qed.

Lemma entry_store_ne m t j v t' j' :
  0 <= j < 1024 -> 0 <= j' < 1024 -> (t, j) <> (t', j') ->
  entry (store32 m (ent_addr t j) v) t' j' = entry m t' j'.
Proof. intros. unfold entry. apply load32_store32_ne. by apply ent_addr_sep. Qed.

Lemma entry_fill m n t j :
  0 <= j < 1024 ->
  entry (fill m (4096 * n) 0 4096) t j = if decide (t = n) then 0 else entry m t j.
Proof.
  intros Hj. unfold entry, ent_addr. case_decide.
  - apply load32_fill0_in; lia.
  - apply load32_fill_out. lia.
Qed.

Lemma entry_range m t j : mem_ok m -> 0 <= entry m t j < 0x100000000.
Proof. apply load32_range. Qed.

Lemma kload_entry s t j :
  0 <= t -> 0 <= j -> kload32 (KERNBASE + ent_addr t j) s = Ret (entry (mem s) t j) s.
Proof.
  intros Ht Hj. unfold kload32, ent_addr. destruct (Z.ltb_spec (KERNBASE + (4096 * t + 4 * j)) KERNBASE); [lia|].
  unfold entry, ent_addr. do 2 f_equal. lia.
Qed.

Lemma kstore_entry s t j v :
  0 <= t -> 0 <= j ->
  kstore32 (KERNBASE + ent_addr t j) v s = Ret tt (set_mem (store32 (mem s) (ent_addr t j) v) s).
Proof.
  intros Ht Hj. unfold kstore32, ent_addr. destruct (Z.ltb_spec (KERNBASE + (4096 * t + 4 * j)) KERNBASE); [lia|].
  do 3 f_equal. lia.
Qed.

(** ** Consequences of the invariant *)

Section vm.
Context {s : kstate} {l : list Z} {D : gset Z} {M : aspace} {X : Z -> Z}.
Context (Hvm : vm_ok s l D M X).

Lemma vm_ref_range i r : pp_ref <$> pages s !! i = Some r -> 0 <= i < npages s.
Proof.
  intros H. apply fmap_Some in H as (p & Hp & _).
  by eapply pages_ok_range; [apply (vo_alloc _ _ _ _ _ Hvm)|].
Qed.

Lemma vm_dir_range d : d ∈ D -> 0 <= d < npages s.
Proof. intros Hd. destruct (vo_dir _ _ _ _ _ Hvm d Hd) as [_ H]. by eapply vm_ref_range. Qed.

Lemma vm_tab_range d i :
  d ∈ D -> 0 <= i < NUPDE -> present (mem s) d i = true ->
  0 <= frame_of (entry (mem s) d i) < npages s.
Proof. intros Hd Hi Hp. destruct (vo_tab _ _ _ _ _ Hvm d i Hd Hi Hp) as (_ & _ & H). by eapply vm_ref_range. Qed.

Lemma vm_npages : 0 <= npages s <= 65536.
Proof. apply (ao_pages _ _ (vo_alloc _ _ _ _ _ Hvm)). Qed.

Lemma vm_va_parts va : 0 <= va < UTOP -> 0 <= PDX va < NUPDE /\ 0 <= PTX va < 1024 /\
  1024 * PDX va + PTX va = va / 4096 /\ 0 <= va / 4096 < NUVPN.
Proof.
  intros Hva. pose proof (PTX_range va). rewrite PDX_div, PTX_div.
  unfold NUPDE, NUVPN. autounfold with jconst in Hva. lia.
Qed.

(** The processor's walk is the abstract map. *)
Lemma vm_mmu_walk d va :
  d ∈ D -> 0 <= va < UTOP -> mmu_walk (mem s) d va = M !! (d, va / 4096).
Proof.
  intros Hd Hva. destruct (vm_va_parts va Hva) as (Hi & Hj & <- & _).
  unfold mmu_walk. by apply (vo_map _ _ _ _ _ Hvm).
Qed.

Lemma vm_mapped_data d v e : M !! (d, v) = Some e ->
  0 <= frame_of e < npages s /\ frame_of e ∉ l /\
  pp_ref <$> pages s !! frame_of e = Some (mappings M (frame_of e) + X (frame_of e)).
Proof.
  intros He. pose proof (mappings_pos _ _ _ He). pose proof (vo_X _ _ _ _ _ Hvm (frame_of e)).
  destruct (vo_data _ _ _ _ _ Hvm (frame_of e)) as (? & _ & Hr & _); [lia|].
  split; [by eapply vm_ref_range|done].
Qed.

(** A table that is there: the walk stops at its entry and changes nothing. *)
Lemma walk_present d va c :
  d ∈ D -> 0 <= va < UTOP -> present (mem s) d (PDX va) = true ->
  pgdir_walk (pgdir_kva d) va c s =
    Ret (Some (KERNBASE + ent_addr (frame_of (entry (mem s) d (PDX va))) (PTX va))) s.
Proof.
  intros Hd Hva Hp. destruct (vm_va_parts va Hva) as (Hi & Hj & _).
  pose proof (vm_dir_range d Hd). pose proof (vm_tab_range _ _ Hd Hi Hp).
  unfold pgdir_walk. replace (pgdir_kva d + 4 * PDX va) with (KERNBASE + ent_addr d (PDX va))
    by (unfold pgdir_kva, ent_addr; lia).
  erewrite bind_ret by (by apply kload_entry; lia).
  unfold present in Hp. rewrite Hp. rewrite PTE_ADDR_div. fold (frame_of (entry (mem s) d (PDX va))).
  erewrite bind_ret by (apply KADDR_eq; [apply (vo_alloc _ _ _ _ _ Hvm)|lia]).
  unfold ret, ent_addr. do 2 f_equal. lia.
Qed.

Lemma walk_absent d va :
  d ∈ D -> 0 <= va < UTOP -> present (mem s) d (PDX va) = false ->
  pgdir_walk (pgdir_kva d) va 0 s = Ret None s.
Proof.
  intros Hd Hva Hp. destruct (vm_va_parts va Hva) as (Hi & Hj & _).
  pose proof (vm_dir_range d Hd).
  unfold pgdir_walk. replace (pgdir_kva d + 4 * PDX va) with (KERNBASE + ent_addr d (PDX va))
    by (unfold pgdir_kva, ent_addr; lia).
  erewrite bind_ret by (by apply kload_entry; lia).
  unfold present in Hp. by rewrite Hp.
Qed.
End vm.

(** ** States that differ in memory, page descriptors and trace only *)

Definition vm_frame (s s' : kstate) : Prop :=
  exists m fl pg tr, s' = set_trace tr (set_mem m (set_page_free_list fl (set_pages pg s))).

#[export] Instance vm_frame_preorder : PreOrder vm_frame.
Proof.
  split.
  - intros s. exists (mem s), (page_free_list s), (pages s), (trace s). by destruct s.
  - intros s1 s2 s3 (m & fl & pg & tr & ->) (m' & fl' & pg' & tr' & ->). by exists m', fl', pg', tr'.
Qed.

(** States whose processor registers and locks agree. *)
Definition same_cpu (s s' : kstate) : Prop :=
  cpus s' = cpus s /\ this_cpu s' = this_cpu s /\ kernel_lock s' = kernel_lock s /\ cr3 s' = cr3 s /\
  panicstr s' = panicstr s.

#[export] Instance same_cpu_preorder : PreOrder same_cpu.
Proof.
  split; [done|]. intros s1 s2 s3 (? & ? & ? & ? & ?) (? & ? & ? & ? & ?). repeat split; congruence.
Qed.

Lemma vm_frame_same_cpu s s' : vm_frame s s' -> same_cpu s s'.
Proof. by intros (m & fl & pg & tr & ->). Qed.

Lemma sbp_vm_frame s s' : same_but_pages s s' -> vm_frame s s'.
Proof. intros (fl & pg & ->). exists (mem s), fl, pg, (trace s). by destruct s. Qed.

Lemma set_mem_vm_frame m s : vm_frame s (set_mem m s).
Proof. exists m, (page_free_list s), (pages s), (trace s). by destruct s. Qed.

Lemma set_trace_vm_frame tr s : vm_frame s (set_trace tr s).
Proof. exists (mem s), (page_free_list s), (pages s), tr. by destruct s. Qed.

Lemma vm_ok_frame s s' l D M X :
  mem s' = mem s -> pages s' = pages s -> page_free_list s' = page_free_list s ->
  npages s' = npages s -> vm_ok s l D M X -> vm_ok s' l D M X.
Proof.
  intros Hm Hp Hf Hn []. split; rewrite ?Hm, ?Hp; try done.
  by eapply (alloc_ok_frame s).
Qed.

Lemma data_frame_mem s s' l D : mem s' = mem s -> data_frame s s' l D.
Proof. intros Hm t _ [HD Ht]. split; [split; [done|]|]; by rewrite Hm. Qed.

Lemma data_frame_trans s1 s2 s3 l D :
  data_frame s1 s2 l D -> data_frame s2 s3 l D -> data_frame s1 s3 l D.
Proof.
  intros H1 H2 t Hl Ht. destruct (H1 t Hl Ht) as [Ht2 E2]. destruct (H2 t Hl Ht2) as [Ht3 E3].
  split; [done|]. intros j Hj. by rewrite E3, E2.
Qed.

Lemma data_frame_mono s s' l D : data_frame s s' [] D -> data_frame s s' l D.
Proof. intros H t _. apply H. by apply not_elem_of_nil. Qed.

(** ** A new page table *)

Lemma pde_value n : 0 <= n < 1048576 ->
  ((page2pa n .| PTE_P) .| PTE_U) .| PTE_W = 4096 * n + 7.
Proof.
  intros Hn. rewrite page2pa_eq by lia. rewrite <- !Z.lor_assoc. change (PTE_P .| (PTE_U .| PTE_W)) with 7.
  apply (lor_add_low _ _ 12); zlia.
Qed.

Lemma has_P_odd e : has e PTE_P = Z.odd e.
Proof.
  unfold has, PTE_P. change 1 with (Z.ones 1). rewrite Z.land_ones by lia. rewrite Zmod_odd.
  by destruct (Z.odd e).
Qed.

Lemma pde_value_props n : has (4096 * n + 7) PTE_P = true /\ frame_of (4096 * n + 7) = n.
Proof.
  split; [|unfold frame_of; lia]. rewrite has_P_odd.
  replace (4096 * n + 7) with (1 + 2 * (2048 * n + 3)) by lia. by rewrite Z.odd_add_mul_2.
Qed.

(** Every table entry of a directory lets the user read and write. *)
Lemma pde_has s l D M X d i p :
  vm_ok s l D M X -> d ∈ D -> 0 <= i < NUPDE -> present (mem s) d i = true -> 0 <= p < 4096 ->
  has (entry (mem s) d i) p = has 7 p.
Proof. intros Hvm Hd Hi Hp Hr. by rewrite has_mod, (vo_pde _ _ _ _ _ Hvm). Qed.

Section create.
Context {s : kstate} {n : Z} {l : list Z} {D : gset Z} {M : aspace} {X : Z -> Z}.
Context (Hvm : vm_ok s (n :: l) D M X).
Context (d i : Z) (Hd : d ∈ D) (Hi : 0 <= i < NUPDE) (Habs : present (mem s) d i = false).

(** The state after [page_alloc], the increment and the store of the entry. *)
Definition new_table (p : PageInfo) : kstate :=
  let s1 := alloc_post ALLOC_ZERO n p s in
  let s2 := set_pages (<[n := set_pp_ref 1 (set_pp_link None p)]> (pages s1)) s1 in
  set_mem (store32 (mem s2) (ent_addr d i) (4096 * n + 7)) s2.

Lemma new_table_entry p t j :
  0 <= j < 1024 ->
  entry (mem (new_table p)) t j =
    if decide ((t, j) = (d, i)) then 4096 * n + 7
    else if decide (t = n) then 0 else entry (mem s) t j.
Proof.
  intros Hj. pose proof (vm_npages Hvm). unfold new_table, alloc_post. simpl.
  assert (0 <= n < npages s).
  { eapply alloc_ok_range; [apply (vo_alloc _ _ _ _ _ Hvm)|set_solver]. }
  unfold NUPDE in Hi. case_decide as E.
  - injection E as -> ->. rewrite entry_store_eq. apply u32_small. lia.
  - rewrite entry_store_ne by (try lia; congruence). by apply entry_fill.
Qed.

Lemma new_table_ok p :
  pages s !! n = Some p -> alloc_ok (alloc_post ALLOC_ZERO n p s) l ->
  vm_ok (new_table p) l D M X.
Proof.
  intros Hp Hok. pose proof (new_table_entry p) as Hent.
  assert (Hnd : n ∉ D) by (intros Hn; destruct (vo_dir _ _ _ _ _ Hvm n Hn) as [[]%not_elem_of_cons ?]; done).
  assert (Hnl : n ∉ l) by (pose proof (ao_nodup _ _ (vo_alloc _ _ _ _ _ Hvm)) as Hx;
    by apply NoDup_cons in Hx as [? _]).
  assert (Href : forall k, pp_ref <$> pages (new_table p) !! k =
    if decide (k = n) then Some 1 else pp_ref <$> pages s !! k).
  { intros k. unfold new_table, alloc_post. simpl. rewrite insert_insert_eq.
    case_decide; [subst; by rewrite lookup_insert_eq|by rewrite lookup_insert_ne]. }
  assert (Hdir : forall d' i', d' ∈ D -> 0 <= i' < NUPDE ->
    entry (mem (new_table p)) d' i' = if decide ((d', i') = (d, i)) then 4096 * n + 7 else entry (mem s) d' i').
  { intros d' i' Hd' Hi'. rewrite Hent by (unfold NUPDE in Hi'; lia).
    case_decide; [done|]. rewrite decide_False; [done|congruence]. }
  assert (Hpres : forall d' i', d' ∈ D -> 0 <= i' < NUPDE -> (d', i') <> (d, i) ->
    present (mem (new_table p)) d' i' = present (mem s) d' i' /\
    entry (mem (new_table p)) d' i' = entry (mem s) d' i').
  { intros d' i' Hd' Hi' Hne. unfold present. rewrite Hdir, decide_False by done. done. }
  destruct (pde_value_props n) as [Hn1 Hn2].
  assert (Hnew : entry (mem (new_table p)) d i = 4096 * n + 7) by (rewrite Hdir, decide_True by done; done).
  split.
  - unfold new_table. eapply (alloc_ok_frame (set_pages _ (alloc_post ALLOC_ZERO n p s)));
      [..|eapply (alloc_ok_ref _ l n _ 1 Hok); [|done]]; try done.
    unfold alloc_post. simpl. apply lookup_insert_eq.
  - unfold new_table, alloc_post. simpl. apply mem_ok_store32, mem_ok_fill, (vo_mem _ _ _ _ _ Hvm).
  - intros d' Hd'. rewrite Href, decide_False by congruence.
    destruct (vo_dir _ _ _ _ _ Hvm d' Hd') as [[? ?]%not_elem_of_cons ?]. done.
  - intros d' i' Hd' Hi'. destruct (decide ((d', i') = (d, i))) as [[= -> ->]|Hne].
    + intros _. cbv zeta. rewrite Hnew, Hn2, Href, decide_True by done. done.
    + destruct (Hpres d' i' Hd' Hi' Hne) as [-> ->]. intros Hpr. cbv zeta.
      destruct (vo_tab _ _ _ _ _ Hvm d' i' Hd' Hi' Hpr) as ([? ?]%not_elem_of_cons & ? & ?).
      by rewrite Href, decide_False by done.
  - intros d1 i1 d2 i2 Hd1 Hd2 Hi1 Hi2.
    assert (Hdis : forall d' i', d' ∈ D -> 0 <= i' < NUPDE -> present (mem s) d' i' = true ->
      frame_of (entry (mem s) d' i') <> n).
    { intros d' i' Hd' Hi' Hpr. by destruct (vo_tab _ _ _ _ _ Hvm d' i' Hd' Hi' Hpr) as ([? ?]%not_elem_of_cons & _). }
    destruct (decide ((d1, i1) = (d, i))) as [E1|H1], (decide ((d2, i2) = (d, i))) as [E2|H2];
      try (destruct (Hpres d1 i1) as [-> ->]; [done..|]);
      try (destruct (Hpres d2 i2) as [-> ->]; [done..|]).
    + intros _ _ _. by split; congruence.
    + injection E1 as -> ->. rewrite Hnew, Hn2. intros _ Hp2 Heq. by destruct (Hdis d2 i2).
    + injection E2 as -> ->. rewrite Hnew, Hn2. intros Hp1 _ Heq. by destruct (Hdis d1 i1).
    + by apply (vo_inj _ _ _ _ _ Hvm).
  - intros d' i' j Hd' Hi' Hj. unfold uent.
    destruct (decide ((d', i') = (d, i))) as [[= -> ->]|Hne].
    + unfold present at 1. rewrite Hnew, Hn1, Hn2. rewrite Hent by done.
      rewrite decide_False, decide_True by (try done; intros [= -> _]; done). simpl.
      rewrite <- (vo_map _ _ _ _ _ Hvm d i j Hd Hi Hj). unfold uent. by rewrite Habs.
    + destruct (Hpres d' i' Hd' Hi' Hne) as [-> ->].
      rewrite <- (vo_map _ _ _ _ _ Hvm d' i' j Hd' Hi' Hj). unfold uent.
      destruct (present (mem s) d' i') eqn:Hpr; [|done].
      destruct (vo_tab _ _ _ _ _ Hvm d' i' Hd' Hi' Hpr) as ([? ?]%not_elem_of_cons & HtD & _).
      rewrite Hent by done. rewrite !decide_False; [done|done|].
      intros [= E _]. by rewrite E in HtD.
  - intros d' v e He. by eapply (vo_dom _ _ _ _ _ Hvm).
  - intros k Hk. destruct (vo_data _ _ _ _ _ Hvm k Hk) as (H1 & H2 & H3 & H4).
    apply not_elem_of_cons in H1 as [H1n H1]. split; [done|]. split; [done|].
    rewrite Href, decide_False by done. split; [done|]. intros d' k' Hd' Hk'. destruct (decide ((d', k') = (d, i))) as [[= -> ->]|Hne].
    + by rewrite Hnew, Hn2.
    + destruct (Hpres d' k' Hd' Hk' Hne) as [-> ->]. by apply H4.
  - apply (vo_X _ _ _ _ _ Hvm).
  - apply (vo_bound _ _ _ _ _ Hvm).
  - intros d' Hd'. rewrite Hent, !decide_False; [by apply (vo_self _ _ _ _ _ Hvm)|congruence| |done].
    intros [= _ E]. unfold NUPDE, UVPDE in *. lia.
  - intros d' i' Hd' Hi'. destruct (decide ((d', i') = (d, i))) as [[= -> ->]|Hne].
    + intros _. rewrite Hnew. lia.
    + destruct (Hpres d' i' Hd' Hi' Hne) as [-> ->]. by apply (vo_pde _ _ _ _ _ Hvm).
Qed.

Lemma new_table_insertable p pp :
  insertable s (n :: l) D M pp -> insertable (new_table p) l D M pp.
Proof.
  intros ([Hn Hl]%not_elem_of_cons & HD & Hr & Hno). split; [done|split; [done|split]].
  - unfold new_table, alloc_post. simpl. by rewrite !lookup_insert_ne.
  - intros d' k Hd' Hk. unfold present. rewrite new_table_entry by (unfold NUPDE in Hk; lia).
    destruct (pde_value_props n) as [Hn1 Hn2]. case_decide as E; [by rewrite Hn2|].
    rewrite decide_False; [by apply Hno|]. intros ->.
    by destruct (vo_dir _ _ _ _ _ Hvm n Hd') as [[]%not_elem_of_cons _].
Qed.

Lemma new_table_data p : data_frame s (new_table p) (n :: l) D.
Proof.
  intros t [Htn Htl]%not_elem_of_cons [HtD Htt].
  assert (Hent : forall j, 0 <= j < 1024 -> entry (mem (new_table p)) t j = entry (mem s) t j).
  { intros j Hj. rewrite new_table_entry, !decide_False by (done || congruence). done. }
  split; [split; [done|]|done]. intros d' k Hd' Hk. unfold present.
  rewrite new_table_entry by (unfold NUPDE in Hk; lia).
  destruct (pde_value_props n) as [Hn1 Hn2]. case_decide as E; [by rewrite Hn2; congruence|].
  rewrite decide_False; [by apply Htt|]. intros ->.
  by destruct (vo_dir _ _ _ _ _ Hvm n Hd') as [[]%not_elem_of_cons _].
Qed.
End create.

Lemma alloc_post_frame flags n p s : vm_frame s (alloc_post flags n p s).
Proof.
  unfold alloc_post. destruct (has flags ALLOC_ZERO).
  - by exists (fill (mem s) (4096 * n) 0 4096), (pp_link p), (<[n := set_pp_link None p]> (pages s)), (trace s);
      destruct s.
  - by exists (mem s), (pp_link p), (<[n := set_pp_link None p]> (pages s)), (trace s); destruct s.
Qed.

(** The statements of [pgdir_walk] after a successful [page_alloc]. *)
Lemma create_tail s n d i j q :
  pages_ok s -> pages s !! n = Some q -> pp_ref q = 0 -> 0 <= d -> 0 <= i ->
  (page_incref n ;;
   kstore32 (KERNBASE + ent_addr d i) (((page2pa n .| PTE_P) .| PTE_U) .| PTE_W) ;;
   holder <- KADDR (page2pa n) ;;
   ret (Some (holder + 4 * j))) s =
  Ret (Some (KERNBASE + ent_addr n j))
    (set_mem (store32 (mem s) (ent_addr d i) (4096 * n + 7))
      (set_pages (<[n := set_pp_ref 1 q]> (pages s)) s)).
Proof.
  intros Hok Hq Hr Hd Hi. pose proof (pages_ok_range _ _ _ Hok Hq). pose proof Hok as [? _].
  unfold page_incref. erewrite bind_ret by (by apply upd_page_eq). cbv beta. rewrite Hr.
  change (u16 (0 + 1)) with 1. rewrite pde_value by lia.
  erewrite bind_ret by (apply kstore_entry; lia). rewrite page2pa_eq by lia.
  erewrite bind_ret by (apply KADDR_eq; [by eapply (pages_ok_upd s)|simpl; lia]).
  unfold ret. f_equal. f_equal. unfold ent_addr. lia.
Qed.

Lemma walk_create s n l D M X d va :
  vm_ok s (n :: l) D M X -> d ∈ D -> 0 <= va < UTOP -> present (mem s) d (PDX va) = false ->
  exists s', pgdir_walk (pgdir_kva d) va 1 s = Ret (Some (KERNBASE + ent_addr n (PTX va))) s' /\
    vm_ok s' l D M X /\ vm_frame s s' /\
    present (mem s') d (PDX va) = true /\ frame_of (entry (mem s') d (PDX va)) = n /\
    (forall pp, insertable s (n :: l) D M pp -> insertable s' l D M pp) /\
    data_frame s s' (n :: l) D.
Proof.
  intros Hvm Hd Hva Habs. destruct (vm_va_parts va Hva) as (Hi & Hj & _).
  pose proof (vm_dir_range Hvm d Hd). pose proof (vm_npages Hvm).
  destruct (page_alloc_cons s ALLOC_ZERO n l (vo_alloc _ _ _ _ _ Hvm)) as (p & Hp & Hr & Heq & Hok).
  exists (new_table (n := n) d (PDX va) (s := s) p).
  pose proof (new_table_ok Hvm d (PDX va) Hd Hi Habs p Hp Hok) as Hnew.
  pose proof (new_table_entry Hvm d (PDX va) Hd Hi Habs p d (PDX va) ltac:(unfold NUPDE in Hi; lia)) as Hent.
  rewrite decide_True in Hent by done. destruct (pde_value_props n) as [Hn1 Hn2].
  assert (Hn : 0 <= n < npages s) by (by eapply pages_ok_range; [apply (vo_alloc _ _ _ _ _ Hvm)|]).
  split; [|split; [done|split; [|unfold present at 1; rewrite Hent, Hn1, Hn2;
    split; [done|split; [done|split; [by eapply new_table_insertable|by eapply new_table_data]]]]]].
  - unfold pgdir_walk. replace (pgdir_kva d + 4 * PDX va) with (KERNBASE + ent_addr d (PDX va))
      by (unfold pgdir_kva, ent_addr; lia).
    erewrite bind_ret by (apply kload_entry; lia).
    unfold present in Habs. rewrite Habs. change (negb (1 =? 0)) with true. cbv iota.
    rewrite (bind_ret _ _ _ _ _ Heq).
    apply (create_tail (alloc_post ALLOC_ZERO n p s) n d (PDX va) (PTX va) (set_pp_link None p));
      try lia; try done.
    + apply (ao_pages _ _ Hok).
    + apply lookup_insert_eq.
  - unfold new_table. etrans; [apply (alloc_post_frame ALLOC_ZERO n p)|].
    generalize (alloc_post ALLOC_ZERO n p s). intros s1. etrans; [|apply set_mem_vm_frame].
    apply sbp_vm_frame, sbp_pages.
Qed.

(** ** Changing a user entry *)

Lemma frame_of_page_entry pp perm :
  0 <= pp < 1048576 -> 0 <= perm < 4096 ->
  let e := (page2pa pp .| perm) .| PTE_P in
  has e PTE_P = true /\ frame_of e = pp /\ 0 <= e < 0x100000000 /\ e mod 4096 = perm .| PTE_P.
Proof.
  intros Hpp Hperm e. assert (Hlow : 0 <= perm .| PTE_P < 4096).
  { change 4096 with (2 ^ 12). apply lor_range; unfold PTE_P; zlia. }
  assert (He : e = 4096 * pp + (perm .| PTE_P)).
  { unfold e. rewrite <- Z.lor_assoc, page2pa_eq by lia. apply (lor_add_low _ _ 12); zlia. }
  split; [apply has_lor_r; unfold PTE_P; lia|].
  rewrite He. unfold frame_of. lia.
Qed.

Section store.
Context {s : kstate} {l : list Z} {D : gset Z} {M : aspace} {X : Z -> Z}.
Context (Hvm : vm_ok s l D M X).
Context (d i j : Z) (Hd : d ∈ D) (Hi : 0 <= i < NUPDE) (Hj : 0 <= j < 1024)
        (Hpres : present (mem s) d i = true).

Let t := frame_of (entry (mem s) d i).

(** Directories are not touched by the store of a page table entry. *)
Lemma store_dir_any v d' i' :
  d' ∈ D -> 0 <= i' < 1024 ->
  entry (store32 (mem s) (ent_addr t j) v) d' i' = entry (mem s) d' i'.
Proof.
  intros Hd' Hi'. apply entry_store_ne; [done|done|].
  destruct (vo_tab _ _ _ _ _ Hvm d i Hd Hi Hpres) as (_ & HtD & _). intros [= E _].
  unfold t in E. by rewrite E in HtD.
Qed.

Lemma store_dir v d' i' :
  d' ∈ D -> 0 <= i' < NUPDE ->
  entry (store32 (mem s) (ent_addr t j) v) d' i' = entry (mem s) d' i'.
Proof. intros Hd' Hi'. apply store_dir_any; [done|]. unfold NUPDE in Hi'. lia. Qed.

Lemma store_data v s' l' :
  mem s' = store32 (mem s) (ent_addr t j) v -> data_frame s s' l' D.
Proof.
  intros Hm k _ [HkD Hkt].
  assert (Hkt' : k <> t) by (intros ->; by apply (Hkt d i)).
  split; [split; [done|]|].
  - intros d' i' Hd' Hi'. unfold present. rewrite Hm, store_dir by done. by apply Hkt.
  - intros j' Hj'. rewrite Hm. apply entry_store_ne; [done|done|congruence].
Qed.

Lemma store_uent v d' i' j' :
  0 <= v < 0x100000000 -> d' ∈ D -> 0 <= i' < NUPDE -> 0 <= j' < 1024 ->
  uent (store32 (mem s) (ent_addr t j) v) d' i' j' =
    if decide ((d', i', j') = (d, i, j)) then (if has v PTE_P then Some v else None)
    else uent (mem s) d' i' j'.
Proof.
  intros Hv Hd' Hi' Hj'. unfold uent, present. rewrite store_dir by done.
  fold (present (mem s) d' i'). case_decide as E.
  - injection E as -> -> ->. rewrite Hpres. fold t. by rewrite entry_store_eq, u32_small.
  - destruct (present (mem s) d' i') eqn:Hp'; [|done]. rewrite entry_store_ne; [done..|].
    intros [= Ht ->]. unfold t in Ht.
    destruct (vo_inj _ _ _ _ _ Hvm d i d' i') as [-> ->]; done.
Qed.

(** Storing an entry [v] maps or unmaps one page: the invariant holds of the
    new map once the counters [X'] say where the references went. *)
Lemma store_ok (v : Z) (M' : aspace) (X' : Z -> Z) (s' : kstate) (l' : list Z) :
  0 <= v < 0x100000000 ->
  mem s' = store32 (mem s) (ent_addr t j) v ->
  alloc_ok s' l' ->
  (forall k, k ∈ l' -> k ∈ l \/ (0 < mappings M k + X k /\ mappings M' k + X' k = 0)) ->
  M' = (if has v PTE_P then <[(d, 1024 * i + j) := v]> M else delete (d, 1024 * i + j) M) ->
  (forall k, k ∉ l -> mappings M k + X k = 0 -> mappings M' k + X' k = 0) ->
  (forall k, k ∈ l -> mappings M' k + X' k = 0) ->
  (forall k, 0 <= X' k) -> (forall k, mappings M' k + X' k < 0x10000) ->
  (forall k, pp_ref <$> pages s' !! k =
     if decide (0 < mappings M k + X k) then Some (mappings M' k + X' k)
     else pp_ref <$> pages s !! k) ->
  vm_ok s' l' D M' X'.
Proof.
  intros Hv Hm Hok Hl' HM' H0 H0' HX' Hb Href.
  assert (Hent : forall d' i', d' ∈ D -> 0 <= i' < NUPDE ->
    entry (mem s') d' i' = entry (mem s) d' i').
  { intros. rewrite Hm. by apply store_dir. }
  assert (Hpr : forall d' i', d' ∈ D -> 0 <= i' < NUPDE ->
    present (mem s') d' i' = present (mem s) d' i').
  { intros. unfold present. by rewrite Hent. }
  assert (Hst : forall k r, k ∉ l -> pp_ref <$> pages s !! k = Some r ->
    ~ (0 < mappings M k + X k) -> k ∉ l' /\ pp_ref <$> pages s' !! k = Some r).
  { intros k r Hk Hr Hn. split; [by intros [?|[? ?]]%Hl'|]. by rewrite Href, decide_False. }
  split.
  - done.
  - rewrite Hm. apply mem_ok_store32, (vo_mem _ _ _ _ _ Hvm).
  - intros d' Hd'. destruct (vo_dir _ _ _ _ _ Hvm d' Hd') as [? ?]. apply Hst; try done.
    intros Hpos. by destruct (vo_data _ _ _ _ _ Hvm d' Hpos) as (_ & ? & _).
  - intros d' i' Hd' Hi' Hp'. rewrite Hpr in Hp' by done. cbv zeta. rewrite Hent by done.
    destruct (vo_tab _ _ _ _ _ Hvm d' i' Hd' Hi' Hp') as (Hk & HkD & Hr).
    destruct (Hst _ 1 Hk Hr) as [? ?]; [|done].
    intros Hpos. destruct (vo_data _ _ _ _ _ Hvm _ Hpos) as (_ & _ & _ & Hno). by eapply Hno.
  - intros d1 i1 d2 i2 Hd1 Hd2 Hi1 Hi2. rewrite !Hpr, !Hent by done.
    by apply (vo_inj _ _ _ _ _ Hvm).
  - intros d' i' j' Hd' Hi' Hj'. rewrite Hm, store_uent by done. rewrite HM'.
    case_decide as E.
    + injection E as -> -> ->. destruct (has v PTE_P); [by rewrite lookup_insert_eq|by rewrite lookup_delete_eq].
    + rewrite (vo_map _ _ _ _ _ Hvm) by done.
      assert ((d, 1024 * i + j) <> (d', 1024 * i' + j')).
      { intros [= -> Heq]. apply E. assert (i = i' /\ j = j') as [-> ->] by lia. done. }
      destruct (has v PTE_P); [by rewrite lookup_insert_ne|by rewrite lookup_delete_ne].
  - intros d' k e. rewrite HM'. destruct (has v PTE_P).
    + rewrite lookup_insert. case_decide as E; [|by apply (vo_dom _ _ _ _ _ Hvm)].
      injection E as <- <-. intros _. split; [done|]. unfold NUPDE, NUVPN in *. lia.
    + rewrite lookup_delete. case_decide; [done|]. by apply (vo_dom _ _ _ _ _ Hvm).
  - intros k Hk. assert (Hkl : k ∉ l) by (intros ?; specialize (H0' k); lia || (rewrite H0' in Hk by done; lia)).
    assert (Hpos : 0 < mappings M k + X k).
    { pose proof (mappings_nonneg M k). pose proof (vo_X _ _ _ _ _ Hvm k).
      destruct (decide (mappings M k + X k = 0)) as [E|]; [|lia]. rewrite (H0 k Hkl E) in Hk. lia. }
    destruct (vo_data _ _ _ _ _ Hvm k Hpos) as (_ & HkD & Hr & Hno).
    split; [by intros [?|[_ ?]]%Hl'; [|lia]|]. split; [done|].
    rewrite Href, decide_True by done. split; [done|].
    intros d' i' Hd' Hi'. rewrite Hpr, Hent by done. by apply Hno.
  - done.
  - done.
  - intros d' Hd'. rewrite Hm, store_dir_any by done. by apply (vo_self _ _ _ _ _ Hvm).
  - intros d' i' Hd' Hi'. rewrite Hpr, Hent by done. by apply (vo_pde _ _ _ _ _ Hvm).
Qed.
End store.
