(* ===== verification/PmapMap.v ===== *)
(** * Mapping and unmapping user pages

    page_lookup, page_remove and page_insert refine lookup, delete and insert
    on the map of PmapSpace.v: the theorems about kern/pmap.c's interface to the
    rest of the kernel. *)
From S2P Require Import Prelude Mmu Mem Console Kstate Pmap PmapAlloc PmapSpace.

(** ** page_lookup, tlb_invalidate, page_remove *)

Definition no_refs : Z -> Z := fun _ => 0.

Lemma mapped_present s l D M X d va e :
  vm_ok s l D M X -> d ∈ D -> 0 <= va < UTOP -> M !! (d, va / 4096) = Some e ->
  present (mem s) d (PDX va) = true /\
  entry (mem s) (frame_of (entry (mem s) d (PDX va))) (PTX va) = e /\ has e PTE_P = true.
Proof.
  intros Hvm Hd Hva He. rewrite <- (vm_mmu_walk Hvm d va Hd Hva) in He.
  unfold mmu_walk, uent in He. destruct (present (mem s) d (PDX va)); [|done].
  destruct (has _ PTE_P) eqn:E; [|done]. injection He as <-. done.
Qed.

Lemma page_lookup_some s l D M X d va e :
  vm_ok s l D M X -> d ∈ D -> 0 <= va < UTOP -> M !! (d, va / 4096) = Some e ->
  page_lookup (pgdir_kva d) va s =
    Ret (Some (frame_of e, KERNBASE + ent_addr (frame_of (entry (mem s) d (PDX va))) (PTX va))) s.
Proof.
  intros Hvm Hd Hva He. destruct (mapped_present _ _ _ _ _ _ _ _ Hvm Hd Hva He) as (Hp & Hent & HP).
  destruct (vm_va_parts va Hva) as (Hi & Hj & _). pose proof (vm_tab_range Hvm _ _ Hd Hi Hp).
  destruct (vm_mapped_data Hvm _ _ _ He) as (Hf & _).
  unfold page_lookup. rewrite (bind_ret _ _ _ _ _ (walk_present Hvm d va 0 Hd Hva Hp)).
  erewrite bind_ret by (apply kload_entry; lia). rewrite Hent, HP. change (negb true) with false. cbv iota.
  rewrite PTE_ADDR_div. fold (frame_of e).
  erewrite bind_ret by (apply pa2page_eq; lia).
  unfold ret. do 3 f_equal. unfold frame_of. lia.
Qed.

Lemma page_lookup_none s l D M X d va :
  vm_ok s l D M X -> d ∈ D -> 0 <= va < UTOP -> M !! (d, va / 4096) = None ->
  page_lookup (pgdir_kva d) va s = Ret None s.
Proof.
  intros Hvm Hd Hva He. destruct (vm_va_parts va Hva) as (Hi & Hj & _).
  rewrite <- (vm_mmu_walk Hvm d va Hd Hva) in He. unfold mmu_walk, uent in He.
  unfold page_lookup. destruct (present (mem s) d (PDX va)) eqn:Hp.
  - pose proof (vm_tab_range Hvm _ _ Hd Hi Hp).
    rewrite (bind_ret _ _ _ _ _ (walk_present Hvm d va 0 Hd Hva Hp)).
    erewrite bind_ret by (apply kload_entry; lia).
    destruct (has _ PTE_P); [done|]. done.
  - by rewrite (bind_ret _ _ _ _ _ (walk_absent Hvm d va Hd Hva Hp)).
Qed.

(** [curenv] is null or points into [envs]. *)
Definition curenv_ok (s : kstate) : Prop :=
  match curenv s with None => True | Some c => is_Some (envs s !! c) end.

(** Is the page directory at [pgdir] the one of the current environment? *)
Definition flushes (s : kstate) (pgdir : Z) : bool :=
  match curenv s with
  | None => true
  | Some c => match envs s !! c with Some e => env_pgdir e =? pgdir | None => false end
  end.

Lemma tlb_invalidate_eq s pgdir va :
  curenv_ok s ->
  tlb_invalidate pgdir va s =
    Ret tt (set_trace (trace s ++ if flushes s pgdir then [EInvlpg va] else []) s).
Proof.
  unfold curenv_ok, flushes, tlb_invalidate. intros H. kpure.
  destruct (curenv s) as [c|]; [|done]. destruct H as [e He].
  erewrite bind_ret by (by apply get_env_eq). rewrite He.
  destruct (env_pgdir e =? pgdir); [done|]. rewrite app_nil_r. by destruct s.
Qed.

Lemma vm_frame_curenv s s' : vm_frame s s' ->
  curenv s' = curenv s /\ envs s' = envs s /\ npages s' = npages s /\
  (curenv_ok s -> curenv_ok s').
Proof. by intros (m & fl & pg & tr & ->). Qed.

Lemma page_remove_unmapped s l D M X d va :
  vm_ok s l D M X -> d ∈ D -> 0 <= va < UTOP -> M !! (d, va / 4096) = None ->
  page_remove (pgdir_kva d) va s = Ret tt s.
Proof.
  intros Hvm Hd Hva He. unfold page_remove.
  by rewrite (bind_ret _ _ _ _ _ (page_lookup_none _ _ _ _ _ _ _ Hvm Hd Hva He)).
Qed.

Lemma page_remove_mapped s l D M X d va e :
  vm_ok s l D M X -> curenv_ok s -> d ∈ D -> 0 <= va < UTOP ->
  M !! (d, va / 4096) = Some e ->
  let f := frame_of e in
  exists s', page_remove (pgdir_kva d) va s = Ret tt s' /\
    vm_ok s' (if mappings M f + X f =? 1 then f :: l else l) D (delete (d, va / 4096) M) X /\
    vm_frame s s' /\
    trace s' = trace s ++ (if flushes s (pgdir_kva d) then [EInvlpg va] else []) /\
    data_frame s s' [] D /\
    (forall d' i', d' ∈ D -> 0 <= i' < NUPDE -> entry (mem s') d' i' = entry (mem s) d' i').
Proof.
  intros Hvm Hce Hd Hva He f.
  destruct (mapped_present _ _ _ _ _ _ _ _ Hvm Hd Hva He) as (Hp & Hent & HP).
  destruct (vm_va_parts va Hva) as (Hi & Hj & Hvpn & _). pose proof (vm_tab_range Hvm _ _ Hd Hi Hp) as Ht.
  destruct (vm_mapped_data Hvm _ _ _ He) as (Hf & Hfl & Hr). fold f in Hf, Hfl, Hr.
  pose proof (mappings_pos _ _ _ He) as Hpos. fold f in Hpos.
  pose proof (vo_X _ _ _ _ _ Hvm f) as HXf. pose proof (vo_bound _ _ _ _ _ Hvm f) as Hb.
  apply fmap_Some in Hr as (p & Hpf & Hr).
  destruct (page_decref_eq s l f p (vo_alloc _ _ _ _ _ Hvm) Hpf Hfl ltac:(lia))
    as (s1 & Hdec & Hm1 & Hok1 & (fl & pg & Es1) & Href1).
  rewrite <- Hr in Hok1. set (t := frame_of (entry (mem s) d (PDX va))) in *.
  set (s2 := set_mem (store32 (mem s1) (ent_addr t (PTX va)) 0) s1).
  assert (Hfr : vm_frame s s2).
  { etrans; [|apply set_mem_vm_frame]. apply sbp_vm_frame. by exists fl, pg. }
  destruct (vm_frame_curenv _ _ Hfr) as (Hce2 & Henv2 & _ & Hceok).
  assert (Hfl2 : flushes s2 (pgdir_kva d) = flushes s (pgdir_kva d))
    by (unfold flushes; by rewrite Hce2, Henv2).
  eexists. split; [|split; [|split; [|split; [|split]]]].
  - unfold page_remove.
    rewrite (bind_ret _ _ _ _ _ (page_lookup_some _ _ _ _ _ _ _ _ Hvm Hd Hva He)). fold t f.
    erewrite bind_ret by (apply kload_entry; lia). rewrite Hent, HP. cbv iota.
    rewrite (bind_ret _ _ _ _ _ Hdec).
    erewrite bind_ret by (apply kstore_entry; lia). fold s2.
    apply tlb_invalidate_eq. by apply Hceok.
  - eapply (store_ok Hvm d (PDX va) (PTX va) Hd Hi Hj Hp 0 _ X); try done.
    + simpl. by rewrite Hm1.
    + eapply (alloc_ok_frame s1); done.
    + intros k. rewrite (mappings_delete _ _ _ _ He). fold f.
      destruct (Z.eqb_spec (mappings M f + X f) 1); [|by left].
      intros [->|?]%elem_of_cons; [right|by left]. rewrite decide_True by done. lia.
    + by rewrite Hvpn.
    + intros k Hk Hz. pose proof (mappings_nonneg (delete (d, va / 4096) M) k).
      pose proof (vo_X _ _ _ _ _ Hvm k). rewrite (mappings_delete _ _ _ _ He) in *. case_decide; lia.
    + intros k Hk. assert (Hz : mappings M k + X k <= 0).
      { destruct (decide (0 < mappings M k + X k)) as [Hpk|]; [|lia].
        by destruct (vo_data _ _ _ _ _ Hvm k Hpk). }
      pose proof (mappings_nonneg (delete (d, va / 4096) M) k).
      pose proof (vo_X _ _ _ _ _ Hvm k). rewrite (mappings_delete _ _ _ _ He) in *. case_decide; lia.
    + apply (vo_X _ _ _ _ _ Hvm).
    + intros k. pose proof (vo_bound _ _ _ _ _ Hvm k).
      rewrite (mappings_delete _ _ _ _ He). case_decide; lia.
    + intros k. simpl. rewrite Href1. rewrite (mappings_delete _ _ _ _ He). fold f.
      destruct (decide (k = f)) as [->|Hkf].
      * rewrite decide_True by lia. rewrite decide_True by done. f_equal. lia.
      * rewrite (decide_False (P := f = k)) by done. case_decide as Hpk; [|done].
        destruct (vo_data _ _ _ _ _ Hvm k Hpk) as (_ & _ & -> & _). f_equal. lia.
  - etrans; [exact Hfr|]. apply set_trace_vm_frame.
  - simpl. rewrite Hfl2, Es1. done.
  - eapply (store_data Hvm d (PDX va) (PTX va) Hd Hi Hj Hp 0). simpl. by rewrite Hm1.
  - intros d' i' Hd' Hi'. simpl. rewrite Hm1. by apply (store_dir Hvm).
Qed.

(** ** page_insert *)

(** The reference that [pp->pp_ref++] takes before the entry is written. *)
Definition one_ref (pp : Z) : Z -> Z := fun k => if decide (pp = k) then 1 else 0.

Lemma incref_ok s l D M pp :
  vm_ok s l D M no_refs -> insertable s l D M pp -> mappings M pp + 1 < 0x10000 ->
  exists s', page_incref pp s = Ret tt s' /\ vm_ok s' l D M (one_ref pp) /\ vm_frame s s' /\
    mem s' = mem s /\ trace s' = trace s.
Proof.
  intros Hvm (Hl & HD & Hr & Hno) Hb. pose proof (mappings_nonneg M pp).
  apply fmap_Some in Hr as (p & Hp & Hr).
  eexists. split; [|split; [|split; [apply sbp_vm_frame, sbp_pages|done]]].
  - unfold page_incref. by apply upd_page_eq.
  - cbv beta. rewrite <- Hr, u16_small by lia.
    assert (Href : forall k, pp_ref <$> <[pp := set_pp_ref (mappings M pp + 1) p]> (pages s) !! k =
      if decide (k = pp) then Some (mappings M pp + 1) else pp_ref <$> pages s !! k).
    { intros k. case_decide; [subst; by rewrite lookup_insert_eq|by rewrite lookup_insert_ne]. }
    destruct Hvm as [Ha Hm Hdir Htab Hinj Hmap Hdom Hdata HX Hbd Hself Hpde]. split; try done.
    + by eapply alloc_ok_ref.
    + intros d Hd. simpl. rewrite Href, decide_False by congruence. by apply Hdir.
    + intros d i Hd Hi Hpr. cbv zeta. simpl. rewrite Href, decide_False by (by apply Hno). by apply Htab.
    + intros k Hk. simpl. rewrite Href. unfold one_ref in *. destruct (decide (pp = k)) as [<-|Hne].
      * by rewrite decide_True.
      * rewrite decide_False by congruence. by apply Hdata.
    + intros k. unfold one_ref. case_decide; lia.
    + intros k. specialize (Hbd k). unfold one_ref, no_refs in *. case_decide; [subst|]; lia.
Qed.

(** The free list after page [pp] has replaced what [M] maps at [k]. *)
Definition freed_by (l : list Z) (M : aspace) (k : Z * Z) (pp : Z) : list Z :=
  match M !! k with
  | Some old => if bool_decide (frame_of old <> pp) && (mappings M (frame_of old) =? 1)
                then frame_of old :: l else l
  | None => l
  end.

Lemma mappings_insert_over M k e i :
  mappings (<[k := e]> M) i = mappings (delete k M) i + (if decide (frame_of e = i) then 1 else 0).
Proof. rewrite <- insert_delete_eq. apply mappings_insert, lookup_delete_eq. Qed.

(** The last store of [page_insert]: the reference taken becomes a mapping. *)
Lemma insert_store s l D M d va pp perm :
  vm_ok s l D M (one_ref pp) -> d ∈ D -> 0 <= va < UTOP -> 0 <= perm < 4096 ->
  present (mem s) d (PDX va) = true -> M !! (d, va / 4096) = None ->
  let e := (page2pa pp .| perm) .| PTE_P in
  let t := frame_of (entry (mem s) d (PDX va)) in
  exists s', kstore32 (KERNBASE + ent_addr t (PTX va)) e s = Ret tt s' /\
    vm_ok s' l D (<[(d, va / 4096) := e]> M) no_refs /\ vm_frame s s' /\ data_frame s s' [] D.
Proof.
  intros Hvm Hd Hva Hperm Hp HM e t. destruct (vm_va_parts va Hva) as (Hi & Hj & Hvpn & _).
  pose proof (vm_tab_range Hvm _ _ Hd Hi Hp) as Ht. fold t in Ht. pose proof (vm_npages Hvm).
  assert (Hpos : 0 < mappings M pp + one_ref pp pp).
  { unfold one_ref. rewrite decide_True by done. pose proof (mappings_nonneg M pp). lia. }
  assert (Hpp : 0 <= pp < npages s).
  { destruct (vo_data _ _ _ _ _ Hvm pp Hpos) as (_ & _ & Hr & _). by eapply vm_ref_range. }
  destruct (frame_of_page_entry pp perm ltac:(lia) Hperm) as (HP & Hf & Hrange & _). fold e in HP, Hf, Hrange.
  assert (Hsum : forall k, mappings (<[(d, va / 4096) := e]> M) k + no_refs k = mappings M k + one_ref pp k).
  { intros k. rewrite mappings_insert, Hf by done. unfold one_ref, no_refs. lia. }
  eexists. split; [apply kstore_entry; lia|].
  split; [|split; [apply set_mem_vm_frame|by eapply (store_data Hvm d (PDX va) (PTX va) Hd Hi Hj Hp e)]].
  eapply (store_ok Hvm d (PDX va) (PTX va) Hd Hi Hj Hp e); try done.
  - eapply (alloc_ok_frame s); try done. apply (vo_alloc _ _ _ _ _ Hvm).
  - by left.
  - by rewrite HP, Hvpn.
  - intros k _. by rewrite Hsum.
  - intros k Hk. rewrite Hsum. pose proof (mappings_nonneg M k). pose proof (vo_X _ _ _ _ _ Hvm k).
    destruct (decide (0 < mappings M k + one_ref pp k)) as [Hpk|]; [|lia].
    by destruct (vo_data _ _ _ _ _ Hvm k Hpk).
  - intros k. rewrite Hsum. apply (vo_bound _ _ _ _ _ Hvm).
  - intros k. rewrite Hsum. case_decide as Hk; [|done].
    by destruct (vo_data _ _ _ _ _ Hvm k Hk) as (_ & _ & ? & _).
Qed.

(** The part of [page_insert] after the walk has found the table. *)
Lemma insert_present s l D M d va pp perm :
  vm_ok s l D M no_refs -> curenv_ok s -> d ∈ D -> 0 <= va < UTOP -> 0 <= perm < 4096 ->
  insertable s l D M pp -> mappings M pp + 1 < 0x10000 -> present (mem s) d (PDX va) = true ->
  let e := (page2pa pp .| perm) .| PTE_P in
  let p := KERNBASE + ent_addr (frame_of (entry (mem s) d (PDX va))) (PTX va) in
  exists s',
    (page_incref pp ;;
     v <- kload32 p ;;
     (if has v PTE_P then page_remove (pgdir_kva d) va else ret tt) ;;
     kstore32 p e ;; ret 0) s = Ret 0 s' /\
    vm_ok s' (freed_by l M (d, va / 4096) pp) D (<[(d, va / 4096) := e]> M) no_refs /\ vm_frame s s' /\
    data_frame s s' [] D.
Proof.
  intros Hvm Hce Hd Hva Hperm Hins Hb Hp e p. destruct (vm_va_parts va Hva) as (Hi & Hj & Hvpn & _).
  pose proof (vm_tab_range Hvm _ _ Hd Hi Hp) as Ht.
  destruct (incref_ok _ _ _ _ _ Hvm Hins Hb) as (s1 & H1 & Hvm1 & Hfr1 & Hm1 & _).
  destruct (vm_frame_curenv _ _ Hfr1) as (_ & _ & _ & Hce1).
  rewrite (bind_ret _ _ _ _ _ H1). unfold p.
  erewrite bind_ret by (apply kload_entry; lia). rewrite Hm1.
  assert (HM : M !! (d, va / 4096) =
    if has (entry (mem s) (frame_of (entry (mem s) d (PDX va))) (PTX va)) PTE_P
    then Some (entry (mem s) (frame_of (entry (mem s) d (PDX va))) (PTX va)) else None).
  { rewrite <- (vm_mmu_walk Hvm d va Hd Hva). unfold mmu_walk, uent. by rewrite Hp. }
  rewrite <- Hm1 in Hp. unfold freed_by.
  destruct (has _ PTE_P) eqn:HP; rewrite HM.
  - pose proof (page_remove_mapped _ _ _ _ _ _ _ _ Hvm1 (Hce1 Hce) Hd Hva HM) as Hrm. cbv zeta in Hrm.
    destruct Hrm as (s2 & H2 & Hvm2 & Hfr2 & _ & Hdf2 & Hdir).
    rewrite (bind_ret _ _ _ _ _ H2). set (old := entry (mem s) (frame_of (entry (mem s) d (PDX va))) (PTX va)) in *.
    assert (Hp2 : present (mem s2) d (PDX va) = true) by (unfold present; rewrite Hdir by done; done).
    pose proof (insert_store _ _ _ _ d va pp perm Hvm2 Hd Hva Hperm Hp2 (lookup_delete_eq _ _)) as Hst.
    cbv zeta in Hst. rewrite Hdir, Hm1 in Hst by done. destruct Hst as (s3 & H3 & Hvm3 & Hfr3 & Hdf3).
    rewrite (bind_ret _ _ _ _ _ H3). eexists. split; [done|].
    split; [|split; [by etrans; [|etrans]|]].
    2: { eapply data_frame_trans; [by apply (data_frame_mem s s1)|by eapply data_frame_trans]. }
    rewrite insert_delete_eq in Hvm3. unfold one_ref in Hvm3.
    destruct (decide (pp = frame_of old)) as [Heq|Hne].
    + rewrite bool_decide_false by congruence. simpl.
      pose proof (mappings_pos _ _ _ HM) as Hpos.
      destruct (Z.eqb_spec (mappings M (frame_of old) + 1) 1); [lia|done].
    + rewrite bool_decide_true by congruence. simpl. by rewrite Z.add_0_r in Hvm3.
  - rewrite bind_ret_l.
    destruct (insert_store _ _ _ _ d va pp perm Hvm1 Hd Hva Hperm Hp HM) as (s3 & H3 & Hvm3 & Hfr3 & Hdf3).
    rewrite Hm1 in H3. rewrite (bind_ret _ _ _ _ _ H3). eexists. split; [done|].
    split; [done|]. split; [by etrans|]. eapply data_frame_trans; [by apply (data_frame_mem s s1)|done].
Qed.

Lemma walk_create_none s D M X d va :
  vm_ok s [] D M X -> d ∈ D -> 0 <= va < UTOP -> present (mem s) d (PDX va) = false ->
  pgdir_walk (pgdir_kva d) va 1 s = Ret None s.
Proof.
  intros Hvm Hd Hva Hp. destruct (vm_va_parts va Hva) as (Hi & Hj & _). pose proof (vm_dir_range Hvm d Hd).
  unfold pgdir_walk. replace (pgdir_kva d + 4 * PDX va) with (KERNBASE + ent_addr d (PDX va))
    by (unfold pgdir_kva, ent_addr; lia).
  erewrite bind_ret by (apply kload_entry; lia). unfold present in Hp. rewrite Hp.
  change (negb (1 =? 0)) with true. cbv iota.
  by rewrite (bind_ret _ _ _ _ _ (page_alloc_nil s ALLOC_ZERO (vo_alloc _ _ _ _ _ Hvm))).
Qed.

Lemma page_insert_ok s l D M d va pp perm :
  vm_ok s l D M no_refs -> curenv_ok s -> d ∈ D -> 0 <= va < UTOP -> 0 <= perm < 4096 ->
  insertable s l D M pp -> mappings M pp + 1 < 0x10000 ->
  let e := (page2pa pp .| perm) .| PTE_P in
  if negb (present (mem s) d (PDX va)) && bool_decide (l = [])
  then page_insert (pgdir_kva d) pp va perm s = Ret (- E_NO_MEM) s
  else exists s' l', page_insert (pgdir_kva d) pp va perm s = Ret 0 s' /\
    l' = freed_by (if present (mem s) d (PDX va) then l else tail l) M (d, va / 4096) pp /\
    vm_ok s' l' D (<[(d, va / 4096) := e]> M) no_refs /\
    mmu_walk (mem s') d va = Some e /\ vm_frame s s' /\ data_frame s s' l D.
Proof.
  intros Hvm Hce Hd Hva Hperm Hins Hb e.
  assert (Hlast : forall s' l', vm_ok s' l' D (<[(d, va / 4096) := e]> M) no_refs ->
    mmu_walk (mem s') d va = Some e).
  { intros s' l' Hvm'. rewrite (vm_mmu_walk Hvm' d va Hd Hva). apply lookup_insert_eq. }
  destruct (present (mem s) d (PDX va)) eqn:Hp; simpl.
  - destruct (insert_present _ _ _ _ _ _ _ _ Hvm Hce Hd Hva Hperm Hins Hb Hp) as (s' & H & Hvm' & Hfr & Hdf).
    exists s', (freed_by l M (d, va / 4096) pp). 
    split; [|split; [done|split; [done|split; [by eapply Hlast|split; [done|by apply data_frame_mono]]]]].
    unfold page_insert.
    by rewrite (bind_ret _ _ _ _ _ (walk_present Hvm d va 1 Hd Hva Hp)).
  - destruct l as [|n l]; simpl.
    + unfold page_insert. rewrite (bind_ret _ _ _ _ _ (walk_create_none _ _ _ _ _ _ Hvm Hd Hva Hp)). done.
    + destruct (walk_create _ _ _ _ _ _ d va Hvm Hd Hva Hp) as (s1 & H1 & Hvm1 & Hfr1 & Hp1 & Hn & Hins1 & Hdf1).
      destruct (vm_frame_curenv _ _ Hfr1) as (_ & _ & _ & Hce1).
      destruct (insert_present _ _ _ _ _ _ _ _ Hvm1 (Hce1 Hce) Hd Hva Hperm (Hins1 _ Hins) Hb Hp1)
        as (s' & H & Hvm' & Hfr & Hdf). rewrite Hn in H.
      exists s', (freed_by l M (d, va / 4096) pp). split; [|split; [done|split; [done|split; [by eapply Hlast|split; [by etrans|]]]]].
      2: { eapply data_frame_trans; [done|by apply data_frame_mono]. }
      unfold page_insert. by rewrite (bind_ret _ _ _ _ _ H1).
Qed.

(** C3: page_insert maps page [pp] at [va] in the abstract address space, with
    the permissions asked for, replacing what was mapped there; the page it
    replaces is freed exactly when this was its last mapping and it is not
    [pp] itself; the invariant (reference counts, free list, page tables)
    holds afterwards.  It fails, with [-E_NO_MEM] and no change at all, exactly
    when a page table is missing and no page is free. *)
Theorem page_insert_refines s l D M d va pp perm :
  vm_ok s l D M no_refs -> curenv_ok s -> d ∈ D -> 0 <= va < UTOP -> 0 <= perm < 4096 ->
  insertable s l D M pp -> mappings M pp + 1 < 0x10000 ->
  let e := (page2pa pp .| perm) .| PTE_P in
  if negb (present (mem s) d (PDX va)) && bool_decide (l = [])
  then page_insert (pgdir_kva d) pp va perm s = Ret (- E_NO_MEM) s
  else exists s' l', page_insert (pgdir_kva d) pp va perm s = Ret 0 s' /\
    l' = freed_by (if present (mem s) d (PDX va) then l else tail l) M (d, va / 4096) pp /\
    vm_ok s' l' D (<[(d, va / 4096) := e]> M) no_refs /\
    mmu_walk (mem s') d va = Some e /\ vm_frame s s' /\ data_frame s s' l D.
Proof. apply page_insert_ok. Qed.

(** C4: page_remove deletes what is mapped at [va] from the abstract address
    space, frees the page exactly when this was its last mapping, and
    invalidates the TLB entry exactly when the directory is the one in use; an
    address that is not mapped is left alone. *)
Theorem page_remove_refines s l D M X d va :
  vm_ok s l D M X -> curenv_ok s -> d ∈ D -> 0 <= va < UTOP ->
  exists s' l', page_remove (pgdir_kva d) va s = Ret tt s' /\
    vm_ok s' l' D (delete (d, va / 4096) M) X /\ mmu_walk (mem s') d va = None /\
    match M !! (d, va / 4096) with
    | None => s' = s /\ l' = l
    | Some e =>
        l' = (if mappings M (frame_of e) + X (frame_of e) =? 1 then frame_of e :: l else l) /\
        trace s' = trace s ++ (if flushes s (pgdir_kva d) then [EInvlpg va] else [])
    end.
Proof.
  intros Hvm Hce Hd Hva. destruct (M !! (d, va / 4096)) as [e|] eqn:He.
  - pose proof (page_remove_mapped _ _ _ _ _ _ _ _ Hvm Hce Hd Hva He) as Hrm. cbv zeta in Hrm.
    destruct Hrm as (s' & H & Hvm' & _ & Htr & _).
    exists s', (if mappings M (frame_of e) + X (frame_of e) =? 1 then frame_of e :: l else l).
    split; [done|]. split; [done|]. split; [|done].
    rewrite (vm_mmu_walk Hvm' d va Hd Hva). apply lookup_delete_eq.
  - exists s, l. split; [by eapply page_remove_unmapped|]. rewrite delete_id by done.
    split; [done|]. split; [|done]. by rewrite (vm_mmu_walk Hvm d va Hd Hva).
Qed.

(** Page_lookup finds the page the processor would: it returns the page
    that the abstract address space maps at [va] and the address of its entry,
    whose content is that mapping, and null when nothing is mapped. *)
Theorem page_lookup_refines s l D M X d va :
  vm_ok s l D M X -> d ∈ D -> 0 <= va < UTOP ->
  match M !! (d, va / 4096) with
  | None => page_lookup (pgdir_kva d) va s = Ret None s
  | Some e => exists p, page_lookup (pgdir_kva d) va s = Ret (Some (frame_of e, p)) s /\
                        kload32 p s = Ret e s /\ has e PTE_P = true
  end.
Proof.
  intros Hvm Hd Hva. destruct (M !! (d, va / 4096)) as [e|] eqn:He.
  - eexists. split; [by eapply page_lookup_some|].
    destruct (mapped_present _ _ _ _ _ _ _ _ Hvm Hd Hva He) as (Hp & Hent & HP).
    destruct (vm_va_parts va Hva) as (Hi & Hj & _). pose proof (vm_tab_range Hvm _ _ Hd Hi Hp).
    by rewrite kload_entry, Hent by lia.
  - by eapply page_lookup_none.
Qed.

(** ** New directories, and a concrete state *)

Lemma mappings_empty i : mappings ∅ i = 0.
Proof. reflexivity. Qed.

Lemma vm_ok_empty s l : alloc_ok s l -> mem_ok (mem s) -> vm_ok s l ∅ ∅ no_refs.
Proof.
  intros Ha Hm. split; try done; try set_solver.
Qed.

(** A page that belongs to nothing and maps nothing below UTOP may become the
    directory of a new environment. *)
Lemma vm_ok_add_dir s l D M X n :
  vm_ok s l D M X -> n ∉ l -> pp_ref <$> pages s !! n = Some 1 -> mappings M n + X n = 0 ->
  n ∉ D -> (forall d i, d ∈ D -> 0 <= i < NUPDE -> present (mem s) d i = true -> frame_of (entry (mem s) d i) <> n) ->
  (forall i, 0 <= i < NUPDE -> present (mem s) n i = false) -> entry (mem s) n UVPDE = 4096 * n + 5 ->
  vm_ok s l ({[n]} ∪ D) M X.
Proof.
  intros Hvm Hn Hr Hm HnD Hnt Hz Hs. destruct Hvm as [Ha Hmem Hdir Htab Hinj Hmap Hdom Hdata HX Hb Hself Hpde].
  assert (Hcase : forall d i, d ∈ {[n]} ∪ D -> 0 <= i < NUPDE -> present (mem s) d i = true -> d ∈ D).
  { intros d i [->%elem_of_singleton|?]%elem_of_union Hi Hp; [|done]. by rewrite Hz in Hp. }
  split; try done.
  - intros d [->%elem_of_singleton|Hd]%elem_of_union; [done|by apply Hdir].
  - intros d i Hd Hi Hp. pose proof (Hcase d i Hd Hi Hp) as Hd'.
    destruct (Htab d i Hd' Hi Hp) as (? & ? & ?). cbv zeta. split; [done|]. split; [|done].
    intros [?%elem_of_singleton|?]%elem_of_union; [by eapply Hnt|done].
  - intros d i d' i' Hd Hd' Hi Hi' Hp Hp'. apply Hinj; eauto.
  - intros d i j Hd Hi Hj. destruct (present (mem s) d i) eqn:Hp.
    + apply Hmap; eauto.
    + apply elem_of_union in Hd as [->%elem_of_singleton|Hd]; [|by apply Hmap].
      unfold uent. rewrite Hp. symmetry. apply eq_None_not_Some. intros [e He].
      by destruct (Hdom _ _ _ He) as [? _].
  - intros d v e He. destruct (Hdom _ _ _ He). split; [set_solver|done].
  - intros i Hi. destruct (Hdata i Hi) as (? & HiD & ? & Hno). split; [done|].
    assert (i <> n) by (intros ->; lia). split; [set_solver|]. split; [done|].
    intros d k Hd Hk Hp. apply Hno; eauto.
  - intros d [->%elem_of_singleton|Hd]%elem_of_union; [done|by apply Hself].
  - intros d i Hd Hi Hp. apply Hpde; eauto.
Qed.

(** Sixteen pages: page 3 is a directory, page 4 in the hands of the caller and
    page 5 free. *)
Definition small_vm : kstate :=
  set_mem (store32 ∅ (ent_addr 3 UVPDE) (4096 * 3 + 5))
    (free_post 5 (mkPage None 0) (set_pages (<[3 := mkPage None 1]> (zero_pages 16)) (zero_kstate 16))).

(** The directory maps itself at UVPT and nothing else. *)
Lemma small_vm_entry i : 0 <= i < NUPDE -> entry (mem small_vm) 3 i = 0.
Proof.
  intros Hi. unfold NUPDE in Hi. change (mem small_vm) with (store32 ∅ (ent_addr 3 UVPDE) (4096 * 3 + 5)).
  rewrite entry_store_ne; [|done|lia|intros [= E]; unfold UVPDE in E; lia].
  unfold entry, load32, load8. by rewrite !lookup_empty.
Qed.

Lemma small_no_table s k : mem s = mem small_vm -> k <> 3 -> no_table s {[3]} k.
Proof.
  intros Hm Hk. split; [by intros ?%elem_of_singleton|]. intros d i ->%elem_of_singleton Hi.
  unfold present. by rewrite Hm, small_vm_entry.
Qed.

Lemma small_vm_ok : vm_ok small_vm [5] {[3]} ∅ no_refs.
Proof.
  assert (H : alloc_ok small_vm [5]).
  { eapply (alloc_ok_frame (free_post 5 _ _)); try reflexivity.
    apply alloc_ok_free; [|reflexivity|done|set_solver].
    by apply (alloc_ok_ref (zero_kstate 16) [] 3 (mkPage None 0)); [apply zero_alloc_ok|reflexivity|set_solver]. }
  rewrite <- (union_empty_r_L {[3]}). apply vm_ok_add_dir; try done; try set_solver.
  - apply vm_ok_empty; [done|]. apply mem_ok_store32, mem_ok_empty.
  - intros i Hi. unfold present. by rewrite small_vm_entry.
Qed.

Lemma small_vm_insertable : insertable small_vm [5] {[3]} ∅ 4.
Proof.
  split; [set_solver|]. split; [set_solver|]. split; [reflexivity|].
  intros d k ->%elem_of_singleton Hk. unfold present. by rewrite small_vm_entry.
Qed.

Lemma page_insert_refines_witness :
  exists s' l', page_insert (pgdir_kva 3) 4 0x200000 PTE_U small_vm = Ret 0 s' /\
    l' = [] /\ vm_ok s' l' {[3]} {[(3, 512) := 0x4005]} no_refs /\
    mmu_walk (mem s') 3 0x200000 = Some 0x4005 /\ vm_frame small_vm s' /\ data_frame small_vm s' [5] {[3]}.
Proof.
  apply (page_insert_refines small_vm [5] {[3]} ∅ 3 0x200000 4 PTE_U small_vm_ok);
    [exact I | set_solver | split; [discriminate|reflexivity] | split; [discriminate|reflexivity]
    | exact small_vm_insertable | reflexivity].
Defined.

Lemma page_remove_refines_witness :
  exists s' l', page_remove (pgdir_kva 3) 0x200000 small_vm = Ret tt s' /\
    vm_ok s' l' {[3]} (delete (3, 512) ∅) no_refs /\ mmu_walk (mem s') 3 0x200000 = None /\
    s' = small_vm /\ l' = [5].
Proof.
  apply (page_remove_refines small_vm [5] {[3]} ∅ no_refs 3 0x200000 small_vm_ok);
    [exact I | set_solver | split; [discriminate|reflexivity]].
Defined.

Lemma page_lookup_refines_witness : page_lookup (pgdir_kva 3) 0x200000 small_vm = Ret None small_vm.
Proof.
  apply (page_lookup_refines small_vm [5] {[3]} ∅ no_refs 3 0x200000 small_vm_ok);
    [set_solver | split; [discriminate|reflexivity]].
Defined.
