(* ===== verification/PmapDir.v ===== *)
(** * Page tables and directories that come and go

    The invariant of PmapSpace.v under the operations of env.c on whole page
    tables and directories: a new directory is filled, an empty table and an
    empty directory are released. *)
From S2P Require Import Prelude Mmu Mem Console Kstate Pmap PmapAlloc PmapSpace PmapMap.

(** Writing into such a page does not change any address space. *)
Lemma vm_ok_write_page s l D M X p m' :
  vm_ok s l D M X -> no_table s D p -> mem_ok m' ->
  (forall t j, t <> p -> 0 <= j < 1024 -> entry m' t j = entry (mem s) t j) ->
  vm_ok (set_mem m' s) l D M X /\ no_table (set_mem m' s) D p.
Proof.
  intros Hvm [HpD Hpt] Hm He.
  assert (Hent : forall d i, d ∈ D -> 0 <= i < NUPDE -> entry m' d i = entry (mem s) d i).
  { intros d i Hd Hi. apply He; [congruence|unfold NUPDE in Hi; lia]. }
  assert (Hpr : forall d i, d ∈ D -> 0 <= i < NUPDE -> present m' d i = present (mem s) d i).
  { intros d i Hd Hi. unfold present. by rewrite Hent. }
  assert (Hno : no_table (set_mem m' s) D p).
  { split; [done|]. intros d i Hd Hi. simpl. rewrite Hpr, Hent by done. by apply Hpt. }
  split; [|done]. destruct Hvm as [Ha _ Hdir Htab Hinj Hmap Hdom Hdata HX Hb Hself Hpde]. split; try done.
  - by eapply (alloc_ok_frame s).
  - intros d i Hd Hi. simpl. rewrite Hpr, Hent by done. by apply Htab.
  - intros d i d' i' Hd Hd' Hi Hi'. simpl. rewrite !Hpr, !Hent by done. by apply Hinj.
  - intros d i j Hd Hi Hj. rewrite <- (Hmap d i j Hd Hi Hj). simpl. unfold uent.
    rewrite Hpr, (Hent d i) by done. destruct (present (mem s) d i) eqn:Hp; [|done].
    by rewrite (He _ j (Hpt d i Hd Hi Hp) Hj).
  - intros k Hk. destruct (Hdata k Hk) as (? & ? & ? & Hn). split; [done|]. split; [done|].
    split; [done|]. intros d i Hd Hi. simpl. rewrite Hpr, Hent by done. by apply Hn.
  - intros d Hd. simpl. rewrite He; [by apply Hself|congruence|done].
  - intros d i Hd Hi. simpl. rewrite Hpr, Hent by done. by apply Hpde.
Qed.

(** ** Releasing an empty page table *)

Section drop_table.
Context {s : kstate} {l : list Z} {D : gset Z} {M : aspace} {X : Z -> Z}.
Context (Hvm : vm_ok s l D M X) (d i : Z) (Hd : d ∈ D) (Hi : 0 <= i < NUPDE).
Context (Hp : present (mem s) d i = true).
Context (Hempty : forall j, 0 <= j < 1024 -> M !! (d, 1024 * i + j) = None).

Let t := frame_of (entry (mem s) d i).

Lemma drop_entry m' d' i' :
  m' = store32 (mem s) (ent_addr d i) 0 -> 0 <= i' < 1024 ->
  entry m' d' i' = if decide ((d', i') = (d, i)) then 0 else entry (mem s) d' i'.
Proof.
  intros -> Hi'. case_decide as E; [injection E as -> ->; by rewrite entry_store_eq|].
  apply entry_store_ne; [unfold NUPDE in Hi; lia|done|congruence].
Qed.

Lemma drop_ok s' :
  mem s' = store32 (mem s) (ent_addr d i) 0 -> alloc_ok s' (t :: l) ->
  (forall k, pp_ref <$> pages s' !! k = if decide (k = t) then Some 0 else pp_ref <$> pages s !! k) ->
  vm_ok s' (t :: l) D M X.
Proof.
  intros Hm Ha Href.
  destruct (vo_tab _ _ _ _ _ Hvm d i Hd Hi Hp) as (Htl & HtD & Htr). fold t in Htl, HtD, Htr.
  assert (Hent : forall d' i', d' ∈ D -> 0 <= i' < NUPDE ->
    entry (mem s') d' i' = if decide ((d', i') = (d, i)) then 0 else entry (mem s) d' i').
  { intros. rewrite Hm. apply drop_entry; [done|]. unfold NUPDE in *. lia. }
  assert (Hpr : forall d' i', d' ∈ D -> 0 <= i' < NUPDE -> present (mem s') d' i' = true ->
    (d', i') <> (d, i) /\ present (mem s) d' i' = true /\ entry (mem s') d' i' = entry (mem s) d' i').
  { intros d' i' Hd' Hi'. unfold present. rewrite Hent by done. case_decide; [done|]. done. }
  assert (Hne : forall d' i', d' ∈ D -> 0 <= i' < NUPDE -> present (mem s') d' i' = true ->
    frame_of (entry (mem s') d' i') <> t).
  { intros d' i' Hd' Hi' Hp'. destruct (Hpr d' i' Hd' Hi' Hp') as (Hn & Hps & ->). intros Heq.
    destruct (vo_inj _ _ _ _ _ Hvm d' i' d i) as [-> ->]; done. }
  split.
  - done.
  - rewrite Hm. apply mem_ok_store32, (vo_mem _ _ _ _ _ Hvm).
  - intros d' Hd'. destruct (vo_dir _ _ _ _ _ Hvm d' Hd'). rewrite Href.
    rewrite decide_False by congruence. split; [|done]. apply not_elem_of_cons. split; [congruence|done].
  - intros d' i' Hd' Hi' Hp'. pose proof (Hne d' i' Hd' Hi' Hp') as Hn.
    destruct (Hpr d' i' Hd' Hi' Hp') as (_ & Hps & He). rewrite He in *.
    destruct (vo_tab _ _ _ _ _ Hvm d' i' Hd' Hi' Hps) as (? & ? & ?). cbv zeta.
    rewrite Href, decide_False by done. split; [by apply not_elem_of_cons|done].
  - intros d1 i1 d2 i2 H1 H2 Hi1 Hi2 Hp1 Hp2.
    destruct (Hpr _ _ H1 Hi1 Hp1) as (_ & ? & ->), (Hpr _ _ H2 Hi2 Hp2) as (_ & ? & ->).
    by apply (vo_inj _ _ _ _ _ Hvm).
  - intros d' i' j Hd' Hi' Hj. unfold uent.
    destruct (decide ((d', i') = (d, i))) as [[= -> ->]|Hn].
    + unfold present. rewrite Hent, decide_True by done. symmetry. by apply Hempty.
    + rewrite <- (vo_map _ _ _ _ _ Hvm d' i' j Hd' Hi' Hj). unfold uent, present.
      rewrite Hent, decide_False by done. fold (present (mem s) d' i').
      destruct (present (mem s) d' i') eqn:Hps; [|done].
      destruct (vo_tab _ _ _ _ _ Hvm d' i' Hd' Hi' Hps) as (_ & HD & _).
      rewrite Hm, (drop_entry _ _ _ eq_refl) by done. rewrite decide_False; [done|].
      intros [= E _]. by rewrite E in HD.
  - intros d' v e He. by apply (vo_dom _ _ _ _ _ Hvm) in He.
  - intros k Hk. destruct (vo_data _ _ _ _ _ Hvm k Hk) as (Hkl & HkD & Hkr & Hno).
    assert (k <> t) by (intros ->; by apply (Hno d i)).
    rewrite Href, decide_False by done. split; [by apply not_elem_of_cons|]. split; [done|].
    split; [done|]. intros d' i' Hd' Hi' Hp'. destruct (Hpr _ _ Hd' Hi' Hp') as (_ & ? & ->). by apply Hno.
  - apply (vo_X _ _ _ _ _ Hvm).
  - apply (vo_bound _ _ _ _ _ Hvm).
  - intros d' Hd'. rewrite Hm, (drop_entry _ _ _ eq_refl), decide_False by (done || (intros [= _ E]; unfold NUPDE, UVPDE in *; lia)).
    by apply (vo_self _ _ _ _ _ Hvm).
  - intros d' i' Hd' Hi' Hp'. destruct (Hpr d' i' Hd' Hi' Hp') as (_ & ? & ->). by apply (vo_pde _ _ _ _ _ Hvm).
Qed.

(** [pgdir[i] = 0; page_decref(pa2page(PTE_ADDR(pde)))] *)
Lemma drop_table :
  exists s', (kstore32 (KERNBASE + ent_addr d i) 0 ;;
              pp <- pa2page (PTE_ADDR (entry (mem s) d i)) ;; page_decref pp) s = Ret tt s' /\
    vm_ok s' (t :: l) D M X /\ vm_frame s s' /\ trace s' = trace s /\
    (forall d' i', 0 <= i' < 1024 ->
       entry (mem s') d' i' = if decide ((d', i') = (d, i)) then 0 else entry (mem s) d' i').
Proof.
  destruct (vo_tab _ _ _ _ _ Hvm d i Hd Hi Hp) as (Htl & HtD & Htr). fold t in Htl, HtD, Htr.
  pose proof (vm_dir_range Hvm d Hd). pose proof (vm_tab_range Hvm d i Hd Hi Hp) as Ht. fold t in Ht.
  apply fmap_Some in Htr as (p & Hpt & Hr).
  set (s1 := set_mem (store32 (mem s) (ent_addr d i) 0) s).
  assert (Ha1 : alloc_ok s1 l) by (eapply (alloc_ok_frame s); try done; apply (vo_alloc _ _ _ _ _ Hvm)).
  destruct (page_decref_eq s1 l t p Ha1 Hpt Htl ltac:(lia)) as (s2 & Hdec & Hm2 & Ha2 & (fl & pg & E2) & Href).
  rewrite <- Hr in Ha2, Href. exists s2. split; [|split; [|split; [|split]]].
  - erewrite bind_ret by (apply kstore_entry; lia). fold s1. rewrite PTE_ADDR_div. fold (frame_of (entry (mem s) d i)).
    fold t. erewrite bind_ret by (apply pa2page_eq; simpl; lia).
    replace (4096 * t / 4096) with t by lia. done.
  - apply drop_ok; [done|done|done].
  - etrans; [apply (set_mem_vm_frame (mem s1))|]. fold s1. apply sbp_vm_frame. by exists fl, pg.
  - by rewrite E2.
  - intros d' i' Hi'. rewrite Hm2. by apply drop_entry.
Qed.
End drop_table.

(** ** Releasing an empty directory *)

Lemma drop_dir s l D M X d :
  vm_ok s l D M X -> d ∈ D -> (forall i, 0 <= i < NUPDE -> present (mem s) d i = false) ->
  exists s', page_decref d s = Ret tt s' /\ vm_ok s' (d :: l) (D ∖ {[d]}) M X /\ same_but_pages s s'.
Proof.
  intros Hvm Hd Hz. destruct (vo_dir _ _ _ _ _ Hvm d Hd) as [Hdl Hr].
  apply fmap_Some in Hr as (p & Hp & Hr).
  destruct (page_decref_eq s l d p (vo_alloc _ _ _ _ _ Hvm) Hp Hdl ltac:(lia))
    as (s' & Hdec & Hm & Ha & Hsb & Href).
  rewrite <- Hr in Ha, Href. exists s'. split; [done|]. split; [|done].
  assert (HM : forall v, M !! (d, v) = None).
  { intros v. apply eq_None_not_Some. intros [e He].
    destruct (vo_dom _ _ _ _ _ Hvm _ _ _ He) as [_ Hv]. unfold NUVPN in Hv.
    assert (Hi : 0 <= v / 1024 < NUPDE) by (unfold NUPDE; lia).
    pose proof (vo_map _ _ _ _ _ Hvm d (v / 1024) (v mod 1024) Hd Hi ltac:(lia)) as Hu.
    replace (1024 * (v / 1024) + v mod 1024) with v in Hu by lia.
    rewrite He in Hu. unfold uent in Hu. by rewrite Hz in Hu. }
  destruct Hvm as [_ Hmem Hdir Htab Hinj Hmap Hdom Hdata HX Hb Hself Hpde].
  split; rewrite ?Hm; try done.
  - intros d' [Hd' Hne]%elem_of_difference. rewrite not_elem_of_singleton in Hne.
    destruct (Hdir d' Hd'). rewrite Href, decide_False by done. split; [by apply not_elem_of_cons|done].
  - intros d' i [Hd' _]%elem_of_difference Hi Hp'. destruct (Htab d' i Hd' Hi Hp') as (? & HtD & ?).
    cbv zeta. assert (frame_of (entry (mem s) d' i) <> d) by congruence.
    rewrite Href, decide_False by done. split; [by apply not_elem_of_cons|]. split; [|done].
    by intros [? _]%elem_of_difference.
  - intros d1 i1 d2 i2 [? _]%elem_of_difference [? _]%elem_of_difference. by apply Hinj.
  - intros d' i j [? _]%elem_of_difference. by apply Hmap.
  - intros d' v e He. destruct (Hdom _ _ _ He). split; [|done]. apply elem_of_difference.
    split; [done|]. intros ->%elem_of_singleton. by rewrite HM in He.
  - intros k Hk. destruct (Hdata k Hk) as (? & ? & ? & Hno). assert (k <> d) by congruence.
    rewrite Href, decide_False by done. split; [by apply not_elem_of_cons|].
    split; [by intros [? _]%elem_of_difference|]. split; [done|].
    intros d' i [? _]%elem_of_difference. by apply Hno.
  - intros d' [? _]%elem_of_difference. by apply Hself.
  - intros d' i [? _]%elem_of_difference. by apply Hpde.
Qed.

(** ** Unmapping a range *)

(** [M] without the pages [lo] to [hi - 1] of directory [d]. *)
Definition unmap (M : aspace) (d lo hi : Z) : aspace :=
  filter (fun kv => ~ (kv.1.1 = d /\ lo <= kv.1.2 < hi)) M.

Lemma unmap_lookup M d lo hi d' v :
  unmap M d lo hi !! (d', v) = if decide (d' = d /\ lo <= v < hi) then None else M !! (d', v).
Proof.
  unfold unmap. case_decide as H.
  - apply map_lookup_filter_None. right. intros e _ Hn. by apply Hn.
  - destruct (M !! (d', v)) as [e|] eqn:He.
    + by apply map_lookup_filter_Some.
    + apply map_lookup_filter_None. by left.
Qed.

Lemma unmap_empty M d lo : unmap M d lo lo = M.
Proof. apply map_eq. intros [d' v]. rewrite unmap_lookup. rewrite decide_False; [done|lia]. Qed.

Lemma unmap_step M d lo hi : lo <= hi -> delete (d, hi) (unmap M d lo hi) = unmap M d lo (hi + 1).
Proof.
  intros H. apply map_eq. intros [d' v]. rewrite lookup_delete, !unmap_lookup.
  destruct (decide ((d, hi) = (d', v))) as [[= -> ->]|E]; [by rewrite decide_True by lia|].
  assert (~ (d' = d /\ v = hi)) by (intros [-> ->]; done).
  repeat case_decide; done || lia.
Qed.

Lemma unmap_unmap M d lo mid hi : lo <= mid <= hi -> unmap (unmap M d lo mid) d mid hi = unmap M d lo hi.
Proof.
  intros H. apply map_eq. intros [d' v]. rewrite !unmap_lookup.
  repeat case_decide; done || lia.
Qed.

(** What [l'] must hold once [M] has shrunk to [M']. *)
Definition freed (l l' : list Z) (M M' : aspace) (X : Z -> Z) : Prop :=
  (forall k, k ∈ l -> k ∈ l') /\
  forall k, 0 < mappings M k + X k -> mappings M' k + X k = 0 -> k ∈ l'.

Lemma freed_refl l M X : freed l l M M X.
Proof. split; [done|lia]. Qed.

Lemma freed_trans l1 l2 l3 M1 M2 M3 X :
  (forall k, 0 <= X k) -> freed l1 l2 M1 M2 X -> freed l2 l3 M2 M3 X -> freed l1 l3 M1 M3 X.
Proof.
  intros HX [H1 H2] [H3 H4]. split; [auto|]. intros k Hk Hz. pose proof (mappings_nonneg M2 k).
  specialize (HX k). destruct (decide (mappings M2 k + X k = 0)); [auto|]. apply H4; [lia|done].
Qed.

(** page_remove in the terms of the loops below. *)
Lemma page_remove_freed s l D M X d va :
  vm_ok s l D M X -> curenv_ok s -> d ∈ D -> 0 <= va < UTOP ->
  exists s' l', page_remove (pgdir_kva d) va s = Ret tt s' /\
    vm_ok s' l' D (delete (d, va / 4096) M) X /\ vm_frame s s' /\
    freed l l' M (delete (d, va / 4096) M) X /\
    (forall d' i', d' ∈ D -> 0 <= i' < NUPDE -> entry (mem s') d' i' = entry (mem s) d' i').
Proof.
  intros Hvm Hce Hd Hva. destruct (M !! (d, va / 4096)) as [e|] eqn:He.
  - pose proof (page_remove_mapped _ _ _ _ _ _ _ _ Hvm Hce Hd Hva He) as H. cbv zeta in H.
    destruct H as (s' & H & Hvm' & Hfr & _ & _ & Hent).
    exists s', (if mappings M (frame_of e) + X (frame_of e) =? 1 then frame_of e :: l else l).
    split; [done|]. split; [done|]. split; [done|]. split; [|done]. split.
    + intros k Hk. case_match; [by apply elem_of_cons; right|done].
    + intros k Hk. rewrite (mappings_delete _ _ _ _ He). case_decide as E; [|lia]. subst k.
      intros Hz. assert (mappings M (frame_of e) + X (frame_of e) =? 1 = true) as -> by lia.
      by apply elem_of_cons; left.
  - rewrite delete_id by done. exists s, l. split; [by eapply page_remove_unmapped|].
    split; [done|]. split; [reflexivity|]. split; [apply freed_refl|done].
Qed.

(** ** Taking a page from the free list *)

Section alloc.
Context {s : kstate} {n : Z} {l : list Z} {D : gset Z} {M : aspace} {X : Z -> Z}.
Context (Hvm : vm_ok s (n :: l) D M X).

Lemma free_page_facts : n ∉ l /\ no_table s D n /\ mappings M n = 0 /\ X n = 0 /\
  pp_ref <$> pages s !! n = Some 0 /\ 0 <= n < npages s.
Proof.
  pose proof (ao_nodup _ _ (vo_alloc _ _ _ _ _ Hvm)) as [Hnl _]%NoDup_cons.
  assert (Hin : n ∈ n :: l) by set_solver.
  split; [done|]. split; [split|].
  - intros Hn. by destruct (vo_dir _ _ _ _ _ Hvm n Hn).
  - intros d i Hd Hi Hp. destruct (vo_tab _ _ _ _ _ Hvm d i Hd Hi Hp) as [Ht _].
    intros E. apply Ht. by rewrite E.
  - pose proof (mappings_nonneg M n). pose proof (vo_X _ _ _ _ _ Hvm n).
    assert (~ 0 < mappings M n + X n) by (intros Hk; by destruct (vo_data _ _ _ _ _ Hvm n Hk)).
    split; [lia|]. split; [lia|].
    destruct (flist_dom _ _ _ _ (ao_list _ _ (vo_alloc _ _ _ _ _ Hvm)) Hin) as (p & Hp & Hr).
    split; [by rewrite Hp, <- Hr|]. by eapply alloc_ok_range; [apply (vo_alloc _ _ _ _ _ Hvm)|].
Qed.

Lemma vm_ok_alloc flags p :
  pages s !! n = Some p -> alloc_ok (alloc_post flags n p s) l ->
  vm_ok (alloc_post flags n p s) l D M X /\ no_table (alloc_post flags n p s) D n /\
  insertable (alloc_post flags n p s) l D M n /\
  (has flags ALLOC_ZERO = true -> forall i, 0 <= i < 1024 -> entry (mem (alloc_post flags n p s)) n i = 0).
Proof.
  intros Hp Hok. destruct free_page_facts as (Hnl & Hnt & Hm0 & HX0 & Hr0 & Hrange).
  set (s1 := set_pages (<[n := set_pp_link None p]> (pages s)) (set_page_free_list (pp_link p) s)).
  set (m' := if has flags ALLOC_ZERO then fill (mem s) (4096 * n) 0 4096 else mem s).
  assert (Es : alloc_post flags n p s = set_mem m' s1).
  { unfold alloc_post, s1, m'. destruct (has flags ALLOC_ZERO); [done|]. by destruct s. }
  assert (Href : forall k, pp_ref <$> pages s1 !! k = pp_ref <$> pages s !! k).
  { intros k. unfold s1. simpl. rewrite lookup_insert. case_decide as E; [|done]. rewrite <- E, Hp. done. }
  assert (Hm' : forall t j, t <> n -> 0 <= j < 1024 -> entry m' t j = entry (mem s1) t j).
  { intros t j Ht Hj. unfold m'. destruct (has flags ALLOC_ZERO); [|done].
    by rewrite entry_fill, decide_False. }
  assert (Hok1 : alloc_ok s1 l) by (rewrite Es in Hok; by eapply (alloc_ok_frame (set_mem m' s1))).
  assert (Hvm1 : vm_ok s1 l D M X).
  { destruct Hvm as [Ha Hmem Hdir Htab Hinj Hmap Hdom Hdata HX Hb Hself Hpde]. split; try done.
    - intros d Hd. rewrite Href. destruct (Hdir d Hd) as [[? ?]%not_elem_of_cons ?]. done.
    - intros d i Hd Hi Hpr. cbv zeta. rewrite Href.
      destruct (Htab d i Hd Hi Hpr) as ([? ?]%not_elem_of_cons & ? & ?). done.
    - intros k Hk. rewrite Href. destruct (Hdata k Hk) as ([? ?]%not_elem_of_cons & ? & ? & ?). done. }
  destruct (vm_ok_write_page s1 l D M X n m' Hvm1 Hnt) as [Hvm2 Hnt2]; [|done|].
  { unfold m'. destruct (has flags ALLOC_ZERO); [apply mem_ok_fill|]; apply (vo_mem _ _ _ _ _ Hvm). }
  rewrite Es. split; [done|]. split; [done|]. split.
  - split; [done|]. split; [apply Hnt2|]. split; [|apply Hnt2].
    etrans; [apply (Href n)|]. by rewrite Hr0, Hm0.
  - intros Hz i Hi. simpl. unfold m'. rewrite Hz. by rewrite entry_fill, decide_True.
Qed.

(** [page_alloc] under the invariant of the address spaces. *)
Lemma page_alloc_vm flags :
  exists s', page_alloc flags s = Ret (Some n) s' /\ vm_ok s' l D M X /\ vm_frame s s' /\
    no_table s' D n /\ insertable s' l D M n /\ mappings M n = 0 /\ X n = 0 /\
    (has flags ALLOC_ZERO = true -> forall i, 0 <= i < 1024 -> entry (mem s') n i = 0) /\
    (forall t j, t <> n -> 0 <= j < 1024 -> entry (mem s') t j = entry (mem s) t j).
Proof.
  destruct (page_alloc_cons s flags n l (vo_alloc _ _ _ _ _ Hvm)) as (p & Hp & Hr & Heq & Hok).
  destruct (vm_ok_alloc flags p Hp Hok) as (Hvm' & Hnt & Hins & Hz).
  destruct free_page_facts as (_ & _ & Hm0 & HX0 & _).
  exists (alloc_post flags n p s). split; [done|]. split; [done|]. split; [apply alloc_post_frame|].
  split; [done|]. split; [done|]. split; [done|]. split; [done|]. split; [done|].
  intros t j Ht Hj. unfold alloc_post. destruct (has flags ALLOC_ZERO); [|done].
  simpl. by rewrite entry_fill, decide_False.
Qed.
End alloc.

(** Changing the counter of a page that belongs to nothing. *)
Lemma vm_ok_ref s l D M X n p r :
  vm_ok s l D M X -> no_table s D n -> mappings M n + X n = 0 -> n ∉ l -> pages s !! n = Some p ->
  vm_ok (set_pages (<[n := set_pp_ref r p]> (pages s)) s) l D M X.
Proof.
  intros [Ha Hmem Hdir Htab Hinj Hmap Hdom Hdata HX Hb Hself Hpde] [HnD Hnt] Hz Hn Hp.
  assert (Hne : forall k, k <> n ->
    pp_ref <$> pages (set_pages (<[n := set_pp_ref r p]> (pages s)) s) !! k = pp_ref <$> pages s !! k).
  { intros k Hk. simpl. by rewrite lookup_insert_ne. }
  split; try done.
  - by apply alloc_ok_ref.
  - intros d Hd. rewrite Hne by congruence. by apply Hdir.
  - intros d i Hd Hi Hpr. cbv zeta. destruct (Htab d i Hd Hi Hpr) as (? & ? & ?).
    split; [done|]. split; [done|]. etrans; [apply Hne; by apply Hnt|done].
  - intros k Hk. rewrite Hne by (intros ->; lia). by apply Hdata.
Qed.
