(* ===== verification/Env.v ===== *)
(** * kern/env.c: environments

    Environment ids, the table of environments and its free list, address-space
    set-up, the ELF loader, the release of an environment and the switch to one.
    A [struct Env *] is an index of [envs]; [env_destroy], which may schedule,
    is in Sched.v. *)
From S2P Require Import Prelude Mmu Mem Console Kstate Pmap.

Definition ENVGENSHIFT : Z := 12.

(** ** The global descriptor table *)
Definition gdt_init : gmap Z Segdesc :=
  <[GD_KT .>> 3 := SEG (STA_X .| STA_R) 0x0 0xffffffff 0]>
  (<[GD_KD .>> 3 := SEG STA_W 0x0 0xffffffff 0]>
  (<[GD_UT .>> 3 := SEG (STA_X .| STA_R) 0x0 0xffffffff 3]>
  (<[GD_UD .>> 3 := SEG STA_W 0x0 0xffffffff 3]>
  (list_to_map (map (fun i => (i, SEG_NULL)) (seqZ 0 (NCPU + 5))))))).

(** ** Environment ids *)

(** [*env_store] and the result. *)
Definition envid2env (envid : Z) (checkperm : bool) : K (Z * option Z) :=
  if envid =? 0 then ce <- gets curenv ;; ret (0, ce)
  else
    let e := ENVX envid in
    env <- get_env e ;;
    if (env_status env =? ENV_FREE) || negb (env_id env =? envid) then ret (- E_BAD_ENV, None)
    else
      ce <- gets curenv ;;
      if checkperm && negb (bool_decide (Some e = ce)) then
        c <- curenv_deref ;;
        cenv <- get_env c ;;
        if negb (env_parent_id env =? env_id cenv) then ret (- E_BAD_ENV, None)
        else ret (0, Some e)
      else ret (0, Some e).

(** ** The table of environments *)

Definition env_init_percpu : K unit := emit ELgdt.

(** The loop's body at index [i]. *)
Definition env_init_one (i : Z) : K unit :=
  fl <- gets env_free_list ;;
  upd_env i (fun e => set_env_link fl (set_env_status ENV_FREE (set_env_id 0 e))) ;;
  modify (set_env_free_list (Some i)).

Definition env_init : K unit :=
  modify (set_env_free_list None) ;;
  for_each (rev (seqZ 0 NENV)) env_init_one ;;
  env_init_percpu.

(** ** Address space *)

Definition env_setup_vm (e : Z) : K Z :=
  p <- page_alloc ALLOC_ZERO ;;
  match p with
  | None => ret (- E_NO_MEM)
  | Some p =>
      pgdir <- page2kva p ;;
      upd_env e (set_env_pgdir pgdir) ;;
      page_incref p ;;
      for_each (seqZ (PDX UTOP) (NPDENTRIES - PDX UTOP)) (fun x =>
        kp <- gets kern_pgdir ;;
        v <- kload32 (kp + 4 * x) ;;
        kstore32 (pgdir + 4 * x) v) ;;
      pa <- PADDR pgdir ;;
      kstore32 (pgdir + 4 * PDX UVPT) ((pa .| PTE_P) .| PTE_U) ;;
      ret 0
  end.

(** The id that replaces [id] when slot [e] is used again. *)
Definition next_env_id (id e : Z) : Z :=
  let generation := i32 (id + (1 .<< ENVGENSHIFT)) .& Z.lnot (NENV - 1) in
  let generation := if generation <=? 0 then 1 .<< ENVGENSHIFT else generation in
  generation .| e.

(** The registers [env_alloc] gives a new environment. *)
Definition new_env_tf : Trapframe :=
  set_tf_eflags (0 .| FL_IF) (set_tf_cs (GD_UT .| 3) (set_tf_esp USTACKTOP
    (set_tf_ss (GD_UD .| 3) (set_tf_es (GD_UD .| 3) (set_tf_ds (GD_UD .| 3) tf_zero))))).

(** The id of the current environment, 0 without one. *)
Definition curenv_id : K Z :=
  ce <- gets curenv ;;
  match ce with None => ret 0 | Some c => e <- get_env c ;; ret (env_id e) end.

Definition env_alloc (parent_id : Z) : K (Z * option Z) :=
  fl <- gets env_free_list ;;
  match fl with
  | None => ret (- E_NO_FREE_ENV, None)
  | Some e =>
      r <- env_setup_vm e ;;
      if r <? 0 then ret (r, None)
      else
        upd_env e (fun env =>
          set_env_ipc_recving false (set_env_pgfault_upcall 0 (set_env_tf new_env_tf
          (set_env_runs 0 (set_env_status ENV_RUNNABLE (set_env_type ENV_TYPE_USER
          (set_env_parent_id parent_id (set_env_id (next_env_id (env_id env) e) env)))))))) ;;
        env <- get_env e ;;
        modify (set_env_free_list (env_link env)) ;;
        cid <- curenv_id ;;
        cprintf "[%08x] new env %08x\n" [VInt cid; VInt (env_id env)] ;;
        ret (0, Some e)
  end.

(** ** Loading a program *)

(** A store by the kernel at a linear address below UTOP: through the page
    tables at %cr3, which must allow the write (%cr0 has WP set). *)
Definition vstore8 (va v : Z) : K unit := fun s =>
  let m := mem s in
  let pde := load32 m (PTE_ADDR (cr3 s) + 4 * PDX va) in
  if negb (has pde PTE_P && has pde PTE_W) then Fault s
  else
    let pte := load32 m (PTE_ADDR pde + 4 * PTX va) in
    if negb (has pte PTE_P && has pte PTE_W) then Fault s
    else Ret tt (set_mem (store8 m (PTE_ADDR pte + PGOFF va) v) s).

(** A load by the kernel at a linear address, through the page tables at %cr3. *)
Definition vload8 (va : Z) : K Z := fun s =>
  let m := mem s in
  let pde := load32 m (PTE_ADDR (cr3 s) + 4 * PDX va) in
  if negb (has pde PTE_P) then Fault s
  else
    let pte := load32 m (PTE_ADDR pde + 4 * PTX va) in
    if negb (has pte PTE_P) then Fault s
    else Ret (load8 m (PTE_ADDR pte + PGOFF va)) s.

Definition vstore32 (va v : Z) : K unit :=
  vstore8 va (v .& 0xff) ;; vstore8 (u32 (va + 1)) ((v .>> 8) .& 0xff) ;;
  vstore8 (u32 (va + 2)) ((v .>> 16) .& 0xff) ;; vstore8 (u32 (va + 3)) ((v .>> 24) .& 0xff).

Definition vmemset (va c n : Z) : K unit :=
  for_each (seqZ 0 n) (fun k => vstore8 (u32 (va + k)) c).

Definition kload8 (kva : Z) : K Z := fun s =>
  if kva <? KERNBASE then Fault s else Ret (load8 (mem s) (kva - KERNBASE)) s.
Definition kload16 (kva : Z) : K Z :=
  a <- kload8 kva ;; b <- kload8 (kva + 1) ;; ret (a .| (b .<< 8)).

Definition vmemcpy (va kva n : Z) : K unit :=
  for_each (seqZ 0 n) (fun k => b <- kload8 (u32 (kva + k)) ;; vstore8 (u32 (va + k)) b).

Definition region_alloc (e va len : Z) : K unit :=
  for_each (page_starts (ROUNDDOWN va PGSIZE) (ROUNDUP (u32 (va + len)) PGSIZE)) (fun y =>
    pp <- page_alloc ALLOC_ZERO ;;
    match pp with
    | None => panic
    | Some pp =>
        env <- get_env e ;;
        r <- page_insert (env_pgdir env) pp y (PTE_U .| PTE_W) ;;
        ret tt
    end).

Definition ELF_MAGIC : Z := 0x464C457F.
Definition ELF_PROG_LOAD : Z := 1.
Definition sizeof_Proghdr : Z := 32.

(** inc/elf.h: the fields of the headers that the loader reads. *)
Record Elf := mkElf { e_magic : Z; e_entry : Z; e_phoff : Z; e_phnum : Z }.
Record Proghdr := mkPh { p_type : Z; p_offset : Z; p_va : Z; p_filesz : Z; p_memsz : Z }.

Definition read_elf (a : Z) : K Elf :=
  m <- kload32 a ;; en <- kload32 (a + 24) ;; po <- kload32 (a + 28) ;; pn <- kload16 (a + 44) ;;
  ret (mkElf m en po pn).
Definition read_ph (a : Z) : K Proghdr :=
  t <- kload32 a ;; o <- kload32 (a + 4) ;; va <- kload32 (a + 8) ;;
  fs <- kload32 (a + 16) ;; ms <- kload32 (a + 20) ;; ret (mkPh t o va fs ms).

Definition load_segment (e binary ph : Z) : K unit :=
  h <- read_ph ph ;;
  if p_type h =? ELF_PROG_LOAD then
    region_alloc e (p_va h) (p_memsz h) ;;
    vmemset (p_va h) 0 (p_memsz h) ;;
    vmemcpy (p_va h) (u32 (binary + p_offset h)) (p_filesz h)
  else ret tt.

Definition load_icode (e binary : Z) : K unit :=
  cr3_store <- gets cr3 ;;
  env <- get_env e ;;
  pa <- PADDR (env_pgdir env) ;;
  lcr3 pa ;;
  h <- read_elf binary ;;
  if negb (e_magic h =? ELF_MAGIC) then panic
  else
    let ph := u32 (binary + e_phoff h) in
    let eph := u32 (ph + sizeof_Proghdr * e_phnum h) in
    (if ph <? eph
     then for_each (seqZ 0 (e_phnum h)) (fun k => load_segment e binary (ph + sizeof_Proghdr * k))
     else ret tt) ;;
    lcr3 cr3_store ;;
    env <- get_env e ;;
    pp <- page_alloc 0 ;;
    (match pp with
     | None => (* page_insert(..., NULL, ...) *)
         pte <- pgdir_walk (env_pgdir env) (USTACKTOP - PGSIZE) 1 ;;
         match pte with None => ret tt | Some _ => fault end
     | Some pp =>
         r <- page_insert (env_pgdir env) pp (USTACKTOP - PGSIZE) ((PTE_W .| PTE_U) .| PTE_P) ;;
         ret tt
     end) ;;
    upd_env e (fun env => set_env_tf (set_tf_eip (e_entry h) (env_tf env)) env).

Definition env_create (binary type : Z) : K unit :=
  cprintf "I should be happening!\n" [] ;;
  r <- env_alloc 0 ;;
  match r with
  | (_, None) => panic
  | (_, Some e) => upd_env e (set_env_type type) ;; load_icode e binary
  end.

(** ** Releasing an environment *)

(** One page table entry, and one page table. *)
Definition env_free_pte (pgdir pt pdeno pteno : Z) : K unit :=
  v <- kload32 (pt + 4 * pteno) ;;
  if has v PTE_P then page_remove pgdir (PGADDR pdeno pteno 0) else ret tt.

Definition env_free_pde (e pdeno : Z) : K unit :=
  env <- get_env e ;;
  pde <- kload32 (env_pgdir env + 4 * pdeno) ;;
  if negb (has pde PTE_P) then ret tt
  else
    let pa := PTE_ADDR pde in
    pt <- KADDR pa ;;
    for_each (seqZ 0 (PTX 0xffffffff + 1)) (env_free_pte (env_pgdir env) pt pdeno) ;;
    kstore32 (env_pgdir env + 4 * pdeno) 0 ;;
    pp <- pa2page pa ;;
    page_decref pp.

Definition env_free (e : Z) : K unit :=
  ce <- gets curenv ;;
  (if bool_decide (Some e = ce) then kp <- gets kern_pgdir ;; pa <- PADDR kp ;; lcr3 pa else ret tt) ;;
  cid <- curenv_id ;;
  env <- get_env e ;;
  cprintf "[%08x] free env %08x\n" [VInt cid; VInt (env_id env)] ;;
  for_each (seqZ 0 (PDX UTOP)) (env_free_pde e) ;;
  env <- get_env e ;;
  pa <- PADDR (env_pgdir env) ;;
  upd_env e (set_env_pgdir 0) ;;
  pp <- pa2page pa ;;
  page_decref pp ;;
  fl <- gets env_free_list ;;
  upd_env e (fun env => set_env_link fl (set_env_status ENV_FREE env)) ;;
  modify (set_env_free_list (Some e)).

(** ** Running an environment *)

(** [cpunum()] is the CPU the code runs on. *)
Definition env_pop_tf : K unit := fun s =>
  (c <- curenv_deref ;;
   upd_env c (set_env_cpunum (this_cpu s)) ;;
   env <- get_env c ;;
   fun s => Resume (env_tf env) s) s.

(** The context switch proper. *)
Definition switch_env (e : Z) : K unit :=
  ce <- gets curenv ;;
  if bool_decide (ce = Some e) then ret tt
  else
    (match ce with
     | None => ret tt
     | Some c =>
         cenv <- get_env c ;;
         if env_status cenv =? ENV_RUNNING then upd_env c (set_env_status ENV_RUNNABLE) else ret tt
     end) ;;
    set_curenv (Some e) ;;
    upd_env e (fun env => set_env_runs (u32 (env_runs env + 1)) (set_env_status ENV_RUNNING env)) ;;
    env <- get_env e ;;
    pa <- PADDR (env_pgdir env) ;;
    lcr3 pa.

Definition env_run (e : Z) : K unit :=
  switch_env e ;;
  unlock_kernel ;;
  env_pop_tf.
