(* ===== verification/Kbytes.v ===== *)
(** * Bytes of kernel memory

    Reads through kernel pointers as functions of the physical memory, strings
    compared with constants, and [KADDR]; shared by the code that looks at tables and
    buffers byte by byte (kern/mpconfig.c, kern/monitor.c, kern/lapic.c). *)
From S2P Require Import Prelude Mmu Mem Console Kstate Pmap Env.

(** ** Definitions *)

Definition kstore8 (kva v : Z) : K unit := fun s =>
  if kva <? KERNBASE then Fault s else Ret tt (set_mem (store8 (mem s) (kva - KERNBASE) v) s).
Definition kstore16 (kva v : Z) : K unit := kstore8 kva v ;; kstore8 (kva + 1) (v .>> 8).

(** The bytes from [a] on are those of [l]; the comparison ends at the first that differs. *)
Fixpoint bytes_are (a : Z) (l : list Z) : K bool :=
  match l with
  | [] => ret true
  | x :: l => b <- kload8 a ;; if b =? x then bytes_are (a + 1) l else ret false
  end.

Fixpoint match_bytes (m : bytemem) (a : Z) (l : list Z) : bool :=
  match l with [] => true | x :: l => (load8 m a =? x) && match_bytes m (a + 1) l end.
Definition mload16 (m : bytemem) (a : Z) : Z := load8 m a .| (load8 m (a + 1) .<< 8).


(** ** Reads *)

Lemma kload8_eq a s : KERNBASE <= a -> kload8 a s = Ret (load8 (mem s) (a - KERNBASE)) s.
Proof. intros H. unfold kload8. by replace (a <? KERNBASE) with false by lia. Qed.
Lemma kload16_eq a s : KERNBASE <= a -> kload16 a s = Ret (mload16 (mem s) (a - KERNBASE)) s.
Proof.
  intros H. unfold kload16. rewrite (bind_ret _ _ _ _ _ (kload8_eq a s H)), (bind_ret _ _ _ _ _ (kload8_eq (a + 1) s ltac:(lia))).
  unfold mload16. by replace (a + 1 - KERNBASE) with (a - KERNBASE + 1) by lia.
Qed.
Lemma kload32_eq a s : KERNBASE <= a -> kload32 a s = Ret (load32 (mem s) (a - KERNBASE)) s.
Proof. intros H. unfold kload32. by replace (a <? KERNBASE) with false by lia. Qed.

Lemma bytes_are_eq a l s : KERNBASE <= a -> bytes_are a l s = Ret (match_bytes (mem s) (a - KERNBASE) l) s.
Proof.
  revert a. induction l as [|x l IH]; intros a Ha; [done|]. cbn [bytes_are match_bytes].
  rewrite (bind_ret _ _ _ _ _ (kload8_eq a s Ha)). destruct (_ =? x); [|done].
  rewrite IH by lia. simpl. by replace (a + 1 - KERNBASE) with (a - KERNBASE + 1) by lia.
Qed.

Lemma mload16_range m a : mem_ok m -> 0 <= mload16 m a < 0x10000.
Proof.
  intros Hm. unfold mload16. pose proof (Hm a). pose proof (Hm (a + 1)).
  rewrite Z.lor_comm, (lor_add_low _ _ 8); [rewrite Z.shiftl_mul_pow2 by lia; zlia|lia| |zlia].
  rewrite Z.shiftl_mul_pow2 by lia. zlia.
Qed.

Lemma load32_nonneg m a : mem_ok m -> 0 <= load32 m a.
Proof. intros H. unfold load32. pose proof (H a). pose proof (H (a + 1)). pose proof (H (a + 2)). pose proof (H (a + 3)). lia. Qed.

Lemma store_bytes_mem_ok m a l : mem_ok m -> mem_ok (store_bytes m a l).
Proof. intros H b. rewrite load8_store_bytes. case_decide; [apply u8_range|apply H]. Qed.

(** ** [KADDR] *)

Lemma KADDR_mem a s : 0 <= a -> PGNUM a < npages s -> npages s <= 0x10000 -> KADDR a s = Ret (KERNBASE + a) s.
Proof.
  intros Ha Hn Hm. unfold KADDR. replace (PGNUM a >=? npages s) with false by lia.
  unfold PGNUM, PTXSHIFT in Hn. rewrite Z.shiftr_div_pow2 in Hn by lia. rewrite u32_small; [by rewrite Z.add_comm|].
  unfold KERNBASE in *. zlia.
Qed.

Lemma KADDR_cases a s : 0 <= a -> npages s <= 0x10000 ->
  (exists s', KADDR a s = Panic s') \/ KADDR a s = Ret (KERNBASE + a) s.
Proof.
  intros Ha Hm. destruct (decide (PGNUM a < npages s)) as [H|H]; [right; by apply KADDR_mem|].
  left. unfold KADDR. replace (PGNUM a >=? npages s) with true by lia. by eexists.
Qed.
