(* ===== verification/PmapChecks.v ===== *)
(** * kern/pmap.c: the self-tests and mem_init

    The checks the kernel runs on its own memory management while it boots, and
    [mem_init], which is made of the parts in Pmap.v and of these checks.  An
    assertion that fails is a panic. *)
From S2P Require Import Prelude Mmu Mem Console Kstate Pmap Env.

Definition kassert (b : bool) : K unit := if b then ret tt else panic.

(** [for (pp = h; pp; pp = pp->pp_link)] with the state [a] of the body.  There
    are fewer than 2^20 + 1 page descriptors: a chain that is longer goes round
    for ever. *)
Definition for_free_list {A} (body : Z -> A -> K A) (h : option Z) (a : A) : K A :=
  r <- kloop 0x100001 (fun '(pp, a) =>
    match pp with
    | None => ret (inr a)
    | Some i => a <- body i a ;; p <- get_page i ;; ret (inl (pp_link p, a))
    end) (h, a) ;;
  match r with inr a => ret a | inl _ => fault end.

(** ** check_page_free_list *)

(** A [struct PageInfo **]: one of the locals [pp1] and [pp2], or a link. *)
Inductive pploc := LVar (second : bool) | LLink (i : Z).

(** The locals of the block that reorders the list. *)
Record reorder := mkReorder { pp1 : option Z; pp2 : option Z; tp0 : pploc; tp1 : pploc }.

Definition write_loc (l : pploc) (v : option Z) (r : reorder) : K reorder :=
  match l with
  | LVar false => ret (mkReorder v (pp2 r) (tp0 r) (tp1 r))
  | LVar true => ret (mkReorder (pp1 r) v (tp0 r) (tp1 r))
  | LLink i => upd_page i (set_pp_link v) ;; ret r
  end.

Definition is_high (pdx_limit pp : Z) : bool := PDX (page2pa pp) >=? pdx_limit.

(** [*tp[pagetype] = pp; tp[pagetype] = &pp->pp_link;] *)
Definition reorder_step (pdx_limit pp : Z) (r : reorder) : K reorder :=
  if is_high pdx_limit pp
  then r <- write_loc (tp1 r) (Some pp) r ;; ret (mkReorder (pp1 r) (pp2 r) (tp0 r) (LLink pp))
  else r <- write_loc (tp0 r) (Some pp) r ;; ret (mkReorder (pp1 r) (pp2 r) (LLink pp) (tp1 r)).

(** [u1] and [u2]: the locals before they are assigned. *)
Definition reorder_free_list (u1 u2 : option Z) (pdx_limit : Z) : K unit :=
  fl <- gets page_free_list ;;
  r <- for_free_list (reorder_step pdx_limit) fl (mkReorder u1 u2 (LVar false) (LVar true)) ;;
  r <- write_loc (tp1 r) None r ;;
  r <- write_loc (tp0 r) (pp2 r) r ;;
  modify (set_page_free_list (pp1 r)).

Section checks.
(** The linker symbol [end], the uninitialised locals of the reordering, the
    addresses of [pages], [envs] and [percpu_kstacks]. *)
Context (end_ : Z) (u1 u2 : option Z) (pages_va envs_va percpu_kstacks : Z).

Definition check_free_page (first_free_page pp : Z) (n : Z * Z) : K (Z * Z) :=
  np <- gets npages ;;
  kassert ((0 <=? pp) && (pp <? np)) ;;
  kassert (negb (page2pa pp =? 0)) ;;
  kassert (negb (page2pa pp =? IOPHYSMEM)) ;;
  kassert (negb (page2pa pp =? EXTPHYSMEM - PGSIZE)) ;;
  kassert (negb (page2pa pp =? EXTPHYSMEM)) ;;
  (if page2pa pp <? EXTPHYSMEM then ret tt
   else kva <- page2kva pp ;; kassert (kva >=? first_free_page)) ;;
  kassert (negb (page2pa pp =? MPENTRY_PADDR)) ;;
  ret (if page2pa pp <? EXTPHYSMEM then (n.1 + 1, n.2) else (n.1, n.2 + 1)).

Definition check_page_free_list (only_low_memory : bool) : K unit :=
  let pdx_limit := if only_low_memory then 1 else NPDENTRIES in
  fl <- gets page_free_list ;;
  (if bool_decide (fl = None) then panic else ret tt) ;;
  (if only_low_memory then reorder_free_list u1 u2 pdx_limit else ret tt) ;;
  fl <- gets page_free_list ;;
  for_free_list (fun pp _ =>
    if PDX (page2pa pp) <? pdx_limit then kva <- page2kva pp ;; kmemset kva 0x97 128 else ret tt) fl tt ;;
  first_free_page <- boot_alloc end_ 0 ;;
  fl <- gets page_free_list ;;
  n <- for_free_list (check_free_page first_free_page) fl (0, 0) ;;
  kassert (0 <? n.1) ;;
  kassert (0 <? n.2) ;;
  cprintf "check_page_free_list() succeeded!\n" [].

(** ** check_page_alloc *)

Definition count_free : K Z :=
  fl <- gets page_free_list ;;
  for_free_list (fun _ n => ret (n + 1)) fl 0.

(** [assert((pp = page_alloc(flags)))] *)
Definition alloc_assert (flags : Z) : K Z :=
  pp <- page_alloc flags ;;
  match pp with Some pp => ret pp | None => panic end.

Definition no_free_page : K unit := pp <- page_alloc 0 ;; kassert (bool_decide (pp = None)).

Definition in_memory (pp : Z) : K unit := np <- gets npages ;; kassert (page2pa pp <? u32 (np * PGSIZE)).

Definition check_zeroed (c : Z) : K unit :=
  for_each (seqZ 0 PGSIZE) (fun i => v <- kload8 (c + i) ;; kassert (v =? 0)).

Definition check_page_alloc : K unit :=
  nfree <- count_free ;;
  pp0 <- alloc_assert 0 ;;
  pp1 <- alloc_assert 0 ;;
  pp2 <- alloc_assert 0 ;;
  kassert (negb (pp1 =? pp0)) ;;
  kassert (negb (pp2 =? pp1) && negb (pp2 =? pp0)) ;;
  in_memory pp0 ;; in_memory pp1 ;; in_memory pp2 ;;
  (* temporarily steal the rest of the free pages *)
  fl <- gets page_free_list ;;
  modify (set_page_free_list None) ;;
  no_free_page ;;
  (* free and re-allocate *)
  page_free pp0 ;; page_free pp1 ;; page_free pp2 ;;
  pp0 <- alloc_assert 0 ;;
  pp1 <- alloc_assert 0 ;;
  pp2 <- alloc_assert 0 ;;
  kassert (negb (pp1 =? pp0)) ;;
  kassert (negb (pp2 =? pp1) && negb (pp2 =? pp0)) ;;
  no_free_page ;;
  (* test flags *)
  kva <- page2kva pp0 ;;
  kmemset kva 1 PGSIZE ;;
  page_free pp0 ;;
  pp <- alloc_assert ALLOC_ZERO ;;
  kassert (pp0 =? pp) ;;
  c <- page2kva pp ;;
  check_zeroed c ;;
  (* give free list back *)
  modify (set_page_free_list fl) ;;
  page_free pp0 ;; page_free pp1 ;; page_free pp2 ;;
  left <- count_free ;;
  kassert (nfree - left =? 0) ;;
  cprintf "check_page_alloc() succeeded!\n" [].

(** ** check_kern_pgdir *)

Definition check_va2pa (pgdir va : Z) : K Z :=
  pde <- kload32 (pgdir + 4 * PDX va) ;;
  if negb (has pde PTE_P) then ret 0xffffffff
  else
    p <- KADDR (PTE_ADDR pde) ;;
    pte <- kload32 (p + 4 * PTX va) ;;
    if negb (has pte PTE_P) then ret 0xffffffff else ret (PTE_ADDR pte).

(** [for (i = 0; i < n; i += PGSIZE) assert(check_va2pa(pgdir, va + i) == pa + i)] *)
Definition check_range (pgdir va n pa : Z) : K unit :=
  for_each (seqZ 0 ((n + PGSIZE - 1) / PGSIZE)) (fun k =>
    a <- check_va2pa pgdir (u32 (va + PGSIZE * k)) ;; kassert (a =? u32 (pa + PGSIZE * k))).

Definition check_pde (pgdir i : Z) : K unit :=
  pde <- kload32 (pgdir + 4 * i) ;;
  if bool_decide (i ∈ [PDX UVPT; PDX (KSTACKTOP - 1); PDX UPAGES; PDX UENVS; PDX MMIOBASE])
  then kassert (has pde PTE_P)
  else if i >=? PDX KERNBASE then kassert (has pde PTE_P) ;; kassert (has pde PTE_W)
  else kassert (pde =? 0).

Definition check_kern_pgdir : K unit :=
  pgdir <- gets kern_pgdir ;;
  np <- gets npages ;;
  pages_pa <- PADDR pages_va ;;
  check_range pgdir UPAGES (ROUNDUP (u32 (np * sizeof_PageInfo)) PGSIZE) pages_pa ;;
  envs_pa <- PADDR envs_va ;;
  check_range pgdir UENVS (ROUNDUP (NENV * sizeof_Env) PGSIZE) envs_pa ;;
  check_range pgdir KERNBASE (u32 (np * PGSIZE)) 0 ;;
  for_each (seqZ 0 NCPU) (fun n =>
    let base := u32 (KSTACKTOP - (KSTKSIZE + KSTKGAP) * (n + 1)) in
    pa <- PADDR (percpu_kstacks + n * KSTKSIZE) ;;
    check_range pgdir (base + KSTKGAP) KSTKSIZE pa ;;
    for_each (seqZ 0 (KSTKGAP / PGSIZE)) (fun k =>
      a <- check_va2pa pgdir (base + PGSIZE * k) ;; kassert (a =? 0xffffffff))) ;;
  for_each (seqZ 0 NPDENTRIES) (check_pde pgdir) ;;
  cprintf "check_kern_pgdir() succeeded!\n" [].

(** ** check_page *)

(** The assertions that recur. *)
Definition ref_is (pp n : Z) : K unit := p <- get_page pp ;; kassert (pp_ref p =? n).
Definition maps_to (va pp : Z) : K unit :=
  kp <- gets kern_pgdir ;; a <- check_va2pa kp va ;; kassert (a =? page2pa pp).
Definition maps_nothing (va : Z) : K unit :=
  kp <- gets kern_pgdir ;; a <- check_va2pa kp va ;; kassert (a =? 0xffffffff).
Definition insert_ok (pp va perm : Z) : K unit :=
  kp <- gets kern_pgdir ;; r <- page_insert kp pp va perm ;; kassert (r =? 0).
Definition insert_fails (pp va perm : Z) : K unit :=
  kp <- gets kern_pgdir ;; r <- page_insert kp pp va perm ;; kassert (r <? 0).
Definition pte_addr (va : Z) : K Z :=
  kp <- gets kern_pgdir ;; p <- pgdir_walk kp va 0 ;; liftopt p.
Definition pte_has (va flag : Z) (b : bool) : K unit :=
  p <- pte_addr va ;; v <- kload32 p ;; kassert (Bool.eqb (has v flag) b).
Definition alloc_is (pp : Z) : K unit :=
  r <- page_alloc 0 ;; kassert (bool_decide (r = Some pp)).
Definition remove_at (va : Z) : K unit := kp <- gets kern_pgdir ;; page_remove kp va.

(** Three pages, and the rest of the free list put aside. *)
Definition take_three : K (Z * Z * Z * option Z) :=
  pp0 <- alloc_assert 0 ;;
  pp1 <- alloc_assert 0 ;;
  pp2 <- alloc_assert 0 ;;
  kassert (negb (pp1 =? pp0)) ;;
  kassert (negb (pp2 =? pp1) && negb (pp2 =? pp0)) ;;
  fl <- gets page_free_list ;;
  modify (set_page_free_list None) ;;
  no_free_page ;;
  ret (pp0, pp1, pp2, fl).

(** Insertions into an empty directory, and changes of permission. *)
Definition check_page_insert (pp0 pp1 pp2 : Z) : K unit :=
  kp <- gets kern_pgdir ;;
  r <- page_lookup kp 0 ;;
  kassert (bool_decide (r = None)) ;;
  insert_fails pp1 0 PTE_W ;;
  page_free pp0 ;;
  insert_ok pp1 0 PTE_W ;;
  pde <- kload32 kp ;;
  kassert (PTE_ADDR pde =? page2pa pp0) ;;
  maps_to 0 pp1 ;; ref_is pp1 1 ;; ref_is pp0 1 ;;
  insert_ok pp2 PGSIZE PTE_W ;;
  maps_to PGSIZE pp2 ;; ref_is pp2 1 ;;
  no_free_page ;;
  insert_ok pp2 PGSIZE PTE_W ;;
  maps_to PGSIZE pp2 ;; ref_is pp2 1 ;;
  no_free_page ;;
  pde <- kload32 (kp + 4 * PDX PGSIZE) ;;
  ptep <- KADDR (PTE_ADDR pde) ;;
  p <- pgdir_walk kp PGSIZE 0 ;;
  kassert (bool_decide (p = Some (ptep + 4 * PTX PGSIZE))) ;;
  insert_ok pp2 PGSIZE (PTE_W .| PTE_U) ;;
  maps_to PGSIZE pp2 ;; ref_is pp2 1 ;;
  pte_has PGSIZE PTE_U true ;;
  pde <- kload32 kp ;;
  kassert (has pde PTE_U) ;;
  insert_ok pp2 PGSIZE PTE_W ;;
  pte_has PGSIZE PTE_W true ;;
  pte_has PGSIZE PTE_U false ;;
  insert_fails pp0 PTSIZE PTE_W.

(** Replacement, removal and the reference counts. *)
Definition check_page_remove (pp1 pp2 : Z) : K unit :=
  insert_ok pp1 PGSIZE PTE_W ;;
  pte_has PGSIZE PTE_U false ;;
  maps_to 0 pp1 ;; maps_to PGSIZE pp1 ;;
  ref_is pp1 2 ;; ref_is pp2 0 ;;
  alloc_is pp2 ;;
  remove_at 0 ;;
  maps_nothing 0 ;; maps_to PGSIZE pp1 ;;
  ref_is pp1 1 ;; ref_is pp2 0 ;;
  insert_ok pp1 PGSIZE 0 ;;
  p <- get_page pp1 ;;
  kassert (negb (pp_ref p =? 0)) ;;
  kassert (bool_decide (pp_link p = None)) ;;
  remove_at PGSIZE ;;
  maps_nothing 0 ;; maps_nothing PGSIZE ;;
  ref_is pp1 0 ;; ref_is pp2 0 ;;
  alloc_is pp1 ;;
  no_free_page.

(** [kern_pgdir[i] = 0; pp0->pp_ref = 0;] *)
Definition take_back (i pp0 : Z) : K unit :=
  kp <- gets kern_pgdir ;; kstore32 (kp + 4 * i) 0 ;; upd_page pp0 (set_pp_ref 0).

(** The tables that pgdir_walk makes. *)
Definition check_page_tables (pp0 : Z) : K unit :=
  kp <- gets kern_pgdir ;;
  pde <- kload32 kp ;;
  kassert (PTE_ADDR pde =? page2pa pp0) ;;
  ref_is pp0 1 ;;
  take_back 0 pp0 ;;
  page_free pp0 ;;
  let va := PGSIZE * NPDENTRIES + PGSIZE in
  ptep <- pgdir_walk kp va 1 ;;
  pde <- kload32 (kp + 4 * PDX va) ;;
  ptep1 <- KADDR (PTE_ADDR pde) ;;
  kassert (bool_decide (ptep = Some (ptep1 + 4 * PTX va))) ;;
  take_back (PDX va) pp0 ;;
  kva <- page2kva pp0 ;;
  kmemset kva 0xFF PGSIZE ;;
  page_free pp0 ;;
  _ <- pgdir_walk kp 0 1 ;;
  ptep <- page2kva pp0 ;;
  for_each (seqZ 0 NPTENTRIES) (fun i => v <- kload32 (ptep + 4 * i) ;; kassert (negb (has v PTE_P))) ;;
  take_back 0 pp0.

(** [*pgdir_walk(kern_pgdir, va, 0) = 0] *)
Definition clear_pte (va : Z) : K unit := p <- pte_addr va ;; kstore32 p 0.

Definition check_mmio : K unit :=
  mm1 <- mmio_map_region 0 4097 ;;
  mm2 <- mmio_map_region 0 4096 ;;
  kassert ((mm1 >=? MMIOBASE) && (u32 (mm1 + 8192) <? MMIOLIM)) ;;
  kassert ((mm2 >=? MMIOBASE) && (u32 (mm2 + 8192) <? MMIOLIM)) ;;
  kassert ((mm1 mod PGSIZE =? 0) && (mm2 mod PGSIZE =? 0)) ;;
  kassert (u32 (mm1 + 8192) <=? mm2) ;;
  maps_to mm1 0 ;; maps_to (u32 (mm1 + PGSIZE)) 1 ;;
  maps_to mm2 0 ;; maps_nothing (u32 (mm2 + PGSIZE)) ;;
  pte_has mm1 ((PTE_W .| PTE_PWT) .| PTE_PCD) true ;;
  pte_has mm1 PTE_U false ;;
  clear_pte mm1 ;; clear_pte (u32 (mm1 + PGSIZE)) ;; clear_pte mm2.

Definition check_page : K unit :=
  t <- take_three ;;
  let '(pp0, pp1, pp2, fl) := t in
  check_page_insert pp0 pp1 pp2 ;;
  check_page_remove pp1 pp2 ;;
  check_page_tables pp0 ;;
  modify (set_page_free_list fl) ;;
  page_free pp0 ;; page_free pp1 ;; page_free pp2 ;;
  check_mmio ;;
  cprintf "check_page() succeeded!\n" [].

(** ** check_page_installed_pgdir *)

(** A word at a linear address below UTOP, through the page tables in force. *)
Definition vload32 (va : Z) : K Z :=
  a <- vload8 va ;; b <- vload8 (u32 (va + 1)) ;; c <- vload8 (u32 (va + 2)) ;; d <- vload8 (u32 (va + 3)) ;;
  ret (a + 0x100 * b + 0x10000 * c + 0x1000000 * d).

Definition check_page_installed_pgdir : K unit :=
  pp0 <- alloc_assert 0 ;;
  pp1 <- alloc_assert 0 ;;
  pp2 <- alloc_assert 0 ;;
  page_free pp0 ;;
  k1 <- page2kva pp1 ;; kmemset k1 1 PGSIZE ;;
  k2 <- page2kva pp2 ;; kmemset k2 2 PGSIZE ;;
  kp <- gets kern_pgdir ;;
  _ <- page_insert kp pp1 PGSIZE PTE_W ;;
  ref_is pp1 1 ;;
  v <- vload32 PGSIZE ;; kassert (v =? 0x01010101) ;;
  _ <- page_insert kp pp2 PGSIZE PTE_W ;;
  v <- vload32 PGSIZE ;; kassert (v =? 0x02020202) ;;
  ref_is pp2 1 ;; ref_is pp1 0 ;;
  vstore32 PGSIZE 0x03030303 ;;
  k2 <- page2kva pp2 ;; v <- kload32 k2 ;; kassert (v =? 0x03030303) ;;
  remove_at PGSIZE ;;
  ref_is pp2 0 ;;
  pde <- kload32 kp ;;
  kassert (PTE_ADDR pde =? page2pa pp0) ;;
  kstore32 kp 0 ;;
  ref_is pp0 1 ;;
  upd_page pp0 (set_pp_ref 0) ;;
  page_free pp0 ;;
  cprintf "check_page_installed_pgdir() succeeded!\n" [].
End checks.

(** ** mem_init *)

Section mem_init.
Context (end_ bootstack percpu_kstacks cr0 : Z) (u1 u2 : option Z) (nvram : Z -> Z).

Definition mem_init : K unit :=
  a <- mem_init_alloc end_ nvram ;;
  let '(pages_va, envs_va) := a in
  check_page_free_list end_ u1 u2 true ;;
  check_page_alloc ;;
  check_page ;;
  mem_init_map bootstack percpu_kstacks pages_va envs_va ;;
  check_kern_pgdir pages_va envs_va percpu_kstacks ;;
  mem_init_switch ;;
  check_page_free_list end_ u1 u2 false ;;
  mem_init_cr0 cr0 ;;
  check_page_installed_pgdir.
End mem_init.
