(* ===== verification/Sched.v ===== *)
(** * kern/sched.c, and the parts of env.c and pmap.c that schedule

    The round-robin scheduler, the halting of a CPU, [env_destroy] and
    [user_mem_assert]. *)
From S2P Require Import Prelude Mmu Mem Console Kstate Pmap Env.

(** A status that keeps the machine out of the monitor. *)
Definition status_active (st : Z) : bool :=
  (st =? ENV_RUNNABLE) || (st =? ENV_RUNNING) || (st =? ENV_DYING).

(** The status of slot [i]; a slot outside the table has none. *)
Definition slot_status (s : kstate) (i : Z) : option Z := env_status <$> envs s !! i.

(** The first of the slots [l] whose status satisfies [P]. *)
Fixpoint first_slot (P : Z -> bool) (s : kstate) (l : list Z) : option Z :=
  match l with
  | [] => None
  | i :: l => if match slot_status s i with Some st => P st | None => false end
              then Some i else first_slot P s l
  end.

Definition sched_halt : K unit := fun s =>
  match first_slot status_active s (seqZ 0 NENV) with
  | None =>
      (cprintf "No runnable environments in the system!\n" [] ;; fun s => Monitor s) s
  | Some _ =>
      (set_curenv None ;;
       kp <- gets kern_pgdir ;;
       pa <- PADDR kp ;;
       lcr3 pa ;;
       modify (upd_thiscpu (set_cpu_status CPU_HALTED)) ;;
       unlock_kernel ;;
       fun s => Halted s) s
  end.

(** The slots in the order in which [sched_yield] looks at them. *)
Definition sched_order (envid : Z) : list Z := map (fun i => i mod NENV) (seqZ envid NENV).

Definition sched_yield : K unit :=
  ce <- gets curenv ;;
  envid <- (match ce with None => ret 0 | Some c => e <- get_env c ;; ret (ENVX (env_id e)) end) ;;
  found <- gets (fun s => first_slot (fun st => st =? ENV_RUNNABLE) s (sched_order envid)) ;;
  match found with
  | Some i => env_run i
  | None =>
      ce <- gets curenv ;;
      match ce with
      | Some c => e <- get_env c ;; if env_status e =? ENV_RUNNING then env_run c else sched_halt
      | None => sched_halt
      end
  end.

Definition env_destroy (e : Z) : K unit :=
  env <- get_env e ;;
  ce <- gets curenv ;;
  if (env_status env =? ENV_RUNNING) && negb (bool_decide (ce = Some e)) then
    upd_env e (set_env_status ENV_DYING)
  else
    env_free e ;;
    ce <- gets curenv ;;
    if bool_decide (ce = Some e) then set_curenv None ;; sched_yield else ret tt.

Definition user_mem_assert (e va len perm : Z) : K unit :=
  r <- user_mem_check e va len (perm .| PTE_U) ;;
  if r <? 0 then
    env <- get_env e ;;
    a <- gets user_mem_check_addr ;;
    cprintf "[%08x] user_mem_check assertion failure for va %08x\n" [VInt (env_id env); VInt a] ;;
    env_destroy e
  else ret tt.
