(* ===== verification/Syscall.v ===== *)
(** * kern/syscall.c: the system calls

    One definition per handler, in the order of the file, and the dispatcher. *)
From S2P Require Import Prelude Mmu Mem Console Kstate Pmap Env Sched.

(** ** inc/syscall.h *)
Definition SYS_cputs : Z := 0.
Definition SYS_cgetc : Z := 1.
Definition SYS_getenvid : Z := 2.
Definition SYS_env_destroy : Z := 3.
Definition SYS_page_alloc : Z := 4.
Definition SYS_page_map : Z := 5.
Definition SYS_page_unmap : Z := 6.
Definition SYS_exofork : Z := 7.
Definition SYS_env_set_status : Z := 8.
Definition SYS_env_set_pgfault_upcall : Z := 9.
Definition SYS_yield : Z := 10.
Definition SYS_ipc_try_send : Z := 11.
Definition SYS_ipc_recv : Z := 12.

(** One character of a [%.*s] conversion (lib/printfmt.c): the state is the
    address of the character, what is left of the precision (negative for
    none) and the characters printed, last one first. *)
Definition print_str_step (st : Z * Z * list Z) : K (Z * Z * list Z + list Z) :=
  let '(p, precision, acc) := st in
  ch <- vload8 p ;;
  if ch =? 0 then ret (inr acc)
  else if precision <? 0 then ret (inl (u32 (p + 1), precision, ch :: acc))
  else if precision - 1 >=? 0 then ret (inl (u32 (p + 1), precision - 1, ch :: acc))
  else ret (inr acc).

(** "(null)", what a null pointer prints. *)
Definition null_string : list Z := [40; 110; 117; 108; 108; 41].

(** [cprintf("%.*s", len, s)].  After 2^32 characters the pointer has been
    through the whole address space: that is not a string. *)
Definition cprintf_str (len s : Z) : K unit :=
  if s =? 0 then
    cprintf "%.*s" [VInt len; VBytes (if i32 len <? 0 then null_string else take (Z.to_nat (i32 len)) null_string)]
  else
  r <- kloop 0x100000000 print_str_step (s, i32 len, []) ;;
  match r with
  | inr acc => cprintf "%.*s" [VInt len; VBytes (rev acc)]
  | inl _ => fault
  end.

Definition sys_cputs (s len : Z) : K unit :=
  c <- curenv_deref ;;
  user_mem_assert c s len PTE_P ;;
  cprintf_str len s.

Definition sys_cgetc : K Z := fun s =>
  let '(c, con') := cons_getc (con s) in Ret c (set_con con' s).

Definition sys_getenvid : K Z := c <- curenv_deref ;; e <- get_env c ;; ret (env_id e).

Definition sys_env_destroy (envid : Z) : K Z :=
  r <- envid2env envid true ;;
  let '(r, e) := r in
  if r <? 0 then ret r
  else
    ce <- gets curenv ;;
    cid <- sys_getenvid ;;
    e <- liftopt e ;;
    (if bool_decide (Some e = ce)
     then cprintf "[%08x] exiting gracefully\n" [VInt cid]
     else env <- get_env e ;; cprintf "[%08x] destroying %08x\n" [VInt cid; VInt (env_id env)]) ;;
    env_destroy e ;;
    ret 0.

Definition sys_yield : K unit := sched_yield.

Definition sys_exofork : K Z :=
  cid <- sys_getenvid ;;
  a <- env_alloc cid ;;
  let '(a, newenv) := a in
  if a <? 0 then ret a
  else
    n <- liftopt newenv ;;
    c <- curenv_deref ;;
    upd_env n (set_env_status ENV_NOT_RUNNABLE) ;;
    cenv <- get_env c ;;
    upd_env n (set_env_tf (env_tf cenv)) ;;
    upd_env n (fun e => set_env_tf (set_tf_regs (set_reg_eax 0 (tf_regs (env_tf e))) (env_tf e)) e) ;;
    nenv <- get_env n ;;
    ret (env_id nenv).

Definition sys_env_set_status (envid status : Z) : K Z :=
  r <- envid2env envid true ;;
  let '(r, found) := r in
  if negb (r =? 0) then ret (- E_BAD_ENV)
  else if negb (status =? ENV_RUNNABLE) && negb (status =? ENV_NOT_RUNNABLE) then ret (- E_INVAL)
  else
    e <- liftopt found ;;
    upd_env e (set_env_status status) ;;
    ret 0.

Definition sys_env_set_pgfault_upcall (envid func : Z) : K Z :=
  r <- envid2env envid true ;;
  let '(r, found) := r in
  if negb (r =? 0) then ret (- E_BAD_ENV)
  else
    e <- liftopt found ;;
    upd_env e (set_env_pgfault_upcall func) ;;
    ret 0.

(** The test of a permission argument, and of a virtual address. *)
Definition perm_bad (perm : Z) : bool :=
  negb (perm .& (PTE_U .| PTE_P) =? PTE_U .| PTE_P) || negb (perm .& Z.lnot PTE_SYSCALL =? 0).
Definition va_bad (va : Z) : bool := (va >=? UTOP) || negb (PGOFF va =? 0).

Definition sys_page_alloc (envid va perm : Z) : K Z :=
  x <- envid2env envid true ;;
  let '(x, found) := x in
  if negb (x =? 0) then ret (- E_BAD_ENV)
  else if va_bad va then ret (- E_INVAL)
  else if perm_bad perm then ret (- E_INVAL)
  else
    newPage <- page_alloc ALLOC_ZERO ;;
    match newPage with
    | None => ret (- E_NO_MEM)
    | Some pp =>
        e <- liftopt found ;;
        env <- get_env e ;;
        r <- page_insert (env_pgdir env) pp va ((PTE_U .| PTE_P) .| perm) ;;
        if negb (r =? 0) then page_free pp ;; ret (- E_NO_MEM) else ret 0
    end.

Definition sys_page_map (srcenvid srcva dstenvid dstva perm : Z) : K Z :=
  x <- envid2env srcenvid true ;;
  let '(x, src) := x in
  if negb (x =? 0) then ret (- E_BAD_ENV)
  else
    x <- envid2env dstenvid true ;;
    let '(x, dst) := x in
    if negb (x =? 0) then ret (- E_BAD_ENV)
    else if va_bad srcva then ret (- E_INVAL)
    else if va_bad dstva then ret (- E_INVAL)
    else if perm_bad perm then ret (- E_INVAL)
    else
      src <- liftopt src ;;
      senv <- get_env src ;;
      p <- page_lookup (env_pgdir senv) srcva ;;
      match p with
      | None => ret (- E_NO_MEM)
      | Some (pp, pte) =>
          v <- kload32 pte ;;
          if has perm PTE_W && negb (has v PTE_W) then ret (- E_INVAL)
          else
            dst <- liftopt dst ;;
            denv <- get_env dst ;;
            r <- page_insert (env_pgdir denv) pp dstva perm ;;
            if r <? 0 then ret (- E_NO_MEM) else ret 0
      end.

Definition sys_page_unmap (envid va : Z) : K Z :=
  x <- envid2env envid true ;;
  let '(x, e) := x in
  if negb (x =? 0) then ret (- E_BAD_ENV)
  else if va_bad va then ret (- E_INVAL)
  else
    e <- liftopt e ;;
    env <- get_env e ;;
    page_remove (env_pgdir env) va ;;
    ret 0.

(** The end of a send to environment [e], and the transfer of a page. *)
Definition ipc_deliver (e value : Z) : K Z :=
  cid <- sys_getenvid ;;
  upd_env e (fun env =>
    set_env_status ENV_RUNNABLE
      (set_env_tf (set_tf_regs (set_reg_eax 0 (tf_regs (env_tf env))) (env_tf env))
      (set_env_ipc_value value (set_env_ipc_from cid (set_env_ipc_recving false env))))) ;;
  ret 0.

Definition ipc_send_page (e srcva perm : Z) : K Z :=
  if negb (PGOFF srcva =? 0) then ret (- E_INVAL)
  else if perm_bad perm then ret (- E_INVAL)
  else
    c <- curenv_deref ;;
    cenv <- get_env c ;;
    p <- page_lookup (env_pgdir cenv) srcva ;;
    match p with
    | None => ret (- E_INVAL)
    | Some (pp, pte) =>
        v <- kload32 pte ;;
        if negb (has v PTE_W) && has perm PTE_W then ret (- E_INVAL)
        else
          env <- get_env e ;;
          if env_ipc_dstva env <? UTOP then
            r <- page_insert (env_pgdir env) pp (env_ipc_dstva env) perm ;;
            upd_env e (set_env_ipc_perm perm) ;;
            if r <? 0 then ret (- E_NO_MEM) else ret 0
          else ret 0
    end.

Definition sys_ipc_try_send (envid value srcva perm : Z) : K Z :=
  r <- envid2env envid false ;;
  let '(r, e) := r in
  if r <? 0 then ret r
  else
    e <- liftopt e ;;
    env <- get_env e ;;
    if negb (env_ipc_recving env) then ret (- E_IPC_NOT_RECV)
    else if srcva <? UTOP then
      r <- ipc_send_page e srcva perm ;;
      if r <? 0 then ret r else ipc_deliver e value
    else
      upd_env e (set_env_ipc_perm 0) ;;
      ipc_deliver e value.

Definition sys_ipc_recv (dstva : Z) : K Z :=
  if (dstva <? UTOP) && negb (PGOFF dstva =? 0) then ret (- E_INVAL)
  else
    c <- curenv_deref ;;
    upd_env c (fun e =>
      set_env_status ENV_NOT_RUNNABLE (set_env_ipc_dstva dstva (set_env_ipc_recving true e))) ;;
    sched_yield ;;
    ret 0.

(** [a1] to [a5] are the registers; an [envid_t] or an [int] parameter is the
    register read as signed.  Two cases have no [return] and run into the next
    one: [SYS_cputs] into [SYS_cgetc], and [SYS_yield] into [SYS_exofork]. *)
Definition syscall (syscallno a1 a2 a3 a4 a5 : Z) : K Z :=
  if syscallno =? SYS_cputs then sys_cputs a1 a2 ;; sys_cgetc
  else if syscallno =? SYS_cgetc then sys_cgetc
  else if syscallno =? SYS_getenvid then sys_getenvid
  else if syscallno =? SYS_env_destroy then sys_env_destroy (i32 a1)
  else if syscallno =? SYS_yield then sys_yield ;; sys_exofork
  else if syscallno =? SYS_exofork then sys_exofork
  else if syscallno =? SYS_env_set_status then sys_env_set_status (i32 a1) (i32 a2)
  else if syscallno =? SYS_page_alloc then sys_page_alloc (i32 a1) a2 (i32 a3)
  else if syscallno =? SYS_page_map then sys_page_map (i32 a1) a2 (i32 a3) a4 (i32 a5)
  else if syscallno =? SYS_page_unmap then sys_page_unmap (i32 a1) a2
  else if syscallno =? SYS_env_set_pgfault_upcall then sys_env_set_pgfault_upcall (i32 a1) a2
  else if syscallno =? SYS_ipc_try_send then sys_ipc_try_send (i32 a1) a2 a3 a4
  else if syscallno =? SYS_ipc_recv then sys_ipc_recv a1
  else ret (- E_INVAL).
