(* ===== verification/Trap.v ===== *)
(** * kern/trap.c: traps

    The interrupt table, the per-CPU set-up, the dispatch of a trap and the
    page-fault upcall.  The entry points of kern/trapentry.S are the values of
    [handler]: which trap number each pushes, and whether a 0 for the error code, is
    given here; their addresses are a parameter, and what they have in common (they
    push the registers and call [trap]) is the frame that [trap] starts from. *)
From S2P Require Import Prelude Mmu Mem Console Kstate Pmap Env Sched Syscall.

(** ** inc/trap.h *)
Definition T_DIVIDE : Z := 0.
Definition T_DEBUG : Z := 1.
Definition T_NMI : Z := 2.
Definition T_BRKPT : Z := 3.
Definition T_OFLOW : Z := 4.
Definition T_BOUND : Z := 5.
Definition T_ILLOP : Z := 6.
Definition T_DEVICE : Z := 7.
Definition T_DBLFLT : Z := 8.
Definition T_TSS : Z := 10.
Definition T_SEGNP : Z := 11.
Definition T_STACK : Z := 12.
Definition T_GPFLT : Z := 13.
Definition T_PGFLT : Z := 14.
Definition T_FPERR : Z := 16.
Definition T_ALIGN : Z := 17.
Definition T_MCHK : Z := 18.
Definition T_SIMDERR : Z := 19.
Definition T_SYSCALL : Z := 48.
Definition IRQ_OFFSET : Z := 32.
Definition IRQ_TIMER : Z := 0.
Definition IRQ_KBD : Z := 1.
Definition IRQ_SERIAL : Z := 4.
Definition IRQ_SPURIOUS : Z := 7.
Definition IRQ_IDE : Z := 14.
Definition IRQ_ERROR : Z := 19.

Definition excnames : list string :=
  ["Divide error"; "Debug"; "Non-Maskable Interrupt"; "Breakpoint"; "Overflow";
   "BOUND Range Exceeded"; "Invalid Opcode"; "Device Not Available"; "Double Fault";
   "Coprocessor Segment Overrun"; "Invalid TSS"; "Segment Not Present"; "Stack Fault";
   "General Protection"; "Page Fault"; "(unknown trap)"; "x87 FPU Floating-Point Error";
   "Alignment Check"; "Machine-Check"; "SIMD Floating-Point Exception"]%string.

(** [trapno < ARRAY_SIZE(excnames)] is an unsigned comparison. *)
Definition trapname (trapno : Z) : string :=
  match (if u32 trapno <? Z.of_nat (length excnames) then excnames !! Z.to_nat (u32 trapno) else None) with
  | Some n => n
  | None =>
      if trapno =? T_SYSCALL then "System call"%string
      else if (trapno >=? IRQ_OFFSET) && (trapno <? IRQ_OFFSET + 16) then "Hardware Interrupt"%string
      else "(unknown trap)"%string
  end.

(** ** The interrupt descriptor table *)

(** The entry points of kern/trapentry.S, which trap.c declares. *)
Inductive handler :=
| t_divide | t_debug | t_nmi | t_brkpt | t_oflow | t_bound | t_illop | t_device | t_dblflt
| t_tss | t_segnp | t_stack | t_gpflt | t_pgflt | t_fperr | t_align | t_mchk | t_simderr
| t_syscall | irq_timer | irq_kbd | irq_serial | irq_spurious | irq_ide | irq_error.

#[export] Instance handler_eq_dec : EqDecision handler.
Proof. solve_decision. Defined.

(** What an entry point pushes before the registers: the number of its trap, and a 0 in
    place of the error code where the processor has pushed none ([TRAPHANDLER_NOEC]). *)
Definition pushed_trapno (h : handler) : Z :=
  match h with
  | t_pgflt => T_PGFLT | t_divide => T_DIVIDE | t_debug => T_DEBUG | t_nmi => T_NMI | t_brkpt => T_BRKPT
  | t_oflow => T_OFLOW | t_bound => T_BOUND | t_illop => T_ILLOP | t_device => T_DEVICE
  | t_dblflt => T_DBLFLT | t_tss => T_TSS | t_segnp => T_SEGNP | t_stack => T_STACK | t_gpflt => T_GPFLT
  | t_fperr => T_FPERR | t_align => T_ALIGN | t_mchk => T_MCHK | t_simderr => T_SIMDERR
  | t_syscall => T_SYSCALL
  | irq_timer => IRQ_TIMER + IRQ_OFFSET | irq_kbd => IRQ_KBD + IRQ_OFFSET | irq_serial => IRQ_SERIAL + IRQ_OFFSET
  | irq_spurious => IRQ_SPURIOUS + IRQ_OFFSET | irq_ide => IRQ_IDE + IRQ_OFFSET | irq_error => IRQ_ERROR + IRQ_OFFSET
  end.
Definition pushes_0 (h : handler) : bool :=
  match h with
  | t_pgflt | t_dblflt | t_tss | t_segnp | t_stack | t_gpflt | t_align => false
  | t_divide | t_debug | t_nmi | t_brkpt | t_oflow | t_bound | t_illop | t_device | t_fperr | t_mchk | t_simderr
  | t_syscall | irq_timer | irq_kbd | irq_serial | irq_spurious | irq_ide | irq_error => true
  end.

Section idt.
(** The addresses of the entry points. *)
Context (entry : handler -> Z).

(** The gates, in the order of [trap_init]: vector, entry point and privilege level. *)
Definition gates : list (Z * handler * Z) :=
  [(T_DIVIDE, t_divide, 0); (T_DEBUG, t_debug, 0); (T_NMI, t_nmi, 0); (T_BRKPT, t_brkpt, 3);
   (T_OFLOW, t_oflow, 0); (T_BOUND, t_bound, 0); (T_ILLOP, t_illop, 0); (T_DEVICE, t_device, 0);
   (T_DBLFLT, t_dblflt, 0); (T_TSS, t_tss, 0); (T_SEGNP, t_segnp, 0); (T_STACK, t_stack, 0);
   (T_GPFLT, t_gpflt, 0); (T_PGFLT, t_pgflt, 0); (T_FPERR, t_fperr, 0); (T_ALIGN, t_align, 0);
   (T_MCHK, t_mchk, 0); (T_SIMDERR, t_simderr, 0); (T_SYSCALL, t_syscall, 3);
   (IRQ_OFFSET + IRQ_TIMER, irq_timer, 0); (IRQ_OFFSET + IRQ_KBD, irq_kbd, 0);
   (IRQ_OFFSET + IRQ_SERIAL, irq_serial, 0); (IRQ_SPURIOUS + IRQ_OFFSET, irq_spurious, 0);
   (IRQ_IDE + IRQ_OFFSET, irq_ide, 0); (IRQ_ERROR + IRQ_OFFSET, irq_error, 0)].

Definition set_gate (g : Z * handler * Z) : K unit :=
  let '(v, h, dpl) := g in
  modify (fun s => set_idt (<[v := SETGATE false GD_KT (entry h) dpl]> (idt s)) s).

(** Linker symbol [percpu_kstacks], the address of [cpus[i].cpu_ts], and
    [sizeof(struct Taskstate)]. *)
Context (percpu_kstacks : Z) (cpu_ts_addr : Z -> Z).
Definition sizeof_Taskstate : Z := 104.

Definition trap_init_percpu : K unit := fun s =>
  let id := cpu_id (thiscpu s) in
  (modify (upd_thiscpu (set_cpu_ts
     (mkTs (percpu_kstacks + id * KSTKSIZE + KSTKSIZE) GD_KD sizeof_Taskstate))) ;;
   modify (fun s => set_gdt (<[(GD_TSS0 .>> 3) + id :=
     set_sd_s 0 (SEG16 STS_T32A (cpu_ts_addr (this_cpu s)) (sizeof_Taskstate - 1) 0)]> (gdt s)) s) ;;
   emit (ELtr (GD_TSS0 + (id .<< 3))) ;;
   emit ELidt) s.

Definition trap_init : K unit :=
  for_each gates set_gate ;;
  trap_init_percpu.
End idt.

(** ** Printing a trap frame *)

Definition print_regs (r : PushRegs) : K unit :=
  cprintf "  edi  0x%08x\n" [VInt (reg_edi r)] ;;
  cprintf "  esi  0x%08x\n" [VInt (reg_esi r)] ;;
  cprintf "  ebp  0x%08x\n" [VInt (reg_ebp r)] ;;
  cprintf "  oesp 0x%08x\n" [VInt (reg_oesp r)] ;;
  cprintf "  ebx  0x%08x\n" [VInt (reg_ebx r)] ;;
  cprintf "  edx  0x%08x\n" [VInt (reg_edx r)] ;;
  cprintf "  ecx  0x%08x\n" [VInt (reg_ecx r)] ;;
  cprintf "  eax  0x%08x\n" [VInt (reg_eax r)].

(** [addr] is the address of the frame, [last] whether it is [last_tf]. *)
Definition print_trapframe (addr : Z) (last : bool) (tf : Trapframe) : K unit :=
  c <- gets this_cpu ;;
  cprintf "TRAP frame at %p from CPU %d\n" [VInt addr; VInt c] ;;
  print_regs (tf_regs tf) ;;
  cprintf "  es   0x----%04x\n" [VInt (tf_es tf)] ;;
  cprintf "  ds   0x----%04x\n" [VInt (tf_ds tf)] ;;
  cprintf "  trap 0x%08x %s\n" [VInt (tf_trapno tf); VStr (trapname (i32 (tf_trapno tf)))] ;;
  a <- gets cr2 ;;
  when (last && (tf_trapno tf =? T_PGFLT)) (cprintf "  cr2  0x%08x\n" [VInt a]) ;;
  cprintf "  err  0x%08x" [VInt (tf_err tf)] ;;
  (if tf_trapno tf =? T_PGFLT
   then cprintf " [%s, %s, %s]\n"
     [VStr (if has (tf_err tf) 4 then "user" else "kernel");
      VStr (if has (tf_err tf) 2 then "write" else "read");
      VStr (if has (tf_err tf) 1 then "protection" else "not-present")]
   else cprintf "\n" []) ;;
  cprintf "  eip  0x%08x\n" [VInt (tf_eip tf)] ;;
  cprintf "  cs   0x----%04x\n" [VInt (tf_cs tf)] ;;
  cprintf "  flag 0x%08x\n" [VInt (tf_eflags tf)] ;;
  when (negb (tf_cs tf .& 3 =? 0))
    (cprintf "  esp  0x%08x\n" [VInt (tf_esp tf)] ;;
     cprintf "  ss   0x----%04x\n" [VInt (tf_ss tf)]).

(** ** Dispatch *)

(** [struct Trapframe *tf]: the frame the processor pushed on the kernel stack,
    or [&envs[e].env_tf]. *)
Inductive tfptr := TfStack (tf : Trapframe) | TfEnv (e : Z).

Section trap.
(** The addresses of the frame on the stack and of [envs], and the address at
    which the local APIC is mapped, 0 without one. *)
Context (stack_tf envs_va lapic : Z).

Definition sizeof_Env : Z := 124.
Definition tf_addr (p : tfptr) : Z :=
  match p with TfStack _ => stack_tf | TfEnv e => envs_va + sizeof_Env * e end.

Definition get_tf (p : tfptr) : K Trapframe :=
  match p with TfStack tf => ret tf | TfEnv e => env <- get_env e ;; ret (env_tf env) end.

(** A frame on the stack is never looked at again after it has been written:
    no path returns to it. *)
Definition upd_tf (p : tfptr) (f : Trapframe -> Trapframe) : K unit :=
  match p with
  | TfStack _ => ret tt
  | TfEnv e => upd_env e (fun env => set_env_tf (f (env_tf env)) env)
  end.

Definition sizeof_UTrapframe : Z := 52.

(** [*((struct UTrapframe * ) va) = utf] *)
Definition store_utf (va : Z) (u : UTrapframe) : K unit :=
  let r := utf_regs u in
  let words := [utf_fault_va u; utf_err u; reg_edi r; reg_esi r; reg_ebp r; reg_oesp r;
                reg_ebx r; reg_edx r; reg_ecx r; reg_eax r; utf_eip u; utf_eflags u; utf_esp u] in
  for_each (imap (fun i w => (u32 (va + 4 * Z.of_nat i), w)) words) (fun aw => vstore32 aw.1 aw.2).

(** The stack pointer of the upcall's frame. *)
Definition utf_sp (esp : Z) : Z :=
  let esp :=
    if (esp >=? UXSTACKTOP - PGSIZE) && (esp <=? UXSTACKTOP) then u32 (esp - 4) else UXSTACKTOP in
  u32 (esp - sizeof_UTrapframe).

Definition page_fault_handler (p : tfptr) : K unit :=
  fault_va <- gets cr2 ;;
  tf <- get_tf p ;;
  if tf_cs tf .& 0x3 =? 0 then panic
  else
    c <- curenv_deref ;;
    cenv <- get_env c ;;
    (if negb (env_pgfault_upcall cenv =? 0) then
       let utf := mkUtf fault_va (tf_err tf) (tf_regs tf) (tf_eip tf) (tf_eflags tf) (tf_esp tf) in
       upd_tf p (set_tf_esp (utf_sp (tf_esp tf))) ;;
       tf <- get_tf p ;;
       user_mem_assert c (tf_esp tf) sizeof_UTrapframe ((PTE_U .| PTE_P) .| PTE_W) ;;
       cenv <- get_env c ;;
       upd_tf p (set_tf_eip (env_pgfault_upcall cenv)) ;;
       tf <- get_tf p ;;
       store_utf (tf_esp tf) utf ;;
       env_run c
     else ret tt) ;;
    c <- curenv_deref ;;
    cenv <- get_env c ;;
    tf <- get_tf p ;;
    cprintf "[%08x] user fault va %08x ip %08x\n" [VInt (env_id cenv); VInt fault_va; VInt (tf_eip tf)] ;;
    print_trapframe (tf_addr p) true tf ;;
    env_destroy c.

(** The kernel monitor (kern/monitor.c) reads commands for ever. *)
Definition monitor : K unit := fun s => Monitor s.

Definition lapic_eoi : K unit := when (negb (lapic =? 0)) (emit EEoi).

Definition trap_dispatch (p : tfptr) : K unit :=
  tf <- get_tf p ;;
  if tf_trapno tf =? IRQ_OFFSET + IRQ_SPURIOUS then
    cprintf "Spurious interrupt on irq 7\n" [] ;;
    print_trapframe (tf_addr p) true tf
  else if tf_trapno tf =? T_PGFLT then page_fault_handler p
  else if tf_trapno tf =? T_BRKPT then monitor
  else if tf_trapno tf =? T_SYSCALL then
    let r := tf_regs tf in
    v <- syscall (reg_eax r) (reg_edx r) (reg_ecx r) (reg_ebx r) (reg_edi r) (reg_esi r) ;;
    upd_tf p (fun tf => set_tf_regs (set_reg_eax (u32 v) (tf_regs tf)) tf)
  else
    (if tf_trapno tf =? IRQ_TIMER + IRQ_OFFSET then lapic_eoi ;; sched_yield else ret tt) ;;
    tf <- get_tf p ;;
    print_trapframe (tf_addr p) true tf ;;
    if tf_cs tf =? GD_KT then panic
    else c <- curenv_deref ;; env_destroy c.

(** The body of [trap] after the checks: the frame of a user-mode trap becomes
    the frame of the environment. *)
Definition trap_enter (tf : Trapframe) : K tfptr :=
  if tf_cs tf .& 3 =? 3 then
    lock_kernel ;;
    ce <- gets curenv ;;
    match ce with
    | None => panic
    | Some c =>
        cenv <- get_env c ;;
        (if env_status cenv =? ENV_DYING then env_free c ;; set_curenv None ;; sched_yield else ret tt) ;;
        c <- curenv_deref ;;
        upd_env c (set_env_tf tf) ;;
        ret (TfEnv c)
    end
  else ret (TfStack tf).

(** The return to the current environment, or to another one. *)
Definition trap_exit : K unit :=
  ce <- gets curenv ;;
  match ce with
  | Some c => cenv <- get_env c ;; if env_status cenv =? ENV_RUNNING then env_run c else sched_yield
  | None => sched_yield
  end.

(** [eflags]: the flags register in the handler. *)
Definition trap (eflags : Z) (tf : Trapframe) : K unit :=
  panicked <- gets panicstr ;;
  if panicked then fun s => Halted s
  else
    st <- gets (fun s => cpu_status (thiscpu s)) ;;
    modify (upd_thiscpu (set_cpu_status CPU_STARTED)) ;;
    (if st =? CPU_HALTED then lock_kernel else ret tt) ;;
    (if has eflags FL_IF then panic else ret tt) ;;
    p <- trap_enter tf ;;
    trap_dispatch p ;;
    trap_exit.
End trap.
