(* ===== verification/EnvSpec.v ===== *)
(** * Properties of kern/env.c

    Environment ids, the free list of environments, the release of an address
    space and the context switch. *)
From S2P Require Import Prelude Mmu Mem Console Kstate Pmap PmapAlloc PmapSpace PmapMap PmapDir Env.

(** The table [envs] has its NENV elements. *)
Definition envs_dom (s : kstate) : Prop := forall i, is_Some (envs s !! i) <-> 0 <= i < NENV.

Lemma NENV_eq : NENV = 1024.
Proof. reflexivity. Qed.

Lemma ENVX_mod id : ENVX id = id mod 1024.
Proof. unfold ENVX. change (NENV - 1) with (Z.ones 10). by rewrite Z.land_ones. Qed.

Lemma ENVX_range id : 0 <= ENVX id < NENV.
Proof. rewrite ENVX_mod, NENV_eq. lia. Qed.

Lemma envs_dom_lookup s i : envs_dom s -> 0 <= i < NENV -> exists e, envs s !! i = Some e.
Proof. intros H Hi. by apply H in Hi as [e ?]; exists e. Qed.

Lemma PADDR_eq s kva : KERNBASE <= kva -> PADDR kva s = Ret (kva - KERNBASE) s.
Proof. intros H. unfold PADDR. by destruct (Z.ltb_spec kva KERNBASE); [lia|]. Qed.

(** ** Releasing an address space *)

Section free_pages.
Context {D : gset Z} {X : Z -> Z} (d : Z).

(** One entry of the page table [i]. *)
Lemma env_free_pte_spec s l M i j :
  vm_ok s l D M X -> curenv_ok s -> d ∈ D -> 0 <= i < NUPDE -> 0 <= j < 1024 ->
  present (mem s) d i = true ->
  let t := frame_of (entry (mem s) d i) in
  exists s' l', env_free_pte (pgdir_kva d) (KERNBASE + 4096 * t) i j s = Ret tt s' /\
    vm_ok s' l' D (delete (d, 1024 * i + j) M) X /\ vm_frame s s' /\
    freed l l' M (delete (d, 1024 * i + j) M) X /\
    (forall d' i', d' ∈ D -> 0 <= i' < NUPDE -> entry (mem s') d' i' = entry (mem s) d' i').
Proof.
  intros Hvm Hce Hd Hi Hj Hp t. pose proof (vm_tab_range Hvm d i Hd Hi Hp) as Ht. fold t in Ht.
  unfold env_free_pte. replace (KERNBASE + 4096 * t + 4 * j) with (KERNBASE + ent_addr t j)
    by (unfold ent_addr; lia).
  erewrite bind_ret by (apply kload_entry; lia).
  pose proof (vo_map _ _ _ _ _ Hvm d i j Hd Hi Hj) as Hu. unfold uent in Hu. rewrite Hp in Hu. fold t in Hu.
  destruct (has (entry (mem s) t j) PTE_P).
  - assert (Hva : PGADDR i j 0 = 4096 * (1024 * i + j)) by (rewrite PGADDR_sum by lia; lia).
    destruct (page_remove_freed s l D M X d (PGADDR i j 0) Hvm Hce Hd) as (s' & l' & H).
    { rewrite Hva. unfold NUPDE in Hi. autounfold with jconst. lia. }
    replace (PGADDR i j 0 / 4096) with (1024 * i + j) in H by (rewrite Hva; lia). eauto.
  - exists s, l. rewrite delete_id by done. split; [done|]. split; [done|].
    split; [reflexivity|]. split; [apply freed_refl|done].
Qed.

(** What holds in the loop over the entries of table [i], before entry [j]. *)
Definition table_inv (s0 : kstate) (l0 : list Z) (M : aspace) (i j : Z) (s : kstate) : Prop :=
  exists l, vm_ok s l D (unmap M d (1024 * i) (1024 * i + j)) X /\ vm_frame s0 s /\
    freed l0 l M (unmap M d (1024 * i) (1024 * i + j)) X /\
    (forall d' i', d' ∈ D -> 0 <= i' < NUPDE -> entry (mem s) d' i' = entry (mem s0) d' i').

Lemma env_free_table s l M i :
  vm_ok s l D M X -> curenv_ok s -> d ∈ D -> 0 <= i < NUPDE -> present (mem s) d i = true ->
  let t := frame_of (entry (mem s) d i) in
  exists s', for_each (seqZ 0 1024) (env_free_pte (pgdir_kva d) (KERNBASE + 4096 * t) i) s = Ret tt s' /\
    table_inv s l M i 1024 s'.
Proof.
  intros Hvm Hce Hd Hi Hp t.
  destruct (for_each_seqZ (table_inv s l M i) 0 1024
    (env_free_pte (pgdir_kva d) (KERNBASE + 4096 * t) i) s) as (s' & H & Hinv); [lia| | |by exists s'].
  - exists l. rewrite Z.add_0_r, unmap_empty. split; [done|]. split; [reflexivity|].
    split; [apply freed_refl|done].
  - intros j s1 Hj (l1 & Hvm1 & Hfr1 & Hf1 & He1). destruct (vm_frame_curenv _ _ Hfr1) as (_ & _ & _ & Hce1).
    assert (Hp1 : present (mem s1) d i = true) by (unfold present; by rewrite He1).
    destruct (env_free_pte_spec s1 l1 _ i j Hvm1 (Hce1 Hce) Hd Hi ltac:(lia) Hp1)
      as (s2 & l2 & H2 & Hvm2 & Hfr2 & Hf2 & He2). rewrite He1 in H2 by done. fold t in H2.
    rewrite unmap_step in Hvm2, Hf2 by lia. exists s2. split; [done|]. exists l2.
    rewrite Z.add_assoc. split; [done|]. split; [by etrans|]. split.
    + eapply freed_trans; [apply (vo_X _ _ _ _ _ Hvm)|done|done].
    + intros. rewrite He2 by done. by apply He1.
Qed.

Lemma unmap_noop M lo hi : (forall v, lo <= v < hi -> M !! (d, v) = None) -> unmap M d lo hi = M.
Proof.
  intros H. apply map_eq. intros [d' v]. rewrite unmap_lookup. case_decide as E; [|done].
  destruct E as [-> E]. symmetry. by apply H.
Qed.

(** One page directory entry: its table is emptied and released. *)
Lemma env_free_pde_spec s l M e env i :
  vm_ok s l D M X -> curenv_ok s -> d ∈ D -> 0 <= i < NUPDE ->
  envs s !! e = Some env -> env_pgdir env = pgdir_kva d ->
  let M' := unmap M d (1024 * i) (1024 * (i + 1)) in
  exists s' l', env_free_pde e i s = Ret tt s' /\ vm_ok s' l' D M' X /\ vm_frame s s' /\
    freed l l' M M' X /\
    (present (mem s) d i = true -> frame_of (entry (mem s) d i) ∈ l') /\
    (forall i', 0 <= i' < NUPDE ->
       if decide (i' = i) then present (mem s') d i' = false
       else entry (mem s') d i' = entry (mem s) d i').
Proof.
  intros Hvm Hce Hd Hi He Hpg M'. pose proof (vm_dir_range Hvm d Hd). unfold env_free_pde.
  erewrite bind_ret by (by apply get_env_eq). rewrite Hpg.
  replace (pgdir_kva d + 4 * i) with (KERNBASE + ent_addr d i) by (unfold pgdir_kva, ent_addr; lia).
  erewrite bind_ret by (apply kload_entry; lia). fold (present (mem s) d i).
  assert (Hrange : 1024 * (i + 1) = 1024 * i + 1024) by lia.
  destruct (present (mem s) d i) eqn:Hp.
  - change (negb true) with false. cbv iota. rewrite PTE_ADDR_div. fold (frame_of (entry (mem s) d i)).
    pose proof (vm_tab_range Hvm d i Hd Hi Hp) as Ht.
    erewrite bind_ret by (apply KADDR_eq; [apply (ao_pages _ _ (vo_alloc _ _ _ _ _ Hvm))|lia]).
    change (PTX 0xffffffff + 1) with 1024.
    destruct (env_free_table s l M i Hvm Hce Hd Hi Hp) as (s1 & H1 & l1 & Hvm1 & Hfr1 & Hf1 & He1).
    rewrite (Z.add_comm (4096 * _)). rewrite (bind_ret _ _ _ _ _ H1).
    rewrite <- Hrange in Hvm1, Hf1. fold M' in Hvm1, Hf1.
    assert (Hp1 : present (mem s1) d i = true) by (unfold present; by rewrite He1).
    assert (Hem : forall j, 0 <= j < 1024 -> M' !! (d, 1024 * i + j) = None).
    { intros j Hj. unfold M'. rewrite unmap_lookup, decide_True; [done|lia]. }
    destruct (drop_table Hvm1 d i Hd Hi Hp1 Hem) as (s2 & H2 & Hvm2 & Hfr2 & _ & He2).
    rewrite He1 in H2, Hvm2 by done. rewrite PTE_ADDR_div in H2. fold (frame_of (entry (mem s) d i)) in H2.
    exists s2. eexists. split; [exact H2|]. split; [exact Hvm2|]. split; [by etrans|].
    split; [|split].
    + destruct Hf1 as [Ha Hb]. split; intros k Hk; [|intros Hz]; apply elem_of_cons; right; auto.
    + intros _. by apply elem_of_cons; left.
    + intros i' Hi'. pose proof (He2 d i' ltac:(unfold NUPDE in Hi'; lia)) as E. destruct (decide (i' = i)) as [->|Hc].
      * unfold present. rewrite E, decide_True by done. done.
      * rewrite E, decide_False by congruence. by apply He1.
  - exists s, l. assert (HM : M' = M).
    { apply unmap_noop. intros v Hv. replace v with (1024 * i + (v - 1024 * i)) by lia.
      rewrite <- (vo_map _ _ _ _ _ Hvm) by (done || lia). unfold uent. by rewrite Hp. }
    rewrite HM. split; [done|]. split; [done|]. split; [reflexivity|]. split; [apply freed_refl|].
    split; [done|]. intros i' Hi'. destruct (decide (i' = i)) as [->|]; done.
Qed.

Definition dir_inv (s0 : kstate) (l0 : list Z) (M : aspace) (i : Z) (s : kstate) : Prop :=
  exists l, vm_ok s l D (unmap M d 0 (1024 * i)) X /\ vm_frame s0 s /\
    freed l0 l M (unmap M d 0 (1024 * i)) X /\
    (forall i', 0 <= i' < i -> present (mem s0) d i' = true -> frame_of (entry (mem s0) d i') ∈ l) /\
    (forall i', 0 <= i' < NUPDE ->
       if decide (i' < i) then present (mem s) d i' = false
       else entry (mem s) d i' = entry (mem s0) d i').

(** The whole user part of the directory. *)
Lemma env_free_dir s l M e env :
  vm_ok s l D M X -> curenv_ok s -> d ∈ D -> envs s !! e = Some env -> env_pgdir env = pgdir_kva d ->
  exists s', for_each (seqZ 0 (PDX UTOP)) (env_free_pde e) s = Ret tt s' /\ dir_inv s l M NUPDE s'.
Proof.
  intros Hvm Hce Hd He Hpg. change (PDX UTOP) with NUPDE.
  destruct (for_each_seqZ (dir_inv s l M) 0 NUPDE (env_free_pde e) s) as (s' & H & Hinv);
    [unfold NUPDE; lia| | |by exists s'].
  - exists l. rewrite Z.mul_0_r, unmap_empty. split; [done|]. split; [reflexivity|].
    split; [apply freed_refl|]. split; [lia|]. intros i' Hi'. by rewrite decide_False by lia.
  - intros i s1 Hi (l1 & Hvm1 & Hfr1 & Hf1 & Ht1 & He1).
    destruct (vm_frame_curenv _ _ Hfr1) as (_ & Henv & _ & Hce1).
    destruct (env_free_pde_spec s1 l1 _ e env i Hvm1 (Hce1 Hce) Hd ltac:(lia) ltac:(by rewrite Henv) Hpg)
      as (s2 & l2 & H2 & Hvm2 & Hfr2 & Hf2 & Ht2 & He2).
    rewrite unmap_unmap in Hvm2, Hf2 by lia. exists s2. split; [done|]. exists l2.
    split; [done|]. split; [by etrans|]. split; [|split].
    + eapply freed_trans; [apply (vo_X _ _ _ _ _ Hvm)|done|done].
    + pose proof (He1 i ltac:(lia)) as Ei. rewrite decide_False in Ei by lia.
      intros i' Hi' Hp'. destruct (decide (i' = i)) as [->|Hne].
      * unfold present in *. rewrite <- Ei in *. by apply Ht2.
      * apply (proj1 Hf2). apply Ht1; [lia|done].
    + intros i' Hi'. specialize (He2 i' Hi'). specialize (He1 i' Hi').
      destruct (decide (i' = i)) as [->|Hne]; [by rewrite decide_True by lia|].
      destruct (decide (i' < i)) as [Hlt|Hlt].
      * rewrite decide_True by lia. unfold present in *. by rewrite He2.
      * rewrite decide_False by lia. by rewrite He2.
Qed.
End free_pages.

(** The part of [env_free] before the loop: the notice, and the switch to the
    kernel's page directory when the environment frees itself. *)
Definition free_prologue (s : kstate) (e : Z) (env : Env) (cid : Z) : kstate :=
  let pa := kern_pgdir s - KERNBASE in
  let s1 := if bool_decide (Some e = curenv s)
            then set_trace (trace s ++ [ELcr3 pa]) (set_cr3 pa s) else s in
  set_trace (trace s1 ++ [EPrintf "[%08x] free env %08x\n" [VInt cid; VInt (env_id env)]]) s1.

Lemma curenv_id_ok s : curenv_ok s -> exists cid, curenv_id s = Ret cid s.
Proof.
  unfold curenv_ok, curenv_id. kpure. destruct (curenv s) as [c|]; [|by eexists].
  intros [env He]. eexists. by erewrite bind_ret by (by apply get_env_eq).
Qed.

Lemma env_free_prologue s e env (k : K unit) :
  curenv_ok s -> KERNBASE <= kern_pgdir s -> envs s !! e = Some env ->
  exists cid, (ce <- gets curenv ;;
    (if bool_decide (Some e = ce) then kp <- gets kern_pgdir ;; pa <- PADDR kp ;; lcr3 pa else ret tt) ;;
    cid <- curenv_id ;;
    env <- get_env e ;;
    cprintf "[%08x] free env %08x\n" [VInt cid; VInt (env_id env)] ;; k) s =
    k (free_prologue s e env cid).
Proof.
  intros Hce Hk He. unfold free_prologue. kpure. destruct (bool_decide _).
  - destruct (curenv_id_ok (set_trace (trace s ++ [ELcr3 (kern_pgdir s - KERNBASE)])
      (set_cr3 (kern_pgdir s - KERNBASE) s)) Hce) as (cid & Hcid).
    exists cid. kpure. erewrite bind_ret by (by apply PADDR_eq).
    unfold lcr3, emit. kpure. erewrite bind_ret by exact Hcid.
    by erewrite bind_ret by (apply get_env_eq; exact He).
  - destruct (curenv_id_ok s Hce) as (cid & Hcid). exists cid. kpure. erewrite bind_ret by exact Hcid.
    by erewrite bind_ret by (apply get_env_eq; exact He).
Qed.

Lemma free_prologue_fields s e env cid :
  let s1 := free_prologue s e env cid in
  mem s1 = mem s /\ pages s1 = pages s /\ page_free_list s1 = page_free_list s /\ npages s1 = npages s /\
  curenv s1 = curenv s /\ envs s1 = envs s /\ env_free_list s1 = env_free_list s /\
  cr3 s1 = (if bool_decide (Some e = curenv s) then kern_pgdir s - KERNBASE else cr3 s).
Proof. unfold free_prologue. by destruct (bool_decide _). Qed.

Lemma free_prologue_rest s e env cid :
  let s1 := free_prologue s e env cid in
  kernel_lock s1 = kernel_lock s /\ this_cpu s1 = this_cpu s /\ kern_pgdir s1 = kern_pgdir s.
Proof. unfold free_prologue. by destruct (bool_decide _). Qed.

Lemma env_free_ok s l D M X e env d :
  vm_ok s l D M X -> curenv_ok s -> KERNBASE <= kern_pgdir s ->
  envs s !! e = Some env -> env_pgdir env = pgdir_kva d -> d ∈ D ->
  exists s' l', env_free e s = Ret tt s' /\
    vm_ok s' l' (D ∖ {[d]}) (unmap M d 0 NUVPN) X /\
    freed l l' M (unmap M d 0 NUVPN) X /\ d ∈ l' /\
    (forall i, 0 <= i < NUPDE -> present (mem s) d i = true -> frame_of (entry (mem s) d i) ∈ l') /\
    envs s' = <[e := set_env_link (env_free_list s) (set_env_status ENV_FREE (set_env_pgdir 0 env))]> (envs s) /\
    env_free_list s' = Some e /\ curenv s' = curenv s /\
    cr3 s' = (if bool_decide (Some e = curenv s) then kern_pgdir s - KERNBASE else cr3 s) /\
  kernel_lock s' = kernel_lock s /\ this_cpu s' = this_cpu s /\ kern_pgdir s' = kern_pgdir s.
Proof.
  intros Hvm Hce Hk He Hpg Hd. pose proof (vm_dir_range Hvm d Hd) as Hdr.
  destruct (env_free_prologue s e env
    (for_each (seqZ 0 (PDX UTOP)) (env_free_pde e) ;;
     env <- get_env e ;; pa <- PADDR (env_pgdir env) ;; upd_env e (set_env_pgdir 0) ;;
     pp <- pa2page pa ;; page_decref pp ;; fl <- gets env_free_list ;;
     upd_env e (fun env => set_env_link fl (set_env_status ENV_FREE env)) ;;
     modify (set_env_free_list (Some e))) Hce Hk He) as (cid & Hpro).
  destruct (free_prologue_fields s e env cid) as (Hm1 & Hp1 & Hf1 & Hn1 & Hc1 & He1 & Hl1 & Hcr1).
  destruct (free_prologue_rest s e env cid) as (Hk1 & Ht1 & Hkp1).
  remember (free_prologue s e env cid) as s1 eqn:Es1. clear Es1.
  assert (Hvm1 : vm_ok s1 l D M X) by (by eapply (vm_ok_frame s)).
  assert (Hce1 : curenv_ok s1) by (unfold curenv_ok; by rewrite Hc1, He1).
  rewrite <- He1 in He.
  destruct (env_free_dir (X := X) d s1 l M e env Hvm1 Hce1 Hd He Hpg)
    as (s2 & H2 & l2 & Hvm2 & Hfr2 & Hfd2 & Ht2 & Hz2).
  change (1024 * NUPDE) with NUVPN in Hvm2, Hfd2.
  pose proof Hfr2 as (m2 & fl2 & pg2 & tr2 & E2).
  assert (He2 : envs s2 !! e = Some env) by (rewrite E2; exact He).
  set (s3 := set_envs (<[e := set_env_pgdir 0 env]> (envs s2)) s2).
  assert (Hvm3 : vm_ok s3 l2 D (unmap M d 0 NUVPN) X) by (by eapply (vm_ok_frame s2)).
  destruct (drop_dir s3 l2 D _ X d Hvm3 Hd) as (s4 & H4 & Hvm4 & (fl4 & pg4 & E4)).
  { intros i Hi. specialize (Hz2 i Hi). by rewrite decide_True in Hz2 by lia. }
  assert (Hn3 : npages s3 = npages s) by (unfold s3; rewrite E2; exact Hn1).
  assert (He4 : envs s4 !! e = Some (set_env_pgdir 0 env)) by (rewrite E4; apply lookup_insert_eq).
  exists (set_env_free_list (Some e) (set_envs (<[e := set_env_link (env_free_list s4)
    (set_env_status ENV_FREE (set_env_pgdir 0 env))]> (envs s4)) s4)), (d :: l2).
  split; [|split; [|split; [|split; [|split; [|split]]]]].
  - unfold env_free. rewrite Hpro. rewrite (bind_ret _ _ _ _ _ H2).
    erewrite bind_ret by (by apply get_env_eq). rewrite Hpg.
    erewrite bind_ret by (apply PADDR_eq; unfold pgdir_kva; lia).
    erewrite bind_ret by (by apply upd_env_eq). fold s3.
    erewrite bind_ret by (apply pa2page_eq; rewrite Hn3; unfold pgdir_kva; lia).
    replace ((pgdir_kva d - KERNBASE) / 4096) with d by (unfold pgdir_kva; lia).
    rewrite (bind_ret _ _ _ _ _ H4). kpure. by erewrite bind_ret by (by apply upd_env_eq).
  - by eapply (vm_ok_frame s4).
  - destruct Hfd2 as [Ha Hb]. split; intros k Hkk; [|intros Hz]; apply elem_of_cons; right; auto.
  - by apply elem_of_cons; left.
  - intros i Hi Hp. apply elem_of_cons; right. rewrite <- Hm1 in *. by apply Ht2.
  - simpl. rewrite E4. simpl. rewrite E2. simpl. rewrite insert_insert_eq, He1. rewrite <- Hl1. done.
  - unfold s3 in E4. rewrite E2 in E4. rewrite E4. split; [done|]. split; [exact Hc1|].
    split; [exact Hcr1|]. split; [exact Hk1|]. split; [exact Ht1|exact Hkp1].
Qed.

(** C5: env_free gives back everything an environment holds: afterwards the
    abstract address spaces are those without its directory, the directory, all
    its page tables and every page it was the last to map are on the free list
    (with those that were there before), the environment is free and heads the
    list of free environments, and when it was the current one the kernel's
    page directory is in force. *)
Theorem env_free_refines s l D M X e env d :
  vm_ok s l D M X -> curenv_ok s -> KERNBASE <= kern_pgdir s ->
  envs s !! e = Some env -> env_pgdir env = pgdir_kva d -> d ∈ D ->
  exists s' l', env_free e s = Ret tt s' /\
    vm_ok s' l' (D ∖ {[d]}) (unmap M d 0 NUVPN) X /\
    freed l l' M (unmap M d 0 NUVPN) X /\ d ∈ l' /\
    (forall i, 0 <= i < NUPDE -> present (mem s) d i = true -> frame_of (entry (mem s) d i) ∈ l') /\
    envs s' = <[e := set_env_link (env_free_list s) (set_env_status ENV_FREE (set_env_pgdir 0 env))]> (envs s) /\
    env_free_list s' = Some e /\ curenv s' = curenv s /\
    cr3 s' = (if bool_decide (Some e = curenv s) then kern_pgdir s - KERNBASE else cr3 s).
Proof.
  intros Hvm Hce Hk He Hpg Hd.
  destruct (env_free_ok s l D M X e env d Hvm Hce Hk He Hpg Hd)
    as (s' & l' & H & Hvm' & Hf & Hdl & Ht & Henv & Hfl & Hc & Hcr & _).
  by exists s', l'.
Qed.

(** ** Setting up an address space *)

Lemma page2kva_vm s l D M X n :
  vm_ok s l D M X -> 0 <= n < npages s -> page2kva n s = Ret (pgdir_kva n) s.
Proof.
  intros Hvm Hn. pose proof (vm_npages Hvm).
  rewrite page2kva_eq by (done || apply (ao_pages _ _ (vo_alloc _ _ _ _ _ Hvm))).
  unfold pgdir_kva. f_equal. lia.
Qed.

(** The copy of the kernel part of the directory, before index [x]. *)
Definition copy_inv (s0 : kstate) (l : list Z) (D : gset Z) (M : aspace) (X : Z -> Z) (n k x : Z)
    (s : kstate) : Prop :=
  vm_ok s l D M X /\ no_table s D n /\ (exists m, s = set_mem m s0) /\
  (forall t j, t <> n -> 0 <= j < 1024 -> entry (mem s) t j = entry (mem s0) t j) /\
  (forall j, 0 <= j < 1024 ->
     entry (mem s) n j = if decide (NUPDE <= j < x) then entry (mem s0) k j else entry (mem s0) n j).

Lemma copy_kernel_part s l D M X n k :
  vm_ok s l D M X -> no_table s D n -> kern_pgdir s = pgdir_kva k -> 0 <= k -> 0 <= n -> k <> n ->
  exists s', for_each (seqZ (PDX UTOP) (NPDENTRIES - PDX UTOP)) (fun x =>
        kp <- gets kern_pgdir ;; v <- kload32 (kp + 4 * x) ;; kstore32 (pgdir_kva n + 4 * x) v) s = Ret tt s' /\
    copy_inv s l D M X n k 1024 s'.
Proof.
  intros Hvm Hnt Hkp Hk Hn Hne. change (PDX UTOP) with NUPDE. change (NPDENTRIES - NUPDE) with 69.
  match goal with |- context [for_each _ ?f s] => set (body := f) end.
  destruct (for_each_seqZ (copy_inv s l D M X n k) NUPDE 69 body s) as (s' & H & Hinv);
    [lia| | |by exists s'].
  - split; [done|]. split; [done|]. split; [exists (mem s); by destruct s|]. split; [done|].
    intros j Hj. by rewrite decide_False by lia.
  - intros x s1 Hx (Hvm1 & Hnt1 & (m1 & E1) & Ho & Hc). unfold NUPDE in Hx. unfold body. kpure.
    replace (kern_pgdir s1) with (pgdir_kva k) by (rewrite E1; by symmetry).
    replace (pgdir_kva k + 4 * x) with (KERNBASE + ent_addr k x) by (unfold pgdir_kva, ent_addr; lia).
    replace (pgdir_kva n + 4 * x) with (KERNBASE + ent_addr n x) by (unfold pgdir_kva, ent_addr; lia).
    erewrite bind_ret by (apply kload_entry; lia).
    eexists. split; [apply kstore_entry; lia|].
    destruct (vm_ok_write_page s1 l D M X n (store32 (mem s1) (ent_addr n x) (entry (mem s1) k x)) Hvm1 Hnt1)
      as [Hvm2 Hnt2].
    { apply mem_ok_store32, (vo_mem _ _ _ _ _ Hvm1). }
    { intros t j Ht Hj. apply entry_store_ne; [lia|done|congruence]. }
    split; [done|]. split; [done|]. split; [exists (store32 (mem s1) (ent_addr n x) (entry (mem s1) k x)); by rewrite E1|].
    split.
    + intros t j Ht Hj. simpl. rewrite entry_store_ne by (lia || congruence). by apply Ho.
    + intros j Hj. simpl. destruct (decide (j = x)) as [->|Hjx].
      * rewrite entry_store_eq, decide_True by (unfold NUPDE; lia). rewrite u32_small.
        { by apply Ho; [|lia]. }
        apply load32_range, (vo_mem _ _ _ _ _ Hvm1).
      * rewrite entry_store_ne by (lia || congruence). rewrite Hc by done. unfold NUPDE.
        destruct (decide (955 <= j < x)), (decide (955 <= j < x + 1)); done || lia.
Qed.

(** The page directory [n] of a new environment, made from the kernel's ([k]). *)
Definition new_dir (m m' : bytemem) (n k : Z) : Prop :=
  (forall i, 0 <= i < NUPDE -> entry m' n i = 0) /\
  (forall i, NUPDE <= i < 1024 -> i <> PDX UVPT -> entry m' n i = entry m k i) /\
  entry m' n (PDX UVPT) = ((4096 * n .| PTE_P) .| PTE_U) /\
  (forall t j, t <> n -> 0 <= j < 1024 -> entry m' t j = entry m t j).

Lemma uvpt_entry n : 0 <= n < 1048576 ->
  0 <= (4096 * n .| PTE_P) .| PTE_U < 0x100000000.
Proof.
  intros Hn. rewrite <- Z.lor_assoc. change (PTE_P .| PTE_U) with 5.
  rewrite (lor_add_low _ _ 12) by zlia. lia.
Qed.

Lemma env_setup_vm_ok s n l D M X e env k :
  vm_ok s (n :: l) D M X -> envs s !! e = Some env ->
  kern_pgdir s = pgdir_kva k -> 0 <= k -> k ∉ n :: l ->
  exists s', env_setup_vm e s = Ret 0 s' /\ vm_ok s' l ({[n]} ∪ D) M X /\
    envs s' = <[e := set_env_pgdir (pgdir_kva n) env]> (envs s) /\ n ∉ D /\
    new_dir (mem s) (mem s') n k /\
    vm_frame (set_envs (<[e := set_env_pgdir (pgdir_kva n) env]> (envs s)) s) s'.
Proof.
  intros Hvm He Hkp Hk [Hkn Hkl]%not_elem_of_cons. pose proof (vm_npages Hvm) as Hnp.
  destruct (free_page_facts Hvm) as (Hnl & [HnD _] & Hm0 & HX0 & _ & Hn).
  destruct (page_alloc_vm Hvm ALLOC_ZERO) as (s1 & H1 & Hvm1 & Hfr1 & Hnt1 & Hins1 & _ & _ & Hz1 & Ho1).
  destruct (vm_frame_curenv _ _ Hfr1) as (_ & Henv1 & Hnp1 & _).
  assert (Hkp1 : kern_pgdir s1 = pgdir_kva k) by (destruct Hfr1 as (? & ? & ? & ? & ->); done).
  set (env' := set_env_pgdir (pgdir_kva n) env).
  set (s2 := set_envs (<[e := env']> (envs s1)) s1).
  assert (Hvm2 : vm_ok s2 l D M X) by (by eapply (vm_ok_frame s1)).
  destruct Hins1 as (_ & _ & Hr & _). rewrite Hm0 in Hr. apply fmap_Some in Hr as (p & Hp & Hr).
  set (s3 := set_pages (<[n := set_pp_ref 1 p]> (pages s2)) s2).
  assert (Hvm3 : vm_ok s3 l D M X) by (apply vm_ok_ref; done || lia).
  destruct (copy_kernel_part s3 l D M X n k Hvm3 Hnt1 Hkp1 Hk ltac:(lia) Hkn)
    as (s4 & H4 & Hvm4 & Hnt4 & (m4 & E4) & Ho4 & Hc4).
  set (u := (4096 * n .| PTE_P) .| PTE_U).
  set (s5 := set_mem (store32 (mem s4) (ent_addr n (PDX UVPT)) u) s4).
  destruct (vm_ok_write_page s4 l D M X n (store32 (mem s4) (ent_addr n (PDX UVPT)) u) Hvm4 Hnt4)
    as [Hvm5 Hnt5].
  { apply mem_ok_store32, (vo_mem _ _ _ _ _ Hvm4). }
  { intros t j Ht Hj. apply entry_store_ne; [by change (PDX UVPT) with 957|done|congruence]. }
  assert (Hent5 : forall t j, 0 <= j < 1024 -> entry (mem s5) t j =
    if decide ((t, j) = (n, PDX UVPT)) then u else entry (mem s4) t j).
  { intros t j Hj. unfold s5. simpl. case_decide as E.
    - injection E as -> ->. rewrite entry_store_eq. apply u32_small. apply uvpt_entry. lia.
    - apply entry_store_ne; [by change (PDX UVPT) with 957|done|congruence]. }
  assert (Hlow : forall i, 0 <= i < NUPDE -> entry (mem s5) n i = 0).
  { intros i Hi. unfold NUPDE in Hi. rewrite Hent5, decide_False by (lia || (intros [= E]; revert E; change (PDX UVPT) with 957; lia)).
    rewrite Hc4, decide_False by (unfold NUPDE; lia). by apply Hz1; [|lia]. }
  exists s5. split; [|split; [|split; [|split; [done|split]]]].
  - unfold env_setup_vm. rewrite (bind_ret _ _ _ _ _ H1).
    erewrite bind_ret by (eapply page2kva_vm; [exact Hvm1|by rewrite Hnp1]).
    erewrite bind_ret by (apply upd_env_eq; rewrite Henv1; exact He). fold env' s2.
    erewrite bind_ret by (unfold page_incref; apply upd_page_eq; exact Hp).
    cbv beta. rewrite <- Hr. change (u16 (0 + 1)) with 1. fold s3. rewrite (bind_ret _ _ _ _ _ H4).
    erewrite bind_ret by (apply PADDR_eq; unfold pgdir_kva; lia).
    replace (pgdir_kva n - KERNBASE) with (4096 * n) by (unfold pgdir_kva; lia). fold u.
    replace (pgdir_kva n + 4 * PDX UVPT) with (KERNBASE + ent_addr n (PDX UVPT))
      by (unfold pgdir_kva, ent_addr; lia).
    erewrite bind_ret by (apply kstore_entry; [lia|by change (PDX UVPT) with 957]). done.
  - apply vm_ok_add_dir; try done.
    + unfold s5. rewrite E4. simpl. by rewrite lookup_insert_eq.
    + lia.
    + intros d i Hd Hi Hpr. by apply Hnt5.
    + intros i Hi. unfold present. by rewrite Hlow.
    + rewrite UVPDE_eq, Hent5, decide_True by (done || by change (PDX UVPT) with 957).
      unfold u. rewrite <- Z.lor_assoc. change (PTE_P .| PTE_U) with 5. apply (lor_add_low _ _ 12); zlia.
  - unfold s5. rewrite E4. unfold s3, s2. simpl. by rewrite Henv1.
  - split; [done|]. split; [|split].
    + intros i Hi Hne. assert (0 <= i < 1024) by (unfold NUPDE in Hi; lia).
      rewrite Hent5, decide_False by (done || congruence).
      rewrite Hc4, decide_True by (done || lia). by apply Ho1.
    + by rewrite Hent5, decide_True by (done || by change (PDX UVPT) with 957).
    + intros t j Ht Hj. rewrite Hent5, decide_False by (done || congruence).
      rewrite Ho4 by done. by apply Ho1.
  - destruct Hfr1 as (m1 & fl1 & pg1 & tr1 & ->). unfold s5. rewrite E4. unfold s3, s2, env'.
    by eexists _, _, _, _.
Qed.

(** ** Environment ids *)

(** The environment [e] that [envid] may be used for. *)
Definition may_use (s : kstate) (envid : Z) (checkperm : bool) (e : Z) : Prop :=
  if envid =? 0 then curenv s = Some e
  else e = ENVX envid /\ exists env, envs s !! e = Some env /\
    env_status env <> ENV_FREE /\ env_id env = envid /\
    (checkperm = true -> curenv s = Some e \/
       exists c cenv, curenv s = Some c /\ envs s !! c = Some cenv /\ env_parent_id env = env_id cenv).

Lemma envid2env_ok s envid checkperm :
  envs_dom s -> curenv_ok s -> is_Some (curenv s) ->
  exists r e, envid2env envid checkperm s = Ret (r, e) s /\
    (forall i, e = Some i <-> may_use s envid checkperm i) /\
    r = (match e with Some _ => 0 | None => - E_BAD_ENV end).
Proof.
  intros Hdom Hce [c Hc]. unfold curenv_ok in Hce. rewrite Hc in Hce. destruct Hce as [cenv Hcenv].
  unfold envid2env, may_use. destruct (envid =? 0).
  - exists 0, (curenv s). split; [done|]. split; [done|]. by rewrite Hc.
  - destruct (envs_dom_lookup s (ENVX envid) Hdom (ENVX_range envid)) as [env He].
    erewrite bind_ret by (by apply get_env_eq).
    destruct (Z.eqb_spec (env_status env) ENV_FREE) as [Hf|Hf]; simpl.
    { exists (- E_BAD_ENV), None. split; [done|]. split; [|done]. intros i. split; [done|].
      intros (-> & env' & He' & Hne & _). by rewrite He in He'; injection He' as <-. }
    destruct (Z.eqb_spec (env_id env) envid) as [Hid|Hid]; simpl.
    2: { exists (- E_BAD_ENV), None. split; [done|]. split; [|done]. intros i. split; [done|].
      intros (-> & env' & He' & _ & Hi & _). by rewrite He in He'; injection He' as <-. }
    assert (Hgo : exists r e, (r, e) = (if checkperm && negb (bool_decide (Some (ENVX envid) = curenv s)) &&
        negb (env_parent_id env =? env_id cenv) then (- E_BAD_ENV, None) else (0, Some (ENVX envid))) /\
      (ce <- gets curenv ;;
       if checkperm && negb (bool_decide (Some (ENVX envid) = ce)) then
         c <- curenv_deref ;; cenv <- get_env c ;;
         if negb (env_parent_id env =? env_id cenv) then ret (- E_BAD_ENV, None) else ret (0, Some (ENVX envid))
       else ret (0, Some (ENVX envid))) s = Ret (r, e) s).
    { kpure. destruct (checkperm && negb (bool_decide (Some (ENVX envid) = curenv s))); simpl; [|by repeat eexists].
      unfold curenv_deref. unfold bind at 1. rewrite Hc. simpl.
      erewrite bind_ret by (by apply get_env_eq). destruct (negb _); by repeat eexists. }
    destruct Hgo as (r & e & Heq & ->). exists r, e. split; [done|]. destruct checkperm; simpl in Heq.
    + destruct (bool_decide_reflect (Some (ENVX envid) = curenv s)) as [Hcur|Hcur]; simpl in Heq.
      { injection Heq as -> ->. split; [|done]. intros i. split; [|by intros (-> & _)].
        intros [= <-]. split; [done|]. exists env. do 3 (split; [done|]). by left. }
      destruct (Z.eqb_spec (env_parent_id env) (env_id cenv)) as [Hpar|Hpar]; simpl in Heq;
        injection Heq as -> ->; (split; [|done]); intros i; split.
      * intros [= <-]. split; [done|]. exists env. do 3 (split; [done|]). intros _. right. by exists c, cenv.
      * by intros (-> & _).
      * done.
      * intros (-> & env' & He' & _ & _ & Hor). rewrite He in He'. injection He' as <-.
        destruct Hor as [?|(c' & cenv' & Hc' & Hcenv' & Hp')]; [done|done|]. exfalso. congruence.
    + injection Heq as -> ->. split; [|done]. intros i. split; [|by intros (-> & _)].
      intros [= <-]. split; [done|]. by exists env.
Qed.

(** C29: envid2env finds exactly the environment with that id, and with
    [checkperm] only the current environment or one of its children; anything
    else is -E_BAD_ENV, and the state never changes.  Id 0 stands for the
    current environment. *)
Theorem envid2env_correct s envid checkperm :
  envs_dom s -> curenv_ok s -> is_Some (curenv s) ->
  exists r e, envid2env envid checkperm s = Ret (r, e) s /\
    (forall i, e = Some i <-> may_use s envid checkperm i) /\
    r = (match e with Some _ => 0 | None => - E_BAD_ENV end).
Proof. apply envid2env_ok. Qed.

Lemma next_env_id_ok id e :
  0 <= id < 0x80000000 -> 0 <= e < NENV ->
  let id' := next_env_id id e in
  0 < id' < 0x80000000 /\ ENVX id' = e /\
  id' = (if id <? 0x7ffff000 then 1024 * (id / 1024) + 4096 + e else 4096 + e) /\
  (ENVX id = e -> id' <> id).
Proof.
  intros Hid He id'. rewrite NENV_eq in He.
  assert (Hgen : forall g, 0 <= g -> g mod 1024 = 0 -> g .| e = g + e).
  { intros g Hg Hm. apply (lor_add_low _ _ 10); [zlia..]. }
  assert (Hval : id' = if id <? 0x7ffff000 then 1024 * (id / 1024) + 4096 + e else 4096 + e).
  { unfold id', next_env_id. change (1 .<< ENVGENSHIFT) with 4096. change (NENV - 1) with (Z.ones 10).
    rewrite <- Z.ldiff_land, Z.ldiff_ones_r, Z.shiftr_div_pow2, Z.shiftl_mul_pow2 by zlia.
    change (2 ^ 10) with 1024. destruct (Z.ltb_spec id 0x7ffff000).
    - rewrite i32_small by lia. destruct (Z.leb_spec ((id + 4096) / 1024 * 1024) 0); [lia|].
      rewrite Hgen by lia. lia.
    - assert (Hi : i32 (id + 4096) = id + 4096 - 0x100000000).
      { unfold i32, u32. rewrite (Z.mod_small (id + 4096)) by lia. case_match; lia. }
      rewrite Hi. destruct (Z.leb_spec ((id + 4096 - 4294967296) / 1024 * 1024) 0); [|lia].
      rewrite Hgen by lia. done. }
  rewrite ENVX_mod, (ENVX_mod id). rewrite Hval. destruct (Z.ltb_spec id 0x7ffff000); lia.
Qed.

(** The id given to a slot that is used again is positive, has the slot's
    index, and is never the previous one: ids of dead environments go stale.
    When the generation counter would make the id negative it starts over. *)
Theorem next_env_id_fresh id e :
  0 <= id < 0x80000000 -> 0 <= e < NENV ->
  let id' := next_env_id id e in
  0 < id' < 0x80000000 /\ ENVX id' = e /\
  id' = (if id <? 0x7ffff000 then 1024 * (id / 1024) + 4096 + e else 4096 + e) /\
  (ENVX id = e -> id' <> id).
Proof. apply next_env_id_ok. Qed.

Lemma next_env_id_fresh_witness : ENVX (next_env_id 0x7ffff00a 10) = 10 /\ next_env_id 0x7ffff00a 10 = 4106.
Proof.
  destruct (next_env_id_fresh 0x7ffff00a 10) as (_ & H & E & _);
    [split; [discriminate|reflexivity]|split; [discriminate|reflexivity]|]. exact (conj H E).
Defined.

(** ** The list of free environments *)

(** The chain of [env_link] from [h] is exactly [l]; its environments are free. *)
Fixpoint elist (es : gmap Z Env) (h : option Z) (l : list Z) : Prop :=
  match l with
  | [] => h = None
  | i :: l => h = Some i /\ exists e, es !! i = Some e /\ env_status e = ENV_FREE /\ elist es (env_link e) l
  end.

Lemma elist_insert es h l i e : i ∉ l -> elist es h l -> elist (<[i := e]> es) h l.
Proof.
  revert h. induction l as [|j l IH]; intros h Hi; simpl; [done|].
  apply not_elem_of_cons in Hi as [Hij Hi]. intros (-> & e' & Hj & Hs & Hl). split; [done|].
  exists e'. rewrite lookup_insert_ne by done. split; [done|]. split; [done|]. by apply IH.
Qed.

Definition blank_env (e : Env) : Prop := env_id e = 0 /\ env_status e = ENV_FREE.

Lemma env_init_loop s l :
  envs_dom s -> NoDup l -> (forall i, i ∈ l -> 0 <= i < NENV) -> env_free_list s = None ->
  exists es fl, for_each (rev l) env_init_one s = Ret tt (set_env_free_list fl (set_envs es s)) /\
    elist es fl l /\ (forall i, is_Some (es !! i) <-> 0 <= i < NENV) /\
    (forall i e, i ∈ l -> es !! i = Some e -> blank_env e).
Proof.
  intros Hdom Hnd Hin Hfl. induction l as [|a l IH]; simpl.
  - exists (envs s), None. split; [by destruct s; simpl in *; subst|]. split; [done|]. split; [done|].
    intros i e Hi. by apply elem_of_nil in Hi.
  - apply NoDup_cons in Hnd as [Ha Hnd].
    destruct IH as (es & fl & Hrun & Hl & Hd & Hb); [done|set_solver|].
    destruct (proj2 (Hd a)) as [ea Hea]; [apply Hin; set_solver|].
    set (e' := set_env_link fl (set_env_status ENV_FREE (set_env_id 0 ea))).
    exists (<[a := e']> es), (Some a). split; [|split; [|split]].
    + rewrite for_each_app. rewrite (bind_ret _ _ _ _ _ Hrun). simpl. unfold env_init_one. kpure.
      erewrite bind_ret by (apply upd_env_eq; simpl; exact Hea). done.
    + split; [done|]. exists e'. rewrite lookup_insert_eq. split; [done|]. split; [done|].
      by apply elist_insert.
    + intros i. rewrite <- Hd. rewrite lookup_insert_is_Some. destruct (decide (a = i)); naive_solver.
    + intros i e Hi. destruct (decide (a = i)) as [->|Hne].
      * rewrite lookup_insert_eq. by intros [= <-].
      * rewrite lookup_insert_ne by done. apply Hb. set_solver.
Qed.

(** Env_init leaves all the environments free, with id 0, and the free list
    holds them in the order of the array: the first env_alloc takes slot 0. *)
Theorem env_init_order s :
  envs_dom s ->
  exists es fl, env_init s = Ret tt (set_trace (trace s ++ [ELgdt])
      (set_env_free_list fl (set_envs es s))) /\
    elist es fl (seqZ 0 NENV) /\ fl = Some 0 /\
    (forall i, 0 <= i < NENV -> exists e, es !! i = Some e /\ blank_env e).
Proof.
  intros Hdom. unfold env_init. kpure.
  destruct (env_init_loop (set_env_free_list None s) (seqZ 0 NENV)) as (es & fl & H & Hl & Hd & Hb);
    [done|apply NoDup_seqZ|intros i Hi; by apply elem_of_seqZ in Hi|done|].
  exists es, fl. rewrite (bind_ret _ _ _ _ _ H). split; [done|]. split; [done|].
  split.
  - rewrite seqZ_cons in Hl by done. by destruct Hl as [-> _].
  - intros i Hi. destruct (proj2 (Hd i) Hi) as [e He]. exists e. split; [done|].
    eapply Hb; [|done]. apply elem_of_seqZ. lia.
Qed.

(** ** Allocating an environment *)

(** What [env_alloc] makes of slot [e], which held [env]; [n] is its directory. *)
Definition fresh_env (parent e n : Z) (env : Env) : Env :=
  set_env_ipc_recving false (set_env_pgfault_upcall 0 (set_env_tf new_env_tf
    (set_env_runs 0 (set_env_status ENV_RUNNABLE (set_env_type ENV_TYPE_USER
    (set_env_parent_id parent (set_env_id (next_env_id (env_id env) e)
    (set_env_pgdir (pgdir_kva n) env)))))))).

Lemma env_alloc_ok s l D M X parent k :
  vm_ok s l D M X -> curenv_ok s -> kern_pgdir s = pgdir_kva k -> 0 <= k -> k ∉ l ->
  (forall e, env_free_list s = Some e -> is_Some (envs s !! e)) ->
  match env_free_list s, l with
  | None, _ => env_alloc parent s = Ret (- E_NO_FREE_ENV, None) s
  | Some e, [] => env_alloc parent s = Ret (- E_NO_MEM, None) s
  | Some e, n :: l' => exists s' env, envs s !! e = Some env /\
      env_alloc parent s = Ret (0, Some e) s' /\
      vm_ok s' l' ({[n]} ∪ D) M X /\ n ∉ D /\ new_dir (mem s) (mem s') n k /\
      envs s' = <[e := fresh_env parent e n env]> (envs s) /\
      env_free_list s' = env_link env /\ curenv s' = curenv s /\ kern_pgdir s' = kern_pgdir s /\ same_cpu s s'
  end.
Proof.
  intros Hvm Hce Hkp Hk Hkl Hfree. unfold env_alloc. kpure.
  destruct (env_free_list s) as [e|] eqn:Hfl; [|done].
  destruct (Hfree e eq_refl) as [env He].
  destruct l as [|n l'].
  - unfold env_setup_vm. rewrite bind_assoc.
    by rewrite (bind_ret _ _ _ _ _ (page_alloc_nil s ALLOC_ZERO (vo_alloc _ _ _ _ _ Hvm))).
  - destruct (env_setup_vm_ok s n l' D M X e env k Hvm He Hkp Hk Hkl)
      as (s1 & H1 & Hvm1 & Henv1 & Hn & Hnew & (m1 & fl1 & pg1 & tr1 & E1)).
    rewrite (bind_ret _ _ _ _ _ H1). change (0 <? 0) with false. cbv iota.
    assert (He1 : envs s1 !! e = Some (set_env_pgdir (pgdir_kva n) env))
      by (rewrite Henv1; apply lookup_insert_eq).
    erewrite bind_ret by (apply upd_env_eq; exact He1).
    cbv beta.
    change (set_env_ipc_recving false _) with (fresh_env parent e n env).
    set (es := <[e := fresh_env parent e n env]> (envs s1)).
    erewrite bind_ret by (apply get_env_eq; apply lookup_insert_eq). kpure.
    set (s2 := set_env_free_list _ _).
    assert (Hce2 : curenv_ok s2).
    { unfold curenv_ok, s2. rewrite E1. change (match curenv s with None => True | Some c => is_Some (es !! c) end).
      unfold curenv_ok in Hce. destruct (curenv s) as [c|]; [|done]. unfold es. rewrite Henv1.
      rewrite insert_insert_eq, lookup_insert_is_Some. destruct (decide (e = c)); [by left|by right]. }
    destruct (curenv_id_ok s2 Hce2) as (cid & Hcid). rewrite (bind_ret _ _ _ _ _ Hcid).
    eexists _, env. split; [done|]. split; [done|].
    split; [by eapply (vm_ok_frame s1)|]. split; [done|]. split; [done|].
    split; [|split; [done|]].
    + simpl. unfold es. rewrite Henv1. by rewrite insert_insert_eq.
    + unfold s2. rewrite E1. done.
Qed.

(** C30: env_alloc takes the first free slot and the first free page: the
    environment is RUNNABLE, with the registers of a fresh user program
    (interrupts on), no upcall, not receiving, a new id and an address space
    that is empty below UTOP and the kernel's above (but for UVPT, its own page
    table).  Without a free slot or a free page it fails with -E_NO_FREE_ENV or
    -E_NO_MEM, changing nothing. *)
Theorem env_alloc_correct s l D M X parent k :
  vm_ok s l D M X -> curenv_ok s -> kern_pgdir s = pgdir_kva k -> 0 <= k -> k ∉ l ->
  (forall e, env_free_list s = Some e -> is_Some (envs s !! e)) ->
  match env_free_list s, l with
  | None, _ => env_alloc parent s = Ret (- E_NO_FREE_ENV, None) s
  | Some e, [] => env_alloc parent s = Ret (- E_NO_MEM, None) s
  | Some e, n :: l' => exists s' env, envs s !! e = Some env /\
      env_alloc parent s = Ret (0, Some e) s' /\
      vm_ok s' l' ({[n]} ∪ D) M X /\ n ∉ D /\ new_dir (mem s) (mem s') n k /\
      envs s' = <[e := fresh_env parent e n env]> (envs s) /\
      env_free_list s' = env_link env /\ curenv s' = curenv s /\ kern_pgdir s' = kern_pgdir s /\ same_cpu s s'
  end.
Proof. apply env_alloc_ok. Qed.

(** ** A concrete state

    The machine of PmapMap.v with one environment, whose directory is page 3;
    the kernel's directory is page 6. *)
Definition small_environment : Env :=
  set_env_pgdir (pgdir_kva 3) (set_env_status ENV_RUNNING (set_env_id 0x1000 env_zero)).
Definition with_envs (es : gmap Z Env) (cur fl : option Z) (kp : Z) (s : kstate) : kstate :=
  upd_thiscpu (set_cpu_env cur) (set_env_free_list fl (set_kern_pgdir kp (set_envs es s))).
Definition small_env : kstate :=
  with_envs (<[0 := small_environment]> zero_envs) (Some 0) (Some 1) (pgdir_kva 6) small_vm.

Lemma with_envs_vm es cur fl kp s l D M X :
  vm_ok s l D M X -> vm_ok (with_envs es cur fl kp s) l D M X.
Proof. intros H. by eapply (vm_ok_frame s). Qed.

Lemma with_envs_mem es cur fl kp s : mem (with_envs es cur fl kp s) = mem s.
Proof. done. Qed.

Lemma small_env_vm : vm_ok small_env [5] {[3]} ∅ no_refs.
Proof. exact (with_envs_vm _ _ _ _ _ _ _ _ _ small_vm_ok). Qed.

Lemma small_env_lookup i : 0 <= i < NENV ->
  envs small_env !! i = Some (if decide (i = 0) then small_environment else env_zero).
Proof.
  intros Hi. change (envs small_env) with (<[0 := small_environment]> zero_envs).
  rewrite lookup_insert, zero_envs_lookup. repeat case_decide; congruence || lia || done.
Qed.

Lemma small_env_0 : envs small_env !! 0 = Some small_environment.
Proof. rewrite small_env_lookup by done. by rewrite decide_True. Qed.

Lemma small_env_1 : envs small_env !! 1 = Some env_zero.
Proof. rewrite small_env_lookup by done. by rewrite decide_False. Qed.

Lemma small_env_dom : envs_dom small_env.
Proof.
  intros i. change (envs small_env) with (<[0 := small_environment]> zero_envs).
  rewrite lookup_insert_is_Some, zero_envs_lookup. case_decide as Hi.
  - split; [done|]. intros _. destruct (decide (0 = i)); [by left|right; split; [done|by eexists]].
  - split; [|done]. intros [<-|[_ []%is_Some_None]]. exfalso. apply Hi. done.
Qed.

Lemma small_env_cur : curenv small_env = Some 0.
Proof. unfold small_env, with_envs. apply curenv_set_cpu_env. Qed.

Lemma small_env_curenv_ok : curenv_ok small_env.
Proof. unfold curenv_ok. rewrite small_env_cur, small_env_0. by eexists. Qed.

Lemma env_free_refines_witness :
  exists s' l', env_free 0 small_env = Ret tt s' /\ vm_ok s' l' ({[3]} ∖ {[3]}) (unmap ∅ 3 0 NUVPN) no_refs /\
    3 ∈ l' /\ 5 ∈ l'.
Proof.
  destruct (env_free_refines small_env [5] {[3]} ∅ no_refs 0 small_environment 3 small_env_vm
    small_env_curenv_ok) as (s' & l' & H & Hvm & [Hf _] & Hd & _);
    [discriminate | exact small_env_0 | reflexivity | set_solver | ].
  exists s', l'. split; [exact H|]. split; [exact Hvm|]. split; [exact Hd|].
  apply Hf, elem_of_cons. left. reflexivity.
Defined.

Lemma envid2env_correct_witness : exists r, envid2env 0x1000 true small_env = Ret (r, Some 0) small_env.
Proof.
  destruct (envid2env_correct small_env 0x1000 true small_env_dom small_env_curenv_ok) as (r & e & H & Hi & _).
  { rewrite small_env_cur. by eexists. }
  exists r. rewrite H. replace e with (Some 0); [done|]. symmetry. apply Hi. split; [done|].
  exists small_environment. split; [exact small_env_0|]. split; [done|]. split; [done|].
  intros _. left. apply small_env_cur.
Defined.

Lemma env_init_order_witness :
  exists es fl, env_init small_env = Ret tt (set_trace (trace small_env ++ [ELgdt])
    (set_env_free_list fl (set_envs es small_env))) /\ fl = Some 0.
Proof.
  destruct (env_init_order small_env small_env_dom) as (es & fl & H & _ & Hfl & _).
  exists es, fl. exact (conj H Hfl).
Defined.

Lemma env_alloc_correct_witness :
  exists s' env, envs small_env !! 1 = Some env /\ env_alloc 0x1000 small_env = Ret (0, Some 1) s' /\
    vm_ok s' [] ({[5]} ∪ {[3]}) ∅ no_refs.
Proof.
  assert (Hf : forall e, env_free_list small_env = Some e -> is_Some (envs small_env !! e)).
  { intros e He. change (Some 1 = Some e) in He. injection He as <-. rewrite small_env_1. by eexists. }
  assert (H6 : 6 ∉ [5]) by (by intros H%list_elem_of_singleton).
  pose proof (env_alloc_correct small_env [5] {[3]} ∅ no_refs 0x1000 6 small_env_vm
    small_env_curenv_ok eq_refl ltac:(lia) H6 Hf) as H.
  change (env_free_list small_env) with (Some 1) in H.
  destruct H as (s' & env & He & Hr & Hvm & _).
  exists s', env. exact (conj He (conj Hr Hvm)).
Defined.
