(* ===== verification/KernInv.v ===== *)
(** * The invariant of the kernel between system calls

    The page-table invariant of PmapSpace.v tied to the table of environments:
    every live environment has a directory of its own, and the kernel's
    directory is no part of any address space. *)
From S2P Require Import Prelude Mmu Mem Console Kstate Pmap PmapAlloc PmapSpace PmapMap PmapDir Env EnvSpec.

(** A page the kernel keeps for itself. *)
Definition kernel_page (s : kstate) (l : list Z) (D : gset Z) (M : aspace) (k : Z) : Prop :=
  0 <= k /\ k ∉ l /\ no_table s D k /\ mappings M k = 0.

Definition live (e : Env) : Prop := env_status e <> ENV_FREE.

Record kinv (s : kstate) (l : list Z) (D : gset Z) (M : aspace) : Prop := {
  ki_vm : vm_ok s l D M no_refs;
  ki_dom : envs_dom s;
  ki_cur c : curenv s = Some c -> exists ce, envs s !! c = Some ce /\ live ce;
  ki_dir i e : envs s !! i = Some e -> live e -> exists d, d ∈ D /\ env_pgdir e = pgdir_kva d;
  ki_own i j e e' : envs s !! i = Some e -> envs s !! j = Some e' -> live e -> live e' ->
    env_pgdir e = env_pgdir e' -> i = j;
  ki_free : exists fl, NoDup fl /\ elist (envs s) (env_free_list s) fl;
  ki_kern : exists k, kern_pgdir s = pgdir_kva k /\ kernel_page s l D M k }.

Lemma pgdir_kva_inj d d' : pgdir_kva d = pgdir_kva d' -> d = d'.
Proof. unfold pgdir_kva. lia. Qed.

Lemma kinv_curenv_ok s l D M : kinv s l D M -> curenv_ok s.
Proof.
  intros H. unfold curenv_ok. destruct (curenv s) as [c|] eqn:Hc; [|done].
  destruct (ki_cur _ _ _ _ H c Hc) as (ce & -> & _). by eexists.
Qed.

(** A step that only changes memory, pages and trace keeps the invariant when
    the address spaces stay well formed and the kernel's page is spared. *)
Lemma kinv_frame s s' l l' D M M' :
  kinv s l D M -> vm_frame s s' -> vm_ok s' l' D M' no_refs ->
  (forall k, kern_pgdir s = pgdir_kva k -> kernel_page s l D M k -> kernel_page s' l' D M' k) ->
  kinv s' l' D M'.
Proof.
  intros [_ Hdom Hcur Hdir Hown Hfree (k & Hk & Hkp)] (m & fl & pg & tr & ->) Hvm Hkeep. split; try done.
  exists k. split; [done|]. by apply (Hkeep k Hk).
Qed.

Lemma elist_free es h l i : elist es h l -> i ∈ l -> exists e, es !! i = Some e /\ env_status e = ENV_FREE.
Proof.
  revert h. induction l as [|j l IH]; intros h; simpl; [by intros _ ?%elem_of_nil|].
  intros (_ & e & He & Hs & Hl) [->|Hi]%elem_of_cons; [by exists e|by eapply IH].
Qed.

(** A change to a live environment that leaves its directory alone. *)
Lemma kinv_upd_env s l D M e env env' :
  kinv s l D M -> envs s !! e = Some env -> live env -> live env' -> env_pgdir env' = env_pgdir env ->
  kinv (set_envs (<[e := env']> (envs s)) s) l D M.
Proof.
  intros [Hvm Hdom Hcur Hdir Hown (fl & Hnd & Hfl) Hkern] He Hl Hl' Hpg.
  assert (Hlk : forall i ei, <[e := env']> (envs s) !! i = Some ei ->
    exists ei0, envs s !! i = Some ei0 /\ (live ei -> live ei0) /\ env_pgdir ei = env_pgdir ei0).
  { intros i ei. rewrite lookup_insert. case_decide as E; [|by intros ?; exists ei].
    subst i. intros [= <-]. by exists env. }
  split; try done.
  - by eapply (vm_ok_frame s).
  - intros i. simpl. unfold envs_dom in Hdom. rewrite <- Hdom, lookup_insert_is_Some. destruct (decide (e = i)) as [->|]; [|naive_solver].
    rewrite He. split; [by eexists|by left].
  - intros c Hc. destruct (Hcur c Hc) as (ce & Hce & Hlc). simpl. rewrite lookup_insert.
    case_decide; [by exists env'|by exists ce].
  - intros i ei Hi Hli. destruct (Hlk i ei Hi) as (e0 & H0 & Hlv & ->). by apply (Hdir i e0 H0), Hlv.
  - intros i j ei ej Hi Hj Hli Hlj Heq. destruct (Hlk i ei Hi) as (e0 & H0 & Hlv & E0).
    destruct (Hlk j ej Hj) as (e1 & H1 & Hlv1 & E1). apply (Hown i j e0 e1); auto. congruence.
  - exists fl. split; [done|]. apply elist_insert; [|done]. intros Hin.
    destruct (elist_free _ _ _ _ Hfl Hin) as (e0 & H0 & Hs). rewrite He in H0. injection H0 as <-. done.
Qed.

(** A mapped page can be mapped again. *)
Lemma mapped_insertable s l D M k e :
  vm_ok s l D M no_refs -> M !! k = Some e -> insertable s l D M (frame_of e).
Proof.
  intros Hvm He. pose proof (mappings_pos _ _ _ He) as Hp.
  destruct (vo_data _ _ _ _ _ Hvm (frame_of e)) as (? & ? & Hr & ?); [unfold no_refs; lia|].
  split; [done|]. split; [done|]. split; [|done]. rewrite Hr. unfold no_refs. f_equal. lia.
Qed.

Lemma freed_by_elem l M k pp t :
  t ∈ freed_by l M k pp -> t ∈ l \/ 0 < mappings M t.
Proof.
  unfold freed_by. destruct (M !! k) as [old|] eqn:Ho; [|by left]. destruct (_ && _); [|by left].
  intros [->|?]%elem_of_cons; [right; by eapply mappings_pos|by left].
Qed.

Lemma mappings_insert_le M k e t :
  mappings (<[k := e]> M) t <= mappings M t + (if decide (frame_of e = t) then 1 else 0).
Proof.
  rewrite mappings_insert_over. destruct (M !! k) as [old|] eqn:Ho.
  - rewrite (mappings_delete _ _ _ _ Ho). repeat case_decide; lia.
  - rewrite delete_id by done. lia.
Qed.

(** page_insert under the kernel's invariant. *)
Lemma kinv_insert s l D M d va pp perm :
  kinv s l D M -> d ∈ D -> 0 <= va < UTOP -> 0 <= perm < 4096 ->
  insertable s l D M pp -> mappings M pp + 1 < 0x10000 ->
  kern_pgdir s <> pgdir_kva pp ->
  let e := (page2pa pp .| perm) .| PTE_P in
  if negb (present (mem s) d (PDX va)) && bool_decide (l = [])
  then page_insert (pgdir_kva d) pp va perm s = Ret (- E_NO_MEM) s
  else exists s' l', page_insert (pgdir_kva d) pp va perm s = Ret 0 s' /\
    kinv s' l' D (<[(d, va / 4096) := e]> M) /\ envs s' = envs s /\ curenv s' = curenv s /\
    vm_frame s s' /\ data_frame s s' l D /\
    l' = freed_by (if present (mem s) d (PDX va) then l else tail l) M (d, va / 4096) pp.
Proof.
  intros Hk Hd Hva Hperm Hins Hb Hpk e. pose proof (ki_vm _ _ _ _ Hk) as Hvm.
  pose proof (page_insert_ok s l D M d va pp perm Hvm (kinv_curenv_ok _ _ _ _ Hk) Hd Hva Hperm Hins Hb) as H.
  cbv zeta in H. destruct (negb (present (mem s) d (PDX va)) && bool_decide (l = [])); [done|].
  destruct H as (s' & l' & H & Hl' & Hvm' & _ & Hfr & Hdf).
  destruct (vm_frame_curenv _ _ Hfr) as (Hc & He & _).
  exists s', l'. split; [done|]. split; [|done]. apply (kinv_frame s s' l l' D M); try done.
  intros k Hkk (Hk0 & Hkl & Hkt & Hkm). destruct (Hdf k Hkl Hkt) as [Hkt' _].
  split; [done|]. split; [|split; [done|]].
  - rewrite Hl'. intros [Hin|Hin]%freed_by_elem; [|lia].
    destruct (present (mem s) d (PDX va)); [done|]. apply Hkl. destruct l; [done|]. by apply elem_of_cons; right.
  - pose proof (mappings_insert_le M (d, va / 4096) e k). pose proof (mappings_nonneg (<[(d, va / 4096) := e]> M) k).
    destruct (decide (frame_of e = k)) as [Hfk|]; [|lia]. exfalso.
    assert (Hppr : 0 <= pp < npages s).
    { destruct Hins as (_ & _ & Hr & _). by eapply (vm_ref_range Hvm). }
    pose proof (vm_npages Hvm).
    destruct (frame_of_page_entry pp perm ltac:(lia) Hperm) as (_ & Hf & _). fold e in Hf.
    congruence.
Qed.

(** page_remove under the kernel's invariant. *)
Lemma kinv_remove s l D M d va :
  kinv s l D M -> d ∈ D -> 0 <= va < UTOP ->
  exists s' l', page_remove (pgdir_kva d) va s = Ret tt s' /\
    kinv s' l' D (delete (d, va / 4096) M) /\ envs s' = envs s /\ curenv s' = curenv s /\
    vm_frame s s' /\ data_frame s s' l D.
Proof.
  intros Hk Hd Hva. pose proof (ki_vm _ _ _ _ Hk) as Hvm. pose proof (kinv_curenv_ok _ _ _ _ Hk) as Hce.
  destruct (M !! (d, va / 4096)) as [e|] eqn:He.
  - pose proof (page_remove_mapped _ _ _ _ _ _ _ _ Hvm Hce Hd Hva He) as H. cbv zeta in H.
    destruct H as (s' & H & Hvm' & Hfr & _ & Hdf & _).
    destruct (vm_frame_curenv _ _ Hfr) as (Hc & Hev & _).
    exists s'. eexists. split; [exact H|].
    split; [|do 3 (split; [done|]); intros t _; apply Hdf, not_elem_of_nil].
    apply (kinv_frame s s' l _ D M); try done.
    intros k _ (Hk0 & Hkl & Hkt & Hkm). destruct (Hdf k ltac:(by apply not_elem_of_nil) Hkt) as [Hkt' _].
    assert (Hne : k <> frame_of e) by (intros ->; pose proof (mappings_pos _ _ _ He); lia).
    split; [done|]. split; [|split; [done|]].
    + case_match; [by apply not_elem_of_cons|done].
    + rewrite (mappings_delete _ _ _ _ He), decide_False by done. lia.
  - exists s, l. rewrite delete_id by done. split; [by eapply page_remove_unmapped|].
    do 4 (split; [done|]). by intros t.
Qed.

(** env_alloc under the kernel's invariant. *)
Lemma kinv_env_alloc s n l D M parent e :
  kinv s (n :: l) D M -> env_free_list s = Some e ->
  exists s' env, envs s !! e = Some env /\ env_status env = ENV_FREE /\
    env_alloc parent s = Ret (0, Some e) s' /\ kinv s' l ({[n]} ∪ D) M /\ n ∉ D /\
    envs s' = <[e := fresh_env parent e n env]> (envs s) /\ curenv s' = curenv s /\ same_cpu s s' /\
    (forall t j, t <> n -> 0 <= j < 1024 -> entry (mem s') t j = entry (mem s) t j).
Proof.
  intros Hk Hfl. pose proof Hk as [Hvm Hdom Hcur Hdir Hown (fl & Hnd & Hel) (k & Hkp & Hk0 & Hkl & Hkt & Hkm)].
  rewrite Hfl in Hel. destruct fl as [|e' fl]; [done|]. destruct Hel as ([= <-] & env & He & Hst & Hel).
  apply NoDup_cons in Hnd as [Hefl Hnd].
  pose proof (env_alloc_ok s (n :: l) D M no_refs parent k Hvm (kinv_curenv_ok _ _ _ _ Hk) Hkp Hk0 Hkl) as H.
  rewrite Hfl in H. destruct H as (s' & env1 & He1 & Hr & Hvm' & Hn & (Hlow & _ & _ & Hoth) & Henv & Hfl' & Hc & Hkp' & Hcpu).
  { intros ? [= <-]. by eexists. }
  rewrite He in He1. injection He1 as <-. exists s', env. split; [done|]. split; [done|]. split; [done|].
  split; [|done]. apply not_elem_of_cons in Hkl as [Hkn Hkl].
  assert (Hlk : forall i ei, envs s' !! i = Some ei ->
    (i = e /\ ei = fresh_env parent e n env) \/ (i <> e /\ envs s !! i = Some ei)).
  { intros i ei. rewrite Henv, lookup_insert. case_decide; [intros [= <-]; auto|auto]. }
  split.
  - done.
  - intros i. rewrite Henv. unfold envs_dom in Hdom. rewrite <- Hdom, lookup_insert_is_Some.
    destruct (decide (e = i)) as [<-|]; [|naive_solver]. rewrite He. split; [by eexists|by left].
  - rewrite Hc. intros c Hcc. destruct (Hcur c Hcc) as (ce & Hce & Hlc). rewrite Henv, lookup_insert.
    case_decide; [by eexists|by exists ce].
  - intros i ei Hi Hl. destruct (Hlk i ei Hi) as [[-> ->]|[_ Hi']].
    + exists n. split; [set_solver|done].
    + destruct (Hdir i ei Hi' Hl) as (d & Hd & ->). exists d. split; [set_solver|done].
  - intros i j ei ej Hi Hj Hli Hlj Heq.
    destruct (Hlk i ei Hi) as [[-> ->]|[Hie Hi']], (Hlk j ej Hj) as [[-> ->]|[Hje Hj']].
    + done.
    + destruct (Hdir j ej Hj' Hlj) as (d & Hd & E). rewrite E in Heq. apply pgdir_kva_inj in Heq. by subst.
    + destruct (Hdir i ei Hi' Hli) as (d & Hd & E). rewrite E in Heq. apply pgdir_kva_inj in Heq. by subst.
    + by apply (Hown i j ei ej).
  - exists fl. split; [done|]. rewrite Henv, Hfl'. by apply elist_insert.
  - exists k. split; [by rewrite Hkp'|]. split; [done|]. split; [done|]. split; [|done].
    destruct Hkt as [HkD Hkt]. split.
    + intros [?%elem_of_singleton|?]%elem_of_union; done.
    + intros d i [->%elem_of_singleton|Hd]%elem_of_union Hi Hp.
      * unfold present in Hp. by rewrite Hlow in Hp.
      * assert (d <> n) by congruence. unfold present in Hp.
        rewrite Hoth in Hp |- * by (unfold NUPDE in Hi; done || lia). by apply Hkt.
Qed.
