(* ===== verification/SchedSpec.v ===== *)
(** * Properties of the scheduler

    The context switch, the choice of the next environment, fairness of the
    round robin, and the halting of a CPU. *)
From S2P Require Import Prelude Mmu Mem Console Kstate Pmap PmapAlloc PmapSpace PmapMap PmapDir Env EnvSpec Sched.

(** ** The search *)

Lemma first_slot_some P s l i :
  first_slot P s l = Some i ->
  exists l1 l2, l = l1 ++ i :: l2 /\ (exists st, slot_status s i = Some st /\ P st = true) /\
    forall j st, j ∈ l1 -> slot_status s j = Some st -> P st = false.
Proof.
  induction l as [|a l IH]; simpl; [done|].
  destruct (match slot_status s a with Some st => P st | None => false end) eqn:E.
  - intros [= <-]. exists [], l. split; [done|]. split.
    + destruct (slot_status s a) as [st|]; [by exists st|done].
    + intros j st Hj. by apply elem_of_nil in Hj.
  - intros H. destruct (IH H) as (l1 & l2 & -> & Hi & Hb). exists (a :: l1), l2.
    split; [done|]. split; [done|]. intros j st [->|Hj]%elem_of_cons Hst; [by rewrite Hst in E|by eapply Hb].
Qed.

Lemma first_slot_none P s l :
  first_slot P s l = None -> forall j st, j ∈ l -> slot_status s j = Some st -> P st = false.
Proof.
  induction l as [|a l IH]; simpl; intros H j st Hj; [by apply elem_of_nil in Hj|].
  destruct (match slot_status s a with Some st => P st | None => false end) eqn:E; [done|].
  apply elem_of_cons in Hj as [->|Hj]; [intros Hst; by rewrite Hst in E|by apply IH].
Qed.

Lemma first_slot_exists P s l j st :
  j ∈ l -> slot_status s j = Some st -> P st = true -> exists i, first_slot P s l = Some i.
Proof.
  intros Hj Hst HP. destruct (first_slot P s l) as [i|] eqn:E; [by exists i|].
  rewrite (first_slot_none P s l E j st Hj Hst) in HP. done.
Qed.

Lemma first_slot_ext P s s' l :
  (forall j, j ∈ l -> slot_status s' j = slot_status s j) -> first_slot P s' l = first_slot P s l.
Proof.
  induction l as [|a l IH]; simpl; intros H; [done|].
  rewrite H by (by apply elem_of_cons; left). by rewrite IH by (intros j Hj; apply H; by apply elem_of_cons; right).
Qed.

(** Every slot comes once, [envid] first. *)
Lemma sched_order_elem c j : 0 <= c < NENV -> j ∈ sched_order c <-> 0 <= j < NENV.
Proof.
  intros Hc. rewrite NENV_eq in *. unfold sched_order. rewrite list_elem_of_fmap. split.
  - intros (i & -> & Hi). rewrite NENV_eq. lia.
  - intros Hj. exists (if decide (c <= j) then j else j + 1024). rewrite NENV_eq, elem_of_seqZ.
    case_decide; lia.
Qed.

(** How far slot [j] is from slot [c], going upwards. *)
Definition dist (c j : Z) : Z := (j - c) mod NENV.

Lemma sched_order_split c l1 i l2 :
  0 <= c < NENV -> sched_order c = l1 ++ i :: l2 ->
  0 <= i < NENV /\ Z.of_nat (length l1) = dist c i /\
  forall j, 0 <= j < NENV -> dist c j < dist c i -> j ∈ l1.
Proof.
  intros Hc Hs. unfold sched_order, dist in *. rewrite NENV_eq in *.
  assert (Hlen : (length l1 < 1024)%nat).
  { assert (H : length (map (fun i => i mod 1024) (seqZ c 1024)) = 1024%nat) by (by rewrite length_map, length_seqZ).
    rewrite Hs, length_app in H. simpl in H. lia. }
  assert (Hat : forall k, (k < 1024)%nat -> (l1 ++ i :: l2) !! k = Some ((c + Z.of_nat k) mod 1024)).
  { intros k Hk. rewrite <- Hs. change (map ?f ?l) with (f <$> l). rewrite list_lookup_fmap, lookup_seqZ_lt by lia. done. }
  assert (Hi : i = (c + Z.of_nat (length l1)) mod 1024).
  { pose proof (Hat (length l1) Hlen) as H. rewrite list_lookup_middle in H by done. congruence. }
  split; [lia|]. split; [lia|]. intros j Hj Hd.
  apply list_elem_of_lookup. exists (Z.to_nat ((j - c) mod 1024)).
  rewrite <- (lookup_app_l l1 (i :: l2)) by lia. rewrite Hat by lia. f_equal. lia.
Qed.

(** ** Running an environment *)

(** The table after the current environment, if it was running, went back to
    RUNNABLE. *)
Definition preempt (s : kstate) : gmap Z Env :=
  match curenv s with
  | None => envs s
  | Some c =>
      match envs s !! c with
      | Some ce => if env_status ce =? ENV_RUNNING then <[c := set_env_status ENV_RUNNABLE ce]> (envs s) else envs s
      | None => envs s
      end
  end.

Lemma preempt_ne s i : curenv s <> Some i -> preempt s !! i = envs s !! i.
Proof.
  intros H. unfold preempt. destruct (curenv s) as [c|]; [|done]. destruct (envs s !! c); [|done].
  destruct (_ =? _); [|done]. rewrite lookup_insert_ne; [done|congruence].
Qed.

(** The table and the state once [e] runs. *)
Definition envs_running (s : kstate) (e : Z) (env : Env) : gmap Z Env :=
  if bool_decide (curenv s = Some e)
  then <[e := set_env_cpunum (this_cpu s) env]> (envs s)
  else <[e := set_env_cpunum (this_cpu s)
               (set_env_runs (u32 (env_runs env + 1)) (set_env_status ENV_RUNNING env))]> (preempt s).

Definition lock_held (s : kstate) : Prop := kernel_lock s = mkLock true (Some (this_cpu s)).

Lemma unlock_eq s : lock_held s -> unlock_kernel s = Ret tt (set_kernel_lock (mkLock false None) s).
Proof.
  intros H. unfold unlock_kernel, spin_unlock, holding. rewrite H. simpl.
  by rewrite bool_decide_true by done.
Qed.

Lemma switch_env_eq s e env :
  curenv_ok s -> envs s !! e = Some env -> KERNBASE <= env_pgdir env -> curenv s <> Some e ->
  let env' := set_env_runs (u32 (env_runs env + 1)) (set_env_status ENV_RUNNING env) in
  let pa := env_pgdir env - KERNBASE in
  exists s1, switch_env e s = Ret tt s1 /\
    envs s1 = <[e := env']> (preempt s) /\ curenv s1 = Some e /\ cr3 s1 = pa /\
    this_cpu s1 = this_cpu s /\ kernel_lock s1 = kernel_lock s /\ trace s1 = trace s ++ [ELcr3 pa] /\
    s1 = set_trace (trace s1) (set_cr3 pa (set_envs (envs s1) (upd_thiscpu (set_cpu_env (Some e)) s))).
Proof.
  intros Hce He Hpg Hne env' pa. unfold switch_env. kpure.
  rewrite bool_decide_false by done.
  assert (Hpre : (match curenv s with
     | None => ret tt
     | Some c => cenv <- get_env c ;;
         if env_status cenv =? ENV_RUNNING then upd_env c (set_env_status ENV_RUNNABLE) else ret tt
     end) s = Ret tt (set_envs (preempt s) s)).
  { unfold preempt, curenv_ok in *. destruct (curenv s) as [c|]; [|by destruct s].
    destruct Hce as [ce Hc]. erewrite bind_ret by (by apply get_env_eq). rewrite Hc.
    destruct (_ =? _); [by apply upd_env_eq|by destruct s]. }
  rewrite (bind_ret _ _ _ _ _ Hpre). unfold set_curenv. kpure.
  assert (He' : preempt s !! e = Some env) by (by rewrite preempt_ne).
  erewrite bind_ret by (apply upd_env_eq; exact He'). cbv beta. fold env'.
  erewrite bind_ret by (apply get_env_eq; simpl; apply lookup_insert_eq).
  erewrite bind_ret by (by apply PADDR_eq).
  eexists. split; [unfold lcr3, emit; kpure; done|]. simpl.
  split; [done|]. split; [exact (curenv_set_cpu_env (Some e) s)|]. done.
Qed.

Lemma env_run_ok s e env :
  curenv_ok s -> envs s !! e = Some env -> KERNBASE <= env_pgdir env -> lock_held s ->
  exists s', env_run e s = Resume (env_tf env) s' /\
    envs s' = envs_running s e env /\ curenv s' = Some e /\
    kernel_lock s' = mkLock false None /\
    cr3 s' = (if bool_decide (curenv s = Some e) then cr3 s else env_pgdir env - KERNBASE) /\
    this_cpu s' = this_cpu s /\ kern_pgdir s' = kern_pgdir s /\ mem s' = mem s /\ pages s' = pages s.
Proof.
  intros Hce He Hpg Hl. unfold env_run, envs_running.
  destruct (decide (curenv s = Some e)) as [Hcur|Hcur].
  - rewrite !(bool_decide_true _ Hcur).
    erewrite bind_ret by (unfold switch_env; kpure; rewrite bool_decide_true by done; done).
    erewrite bind_ret by (by apply unlock_eq). set (s1 := set_kernel_lock _ s).
    unfold env_pop_tf. unfold bind at 1. unfold curenv_deref at 1. change (curenv s1) with (curenv s).
    rewrite Hcur. simpl. erewrite bind_ret by (apply upd_env_eq; exact He).
    erewrite bind_ret by (apply get_env_eq; simpl; apply lookup_insert_eq).
    eexists. split; [done|]. done.
  - rewrite !(bool_decide_false _ Hcur).
    destruct (switch_env_eq s e env Hce He Hpg Hcur) as (s1 & H1 & Henv & Hc1 & Hcr & Ht & Hk & _ & E1).
    rewrite (bind_ret _ _ _ _ _ H1).
    erewrite bind_ret by (apply unlock_eq; unfold lock_held; by rewrite Hk, Ht).
    set (s2 := set_kernel_lock _ s1). unfold env_pop_tf. unfold bind at 1. unfold curenv_deref at 1.
    change (curenv s2) with (curenv s1). rewrite Hc1. simpl.
    assert (He2 : envs s1 !! e = Some (set_env_runs (u32 (env_runs env + 1)) (set_env_status ENV_RUNNING env)))
      by (rewrite Henv; apply lookup_insert_eq).
    erewrite bind_ret by (apply upd_env_eq; exact He2).
    erewrite bind_ret by (apply get_env_eq; simpl; apply lookup_insert_eq).
    eexists. split; [done|]. simpl. rewrite Henv, insert_insert_eq, Ht.
    split; [done|]. split; [exact Hc1|]. split; [done|]. split; [done|]. split; [done|].
    rewrite E1. done.
Qed.

(** C31: env_run resumes exactly the environment it is given, from its saved
    registers, with the big lock released: another environment that was
    running on this CPU goes back to RUNNABLE, the new one is RUNNING, counted
    and recorded as current, and its page directory is in %cr3; running the
    current environment again changes none of this. *)
Theorem env_run_correct s e env :
  curenv_ok s -> envs s !! e = Some env -> KERNBASE <= env_pgdir env -> lock_held s ->
  exists s', env_run e s = Resume (env_tf env) s' /\
    envs s' = envs_running s e env /\ curenv s' = Some e /\
    kernel_lock s' = mkLock false None /\
    cr3 s' = (if bool_decide (curenv s = Some e) then cr3 s else env_pgdir env - KERNBASE) /\
    this_cpu s' = this_cpu s /\ kern_pgdir s' = kern_pgdir s /\ mem s' = mem s /\ pages s' = pages s.
Proof. apply env_run_ok. Qed.

(** ** Choosing an environment *)

Definition is_runnable (st : Z) : bool := st =? ENV_RUNNABLE.

(** The slot the search starts from: the current environment's, by its id. *)
Definition start_slot (s : kstate) : Z :=
  match curenv s with
  | None => 0
  | Some c => match envs s !! c with Some e => ENVX (env_id e) | None => 0 end
  end.

Lemma start_slot_range s : 0 <= start_slot s < NENV.
Proof.
  unfold start_slot. destruct (curenv s) as [c|]; [|done]. destruct (envs s !! c); [apply ENVX_range|done].
Qed.

(** What the scheduler relies on. *)
Record sched_pre (s : kstate) : Prop := {
  sp_dom : envs_dom s;
  sp_cur : curenv_ok s;
  sp_lock : lock_held s;
  sp_kern : KERNBASE <= kern_pgdir s;
  sp_dirs : forall i e, envs s !! i = Some e ->
    env_status e = ENV_RUNNABLE \/ env_status e = ENV_RUNNING -> KERNBASE <= env_pgdir e }.

(** The outcomes [sched_yield] may have in state [s]. *)
Inductive sched_result {A : Type} (s : kstate) : outcome A -> Prop :=
| SrRun i env s' :
    envs s !! i = Some env -> env_status env = ENV_RUNNABLE ->
    (forall j st, 0 <= j < NENV -> dist (start_slot s) j < dist (start_slot s) i ->
       slot_status s j = Some st -> st <> ENV_RUNNABLE) ->
    envs s' = envs_running s i env -> curenv s' = Some i -> kernel_lock s' = mkLock false None ->
    this_cpu s' = this_cpu s -> kern_pgdir s' = kern_pgdir s ->
    sched_result s (Resume (env_tf env) s')
| SrSame c env s' :
    curenv s = Some c -> envs s !! c = Some env -> env_status env = ENV_RUNNING ->
    (forall j st, slot_status s j = Some st -> st <> ENV_RUNNABLE) ->
    envs s' = envs_running s c env -> curenv s' = Some c -> kernel_lock s' = mkLock false None ->
    sched_result s (Resume (env_tf env) s')
| SrHalt s' :
    (forall j st, slot_status s j = Some st -> st <> ENV_RUNNABLE) ->
    (exists j st, slot_status s j = Some st /\ status_active st = true) ->
    envs s' = envs s -> curenv s' = None -> kernel_lock s' = mkLock false None ->
    cr3 s' = kern_pgdir s - KERNBASE -> cpu_status (thiscpu s') = CPU_HALTED ->
    sched_result s (Halted s')
| SrMonitor s' :
    (forall j st, slot_status s j = Some st -> status_active st = false) ->
    envs s' = envs s -> sched_result s (Monitor s').

Lemma slot_status_dom s j st : envs_dom s -> slot_status s j = Some st -> 0 <= j < NENV.
Proof. intros Hd H. apply Hd. unfold slot_status in H. destruct (envs s !! j); [by eexists|done]. Qed.

Lemma no_runnable s c :
  envs_dom s -> 0 <= c < NENV -> first_slot is_runnable s (sched_order c) = None ->
  forall j st, slot_status s j = Some st -> st <> ENV_RUNNABLE.
Proof.
  intros Hd Hc Hn j st Hst ->. pose proof (slot_status_dom _ _ _ Hd Hst) as Hj.
  pose proof (first_slot_none _ _ _ Hn j ENV_RUNNABLE (proj2 (sched_order_elem c j Hc) Hj) Hst). done.
Qed.

Lemma sched_halt_result s :
  sched_pre s -> (forall j st, slot_status s j = Some st -> st <> ENV_RUNNABLE) ->
  sched_result s (sched_halt s).
Proof.
  intros [Hd Hce Hl Hk _] Hno. unfold sched_halt.
  destruct (first_slot status_active s (seqZ 0 NENV)) as [i|] eqn:Hf.
  - destruct (first_slot_some _ _ _ _ Hf) as (_ & _ & _ & (st & Hst & Hact) & _).
    unfold set_curenv. kpure. erewrite bind_ret by (apply PADDR_eq; exact Hk).
    unfold lcr3, emit. kpure. erewrite bind_ret by (apply unlock_eq; exact Hl).
    apply SrHalt; try done.
    + by exists i, st.
    + exact (eq_trans (curenv_set_cpu_status CPU_HALTED _) (curenv_set_cpu_env None s)).
    + exact (f_equal cpu_status (thiscpu_upd (set_cpu_status CPU_HALTED) _)).
  - apply SrMonitor; [|done]. intros j st Hst. pose proof (slot_status_dom _ _ _ Hd Hst) as Hj.
    eapply first_slot_none; [exact Hf| |exact Hst]. apply elem_of_seqZ. lia.
Qed.

Lemma env_run_result s i env :
  sched_pre s -> envs s !! i = Some env ->
  env_status env = ENV_RUNNABLE \/ env_status env = ENV_RUNNING ->
  exists s', env_run i s = Resume (env_tf env) s' /\ envs s' = envs_running s i env /\
    curenv s' = Some i /\ kernel_lock s' = mkLock false None /\ this_cpu s' = this_cpu s /\
    kern_pgdir s' = kern_pgdir s.
Proof.
  intros [Hd Hce Hl Hk Hdirs] Hi Hst.
  destruct (env_run_ok s i env Hce Hi (Hdirs i env Hi Hst) Hl) as (s' & ? & ? & ? & ? & _ & ? & ? & _).
  by exists s'.
Qed.

Lemma sched_yield_unfold s :
  curenv_ok s ->
  sched_yield s =
    match first_slot is_runnable s (sched_order (start_slot s)) with
    | Some i => env_run i s
    | None => match curenv s with
              | Some c => match envs s !! c with
                          | Some e => if env_status e =? ENV_RUNNING then env_run c s else sched_halt s
                          | None => Fault s
                          end
              | None => sched_halt s
              end
    end.
Proof.
  unfold curenv_ok. intros Hce. unfold sched_yield, start_slot. kpure.
  destruct (curenv s) as [c|] eqn:Hc.
  - destruct Hce as [e He]. rewrite bind_assoc. erewrite bind_ret by (by apply get_env_eq). kpure.
    rewrite He. change (fun st => st =? ENV_RUNNABLE) with is_runnable.
    destruct (first_slot _ _ _); [done|]. kpure. rewrite Hc.
    erewrite bind_ret by (by apply get_env_eq). by destruct (_ =? _).
  - kpure. change (fun st => st =? ENV_RUNNABLE) with is_runnable.
    destruct (first_slot _ _ _); [done|]. kpure. by rewrite Hc.
Qed.

Lemma sched_yield_ok s : sched_pre s -> sched_result s (sched_yield s).
Proof.
  intros Hpre. pose proof Hpre as [Hd Hce _ _ _]. rewrite (sched_yield_unfold s Hce).
  pose proof (start_slot_range s) as Hs.
  destruct (first_slot is_runnable s (sched_order (start_slot s))) as [i|] eqn:Hf.
  - destruct (first_slot_some _ _ _ _ Hf) as (l1 & l2 & Ho & (st & Hst & HP) & Hb).
    destruct (sched_order_split _ _ _ _ Hs Ho) as (Hi & _ & Hcl).
    unfold slot_status in Hst. destruct (envs s !! i) as [env|] eqn:Hei; [|done].
    injection Hst as Hst. apply Z.eqb_eq in HP.
    destruct (env_run_result s i env Hpre Hei) as (s' & -> & ? & ? & ? & ? & ?); [left; congruence|].
    apply (SrRun s i); try done; [congruence|]. intros j st' Hj Hdj Hsj ->.
    pose proof (Hb j ENV_RUNNABLE (Hcl j Hj Hdj) Hsj). done.
  - pose proof (no_runnable s _ Hd Hs Hf) as Hno. unfold curenv_ok in Hce.
    destruct (curenv s) as [c|] eqn:Hc; [|by apply sched_halt_result].
    destruct Hce as [e He]. rewrite He. destruct (Z.eqb_spec (env_status e) ENV_RUNNING) as [Hr|_];
      [|by apply sched_halt_result].
    destruct (env_run_result s c e Hpre He (or_intror Hr)) as (s' & -> & ? & ? & ? & ? & ?).
    by apply (SrSame s c).
Qed.

(** C26: sched_yield never returns.  It resumes the RUNNABLE environment that is
    nearest in circular order from the current environment's slot (that slot
    included); with no RUNNABLE environment it goes on with the current one if
    that is still RUNNING; otherwise it halts this CPU, with no current
    environment, the kernel's page directory and the lock released, or enters
    the monitor when no environment is left at all. *)
Theorem sched_yield_correct s : sched_pre s -> sched_result s (sched_yield s).
Proof. apply sched_yield_ok. Qed.

(** ** Fairness *)

(** One turn on a machine with one CPU: the timer takes the CPU (and the lock)
    from the running environment, and the scheduler picks the next one. *)
Definition turn (s s' : kstate) : Prop :=
  exists tf s1, sched_yield s = Resume tf s1 /\
    s' = set_kernel_lock (mkLock true (Some (this_cpu s1))) s1.

Inductive turns : nat -> kstate -> kstate -> Prop :=
| turns_O s : turns O s s
| turns_S n s s1 s2 : turn s s1 -> turns n s1 s2 -> turns (S n) s s2.

(** The state between two turns: the current environment is the only one
    RUNNING, and every id has its slot as index. *)
Record rr_ok (s : kstate) (c : Z) : Prop := {
  rr_pre : sched_pre s;
  rr_cur : curenv s = Some c;
  rr_run : slot_status s c = Some ENV_RUNNING;
  rr_ids : forall i e, envs s !! i = Some e -> env_status e <> ENV_FREE -> ENVX (env_id e) = i }.

Lemma preempt_lookup s j e :
  preempt s !! j = Some e ->
  exists e0, envs s !! j = Some e0 /\ env_id e = env_id e0 /\ env_pgdir e = env_pgdir e0 /\
    (env_status e = env_status e0 \/ env_status e0 = ENV_RUNNING).
Proof.
  unfold preempt. destruct (curenv s) as [c|]; [|intros ?; exists e; auto].
  destruct (envs s !! c) as [ce|] eqn:Hc; [|intros ?; exists e; auto].
  destruct (Z.eqb_spec (env_status ce) ENV_RUNNING) as [Hr|]; [|intros ?; exists e; auto].
  rewrite lookup_insert. case_decide as E; [|intros ?; exists e; auto].
  subst j. intros [= <-]. exists ce. auto.
Qed.

Lemma envs_running_lookup s i env j e :
  envs s !! i = Some env -> envs_running s i env !! j = Some e ->
  exists e0, envs s !! j = Some e0 /\ env_id e = env_id e0 /\ env_pgdir e = env_pgdir e0 /\
    (env_status e = env_status e0 \/ env_status e0 = ENV_RUNNING \/ j = i).
Proof.
  intros Hi. unfold envs_running. destruct (bool_decide _); rewrite lookup_insert; case_decide as E.
  - subst j. intros [= <-]. exists env. do 3 (split; [done|]). by right; right.
  - intros He. exists e. auto.
  - subst j. intros [= <-]. exists env. do 3 (split; [done|]). by right; right.
  - intros He. destruct (preempt_lookup _ _ _ He) as (e0 & ? & ? & ? & [?|?]); exists e0; auto 6.
Qed.

Lemma envs_running_dom s i env j :
  envs s !! i = Some env -> is_Some (envs_running s i env !! j) <-> is_Some (envs s !! j).
Proof.
  intros Hi.
  assert (Hp : is_Some (preempt s !! j) <-> is_Some (envs s !! j)).
  { unfold preempt. destruct (curenv s) as [c|]; [|done]. destruct (envs s !! c) as [ce|] eqn:Hc; [|done].
    destruct (_ =? _); [|done]. rewrite lookup_insert. case_decide; [subst; rewrite Hc|done].
    split; by eexists. }
  unfold envs_running. destruct (bool_decide _); rewrite lookup_insert; case_decide as E; try done;
    (subst j; rewrite Hi; split; by eexists).
Qed.

(** A slot that is neither the current one nor the next keeps its status. *)
Lemma envs_running_other s i env j :
  curenv s <> Some j -> j <> i -> envs_running s i env !! j = envs s !! j.
Proof.
  intros Hc Hj. unfold envs_running. destruct (bool_decide _); rewrite lookup_insert_ne by done; [done|].
  by apply preempt_ne.
Qed.

Lemma rr_ok_next s c i env s1 :
  rr_ok s c -> envs s !! i = Some env -> env_status env = ENV_RUNNABLE ->
  envs s1 = envs_running s i env -> curenv s1 = Some i -> this_cpu s1 = this_cpu s ->
  kern_pgdir s1 = kern_pgdir s ->
  rr_ok (set_kernel_lock (mkLock true (Some (this_cpu s1))) s1) i.
Proof.
  intros [[Hd Hce Hl Hk Hdirs] Hc Hrun Hids] Hi Hst He Hc1 Ht Hkp.
  assert (Hic : curenv s <> Some i).
  { rewrite Hc. intros [= ->]. unfold slot_status in Hrun. rewrite Hi in Hrun. simpl in Hrun.
    rewrite Hst in Hrun. done. }
  assert (Hei : envs s1 !! i = Some (set_env_cpunum (this_cpu s)
     (set_env_runs (u32 (env_runs env + 1)) (set_env_status ENV_RUNNING env)))).
  { rewrite He. unfold envs_running. rewrite bool_decide_false by done. apply lookup_insert_eq. }
  split; [split|..].
  - intros j. simpl. rewrite He, envs_running_dom by done. apply Hd.
  - unfold curenv_ok. change (curenv (set_kernel_lock _ s1)) with (curenv s1). rewrite Hc1.
    simpl. by rewrite Hei.
  - done.
  - simpl. by rewrite Hkp.
  - intros j e. simpl. rewrite He. intros Hje Hs.
    destruct (envs_running_lookup _ _ _ _ _ Hi Hje) as (e0 & He0 & _ & -> & Hor).
    apply (Hdirs j e0 He0). destruct Hor as [<-|[->| ->]]; [done|by right|left; congruence].
  - exact Hc1.
  - unfold slot_status. simpl. by rewrite Hei.
  - intros j e. simpl. rewrite He. intros Hje Hs.
    destruct (envs_running_lookup _ _ _ _ _ Hi Hje) as (e0 & He0 & -> & _ & Hor).
    apply (Hids j e0 He0). destruct Hor as [<-|[->| ->]]; [done|done|].
    rewrite Hi in He0. injection He0 as <-. by rewrite Hst.
Qed.

Lemma dist_range c j : 0 <= dist c j < 1024.
Proof. unfold dist. rewrite NENV_eq. lia. Qed.

(** A turn brings the CPU to a waiting environment, or nearer to it. *)
Lemma turn_progress s c i :
  rr_ok s c -> slot_status s i = Some ENV_RUNNABLE ->
  exists s' c', turn s s' /\ rr_ok s' c' /\
    (c' = i \/ (slot_status s' i = Some ENV_RUNNABLE /\ dist c' i < dist c i)).
Proof.
  intros Hrr Hi. pose proof Hrr as [Hpre Hc Hrun Hids]. pose proof (sp_dom _ Hpre) as Hd.
  pose proof (slot_status_dom _ _ _ Hd Hi) as Hir. pose proof (slot_status_dom _ _ _ Hd Hrun) as Hcr.
  assert (Hstart : start_slot s = c).
  { unfold start_slot. rewrite Hc. unfold slot_status in Hrun. destruct (envs s !! c) as [e|] eqn:He; [|done].
    injection Hrun as Hrun. apply (Hids c e He). by rewrite Hrun. }
  pose proof (sched_yield_ok s Hpre) as Hres. remember (sched_yield s) as o eqn:Ho.
  destruct Hres as [j env s1 Hj Hst Hnear He Hc1 Hl1 Ht1 Hk1|? ? ? _ _ _ Hno|? Hno|? Hno].
  - exists (set_kernel_lock (mkLock true (Some (this_cpu s1))) s1), j.
    split; [by exists (env_tf env), s1|]. split; [by eapply rr_ok_next|].
    destruct (decide (j = i)) as [|Hji]; [by left|right]. rewrite Hstart in Hnear.
    assert (Hjr : 0 <= j < NENV) by (apply Hd; by eexists).
    assert (Hjc : j <> c).
    { intros ->. unfold slot_status in Hrun. rewrite Hj in Hrun. simpl in Hrun. rewrite Hst in Hrun. done. }
    assert (Hic : i <> c) by (intros ->; rewrite Hrun in Hi; done).
    split.
    + unfold slot_status. simpl. rewrite He, envs_running_other; [done| |done]. rewrite Hc. congruence.
    + assert (Hle : ~ dist c i < dist c j) by (intros Hlt; by apply (Hnear i ENV_RUNNABLE)).
      unfold dist in *. rewrite NENV_eq in *. lia.
  - by destruct (Hno i ENV_RUNNABLE Hi).
  - by destruct (Hno i ENV_RUNNABLE Hi).
  - by pose proof (Hno i ENV_RUNNABLE Hi).
Qed.

(** C25: the round robin is fair: as long as the running environment only loses
    the CPU to the timer, every RUNNABLE environment gets it within NENV turns. *)
Theorem round_robin_fair s c i :
  rr_ok s c -> slot_status s i = Some ENV_RUNNABLE ->
  exists n s', (1 <= n <= 1024)%nat /\ turns n s s' /\ rr_ok s' i.
Proof.
  intros Hrr Hi. enough (H : forall k s c, rr_ok s c -> slot_status s i = Some ENV_RUNNABLE ->
    dist c i < Z.of_nat k -> exists n s', (1 <= n <= k)%nat /\ turns n s s' /\ rr_ok s' i).
  { apply (H 1024%nat s c Hrr Hi). pose proof (dist_range c i). lia. }
  clear s c Hrr Hi. intros k. induction k as [|k IH]; intros s c Hrr Hi Hk; [pose proof (dist_range c i); lia|].
  destruct (turn_progress s c i Hrr Hi) as (s1 & c1 & Ht & Hrr1 & [->|[Hi1 Hd]]).
  - exists 1%nat, s1. split; [lia|]. split; [|done]. eapply turns_S; [done|apply turns_O].
  - destruct (IH s1 c1 Hrr1 Hi1 ltac:(lia)) as (n & s2 & Hn & Hts & Hrr2).
    exists (S n), s2. split; [lia|]. split; [by eapply turns_S|done].
Qed.

(** An environment whose status is RUNNABLE while it runs (which it can
    bring about itself, with sys_env_set_status) keeps the CPU for ever: the
    search starts at the current slot, not just after it, and running the
    current environment again does not change its status. *)
Theorem sched_yield_self s c env :
  sched_pre s -> curenv s = Some c -> envs s !! c = Some env -> ENVX (env_id env) = c ->
  env_status env = ENV_RUNNABLE ->
  exists s', sched_yield s = Resume (env_tf env) s' /\ curenv s' = Some c /\
    slot_status s' c = Some ENV_RUNNABLE.
Proof.
  intros Hpre Hc He Hid Hst. pose proof Hpre as [_ Hce _ _ _]. rewrite (sched_yield_unfold s Hce).
  assert (Hs : start_slot s = c) by (unfold start_slot; by rewrite Hc, He).
  assert (Hcr : 0 <= c < NENV) by (rewrite <- Hid; apply ENVX_range).
  assert (Hf : first_slot is_runnable s (sched_order c) = Some c).
  { unfold sched_order. rewrite seqZ_cons by done. cbn [map first_slot].
    rewrite Z.mod_small by exact Hcr. unfold slot_status at 1. rewrite He. cbn [fmap option_fmap option_map].
    by rewrite Hst. }
  rewrite Hs, Hf. destruct (env_run_result s c env Hpre He (or_introl Hst)) as (s' & -> & Henv & Hc' & _).
  exists s'. split; [done|]. split; [done|]. unfold slot_status. rewrite Henv. unfold envs_running.
  rewrite bool_decide_true by done. rewrite lookup_insert_eq. simpl. by rewrite Hst.
Qed.

(** ** A concrete state: environment 0 runs, environment 1 waits *)

Definition waiting_environment : Env :=
  set_env_pgdir (pgdir_kva 4) (set_env_status ENV_RUNNABLE (set_env_id 0x1001 env_zero)).
Definition two_envs (st : Z) : gmap Z Env :=
  <[0 := set_env_status st small_environment]> (<[1 := waiting_environment]> zero_envs).
Definition with_lock (s : kstate) : kstate := set_kernel_lock (mkLock true (Some (this_cpu s))) s.
Definition rr_small (st : Z) : kstate := with_lock (with_envs (two_envs st) (Some 0) None (pgdir_kva 6) small_vm).

Lemma with_lock_held s : lock_held (with_lock s).
Proof. done. Qed.

Lemma with_lock_curenv s : curenv (with_lock s) = curenv s.
Proof. done. Qed.

Lemma two_envs_lookup st i e :
  two_envs st !! i = Some e -> (i = 0 /\ e = set_env_status st small_environment) \/
    (i = 1 /\ e = waiting_environment) \/ e = env_zero.
Proof.
  unfold two_envs. rewrite !lookup_insert, zero_envs_lookup.
  repeat case_decide; try done; intros [= <-]; auto.
Qed.

Lemma two_envs_0 st : two_envs st !! 0 = Some (set_env_status st small_environment).
Proof. apply lookup_insert_eq. Qed.

Lemma two_envs_1 st : two_envs st !! 1 = Some waiting_environment.
Proof. unfold two_envs. by rewrite lookup_insert_ne, lookup_insert_eq. Qed.

Lemma two_envs_dom st i : is_Some (two_envs st !! i) <-> 0 <= i < NENV.
Proof.
  unfold two_envs. rewrite !lookup_insert_is_Some, zero_envs_lookup. destruct (decide (0 <= i < NENV)) as [Hi|Hi].
  - split; [done|]. intros _. destruct (decide (0 = i)); [by left|right; split; [done|]].
    destruct (decide (1 = i)); [by left|right; split; [done|by eexists]].
  - split; [|done]. intros [<-|[_ [<-|[_ []%is_Some_None]]]]; exfalso; apply Hi; done.
Qed.

Lemma rr_small_cur st : curenv (rr_small st) = Some 0.
Proof.
  unfold rr_small. rewrite with_lock_curenv. unfold with_envs. apply curenv_set_cpu_env.
Qed.

Lemma rr_small_pre st : sched_pre (rr_small st).
Proof.
  split.
  - intros i. apply two_envs_dom.
  - unfold curenv_ok. rewrite rr_small_cur. change (envs (rr_small st)) with (two_envs st).
    rewrite two_envs_0. by eexists.
  - apply with_lock_held.
  - change (KERNBASE <= pgdir_kva 6). unfold pgdir_kva. lia.
  - intros i e He Hs. destruct (two_envs_lookup st i e He) as [[_ ->]|[[_ ->]| ->]].
    + change (KERNBASE <= pgdir_kva 3). unfold pgdir_kva. lia.
    + change (KERNBASE <= pgdir_kva 4). unfold pgdir_kva. lia.
    + exfalso. clear He. destruct Hs; discriminate.
Qed.

Lemma rr_small_ok : rr_ok (rr_small ENV_RUNNING) 0.
Proof.
  split; [apply rr_small_pre|apply rr_small_cur| |].
  - unfold slot_status. change (envs (rr_small ENV_RUNNING)) with (two_envs ENV_RUNNING). by rewrite two_envs_0.
  - intros i e He Hs. destruct (two_envs_lookup ENV_RUNNING i e He) as [[-> ->]|[[-> ->]| ->]];
      clear He; [done|done|]. exfalso. by apply Hs.
Qed.

Lemma env_run_correct_witness :
  exists s', env_run 1 (rr_small ENV_RUNNING) = Resume (env_tf waiting_environment) s' /\ curenv s' = Some 1.
Proof.
  destruct (env_run_correct (rr_small ENV_RUNNING) 1 waiting_environment) as (s' & H & _ & Hc & _).
  - apply (sp_cur _ (rr_small_pre ENV_RUNNING)).
  - apply (two_envs_1 ENV_RUNNING).
  - change (KERNBASE <= pgdir_kva 4). unfold pgdir_kva. lia.
  - apply with_lock_held.
  - exists s'. exact (conj H Hc).
Defined.

Lemma sched_yield_correct_witness : sched_result (rr_small ENV_RUNNING) (sched_yield (rr_small ENV_RUNNING)).
Proof. exact (sched_yield_correct (rr_small ENV_RUNNING) (rr_small_pre ENV_RUNNING)). Defined.

Lemma round_robin_fair_witness :
  exists n s', (1 <= n <= 1024)%nat /\ turns n (rr_small ENV_RUNNING) s' /\ rr_ok s' 1.
Proof.
  apply (round_robin_fair (rr_small ENV_RUNNING) 0 1 rr_small_ok).
  unfold slot_status. change (envs (rr_small ENV_RUNNING)) with (two_envs ENV_RUNNING). by rewrite two_envs_1.
Defined.

Lemma sched_yield_self_witness :
  exists s', sched_yield (rr_small ENV_RUNNABLE) =
    Resume (env_tf (set_env_status ENV_RUNNABLE small_environment)) s' /\ curenv s' = Some 0.
Proof.
  destruct (sched_yield_self (rr_small ENV_RUNNABLE) 0 (set_env_status ENV_RUNNABLE small_environment)
    (rr_small_pre ENV_RUNNABLE) (rr_small_cur ENV_RUNNABLE) (two_envs_0 ENV_RUNNABLE) eq_refl eq_refl)
    as (s' & H & Hc & _).
  exists s'. exact (conj H Hc).
Defined.
