(* ===== verification/UserMem.v ===== *)
(** * The kernel's writes to user memory

    A store at a linear address below UTOP goes through the page tables in force
    (kern/trap.c and kern/env.c write so to the exception stack and to the pages of
    a new program).  Within one page that the directory in force maps writable it
    is a store to the page's frame, and changes no address space. *)
From S2P Require Import Prelude Mmu Mem Console Kstate Pmap PmapAlloc PmapSpace PmapMap PmapDir Env Trap.

(** ** Words in memory *)

Fixpoint store_words (m : bytemem) (a : Z) (ws : list Z) : bytemem :=
  match ws with [] => m | w :: ws => store_words (store32 m a w) (a + 4) ws end.

Lemma load8_store_words_out m a ws b :
  b < a \/ a + 4 * Z.of_nat (length ws) <= b -> load8 (store_words m a ws) b = load8 m b.
Proof.
  revert m a. induction ws as [|w ws IH]; intros m a Hb; simpl; [done|]. simpl in Hb.
  rewrite IH by lia. apply load8_store32_ne. lia.
Qed.

Lemma load32_store_words_out m a ws b :
  b + 4 <= a -> load32 (store_words m a ws) b = load32 m b.
Proof. intros Hb. unfold load32. by rewrite !load8_store_words_out by lia. Qed.

Lemma load32_store_words m a ws i w :
  ws !! i = Some w -> load32 (store_words m a ws) (a + 4 * Z.of_nat i) = u32 w.
Proof.
  revert m a i. induction ws as [|x ws IH]; intros m a [|i]; simpl; try done.
  - intros [= ->]. rewrite Z.add_0_r, load32_store_words_out by lia. apply load32_store32_eq.
  - intros H. replace (a + 4 * Z.of_nat (S i)) with (a + 4 + 4 * Z.of_nat i) by lia. by apply IH.
Qed.

Lemma mem_ok_store_words m a ws : mem_ok m -> mem_ok (store_words m a ws).
Proof. revert m a. induction ws as [|w ws IH]; intros m a Hm; simpl; [done|]. by apply IH, mem_ok_store32. Qed.

Lemma store8_byte m a v k : 0 <= k -> store8 m a ((v .>> k) .& 0xff) = store8 m a (v / 2 ^ k).
Proof.
  intros Hk. unfold store8. rewrite Z.shiftr_div_pow2 by done. change 0xff with (Z.ones 8). rewrite Z.land_ones by lia.
  f_equal. unfold u8. change (2 ^ 8) with 0x100. by rewrite Z.mod_mod by lia.
Qed.

(** ** One writable page *)

Section page.
Context (l : list Z) (D : gset Z) (M : aspace) (X : Z -> Z) (d k pte : Z).
Context (Hd : d ∈ D) (Hk : 0 <= k < NUVPN) (Hpte : M !! (d, k) = Some pte) (HW : has pte PTE_W = true).

(** The directory [d] is in force and lets the kernel write to page [k]. *)
Record upage (s : kstate) : Prop := {
  up_vm : vm_ok s l D M X;
  up_cr3 : cr3 s = 4096 * d }.

Lemma upage_no_table s : upage s -> no_table s D (frame_of pte).
Proof.
  intros [Hvm _]. pose proof (mappings_pos _ _ _ Hpte). pose proof (vo_X _ _ _ _ _ Hvm (frame_of pte)).
  destruct (vo_data _ _ _ _ _ Hvm (frame_of pte)) as (_ & ? & _ & ?); [lia|]. by split.
Qed.

(** A change within the frame. *)
Lemma upage_write s m' :
  upage s -> mem_ok m' ->
  (forall b, b < 4096 * frame_of pte \/ 4096 * frame_of pte + 4096 <= b -> load8 m' b = load8 (mem s) b) ->
  upage (set_mem m' s).
Proof.
  intros Hu Hm Hout. pose proof (upage_no_table s Hu) as Hnt. destruct Hu as [Hvm Hc].
  assert (Hent : forall t j, t <> frame_of pte -> 0 <= j < 1024 -> entry m' t j = entry (mem s) t j).
  { intros t j Ht Hj. unfold entry, load32, ent_addr. rewrite !Hout by lia. done. }
  destruct (vm_ok_write_page s l D M X (frame_of pte) m' Hvm Hnt Hm Hent) as [Hvm' _].
  done.
Qed.

Lemma vstore8_upage s va v :
  upage s -> va / 4096 = k ->
  vstore8 va v s = Ret tt (set_mem (store8 (mem s) (4096 * frame_of pte + va mod 4096) v) s).
Proof.
  intros [Hvm Hc] Hva. unfold vstore8.
  assert (Hvr : 0 <= va < UTOP) by (rewrite <- NUVPN_eq; unfold NUVPN, PGSIZE in *; lia).
  rewrite <- Hva in Hpte. destruct (mapped_present _ _ _ _ _ _ _ _ Hvm Hd Hvr Hpte) as (Hp & Hent & HPt).
  destruct (vm_va_parts va Hvr) as (Hi & _).
  assert (HP : has (entry (mem s) d (PDX va)) PTE_W = true) by (by rewrite (pde_has s l D M X)).
  assert (Ha : PTE_ADDR (cr3 s) + 4 * PDX va = ent_addr d (PDX va)).
  { rewrite Hc, PTE_ADDR_div. unfold ent_addr. lia. }
  rewrite Ha. fold (entry (mem s) d (PDX va)). fold (present (mem s) d (PDX va)). rewrite Hp, HP. cbn [negb andb].
  cbv iota. rewrite (PTE_ADDR_div (entry _ _ _)). fold (frame_of (entry (mem s) d (PDX va))).
  fold (ent_addr (frame_of (entry (mem s) d (PDX va))) (PTX va)).
  fold (entry (mem s) (frame_of (entry (mem s) d (PDX va))) (PTX va)).
  rewrite Hent, HPt, HW. cbn [negb andb]. cbv iota. rewrite PTE_ADDR_div, PGOFF_mod. fold (frame_of pte). done.
Qed.

Lemma upage_store8 s va v :
  upage s -> va / 4096 = k -> upage (set_mem (store8 (mem s) (4096 * frame_of pte + va mod 4096) v) s).
Proof.
  intros Hu Hva. apply upage_write; [done|apply mem_ok_store8, (vo_mem _ _ _ _ _ (up_vm _ Hu))|].
  intros b Hb. apply load8_store8_ne. lia.
Qed.

Lemma vstore32_upage s va w :
  upage s -> va / 4096 = k -> (va + 3) / 4096 = k ->
  let s' := set_mem (store32 (mem s) (4096 * frame_of pte + va mod 4096) w) s in
  vstore32 va w s = Ret tt s' /\ upage s'.
Proof.
  intros Hu Hva Hva3 s'.
  assert (Hr : 0 <= va < 0xffffff00) by (unfold NUVPN in Hk; lia).
  assert (Hstep : forall i v s1, 0 <= i < 4 -> upage s1 ->
    vstore8 (u32 (va + i)) v s1 = Ret tt (set_mem (store8 (mem s1) (4096 * frame_of pte + va mod 4096 + i) v) s1) /\
    upage (set_mem (store8 (mem s1) (4096 * frame_of pte + va mod 4096 + i) v) s1)).
  { intros i v s1 Hi Hu1. rewrite u32_small by lia.
    replace (4096 * frame_of pte + va mod 4096 + i) with (4096 * frame_of pte + (va + i) mod 4096) by lia.
    split; [apply vstore8_upage|apply upage_store8]; try done; lia. }
  destruct (Hstep 0 (w .& 0xff) s ltac:(lia) Hu) as [H0 Hu0]. rewrite (u32_small (va + 0)), !Z.add_0_r in H0 by lia.
  rewrite Z.add_0_r in Hu0.
  destruct (Hstep 1 ((w .>> 8) .& 0xff) _ ltac:(lia) Hu0) as [H1 Hu1].
  destruct (Hstep 2 ((w .>> 16) .& 0xff) _ ltac:(lia) Hu1) as [H2 Hu2].
  destruct (Hstep 3 ((w .>> 24) .& 0xff) _ ltac:(lia) Hu2) as [H3 Hu3].
  assert (E : set_mem (store32 (mem s) (4096 * frame_of pte + va mod 4096) w) s = s') by done.
  unfold vstore32. rewrite (bind_ret _ _ _ _ _ H0), (bind_ret _ _ _ _ _ H1), (bind_ret _ _ _ _ _ H2), H3.
  cbn [mem set_mem] in *. rewrite !store8_byte in Hu3 |- * by lia.
  replace (w .& 0xff) with ((w .>> 0) .& 0xff) in Hu3 |- * by by rewrite Z.shiftr_0_r.
  rewrite store8_byte, Z.pow_0_r, Z.div_1_r in Hu3 |- * by lia. exact (conj eq_refl Hu3).
Qed.

(** Words one after the other, within the page. *)
Lemma vstore_words s va ws :
  upage s -> va / 4096 = k -> va mod 4096 + 4 * Z.of_nat (length ws) <= 4096 ->
  let s' := set_mem (store_words (mem s) (4096 * frame_of pte + va mod 4096) ws) s in
  for_each (imap (fun i w => (u32 (va + 4 * Z.of_nat i), w)) ws) (fun aw => vstore32 aw.1 aw.2) s = Ret tt s' /\ upage s'.
Proof.
  revert s va. induction ws as [|w ws IH]; intros s va Hu Hva Hlen; cbn zeta.
  - split; [by destruct s|]. simpl. by destruct s.
  - simpl in Hlen. cbn [imap for_each fst snd]. rewrite Z.add_0_r, u32_small by (unfold NUVPN in Hk; lia).
    destruct (vstore32_upage s va w Hu Hva ltac:(lia)) as [Hst Hu1]. cbv zeta in Hst, Hu1.
    rewrite (bind_ret _ _ _ _ _ Hst). set (s1 := set_mem _ s) in *.
    destruct ws as [|w2 ws]; [split; done|].
    destruct (IH s1 (va + 4) Hu1 ltac:(simpl in Hlen; lia)) as [H Hu2]; [simpl in *; lia|].
    replace ((va + 4) mod 4096) with (va mod 4096 + 4) in H, Hu2 by (simpl in Hlen; lia).
    replace (4096 * frame_of pte + (va mod 4096 + 4)) with (4096 * frame_of pte + va mod 4096 + 4) in H, Hu2 by lia.
    split; [|exact Hu2]. etrans; [|exact H]. f_equal. apply imap_ext. intros i x _. cbn. do 2 f_equal. lia.
Qed.
End page.
