(* ===== verification/DestroySpec.v ===== *)
(** * Properties of the destruction of environments and of the checks on user memory

    env_destroy (kern/env.c) in its three cases, and user_mem_check (kern/pmap.c)
    against the abstract address spaces. *)
From S2P Require Import Prelude Mmu Mem Console Kstate Pmap PmapAlloc PmapSpace PmapMap PmapDir Env EnvSpec Sched SchedSpec Kbytes.

(** ** env_destroy *)

Definition freed_env (fl : option Z) (env : Env) : Env :=
  set_env_link fl (set_env_status ENV_FREE (set_env_pgdir 0 env)).

(** What [env_free] leaves: the environment [e] and all that it held are free. *)
Record released (s : kstate) (l : list Z) (D : gset Z) (M : aspace) (X : Z -> Z) (e : Z) (env : Env) (d : Z)
    (s' : kstate) (l' : list Z) : Prop := {
  rl_vm : vm_ok s' l' (D ∖ {[d]}) (unmap M d 0 NUVPN) X;
  rl_freed : freed l l' M (unmap M d 0 NUVPN) X;
  rl_dir : d ∈ l';
  rl_tables i : 0 <= i < NUPDE -> present (mem s) d i = true -> frame_of (entry (mem s) d i) ∈ l';
  rl_envs : envs s' = <[e := freed_env (env_free_list s) env]> (envs s);
  rl_list : env_free_list s' = Some e;
  rl_lock : kernel_lock s' = kernel_lock s;
  rl_cpu : this_cpu s' = this_cpu s;
  rl_kern : kern_pgdir s' = kern_pgdir s }.

Lemma env_free_released s l D M X e env d :
  vm_ok s l D M X -> curenv_ok s -> KERNBASE <= kern_pgdir s ->
  envs s !! e = Some env -> env_pgdir env = pgdir_kva d -> d ∈ D ->
  exists s' l', env_free e s = Ret tt s' /\ released s l D M X e env d s' l' /\ curenv s' = curenv s.
Proof.
  intros Hvm Hce Hk He Hpg Hd.
  destruct (env_free_ok s l D M X e env d Hvm Hce Hk He Hpg Hd)
    as (s' & l' & H & Hvm' & Hf & Hdl & Ht & Henv & Hfl & Hc & _ & Hlk & Htc & Hkp).
  exists s', l'. split; [done|]. split; [by split|done].
Qed.

(** The scheduler can go on without the environment. *)
Lemma sched_pre_released s l D M X e env d s1 l' :
  sched_pre s -> envs s !! e = Some env -> released s l D M X e env d s1 l' ->
  sched_pre (upd_thiscpu (set_cpu_env None) s1).
Proof.
  intros [Hd Hce Hl Hkd Hdirs] He [_ _ _ _ Henv _ Hlk Htc Hkp]. split.
  - intros i. simpl. rewrite Henv, lookup_insert_is_Some, <- (Hd i). destruct (decide (e = i)) as [<-|]; [|naive_solver].
    rewrite He. split; [by eexists|by left].
  - unfold curenv_ok. by rewrite curenv_set_cpu_env.
  - unfold lock_held in *. simpl. by rewrite Hlk, Htc.
  - simpl. by rewrite Hkp.
  - intros i ei. simpl. rewrite Henv, lookup_insert. case_decide; [|apply Hdirs].
    intros [= <-] [E|E]; discriminate E.
Qed.

Lemma env_destroy_ok s l D M X e env d :
  vm_ok s l D M X -> sched_pre s -> envs s !! e = Some env -> env_pgdir env = pgdir_kva d -> d ∈ D ->
  if bool_decide (curenv s = Some e)
  then exists s1 l', released s l D M X e env d s1 l' /\ curenv s1 = None /\
    env_destroy e s = sched_yield s1 /\ sched_result s1 (env_destroy e s) /\
    (forall tf s', env_destroy e s = Resume tf s' -> curenv s' <> Some e)
  else if env_status env =? ENV_RUNNING
  then env_destroy e s = Ret tt (set_envs (<[e := set_env_status ENV_DYING env]> (envs s)) s)
  else exists s' l', env_destroy e s = Ret tt s' /\ released s l D M X e env d s' l' /\ curenv s' = curenv s.
Proof.
  intros Hvm Hpre He Hpg Hd. pose proof Hpre as [_ Hce _ Hk _].
  destruct (env_free_released s l D M X e env d Hvm Hce Hk He Hpg Hd) as (s1 & l' & H1 & Hrel & Hc1).
  unfold env_destroy. erewrite bind_ret by (by apply get_env_eq). kpure.
  destruct (bool_decide_reflect (curenv s = Some e)) as [Hc|Hc].
  - rewrite andb_false_r. rewrite (bind_ret _ _ _ _ _ H1). kpure. rewrite Hc1, bool_decide_true by done.
    unfold set_curenv. kpure. set (s2 := upd_thiscpu (set_cpu_env None) s1).
    assert (Hc2 : curenv s2 = None) by apply curenv_set_cpu_env.
    pose proof (sched_pre_released _ _ _ _ _ _ _ _ _ _ Hpre He Hrel) as Hpre2. fold s2 in Hpre2.
    pose proof (sched_yield_ok s2 Hpre2) as Hres. exists s2, l'.
    split; [|split; [done|split; [done|split; [done|]]]].
    + destruct Hrel as [Hv ? ? ? ? ? ? ? ?]. split; try done. by eapply (vm_ok_frame s1).
    + intros tf s' Hy. remember (sched_yield s2) as o. destruct Hres as [i envi s3 Hi Hst _ _ Hci|c ce s3 Hc' _ _ _ _ _| |]; [|congruence|done|done].
      injection Hy as _ <-. rewrite Hci. intros [= ->]. simpl in Hi. rewrite (rl_envs _ _ _ _ _ _ _ _ _ _ Hrel), lookup_insert_eq in Hi.
      injection Hi as <-. discriminate Hst.
  - rewrite andb_true_r. destruct (env_status env =? ENV_RUNNING); [by apply upd_env_eq|].
    rewrite (bind_ret _ _ _ _ _ H1). kpure. rewrite Hc1, bool_decide_false by done. by exists s1, l'.
Qed.

(** C28: env_destroy has three outcomes.  An environment that runs on another CPU
    is only marked DYING: it is released when it next enters the kernel.  Any other
    environment is released at once, with all it held; when it was the current one
    the scheduler takes over without it, and it is never resumed. *)
Theorem env_destroy_correct s l D M X e env d :
  vm_ok s l D M X -> sched_pre s -> envs s !! e = Some env -> env_pgdir env = pgdir_kva d -> d ∈ D ->
  if bool_decide (curenv s = Some e)
  then exists s1 l', released s l D M X e env d s1 l' /\ curenv s1 = None /\
    env_destroy e s = sched_yield s1 /\ sched_result s1 (env_destroy e s) /\
    (forall tf s', env_destroy e s = Resume tf s' -> curenv s' <> Some e)
  else if env_status env =? ENV_RUNNING
  then env_destroy e s = Ret tt (set_envs (<[e := set_env_status ENV_DYING env]> (envs s)) s)
  else exists s' l', env_destroy e s = Ret tt s' /\ released s l D M X e env d s' l' /\ curenv s' = curenv s.
Proof. apply env_destroy_ok. Qed.

(** ** user_mem_check *)

(** Page [k] of directory [d] is mapped with all the flags of [perm]. *)
Definition page_allows (M : aspace) (d perm k : Z) : bool :=
  match M !! (d, k) with Some pte => pte .& perm =? perm | None => false end.

(** A user program may access page [k]: it lies below ULIM, and the page tables in
    memory map it with all the flags of [perm]. *)
Definition page_accessible (m : bytemem) (d perm k : Z) : bool :=
  (4096 * k <? ULIM) && match mmu_walk m d (4096 * k) with Some pte => pte .& perm =? perm | None => false end.

Section check.
Context (s : kstate) (l : list Z) (D : gset Z) (M : aspace) (X : Z -> Z) (d va perm : Z).
Context (Hvm : vm_ok s l D M X) (Hd : d ∈ D).

(** The tables that map the pages from [lo] up to [hi] are within memory. *)
Definition tables_exist (lo hi : Z) : Prop :=
  forall k, lo <= k < hi -> present (mem s) d (k / 1024) = true -> frame_of (entry (mem s) d (k / 1024)) < npages s.

Lemma page_parts k : 0 <= k < 0x100000 -> PDX (4096 * k) = k / 1024 /\ 0 <= PDX (4096 * k) < 1024 /\ 0 <= PTX (4096 * k) < 1024.
Proof. intros Hk. rewrite PDX_div, PTX_div. lia. Qed.

(** Below UTOP the page tables are the abstract map. *)
Lemma page_accessible_allows k : 0 <= k -> 4096 * k < UTOP -> page_accessible (mem s) d perm k = page_allows M d perm k.
Proof.
  intros Hk Hu. unfold page_accessible, page_allows. rewrite (vm_mmu_walk Hvm d (4096 * k) Hd ltac:(lia)).
  replace (4096 * k / 4096) with k by lia. by replace (4096 * k <? ULIM) with true by (autounfold with jconst in *; lia).
Qed.

Lemma user_tables_exist hi : 4096 * hi <= UTOP -> tables_exist 0 hi.
Proof.
  intros Hu k Hk Hp. destruct (vm_va_parts (4096 * k) ltac:(lia)) as (Hi & _).
  destruct (page_parts k) as (E & _); [autounfold with jconst in *; lia|]. rewrite E in Hi.
  apply (vm_tab_range Hvm _ _ Hd Hi Hp).
Qed.

(** The walk to any page, and the test of one. *)
Lemma check_one k :
  0 <= k < 0x100000 -> (present (mem s) d (k / 1024) = true -> frame_of (entry (mem s) d (k / 1024)) < npages s) ->
  (pp <- pgdir_walk (pgdir_kva d) (4096 * k) 0 ;;
    match pp with
    | None => ret true
    | Some p =>
        if 4096 * k >=? ULIM then ret true
        else pte <- kload32 p ;; ret (negb (has pte PTE_P) || negb (pte .& perm =? perm))
    end) s = Ret (negb (page_accessible (mem s) d perm k)) s.
Proof.
  intros Hk Ht. destruct (page_parts k Hk) as (E & Hi & Hj). rewrite <- E in Ht. pose proof (vm_dir_range Hvm d Hd).
  unfold page_accessible, mmu_walk, uent, present, pgdir_walk in *.
  replace (pgdir_kva d + 4 * PDX (4096 * k)) with (KERNBASE + ent_addr d (PDX (4096 * k))) by (unfold pgdir_kva, ent_addr; lia).
  rewrite bind_assoc. erewrite bind_ret by (apply kload_entry; lia). cbv zeta.
  set (pde := entry (mem s) d (PDX (4096 * k))) in *. destruct (has pde PTE_P).
  2: { by rewrite andb_false_r. }
  assert (Hf : 0 <= frame_of pde) by (unfold frame_of; apply Z.div_pos; [apply load32_nonneg, (vo_mem _ _ _ _ _ Hvm)|lia]).
  rewrite PTE_ADDR_div. fold (frame_of pde). kpure.
  erewrite bind_ret by (apply KADDR_eq; [apply (vo_alloc _ _ _ _ _ Hvm)|specialize (Ht eq_refl); lia]). kpure.
  destruct (Z.geb_spec (4096 * k) ULIM); [by replace (4096 * k <? ULIM) with false by lia|].
  replace (4096 * k <? ULIM) with true by lia.
  replace (4096 * frame_of pde + KERNBASE + 4 * PTX (4096 * k)) with (KERNBASE + ent_addr (frame_of pde) (PTX (4096 * k))) by (unfold ent_addr; lia).
  erewrite bind_ret by (apply kload_entry; lia). unfold ret. f_equal. destruct (has _ PTE_P); [by destruct (_ =? perm)|done].
Qed.

Lemma check_pages_ok n k :
  0 <= k -> k + Z.of_nat n <= 0x100000 -> tables_exist k (k + Z.of_nat n) ->
  let go := user_mem_check_pages (pgdir_kva d) va perm (map (fun i => 4096 * k + PGSIZE * i) (seqZ 0 (Z.of_nat n))) s in
  (go = Ret 0 s /\ forall j, k <= j < k + Z.of_nat n -> page_accessible (mem s) d perm j = true) \/
  (exists j, k <= j < k + Z.of_nat n /\ page_accessible (mem s) d perm j = false /\
     (forall i, k <= i < j -> page_accessible (mem s) d perm i = true) /\
     go = Ret (- E_FAULT) (set_user_mem_check_addr (Z.max va (4096 * j)) s)).
Proof.
  revert k. induction n as [|n IH]; intros k Hk Hu Ht; cbv zeta; [left; split; [done|lia]|].
  rewrite seqZ_cons by lia. replace (Z.pred (Z.of_nat (S n))) with (Z.of_nat n) by lia.
  cbn [map user_mem_check_pages]. rewrite Z.mul_0_r, Z.add_0_r.
  rewrite <- bind_assoc, (bind_ret _ _ _ _ _ (check_one k ltac:(lia) (Ht k ltac:(lia)))).
  destruct (page_accessible (mem s) d perm k) eqn:Ha; cbn [negb].
  - replace (map (fun i => 4096 * k + PGSIZE * i) (seqZ (Z.succ 0) (Z.of_nat n)))
      with (map (fun i => 4096 * (k + 1) + PGSIZE * i) (seqZ 0 (Z.of_nat n))).
    2: { rewrite <- (fmap_add_seqZ 1 0). rewrite <- list_fmap_compose. apply list_fmap_ext. intros i x _. unfold PGSIZE. simpl. lia. }
    destruct (IH (k + 1) ltac:(lia) ltac:(lia)) as [[H Hall]|(j & Hj & Hf & Hlt & H)].
    + intros j Hj. apply Ht. lia.
    + left. split; [done|]. intros j Hj. destruct (decide (j = k)) as [->|]; [done|]. apply Hall. lia.
    + right. exists j. split; [lia|]. split; [done|]. split; [|done].
      intros i Hi. destruct (decide (i = k)) as [->|]; [done|]. apply Hlt. lia.
  - right. exists k. split; [lia|]. split; [done|]. split; [lia|]. kpure. unfold ret. do 2 f_equal.
    destruct (Z.ltb_spec (4096 * k) va); lia.
Qed.

Lemma user_mem_check_all e env len :
  envs s !! e = Some env -> env_pgdir env = pgdir_kva d ->
  0 <= va -> 0 <= len -> va + len <= 0xfffff000 -> tables_exist (va / 4096) ((va + len + 4095) / 4096) ->
  (user_mem_check e va len perm s = Ret 0 s /\
     forall k, va / 4096 <= k -> 4096 * k < va + len -> page_accessible (mem s) d perm k = true) \/
  (exists k, va / 4096 <= k /\ 4096 * k < va + len /\ page_accessible (mem s) d perm k = false /\
     (forall j, va / 4096 <= j < k -> page_accessible (mem s) d perm j = true) /\
     user_mem_check e va len perm s = Ret (- E_FAULT) (set_user_mem_check_addr (Z.max va (4096 * k)) s)).
Proof.
  intros He Hpg Hva Hlen Hu Ht. unfold user_mem_check.
  rewrite (u32_small (va + len)) by lia.
  destruct (ROUNDDOWN_spec va PGSIZE) as (Hs1 & Hs2 & Hs3); [lia|done|].
  destruct (ROUNDUP_spec (va + len) PGSIZE) as (He1 & He2); [lia|done|autounfold with jconst in *; lia|].
  set (a := ROUNDDOWN va PGSIZE) in *. set (b := ROUNDUP (va + len) PGSIZE) in *. clearbody a b.
  unfold PGSIZE in Hs1, Hs2, He1, He2.
  assert (Ha : a = 4096 * (va / 4096)) by lia. set (k0 := va / 4096) in *. clearbody k0.
  destruct (Z.ltb_spec a b) as [Hab|Hab]; [|left; split; [done|lia]].
  erewrite bind_ret by (by apply get_env_eq). rewrite Hpg. unfold page_starts.
  replace ((b - a) / PGSIZE) with (Z.of_nat (Z.to_nat ((b - a) / 4096))) by (unfold PGSIZE; lia). rewrite Ha.
  destruct (check_pages_ok (Z.to_nat ((b - a) / 4096)) k0)
    as [[H Hall]|(j & Hj & Hf & Hlt & H)]; [lia|lia|intros k Hk; apply Ht; lia|rewrite <- Ha in H |- *..].
  - left. split; [exact H|]. intros k Hk Hk2. apply Hall. lia.
  - right. exists j. split; [lia|]. split; [lia|]. split; [done|]. split; [exact Hlt|exact H].
Qed.
End check.

(** Below UTOP, in terms of the abstract map. *)
Lemma user_mem_check_ok s l D M X e env d va len perm :
  vm_ok s l D M X -> envs s !! e = Some env -> env_pgdir env = pgdir_kva d -> d ∈ D ->
  0 <= va -> 0 <= len -> va + len <= UTOP ->
  (user_mem_check e va len perm s = Ret 0 s /\
     forall k, va / 4096 <= k -> 4096 * k < va + len -> page_allows M d perm k = true) \/
  (exists k, va / 4096 <= k /\ 4096 * k < va + len /\ page_allows M d perm k = false /\
     (forall j, va / 4096 <= j < k -> page_allows M d perm j = true) /\
     user_mem_check e va len perm s = Ret (- E_FAULT) (set_user_mem_check_addr (Z.max va (4096 * k)) s)).
Proof.
  intros Hvm He Hpg Hd Hva Hlen Hu. assert (HU : UTOP = 0xeec00000) by done.
  assert (Hpa : forall k, 0 <= k -> 4096 * k < va + len -> page_accessible (mem s) d perm k = page_allows M d perm k)
    by (intros; eapply page_accessible_allows; eauto; lia).
  destruct (user_mem_check_all s l D M X d va perm Hvm Hd e env len He Hpg Hva Hlen) as [[H Hall]|(k & Hk & Hk2 & Hf & Hlt & H)]; [lia| | |].
  - intros k Hk. eapply (user_tables_exist s l D M X d Hvm Hd (k + 1)); lia.
  - left. split; [done|]. intros k Hk Hk2. rewrite <- Hpa by lia. by apply Hall.
  - right. exists k. split; [done|]. split; [done|]. split; [by rewrite <- Hpa by lia|]. split; [|done].
    intros j Hj. rewrite <- Hpa by lia. by apply Hlt.
Qed.

(** C18: where the range does not wrap around user_mem_check is exact: it succeeds, with
    nothing changed, when every page that the range touches lies below ULIM and is
    mapped by the page tables in memory with the permissions asked for, and otherwise
    fails and leaves in user_mem_check_addr the first address of the range that may not
    be accessed.  Below UTOP the page tables are the environment's address space.  The
    tables above UTOP, which the kernel shares with the environment, must lie within
    memory. *)
Theorem user_mem_check_correct s l D M X e env d va len perm :
  vm_ok s l D M X -> envs s !! e = Some env -> env_pgdir env = pgdir_kva d -> d ∈ D ->
  0 <= va -> 0 <= len -> va + len <= 0xfffff000 -> tables_exist s d NUVPN 0x100000 ->
  (forall k, 0 <= k -> 4096 * k < UTOP -> page_accessible (mem s) d perm k = page_allows M d perm k) /\
  ((user_mem_check e va len perm s = Ret 0 s /\
     forall k, va / 4096 <= k -> 4096 * k < va + len -> page_accessible (mem s) d perm k = true) \/
   (exists k, va / 4096 <= k /\ 4096 * k < va + len /\ page_accessible (mem s) d perm k = false /\
     (forall j, va / 4096 <= j < k -> page_accessible (mem s) d perm j = true) /\
     user_mem_check e va len perm s = Ret (- E_FAULT) (set_user_mem_check_addr (Z.max va (4096 * k)) s))).
Proof.
  intros Hvm He Hpg Hd Hva Hlen Hu Ht. split; [intros; by eapply page_accessible_allows|].
  apply (user_mem_check_all s l D M X d va perm Hvm Hd e env len He Hpg Hva Hlen Hu).
  intros k Hk. destruct (decide (k < NUVPN)) as [Hlt|Hge]; [|apply Ht; lia].
  apply (user_tables_exist s l D M X d Hvm Hd NUVPN); [by vm_compute|lia].
Qed.

(** Where [va + len] passes 2^32 the check sees an empty range and succeeds,
    whatever is mapped: the end of the range is computed modulo 2^32. *)
Theorem user_mem_check_wraps s e va len perm :
  0 <= va < 0x100000000 -> 0x100000000 - PGSIZE < va + len -> va + len + PGSIZE <= 0x100000000 + va ->
  user_mem_check e va len perm s = Ret 0 s.
Proof.
  intros Hva Hw Hl. unfold user_mem_check, PGSIZE in *.
  destruct (ROUNDDOWN_spec va 4096) as (Hs1 & Hs2 & Hs3); [lia|done|].
  assert (Hr : ROUNDUP (u32 (va + len)) 4096 <= ROUNDDOWN va 4096); [|by destruct (Z.ltb_spec (ROUNDDOWN va 4096) (ROUNDUP (u32 (va + len)) 4096)); [lia|]].
  unfold u32 at 1. destruct (Z.ltb_spec (va + len) 0x100000000) as [Hlt|Hge].
  - rewrite Z.mod_small by lia. replace (ROUNDUP (va + len) 4096) with 0; [lia|].
    unfold ROUNDUP. rewrite (u32_small (va + len)) by lia. unfold u32.
    replace ((va + len + 4096 - 1) mod 0x100000000) with (va + len - 0xfffff001) by lia.
    unfold ROUNDDOWN. rewrite u32_small by lia. lia.
  - replace ((va + len) mod 0x100000000) with (va + len - 0x100000000) by lia.
    destruct (ROUNDUP_spec (va + len - 0x100000000) 4096) as (H1 & H2); [lia|done|lia|]. lia.
Qed.

(** ** Witnesses *)

Lemma with_lock_vm s l D M X : vm_ok s l D M X -> vm_ok (with_lock s) l D M X.
Proof. by apply vm_ok_frame. Qed.

Lemma rr_small_vm : vm_ok (rr_small ENV_RUNNING) [5] {[3]} ∅ no_refs.
Proof. exact (with_lock_vm _ _ _ _ _ (with_envs_vm _ _ _ _ _ _ _ _ _ small_vm_ok)). Qed.

Lemma env_destroy_correct_witness :
  exists s1, curenv s1 = None /\ env_destroy 0 (rr_small ENV_RUNNING) = sched_yield s1.
Proof.
  pose proof (env_destroy_correct (rr_small ENV_RUNNING) [5] {[3]} ∅ no_refs 0 (set_env_status ENV_RUNNING small_environment) 3
    rr_small_vm (rr_small_pre ENV_RUNNING) (two_envs_0 ENV_RUNNING) eq_refl ltac:(set_solver)) as H.
  rewrite rr_small_cur, bool_decide_true in H by done.
  destruct H as (s1 & l' & _ & Hc & Hd & _). exists s1. exact (conj Hc Hd).
Defined.

(** The directory of [small_env] has one table, itself. *)
Lemma small_tables : tables_exist small_env 3 NUVPN 0x100000.
Proof.
  intros k Hk Hp. unfold NUVPN in Hk. assert (Hi : 955 <= k / 1024 < 1024) by lia. revert Hp. generalize dependent (k / 1024).
  intros i Hi. assert (Hb : forallb (fun i => negb (present (mem small_env) 3 i) || (frame_of (entry (mem small_env) 3 i) <? npages small_env)) (seqZ 955 69) = true)
    by (vm_compute; reflexivity).
  rewrite forallb_forall in Hb. specialize (Hb i (proj1 (list_elem_of_In _ _) (proj2 (elem_of_seqZ 955 69 i) ltac:(lia)))).
  intros Hp. rewrite Hp in Hb. cbn [negb orb] in Hb. lia.
Qed.

Lemma user_mem_check_correct_witness :
  user_mem_check 0 0x200123 16 PTE_U small_env = Ret (- E_FAULT) (set_user_mem_check_addr 0x200123 small_env).
Proof.
  destruct (user_mem_check_correct small_env [5] {[3]} ∅ no_refs 0 small_environment 3 0x200123 16 PTE_U
    small_env_vm small_env_0 eq_refl ltac:(set_solver)) as [Hpa [[_ H]|(k & H1 & H2 & _ & _ & H)]];
    [discriminate|discriminate|discriminate|exact small_tables| |].
  - specialize (H 512 ltac:(lia) ltac:(lia)). rewrite Hpa in H by (vm_compute; congruence). discriminate H.
  - assert (k = 512) as -> by lia. exact H.
Defined.

Lemma user_mem_check_wraps_witness : user_mem_check 0 0x200000 0xfff00000 PTE_U small_env = Ret 0 small_env.
Proof. apply (user_mem_check_wraps small_env 0 0x200000 0xfff00000 PTE_U); unfold PGSIZE; lia. Defined.
