(* ===== verification/SyscallSpec.v ===== *)
(** * Properties of the system calls

    The handlers of kern/syscall.c as operations on the abstract address spaces
    and the table of environments: what each does on every branch, and that
    each keeps the kernel's invariant. *)
From S2P Require Import Prelude Mmu Mem Console Kstate Pmap PmapAlloc PmapSpace PmapMap PmapDir Env EnvSpec KernInv Sched SchedSpec Syscall.

(** ** Arguments *)

Lemma land_submask p m : p .& Z.lnot m = 0 -> p = p .& m.
Proof.
  intros H. apply Z.bits_inj_iff'. intros n Hn.
  assert (Hb : Z.testbit (p .& Z.lnot m) n = false) by (rewrite H; apply Z.bits_0).
  rewrite Z.land_spec, Z.lnot_spec in Hb by lia. rewrite Z.land_spec.
  destruct (Z.testbit p n), (Z.testbit m n); done.
Qed.

Lemma perm_ok perm :
  perm_bad perm = false ->
  0 <= perm < 4096 /\ perm = perm .& PTE_SYSCALL /\ perm .& (PTE_U .| PTE_P) = (PTE_U .| PTE_P).
Proof.
  unfold perm_bad. intros [H1 H2]%orb_false_iff.
  apply negb_false_iff, Z.eqb_eq in H1. apply negb_false_iff, Z.eqb_eq in H2.
  pose proof (land_submask _ _ H2) as Hs. split; [|done].
  rewrite Hs. change 4096 with (2 ^ 12). apply land_nonneg_range; [split; vm_compute; done|lia].
Qed.

Lemma va_ok va : 0 <= va -> va_bad va = false -> 0 <= va < UTOP /\ va mod 4096 = 0.
Proof.
  unfold va_bad. intros Hva [H1 H2]%orb_false_iff.
  apply negb_false_iff, Z.eqb_eq in H2. rewrite PGOFF_mod in H2.
  destruct (Z.geb_spec va UTOP); [done|]. lia.
Qed.

(** ** Naming an environment *)

Lemma may_use_live s l D M envid cp e :
  kinv s l D M -> may_use s envid cp e ->
  exists env d, envs s !! e = Some env /\ live env /\ d ∈ D /\ env_pgdir env = pgdir_kva d.
Proof.
  intros Hk Hm. assert (H : exists env, envs s !! e = Some env /\ live env).
  { unfold may_use in Hm. destruct (envid =? 0); [by apply (ki_cur _ _ _ _ Hk)|].
    destruct Hm as (_ & env & He & Hl & _). by exists env. }
  destruct H as (env & He & Hl). destruct (ki_dir _ _ _ _ Hk e env He Hl) as (d & ? & ?).
  by exists env, d.
Qed.

(** The two outcomes of [envid2env]. *)
Lemma resolve s l D M envid cp :
  kinv s l D M -> is_Some (curenv s) ->
  (exists e, may_use s envid cp e /\ envid2env envid cp s = Ret (0, Some e) s) \/
  ((forall e, ~ may_use s envid cp e) /\ envid2env envid cp s = Ret (- E_BAD_ENV, None) s).
Proof.
  intros Hk Hc.
  destruct (envid2env_ok s envid cp (ki_dom _ _ _ _ Hk) (kinv_curenv_ok _ _ _ _ Hk) Hc)
    as (r & [e|] & H & Hi & ->).
  - left. exists e. split; [by apply Hi|done].
  - right. split; [|done]. intros e He%Hi. done.
Qed.

Lemma may_use_det s envid cp e e' : may_use s envid cp e -> may_use s envid cp e' -> e = e'.
Proof.
  unfold may_use. destruct (envid =? 0); [intros -> [= ->]; done|]. by intros (-> & _) (-> & _).
Qed.

(** ** sys_page_alloc *)

(** The entry [page_insert] writes for page [pp]. *)
Definition pte_of (pp perm : Z) : Z := (page2pa pp .| perm) .| PTE_P.

Inductive page_alloc_result (s : kstate) (l : list Z) (D : gset Z) (M : aspace) (envid va perm : Z) :
    outcome Z -> Prop :=
| PaBadEnv : (forall e, ~ may_use s envid true e) ->
    page_alloc_result s l D M envid va perm (Ret (- E_BAD_ENV) s)
| PaInval e : may_use s envid true e -> va_bad va = true \/ perm_bad perm = true ->
    page_alloc_result s l D M envid va perm (Ret (- E_INVAL) s)
| PaNoPage e : may_use s envid true e -> va_bad va = false -> perm_bad perm = false -> l = [] ->
    page_alloc_result s l D M envid va perm (Ret (- E_NO_MEM) s)
| PaNoTable e env d n s' :
    may_use s envid true e -> envs s !! e = Some env -> env_pgdir env = pgdir_kva d ->
    va_bad va = false -> perm_bad perm = false -> l = [n] -> present (mem s) d (PDX va) = false ->
    kinv s' l D M -> vm_frame s s' ->
    page_alloc_result s l D M envid va perm (Ret (- E_NO_MEM) s')
| PaDone e env d n s' l' :
    may_use s envid true e -> envs s !! e = Some env -> env_pgdir env = pgdir_kva d ->
    va_bad va = false -> perm_bad perm = false -> head l = Some n ->
    kinv s' l' D (<[(d, va / 4096) := pte_of n ((PTE_U .| PTE_P) .| perm)]> M) -> vm_frame s s' -> data_frame s s' l D ->
    l' = freed_by (if present (mem s) d (PDX va) then tail l else tail (tail l)) M (d, va / 4096) n ->
    (forall j, 0 <= j < 1024 -> entry (mem s') n j = 0) ->
    page_alloc_result s l D M envid va perm (Ret 0 s').

Lemma perm_join perm : 0 <= perm < 4096 -> 0 <= (PTE_U .| PTE_P) .| perm < 4096.
Proof. intros H. change 4096 with (2 ^ 12). apply lor_range; [lia|vm_compute; done|zlia]. Qed.

(** The page just allocated goes back when it cannot be mapped. *)
Lemma give_back s l D M n :
  kinv s l D M -> insertable s l D M n -> mappings M n = 0 ->
  kern_pgdir s <> pgdir_kva n ->
  exists s', page_free n s = Ret tt s' /\ kinv s' (n :: l) D M /\ vm_frame s s'.
Proof.
  intros Hk (Hnl & HnD & Hr & Hnt) Hm Hkn. pose proof (ki_vm _ _ _ _ Hk) as Hvm.
  rewrite Hm in Hr. apply fmap_Some in Hr as (p & Hp & Hr).
  pose proof (ao_used _ _ (vo_alloc _ _ _ _ _ Hvm) _ _ Hp Hnl) as Hlink.
  exists (free_post n p s). split; [by apply page_free_eq|].
  assert (Hfr : vm_frame s (free_post n p s)).
  { exists (mem s), (Some n), (<[n := set_pp_link (page_free_list s) p]> (pages s)), (trace s). by destruct s. }
  split; [|done].
  pose proof (alloc_ok_free _ _ _ _ (vo_alloc _ _ _ _ _ Hvm) Hp (eq_sym Hr) Hnl) as Hok.
  assert (Href : forall k, pp_ref <$> pages (free_post n p s) !! k = pp_ref <$> pages s !! k).
  { intros k. simpl. rewrite lookup_insert. case_decide as E; [|done]. by rewrite <- E, Hp. }
  apply (kinv_frame s _ l _ D M); try done.
  - destruct Hvm as [_ Hmem Hdir Htab Hinj Hmap Hdom Hdata HX Hb Hself Hpde]. split; try done.
    + intros d Hd. rewrite Href. destruct (Hdir d Hd). split; [|done]. apply not_elem_of_cons. split; [congruence|done].
    + intros d i Hd Hi Hp'. cbv zeta. rewrite Href. destruct (Htab d i Hd Hi Hp') as (? & ? & ?).
      split; [|done]. apply not_elem_of_cons. split; [by apply Hnt|done].
    + intros k Hkk. rewrite Href. destruct (Hdata k Hkk) as (? & ? & ? & ?). split; [|done].
      apply not_elem_of_cons. split; [|done]. intros ->. unfold no_refs in Hkk. lia.
  - intros k Hkk (? & ? & ? & ?). assert (k <> n) by congruence.
    split; [done|]. split; [by apply not_elem_of_cons|]. done.
Qed.

(** page_alloc under the kernel's invariant. *)
Lemma kinv_alloc s l D M n flags :
  kinv s (n :: l) D M ->
  exists s', page_alloc flags s = Ret (Some n) s' /\ kinv s' l D M /\ envs s' = envs s /\
    insertable s' l D M n /\ mappings M n = 0 /\ kern_pgdir s' <> pgdir_kva n /\
    no_table s' D n /\ curenv s' = curenv s /\ vm_frame s s' /\ data_frame s s' (n :: l) D /\
    (forall d i, d ∈ D -> 0 <= i < 1024 -> entry (mem s') d i = entry (mem s) d i) /\
    (has flags ALLOC_ZERO = true -> forall i, 0 <= i < 1024 -> entry (mem s') n i = 0).
Proof.
  intros Hk. pose proof (ki_vm _ _ _ _ Hk) as Hvm.
  destruct (page_alloc_vm Hvm flags) as (s' & H & Hvm' & Hfr & Hnt & Hins & Hm & _ & Hz & Ho).
  destruct (vm_frame_curenv _ _ Hfr) as (Hcu & He & _).
  exists s'. split; [done|].
  assert (HoD : forall d i, d ∈ D -> 0 <= i < 1024 -> entry (mem s') d i = entry (mem s) d i).
  { intros d i Hd. apply Ho. intros ->. by destruct Hnt. }
  assert (Hdf : data_frame s s' (n :: l) D).
  { intros t [Htn Htl]%not_elem_of_cons [HtD Htt]. split; [split; [done|]|intros j; by apply Ho].
    intros d i Hd Hi. unfold present. rewrite HoD by (unfold NUPDE in Hi; done || lia). by apply Htt. }
  assert (Hkeep : forall k, kernel_page s (n :: l) D M k -> kernel_page s' l D M k /\ k <> n).
  { intros k (H0 & Hkl & Hkt & Hkm). destruct (Hdf k Hkl Hkt) as [Hkt' _].
    apply not_elem_of_cons in Hkl as [Hkn Hkl]. by repeat split; try apply Hkt'. }
  split; [|split; [done|split; [done|split; [done|split; [|done]]]]].
  - apply (kinv_frame s s' (n :: l) l D M M); try done. intros k _ Hkk. by apply Hkeep.
  - destruct (ki_kern _ _ _ _ Hk) as (k & Hkp & Hkk). destruct (Hkeep k Hkk) as [_ Hkn].
    destruct Hfr as (? & ? & ? & ? & ->). simpl. rewrite Hkp. intros E%pgdir_kva_inj. done.
Qed.

Lemma sys_page_alloc_ok s l D M envid va perm :
  kinv s l D M -> is_Some (curenv s) -> 0 <= va ->
  page_alloc_result s l D M envid va perm (sys_page_alloc envid va perm s).
Proof.
  intros Hk Hc Hva. unfold sys_page_alloc.
  destruct (resolve s l D M envid true Hk Hc) as [(e & Hm & H)|[Hm H]];
    rewrite (bind_ret _ _ _ _ _ H); cbv iota beta; [|by apply PaBadEnv].
  change (negb (0 =? 0)) with false. cbv iota.
  destruct (va_bad va) eqn:Hvb; [by eapply PaInval; [done|left]|].
  destruct (perm_bad perm) eqn:Hpb; [by eapply PaInval; [done|right]|].
  destruct (va_ok va Hva Hvb) as [Hva' _]. destruct (perm_ok perm Hpb) as [Hperm _].
  pose proof (perm_join perm Hperm) as Hperm'.
  destruct (may_use_live _ _ _ _ _ _ _ Hk Hm) as (env & d & He & Hl & Hd & Hpg).
  destruct l as [|n l].
  - rewrite (bind_ret _ _ _ _ _ (page_alloc_nil s _ (vo_alloc _ _ _ _ _ (ki_vm _ _ _ _ Hk)))).
    by eapply PaNoPage.
  - destruct (kinv_alloc s l D M n ALLOC_ZERO Hk) as (s1 & H1 & Hk1 & He1 & Hins & Hm0 & Hkn & Hnt & Hcu & Hfr1 & Hdf1 & HoD & Hz).
    assert (Hpr : present (mem s1) d (PDX va) = present (mem s) d (PDX va)).
    { unfold present. rewrite HoD; [done..|]. pose proof (vm_va_parts va Hva'). unfold NUPDE in *. lia. }
    rewrite (bind_ret _ _ _ _ _ H1). kpure.
    erewrite bind_ret by (apply get_env_eq; rewrite He1; exact He). rewrite Hpg.
    pose proof (kinv_insert s1 l D M d va n _ Hk1 Hd Hva' Hperm' Hins ltac:(lia) Hkn) as Hpi.
    cbv zeta in Hpi. destruct (negb _ && bool_decide _) eqn:Hno.
    + apply andb_true_iff in Hno as [Hno ->%bool_decide_eq_true]. apply negb_true_iff in Hno.
      rewrite (bind_ret _ _ _ _ _ Hpi). change (negb (- E_NO_MEM =? 0)) with true. cbv iota.
      destruct (give_back s1 [] D M n Hk1 Hins Hm0 Hkn) as (s2 & H2 & Hk2 & He2).
      rewrite (bind_ret _ _ _ _ _ H2). eapply PaNoTable; try done; [by rewrite <- Hpr|by etrans].
    + destruct Hpi as (s2 & l2 & H2 & Hk2 & He2 & _ & Hfr2 & Hdf & Hl2). rewrite (bind_ret _ _ _ _ _ H2).
      change (negb (0 =? 0)) with false. cbv iota. eapply PaDone; try done; [by etrans| |by rewrite <- Hpr|].
      { eapply data_frame_trans; [exact Hdf1|]. intros t [_ Ht]%not_elem_of_cons. by apply Hdf. }
      intros j Hj. destruct (Hdf n (proj1 Hins) Hnt) as [_ Heq]. rewrite Heq by done. by apply Hz.
Qed.

(** C17: sys_page_alloc maps a fresh page of zeroes at [va] in the address space
    of the environment named, and only there: the caller itself or one of its
    children.  A bad id, address or permission is refused with nothing changed;
    without memory nothing is mapped and the page taken goes back. *)
Theorem sys_page_alloc_correct s l D M envid va perm :
  kinv s l D M -> is_Some (curenv s) -> 0 <= va ->
  page_alloc_result s l D M envid va perm (sys_page_alloc envid va perm s).
Proof. apply sys_page_alloc_ok. Qed.

(** ** sys_page_map *)

Inductive page_map_result (s : kstate) (l : list Z) (D : gset Z) (M : aspace)
    (srcid srcva dstid dstva perm : Z) : outcome Z -> Prop :=
| PmBadEnv : (forall e, ~ may_use s srcid true e) \/ (forall e, ~ may_use s dstid true e) ->
    page_map_result s l D M srcid srcva dstid dstva perm (Ret (- E_BAD_ENV) s)
| PmInval e e' : may_use s srcid true e -> may_use s dstid true e' ->
    va_bad srcva = true \/ va_bad dstva = true \/ perm_bad perm = true ->
    page_map_result s l D M srcid srcva dstid dstva perm (Ret (- E_INVAL) s)
| PmUnmapped e env d :
    may_use s srcid true e -> envs s !! e = Some env -> env_pgdir env = pgdir_kva d ->
    M !! (d, srcva / 4096) = None ->
    page_map_result s l D M srcid srcva dstid dstva perm (Ret (- E_NO_MEM) s)
| PmReadOnly e env d pte :
    may_use s srcid true e -> envs s !! e = Some env -> env_pgdir env = pgdir_kva d ->
    M !! (d, srcva / 4096) = Some pte -> has perm PTE_W = true -> has pte PTE_W = false ->
    page_map_result s l D M srcid srcva dstid dstva perm (Ret (- E_INVAL) s)
| PmNoMem e env d :
    may_use s dstid true e -> envs s !! e = Some env -> env_pgdir env = pgdir_kva d ->
    present (mem s) d (PDX dstva) = false -> l = [] ->
    page_map_result s l D M srcid srcva dstid dstva perm (Ret (- E_NO_MEM) s)
| PmDone e env d e' env' d' pte s' l' :
    may_use s srcid true e -> envs s !! e = Some env -> env_pgdir env = pgdir_kva d ->
    may_use s dstid true e' -> envs s !! e' = Some env' -> env_pgdir env' = pgdir_kva d' ->
    va_bad srcva = false -> va_bad dstva = false -> perm_bad perm = false ->
    M !! (d, srcva / 4096) = Some pte -> (has perm PTE_W = true -> has pte PTE_W = true) ->
    kinv s' l' D (<[(d', dstva / 4096) := pte_of (frame_of pte) perm]> M) -> vm_frame s s' -> data_frame s s' l D ->
    l' = freed_by (if present (mem s) d' (PDX dstva) then l else tail l) M (d', dstva / 4096) (frame_of pte) ->
    page_map_result s l D M srcid srcva dstid dstva perm (Ret 0 s').

(** page_lookup under the kernel's invariant. *)
Lemma kinv_lookup s l D M d va :
  kinv s l D M -> d ∈ D -> 0 <= va < UTOP ->
  match M !! (d, va / 4096) with
  | None => page_lookup (pgdir_kva d) va s = Ret None s
  | Some e => exists p, page_lookup (pgdir_kva d) va s = Ret (Some (frame_of e, p)) s /\
      kload32 p s = Ret e s /\ insertable s l D M (frame_of e) /\ kern_pgdir s <> pgdir_kva (frame_of e)
  end.
Proof.
  intros Hk Hd Hva. pose proof (ki_vm _ _ _ _ Hk) as Hvm.
  destruct (M !! (d, va / 4096)) as [e|] eqn:He; [|by eapply page_lookup_none].
  destruct (mapped_present _ _ _ _ _ _ _ _ Hvm Hd Hva He) as (Hp & Hent & HP).
  destruct (vm_va_parts va Hva) as (Hi & Hj & _). pose proof (vm_tab_range Hvm _ _ Hd Hi Hp).
  eexists. split; [by eapply page_lookup_some|]. split; [by rewrite kload_entry, Hent by lia|].
  split; [by eapply mapped_insertable|].
  destruct (ki_kern _ _ _ _ Hk) as (k & -> & _ & _ & _ & Hm). intros ->%pgdir_kva_inj.
  pose proof (mappings_pos _ _ _ He). lia.
Qed.

Lemma sys_page_map_ok s l D M srcid srcva dstid dstva perm :
  kinv s l D M -> is_Some (curenv s) -> 0 <= srcva -> 0 <= dstva ->
  (forall k, mappings M k + 1 < 0x10000) ->
  page_map_result s l D M srcid srcva dstid dstva perm (sys_page_map srcid srcva dstid dstva perm s).
Proof.
  intros Hk Hc Hsva Hdva Hb. unfold sys_page_map.
  destruct (resolve s l D M srcid true Hk Hc) as [(e & Hm & H)|[Hm H]];
    rewrite (bind_ret _ _ _ _ _ H); cbv iota beta; [|by apply PmBadEnv; left].
  change (negb (0 =? 0)) with false. cbv iota.
  destruct (resolve s l D M dstid true Hk Hc) as [(e' & Hm' & H')|[Hm' H']];
    rewrite (bind_ret _ _ _ _ _ H'); cbv iota beta; [|by apply PmBadEnv; right].
  change (negb (0 =? 0)) with false. cbv iota.
  destruct (va_bad srcva) eqn:Hvs; [by eapply PmInval; [done|done|left]|].
  destruct (va_bad dstva) eqn:Hvd; [by eapply PmInval; [done|done|right; left]|].
  destruct (perm_bad perm) eqn:Hpb; [by eapply PmInval; [done|done|right; right]|].
  destruct (va_ok _ Hsva Hvs) as [Hs _]. destruct (va_ok _ Hdva Hvd) as [Hd _].
  destruct (perm_ok perm Hpb) as [Hperm _].
  destruct (may_use_live _ _ _ _ _ _ _ Hk Hm) as (env & d & He & _ & HdD & Hpg).
  destruct (may_use_live _ _ _ _ _ _ _ Hk Hm') as (env' & d' & He' & _ & HdD' & Hpg').
  kpure. erewrite bind_ret by (apply get_env_eq; exact He). rewrite Hpg.
  pose proof (kinv_lookup s l D M d srcva Hk HdD Hs) as Hlk.
  destruct (M !! (d, srcva / 4096)) as [pte|] eqn:HM.
  2: { rewrite (bind_ret _ _ _ _ _ Hlk). by eapply PmUnmapped. }
  destruct Hlk as (p & Hlk & Hld & Hins & Hkn). rewrite (bind_ret _ _ _ _ _ Hlk). cbv iota beta.
  rewrite (bind_ret _ _ _ _ _ Hld).
  destruct (has perm PTE_W && negb (has pte PTE_W)) eqn:Hw.
  { apply andb_true_iff in Hw as [Hw1 Hw2%negb_true_iff]. by eapply PmReadOnly. }
  assert (Hw' : has perm PTE_W = true -> has pte PTE_W = true).
  { intros E. rewrite E in Hw. by destruct (has pte PTE_W). }
  kpure. erewrite bind_ret by (apply get_env_eq; exact He'). rewrite Hpg'.
  pose proof (kinv_insert s l D M d' dstva (frame_of pte) perm Hk HdD' Hd Hperm Hins (Hb _) Hkn) as Hpi.
  cbv zeta in Hpi. destruct (negb _ && bool_decide _) eqn:Hno.
  - apply andb_true_iff in Hno as [Hno Hl%bool_decide_eq_true]. apply negb_true_iff in Hno.
    rewrite (bind_ret _ _ _ _ _ Hpi). change (- E_NO_MEM <? 0) with true. cbv iota. by eapply PmNoMem.
  - destruct Hpi as (s2 & l2 & H2 & Hk2 & He2 & _ & Hfr & Hdf & Hl). rewrite (bind_ret _ _ _ _ _ H2).
    change (0 <? 0) with false. cbv iota. by eapply PmDone.
Qed.

(** C16: sys_page_map maps the page found at [srcva] in one environment at
    [dstva] in another, both the caller or children of it, and never grants a
    write permission the source mapping does not have.  Every other branch
    fails and changes nothing.  (A source address that is not mapped gives
    -E_NO_MEM, where the comment in the source announces -E_INVAL.) *)
Theorem sys_page_map_correct s l D M srcid srcva dstid dstva perm :
  kinv s l D M -> is_Some (curenv s) -> 0 <= srcva -> 0 <= dstva ->
  (forall k, mappings M k + 1 < 0x10000) ->
  page_map_result s l D M srcid srcva dstid dstva perm (sys_page_map srcid srcva dstid dstva perm s).
Proof. apply sys_page_map_ok. Qed.

(** ** sys_page_unmap, sys_env_set_status, sys_env_set_pgfault_upcall *)

Lemma sys_page_unmap_ok s l D M envid va e env d :
  kinv s l D M -> is_Some (curenv s) -> 0 <= va -> may_use s envid true e -> va_bad va = false ->
  envs s !! e = Some env -> env_pgdir env = pgdir_kva d ->
  exists s' l', sys_page_unmap envid va s = Ret 0 s' /\ kinv s' l' D (delete (d, va / 4096) M) /\
    vm_frame s s' /\ data_frame s s' l D.
Proof.
  intros Hk Hc Hva Hm Hvb He Hpg. destruct (va_ok va Hva Hvb) as [Hva' _]. unfold sys_page_unmap.
  destruct (resolve s l D M envid true Hk Hc) as [(e' & Hm' & H)|[Hm' _]]; [|by destruct (Hm' e)].
  assert (e' = e) as -> by (by eapply may_use_det). rewrite (bind_ret _ _ _ _ _ H). cbv iota beta.
  change (negb (0 =? 0)) with false. cbv iota. rewrite Hvb.
  destruct (may_use_live _ _ _ _ _ _ _ Hk Hm) as (env' & d' & He' & _ & Hd & Hpg').
  rewrite He in He'. injection He' as <-. rewrite Hpg in Hpg'. apply pgdir_kva_inj in Hpg'. subst d'.
  destruct (kinv_remove s l D M d va Hk Hd Hva') as (s' & l' & Hr & Hk' & _ & _ & Hfr & Hdf).
  exists s', l'. kpure. erewrite bind_ret by (apply get_env_eq; exact He). rewrite Hpg.
  by rewrite (bind_ret _ _ _ _ _ Hr).
Qed.

(** Sys_page_unmap removes the mapping at [va] from the environment named,
    the caller or a child, or reports a bad id or address with nothing changed. *)
Theorem sys_page_unmap_correct s l D M envid va :
  kinv s l D M -> is_Some (curenv s) -> 0 <= va ->
  ((forall e, ~ may_use s envid true e) /\ sys_page_unmap envid va s = Ret (- E_BAD_ENV) s) \/
  (exists e, may_use s envid true e /\ va_bad va = true /\ sys_page_unmap envid va s = Ret (- E_INVAL) s) \/
  (exists e env d s' l', may_use s envid true e /\ va_bad va = false /\ envs s !! e = Some env /\
     env_pgdir env = pgdir_kva d /\ sys_page_unmap envid va s = Ret 0 s' /\
     kinv s' l' D (delete (d, va / 4096) M) /\ envs s' = envs s).
Proof.
  intros Hk Hc Hva. destruct (resolve s l D M envid true Hk Hc) as [(e & Hm & H)|[Hm H]].
  2: { left. split; [done|]. unfold sys_page_unmap. by rewrite (bind_ret _ _ _ _ _ H). }
  right. destruct (va_bad va) eqn:Hvb.
  - left. exists e. do 2 (split; [done|]). unfold sys_page_unmap. rewrite (bind_ret _ _ _ _ _ H). cbv iota beta.
    change (negb (0 =? 0)) with false. cbv iota. by rewrite Hvb.
  - right. destruct (may_use_live _ _ _ _ _ _ _ Hk Hm) as (env & d & He & _ & Hd & Hpg).
    destruct (sys_page_unmap_ok s l D M envid va e env d Hk Hc Hva Hm Hvb He Hpg) as (s' & l' & H' & Hk' & Hfr & _).
    exists e, env, d, s', l'. do 6 (split; [done|]). by destruct (vm_frame_curenv _ _ Hfr) as (_ & ? & _).
Qed.

(** Sys_env_set_status sets the status of the caller or of a child to
    RUNNABLE or NOT_RUNNABLE, whatever its status is (RUNNING on another CPU
    and DYING included), and refuses every other status and environment. *)
Theorem sys_env_set_status_correct s l D M envid status :
  kinv s l D M -> is_Some (curenv s) ->
  ((forall e, ~ may_use s envid true e) /\ sys_env_set_status envid status s = Ret (- E_BAD_ENV) s) \/
  (exists e, may_use s envid true e /\ status <> ENV_RUNNABLE /\ status <> ENV_NOT_RUNNABLE /\
     sys_env_set_status envid status s = Ret (- E_INVAL) s) \/
  (exists e env, may_use s envid true e /\ (status = ENV_RUNNABLE \/ status = ENV_NOT_RUNNABLE) /\
     envs s !! e = Some env /\
     let s' := set_envs (<[e := set_env_status status env]> (envs s)) s in
     sys_env_set_status envid status s = Ret 0 s' /\ kinv s' l D M).
Proof.
  intros Hk Hc. unfold sys_env_set_status.
  destruct (resolve s l D M envid true Hk Hc) as [(e & Hm & H)|[Hm H]];
    rewrite (bind_ret _ _ _ _ _ H); cbv iota beta; [|by left].
  change (negb (0 =? 0)) with false. cbv iota. right.
  destruct (Z.eqb_spec status ENV_RUNNABLE) as [Hs|Hs], (Z.eqb_spec status ENV_NOT_RUNNABLE) as [Hs'|Hs'];
    cbn [negb andb]; cbv iota; [| | |left; by exists e]; right.
  all: destruct (may_use_live _ _ _ _ _ _ _ Hk Hm) as (env & d & He & Hl & _); exists e, env;
    split; [done|]; split; [auto|]; split; [done|]; cbv zeta; kpure;
    erewrite bind_ret by (by apply upd_env_eq); split; [done|]; eapply kinv_upd_env; eauto; subst; done.
Qed.

(** Sys_env_set_pgfault_upcall sets the upcall of the caller or of a child; the
    address is not looked at. *)
Lemma sys_env_set_pgfault_upcall_ok s l D M envid func e env :
  kinv s l D M -> is_Some (curenv s) -> may_use s envid true e -> envs s !! e = Some env ->
  let s' := set_envs (<[e := set_env_pgfault_upcall func env]> (envs s)) s in
  sys_env_set_pgfault_upcall envid func s = Ret 0 s' /\ kinv s' l D M.
Proof.
  intros Hk Hc Hm He s'. unfold sys_env_set_pgfault_upcall.
  destruct (resolve s l D M envid true Hk Hc) as [(e' & Hm' & H)|[Hm' _]]; [|by destruct (Hm' e)].
  assert (e' = e) as -> by (by eapply may_use_det). rewrite (bind_ret _ _ _ _ _ H). cbv iota beta.
  change (negb (0 =? 0)) with false. cbv iota. kpure. erewrite bind_ret by (by apply upd_env_eq).
  split; [done|]. destruct (may_use_live _ _ _ _ _ _ _ Hk Hm) as (env' & d & He' & Hl & _).
  rewrite He in He'. injection He' as <-. by eapply kinv_upd_env.
Qed.

(** ** sys_exofork *)

(** The child: a fresh environment, not runnable, with the parent's registers
    and 0 as the result of the call. *)
Definition fork_from (cenv new : Env) : Env :=
  let tf := env_tf cenv in
  set_env_tf (set_tf_regs (set_reg_eax 0 (tf_regs tf)) tf) (set_env_status ENV_NOT_RUNNABLE new).
Definition fork_child (cid e n : Z) (env cenv : Env) : Env := fork_from cenv (fresh_env cid e n env).

(** The three assignments to the child, one after the other. *)
Lemma fork_updates s e c f cenv :
  envs s !! e = Some f -> envs s !! c = Some cenv -> e <> c ->
  (upd_env e (set_env_status ENV_NOT_RUNNABLE) ;;
   cenv <- get_env c ;;
   upd_env e (set_env_tf (env_tf cenv)) ;;
   upd_env e (fun e => set_env_tf (set_tf_regs (set_reg_eax 0 (tf_regs (env_tf e))) (env_tf e)) e) ;;
   nenv <- get_env e ;; ret (env_id nenv)) s =
  Ret (env_id f) (set_envs (<[e := fork_from cenv f]> (envs s)) s).
Proof.
  intros He Hc Hne. erewrite bind_ret by (apply upd_env_eq; exact He). set (s2 := set_envs _ s).
  erewrite bind_ret by (apply get_env_eq; simpl; rewrite lookup_insert_ne by done; exact Hc).
  erewrite bind_ret by (apply upd_env_eq; apply lookup_insert_eq).
  erewrite bind_ret by (apply upd_env_eq; apply lookup_insert_eq).
  erewrite bind_ret by (apply get_env_eq; apply lookup_insert_eq).
  unfold ret. f_equal. subst s2. simpl. rewrite !insert_insert_eq. by destruct s, f.
Qed.

Lemma fork_from_status cenv f : env_status (fork_from cenv f) = ENV_NOT_RUNNABLE.
Proof. by destruct f. Qed.
Lemma fork_from_pgdir cenv f : env_pgdir (fork_from cenv f) = env_pgdir f.
Proof. by destruct f. Qed.

Lemma sys_exofork_ok s l D M c cenv :
  kinv s l D M -> curenv s = Some c -> envs s !! c = Some cenv ->
  match env_free_list s, l with
  | None, _ => sys_exofork s = Ret (- E_NO_FREE_ENV) s
  | Some e, [] => sys_exofork s = Ret (- E_NO_MEM) s
  | Some e, n :: l' => exists s' env, envs s !! e = Some env /\ e <> c /\
      sys_exofork s = Ret (next_env_id (env_id env) e) s' /\ kinv s' l' ({[n]} ∪ D) M /\
      envs s' = <[e := fork_child (env_id cenv) e n env cenv]> (envs s) /\ same_cpu s s' /\ n ∉ D /\
      (forall t j, t <> n -> 0 <= j < 1024 -> entry (mem s') t j = entry (mem s) t j)
  end.
Proof.
  intros Hk Hc Hce. unfold sys_exofork, sys_getenvid, curenv_deref.
  assert (Hid : (c <- (fun s => liftopt (curenv s) s) ;; e <- get_env c ;; ret (env_id e)) s = Ret (env_id cenv) s).
  { unfold bind at 1. rewrite Hc. simpl. by erewrite bind_ret by (by apply get_env_eq). }
  rewrite (bind_ret _ _ _ _ _ Hid).
  destruct (env_free_list s) as [e|] eqn:Hfl.
  2: { unfold env_alloc. kpure. by rewrite Hfl. }
  destruct l as [|n l].
  - pose proof Hk as [Hvm Hdom Hcur Hdir Hown (fl & Hnd & Hel) (k & Hkp & Hk0 & Hkl & _)].
    pose proof (env_alloc_ok s [] D M no_refs (env_id cenv) k Hvm (kinv_curenv_ok _ _ _ _ Hk) Hkp Hk0 Hkl) as H.
    rewrite Hfl in H. rewrite (bind_ret _ _ _ _ _ (H ltac:(intros ? [= <-]; destruct fl; [by rewrite Hfl in Hel|];
      destruct Hel as (He & env & Henv & _); rewrite Hfl in He; injection He as ->; by eexists))). done.
  - destruct (kinv_env_alloc s n l D M (env_id cenv) e Hk Hfl) as (s1 & env & He & Hst & H1 & Hk1 & Hn & Hev & Hc1 & Hcpu & Ho).
    rewrite (bind_ret _ _ _ _ _ H1). cbv iota beta. change (0 <? 0) with false. cbv iota. kpure.
    destruct (ki_cur _ _ _ _ Hk c Hc) as (ce & Hce' & Hlc). rewrite Hce in Hce'. injection Hce' as <-.
    assert (Hec : e <> c) by (intros ->; rewrite He in Hce; injection Hce as <-; done).
    unfold bind at 1. rewrite Hc1, Hc. cbn [liftopt].
    set (f := fresh_env (env_id cenv) e n env) in *.
    assert (He1 : envs s1 !! e = Some f) by (rewrite Hev; apply lookup_insert_eq).
    assert (Hc2 : envs s1 !! c = Some cenv) by (rewrite Hev, lookup_insert_ne; done).
    change (ret ?a s1) with (Ret a s1). cbv iota beta.
    rewrite (fork_updates s1 e c f cenv He1 Hc2 Hec).
    assert (Hlf : live f /\ env_id f = next_env_id (env_id env) e) by done. destruct Hlf as [Hlf Hidf].
    assert (Hfk : fork_child (env_id cenv) e n env cenv = fork_from cenv f) by done. clearbody f.
    exists (set_envs (<[e := fork_from cenv f]> (envs s1)) s1), env.
    split; [done|]. split; [done|]. split; [by rewrite Hidf|]. split.
    + apply (kinv_upd_env s1 l _ M e f); [done|done|done| |apply fork_from_pgdir].
      unfold live. by rewrite fork_from_status.
    + split; [|done]. simpl. rewrite Hfk, Hev. apply insert_insert_eq.
Qed.

(** C19: sys_exofork makes a child with an empty address space that will see its
    parent's registers but for a result of 0, leaves it NOT_RUNNABLE, and
    returns the child's id to the parent; without a free environment or page it
    fails and changes nothing. *)
Theorem sys_exofork_correct s l D M c cenv :
  kinv s l D M -> curenv s = Some c -> envs s !! c = Some cenv ->
  match env_free_list s, l with
  | None, _ => sys_exofork s = Ret (- E_NO_FREE_ENV) s
  | Some e, [] => sys_exofork s = Ret (- E_NO_MEM) s
  | Some e, n :: l' => exists s' env, envs s !! e = Some env /\ e <> c /\
      sys_exofork s = Ret (next_env_id (env_id env) e) s' /\ kinv s' l' ({[n]} ∪ D) M /\
      envs s' = <[e := fork_child (env_id cenv) e n env cenv]> (envs s)
  end.
Proof.
  intros Hk Hc He. pose proof (sys_exofork_ok s l D M c cenv Hk Hc He) as H.
  destruct (env_free_list s) as [e|]; [|done]. destruct l as [|n l]; [done|]. naive_solver.
Qed.

(** ** A concrete state *)

Definition one_env (s : kstate) : kstate := with_envs (<[0 := small_environment]> zero_envs) (Some 0) (Some 1) (pgdir_kva 6) s.

Lemma one_env_kinv s l :
  vm_ok s l {[3]} ∅ no_refs -> 6 ∉ l -> no_table s {[3]} 6 -> kinv (one_env s) l {[3]} ∅.
Proof.
  intros Hvm H6 Hnt. assert (Hcur : curenv (one_env s) = Some 0) by apply curenv_set_cpu_env.
  assert (Hlk : forall i, envs (one_env s) !! i = envs small_env !! i) by done.
  assert (H0 : forall i e, envs (one_env s) !! i = Some e -> live e -> i = 0 /\ e = small_environment).
  { intros i e Hi Hl. rewrite Hlk in Hi. assert (Hr : 0 <= i < NENV) by (apply small_env_dom; by eexists).
    rewrite small_env_lookup in Hi by done. case_decide; [by injection Hi as <-|].
    injection Hi as <-. by destruct Hl. }
  split.
  - by apply with_envs_vm.
  - exact small_env_dom.
  - intros c Hc. rewrite Hcur in Hc. injection Hc as <-. by exists small_environment.
  - intros i e Hi Hl. destruct (H0 i e Hi Hl) as [-> ->]. exists 3. split; [set_solver|done].
  - intros i j e e' Hi Hj Hl Hl' _. by destruct (H0 i e Hi Hl) as [-> _], (H0 j e' Hj Hl') as [-> _].
  - exists [1]. split; [apply NoDup_singleton|]. split; [done|]. exists env_zero. split; [apply small_env_1|done].
  - exists 6. split; [done|]. split; [done|]. split; [done|]. split; [|done].
    destruct Hnt as [? Hnt]. split; [done|]. intros d i. unfold present, one_env. rewrite with_envs_mem. apply Hnt.
Qed.

Lemma small_kinv : kinv small_env [5] {[3]} ∅.
Proof.
  apply (one_env_kinv small_vm); [exact small_vm_ok|by intros ?%list_elem_of_singleton|by apply small_no_table].
Qed.

Lemma small_self : may_use small_env 0 true 0.
Proof. apply small_env_cur. Qed.

Lemma sys_page_alloc_correct_witness :
  page_alloc_result small_env [5] {[3]} ∅ 0 0x200000 PTE_SYSCALL
    (sys_page_alloc 0 0x200000 PTE_SYSCALL small_env).
Proof.
  apply (sys_page_alloc_correct small_env [5] {[3]} ∅ 0 0x200000 PTE_SYSCALL small_kinv);
    [rewrite small_env_cur; by eexists | discriminate].
Defined.

Lemma sys_page_map_correct_witness :
  page_map_result small_env [5] {[3]} ∅ 0 0x200000 0 0x300000 (PTE_P .| PTE_U)
    (sys_page_map 0 0x200000 0 0x300000 (PTE_P .| PTE_U) small_env).
Proof.
  apply (sys_page_map_correct small_env [5] {[3]} ∅ 0 0x200000 0 0x300000 (PTE_P .| PTE_U) small_kinv);
    [rewrite small_env_cur; by eexists | discriminate | discriminate | done].
Defined.

Lemma sys_page_unmap_correct_witness :
  exists s' l', sys_page_unmap 0 0x200000 small_env = Ret 0 s' /\ kinv s' l' {[3]} (delete (3, 512) ∅).
Proof.
  destruct (sys_page_unmap_correct small_env [5] {[3]} ∅ 0 0x200000 small_kinv)
    as [[H _]|[(e & _ & H & _)|(e & env & d & s' & l' & H & _ & He & Hd & Hr & Hk & _)]];
    [rewrite small_env_cur; by eexists | discriminate | by destruct (H 0 small_self) | discriminate |].
  rewrite (may_use_det _ _ _ _ _ H small_self), small_env_0 in He. injection He as <-.
  apply pgdir_kva_inj in Hd. subst d. exists s', l'. exact (conj Hr Hk).
Defined.

Lemma sys_env_set_status_correct_witness :
  exists s', sys_env_set_status 0 ENV_RUNNABLE small_env = Ret 0 s' /\ kinv s' [5] {[3]} ∅.
Proof.
  destruct (sys_env_set_status_correct small_env [5] {[3]} ∅ 0 ENV_RUNNABLE small_kinv)
    as [[H _]|[(e & _ & H & _)|(e & env & _ & _ & _ & H)]];
    [rewrite small_env_cur; by eexists | by destruct (H 0 small_self) | by destruct H |].
  eexists. exact H.
Defined.

Lemma sys_exofork_correct_witness :
  exists s', sys_exofork small_env = Ret 0x1001 s' /\ kinv s' [] ({[5]} ∪ {[3]}) ∅.
Proof.
  destruct (sys_exofork_correct small_env [5] {[3]} ∅ 0 small_environment small_kinv small_env_cur small_env_0)
    as (s' & env & He & _ & H & Hk & _).
  rewrite small_env_1 in He. injection He as <-. exists s'. exact (conj H Hk).
Defined.
