(* ===== verification/IpcSpec.v ===== *)
(** * Properties of the inter-process communication

    sys_ipc_try_send and sys_ipc_recv (kern/syscall.c): every branch of a send
    as a transition on the abstract address spaces and the table of
    environments, and the two calls together. *)
From S2P Require Import Prelude Mmu Mem Console Kstate Pmap PmapAlloc PmapSpace PmapMap PmapDir Env EnvSpec KernInv Sched SchedSpec Syscall SyscallSpec.

(** The receiver after a send: it has the value and the sender's id, and its
    own system call is over, with result 0. *)
Definition delivered (value cid : Z) (env : Env) : Env :=
  set_env_status ENV_RUNNABLE
    (set_env_tf (set_tf_regs (set_reg_eax 0 (tf_regs (env_tf env))) (env_tf env))
    (set_env_ipc_value value (set_env_ipc_from cid (set_env_ipc_recving false env)))).

(** The environment that waits for a page at [dstva]. *)
Definition waiting (dstva : Z) (env : Env) : Env :=
  set_env_status ENV_NOT_RUNNABLE (set_env_ipc_dstva dstva (set_env_ipc_recving true env)).

Definition set_env_at (e : Z) (env : Env) (s : kstate) : kstate := set_envs (<[e := env]> (envs s)) s.

Lemma set_env_at_twice e x y s : set_env_at e y (set_env_at e x s) = set_env_at e y s.
Proof. unfold set_env_at. simpl. by rewrite insert_insert_eq. Qed.

Lemma curenv_set_env_at e env s : curenv (set_env_at e env s) = curenv s.
Proof. done. Qed.

(** A change of fields that are not the directory, the id or the status. *)
Lemma kinv_set_env s l D M e env env' :
  kinv s l D M -> envs s !! e = Some env -> live env -> live env' -> env_pgdir env' = env_pgdir env ->
  kinv (set_env_at e env' s) l D M.
Proof. apply kinv_upd_env. Qed.

(** The last steps of a send, from [env] to what the receiver is. *)
Lemma ipc_deliver_ok s c cenv e env value :
  curenv s = Some c -> envs s !! c = Some cenv -> envs s !! e = Some env ->
  ipc_deliver e value s = Ret 0 (set_env_at e (delivered value (env_id cenv) env) s).
Proof.
  intros Hc Hcenv He. unfold ipc_deliver, sys_getenvid, curenv_deref. kpure.
  unfold bind at 1. rewrite Hc. simpl liftopt. cbv [ret]. kpure.
  erewrite bind_ret by (by apply get_env_eq). kpure. by erewrite bind_ret by (by apply upd_env_eq).
Qed.

(** What a send may do, in the state [s] with address spaces [M]. *)
Inductive ipc_send_result (s : kstate) (l : list Z) (D : gset Z) (M : aspace)
    (envid value srcva perm : Z) : outcome Z -> Prop :=
| IsBadEnv : (forall e, ~ may_use s envid false e) ->
    ipc_send_result s l D M envid value srcva perm (Ret (- E_BAD_ENV) s)
| IsNotRecv e env : may_use s envid false e -> envs s !! e = Some env -> env_ipc_recving env = false ->
    ipc_send_result s l D M envid value srcva perm (Ret (- E_IPC_NOT_RECV) s)
| IsInval e env : may_use s envid false e -> envs s !! e = Some env -> env_ipc_recving env = true ->
    srcva < UTOP -> va_bad srcva = true \/ perm_bad perm = true ->
    ipc_send_result s l D M envid value srcva perm (Ret (- E_INVAL) s)
| IsUnmapped e env c cenv d : may_use s envid false e -> envs s !! e = Some env -> env_ipc_recving env = true ->
    curenv s = Some c -> envs s !! c = Some cenv -> env_pgdir cenv = pgdir_kva d ->
    srcva < UTOP -> va_bad srcva = false -> perm_bad perm = false -> M !! (d, srcva / 4096) = None ->
    ipc_send_result s l D M envid value srcva perm (Ret (- E_INVAL) s)
| IsReadOnly e env c cenv d pte : may_use s envid false e -> envs s !! e = Some env -> env_ipc_recving env = true ->
    curenv s = Some c -> envs s !! c = Some cenv -> env_pgdir cenv = pgdir_kva d ->
    srcva < UTOP -> va_bad srcva = false -> perm_bad perm = false -> M !! (d, srcva / 4096) = Some pte -> has perm PTE_W = true -> has pte PTE_W = false ->
    ipc_send_result s l D M envid value srcva perm (Ret (- E_INVAL) s)
| IsNoMem e env d' : may_use s envid false e -> envs s !! e = Some env -> env_ipc_recving env = true ->
    srcva < UTOP -> env_pgdir env = pgdir_kva d' -> env_ipc_dstva env < UTOP -> present (mem s) d' (PDX (env_ipc_dstva env)) = false ->
    l = [] -> kinv (set_env_at e (set_env_ipc_perm perm env) s) l D M ->
    ipc_send_result s l D M envid value srcva perm (Ret (- E_NO_MEM) (set_env_at e (set_env_ipc_perm perm env) s))
| IsValue e env c cenv s' : may_use s envid false e -> envs s !! e = Some env -> env_ipc_recving env = true ->
    curenv s = Some c -> envs s !! c = Some cenv -> UTOP <= srcva ->
    s' = set_env_at e (delivered value (env_id cenv) (set_env_ipc_perm 0 env)) s -> kinv s' l D M ->
    ipc_send_result s l D M envid value srcva perm (Ret 0 s')
| IsUnwanted e env c cenv d pte s' : may_use s envid false e -> envs s !! e = Some env -> env_ipc_recving env = true ->
    curenv s = Some c -> envs s !! c = Some cenv -> env_pgdir cenv = pgdir_kva d ->
    srcva < UTOP -> va_bad srcva = false -> perm_bad perm = false -> M !! (d, srcva / 4096) = Some pte ->
    (has perm PTE_W = true -> has pte PTE_W = true) -> UTOP <= env_ipc_dstva env ->
    s' = set_env_at e (delivered value (env_id cenv) env) s -> kinv s' l D M ->
    ipc_send_result s l D M envid value srcva perm (Ret 0 s')
| IsPage e env c cenv d d' pte s' l' : may_use s envid false e -> envs s !! e = Some env -> env_ipc_recving env = true ->
    curenv s = Some c -> envs s !! c = Some cenv -> env_pgdir cenv = pgdir_kva d -> env_pgdir env = pgdir_kva d' ->
    va_bad srcva = false -> perm_bad perm = false -> env_ipc_dstva env < UTOP ->
    srcva < UTOP -> M !! (d, srcva / 4096) = Some pte -> (has perm PTE_W = true -> has pte PTE_W = true) ->
    (present (mem s) d' (PDX (env_ipc_dstva env)) = false -> l <> []) ->
    kinv s' l' D (<[(d', env_ipc_dstva env / 4096) := pte_of (frame_of pte) perm]> M) ->
    envs s' = <[e := delivered value (env_id cenv) (set_env_ipc_perm perm env)]> (envs s) ->
    same_cpu s s' -> data_frame s s' l D ->
    ipc_send_result s l D M envid value srcva perm (Ret 0 s').

Section send.
Context (s : kstate) (l : list Z) (D : gset Z) (M : aspace) (envid value srcva perm : Z).
Context (Hk : kinv s l D M) (Hva : 0 <= srcva) (Hb : forall k, mappings M k + 1 < 0x10000).
Context (c : Z) (cenv : Env) (Hc : curenv s = Some c) (Hcenv : envs s !! c = Some cenv).
Context (e : Z) (env : Env) (Hm : may_use s envid false e) (He : envs s !! e = Some env).
Context (Hrecv : env_ipc_recving env = true) (Hdst : 0 <= env_ipc_dstva env).

(** The sender's entry after a change of [perm] in the receiver's. *)
Lemma sender_after p s1 :
  envs s1 = <[e := set_env_ipc_perm p env]> (envs s) -> curenv s1 = curenv s ->
  exists cenv1, envs s1 !! c = Some cenv1 /\ env_id cenv1 = env_id cenv.
Proof.
  intros H _. rewrite H, lookup_insert. case_decide as E; [|by exists cenv].
  subst c. rewrite He in Hcenv. injection Hcenv as <-. by eexists.
Qed.

Lemma send_value :
  UTOP <= srcva ->
  ipc_send_result s l D M envid value srcva perm
    ((upd_env e (set_env_ipc_perm 0) ;; ipc_deliver e value) s).
Proof.
  intros Hs. destruct (may_use_live _ _ _ _ _ _ _ Hk Hm) as (env0 & d & He0 & Hl & _ & _).
  rewrite He in He0. injection He0 as <-.
  erewrite bind_ret by (by apply upd_env_eq). fold (set_env_at e (set_env_ipc_perm 0 env) s).
  destruct (sender_after 0 (set_env_at e (set_env_ipc_perm 0 env) s) eq_refl eq_refl) as (cenv1 & H1 & Hid).
  rewrite (ipc_deliver_ok _ c cenv1 e (set_env_ipc_perm 0 env)); [|done|done|simpl; by rewrite lookup_insert_eq].
  rewrite set_env_at_twice, Hid. eapply IsValue; try done. by eapply kinv_set_env.
Qed.

(** The page goes with the value. *)
Lemma send_page_ok pte d d' s1 l1 :
  srcva < UTOP -> va_bad srcva = false -> perm_bad perm = false -> env_ipc_dstva env < UTOP ->
  env_pgdir cenv = pgdir_kva d -> env_pgdir env = pgdir_kva d' ->
  M !! (d, srcva / 4096) = Some pte -> (has perm PTE_W = true -> has pte PTE_W = true) ->
  (present (mem s) d' (PDX (env_ipc_dstva env)) = false -> l <> []) ->
  kinv s1 l1 D (<[(d', env_ipc_dstva env / 4096) := pte_of (frame_of pte) perm]> M) ->
  envs s1 = envs s -> curenv s1 = curenv s -> same_cpu s s1 -> data_frame s s1 l D ->
  ipc_send_result s l D M envid value srcva perm
    ((upd_env e (set_env_ipc_perm perm) ;; ipc_deliver e value) s1).
Proof.
  intros Hs Hvb Hpb Hd Hpg Hpg' HM HW Hroom Hk1 He1 Hc1 Hcpu1 Hdf1.
  destruct (may_use_live _ _ _ _ _ _ _ Hk Hm) as (env0 & d0 & He0 & Hl & _ & _).
  rewrite He in He0. injection He0 as <-.
  erewrite bind_ret by (apply upd_env_eq; rewrite He1; exact He).
  fold (set_env_at e (set_env_ipc_perm perm env) s1). set (s2 := set_env_at e (set_env_ipc_perm perm env) s1).
  destruct (sender_after perm s2) as (cenv1 & H1 & Hid); [unfold s2, set_env_at; simpl; by rewrite He1|done|].
  rewrite (ipc_deliver_ok s2 c cenv1 e (set_env_ipc_perm perm env));
    [|by unfold s2; rewrite <- Hc, <- Hc1|done|unfold s2; simpl; by rewrite lookup_insert_eq].
  unfold s2. rewrite set_env_at_twice, Hid. eapply IsPage; try done.
  - eapply kinv_set_env; [exact Hk1|rewrite He1; exact He|done..].
  - simpl. by rewrite He1.
Qed.
End send.

Lemma srcva_bad srcva : srcva < UTOP -> PGOFF srcva <> 0 -> va_bad srcva = true.
Proof. intros _ H. unfold va_bad. apply Z.eqb_neq in H. rewrite H. apply orb_true_r. Qed.

Lemma sys_ipc_try_send_ok s l D M envid value srcva perm :
  kinv s l D M -> is_Some (curenv s) -> 0 <= srcva ->
  (forall k, mappings M k + 1 < 0x10000) ->
  (forall i env, envs s !! i = Some env -> 0 <= env_ipc_dstva env) ->
  ipc_send_result s l D M envid value srcva perm (sys_ipc_try_send envid value srcva perm s).
Proof.
  intros Hk Hcur Hva Hb Hdst. pose proof Hcur as [c Hc].
  destruct (ki_cur _ _ _ _ Hk c Hc) as (cenv & Hcenv & Hcl). unfold sys_ipc_try_send.
  destruct (resolve s l D M envid false Hk Hcur) as [(e & Hm & H)|[Hm H]];
    rewrite (bind_ret _ _ _ _ _ H); cbv iota beta; [|by apply IsBadEnv].
  change (0 <? 0) with false. cbv iota. kpure.
  destruct (may_use_live _ _ _ _ _ _ _ Hk Hm) as (env & d' & He & Hl & HdD' & Hpg').
  erewrite bind_ret by (apply get_env_eq; exact He). pose proof (Hdst e env He) as Hde.
  destruct (env_ipc_recving env) eqn:Hrv; [|by eapply IsNotRecv]. cbn [negb]. cbv iota.
  destruct (Z.ltb_spec srcva UTOP) as [Hs|Hs]; [|by eapply send_value].
  unfold ipc_send_page. rewrite bind_if.
  destruct (Z.eqb_spec (PGOFF srcva) 0) as [Hoff|Hoff]; cbn [negb]; cbv iota.
  2: { kpure. eapply IsInval; try done. left. by apply srcva_bad. }
  assert (Hvb : va_bad srcva = false).
  { unfold va_bad. destruct (Z.geb_spec srcva UTOP); [lia|]. by rewrite Hoff. }
  rewrite bind_if. destruct (perm_bad perm) eqn:Hpb; [kpure; eapply IsInval; try done; by right|].
  unfold curenv_deref. kpure. unfold bind at 1. rewrite Hc. simpl liftopt. cbv [ret]. kpure.
  erewrite bind_ret by (apply get_env_eq; exact Hcenv). kpure.
  destruct (ki_dir _ _ _ _ Hk c cenv Hcenv Hcl) as (d & HdD & Hpg). rewrite Hpg.
  pose proof (kinv_lookup s l D M d srcva Hk HdD ltac:(lia)) as Hlk.
  destruct (M !! (d, srcva / 4096)) as [pte|] eqn:HM.
  2: { rewrite (bind_ret _ _ _ _ _ Hlk). kpure. by eapply IsUnmapped. }
  destruct Hlk as (p & Hlk & Hld & Hins & Hkn). rewrite (bind_ret _ _ _ _ _ Hlk). cbv iota beta. kpure.
  rewrite (bind_ret _ _ _ _ _ Hld). rewrite bind_if.
  destruct (negb (has pte PTE_W) && has perm PTE_W) eqn:Hw.
  { apply andb_true_iff in Hw as [Hw1%negb_true_iff Hw2]. kpure. by eapply IsReadOnly. }
  assert (Hw' : has perm PTE_W = true -> has pte PTE_W = true).
  { intros E. rewrite E, andb_true_r in Hw. by apply negb_false_iff in Hw. }
  kpure. erewrite bind_ret by (apply get_env_eq; exact He). rewrite bind_if.
  destruct (Z.ltb_spec (env_ipc_dstva env) UTOP) as [Hd|Hd].
  2: { kpure. change (0 <? 0) with false. cbv iota. rewrite (ipc_deliver_ok s c cenv e env) by done.
       eapply IsUnwanted; try done. by eapply kinv_set_env. }
  kpure. rewrite Hpg'. destruct (perm_ok perm Hpb) as [Hperm _].
  pose proof (kinv_insert s l D M d' (env_ipc_dstva env) (frame_of pte) perm Hk HdD' ltac:(lia) Hperm Hins (Hb _) Hkn) as Hpi.
  cbv zeta in Hpi. destruct (negb _ && bool_decide _) eqn:Hno.
  - apply andb_true_iff in Hno as [Hno Hle%bool_decide_eq_true]. apply negb_true_iff in Hno.
    rewrite (bind_ret _ _ _ _ _ Hpi). kpure. erewrite bind_ret by (by apply upd_env_eq).
    change (- E_NO_MEM <? 0) with true. cbv iota. kpure. change (- E_NO_MEM <? 0) with true. cbv iota.
    eapply (IsNoMem _ _ _ _ _ _ _ _ e env d'); try done. by eapply kinv_set_env.
  - assert (Hroom : present (mem s) d' (PDX (env_ipc_dstva env)) = false -> l <> []).
    { intros Ep El. by rewrite Ep, bool_decide_true in Hno by done. }
    destruct Hpi as (s2 & l2 & H2 & Hk2 & He2 & Hc2 & Hfr2 & Hdf2 & _). rewrite (bind_ret _ _ _ _ _ H2). kpure.
    erewrite bind_ret by (apply upd_env_eq; rewrite He2; exact He).
    change (0 <? 0) with false. cbv iota. kpure. change (0 <? 0) with false. cbv iota.
    pose proof (send_page_ok s l D M envid value srcva perm Hk c cenv Hc Hcenv e env Hm He Hrv
      pte d d' s2 l2 Hs Hvb Hpb Hd Hpg Hpg' HM Hw' Hroom Hk2 He2 Hc2 (vm_frame_same_cpu _ _ Hfr2) Hdf2) as Hsend.
    by erewrite bind_ret in Hsend by (apply upd_env_eq; rewrite He2; exact He).
Qed.

(** C21: a send delivers the value, and the page if both sides want one, exactly
    when the target waits in a receive and the arguments are good; it never gives
    a write permission the sender lacks.  On an error nothing changes, except that
    the receiver's [env_ipc_perm] is already set when its page table cannot be
    allocated; when the receiver wants no page, [env_ipc_perm] keeps its old value. *)
Theorem sys_ipc_try_send_correct s l D M envid value srcva perm :
  kinv s l D M -> is_Some (curenv s) -> 0 <= srcva ->
  (forall k, mappings M k + 1 < 0x10000) ->
  (forall i env, envs s !! i = Some env -> 0 <= env_ipc_dstva env) ->
  ipc_send_result s l D M envid value srcva perm (sys_ipc_try_send envid value srcva perm s).
Proof. apply sys_ipc_try_send_ok. Qed.

(** ** sys_ipc_recv *)

Lemma sched_pre_waiting s c env dstva :
  sched_pre s -> envs s !! c = Some env -> sched_pre (set_env_at c (waiting dstva env) s).
Proof.
  intros [Hd Hce Hl Hkd Hdirs] He. split; try done.
  - intros i. simpl. rewrite lookup_insert_is_Some. destruct (decide (c = i)) as [<-|].
    + rewrite <- (Hd c), He. split; [by eexists|by left].
    + rewrite <- (Hd i). naive_solver.
  - unfold curenv_ok in *. change (curenv (set_env_at c (waiting dstva env) s)) with (curenv s).
    destruct (curenv s) as [c'|]; [|done]. simpl. rewrite lookup_insert_is_Some.
    destruct (decide (c = c')); naive_solver.
  - intros i ei. simpl. rewrite lookup_insert. case_decide; [|apply Hdirs].
    intros [= <-] [E|E]; discriminate E.
Qed.

(** C32: sys_ipc_recv refuses a page address that is not aligned, with nothing
    changed.  Otherwise it never returns: the scheduler takes over from a state
    that only differs in the caller's record, which waits for a message at
    [dstva], and the caller cannot be what the scheduler resumes. *)
Theorem sys_ipc_recv_correct s c cenv dstva :
  sched_pre s -> curenv s = Some c -> envs s !! c = Some cenv ->
  if (dstva <? UTOP) && negb (dstva mod PGSIZE =? 0)
  then sys_ipc_recv dstva s = Ret (- E_INVAL) s
  else
    let s1 := set_env_at c (waiting dstva cenv) s in
    sched_result s1 (sys_ipc_recv dstva s) /\
    (forall tf s', sys_ipc_recv dstva s = Resume tf s' -> curenv s' <> Some c /\
       slot_status s' c = Some ENV_NOT_RUNNABLE /\ env_ipc_recving <$> envs s' !! c = Some true).
Proof.
  intros Hpre Hc Hce. cbv zeta. set (s1 := set_env_at c (waiting dstva cenv) s).
  assert (Heq : sys_ipc_recv dstva s =
    if (dstva <? UTOP) && negb (dstva mod PGSIZE =? 0) then Ret (- E_INVAL) s
    else (sched_yield ;; ret 0) s1).
  { unfold sys_ipc_recv. rewrite PGOFF_mod. change 4096 with PGSIZE. destruct (_ && _); [done|].
    unfold curenv_deref. unfold bind at 1. rewrite Hc. simpl liftopt. cbv [ret].
    by erewrite bind_ret by (by apply upd_env_eq). }
  rewrite Heq. destruct (_ && _); [done|]. clear Heq.
  pose proof (sched_pre_waiting s c cenv dstva Hpre Hce) as Hpre1. fold s1 in Hpre1.
  assert (Hs1 : envs s1 !! c = Some (waiting dstva cenv)) by (unfold s1; simpl; by rewrite lookup_insert_eq).
  pose proof (sched_yield_ok s1 Hpre1) as Hres. unfold bind.
  destruct Hres as [i env s' Hi Hst Hnear He Hcu Hlk Ht Hkp|c' env s' Hc' He' Hst|s' Hno Hact He Hcu|s' Hno].
  - split; [by econstructor|]. intros tf s2 [= <- <-].
    assert (Hic : i <> c) by (intros ->; rewrite Hs1 in Hi; injection Hi as <-; discriminate Hst).
    split; [congruence|].
    assert (Hlook : envs s' !! c = Some (waiting dstva cenv)).
    { rewrite He. unfold envs_running. change (curenv s1) with (curenv s). rewrite Hc.
      rewrite bool_decide_false by congruence. rewrite lookup_insert_ne by done.
      unfold preempt. change (curenv s1) with (curenv s). rewrite Hc, Hs1. done. }
    unfold slot_status. by rewrite Hlook.
  - exfalso. change (curenv s1) with (curenv s) in Hc'. assert (c' = c) as -> by congruence.
    rewrite Hs1 in He'. injection He' as <-. discriminate Hst.
  - split; [by apply SrHalt|done].
  - split; [by apply SrMonitor|done].
Qed.

(** ** Witnesses *)

(** The environment of [small_env] waits for a message, and sends one to itself. *)
Definition small_waiting : kstate := set_env_at 0 (waiting UTOP small_environment) small_env.

Lemma small_waiting_kinv : kinv small_waiting [5] {[3]} ∅.
Proof. eapply kinv_set_env; [exact small_kinv|exact small_env_0|done..]. Qed.

Lemma small_waiting_cur : curenv small_waiting = Some 0.
Proof. unfold small_waiting. rewrite curenv_set_env_at. exact small_env_cur. Qed.

Lemma sys_ipc_try_send_correct_witness :
  ipc_send_result small_waiting [5] {[3]} ∅ 0 42 UTOP 0 (sys_ipc_try_send 0 42 UTOP 0 small_waiting).
Proof.
  refine (sys_ipc_try_send_correct small_waiting [5] {[3]} ∅ 0 42 UTOP 0 small_waiting_kinv
    (ex_intro _ 0 small_waiting_cur) _ _ _); [discriminate | done |].
  intros i env Hi. unfold small_waiting in Hi. simpl in Hi. rewrite lookup_insert in Hi.
  case_decide; [by injection Hi as <-|]. assert (Hr : 0 <= i < NENV) by (apply small_env_dom; by eexists).
  rewrite small_env_lookup in Hi by done. case_decide; by injection Hi as <-.
Defined.

Lemma sys_ipc_recv_correct_witness :
  sched_result (set_env_at 0 (waiting 0x200000 (set_env_status ENV_RUNNING small_environment)) (rr_small ENV_RUNNING))
    (sys_ipc_recv 0x200000 (rr_small ENV_RUNNING)).
Proof.
  apply (sys_ipc_recv_correct (rr_small ENV_RUNNING) 0 _ 0x200000 (rr_small_pre ENV_RUNNING)
    (rr_small_cur ENV_RUNNING) (two_envs_0 ENV_RUNNING)).
Defined.
