(* ===== verification/TrapSpec.v ===== *)
(** * Properties of the traps

    The gates of the interrupt table, the way of a system call from the gate to
    the return to user mode, the page-fault upcall, and what happens to an
    environment on a trap that nothing handles. *)
From S2P Require Import Prelude Mmu Mem Console Kstate Pmap PmapAlloc PmapSpace PmapMap PmapDir Env EnvSpec Sched SchedSpec UserMem DestroySpec Syscall Trap.

(** ** The interrupt table *)

(** The vectors of the processor and of the two interrupt controllers (whose lines start
    at 32) that the kernel handles, with the entry point and the lowest privilege that may
    raise them with [int]. *)
Definition vector_handler (v : Z) : option (handler * Z) :=
  match v with
  | 0 => Some (t_divide, 0) | 1 => Some (t_debug, 0) | 2 => Some (t_nmi, 0) | 3 => Some (t_brkpt, 3)
  | 4 => Some (t_oflow, 0) | 5 => Some (t_bound, 0) | 6 => Some (t_illop, 0) | 7 => Some (t_device, 0)
  | 8 => Some (t_dblflt, 0) | 10 => Some (t_tss, 0) | 11 => Some (t_segnp, 0) | 12 => Some (t_stack, 0)
  | 13 => Some (t_gpflt, 0) | 14 => Some (t_pgflt, 0) | 16 => Some (t_fperr, 0) | 17 => Some (t_align, 0)
  | 18 => Some (t_mchk, 0) | 19 => Some (t_simderr, 0)
  | 32 => Some (irq_timer, 0) | 33 => Some (irq_kbd, 0) | 36 => Some (irq_serial, 0) | 39 => Some (irq_spurious, 0)
  | 46 => Some (irq_ide, 0) | 48 => Some (t_syscall, 3) | 51 => Some (irq_error, 0)
  | _ => None
  end.

(** The exceptions for which the processor pushes an error code. *)
Definition pushes_error_code (v : Z) : bool := existsb (Z.eqb v) [8; 10; 11; 12; 13; 14; 17].

(** The per-CPU part. *)
Definition tss_desc (addr : Z) : Segdesc := set_sd_s 0 (SEG16 STS_T32A addr (sizeof_Taskstate - 1) 0).
Lemma trap_init_percpu_eq percpu_kstacks cpu_ts_addr s :
  let id := cpu_id (thiscpu s) in
  trap_init_percpu percpu_kstacks cpu_ts_addr s =
    Ret tt (set_trace (trace s ++ [ELtr (GD_TSS0 + (id .<< 3)); ELidt])
      (set_gdt (<[(GD_TSS0 .>> 3) + id := tss_desc (cpu_ts_addr (this_cpu s))]> (gdt s))
      (upd_thiscpu (set_cpu_ts (mkTs (percpu_kstacks + id * KSTKSIZE + KSTKSIZE) GD_KD sizeof_Taskstate)) s))).
Proof.
  cbv zeta. unfold trap_init_percpu, emit. generalize (cpu_id (thiscpu s)). intros id. kpure. unfold modify.
  cbn [trace gdt this_cpu set_trace set_gdt upd_thiscpu set_cpus]. by rewrite <- app_assoc.
Qed.

Lemma tss_desc_base addr : 0 <= addr < 0x100000000 -> seg_base (tss_desc addr) = addr.
Proof.
  intros Ha. unfold seg_base, tss_desc, SEG16. cbn [set_sd_s sd_base_31_24 sd_base_23_16 sd_base_15_0].
  change 0xffff with (Z.ones 16). change 0xff with (Z.ones 8). rewrite !Z.land_ones, !Z.shiftr_div_pow2 by lia.
  rewrite !Z.shiftl_mul_pow2 by lia. rewrite (lor_add_low _ (addr mod 2 ^ 16) 16) by zlia. rewrite (lor_add_low _ _ 24) by zlia. zlia.
Qed.

Section gates.
Context (entry : handler -> Z) (Hentry : forall h, 0 <= entry h < 0x100000000).

Definition gate_of (g : Z * handler * Z) : Gatedesc := SETGATE false GD_KT (entry g.1.2) g.2.
Definition with_gates (gs : list (Z * handler * Z)) (m : gmap Z Gatedesc) : gmap Z Gatedesc :=
  fold_left (fun m g => <[g.1.1 := gate_of g]> m) gs m.

Lemma set_gates gs s : for_each gs (set_gate entry) s = Ret tt (set_idt (with_gates gs (idt s)) s).
Proof.
  revert s. induction gs as [|[[v h] dpl] gs IH]; intros s; simpl; [by destruct s|].
  unfold set_gate at 1. kpure. by rewrite IH.
Qed.

Lemma gates_other gs m v : v ∉ map (fun g => g.1.1) gs -> with_gates gs m !! v = m !! v.
Proof.
  revert m. induction gs as [|g gs IH]; intros m Hv; simpl in *; [done|].
  apply not_elem_of_cons in Hv as [? ?]. rewrite IH by done. by rewrite lookup_insert_ne by done.
Qed.

Lemma gates_in gs m g : NoDup (map (fun g => g.1.1) gs) -> g ∈ gs -> with_gates gs m !! g.1.1 = Some (gate_of g).
Proof.
  revert m. induction gs as [|g' gs IH]; intros m Hnd Hv; simpl in *; [by apply elem_of_nil in Hv|].
  apply NoDup_cons in Hnd as [Hg Hnd]. apply elem_of_cons in Hv as [->|Hv]; [|by apply IH].
  rewrite gates_other by done. by rewrite lookup_insert_eq.
Qed.

Lemma gates_nodup : NoDup (map (fun g => g.1.1) gates).
Proof. apply (bool_decide_unpack _). by vm_compute. Qed.

(** The list of [trap_init] is the table. *)
Lemma gates_listed g : g ∈ gates -> vector_handler g.1.1 = Some (g.1.2, g.2).
Proof.
  intros Hg. assert (H : Forall (fun g => vector_handler g.1.1 = Some (g.1.2, g.2)) gates) by (repeat constructor).
  rewrite Forall_forall in H. by apply H.
Qed.
Lemma gates_complete v h dpl : vector_handler v = Some (h, dpl) -> (v, h, dpl) ∈ gates.
Proof.
  unfold vector_handler. intros H. repeat case_match; try done; injection H as <- <-; apply (bool_decide_unpack _); by vm_compute.
Qed.
Lemma gates_unlisted v : vector_handler v = None -> v ∉ map (fun g => g.1.1) gates.
Proof. intros H ([g E] & -> & Hg)%list_elem_of_fmap. apply gates_listed in Hg. simpl in *. congruence. Qed.

Lemma handler_vector v h dpl : vector_handler v = Some (h, dpl) ->
  pushed_trapno h = v /\ pushes_0 h = negb (pushes_error_code v) /\ dpl = if decide (v = 3 \/ v = 48) then 3 else 0.
Proof. unfold vector_handler. intros H. by repeat case_match; try done; injection H as <- <-. Qed.

(** C40: after trap_init the interrupt table has, for each vector that the kernel handles,
    an interrupt gate in the kernel's code segment to the entry point that pushes this
    vector's number, and a 0 for the error code exactly when the processor pushes none;
    a user program can raise only the breakpoint (3) and the system call (48).  The other
    vectors are as before, absent in a table that was empty.  This CPU's task state has its
    own kernel stack, the descriptor of its task in the GDT is that state, and both
    the task register and the table are loaded; no other CPU is touched. *)
Theorem trap_init_gates percpu_kstacks cpu_ts_addr s :
  (forall c, 0 <= cpu_ts_addr c < 0x100000000) ->
  let me := thiscpu s in
  exists s', trap_init entry percpu_kstacks cpu_ts_addr s = Ret tt s' /\
    (forall v, match vector_handler v with
     | Some (h, dpl) => exists g, idt s' !! v = Some g /\ gate_off g = entry h /\
         gd_sel g = GD_KT /\ gd_type g = STS_IG32 /\ gd_dpl g = dpl /\ gd_p g = 1 /\
         pushed_trapno h = v /\ pushes_0 h = negb (pushes_error_code v) /\
         dpl = if decide (v = 3 \/ v = 48) then 3 else 0
     | None => idt s' !! v = idt s !! v
     end) /\
    thiscpu s' = set_cpu_ts (mkTs (percpu_kstacks + cpu_id me * KSTKSIZE + KSTKSIZE) GD_KD sizeof_Taskstate) me /\
    (forall c, c <> this_cpu s -> cpu_of s' c = cpu_of s c) /\
    (exists ts, gdt s' = <[GD_TSS0 / 8 + cpu_id me := ts]> (gdt s) /\ seg_base ts = cpu_ts_addr (this_cpu s) /\
      seg_limit ts = sizeof_Taskstate - 1 /\ sd_type ts = STS_T32A /\ sd_s ts = 0 /\ sd_dpl ts = 0 /\ sd_p ts = 1) /\
    trace s' = trace s ++ [ELtr (GD_TSS0 + 8 * cpu_id me); ELidt].
Proof.
  intros Hts me. unfold trap_init. rewrite (bind_ret _ _ _ _ _ (set_gates gates s)).
  rewrite trap_init_percpu_eq. cbv zeta.
  eexists. split; [reflexivity|]. cbn [idt gdt trace set_trace set_gdt upd_thiscpu set_cpus].
  change (thiscpu (set_idt _ s)) with me. change (this_cpu (set_idt _ s)) with (this_cpu s). split; [|split; [|split; [|split]]].
  - intros v. cbn [idt set_idt]. destruct (vector_handler v) as [[h dpl]|] eqn:Hv.
    + exists (gate_of (v, h, dpl)). split; [apply (gates_in gates (idt s) (v, h, dpl) gates_nodup), gates_complete, Hv|].
      split; [apply gate_off_SETGATE, Hentry|]. do 4 (split; [reflexivity|]). by apply handler_vector.
    + exact (gates_other gates (idt s) v (gates_unlisted v Hv)).
  - apply thiscpu_upd.
  - intros c Hc. unfold cpu_of. cbn [cpus set_trace set_gdt upd_thiscpu set_cpus]. by rewrite lookup_insert_ne.
  - eexists. split; [reflexivity|]. split; [by apply tss_desc_base|done].
  - cbn [trace set_idt]. by rewrite Z.shiftl_mul_pow2, Z.mul_comm by lia.
Qed.
End gates.

(** Entry points 32 bytes apart. *)
Definition example_entry (h : handler) : Z := 0xf0100000 + 32 * pushed_trapno h.
Lemma example_entry_range h : 0 <= example_entry h < 0x100000000.
Proof. by destruct h. Qed.

Lemma trap_init_gates_witness :
  exists s' g, trap_init example_entry 0xf0200000 (fun c => 0xf0300000) (zero_kstate 8) = Ret tt s' /\
    idt s' !! T_SYSCALL = Some g /\ gate_off g = 0xf0100600 /\ gd_dpl g = 3 /\ idt s' !! 9 = None /\
    ts_esp0 (cpu_ts (thiscpu s')) = 0xf0208000.
Proof.
  destruct (trap_init_gates example_entry example_entry_range 0xf0200000 (fun c => 0xf0300000)
    (zero_kstate 8) ltac:(intros c; split; [discriminate|reflexivity])) as (s' & H & Hg & Ht & _).
  pose proof (Hg T_SYSCALL) as Hs. destruct Hs as (g & Hl & Ho & _ & _ & Hd & _). pose proof (Hg 9) as H9.
  exists s', g. split; [exact H|]. split; [exact Hl|]. split; [exact Ho|]. split; [exact Hd|]. split; [exact H9|]. by rewrite Ht.
Defined.

(** ** A trap from user mode *)

(** Environment [c] runs on this CPU when the trap with frame [tf] occurs, and no
    CPU is in the kernel. *)
Record user_trap (s : kstate) (c : Z) (env : Env) (eflags : Z) (tf : Trapframe) : Prop := {
  ut_panic : panicstr s = false;
  ut_cpu : cpu_status (thiscpu s) <> CPU_HALTED;
  ut_lock : locked (kernel_lock s) = false;
  ut_cur : curenv s = Some c;
  ut_env : envs s !! c = Some env;
  ut_run : env_status env = ENV_RUNNING;
  ut_user : tf_cs tf .& 3 = 3;
  ut_if : has eflags FL_IF = false }.

(** The kernel once [trap] has taken the lock and saved the frame. *)
Definition entered (s : kstate) (c : Z) (env : Env) (tf : Trapframe) : kstate :=
  let s1 := set_kernel_lock (mkLock true (Some (this_cpu s))) (upd_thiscpu (set_cpu_status CPU_STARTED) s) in
  set_envs (<[c := set_env_tf tf env]> (envs s1)) s1.

Section trap.
Context (stack_tf envs_va lapic : Z) (s : kstate) (c : Z) (env : Env) (eflags : Z) (tf : Trapframe).
Context (Hut : user_trap s c env eflags tf).

Lemma entered_env : envs (entered s c env tf) !! c = Some (set_env_tf tf env).
Proof. apply lookup_insert_eq. Qed.

Lemma entered_cur : curenv (entered s c env tf) = Some c.
Proof. rewrite <- (ut_cur _ _ _ _ _ Hut). apply curenv_set_cpu_status. Qed.

Lemma entered_lock : lock_held (entered s c env tf).
Proof. done. Qed.

Lemma trap_user :
  trap stack_tf envs_va lapic eflags tf s =
    (trap_dispatch stack_tf envs_va lapic (TfEnv c) ;; trap_exit) (entered s c env tf).
Proof.
  destruct Hut as [Hp Hcpu Hl Hc He Hr Hu Hif]. unfold trap. kpure. rewrite Hp. kpure.
  apply Z.eqb_neq in Hcpu. rewrite Hcpu. kpure. rewrite Hif. kpure.
  set (s1 := upd_thiscpu (set_cpu_status CPU_STARTED) s).
  assert (Hc1 : curenv s1 = Some c) by (unfold s1; by rewrite curenv_set_cpu_status).
  unfold trap_enter. rewrite Hu. change (3 =? 3) with true. cbv iota. kpure.
  unfold lock_kernel, spin_lock, holding. unfold bind at 1. change (kernel_lock s1) with (kernel_lock s).
  rewrite Hl. cbn [andb]. cbv iota. set (s2 := set_kernel_lock _ s1).
  kpure. change (curenv s2) with (curenv s1). rewrite Hc1. kpure.
  erewrite bind_ret by (apply get_env_eq; exact He). rewrite Hr. change (ENV_RUNNING =? ENV_DYING) with false. cbv iota. kpure.
  unfold curenv_deref. unfold bind at 1. change (curenv s2) with (curenv s1). rewrite Hc1. cbn [liftopt]. cbv [ret]. kpure.
  erewrite bind_ret by (apply upd_env_eq; exact He). kpure. done.
Qed.

(** The state in which the current environment, now [env1], goes on. *)
Definition returned (env1 : Env) (s1 : kstate) : kstate :=
  set_envs (<[c := set_env_cpunum (this_cpu s1) env1]> (envs s1)) (set_kernel_lock (mkLock false None) s1).

Lemma env_run_returned s1 env1 :
  curenv s1 = Some c -> envs s1 !! c = Some env1 -> lock_held s1 ->
  env_run c s1 = Resume (env_tf env1) (returned env1 s1).
Proof.
  intros Hc He Hl. unfold env_run, switch_env. kpure.
  rewrite Hc, bool_decide_true by done. kpure. rewrite (bind_ret _ _ _ _ _ (unlock_eq _ Hl)).
  set (s2 := set_kernel_lock _ s1). unfold env_pop_tf, curenv_deref.
  unfold bind at 1. change (curenv s2) with (curenv s1). rewrite Hc. cbn [liftopt]. cbv [ret].
  erewrite bind_ret by (apply upd_env_eq; exact He). by erewrite bind_ret by (apply get_env_eq, lookup_insert_eq).
Qed.

Lemma env_run_self s1 env1 :
  curenv s1 = Some c -> envs s1 !! c = Some env1 -> lock_held s1 ->
  exists s2, env_run c s1 = Resume (env_tf env1) s2 /\ curenv s2 = Some c /\ kernel_lock s2 = mkLock false None /\
    envs s2 = <[c := set_env_cpunum (this_cpu s1) env1]> (envs s1) /\ mem s2 = mem s1 /\ cr3 s2 = cr3 s1 /\
    forall l D M X, vm_ok s1 l D M X -> vm_ok s2 l D M X.
Proof.
  intros Hc He Hl. exists (returned env1 s1). split; [by apply env_run_returned|].
  do 5 (split; [done|]). intros l D M X. by apply vm_ok_frame.
Qed.

(** The return of a trap to the environment that runs. *)
Lemma trap_exit_run s1 env1 :
  curenv s1 = Some c -> envs s1 !! c = Some env1 -> env_status env1 = ENV_RUNNING ->
  trap_exit s1 = env_run c s1.
Proof.
  intros Hc He Hr. unfold trap_exit. kpure. rewrite Hc. erewrite bind_ret by (by apply get_env_eq). by rewrite Hr.
Qed.

(** The environment as the system call with result [v] leaves it. *)
Definition with_result (v : Z) (env1 : Env) : Env :=
  set_env_tf (set_tf_regs (set_reg_eax (u32 v) (tf_regs (env_tf env1))) (env_tf env1)) env1.

Lemma trap_syscall_ok v s1 env1 :
  tf_trapno tf = T_SYSCALL ->
  (let r := tf_regs tf in
   syscall (reg_eax r) (reg_edx r) (reg_ecx r) (reg_ebx r) (reg_edi r) (reg_esi r) (entered s c env tf)) = Ret v s1 ->
  curenv s1 = Some c -> lock_held s1 -> envs s1 !! c = Some env1 -> env_status env1 = ENV_RUNNING ->
  trap stack_tf envs_va lapic eflags tf s =
    Resume (env_tf (with_result v env1)) (returned (with_result v env1) s1).
Proof.
  intros Hno Hsys Hc1 Hl1 He1 Hr1. rewrite trap_user. unfold trap_dispatch, get_tf. kpure.
  erewrite bind_ret by (apply get_env_eq, entered_env). kpure. cbn [env_tf set_env_tf]. rewrite Hno.
  change (T_SYSCALL =? IRQ_OFFSET + IRQ_SPURIOUS) with false. change (T_SYSCALL =? T_PGFLT) with false.
  change (T_SYSCALL =? T_BRKPT) with false. change (T_SYSCALL =? T_SYSCALL) with true. cbv iota zeta. kpure.
  rewrite (bind_ret _ _ _ _ _ Hsys). unfold upd_tf.
  erewrite bind_ret by (by apply upd_env_eq). cbv beta.
  fold (with_result v env1). set (env2 := with_result v env1). set (s2 := set_envs (<[c := env2]> (envs s1)) s1).
  assert (He2 : envs s2 !! c = Some env2) by apply lookup_insert_eq.
  rewrite (trap_exit_run s2 env2 Hc1 He2 Hr1), (env_run_returned s2 env2 Hc1 He2 Hl1).
  f_equal. unfold returned, s2. simpl. by rewrite insert_insert_eq.
Qed.

(** C23: a system call goes from the gate to the return to user mode: with the
    registers of the frame as arguments the handler runs under the kernel lock, and
    if it returns to an environment that still runs, that environment resumes with
    its saved registers, the result (as a 32-bit word) in %eax, and the lock
    released. *)
Theorem trap_syscall_returns v s1 env1 :
  tf_trapno tf = T_SYSCALL ->
  (let r := tf_regs tf in
   syscall (reg_eax r) (reg_edx r) (reg_ecx r) (reg_ebx r) (reg_edi r) (reg_esi r) (entered s c env tf)) = Ret v s1 ->
  curenv s1 = Some c -> lock_held s1 -> envs s1 !! c = Some env1 -> env_status env1 = ENV_RUNNING ->
  exists s2, trap stack_tf envs_va lapic eflags tf s =
      Resume (set_tf_regs (set_reg_eax (u32 v) (tf_regs (env_tf env1))) (env_tf env1)) s2 /\
    curenv s2 = Some c /\ kernel_lock s2 = mkLock false None /\ mem s2 = mem s1 /\ cr3 s2 = cr3 s1.
Proof.
  intros Hno Hsys Hc1 Hl1 He1 Hr1. exists (returned (with_result v env1) s1).
  split; [by apply trap_syscall_ok|]. done.
Qed.
End trap.

(** ** Traps that end an environment *)

(** Code that only prints. *)
Definition prints (m : K unit) : Prop := forall s, exists tr, m s = Ret tt (set_trace tr s).

Lemma prints_ret : prints (ret tt).
Proof. intros s. exists (trace s). by destruct s. Qed.
Lemma prints_cprintf f a : prints (cprintf f a).
Proof. intros s. by eexists. Qed.
Lemma prints_seq m k : prints m -> prints k -> prints (m ;; k).
Proof.
  intros Hm Hk s. destruct (Hm s) as (tr & H). destruct (Hk (set_trace tr s)) as (tr' & H').
  exists tr'. by rewrite (bind_ret _ _ _ _ _ H), H'.
Qed.
Lemma prints_gets {A} (f : kstate -> A) (k : A -> K unit) : (forall a, prints (k a)) -> prints (bind (gets f) k).
Proof. intros H s. rewrite bind_gets. apply H. Qed.
Lemma prints_if (b : bool) m k : prints m -> prints k -> prints (if b then m else k).
Proof. by destruct b. Qed.
Lemma prints_when b m : prints m -> prints (when b m).
Proof. intros H. apply prints_if; [done|apply prints_ret]. Qed.
#[export] Hint Resolve prints_ret prints_cprintf prints_seq prints_gets prints_if prints_when : jos.

Lemma print_trapframe_prints addr last tf : prints (print_trapframe addr last tf).
Proof. unfold print_trapframe, print_regs. auto 40 with jos. Qed.

Lemma sched_result_bind {A B} (m : K A) (k : A -> K B) s0 s :
  sched_result s0 (m s) -> sched_result s0 (bind m k s).
Proof.
  unfold bind. intros H. destruct H; [by econstructor|by econstructor|by apply SrHalt|by apply SrMonitor].
Qed.

(** A page fault without an upcall, or a trap that no case handles. *)
Definition fatal (env : Env) (tf : Trapframe) : Prop :=
  (tf_trapno tf = T_PGFLT /\ env_pgfault_upcall env = 0) \/
  tf_trapno tf ∉ [IRQ_OFFSET + IRQ_SPURIOUS; T_PGFLT; T_BRKPT; T_SYSCALL; IRQ_TIMER + IRQ_OFFSET].

Section fatal.
Context (stack_tf envs_va lapic : Z).

(** What is printed before the end. *)
Lemma fatal_dispatch s c env :
  curenv s = Some c -> envs s !! c = Some env -> fatal env (env_tf env) -> tf_cs (env_tf env) .& 3 = 3 ->
  exists tr, trap_dispatch stack_tf envs_va lapic (TfEnv c) s = env_destroy c (set_trace tr s).
Proof.
  intros Hc He Hf Hu. unfold trap_dispatch, get_tf. kpure. erewrite bind_ret by (by apply get_env_eq). kpure.
  set (tf := env_tf env) in *. destruct Hf as [[Hno Hup]|Hno].
  - rewrite Hno. change (T_PGFLT =? IRQ_OFFSET + IRQ_SPURIOUS) with false. change (T_PGFLT =? T_PGFLT) with true. cbv iota.
    unfold page_fault_handler, get_tf. kpure. erewrite bind_ret by (by apply get_env_eq). kpure. fold tf.
    rewrite Hu. change (3 =? 0) with false. cbv iota. kpure.
    unfold curenv_deref. unfold bind at 1. rewrite Hc. cbn [liftopt]. cbv [ret]. kpure.
    erewrite bind_ret by (by apply get_env_eq). rewrite Hup. change (negb (0 =? 0)) with false. cbv iota. kpure.
    unfold bind at 1. rewrite Hc. cbn [liftopt]. cbv [ret]. kpure.
    do 2 (erewrite bind_ret by (by apply get_env_eq); kpure).
    unfold cprintf, emit. kpure. fold tf.
    destruct (print_trapframe_prints (tf_addr stack_tf envs_va (TfEnv c)) true tf
      (set_trace (trace s ++ [EPrintf "[%08x] user fault va %08x ip %08x\n"
        [VInt (env_id env); VInt (cr2 s); VInt (tf_eip tf)]]) s)) as (tr & Htr).
    exists tr. by rewrite (bind_ret _ _ _ _ _ Htr).
  - rewrite !not_elem_of_cons in Hno. destruct Hno as (H1 & H2 & H3 & H4 & H5 & _).
    apply Z.eqb_neq in H1, H2, H3, H4, H5. rewrite H1, H2, H3, H4, H5. kpure.
    erewrite bind_ret by (by apply get_env_eq). kpure. fold tf.
    destruct (print_trapframe_prints (tf_addr stack_tf envs_va (TfEnv c)) true tf s) as (tr & Htr).
    exists tr. rewrite (bind_ret _ _ _ _ _ Htr).
    destruct (Z.eqb_spec (tf_cs tf) GD_KT) as [E|_]; [rewrite E in Hu; discriminate Hu|].
    unfold curenv_deref. unfold bind at 1. change (curenv (set_trace tr s)) with (curenv s). by rewrite Hc.
Qed.

Lemma entered_sched_pre s c env tf :
  envs_dom s -> KERNBASE <= kern_pgdir s -> KERNBASE <= env_pgdir env -> envs s !! c = Some env ->
  (forall i e, envs s !! i = Some e -> env_status e = ENV_RUNNABLE \/ env_status e = ENV_RUNNING -> KERNBASE <= env_pgdir e) ->
  curenv (entered s c env tf) = Some c -> sched_pre (entered s c env tf).
Proof.
  intros Hd Hk Hp He Hdirs Hc. split; try done.
  - intros i. simpl. rewrite lookup_insert_is_Some, <- (Hd i). destruct (decide (c = i)) as [<-|]; [|naive_solver].
    rewrite He. split; [by eexists|by left].
  - unfold curenv_ok. rewrite Hc. rewrite entered_env. by eexists.
  - intros i e. simpl. rewrite lookup_insert. case_decide; [by intros [= <-]|apply Hdirs].
Qed.

(** C24: a page fault of an environment without an upcall, and every trap that
    no case handles (the keyboard and the serial interrupts among them), ends the
    environment that runs: it and all it held are released and the scheduler goes
    on without it. *)
Theorem fatal_trap_destroys s c env eflags tf l D M X d :
  user_trap s c env eflags tf -> fatal env tf ->
  vm_ok s l D M X -> env_pgdir env = pgdir_kva d -> d ∈ D -> envs_dom s -> KERNBASE <= kern_pgdir s ->
  (forall i e, envs s !! i = Some e -> env_status e = ENV_RUNNABLE \/ env_status e = ENV_RUNNING -> KERNBASE <= env_pgdir e) ->
  let o := trap stack_tf envs_va lapic eflags tf s in
  exists s1 l', sched_result s1 o /\ curenv s1 = None /\ slot_status s1 c = Some ENV_FREE /\
    vm_ok s1 l' (D ∖ {[d]}) (unmap M d 0 NUVPN) X /\ freed l l' M (unmap M d 0 NUVPN) X /\
    forall tf' s', o = Resume tf' s' -> curenv s' <> Some c.
Proof.
  intros Hut Hf Hvm Hpg Hd Hdom Hk Hdirs o. unfold o. rewrite (trap_user _ _ _ s c env eflags tf Hut).
  pose proof (ut_env _ _ _ _ _ Hut) as He. pose proof (entered_cur s c env eflags tf Hut) as Hc0.
  set (s0 := entered s c env tf) in *.
  assert (Hvm0 : vm_ok s0 l D M X) by (by eapply (vm_ok_frame s)).
  assert (Hp : KERNBASE <= env_pgdir env) by (apply (Hdirs c env He); right; apply (ut_run _ _ _ _ _ Hut)).
  pose proof (entered_sched_pre s c env tf Hdom Hk Hp He Hdirs Hc0) as Hpre. fold s0 in Hpre.
  destruct (fatal_dispatch s0 c (set_env_tf tf env) Hc0 (entered_env s c env tf) Hf (ut_user _ _ _ _ _ Hut)) as (tr & Htr).
  set (s0' := set_trace tr s0) in *.
  assert (Hpre' : sched_pre s0') by (destruct Hpre; split; done).
  assert (Hvm' : vm_ok s0' l D M X) by (by eapply (vm_ok_frame s0)).
  pose proof (env_destroy_ok s0' l D M X c (set_env_tf tf env) d Hvm' Hpre' (entered_env s c env tf) Hpg Hd) as H.
  change (curenv s0') with (curenv s0) in H. rewrite Hc0, bool_decide_true in H by done.
  destruct H as (s1 & l' & Hrel & Hc1 & _ & Hres & Hno). exists s1, l'.
  split; [apply sched_result_bind; by rewrite Htr|]. split; [done|]. split; [|split; [apply Hrel|split; [apply Hrel|]]].
  - unfold slot_status. rewrite (rl_envs _ _ _ _ _ _ _ _ _ _ Hrel), lookup_insert_eq. done.
  - intros tf' s'. unfold bind. rewrite Htr. destruct (env_destroy c s0') eqn:E; try done.
    + inversion Hres.
    + intros [= <- <-]. by eapply Hno.
Qed.
End fatal.

(** ** The page-fault upcall *)

(** Where the frame goes: below the frame of an enclosing handler, with a free word
    for the return address between them, or at the top of the stack. *)
Definition frame_at (esp : Z) : Z :=
  if decide (UXSTACKTOP - PGSIZE <= esp <= UXSTACKTOP) then esp - 4 - 52 else UXSTACKTOP - 52.

Lemma utf_sp_frame esp : utf_sp esp = frame_at esp.
Proof.
  unfold utf_sp, frame_at, sizeof_UTrapframe. autounfold with jconst.
  case_decide; destruct ((esp >=? _) && (esp <=? _)) eqn:E; unfold u32; lia.
Qed.

Lemma frame_at_range esp : UXSTACKTOP - PGSIZE - 56 <= frame_at esp /\ frame_at esp + 52 <= UXSTACKTOP.
Proof. unfold frame_at. autounfold with jconst. case_decide; lia. Qed.

(** The words of the [struct UTrapframe] of a fault. *)
Definition utf_words (fault_va : Z) (tf : Trapframe) : list Z :=
  let r := tf_regs tf in
  [fault_va; tf_err tf; reg_edi r; reg_esi r; reg_ebp r; reg_oesp r;
   reg_ebx r; reg_edx r; reg_ecx r; reg_eax r; tf_eip tf; tf_eflags tf; tf_esp tf].

Section upcall.
Context (stack_tf envs_va lapic : Z) (s : kstate) (c : Z) (env : Env) (eflags : Z) (tf : Trapframe).
Context (l : list Z) (D : gset Z) (M : aspace) (X : Z -> Z) (d pte : Z).
Context (Hut : user_trap s c env eflags tf) (Hno : tf_trapno tf = T_PGFLT) (Hup : env_pgfault_upcall env <> 0).
Context (Hvm : vm_ok s l D M X) (Hpg : env_pgdir env = pgdir_kva d) (Hd : d ∈ D) (Hcr3 : cr3 s = 4096 * d).
Let sp := frame_at (tf_esp tf).

(** The check before the frame is written. *)
Lemma upcall_checked s1 env1 :
  vm_ok s1 l D M X -> envs s1 !! c = Some env1 -> env_pgdir env1 = pgdir_kva d ->
  UXSTACKTOP - PGSIZE <= sp -> M !! (d, UXSTACKTOP / 4096 - 1) = Some pte ->
  pte .& ((PTE_U .| PTE_P) .| PTE_W) = (PTE_U .| PTE_P) .| PTE_W ->
  user_mem_assert c sp sizeof_UTrapframe ((PTE_U .| PTE_P) .| PTE_W) s1 = Ret tt s1.
Proof.
  intros Hvm1 He Hpg1 Hsp HM Hperm. destruct (frame_at_range (tf_esp tf)) as [_ Hhi]. fold sp in Hhi.
  assert (HU : UXSTACKTOP = UTOP) by done. assert (HUm : UXSTACKTOP mod 4096 = 0) by done.
  assert (HUr : 4096 < UXSTACKTOP) by done. unfold user_mem_assert, sizeof_UTrapframe, PGSIZE in *.
  change (((PTE_U .| PTE_P) .| PTE_W) .| PTE_U) with ((PTE_U .| PTE_P) .| PTE_W).
  destruct (user_mem_check_ok s1 l D M X c env1 d sp 52 ((PTE_U .| PTE_P) .| PTE_W) Hvm1 He Hpg1 Hd)
    as [[H _]|(k & Hk1 & Hk2 & Hbad & _)]; [lia|lia|lia|by rewrite (bind_ret _ _ _ _ _ H)|].
  exfalso. assert (k = UXSTACKTOP / 4096 - 1) as -> by lia.
  unfold page_allows in Hbad. rewrite HM, Hperm, Z.eqb_refl in Hbad. discriminate.
Qed.

(** The writing of the frame, and the return. *)
Lemma upcall_write s1 env1 :
  vm_ok s1 l D M X -> cr3 s1 = 4096 * d -> curenv s1 = Some c -> envs s1 !! c = Some env1 -> lock_held s1 ->
  UXSTACKTOP - PGSIZE <= sp -> M !! (d, UXSTACKTOP / 4096 - 1) = Some pte -> has pte PTE_W = true ->
  let u := mkUtf (cr2 s) (tf_err tf) (tf_regs tf) (tf_eip tf) (tf_eflags tf) (tf_esp tf) in
  exists s', (store_utf sp u ;; env_run c) s1 = Resume (env_tf env1) s' /\
    mem s' = store_words (mem s1) (4096 * frame_of pte + sp mod 4096) (utf_words (cr2 s) tf) /\
    vm_ok s' l D M X /\ curenv s' = Some c /\ kernel_lock s' = mkLock false None.
Proof.
  intros Hvm1 Hcr1 Hc1 He1 Hl1 Hsp HM HW u. destruct (frame_at_range (tf_esp tf)) as [_ Hhi]. fold sp in Hhi.
  assert (HUm : UXSTACKTOP mod 4096 = 0) by done. assert (HUr : 4096 < UXSTACKTOP) by done. unfold PGSIZE in Hsp.
  assert (Hu : upage l D M X d s1) by (by split).
  destruct (vstore_words l D M X d (UXSTACKTOP / 4096 - 1) pte Hd ltac:(split; vm_compute; congruence) HM HW s1 sp (utf_words (cr2 s) tf) Hu)
    as [Hst Hu2]; [lia|simpl; lia|]. cbv zeta in Hst, Hu2. set (s2 := set_mem _ s1) in *.
  assert (Hst' : store_utf sp u s1 = Ret tt s2) by exact Hst. rewrite (bind_ret _ _ _ _ _ Hst').
  destruct (env_run_self c s2 env1 Hc1 He1 Hl1) as (s3 & H3 & Hc3 & Hl3 & _ & Hm3 & _ & Hf3).
  exists s3. split; [exact H3|]. split; [by rewrite Hm3|]. split; [by apply Hf3, Hu2|]. done.
Qed.

(** C22: a page fault of an environment with an upcall, when the frame fits on its
    exception stack and that page is writable: the environment resumes at its upcall
    with the stack pointer at the frame, all other registers as they were; the frame
    holds the fault address, the error code and the registers at the fault, in the
    order of the structure; no other byte of memory changes, and the lock is
    released. *)
Theorem page_fault_upcall :
  UXSTACKTOP - PGSIZE <= sp -> M !! (d, UXSTACKTOP / 4096 - 1) = Some pte ->
  pte .& ((PTE_U .| PTE_P) .| PTE_W) = (PTE_U .| PTE_P) .| PTE_W ->
  let pa := 4096 * frame_of pte + sp mod 4096 in
  exists s', trap stack_tf envs_va lapic eflags tf s =
      Resume (set_tf_eip (env_pgfault_upcall env) (set_tf_esp sp tf)) s' /\
    (forall i w, utf_words (cr2 s) tf !! i = Some w -> load32 (mem s') (pa + 4 * Z.of_nat i) = u32 w) /\
    (forall b, b < pa \/ pa + sizeof_UTrapframe <= b -> load8 (mem s') b = load8 (mem s) b) /\
    vm_ok s' l D M X /\ curenv s' = Some c /\ kernel_lock s' = mkLock false None.
Proof.
  intros Hsp HM Hperm pa. rewrite (trap_user _ _ _ s c env eflags tf Hut).
  pose proof (entered_cur s c env eflags tf Hut) as Hc0. pose proof (entered_env s c env tf) as He0.
  assert (Hvm0 : vm_ok (entered s c env tf) l D M X) by (by eapply (vm_ok_frame s)).
  pose proof (entered_lock s c env tf) as Hl0. set (s0 := entered s c env tf) in *.
  assert (Hm0 : mem s0 = mem s) by done. assert (Hcr0 : cr3 s0 = 4096 * d) by exact Hcr3. assert (Hcr2 : cr2 s0 = cr2 s) by done.
  clearbody s0. set (env0 := set_env_tf tf env) in *.
  unfold trap_dispatch, get_tf. kpure. erewrite bind_ret by (apply get_env_eq, He0). kpure. cbn [env_tf set_env_tf env0].
  rewrite Hno. change (T_PGFLT =? IRQ_OFFSET + IRQ_SPURIOUS) with false. change (T_PGFLT =? T_PGFLT) with true. cbv iota.
  unfold page_fault_handler, get_tf. kpure. erewrite bind_ret by (apply get_env_eq, He0). kpure. cbn [env_tf set_env_tf env0].
  rewrite (ut_user _ _ _ _ _ Hut). change (3 =? 0) with false. cbv iota. kpure.
  rewrite (bind_ret _ _ _ _ _ (curenv_deref_eq _ _ Hc0)). kpure.
  erewrite bind_ret by (apply get_env_eq, He0). cbn [env_pgfault_upcall set_env_tf env0].
  apply Z.eqb_neq in Hup. rewrite Hup. cbn [negb]. cbv iota. kpure. unfold upd_tf. rewrite utf_sp_frame. fold sp.
  erewrite bind_ret by (apply upd_env_eq, He0). kpure. cbn [env_tf set_env_tf env0].
  set (env1 := set_env_tf (set_tf_esp sp tf) _). set (s1 := set_envs (<[c := env1]> (envs s0)) s0).
  assert (He1 : envs s1 !! c = Some env1) by apply lookup_insert_eq.
  assert (Hvm1 : vm_ok s1 l D M X) by (by eapply (vm_ok_frame s0)).
  erewrite bind_ret by (apply get_env_eq, He1). kpure. cbn [env_tf set_env_tf env1].
  change (tf_esp (set_tf_esp sp tf)) with sp.
  rewrite (bind_ret _ _ _ _ _ (upcall_checked s1 env1 Hvm1 He1 Hpg Hsp HM Hperm)). kpure.
  erewrite bind_ret by (apply get_env_eq, He1). kpure.
  erewrite bind_ret by (apply upd_env_eq, He1). kpure.
  set (env2 := set_env_tf _ env1). set (s2 := set_envs (<[c := env2]> (envs s1)) s1).
  assert (He2 : envs s2 !! c = Some env2) by apply lookup_insert_eq.
  assert (Hvm2 : vm_ok s2 l D M X) by (by eapply (vm_ok_frame s1)).
  erewrite bind_ret by (apply get_env_eq, He2). kpure. change (tf_esp (env_tf env2)) with sp. rewrite Hcr2.
  assert (HW : has pte PTE_W = true).
  { unfold has. change PTE_W with (((PTE_U .| PTE_P) .| PTE_W) .& PTE_W). rewrite Z.land_assoc, Hperm. done. }
  destruct (upcall_write s2 env2 Hvm2 Hcr0 Hc0 He2 Hl0 Hsp HM HW) as (s3 & H3 & Hm3 & Hvm3 & Hc3 & Hl3).
  rewrite <- bind_assoc. unfold bind at 1. rewrite H3. change (mem s2) with (mem s0) in Hm3. rewrite Hm0 in Hm3. fold pa in Hm3.
  exists s3. split; [done|]. rewrite Hm3. split; [intros i w Hi; by apply load32_store_words|].
  split; [|done]. intros b Hb. apply load8_store_words_out. exact Hb.
Qed.
End upcall.

(** ** Witnesses *)

Definition user_tf (trapno eax esp : Z) : Trapframe :=
  mkTf (mkRegs 0 0 0 0 0 0 0 eax) 0x23 0x23 trapno 0 0x800020 0x1b 0x202 esp 0x23.

Lemma small_user_trap tf : tf_cs tf = 0x1b -> user_trap small_env 0 small_environment 0 tf.
Proof.
  intros Hcs. split; [done| |done|exact small_env_cur|exact small_env_0|done|by rewrite Hcs|done].
  unfold small_env, with_envs. rewrite thiscpu_upd. discriminate.
Qed.

Lemma trap_syscall_returns_witness :
  exists s2, trap 0 0 0 0 (user_tf T_SYSCALL SYS_getenvid 0xeebfe000) small_env =
    Resume (user_tf T_SYSCALL 0x1000 0xeebfe000) s2.
Proof.
  pose proof (small_user_trap (user_tf T_SYSCALL SYS_getenvid 0xeebfe000) eq_refl) as Hut.
  destruct (trap_syscall_returns 0 0 0 small_env 0 small_environment 0 (user_tf T_SYSCALL SYS_getenvid 0xeebfe000) Hut 0x1000
    (entered small_env 0 small_environment (user_tf T_SYSCALL SYS_getenvid 0xeebfe000))
    (set_env_tf (user_tf T_SYSCALL SYS_getenvid 0xeebfe000) small_environment)) as (s2 & H & _).
  - reflexivity.
  - change (sys_getenvid (entered small_env 0 small_environment (user_tf T_SYSCALL SYS_getenvid 0xeebfe000)) =
      Ret 0x1000 (entered small_env 0 small_environment (user_tf T_SYSCALL SYS_getenvid 0xeebfe000))).
    unfold sys_getenvid. rewrite (bind_ret _ _ _ _ _ (curenv_deref_eq _ _ (entered_cur _ _ _ _ _ Hut))).
    by erewrite bind_ret by (apply get_env_eq, entered_env).
  - exact (entered_cur _ _ _ _ _ Hut).
  - exact (entered_lock _ _ _ _).
  - exact (entered_env _ _ _ _).
  - reflexivity.
  - exists s2. exact H.
Defined.

Lemma fatal_trap_destroys_witness :
  exists s1, curenv s1 = None /\ slot_status s1 0 = Some ENV_FREE /\
    sched_result s1 (trap 0 0 0 0 (user_tf (IRQ_OFFSET + IRQ_KBD) 0 0xeebfe000) small_env).
Proof.
  destruct (fatal_trap_destroys 0 0 0 small_env 0 small_environment 0 (user_tf (IRQ_OFFSET + IRQ_KBD) 0 0xeebfe000)
    [5] {[3]} ∅ no_refs 3) as (s1 & l' & H & Hc & Hs & _).
  - exact (small_user_trap (user_tf (IRQ_OFFSET + IRQ_KBD) 0 0xeebfe000) eq_refl).
  - right. apply (bool_decide_unpack _). by vm_compute.
  - exact small_env_vm.
  - reflexivity.
  - set_solver.
  - exact small_env_dom.
  - discriminate.
  - intros i e Hi Hs. assert (Hr : 0 <= i < NENV) by (apply small_env_dom; by eexists).
    rewrite small_env_lookup in Hi by done. case_decide; injection Hi as <-; [discriminate|].
    destruct Hs; discriminate.
  - exists s1. exact (conj Hc (conj Hs H)).
Defined.

(** An environment with an upcall and a writable exception stack (page 4). *)
Definition upcall_environment : Env := set_env_pgfault_upcall 0x800100 small_environment.
Definition with_upcall (s : kstate) : kstate :=
  with_envs (<[0 := upcall_environment]> zero_envs) (Some 0) None (pgdir_kva 6) (set_cr2 0x1234 (set_cr3 0x3000 s)).

Lemma with_upcall_trap s tf :
  tf_cs tf = 0x1b -> panicstr s = false -> kernel_lock s = mkLock false None -> cpu_status (thiscpu s) <> CPU_HALTED ->
  user_trap (with_upcall s) 0 upcall_environment 0 tf.
Proof.
  intros Hcs Hp Hl Hst.
  split; [exact Hp| |by simpl; rewrite Hl|apply curenv_set_cpu_env|apply lookup_insert_eq|done|by rewrite Hcs|done].
  unfold with_upcall, with_envs. rewrite thiscpu_upd. exact Hst.
Qed.

Lemma with_upcall_vm s l D M X : vm_ok s l D M X -> vm_ok (with_upcall s) l D M X.
Proof. intros H. unfold with_upcall. apply with_envs_vm. revert H. apply vm_ok_frame; reflexivity. Qed.

Lemma page_fault_upcall_witness :
  exists s0 s', trap 0 0 0 0 (user_tf T_PGFLT 7 0xeebfd000) (with_upcall s0) =
      Resume (set_tf_eip 0x800100 (set_tf_esp 0xeebfffcc (user_tf T_PGFLT 7 0xeebfd000))) s' /\
    load32 (mem s') 0x4fcc = 0x1234 /\ load32 (mem s') 0x4ffc = 0xeebfd000.
Proof.
  destruct (page_insert_ok small_vm [5] {[3]} ∅ 3 (UXSTACKTOP - PGSIZE) 4 (PTE_U .| PTE_W) small_vm_ok I
    ltac:(set_solver) ltac:(split; [discriminate|reflexivity]) ltac:(split; [discriminate|reflexivity])
    small_vm_insertable ltac:(reflexivity)) as (s0 & l0 & Hpi & _ & Hvm & _ & Hfr & _).
  destruct Hfr as (m & fl & pg & tr & E).
  destruct (page_fault_upcall 0 0 0 (with_upcall s0) 0 upcall_environment 0 (user_tf T_PGFLT 7 0xeebfd000)
    l0 {[3]} (<[(3, (UXSTACKTOP - PGSIZE) / 4096) := (page2pa 4 .| (PTE_U .| PTE_W)) .| PTE_P]> ∅) no_refs 3 0x4007) as (s' & H & Hwords & _).
  - apply with_upcall_trap; [reflexivity|rewrite E; reflexivity|rewrite E; reflexivity|rewrite E; discriminate].
  - reflexivity.
  - discriminate.
  - exact (with_upcall_vm _ _ _ _ _ Hvm).
  - reflexivity.
  - set_solver.
  - reflexivity.
  - discriminate.
  - vm_compute. reflexivity.
  - reflexivity.
  - exists s0, s'. exact (conj H (conj (Hwords 0%nat _ eq_refl) (Hwords 12%nat _ eq_refl))).
Defined.
