(* ===== verification/PmapChecksSpec.v ===== *)
(** * Properties of the self-tests

    What the kernel's own checks do to a free list that is well formed: they
    pass, and they put everything back. *)
From S2P Require Import Prelude Mmu Mem Console Kstate Pmap PmapAlloc PmapSpace PmapMap Env PmapChecks.

(** ** A walk along the free list *)

(** [inv done rest s a]: the state before the turn for the head of [rest]. *)
Lemma for_free_list_ok {A} (inv : list Z -> list Z -> kstate -> A -> Prop) (body : Z -> A -> K A) l s a :
  Z.of_nat (length l) <= 0x100000 -> inv [] l s a ->
  (forall done i rest s a, done ++ i :: rest = l -> inv done (i :: rest) s a ->
     exists s' a' p, body i a s = Ret a' s' /\ pages s' !! i = Some p /\ pp_link p = head rest /\
       inv (done ++ [i]) rest s' a') ->
  exists s' a', for_free_list body (head l) a s = Ret a' s' /\ inv l [] s' a'.
Proof.
  intros Hlen Hinv Hstep.
  assert (H : forall rest dn s a, dn ++ rest = l -> inv dn rest s a -> exists s' a',
    kloop_nat (S (length rest)) (fun '(pp, a) =>
      match pp with
      | None => ret (inr a)
      | Some i => a <- body i a ;; p <- get_page i ;; ret (inl (pp_link p, a))
      end) (head rest, a) s = Ret (inr a') s' /\ inv l [] s' a').
  { induction rest as [|i rest IH]; intros dn s0 a0 Hl Hi.
    - exists s0, a0. rewrite app_nil_r in Hl. subst dn. done.
    - destruct (Hstep dn i rest s0 a0 Hl Hi) as (s1 & a1 & p & Hb & Hp & Hlink & Hi1).
      destruct (IH (dn ++ [i]) s1 a1) as (s' & a' & H & Hi'); [by rewrite <- app_assoc|done|].
      exists s', a'. split; [|done]. remember (S (length rest)) as n. simpl.
      rewrite bind_assoc, (bind_ret _ _ _ _ _ Hb), bind_assoc.
      erewrite bind_ret by (by apply get_page_eq). rewrite bind_ret_l, Hlink. subst n. exact H. }
  destruct (H l [] s a eq_refl Hinv) as (s' & a' & Hr & Hi'). exists s', a'. split; [|done].
  unfold for_free_list. by rewrite (bind_ret _ _ _ _ _ (kloop_exit _ 0x100001 _ _ _ _ _ Hr ltac:(lia))).
Qed.

Lemma flist_head pg h l : flist pg h l -> h = head l.
Proof. destruct l; simpl; [done|]. by intros [-> _]. Qed.

(** A walk that changes nothing. *)
Lemma for_free_list_pure {A} (f : Z -> A -> A) (body : Z -> A -> K A) l h s a :
  flist (pages s) h l -> Z.of_nat (length l) <= 0x100000 ->
  (forall i a, i ∈ l -> body i a s = Ret (f i a) s) ->
  for_free_list body h a s = Ret (fold_left (fun a i => f i a) l a) s.
Proof.
  intros Hl Hlen Hb.
  destruct (for_free_list_ok (fun dn rest s' a' => s' = s /\ flist (pages s) (head rest) rest /\
    a' = fold_left (fun a i => f i a) dn a) body l s a) as (s' & a' & H & -> & _ & ->).
  - done.
  - split; [done|]. split; [|done]. by rewrite <- (flist_head _ _ _ Hl).
  - intros dn i rest s0 a0 Hdl (-> & (_ & p & Hp & _ & Hr) & ->).
    eexists s, _, p. split; [apply Hb; rewrite <- Hdl; set_solver|]. split; [done|].
    split; [by apply flist_head in Hr|]. split; [done|]. rewrite <- (flist_head _ _ _ Hr), fold_left_app. done.
  - by rewrite (flist_head _ _ _ Hl).
Qed.

Lemma nodup_length (l : list Z) n : NoDup l -> 0 <= n -> (forall i, i ∈ l -> 0 <= i < n) -> Z.of_nat (length l) <= n.
Proof.
  intros Hd Hn Hr. assert (Hsub : l ⊆+ seqZ 0 n).
  { apply NoDup_submseteq; [done|]. intros i Hi. apply elem_of_seqZ. specialize (Hr i Hi). lia. }
  apply submseteq_length in Hsub. rewrite length_seqZ in Hsub. lia.
Qed.

Lemma alloc_ok_length s l : alloc_ok s l -> Z.of_nat (length l) <= 65536.
Proof.
  intros Hok. pose proof (ao_pages _ _ Hok) as [? _].
  assert (Z.of_nat (length l) <= npages s); [|lia].
  apply nodup_length; [by apply (ao_nodup _ _ Hok)|lia|]. intros i Hi. by eapply alloc_ok_range.
Qed.

Lemma count_free_ok s h l :
  flist (pages s) h l -> Z.of_nat (length l) <= 65536 -> page_free_list s = h ->
  count_free s = Ret (Z.of_nat (length l)) s.
Proof.
  intros Hl Hlen <-. unfold count_free. kpure.
  rewrite (for_free_list_pure (fun _ n => n + 1) _ l _ s 0 Hl) by (lia || done). f_equal.
  assert (H : forall l k, fold_left (fun (a _ : Z) => a + 1) l k = k + Z.of_nat (length l)).
  { clear. induction l as [|x l IH]; intros k; simpl; [lia|]. rewrite IH. lia. }
  by rewrite H.
Qed.

(** ** The reordering of the free list *)

(** From location [self], which holds [v], the links lead through the pages
    [lst] to location [loc], which holds [w]. *)
Fixpoint chain (pg : gmap Z PageInfo) (self : pploc) (v : option Z) (lst : list Z) (loc : pploc) (w : option Z) : Prop :=
  match lst with
  | [] => loc = self /\ w = v
  | x :: lst => v = Some x /\ exists p, pg !! x = Some p /\ pp_ref p = 0 /\ chain pg (LLink x) (pp_link p) lst loc w
  end.

Lemma chain_loc pg self v lst loc w : chain pg self v lst loc w -> loc = self \/ exists x, x ∈ lst /\ loc = LLink x.
Proof.
  revert self v. induction lst as [|x lst IH]; intros self v; simpl; [by intros [-> _]; left|].
  intros (_ & p & _ & _ & H). right. destruct (IH _ _ H) as [->|(y & ? & ->)]; [exists x|exists y]; set_solver.
Qed.

Lemma chain_other pg self v lst loc w i p : i ∉ lst -> chain pg self v lst loc w -> chain (<[i := p]> pg) self v lst loc w.
Proof.
  revert self v. induction lst as [|x lst IH]; intros self v Hi; simpl; [done|].
  apply not_elem_of_cons in Hi as [? ?]. intros (-> & q & Hq & Hr & Hch). split; [done|].
  exists q. rewrite lookup_insert_ne by done. auto.
Qed.

Lemma chain_snoc pg self v lst loc i p :
  chain pg self v lst loc (Some i) -> pg !! i = Some p -> pp_ref p = 0 ->
  chain pg self v (lst ++ [i]) (LLink i) (pp_link p).
Proof.
  intros H Hp Hr. revert self v H. induction lst as [|x lst IH]; intros self v; simpl.
  - intros [_ <-]. split; [done|]. by exists p.
  - intros (-> & q & Hq & Hrq & H). split; [done|]. exists q. auto.
Qed.

Lemma chain_flist pg self v lst loc w l : chain pg self v lst loc w -> flist pg w l -> flist pg v (lst ++ l).
Proof.
  intros H Hl. revert self v H. induction lst as [|x lst IH]; intros self v; simpl; [by intros [_ <-]|].
  intros (-> & p & Hp & Hr & H). split; [done|]. exists p. eauto.
Qed.

(** Writing at the end of a chain of at least one page. *)
Lemma chain_write_link pg self v lst x w v0 :
  NoDup lst -> chain pg self v lst (LLink x) w -> self <> LLink x ->
  exists p, pg !! x = Some p /\ x ∈ lst /\ chain (<[x := set_pp_link v0 p]> pg) self v lst (LLink x) v0.
Proof.
  revert self v. induction lst as [|y lst IH]; intros self v Hnd; simpl; [by intros [<- _]|].
  apply NoDup_cons in Hnd as [Hy Hnd]. intros (-> & p & Hp & Hr & H) Hself.
  destruct (decide (x = y)) as [->|Hne].
  - exists p. split; [done|]. split; [set_solver|]. split; [done|]. eexists. rewrite lookup_insert_eq.
    split; [done|]. split; [done|]. destruct lst as [|z lst]; [done|].
    exfalso. destruct (chain_loc _ _ _ _ _ _ H) as [E|(u & Hu & [= ->])]; [|done].
    simpl in H. destruct H as (_ & q & _ & _ & H).
    destruct (chain_loc _ _ _ _ _ _ H) as [[= ->]|(u & Hu & [= ->])]; set_solver.
  - destruct (IH (LLink y) (pp_link p) Hnd H) as (q & Hq & Hin & Hc); [congruence|].
    exists q. split; [done|]. split; [set_solver|]. split; [done|]. exists p.
    rewrite lookup_insert_ne by done. auto.
Qed.

Section reorder.
Context (s0 : kstate) (l : list Z) (lim : Z).
Context (Hok : alloc_ok s0 l).

Definition low (dn : list Z) : list Z := filter (fun i => is_high lim i = false) dn.
Definition high (dn : list Z) : list Z := filter (fun i => is_high lim i = true) dn.

Lemma low_snoc dn i : low (dn ++ [i]) = if is_high lim i then low dn else low dn ++ [i].
Proof.
  unfold low. rewrite filter_app. destruct (is_high lim i) eqn:E.
  - rewrite filter_cons_False by congruence. simpl. by rewrite app_nil_r.
  - by rewrite filter_cons_True.
Qed.
Lemma high_snoc dn i : high (dn ++ [i]) = if is_high lim i then high dn ++ [i] else high dn.
Proof.
  unfold high. rewrite filter_app. destruct (is_high lim i) eqn:E.
  - by rewrite filter_cons_True.
  - rewrite filter_cons_False by congruence. simpl. by rewrite app_nil_r.
Qed.
Lemma low_nodup dn : NoDup dn -> NoDup (low dn).
Proof. apply NoDup_filter. Qed.
Lemma high_nodup dn : NoDup dn -> NoDup (high dn).
Proof. apply NoDup_filter. Qed.
Lemma low_high_disj dn x : x ∈ low dn -> x ∈ high dn -> False.
Proof. unfold low, high. rewrite !list_elem_of_filter. intros [? _] [? _]. congruence. Qed.

(** The state after the pages [dn] have been distributed. *)
Record distributed (dn : list Z) (s : kstate) (r : reorder) (w1 w2 : option Z) : Prop := {
  di_frame : same_but_pages s0 s;
  di_nodup : NoDup dn;
  di_other j : j ∉ dn -> pages s !! j = pages s0 !! j;
  di_dom j : is_Some (pages s !! j) <-> is_Some (pages s0 !! j);
  di_low : chain (pages s) (LVar false) (pp1 r) (low dn) (tp0 r) w1;
  di_high : chain (pages s) (LVar true) (pp2 r) (high dn) (tp1 r) w2 }.

(** A write at the end of either list. *)
Lemma write_low dn s r w1 w2 v :
  distributed dn s r w1 w2 ->
  exists s' r', write_loc (tp0 r) v r s = Ret r' s' /\ distributed dn s' r' v w2 /\ tp0 r' = tp0 r /\ tp1 r' = tp1 r /\
    pp2 r' = pp2 r.
Proof.
  intros [Hf Hnd Ho Hd Hl Hh]. destruct (chain_loc _ _ _ _ _ _ Hl) as [E|(x & Hx & E)]; rewrite E.
  - exists s, (mkReorder v (pp2 r) (tp0 r) (tp1 r)). split; [done|]. split; [|done]. split; try done. simpl.
    rewrite E in Hl |- *. destruct (low dn) as [|y lo]; simpl in *; [done|].
    destruct Hl as (_ & p & _ & _ & H). by destruct (chain_loc _ _ _ _ _ _ H) as [?|(? & _ & ?)].
  - rewrite E in Hl. destruct (chain_write_link _ _ _ _ _ _ v (low_nodup _ Hnd) Hl ltac:(done)) as (p & Hp & _ & Hc).
    exists (set_pages (<[x := set_pp_link v p]> (pages s)) s), r.
    split; [simpl; by erewrite bind_ret by (by apply upd_page_eq)|]. split; [|done]. split.
    + etrans; [exact Hf|]. apply sbp_pages.
    + done.
    + intros j Hj. simpl. rewrite lookup_insert_ne; [by apply Ho|]. intros ->. apply Hj.
      by apply list_elem_of_filter in Hx as [_ ?].
    + intros j. simpl. rewrite <- Hd, lookup_insert_is_Some. destruct (decide (x = j)) as [->|]; [|naive_solver].
      rewrite Hp. split; [by eexists|by left].
    + simpl. by rewrite E.
    + simpl. apply chain_other; [|done]. intros Hx'. by eapply low_high_disj.
Qed.

Lemma write_high dn s r w1 w2 v :
  distributed dn s r w1 w2 ->
  exists s' r', write_loc (tp1 r) v r s = Ret r' s' /\ distributed dn s' r' w1 v /\ tp0 r' = tp0 r /\ tp1 r' = tp1 r.
Proof.
  intros [Hf Hnd Ho Hd Hl Hh]. destruct (chain_loc _ _ _ _ _ _ Hh) as [E|(x & Hx & E)]; rewrite E.
  - exists s, (mkReorder (pp1 r) v (tp0 r) (tp1 r)). split; [done|]. split; [|done]. split; try done. simpl.
    rewrite E in Hh |- *. destruct (high dn) as [|y hi]; simpl in *; [done|].
    destruct Hh as (_ & p & _ & _ & H). by destruct (chain_loc _ _ _ _ _ _ H) as [?|(? & _ & ?)].
  - rewrite E in Hh. destruct (chain_write_link _ _ _ _ _ _ v (high_nodup _ Hnd) Hh ltac:(done)) as (p & Hp & _ & Hc).
    exists (set_pages (<[x := set_pp_link v p]> (pages s)) s), r.
    split; [simpl; by erewrite bind_ret by (by apply upd_page_eq)|]. split; [|done]. split.
    + etrans; [exact Hf|]. apply sbp_pages.
    + done.
    + intros j Hj. simpl. rewrite lookup_insert_ne; [by apply Ho|]. intros ->. apply Hj.
      by apply list_elem_of_filter in Hx as [_ ?].
    + intros j. simpl. rewrite <- Hd, lookup_insert_is_Some. destruct (decide (x = j)) as [->|]; [|naive_solver].
      rewrite Hp. split; [by eexists|by left].
    + simpl. apply chain_other; [|done]. intros Hx'. by eapply low_high_disj.
    + simpl. by rewrite E.
Qed.

Lemma reorder_step_ok dn i s r w1 w2 p :
  distributed dn s r w1 w2 -> i ∉ dn -> pages s0 !! i = Some p -> pp_ref p = 0 ->
  exists s' r' w1' w2', reorder_step lim i r s = Ret r' s' /\ pages s' !! i = Some p /\
    distributed (dn ++ [i]) s' r' w1' w2'.
Proof.
  intros Hdi Hi Hp Hr. unfold reorder_step.
  assert (Hnd : NoDup (dn ++ [i])).
  { apply NoDup_app. split; [apply (di_nodup _ _ _ _ _ Hdi)|]. split; [|apply NoDup_singleton].
    intros x Hx ->%list_elem_of_singleton. done. }
  destruct (is_high lim i) eqn:E.
  - destruct (write_high dn s r w1 w2 (Some i) Hdi) as (s' & r' & H & [Hf _ Ho Hd Hl Hh] & Ht & Ht').
    rewrite (bind_ret _ _ _ _ _ H). assert (Hp' : pages s' !! i = Some p) by (by rewrite Ho).
    eexists s', _, w1, (pp_link p). split; [done|]. split; [done|]. split; try done.
    + intros j [? _]%not_elem_of_app. by apply Ho.
    + rewrite low_snoc, E. done.
    + rewrite high_snoc, E. by eapply chain_snoc.
  - destruct (write_low dn s r w1 w2 (Some i) Hdi) as (s' & r' & H & [Hf _ Ho Hd Hl Hh] & Ht & Ht' & _).
    rewrite (bind_ret _ _ _ _ _ H). assert (Hp' : pages s' !! i = Some p) by (by rewrite Ho).
    eexists s', _, (pp_link p), w2. split; [done|]. split; [done|]. split; try done.
    + intros j [? _]%not_elem_of_app. by apply Ho.
    + rewrite low_snoc, E. by eapply chain_snoc.
    + rewrite high_snoc, E. done.
Qed.

Lemma reorder_free_list_ok u1 u2 :
  exists s', reorder_free_list u1 u2 lim s0 = Ret tt s' /\ alloc_ok s' (low l ++ high l) /\ same_but_pages s0 s' /\
    (forall j, j ∉ l -> pages s' !! j = pages s0 !! j).
Proof.
  pose proof Hok as [Hpok Hfl Hnd Hused]. unfold reorder_free_list. kpure.
  destruct (for_free_list_ok (fun dn rest s r => flist (pages s0) (head rest) rest /\ exists w1 w2, distributed dn s r w1 w2)
    (reorder_step lim) l s0 (mkReorder u1 u2 (LVar false) (LVar true))) as (s1 & r1 & H1 & _ & w1 & w2 & Hdi1).
  - pose proof (alloc_ok_length _ _ Hok). lia.
  - split; [by rewrite <- (flist_head _ _ _ Hfl)|]. exists u1, u2. split; try done. apply NoDup_nil_2.
  - intros dn i rest s r Hdl ((_ & p & Hp & Hr & Hrest) & w1 & w2 & Hdi).
    assert (Hi : i ∉ dn).
    { rewrite <- Hdl in Hnd. apply NoDup_app in Hnd as (_ & Hx & _). intros Hi. apply (Hx i Hi). set_solver. }
    destruct (reorder_step_ok dn i s r w1 w2 p Hdi Hi Hp Hr) as (s' & r' & w1' & w2' & H & Hp' & Hdi').
    exists s', r', p. split; [done|]. split; [done|]. split; [by eapply flist_head|].
    rewrite <- (flist_head _ _ _ Hrest). split; [done|]. by exists w1', w2'.
  - rewrite (flist_head _ _ _ Hfl), (bind_ret _ _ _ _ _ H1).
    destruct (write_high _ _ _ _ _ None Hdi1) as (s2 & r2 & H2 & Hdi2 & _).
    rewrite (bind_ret _ _ _ _ _ H2).
    destruct (write_low _ _ _ _ _ (pp2 r2) Hdi2) as (s3 & r3 & H3 & [Hf _ Ho Hd Hl Hh] & _ & _ & Hp2).
    rewrite (bind_ret _ _ _ _ _ H3). exists (set_page_free_list (pp1 r3) s3). split; [done|].
    destruct Hf as (fl & pg & ->). split; [|split].
    + assert (Hmem : forall j, j ∈ low l ++ high l <-> j ∈ l).
      { intros j. rewrite elem_of_app. unfold low, high. rewrite !list_elem_of_filter. destruct (is_high lim j); naive_solver. }
      split.
      * destruct Hpok as [? Hp]. split; [done|]. intros j. rewrite <- Hp. apply Hd.
      * simpl. eapply chain_flist; [exact Hl|]. rewrite <- Hp2, <- (app_nil_r (high l)). by eapply chain_flist.
      * apply NoDup_app. split; [by apply low_nodup|]. split; [|by apply high_nodup].
        intros x Hx Hx'. by eapply low_high_disj.
      * intros j p Hj Hjl. rewrite Hmem in Hjl. simpl in Hj. simpl in Ho. rewrite Ho in Hj by done. by eapply Hused.
    + by exists (pp1 r3), pg.
    + intros j Hj. simpl. by apply Ho.
Qed.
End reorder.

(** The reordering at the start of check_page_free_list, with its pointers to
    pointers, is a stable partition: the pages below [lim] come first, each part in
    the order it had, no page is lost or doubled and nothing else changes. *)
Theorem reorder_free_list_partition s l lim u1 u2 :
  alloc_ok s l ->
  exists s', reorder_free_list u1 u2 lim s = Ret tt s' /\ alloc_ok s' (low lim l ++ high lim l) /\
    low lim l ++ high lim l ≡ₚ l /\ same_but_pages s s' /\ (forall j, j ∉ l -> pages s' !! j = pages s !! j).
Proof.
  intros Hok. destruct (reorder_free_list_ok s l lim Hok u1 u2) as (s' & H & Hok' & Hf & Ho).
  exists s'. split; [done|]. split; [done|]. split; [|done]. unfold low, high. clear.
  induction l as [|x l IH]; [done|]. rewrite !filter_cons. destruct (is_high lim x) eqn:E; simpl.
  - rewrite <- Permutation_middle. by constructor.
  - by constructor.
Qed.

(** ** check_page_alloc *)

(** The pages [X] are in the kernel's hands, without references; [l] is the
    free list and [l0] the list put aside, which begins at [h0].  The state is
    [s0] but for the descriptors of [T]. *)
Record held (s0 : kstate) (T X l : list Z) (h0 : option Z) (l0 : list Z) (s : kstate) : Prop := {
  he_pages : pages_ok s;
  he_list : flist (pages s) (page_free_list s) l;
  he_aside : flist (pages s) h0 l0;
  he_nodup : NoDup (X ++ l ++ l0);
  he_held x : x ∈ X -> pages s !! x = Some (mkPage None 0);
  he_other j : j ∉ T -> pages s !! j = pages s0 !! j;
  he_sub : X ⊆ T }.

Section held.
Context (s0 : kstate) (T : list Z) (h0 : option Z) (l0 : list Z).

Lemma held_frame X l s s' :
  pages s' = pages s -> page_free_list s' = page_free_list s -> npages s' = npages s ->
  held s0 T X l h0 l0 s -> held s0 T X l h0 l0 s'.
Proof.
  intros Hp Hf Hn [[H1 H2] Hl Ha Hnd Hh Ho Hs]. split; unfold pages_ok; rewrite ?Hp, ?Hf, ?Hn; done.
Qed.

Lemma held_update X i l X' l' s p fl :
  held s0 T X l h0 l0 s -> i ∈ T -> i ∈ X ++ l -> flist (<[i := p]> (pages s)) fl l' ->
  X' ++ l' ≡ₚ X ++ l -> (forall x, x ∈ X' -> x = i \/ x ∈ X) -> (i ∈ X' -> p = mkPage None 0) ->
  held s0 T X' l' h0 l0 (set_page_free_list fl (set_pages (<[i := p]> (pages s)) s)).
Proof.
  intros [Hpok Hl Ha Hnd Hh Ho Hs] HiT Hi Hl' Hperm HX' Hp.
  assert (Hi0 : i ∉ l0).
  { rewrite app_assoc in Hnd. apply NoDup_app in Hnd as (_ & H & _). by apply H. }
  assert (Hex : exists q, pages s !! i = Some q).
  { apply elem_of_app in Hi as [Hi|Hi]; [rewrite (Hh i Hi); by eexists|].
    destruct (flist_dom _ _ _ _ Hl Hi) as (q & ? & _). by exists q. }
  destruct Hex as [q Hq]. split.
  - destruct (pages_ok_upd s i p q Hpok Hq) as [? ?]. by split.
  - done.
  - simpl. by apply flist_insert.
  - rewrite app_assoc, Hperm, <- app_assoc. done.
  - intros x Hx. simpl. destruct (decide (i = x)) as [->|Hne].
    + rewrite lookup_insert_eq. f_equal. by apply Hp.
    + rewrite lookup_insert_ne by done. destruct (HX' x Hx) as [->|?]; [done|by apply Hh].
  - intros j Hj. simpl. rewrite lookup_insert_ne; [by apply Ho|]. by intros ->.
  - intros j Hj. destruct (HX' j Hj) as [->|?]; [done|by apply Hs].
Qed.

Lemma held_alloc X i l s flags :
  held s0 T X (i :: l) h0 l0 s -> i ∈ T ->
  exists s', page_alloc flags s = Ret (Some i) s' /\ held s0 T (i :: X) l h0 l0 s' /\
    mem s' = if has flags ALLOC_ZERO then fill (mem s) (4096 * i) 0 4096 else mem s.
Proof.
  intros H HiT. pose proof H as [Hpok (Hfl & p & Hi & Hr & Hl) _ Hnd _ _ _].
  assert (Hrange : 0 <= i < npages s) by (by eapply pages_ok_range).
  assert (Hil : i ∉ l).
  { apply NoDup_app in Hnd as (_ & _ & Hnd). apply NoDup_app in Hnd as (Hnd & _ & _). by apply NoDup_cons in Hnd as [? _]. }
  set (s1 := if has flags ALLOC_ZERO then set_mem (fill (mem s) (4096 * i) 0 4096) s else s).
  assert (Hz : (if has flags ALLOC_ZERO then kva <- page2kva i;; kmemset kva 0 PGSIZE else ret tt) s = Ret tt s1).
  { unfold s1. destruct (has flags ALLOC_ZERO); [|done]. erewrite bind_ret by (by apply page2kva_eq).
    unfold kmemset. destruct (Z.ltb_spec (4096 * i + KERNBASE) KERNBASE); [lia|].
    by replace (4096 * i + KERNBASE - KERNBASE) with (4096 * i) by lia. }
  assert (H1 : held s0 T X (i :: l) h0 l0 s1) by (eapply held_frame; [..|exact H]; unfold s1; by case_match).
  assert (Hp1 : pages s1 = pages s) by (unfold s1; by case_match).
  assert (Hm1 : mem s1 = if has flags ALLOC_ZERO then fill (mem s) (4096 * i) 0 4096 else mem s) by (unfold s1; by case_match).
  clearbody s1. exists (set_page_free_list (pp_link p) (set_pages (<[i := set_pp_link None p]> (pages s1)) s1)).
  split; [|split].
  - unfold page_alloc. kpure. rewrite Hfl, (bind_ret _ _ _ _ _ Hz).
    erewrite bind_ret by (apply get_page_eq; by rewrite Hp1). kpure.
    by erewrite bind_ret by (apply upd_page_eq; simpl; by rewrite Hp1).
  - apply (held_update X i (i :: l)); [done|done|set_solver| | | |].
    + rewrite Hp1. by apply flist_insert.
    + simpl. apply Permutation_middle.
    + set_solver.
    + intros _. unfold set_pp_link. by rewrite Hr.
  - done.
Qed.

Lemma held_alloc_none X s flags : held s0 T X [] h0 l0 s -> page_alloc flags s = Ret None s.
Proof. intros H. pose proof (he_list _ _ _ _ _ _ _ H) as Hl. simpl in Hl. unfold page_alloc. kpure. by rewrite Hl. Qed.

Lemma held_free X i X' l s :
  held s0 T X l h0 l0 s -> X ≡ₚ i :: X' ->
  exists s', page_free i s = Ret tt s' /\ held s0 T X' (i :: l) h0 l0 s' /\ mem s' = mem s.
Proof.
  intros H HX. pose proof H as [_ Hl _ Hnd Hh _ Hsub].
  assert (Hi : i ∈ X) by (rewrite HX; set_solver). pose proof (Hh i Hi) as Hp.
  assert (HiX' : i ∉ X' /\ i ∉ l).
  { rewrite HX in Hnd. simpl in Hnd. apply NoDup_cons in Hnd as [Hn _]. set_solver. }
  exists (free_post i (mkPage None 0) s). split; [by apply page_free_eq|]. split; [|done].
  unfold free_post. apply (held_update X i l); [done|by apply Hsub|set_solver| | | |].
  - split; [done|]. eexists. rewrite lookup_insert_eq. split; [done|]. split; [done|]. simpl.
    apply flist_insert; [by destruct HiX'|done].
  - rewrite HX. simpl. symmetry. apply Permutation_middle.
  - intros x Hx. right. rewrite HX. set_solver.
  - intros Hx. by destruct HiX'.
Qed.

(** The three assertions on the pages allocated. *)
Lemma held_kva X l s i : held s0 T X l h0 l0 s -> i ∈ X -> page2kva i s = Ret (4096 * i + KERNBASE) s /\ 0 <= i < npages s.
Proof.
  intros H Hi. pose proof (he_held _ _ _ _ _ _ _ H i Hi) as Hp. pose proof (he_pages _ _ _ _ _ _ _ H) as Hok.
  assert (0 <= i < npages s) by (by eapply pages_ok_range). split; [by apply page2kva_eq|done].
Qed.
End held.

Lemma kassert_true b s : b = true -> kassert b s = Ret tt s.
Proof. by intros ->. Qed.

Lemma in_memory_ok s i : pages_ok s -> 0 <= i < npages s -> in_memory i s = Ret tt s.
Proof.
  intros [Hn _] Hi. unfold in_memory. kpure. apply kassert_true. rewrite page2pa_eq by lia.
  unfold PGSIZE. rewrite u32_small by lia. lia.
Qed.

Lemma check_zeroed_ok s c m :
  KERNBASE <= c -> mem s = fill m (c - KERNBASE) 0 4096 -> check_zeroed c s = Ret tt s.
Proof.
  intros Hc Hm. unfold check_zeroed.
  destruct (for_each_seqZ (fun _ s' => s' = s) 0 PGSIZE
    (fun i => v <- kload8 (c + i) ;; kassert (v =? 0)) s) as (s' & H & ->); [done|done| |done].
  unfold PGSIZE. intros i s' Hi ->. exists s. split; [|done]. unfold bind, kload8.
  destruct (Z.ltb_spec (c + i) KERNBASE); [lia|]. apply kassert_true. rewrite Hm, load8_fill.
  by rewrite decide_True by lia.
Qed.

(** The rest of the free list is put aside, and comes back. *)
Lemma held_aside s0 T X l s :
  held s0 T X l None [] s -> held s0 T X [] (page_free_list s) l (set_page_free_list None s).
Proof.
  intros [[Hn Hd] Hl _ Hnd Hh Ho Hs]. split; try done. by rewrite app_nil_r in Hnd.
Qed.

Lemma held_restore s0 T X h0 l0 s :
  held s0 T X [] h0 l0 s -> held s0 T X l0 None [] (set_page_free_list h0 s).
Proof.
  intros [[Hn Hd] _ Ha Hnd Hh Ho Hs]. split; try done. by rewrite app_nil_r.
Qed.

Lemma flist_same pg pg' h l i : flist pg h l -> flist pg' h l -> i ∈ l -> pg !! i = pg' !! i.
Proof.
  revert h. induction l as [|j l IH]; intros h; [set_solver|].
  intros (_ & p & Hp & Hr & Hl) (_ & q & Hq & Hr' & Hl') Hi.
  assert (E : pp_link p = pp_link q) by (by rewrite (flist_head _ _ _ Hl), (flist_head _ _ _ Hl')).
  apply elem_of_cons in Hi as [->|Hi].
  - rewrite Hp, Hq. destruct p, q. simpl in *. congruence.
  - apply (IH (pp_link p)); [done|by rewrite E|done].
Qed.

(** When every page is back, nothing has changed. *)
Lemma held_done s0 T l s :
  alloc_ok s0 l -> T ⊆ l -> page_free_list s = page_free_list s0 -> held s0 T [] l None [] s ->
  alloc_ok s l /\ forall j, pages s !! j = pages s0 !! j.
Proof.
  intros [_ Hfl _ Hu] HT Hfr [Hp Hl _ Hnd _ Ho _]. rewrite Hfr in Hl.
  assert (Heq : forall j, pages s !! j = pages s0 !! j).
  { intros j. destruct (decide (j ∈ l)) as [Hj|Hj]; [by eapply flist_same|apply Ho; set_solver]. }
  split; [|done]. split; [done|by rewrite Hfr|by rewrite app_nil_r in Hnd|].
  intros j p. rewrite Heq. apply Hu.
Qed.

Lemma alloc_assert_ok flags i s s' : page_alloc flags s = Ret (Some i) s' -> alloc_assert flags s = Ret i s'.
Proof. intros H. unfold alloc_assert. by rewrite (bind_ret _ _ _ _ _ H). Qed.

Lemma no_free_page_ok s0 T X h0 l0 s : held s0 T X [] h0 l0 s -> no_free_page s = Ret tt s.
Proof. intros H. unfold no_free_page. by rewrite (bind_ret _ _ _ _ _ (held_alloc_none _ _ _ _ _ _ 0 H)). Qed.

Lemma held_memory s0 T X l h0 l0 s i : held s0 T X l h0 l0 s -> i ∈ X -> in_memory i s = Ret tt s.
Proof. intros H Hi. apply in_memory_ok; [apply H|by apply (held_kva _ _ _ _ _ _ _ _ H)]. Qed.

(** An assertion that the page numbers are distinct. *)
Ltac distinct := match goal with |- context [bind (kassert ?b) ?f ?s] =>
    replace b with true by (repeat match goal with |- context [?x =? ?y] => destruct (Z.eqb_spec x y); [congruence|] end; done);
    change (bind (kassert true) f s) with (bind (ret tt) f s); kpure
  end.

(** A call that returns. *)
Ltac kdo H := rewrite (bind_ret _ _ _ _ _ H); kpure.

(** Three pages freed and allocated again. *)
Lemma free_three s0 T X a b c l h0 l0 s :
  held s0 T X l h0 l0 s -> X ≡ₚ [a; b; c] ->
  exists s1 s2 s3, page_free a s = Ret tt s1 /\ page_free b s1 = Ret tt s2 /\ page_free c s2 = Ret tt s3 /\
    held s0 T [] (c :: b :: a :: l) h0 l0 s3 /\ mem s3 = mem s.
Proof.
  intros H HX. destruct (held_free _ _ _ _ _ a [b; c] _ _ H HX) as (s1 & H1 & Hh1 & M1).
  destruct (held_free _ _ _ _ _ b [c] _ _ Hh1) as (s2 & H2 & Hh2 & M2); [done|].
  destruct (held_free _ _ _ _ _ c [] _ _ Hh2) as (s3 & H3 & Hh3 & M3); [done|].
  exists s1, s2, s3. do 4 (split; [done|]). by rewrite M3, M2, M1.
Qed.

Lemma alloc_three s0 T a b c l h0 l0 s :
  held s0 T [] (a :: b :: c :: l) h0 l0 s -> a ∈ T -> b ∈ T -> c ∈ T ->
  exists s1 s2 s3, page_alloc 0 s = Ret (Some a) s1 /\ page_alloc 0 s1 = Ret (Some b) s2 /\
    page_alloc 0 s2 = Ret (Some c) s3 /\ held s0 T [c; b; a] l h0 l0 s3 /\ mem s3 = mem s.
Proof.
  intros H Ha Hb Hc. destruct (held_alloc _ _ _ _ _ _ _ _ 0 H Ha) as (s1 & H1 & Hh1 & M1).
  destruct (held_alloc _ _ _ _ _ _ _ _ 0 Hh1 Hb) as (s2 & H2 & Hh2 & M2).
  destruct (held_alloc _ _ _ _ _ _ _ _ 0 Hh2 Hc) as (s3 & H3 & Hh3 & M3).
  exists s1, s2, s3. do 4 (split; [done|]). by rewrite M3, M2, M1.
Qed.

(** On a well-formed free list of at least three pages check_page_alloc
    passes, and leaves the free list and the page descriptors exactly as they were:
    of the memory it touches, only the third page is cleared. *)
Theorem check_page_alloc_passes s a b c l :
  alloc_ok s (a :: b :: c :: l) ->
  exists s', check_page_alloc s = Ret tt s' /\ alloc_ok s' (a :: b :: c :: l) /\
    (forall j, pages s' !! j = pages s !! j) /\
    (forall x, x < 4096 * c \/ 4096 * c + 4096 <= x -> load8 (mem s') x = load8 (mem s) x).
Proof.
  intros Hok. pose proof (alloc_ok_length _ _ Hok) as Hlen. pose proof Hok as [Hpok Hfl Hnd0 Hused].
  assert (Hnd : a <> b /\ a <> c /\ b <> c).
  { apply NoDup_cons in Hnd0 as [Ha Hnd0]. apply NoDup_cons in Hnd0 as [Hb _]. set_solver. }
  destruct Hnd as (Hab & Hac & Hbc).
  assert (Hsub : [a; b; c] ⊆ a :: b :: c :: l) by set_solver.
  assert (H0 : held s [a; b; c] [] (a :: b :: c :: l) None [] s) by (split; rewrite ?app_nil_r; done || set_solver).
  destruct (alloc_three _ _ _ _ _ _ _ _ _ H0) as (s1 & s2 & s3 & H1 & H2 & H3 & Hh3 & M3); [repeat constructor..|].
  pose proof (held_aside _ _ _ _ _ Hh3) as Hh4.
  set (s4 := set_page_free_list None s3) in *.
  destruct (free_three _ _ _ a b c _ _ _ _ Hh4) as (s5 & s6 & s7 & H5 & H6 & H7 & Hh7 & M7); [by solve_Permutation|].
  destruct (alloc_three _ _ _ _ _ _ _ _ _ Hh7) as (s8 & s9 & s10 & H8 & H9 & H10 & Hh10 & M10); [repeat constructor..|].
  destruct (held_kva _ _ _ _ _ _ _ c Hh10) as [Hkc Hrc]; [repeat constructor|].
  set (s11 := set_mem (fill (mem s10) (4096 * c) 1 4096) s10).
  assert (Hh11 : held s [a; b; c] [a; b; c] [] (page_free_list s3) l s11) by (by apply (held_frame s _ _ _ _ _ s10)).
  destruct (held_free _ _ _ _ _ c [a; b] _ _ Hh11) as (s12 & H12 & Hh12 & M12); [by solve_Permutation|].
  destruct (held_alloc _ _ _ _ _ _ _ _ ALLOC_ZERO Hh12) as (s13 & H13 & Hh13 & M13); [repeat constructor|].
  pose proof (held_restore _ _ _ _ _ _ Hh13) as Hh14. set (s14 := set_page_free_list (page_free_list s3) s13) in *.
  destruct (free_three _ _ _ c b a _ _ _ _ Hh14) as (s15 & s16 & s17 & H15 & H16 & H17 & Hh17 & M17); [by solve_Permutation|].
  unfold check_page_alloc. kdo (count_free_ok s _ _ Hfl Hlen eq_refl).
  kdo (alloc_assert_ok _ _ _ _ H1). kdo (alloc_assert_ok _ _ _ _ H2). kdo (alloc_assert_ok _ _ _ _ H3).
  do 2 distinct.
  kdo (held_memory _ _ _ _ _ _ _ a Hh3 ltac:(repeat constructor)). kdo (held_memory _ _ _ _ _ _ _ b Hh3 ltac:(repeat constructor)).
  kdo (held_memory _ _ _ _ _ _ _ c Hh3 ltac:(repeat constructor)). fold s4.
  kdo (no_free_page_ok _ _ _ _ _ _ Hh4). kdo H5. kdo H6. kdo H7.
  kdo (alloc_assert_ok _ _ _ _ H8). kdo (alloc_assert_ok _ _ _ _ H9). kdo (alloc_assert_ok _ _ _ _ H10).
  do 2 distinct. kdo (no_free_page_ok _ _ _ _ _ _ Hh10). kdo Hkc.
  assert (Hset : kmemset (4096 * c + KERNBASE) 1 PGSIZE s10 = Ret tt s11).
  { unfold kmemset, s11. destruct (Z.ltb_spec (4096 * c + KERNBASE) KERNBASE); [lia|].
    by replace (4096 * c + KERNBASE - KERNBASE) with (4096 * c) by lia. }
  kdo Hset. kdo H12. kdo (alloc_assert_ok _ _ _ _ H13).
  rewrite Z.eqb_refl. change (kassert true) with (ret tt). kpure.
  destruct (held_kva _ _ _ _ _ _ _ c Hh13) as [Hkc' _]; [repeat constructor|]. kdo Hkc'.
  assert (Hz : check_zeroed (4096 * c + KERNBASE) s13 = Ret tt s13).
  { apply (check_zeroed_ok _ _ (mem s12)); [lia|]. rewrite M13. simpl. f_equal. lia. }
  kdo Hz. fold s14. kdo H15. kdo H16. kdo H17.
  assert (Hfr : page_free_list s17 = page_free_list s).
  { rewrite (flist_head _ _ _ (he_list _ _ _ _ _ _ _ Hh17)). by rewrite (flist_head _ _ _ Hfl). }
  destruct (held_done _ [a; b; c] _ _ Hok Hsub Hfr Hh17) as [Hok' Heq].
  kdo (count_free_ok s17 _ _ (ao_list _ _ Hok') Hlen eq_refl).
  rewrite Z.sub_diag. change (kassert (0 =? 0)) with (ret tt). kpure.
  eexists. split; [done|]. split; [by eapply alloc_ok_frame; [..|exact Hok']|]. split; [done|].
  intros x Hx. simpl. rewrite M17. simpl. rewrite M13, M12. simpl. rewrite M10, M7. simpl. rewrite M3.
  rewrite !load8_fill, !decide_False by lia. done.
Qed.

(** Free pages on both sides of 4 MB. *)
Definition both_free : kstate :=
  fold_left (fun s i => free_post i (mkPage None 0) s) [2; 1040; 3; 1050] (zero_kstate 1100).
Lemma both_free_ok : alloc_ok both_free [1050; 3; 1040; 2].
Proof.
  unfold both_free. simpl fold_left. do 4 (apply alloc_ok_free; [|reflexivity|done|set_solver]).
  by apply zero_alloc_ok.
Qed.

Definition five_free : kstate :=
  fold_left (fun s i => free_post i (mkPage None 0) s) [1; 2; 3; 4; 5] (zero_kstate 8).
Lemma five_free_ok : alloc_ok five_free [5; 4; 3; 2; 1].
Proof.
  unfold five_free. simpl fold_left. do 5 (apply alloc_ok_free; [|reflexivity|done|set_solver]).
  by apply zero_alloc_ok.
Qed.

Lemma reorder_free_list_partition_witness :
  exists s', reorder_free_list None None 1 both_free = Ret tt s' /\ alloc_ok s' [3; 2; 1050; 1040].
Proof.
  destruct (reorder_free_list_partition both_free [1050; 3; 1040; 2] 1 None None both_free_ok) as (s' & H & Hok & _).
  exists s'. exact (conj H Hok).
Defined.

Lemma check_page_alloc_passes_witness :
  exists s', check_page_alloc five_free = Ret tt s' /\ alloc_ok s' [5; 4; 3; 2; 1].
Proof.
  destruct (check_page_alloc_passes five_free 5 4 3 [2; 1] five_free_ok) as (s' & H & Hok & _).
  exists s'. exact (conj H Hok).
Defined.
