(* ===== verification/Cstring.v ===== *)
(** * lib/string.c: strings and memory blocks

    Every routine of the file over a flat 32-bit memory: a pointer is an
    integer that wraps at 2^32, a byte that was never written reads as 0.  A loop
    that the C code leaves only at a terminating character runs here at most 2^32
    times, once around the address space; [None] means that it never ends.  The
    string instructions of the assembly versions of [memset] and [memmove] are
    their definition in the processor's manual: one store or move per count, the
    pointers going up or down by the operand's size. *)
From S2P Require Import Prelude Mem.

(** A signed [char]. *)
Definition schar (b : Z) : Z := if u8 b <? 0x80 then u8 b else u8 b - 0x100.

Definition ADDRS : positive := 0x100000000.
Definition result {A R} (r : A + R) : option R := match r with inr x => Some x | inl _ => None end.

(** ** Strings *)

Section str.
Context (m : bytemem).

Definition strlen (s : Z) : option Z :=
  result (loop_upto ADDRS (fun '(s, n) =>
    if load8 m s =? 0 then inr n else inl (u32 (s + 1), i32 (n + 1))) (s, 0)).

Definition strnlen (s size : Z) : option Z :=
  result (loop_upto ADDRS (fun '(s, size, n) =>
    if (0 <? size) && negb (load8 m s =? 0) then inl (u32 (s + 1), size - 1, i32 (n + 1)) else inr n)
    (s, size, 0)).

Definition strcmp (p q : Z) : option Z :=
  result (loop_upto ADDRS (fun '(p, q) =>
    if negb (load8 m p =? 0) && (load8 m p =? load8 m q) then inl (u32 (p + 1), u32 (q + 1))
    else inr (load8 m p - load8 m q)) (p, q)).

Definition strncmp (p q n : Z) : option Z :=
  result (loop_upto ADDRS (fun '(p, q, n) =>
    if (0 <? n) && negb (load8 m p =? 0) && (load8 m p =? load8 m q)
    then inl (u32 (p + 1), u32 (q + 1), n - 1)
    else inr (if n =? 0 then 0 else load8 m p - load8 m q)) (p, q, n)).

(** The null pointer is 0. *)
Definition strchr (s c : Z) : option Z :=
  result (loop_upto ADDRS (fun s =>
    if load8 m s =? 0 then inr 0 else if schar (load8 m s) =? schar c then inr s else inl (u32 (s + 1))) s).

Definition strfind (s c : Z) : option Z :=
  result (loop_upto ADDRS (fun s =>
    if load8 m s =? 0 then inr s else if schar (load8 m s) =? schar c then inr s else inl (u32 (s + 1))) s).

Definition memcmp (v1 v2 n : Z) : option Z :=
  result (loop_upto ADDRS (fun '(s1, s2, n) =>
    if 0 <? n then
      if negb (load8 m s1 =? load8 m s2) then inr (load8 m s1 - load8 m s2)
      else inl (u32 (s1 + 1), u32 (s2 + 1), n - 1)
    else inr 0) (v1, v2, n)).

Definition memfind (s c n : Z) : option Z :=
  let ends := u32 (s + n) in
  result (loop_upto ADDRS (fun s =>
    if s <? ends then if load8 m s =? u8 c then inr s else inl (u32 (s + 1)) else inr s) s).

(** *** strtol *)

Definition is_blank (c : Z) : bool := (c =? 32) || (c =? 9).
Definition skip_blanks (s : Z) : option Z :=
  result (loop_upto ADDRS (fun s => if is_blank (load8 m s) then inl (u32 (s + 1)) else inr s) s).

(** The value of a digit or letter. *)
Definition digit (c : Z) : option Z :=
  if (48 <=? c) && (c <=? 57) then Some (c - 48)
  else if (97 <=? c) && (c <=? 122) then Some (c - 97 + 10)
  else if (65 <=? c) && (c <=? 90) then Some (c - 65 + 10)
  else None.

(** The prefix: where the digits start and in which base. *)
Definition base_prefix (s base : Z) : Z * Z :=
  if ((base =? 0) || (base =? 16)) && ((load8 m s =? 48) && (load8 m (u32 (s + 1)) =? 120))
  then (u32 (s + 2), 16)
  else if (base =? 0) && (load8 m s =? 48) then (u32 (s + 1), 8)
  else if base =? 0 then (s, 10)
  else (s, base).

Definition digits (base s : Z) : option (Z * Z) :=
  result (loop_upto ADDRS (fun '(s, val) =>
    match digit (load8 m s) with
    | None => inr (s, val)
    | Some dig => if dig >=? base then inr (s, val) else inl (u32 (s + 1), i32 (val * base + dig))
    end) (s, 0)).

(** The value and [*endptr]. *)
Definition strtol (s base : Z) : option (Z * Z) :=
  match skip_blanks s with
  | None => None
  | Some s =>
      let '(s, neg) :=
        if load8 m s =? 43 then (u32 (s + 1), false)
        else if load8 m s =? 45 then (u32 (s + 1), true) else (s, false) in
      let '(s, base) := base_prefix s base in
      match digits base s with
      | None => None
      | Some (s, val) => Some (if neg then i32 (- val) else val, s)
      end
  end.
End str.

(** [dst] with what the source string holds; [None] when the copy never ends. *)
Definition strcpy (m : bytemem) (dst src : Z) : option bytemem :=
  result (loop_upto ADDRS (fun '(m, dst, src) =>
    let c := load8 m src in
    let m := store8 m dst c in
    if c =? 0 then inr m else inl (m, u32 (dst + 1), u32 (src + 1))) (m, dst, src)).

Definition strcat (m : bytemem) (dst src : Z) : option bytemem :=
  match strlen m dst with Some len => strcpy m (u32 (dst + len)) src | None => None end.

Definition strncpy (m : bytemem) (dst src size : Z) : bytemem :=
  (Z.iter size (fun '(m, dst, src) =>
    let m := store8 m dst (load8 m src) in
    (m, u32 (dst + 1), if negb (load8 m src =? 0) then u32 (src + 1) else src)) (m, dst, src)).1.1.

(** The memory and the number of characters copied. *)
Definition strlcpy (m : bytemem) (dst src size : Z) : option (bytemem * Z) :=
  if 0 <? size then
    result (loop_upto ADDRS (fun '(m, d, src, size) =>
      let size := size - 1 in
      if (0 <? size) && negb (load8 m src =? 0)
      then inl (store8 m d (load8 m src), u32 (d + 1), u32 (src + 1), size)
      else inr (store8 m d 0, u32 (d - dst))) (m, dst, src, size))
  else Some (m, 0).

(** ** Blocks *)

(** [rep stosb] and [rep stosl] with the direction flag clear: [n] stores of
    [v] from address [d]. *)
Definition rep_stosb (m : bytemem) (d v n : Z) : bytemem :=
  (Z.iter n (fun '(m, d) => (store8 m d v, u32 (d + 1))) (m, d)).1.
Definition rep_stosl (m : bytemem) (d v n : Z) : bytemem :=
  (Z.iter n (fun '(m, d) => (store32 m d v, u32 (d + 4))) (m, d)).1.

(** [rep movsb] and [rep movsl]; [dir] is 1 with the direction flag clear,
    -1 with it set. *)
Definition rep_movsb (m : bytemem) (dir d s n : Z) : bytemem :=
  (Z.iter n (fun '(m, d, s) => (store8 m d (load8 m s), u32 (d + dir), u32 (s + dir))) (m, d, s)).1.1.
Definition rep_movsl (m : bytemem) (dir d s n : Z) : bytemem :=
  (Z.iter n (fun '(m, d, s) => (store32 m d (load32 m s), u32 (d + 4 * dir), u32 (s + 4 * dir)))
    (m, d, s)).1.1.

Definition aligned4 (x : Z) : bool := x mod 4 =? 0.

(** The versions that are compiled ([ASM] is defined). *)
Definition memset (m : bytemem) (v c n : Z) : bytemem :=
  if n =? 0 then m
  else if aligned4 v && aligned4 n then
    let c := c .& 0xFF in
    rep_stosl m v (((c .<< 24) .| (c .<< 16)) .| (c .<< 8) .| c) (n / 4)
  else rep_stosb m v c n.

Definition memmove (m : bytemem) (dst src n : Z) : bytemem :=
  if (src <? dst) && (u32 (src + n) >? dst) then
    let s := u32 (src + n) in
    let d := u32 (dst + n) in
    if aligned4 s && aligned4 d && aligned4 n then rep_movsl m (-1) (u32 (d - 4)) (u32 (s - 4)) (n / 4)
    else rep_movsb m (-1) (u32 (d - 1)) (u32 (s - 1)) n
  else if aligned4 src && aligned4 dst && aligned4 n then rep_movsl m 1 dst src (n / 4)
  else rep_movsb m 1 dst src n.

Definition memcpy (m : bytemem) (dst src n : Z) : bytemem := memmove m dst src n.

(** The portable versions, which the assembly replaces. *)
Definition memset_portable (m : bytemem) (v c n : Z) : bytemem :=
  (Z.iter (i32 n) (fun '(m, p) => (store8 m p c, u32 (p + 1))) (m, v)).1.

Definition memmove_portable (m : bytemem) (dst src n : Z) : bytemem :=
  if (src <? dst) && (u32 (src + n) >? dst) then
    (Z.iter n (fun '(m, d, s) =>
       let d := u32 (d - 1) in let s := u32 (s - 1) in (store8 m d (load8 m s), d, s))
     (m, u32 (dst + n), u32 (src + n))).1.1
  else (Z.iter n (fun '(m, d, s) => (store8 m d (load8 m s), u32 (d + 1), u32 (s + 1))) (m, dst, src)).1.1.
