(* ===== verification/CstringSpec.v ===== *)
(** * Properties of the string library

    The assembly versions of [memset] and [memmove] agree with the portable
    ones and with their specification on overlapping blocks, and the string
    routines do on null-terminated strings what their names promise. *)
From S2P Require Import Prelude Mem Cstring.

(** Equality of loop states, component by component. *)
Ltac pair_eq :=
  repeat match goal with |- (_, _) = (_, _) => f_equal end; first [lia | f_equal; lia | do 2 f_equal; lia].

(** ** Blocks *)

Lemma load8_byte m a : mem_ok m -> u8 (load8 m a) = load8 m a.
Proof. intros Hm. apply Z.mod_small, Hm. Qed.

(** One move of [k] bytes. *)
Definition chunk (k : nat) (m : bytemem) (d s : Z) : bytemem := store_bytes m d (load_bytes m s k).

Lemma movsb_chunk m d s : store8 m d (load8 m s) = chunk 1 m d s.
Proof. unfold chunk, load_bytes, range, seqZ. simpl. by destruct s. Qed.

Lemma movsl_chunk m d s : mem_ok m -> store32 m d (load32 m s) = chunk 4 m d s.
Proof. apply store32_load32. Qed.

(** A copy by chunks upwards, after [i] of them. *)
Definition upto (m : bytemem) (d s : Z) (n : nat) : bytemem := store_bytes m d (load_bytes m s n).

Lemma load8_upto m d s n b :
  b < d \/ d + Z.of_nat n <= b -> load8 (upto m d s n) b = load8 m b.
Proof. intros Hb. unfold upto. rewrite load8_store_bytes, length_load_bytes. by rewrite decide_False by lia. Qed.

Lemma chunk_up m d s n k :
  d <= s \/ s + Z.of_nat (n + k) <= d ->
  chunk k (upto m d s n) (d + Z.of_nat n) (s + Z.of_nat n) = upto m d s (n + k).
Proof.
  intros Hds. unfold chunk, upto at 1 3. rewrite load_bytes_app, store_bytes_app, length_load_bytes.
  f_equal. apply load_bytes_ext. intros b Hb. apply load8_upto. lia.
Qed.

(** A copy by chunks downwards: the last [n] of [t] bytes are done. *)
Definition downto (m : bytemem) (d s : Z) (t n : nat) : bytemem :=
  store_bytes m (d + Z.of_nat (t - n)) (load_bytes m (s + Z.of_nat (t - n)) n).

Lemma chunk_down m d s t n k :
  s <= d -> (n + k <= t)%nat ->
  chunk k (downto m d s t n) (d + Z.of_nat (t - (n + k))) (s + Z.of_nat (t - (n + k))) = downto m d s t (n + k).
Proof.
  intros Hds Hn. unfold chunk. rewrite (load_bytes_ext _ m).
  2: { intros b Hb. unfold downto. rewrite load8_store_bytes, length_load_bytes. by rewrite decide_False by lia. }
  unfold downto. replace (n + k)%nat with (k + n)%nat by lia. rewrite load_bytes_app, <- store_bytes_app_rev.
  rewrite length_load_bytes. f_equal; [f_equal; [lia|f_equal; lia]].
Qed.

Lemma mem_ok_upto m d s n : mem_ok m -> mem_ok (upto m d s n).
Proof. apply mem_ok_store_bytes. Qed.
Lemma mem_ok_downto m d s t n : mem_ok m -> mem_ok (downto m d s t n).
Proof. apply mem_ok_store_bytes. Qed.

(** The four string instructions, as copies by chunks. *)
Section moves.
Context (m : bytemem) (dst src n : Z).
Context (Hn : 0 <= n) (Hd : 0 <= dst) (Hs : 0 <= src).
Context (Hdn : dst + n < 0x100000000) (Hsn : src + n < 0x100000000).

Lemma movsb_up : dst <= src \/ src + n <= dst ->
  rep_movsb m 1 dst src n = upto m dst src (Z.to_nat n).
Proof.
  intros Hov. unfold rep_movsb.
  rewrite (iter_trace (fun i => (upto m dst src (Z.to_nat i), u32 (dst + i), u32 (src + i)))); [done|done| |].
  - rewrite !Z.add_0_r, !u32_small by lia. done.
  - intros i Hi. rewrite (u32_small (dst + i)), (u32_small (src + i)) by lia.
    rewrite movsb_chunk. replace (dst + i) with (dst + Z.of_nat (Z.to_nat i)) at 1 by lia.
    replace (src + i) with (src + Z.of_nat (Z.to_nat i)) at 1 by lia.
    rewrite chunk_up by lia. pair_eq.
Qed.

Lemma movsl_up : mem_ok m -> n mod 4 = 0 -> dst <= src \/ src + n <= dst ->
  rep_movsl m 1 dst src (n / 4) = upto m dst src (Z.to_nat n).
Proof.
  intros Hm Hn4 Hov. unfold rep_movsl.
  rewrite (iter_trace (fun i => (upto m dst src (Z.to_nat (4 * i)), u32 (dst + 4 * i), u32 (src + 4 * i)))).
  - simpl. do 2 f_equal. lia.
  - lia.
  - rewrite !Z.add_0_r, !u32_small by lia. done.
  - intros i Hi. rewrite (u32_small (dst + 4 * i)), (u32_small (src + 4 * i)) by lia.
    rewrite movsl_chunk by (by apply mem_ok_upto).
    replace (dst + 4 * i) with (dst + Z.of_nat (Z.to_nat (4 * i))) at 1 by lia.
    replace (src + 4 * i) with (src + Z.of_nat (Z.to_nat (4 * i))) at 1 by lia.
    rewrite chunk_up by lia. pair_eq.
Qed.

Lemma movsb_down : src <= dst ->
  rep_movsb m (-1) (u32 (dst + n - 1)) (u32 (src + n - 1)) n = downto m dst src (Z.to_nat n) (Z.to_nat n).
Proof.
  intros Hov. unfold rep_movsb.
  rewrite (iter_trace (fun i => (downto m dst src (Z.to_nat n) (Z.to_nat i),
    u32 (dst + n - 1 - i), u32 (src + n - 1 - i)))); [done|done| |].
  - by rewrite !Z.sub_0_r.
  - intros i Hi. rewrite (u32_small (dst + n - 1 - i)), (u32_small (src + n - 1 - i)) by lia.
    rewrite movsb_chunk.
    replace (dst + n - 1 - i) with (dst + Z.of_nat (Z.to_nat n - (Z.to_nat i + 1))) at 1 by lia.
    replace (src + n - 1 - i) with (src + Z.of_nat (Z.to_nat n - (Z.to_nat i + 1))) at 1 by lia.
    rewrite chunk_down by lia. pair_eq.
Qed.

Lemma movsl_down : mem_ok m -> n mod 4 = 0 -> src <= dst ->
  rep_movsl m (-1) (u32 (dst + n - 4)) (u32 (src + n - 4)) (n / 4) = downto m dst src (Z.to_nat n) (Z.to_nat n).
Proof.
  intros Hm Hn4 Hov. unfold rep_movsl.
  rewrite (iter_trace (fun i => (downto m dst src (Z.to_nat n) (Z.to_nat (4 * i)),
    u32 (dst + n - 4 - 4 * i), u32 (src + n - 4 - 4 * i)))).
  - simpl. do 2 f_equal. lia.
  - lia.
  - by rewrite !Z.sub_0_r.
  - intros i Hi. rewrite (u32_small (dst + n - 4 - 4 * i)), (u32_small (src + n - 4 - 4 * i)) by lia.
    rewrite movsl_chunk by (by apply mem_ok_downto).
    replace (dst + n - 4 - 4 * i) with (dst + Z.of_nat (Z.to_nat n - (Z.to_nat (4 * i) + 4))) at 1 by lia.
    replace (src + n - 4 - 4 * i) with (src + Z.of_nat (Z.to_nat n - (Z.to_nat (4 * i) + 4))) at 1 by lia.
    rewrite chunk_down by lia. pair_eq.
Qed.
End moves.

Lemma downto_all m dst src n : downto m dst src n n = upto m dst src n.
Proof. unfold downto. by rewrite Nat.sub_diag, !Z.add_0_r. Qed.

Lemma memmove_store m dst src n :
  mem_ok m -> 0 <= n -> 0 <= dst -> 0 <= src -> dst + n < 0x100000000 -> src + n < 0x100000000 ->
  memmove m dst src n = store_bytes m dst (load_bytes m src (Z.to_nat n)).
Proof.
  intros Hm Hn Hd Hs Hdn Hsn. change (store_bytes m dst _) with (upto m dst src (Z.to_nat n)).
  unfold memmove, aligned4. rewrite !(u32_small (_ + n)) by lia.
  destruct (Z.ltb_spec src dst), (Z.gtb_spec (src + n) dst); cbn [andb].
  1: destruct (_ && _) eqn:E; [rewrite !andb_true_iff, !Z.eqb_eq in E; rewrite movsl_down, downto_all by lia || done; done
       |rewrite movsb_down, downto_all by lia || done; done].
  all: destruct (_ && _) eqn:E; [rewrite !andb_true_iff, !Z.eqb_eq in E; apply movsl_up; lia || done
       |apply movsb_up; lia].
Qed.

(** C34: [memmove] copies correctly whether or not the blocks overlap: the
    destination receives the bytes the source had before the call, and the version
    with string instructions, by words or by bytes, upwards or downwards, gives
    the memory the portable version gives. *)
Theorem memmove_correct m dst src n :
  mem_ok m -> 0 <= n -> 0 <= dst -> 0 <= src -> dst + n < 0x100000000 -> src + n < 0x100000000 ->
  memmove m dst src n = store_bytes m dst (load_bytes m src (Z.to_nat n)) /\
  memmove_portable m dst src n = memmove m dst src n.
Proof.
  intros Hm Hn Hd Hs Hdn Hsn. change (store_bytes m dst _) with (upto m dst src (Z.to_nat n)).
  assert (H : memmove m dst src n = upto m dst src (Z.to_nat n)) by (by apply memmove_store).
  split; [done|]. rewrite H. unfold memmove_portable. rewrite !(u32_small (_ + n)) by lia.
  destruct (Z.ltb_spec src dst), (Z.gtb_spec (src + n) dst); cbn [andb].
  2-4: apply movsb_up; lia.
  rewrite <- downto_all.
  rewrite (iter_trace (fun i => (downto m dst src (Z.to_nat n) (Z.to_nat i), dst + n - i, src + n - i)));
    [done|done|by rewrite !Z.sub_0_r|].
  intros i Hi. rewrite !u32_small by lia. rewrite movsb_chunk.
  replace (dst + n - i - 1) with (dst + Z.of_nat (Z.to_nat n - (Z.to_nat i + 1))) at 1 by lia.
  replace (src + n - i - 1) with (src + Z.of_nat (Z.to_nat n - (Z.to_nat i + 1))) at 1 by lia.
  rewrite chunk_down by lia. pair_eq.
Qed.

(** The word that [memset] stores. *)
Lemma memset_word c :
  let b := c .& 0xFF in ((b .<< 24) .| (b .<< 16)) .| (b .<< 8) .| b = 0x1010101 * u8 c.
Proof.
  cbv zeta. change 0xFF with (Z.ones 8). rewrite land_ones_mod by lia. change (c mod 2 ^ 8) with (u8 c).
  pose proof (u8_range c) as Hb. revert Hb. generalize (u8 c) as b. intros b Hb.
  rewrite !Z.shiftl_mul_pow2 by lia.
  rewrite (lor_add_low (b * 2 ^ 24) (b * 2 ^ 16) 24), (lor_add_low _ (b * 2 ^ 8) 16), (lor_add_low _ b 8); zlia.
Qed.

Lemma store32_repeat m d c : store32 m d (0x1010101 * u8 c) = store_bytes m d (replicate 4 c).
Proof.
  assert (H : forall x, x = 1 \/ x = 0x100 \/ x = 0x10000 \/ x = 0x1000000 ->
    u8 (0x1010101 * u8 c / x) = u8 c).
  { intros x Hx. pose proof (u8_range c). set (b := u8 c) in *. clearbody b.
    destruct Hx as [->|[->|[->| ->]]]; unfold u8; lia. }
  unfold store32, store8. simpl. unfold store8.
  replace (d + 1 + 1) with (d + 2) by lia. replace (d + 2 + 1) with (d + 3) by lia.
  pose proof (H 1 ltac:(by left)) as H1. rewrite Z.div_1_r in H1. by rewrite H1, !H by lia.
Qed.

Lemma store_replicate m d c i k :
  store_bytes (store_bytes m d (replicate i c)) (d + Z.of_nat i) (replicate k c) =
  store_bytes m d (replicate (i + k) c).
Proof. by rewrite replicate_add, store_bytes_app, length_replicate. Qed.

(** [memset] fills the block with the low byte of [c], by words when the
    block allows it, as the portable version does byte by byte. *)
Theorem memset_correct m v c n :
  0 <= v -> 0 <= n < 0x80000000 -> v + n < 0x100000000 ->
  memset m v c n = fill m v c (Z.to_nat n) /\ memset_portable m v c n = memset m v c n.
Proof.
  intros Hv Hn Hvn. rewrite fill_store_bytes.
  assert (Hb : Z.iter n (fun '(m, p) => (store8 m p c, u32 (p + 1))) (m, v) =
               (store_bytes m v (replicate (Z.to_nat n) c), u32 (v + n))).
  { apply (iter_trace (fun i => (store_bytes m v (replicate (Z.to_nat i) c), u32 (v + i)))); [lia| |].
    - by rewrite Z.add_0_r, u32_small by lia.
    - intros i Hi. rewrite (u32_small (v + i)) by lia.
      change (store8 ?m ?a c) with (store_bytes m a (replicate 1 c)).
      replace (v + i) with (v + Z.of_nat (Z.to_nat i)) at 1 by lia. rewrite store_replicate. pair_eq. }
  assert (H : memset m v c n = store_bytes m v (replicate (Z.to_nat n) c)).
  { unfold memset, aligned4. destruct (Z.eqb_spec n 0) as [->|Hn0]; [done|].
    destruct (_ && _) eqn:E; [|unfold rep_stosb; by rewrite Hb].
    apply andb_true_iff in E as [E1%Z.eqb_eq E2%Z.eqb_eq]. rewrite memset_word. unfold rep_stosl.
    rewrite (iter_trace (fun i => (store_bytes m v (replicate (Z.to_nat (4 * i)) c), u32 (v + 4 * i)))).
    - simpl. do 3 f_equal. lia.
    - lia.
    - by rewrite Z.add_0_r, u32_small by lia.
    - intros i Hi. rewrite (u32_small (v + 4 * i)), store32_repeat by lia.
      replace (v + 4 * i) with (v + Z.of_nat (Z.to_nat (4 * i))) at 1 by lia. rewrite store_replicate.
      pair_eq. }
  split; [done|]. rewrite H. unfold memset_portable. rewrite i32_small by lia. by rewrite Hb.
Qed.

Definition example_block : bytemem := store_bytes ∅ 0x1000 [1; 2; 3; 4; 5; 6; 7; 8; 9; 10; 11; 12].

Lemma memmove_correct_witness :
  memmove example_block 0x1004 0x1000 8 = store_bytes example_block 0x1004 [1; 2; 3; 4; 5; 6; 7; 8].
Proof.
  replace [1; 2; 3; 4; 5; 6; 7; 8] with (load_bytes example_block 0x1000 (Z.to_nat 8)) by by vm_compute.
  refine (proj1 (memmove_correct example_block 0x1004 0x1000 8 _ _ _ _ _ _)); try lia.
  apply mem_ok_store_bytes, mem_ok_empty.
Defined.

Lemma memset_correct_witness :
  memset ∅ 0x1000 0x141 8 = fill ∅ 0x1000 0x141 8 /\ memset_portable ∅ 0x1000 0x141 8 = memset ∅ 0x1000 0x141 8.
Proof. apply (memset_correct ∅ 0x1000 0x141 8); lia. Defined.

(** ** Strings *)

(** The null-terminated string [l] at address [s]. *)
Definition cstr (m : bytemem) (s : Z) (l : list Z) : Prop :=
  0 <= s /\ s + Z.of_nat (length l) < 0x100000000 /\ Forall (fun c => 0 < c < 256) l /\
  (forall i c, l !! i = Some c -> load8 m (s + Z.of_nat i) = c) /\ load8 m (s + Z.of_nat (length l)) = 0.

Lemma cstr_byte m s l i : cstr m s l -> (i <= length l)%nat ->
  load8 m (u32 (s + Z.of_nat i)) = default 0 (l !! i) /\ u32 (u32 (s + Z.of_nat i) + 1) = u32 (s + Z.of_nat (S i)).
Proof.
  intros (H0 & Hl & _ & Hb & Hz) Hi. rewrite u32_small by lia. split.
  - destruct (l !! i) as [c|] eqn:E; [by apply Hb|].
    apply lookup_ge_None in E. by replace i with (length l) by lia.
  - f_equal. lia.
Qed.

Lemma cstr_nonzero m s l i c : cstr m s l -> l !! i = Some c -> 0 < c < 256.
Proof. intros (_ & _ & Hf & _) Hi. by eapply Forall_lookup_1 in Hf. Qed.

Lemma u32_start s : 0 <= s < 0x100000000 -> u32 (s + Z.of_nat 0) = s.
Proof. intros. rewrite Z.add_0_r. by apply u32_small. Qed.

Lemma cstr_start m s l : cstr m s l -> u32 (s + Z.of_nat 0) = s.
Proof. intros (? & ? & _). apply u32_start. lia. Qed.

Lemma cstr_length m s l : cstr m s l -> Z.of_nat (length l) < 0x100000000.
Proof. intros (? & ? & _). lia. Qed.

(** Where two strings first differ, or where the shorter one ends. *)
Fixpoint common (l l' : list Z) : nat :=
  match l, l' with x :: l, y :: l' => if x =? y then S (common l l') else O | _, _ => O end.

Lemma common_le l l' : (common l l' <= length l)%nat /\ (common l l' <= length l')%nat.
Proof.
  revert l'. induction l as [|x l IH]; intros [|y l']; simpl; try lia.
  destruct (x =? y); [|lia]. destruct (IH l'). lia.
Qed.

Lemma common_eq l l' i : (i < common l l')%nat -> exists c, l !! i = Some c /\ l' !! i = Some c.
Proof.
  revert l' i. induction l as [|x l IH]; intros [|y l'] i; simpl; try lia.
  destruct (Z.eqb_spec x y) as [->|]; [|lia]. destruct i as [|i]; [by eexists|]. intros Hi. apply (IH l' i). lia.
Qed.

Lemma common_stop l l' :
  l !! common l l' = None \/ l' !! common l l' = None \/ default 0 (l !! common l l') <> default 0 (l' !! common l l') \/ l = l'.
Proof.
  revert l'. induction l as [|x l IH]; intros [|y l']; simpl; auto.
  destruct (Z.eqb_spec x y) as [->|]; [|by right; right; left].
  destruct (IH l') as [?|[?|[?| ->]]]; auto.
Qed.

Lemma common_differ l l' :
  Forall (fun c => 0 < c < 256) l -> Forall (fun c => 0 < c < 256) l' ->
  default 0 (l !! common l l') = default 0 (l' !! common l l') -> l = l'.
Proof.
  revert l'. induction l as [|x l IH]; intros [|y l']; simpl; try done.
  - intros _ H. apply Forall_cons in H as [? _]. lia.
  - intros H _. apply Forall_cons in H as [? _]. lia.
  - intros H H'. apply Forall_cons in H as [_ ?], H' as [_ ?].
    destruct (Z.eqb_spec x y) as [->|Hne]; simpl; [|done]. intros E. f_equal. by apply IH.
Qed.

(** [strcmp] compares the bytes, read as unsigned, at the first place where
    the strings differ, the terminator included; the result is 0 for equal strings
    only. *)
Theorem strcmp_correct m p q l l' :
  cstr m p l -> cstr m q l' ->
  let k := common l l' in
  strcmp m p q = Some (default 0 (l !! k) - default 0 (l' !! k)) /\
  (strcmp m p q = Some 0 <-> l = l').
Proof.
  intros Hp Hq k. destruct (common_le l l') as [Hk Hk'].
  assert (H : strcmp m p q = Some (default 0 (l !! k) - default 0 (l' !! k))).
  { unfold strcmp. rewrite (loop_trace (fun i => (u32 (p + Z.of_nat i), u32 (q + Z.of_nat i))) k _ _ _
      (default 0 (l !! k) - default 0 (l' !! k))); [done| | | |].
    - by rewrite (cstr_start m p l), (cstr_start m q l').
    - intros i Hi. destruct (common_eq l l' i Hi) as (c & Hc & Hc').
      destruct (cstr_byte m p l i Hp) as [-> ->]; [lia|]. destruct (cstr_byte m q l' i Hq) as [-> ->]; [lia|].
      rewrite Hc, Hc'. simpl. rewrite Z.eqb_refl. pose proof (cstr_nonzero _ _ _ _ _ Hp Hc).
      destruct (Z.eqb_spec c 0); [lia|]. done.
    - destruct (cstr_byte m p l k Hp Hk) as [-> _]. destruct (cstr_byte m q l' k Hq Hk') as [-> _].
      destruct (_ && _) eqn:E; [|done]. apply andb_true_iff in E as [E1%negb_true_iff%Z.eqb_neq E2%Z.eqb_eq].
      destruct (common_stop l l') as [H|[H|[H|H]]]; fold k in H; [by rewrite H in E1|by rewrite E2, H in E1|done|].
      subst l'. exfalso. assert (k = length l); [|by rewrite lookup_ge_None_2 in E1 by lia].
      unfold k. clear. induction l as [|x l IH]; simpl; [done|]. by rewrite Z.eqb_refl, IH.
    - pose proof (cstr_length _ _ _ Hp). unfold ADDRS. lia. }
  split; [done|]. rewrite H. destruct Hp as (_ & _ & Hf & _), Hq as (_ & _ & Hf' & _). split.
  - intros [= E]. apply common_differ; [done..|]. fold k. lia.
  - intros ->. f_equal. unfold k. destruct l'; lia.
Qed.

(** [strlcpy] copies at most [size - 1] characters, always writes the
    terminator, touches no byte outside the [size] bytes of the buffer, and
    returns how many characters it copied (not the length of the source). *)
Theorem strlcpy_correct m dst src size l :
  cstr m src l -> 0 < size -> 0 <= dst -> dst + size < 0x100000000 ->
  dst + size <= src \/ src + Z.of_nat (length l) < dst ->
  let k := (length l `min` Z.to_nat (size - 1))%nat in
  strlcpy m dst src size = Some (store_bytes m dst (take k l ++ [0]), Z.of_nat k) /\
  Z.of_nat (length (take k l ++ [0])) <= size.
Proof.
  intros Hs Hsz Hd Hds Hov k.
  assert (Hk : (k <= length l)%nat /\ Z.of_nat k <= size - 1 /\ (k = length l \/ Z.of_nat k = size - 1)) by lia.
  clearbody k. split; [|rewrite length_app, length_take; simpl; lia].
  pose proof (cstr_length _ _ _ Hs) as Hl. pose proof Hs as (Hs0 & Hs1 & Hf & Hb & Hz).
  assert (Hc : forall i, (i <= k)%nat -> load8 (store_bytes m dst (take i l)) (u32 (src + Z.of_nat i)) = default 0 (l !! i)).
  { intros i Hi. rewrite load8_store_bytes, length_take, decide_False by (rewrite u32_small; lia).
    by apply (cstr_byte m src l i Hs); lia. }
  unfold strlcpy. rewrite (proj2 (Z.ltb_lt 0 size)) by done.
  rewrite (loop_trace (fun i => (store_bytes m dst (take i l), u32 (dst + Z.of_nat i), u32 (src + Z.of_nat i),
    size - Z.of_nat i)) k _ _ _ (store_bytes m dst (take k l ++ [0]), Z.of_nat k)); [done| | | |].
  - rewrite Z.sub_0_r, !u32_start by lia. done.
  - intros i Hi. rewrite Hc by lia. destruct (lookup_lt_is_Some_2 l i) as [c Ec]; [lia|]. rewrite Ec. simpl.
    pose proof (cstr_nonzero _ _ _ _ _ Hs Ec). destruct (Z.ltb_spec 0 (size - Z.of_nat i - 1)); [|lia].
    destruct (Z.eqb_spec c 0); [lia|]. simpl. destruct (cstr_byte m src l i Hs) as [_ ->]; [lia|].
    rewrite (take_S_r _ _ _ Ec), store_bytes_app, length_take. simpl.
    rewrite (u32_small (dst + Z.of_nat i)) by lia. replace (i `min` length l)%nat with i by lia.
    f_equal. pair_eq.
  - rewrite Hc by done. destruct (Z.ltb_spec 0 (size - Z.of_nat k - 1)) as [Hlt|Hge]; simpl.
    + rewrite lookup_ge_None_2 by lia. simpl.
      rewrite store_bytes_app, length_take, !(u32_small (dst + _)), u32_small by lia. simpl.
      replace (k `min` length l)%nat with k by lia. do 2 f_equal. lia.
    + rewrite store_bytes_app, length_take, !(u32_small (dst + _)), u32_small by lia. simpl.
      replace (k `min` length l)%nat with k by lia. do 2 f_equal. lia.
  - unfold ADDRS. lia.
Qed.

Definition example_strings : bytemem := store_bytes (store_bytes ∅ 0x1000 [97; 98; 99]) 0x2000 [97; 98].

Lemma example_abc : cstr example_strings 0x1000 [97; 98; 99].
Proof.
  split; [done|]. split; [done|]. split; [repeat constructor; lia|]. split; [|done].
  intros i c Hi. destruct i as [|[|[|i]]]; [by injection Hi as <-..|done].
Qed.
Lemma example_ab : cstr example_strings 0x2000 [97; 98].
Proof.
  split; [done|]. split; [done|]. split; [repeat constructor; lia|]. split; [|done].
  intros i c Hi. destruct i as [|[|i]]; [by injection Hi as <-..|done].
Qed.

Lemma strcmp_correct_witness : strcmp example_strings 0x1000 0x2000 = Some 99.
Proof. exact (proj1 (strcmp_correct example_strings 0x1000 0x2000 _ _ example_abc example_ab)). Defined.

Lemma strlcpy_correct_witness :
  strlcpy example_strings 0x3000 0x1000 3 = Some (store_bytes example_strings 0x3000 [97; 98; 0], 2).
Proof. refine (proj1 (strlcpy_correct example_strings 0x3000 0x1000 3 _ example_abc _ _ _ _)); simpl; lia. Defined.
