(* ===== verification/Printfmt.v ===== *)
(** * Formatted output and line input

    lib/printfmt.c, the two [cprintf]s built on it (kern/printf.c and
    lib/printf.c) and lib/readline.c.  A format is its list of bytes, the
    terminator left out; the arguments are the 32-bit words of the argument list,
    a pointer to a string being the bytes of the string.  An argument of the
    wrong kind, or none, is undefined in C: [Undefined] in the loops, which keep it
    apart from running out of fuel, and [None] in what is built on them. *)
From S2P Require Import Prelude Mmu Console.

(** What the formatting code does: print a character, or set [color]. *)
Inductive pact := PutCh (c : Z) | SetColor (v : Z).

Inductive farg := FInt (w : Z) | FStr (s : option (list Z)).

(** The outcome of a loop with fuel: its result, an argument that C leaves undefined,
    or no fuel left; [vprintfmt_terminates] shows that the last never happens. *)
Inductive fueled (A : Type) := Done (a : A) | Undefined | OutOfFuel.
Arguments Done {A}. Arguments Undefined {A}. Arguments OutOfFuel {A}.

Definition bytes_of (s : string) : list Z :=
  map (fun c => Z.of_nat (Ascii.nat_of_ascii c)) (String.list_ascii_of_string s).

Definition i64 (z : Z) : Z :=
  let u := z mod 2 ^ 64 in if u <? 2 ^ 63 then u else u - 2 ^ 64.
Definition u64 (z : Z) : Z := z mod 2 ^ 64.

(** A byte read through a [char *]. *)
Definition char_of (b : Z) : Z := if u8 b <? 0x80 then u8 b else u8 b - 0x100.

Definition error_string (e : Z) : option (list Z) :=
  if e =? E_UNSPECIFIED then Some (bytes_of "unspecified error")
  else if e =? E_BAD_ENV then Some (bytes_of "bad environment")
  else if e =? E_INVAL then Some (bytes_of "invalid parameter")
  else if e =? E_NO_MEM then Some (bytes_of "out of memory")
  else if e =? E_NO_FREE_ENV then Some (bytes_of "out of environments")
  else if e =? E_FAULT then Some (bytes_of "segmentation fault")
  else if e =? E_IPC_NOT_RECV then Some (bytes_of "env is not recving")
  else if e =? E_EOF then Some (bytes_of "unexpected end of file")
  else None.

(** ** Numbers *)

(** The characters of ["0123456789abcdef"]. *)
Definition hexdigit (d : Z) : Z := if d <? 10 then 48 + d else 87 + d.

(** Every call divides the number by the base: 64 nested calls are enough for a
    64-bit number ([printnum_fuel] in PrintfmtSpec.v). *)
Fixpoint printnum (fuel : nat) (num base width padc : Z) : list Z :=
  match fuel with
  | O => []
  | S fuel =>
      (if num >=? base then printnum fuel (num / base) base (width - 1) padc
       else replicate (Z.to_nat (width - 1)) padc)
      ++ [hexdigit (num mod base)]
  end.

Definition getuint (ap : list farg) (lflag : Z) : option (Z * list farg) :=
  if lflag >=? 2 then
    match ap with FInt lo :: FInt hi :: ap => Some (u32 lo + 2 ^ 32 * u32 hi, ap) | _ => None end
  else match ap with FInt w :: ap => Some (u32 w, ap) | _ => None end.

Definition getint (ap : list farg) (lflag : Z) : option (Z * list farg) :=
  if lflag >=? 2 then
    match ap with FInt lo :: FInt hi :: ap => Some (i64 (u32 lo + 2 ^ 32 * u32 hi), ap) | _ => None end
  else match ap with FInt w :: ap => Some (i32 w, ap) | _ => None end.

(** ** The format *)

Record fspec := mkSpec { padc : Z; width : Z; precision : Z; lflag : Z; altflag : bool }.
Definition spec0 : fspec := mkSpec 32 (-1) (-1) 0 false.

Definition is_digit (c : Z) : bool := (48 <=? c) && (c <=? 57).

(** The digits of a width or a precision, the first of which is in [p]. *)
Fixpoint scan_digits (p : Z) (fmt : list Z) : Z * list Z :=
  match fmt with
  | ch :: fmt' => if is_digit ch then scan_digits (i32 (p * 10 + ch - 48)) fmt' else (p, fmt)
  | [] => (p, [])
  end.

Definition process_precision (p : Z) (sp : fspec) : fspec :=
  if width sp <? 0 then mkSpec (padc sp) p (-1) (lflag sp) (altflag sp)
  else mkSpec (padc sp) (width sp) p (lflag sp) (altflag sp).

(** From [reswitch] to the conversion character, 0 at the end of the format. *)
Fixpoint scan (fuel : nat) (fmt : list Z) (sp : fspec) (ap : list farg) :
    fueled (Z * fspec * list Z * list farg) :=
  match fuel with
  | O => OutOfFuel
  | S fuel =>
      match fmt with
      | [] => Done (0, sp, [], ap)
      | ch :: fmt =>
          if ch =? 45 then scan fuel fmt (mkSpec 45 (width sp) (precision sp) (lflag sp) (altflag sp)) ap
          else if ch =? 48 then scan fuel fmt (mkSpec 48 (width sp) (precision sp) (lflag sp) (altflag sp)) ap
          else if is_digit ch then
            let '(p, fmt) := scan_digits (ch - 48) fmt in scan fuel fmt (process_precision p sp) ap
          else if ch =? 42 then
            match ap with
            | FInt w :: ap => scan fuel fmt (process_precision (i32 w) sp) ap
            | _ => Undefined
            end
          else if ch =? 46 then
            scan fuel fmt (mkSpec (padc sp) (if width sp <? 0 then 0 else width sp) (precision sp) (lflag sp) (altflag sp)) ap
          else if ch =? 35 then
            scan fuel fmt (mkSpec (padc sp) (width sp) (precision sp) (lflag sp) true) ap
          else if ch =? 108 then
            scan fuel fmt (mkSpec (padc sp) (width sp) (precision sp) (lflag sp + 1) (altflag sp)) ap
          else Done (ch, sp, fmt, ap)
      end
  end.

(** The bytes of a string up to its terminator. *)
Fixpoint cstring (l : list Z) : list Z :=
  match l with [] => [] | c :: l => if c =? 0 then [] else c :: cstring l end.

(** The [%s] conversion of the string [p]. *)
Definition convert_str (sp : fspec) (p : list Z) : list Z :=
  let p := cstring p in
  let limit {A} (l : list A) := if precision sp <? 0 then l else take (Z.to_nat (precision sp)) l in
  let strnlen := Z.of_nat (length (limit p)) in
  let padded := (0 <? width sp) && negb (padc sp =? 45) in
  let left := if padded then Z.to_nat (width sp - strnlen) else O in
  let width := if padded then Z.min (width sp - strnlen) 0 else width sp in
  let body := map (fun b => let ch := char_of b in
    if altflag sp && ((ch <? 32) || (ch >? 126)) then 63 else ch) (limit p) in
  replicate left (char_of (padc sp)) ++ body ++ replicate (Z.to_nat (width - strnlen)) 32.

Definition number (sp : fspec) (num base : Z) : list Z := printnum 64 num base (width sp) (padc sp).

(** A conversion: what it prints and the arguments left; [None] within for a
    character that is no conversion. *)
Definition convert (ch : Z) (sp : fspec) (ap : list farg) : option (option (list pact * list farg)) :=
  let out l ap := Some (Some (map PutCh l, ap)) in
  if ch =? 99 then (* 'c' *)
    match ap with FInt w :: ap => out [i32 w] ap | _ => None end
  else if ch =? 101 then (* 'e' *)
    match ap with
    | FInt w :: ap =>
        let err := if i32 w <? 0 then i32 (- i32 w) else i32 w in
        if err <? 0 then None (* the index is -2^31 *)
        else match (if err >=? MAXERROR then None else error_string err) with
             | None => Some (Some (map PutCh (bytes_of "error " ++ printnum 64 err 10 (-1) 32) ++ [SetColor 0x0100], ap))
             | Some p => Some (Some (map PutCh (convert_str spec0 p) ++ [SetColor 0x0100], ap))
             end
    | _ => None
    end
  else if ch =? 115 then (* 's' *)
    match ap with
    | FStr s :: ap => out (convert_str sp (default (bytes_of "(null)") s)) ap
    | _ => None
    end
  else if ch =? 100 then (* 'd' *)
    match getint ap (lflag sp) with
    | Some (num, ap) =>
        if num <? 0 then out (45 :: number sp (u64 (- num)) 10) ap else out (number sp num 10) ap
    | None => None
    end
  else if ch =? 117 then (* 'u' *)
    match getuint ap (lflag sp) with Some (num, ap) => out (number sp num 10) ap | None => None end
  else if ch =? 111 then (* 'o' *)
    match getuint ap (lflag sp) with Some (num, ap) => out (number sp num 8) ap | None => None end
  else if ch =? 112 then (* 'p' *)
    match ap with FInt w :: ap => out (48 :: 120 :: number sp (u32 w) 16) ap | _ => None end
  else if ch =? 120 then (* 'x' *)
    match getuint ap (lflag sp) with Some (num, ap) => out (number sp num 16) ap | None => None end
  else if ch =? 37 then out [37] ap
  else Some None.

(** The actions [l] before those of the rest. *)
Definition before (l : list pact) (r : fueled (list pact)) : fueled (list pact) :=
  match r with Done out => Done (l ++ out) | Undefined => Undefined | OutOfFuel => OutOfFuel end.

(** The loop of [vprintfmt]: every turn consumes a character of the format. *)
Fixpoint vprintfmt_loop (fuel : nat) (fmt : list Z) (ap : list farg) : fueled (list pact) :=
  match fuel with
  | O => OutOfFuel
  | S fuel =>
      match fmt with
      | [] => Done [SetColor 0x0100]
      | ch :: fmt =>
          if negb (ch =? 37) then before [PutCh ch] (vprintfmt_loop fuel fmt ap)
          else
            match scan (S (length fmt)) fmt spec0 ap with
            | Undefined => Undefined
            | OutOfFuel => OutOfFuel
            | Done (ch, sp, rest, ap') =>
                match convert ch sp ap' with
                | None => Undefined
                | Some (Some (out, ap'')) => before out (vprintfmt_loop fuel rest ap'')
                | Some None => (* back to the character after the percent sign *)
                    before [PutCh 37] (vprintfmt_loop fuel fmt ap')
                end
            end
      end
  end.

Definition vprintfmt (fmt : list Z) (ap : list farg) : option (list pact) :=
  match vprintfmt_loop (S (length fmt)) fmt ap with Done out => Some out | Undefined | OutOfFuel => None end.

Definition printfmt (fmt : list Z) (ap : list farg) : option (list pact) := vprintfmt fmt ap.

(** ** vsnprintf *)

(** [buf] is what has been written, oldest first; [room] is [ebuf - buf]. *)
Record sprintbuf := mkSb { sb_buf : list Z; sb_room : Z; sb_cnt : Z }.

Definition sprintputch (b : sprintbuf) (a : pact) : sprintbuf :=
  match a with
  | PutCh ch =>
      if 0 <? sb_room b then mkSb (sb_buf b ++ [u8 ch]) (sb_room b - 1) (i32 (sb_cnt b + 1))
      else mkSb (sb_buf b) (sb_room b) (i32 (sb_cnt b + 1))
  | SetColor _ => b
  end.

(** The result and the bytes written from [buf] on; [null] for a null [buf]. *)
Definition vsnprintf (null : bool) (n : Z) (fmt : list Z) (ap : list farg) : option (Z * list Z) :=
  if null || (n <? 1) then Some (- E_INVAL, [])
  else
    match vprintfmt fmt ap with
    | None => None
    | Some out =>
        let b := fold_left sprintputch out (mkSb [] (n - 1) 0) in
        Some (sb_cnt b, sb_buf b ++ [0])
    end.
Definition snprintf (null : bool) (n : Z) (fmt : list Z) (ap : list farg) : option (Z * list Z) :=
  vsnprintf null n fmt ap.

(** ** kern/printf.c *)

Definition set_color v st := mkcon (serial_exists st) (serial_in st) (kbd_in st) (kbd_shift st)
  (cons_buf st) (cons_rpos st) (cons_wpos st) v (addr_6845 st) (crt_buf st) (crt_pos st) (ports st).

(** [*cnt++] moves the pointer, a local variable, and leaves the count alone: the
    state is the
    console and the count. *)
Definition kern_putch (st : constate * Z) (a : pact) : constate * Z :=
  match a with
  | PutCh ch => (cputchar ch st.1, st.2)
  | SetColor v => (set_color v st.1, st.2)
  end.

(** The count and the console. *)
Definition kern_vcprintf (fmt : list Z) (ap : list farg) (st : constate) : option (Z * constate) :=
  match vprintfmt fmt ap with
  | None => None
  | Some out => let '(st, cnt) := fold_left kern_putch out (st, 0) in Some (cnt, st)
  end.
Definition kern_cprintf (fmt : list Z) (ap : list farg) (st : constate) : option (Z * constate) := kern_vcprintf fmt ap st.

(** ** lib/printf.c *)

(** [calls]: the strings passed to [sys_cputs], oldest first. *)
Record printbuf := mkPb { pb_idx : Z; pb_cnt : Z; pb_buf : list Z; pb_calls : list (list Z) }.

Definition user_putch (b : printbuf) (a : pact) : printbuf :=
  match a with
  | PutCh ch =>
      let buf := <[Z.to_nat (pb_idx b) := u8 ch]> (pb_buf b) in
      let i := pb_idx b + 1 in
      if i =? 256 - 1 then mkPb 0 (i32 (pb_cnt b + 1)) buf (pb_calls b ++ [take (Z.to_nat i) buf])
      else mkPb i (i32 (pb_cnt b + 1)) buf (pb_calls b)
  | SetColor _ => b
  end.

(** The count and the strings printed; [garbage] is what the buffer on the
    stack holds before. *)
Definition user_vcprintf (garbage : list Z) (fmt : list Z) (ap : list farg) : option (Z * list (list Z)) :=
  match vprintfmt fmt ap with
  | None => None
  | Some out =>
      let b := fold_left user_putch out (mkPb 0 0 garbage []) in
      Some (pb_cnt b, pb_calls b ++ [take (Z.to_nat (pb_idx b)) (pb_buf b)])
  end.
Definition user_cprintf (garbage : list Z) (fmt : list Z) (ap : list farg) : option (Z * list (list Z)) :=
  user_vcprintf garbage fmt ap.

(** ** lib/readline.c *)

Definition BUFLEN : Z := 1024.

Inductive rl_result :=
| RlLine (line echo : list Z)   (** the buffer up to its terminator, and what was echoed *)
| RlError (echo : list Z)       (** a negative character: null, and what was printed *)
| RlWait.                       (** the input is used up *)

(** The characters that a call of cprintf prints. *)
Definition printed (fmt : list Z) (ap : list farg) : list Z :=
  omap (fun a => match a with PutCh c => Some c | SetColor _ => None end) (default [] (vprintfmt fmt ap)).

(** The loop of [readline] on the characters that [getchar] returns; [buf] is
    what [buf[0..i)] holds. *)
Fixpoint readline_loop (echoing : bool) (input : list Z) (buf echo : list Z) : rl_result :=
  match input with
  | [] => RlWait
  | c :: input =>
      let out l := if echoing then echo ++ l else echo in
      if c <? 0 then RlError (echo ++ printed (bytes_of "read error: %e" ++ [10]) [FInt c])
      else if ((c =? 8) || (c =? 127)) && (0 <? Z.of_nat (length buf)) then
        readline_loop echoing input (removelast buf) (out [8])
      else if (c >=? 32) && (Z.of_nat (length buf) <? BUFLEN - 1) then
        readline_loop echoing input (buf ++ [u8 c]) (out [c])
      else if (c =? 10) || (c =? 13) then RlLine buf (out [10])
      else readline_loop echoing input buf echo
  end.

Definition readline (prompt : option (list Z)) (echoing : bool) (input : list Z) : rl_result :=
  readline_loop echoing input [] (match prompt with Some p => printed (bytes_of "%s") [FStr (Some p)] | None => [] end).
