(* ===== verification/PrintfmtSpec.v ===== *)
(** * Properties of the formatted output and of the line input

    What [snprintf] prints, [strtol] reads back; the buffers of [vsnprintf], of
    the user's [cprintf] and of [readline] are never overrun; the loops of
    [vprintfmt] end. *)
From S2P Require Import Prelude Mmu Mem Console Cstring CstringSpec Printfmt.

(** ** Numerals *)

Definition numeral (base : Z) (l : list Z) : Prop := Forall (fun c => exists d, digit c = Some d /\ d < base) l.
Definition value (base : Z) (l : list Z) : Z :=
  fold_left (fun v c => v * base + default 0 (digit c)) l 0.

Lemma digit_hexdigit d : 0 <= d < 16 -> digit (hexdigit d) = Some d.
Proof.
  intros H. unfold hexdigit. destruct (Z.ltb_spec d 10).
  - unfold digit. replace ((48 <=? 48 + d) && (48 + d <=? 57)) with true by lia. f_equal. lia.
  - unfold digit. replace ((48 <=? 87 + d) && (87 + d <=? 57)) with false by lia.
    replace ((97 <=? 87 + d) && (87 + d <=? 122)) with true by lia. f_equal. lia.
Qed.

Lemma digit_range c d : digit c = Some d -> 0 <= d /\ 48 <= c < 123.
Proof. unfold digit. repeat case_match; intros [= <-]; lia. Qed.

Lemma value_snoc base l c : value base (l ++ [c]) = value base l * base + default 0 (digit c).
Proof. unfold value. by rewrite fold_left_app. Qed.

Lemma numeral_digit base l i c : numeral base l -> l !! i = Some c -> exists d, digit c = Some d /\ 0 <= d < base.
Proof.
  intros H Hi. eapply Forall_lookup_1 in H as (d & Hd & ?); [|done]. destruct (digit_range _ _ Hd). by exists d.
Qed.

(** [printnum] prints padding and then a numeral for the number, in at least
    [width] characters. *)
Lemma printnum_spec fuel num base w pad :
  2 <= base <= 16 -> 0 <= num < base ^ Z.of_nat fuel -> (0 < fuel)%nat ->
  exists ds, printnum fuel num base w pad = replicate (Z.to_nat (w - Z.of_nat (length ds))) pad ++ ds /\
    (0 < length ds <= fuel)%nat /\ numeral base ds /\ value base ds = num /\
    (forall k, 0 < k -> num < base ^ k -> Z.of_nat (length ds) <= k).
Proof.
  intros Hb. revert num w. induction fuel as [|fuel IH]; intros num w Hn Hf; [lia|]. simpl.
  pose proof (Z.mod_pos_bound num base ltac:(lia)) as Hm.
  assert (Hd : digit (hexdigit (num mod base)) = Some (num mod base)) by (apply digit_hexdigit; lia).
  destruct (Z.geb_spec num base) as [Hge|Hlt].
  - destruct (decide (fuel = O)) as [->|Hf0]; [simpl in Hn; lia|].
    destruct (IH (num / base) (w - 1)) as (ds & -> & Hl & Hds & Hv & Hk).
    + rewrite Nat2Z.inj_succ, Z.pow_succ_r in Hn by lia. split; [apply Z.div_pos; lia|].
      apply Z.div_lt_upper_bound; lia.
    + lia.
    + exists (ds ++ [hexdigit (num mod base)]). rewrite length_app. simpl. split; [|split; [lia|split; [|split]]].
      * rewrite <- app_assoc. do 2 f_equal. lia.
      * apply Forall_app. split; [done|]. apply Forall_singleton. eexists. split; [done|lia].
      * rewrite value_snoc, Hd, Hv. simpl. pose proof (Z_div_mod_eq_full num base). lia.
      * intros k Hk0 Hnk. destruct (decide (k = 1)) as [->|]; [lia|].
        assert (Z.of_nat (length ds) <= k - 1); [|lia]. apply Hk; [lia|].
        replace k with (Z.succ (k - 1)) in Hnk by lia. rewrite Z.pow_succ_r in Hnk by lia.
        apply Z.div_lt_upper_bound; lia.
  - exists [hexdigit (num mod base)]. simpl. split; [done|]. split; [lia|]. split; [|split; [|lia]].
    + apply Forall_singleton. eexists. split; [done|lia].
    + unfold value. simpl. rewrite Hd. simpl. rewrite Z.mod_small by lia. done.
Qed.

Lemma pow_64 base : 2 <= base -> 2 ^ 64 <= base ^ 64.
Proof. intros H. apply Z.pow_le_mono_l. lia. Qed.

Lemma printnum_64 num base w pad :
  2 <= base <= 16 -> 0 <= num < 2 ^ 64 ->
  exists ds, printnum 64 num base w pad = replicate (Z.to_nat (w - Z.of_nat (length ds))) pad ++ ds /\
    (0 < length ds <= 64)%nat /\ numeral base ds /\ value base ds = num /\
    (forall k, 0 < k -> num < base ^ k -> Z.of_nat (length ds) <= k).
Proof.
  intros Hb Hn. apply printnum_spec; [done| |lia]. change (Z.of_nat 64) with 64.
  pose proof (pow_64 base ltac:(lia)). lia.
Qed.

(** ** strtol on a numeral *)

Lemma cstr_offset m s l i : cstr m s l -> (i <= length l)%nat -> 0 <= s + Z.of_nat i < 0x100000000.
Proof. intros (? & ? & _). lia. Qed.

(** The part of a string after its first [n] characters. *)
Lemma cstr_drop m s l l' : cstr m s (l ++ l') -> cstr m (s + Z.of_nat (length l)) l'.
Proof.
  intros (H0 & Hl & Hf & Hb & Hz). rewrite length_app in Hl, Hz. split; [lia|]. split; [lia|].
  apply Forall_app in Hf as [_ Hf]. split; [done|]. split.
  - intros i c Hi. rewrite <- (Hb (length l + i)%nat c); [f_equal; lia|].
    rewrite lookup_app_r by lia. by replace (length l + i - length l)%nat with i by lia.
  - rewrite <- Hz. f_equal. lia.
Qed.

Lemma cstr_head m s c l : cstr m s (c :: l) -> load8 m s = c.
Proof. intros (_ & _ & _ & Hb & _). rewrite <- (Hb O c) by done. f_equal. lia. Qed.

Lemma i32_of_u32 z : i32 (u32 z) = i32 z.
Proof. unfold i32, u32. by rewrite Z.mod_mod. Qed.

Lemma u32_i32 z : u32 (i32 z) = u32 z.
Proof. unfold i32, u32. case_match; lia. Qed.

Lemma i32_add_1 z : i32 (i32 z + 1) = i32 (z + 1).
Proof.
  rewrite <- (i32_of_u32 (i32 z + 1)), <- (i32_of_u32 (z + 1)). f_equal.
  pose proof (u32_i32 z). unfold u32 in *. lia.
Qed.

(** Wrapping around once or at every step is the same. *)
Lemma i32_step a b c : i32 (i32 a * b + c) = i32 (a * b + c).
Proof.
  rewrite <- (i32_of_u32 (i32 a * b + c)), <- (i32_of_u32 (a * b + c)). f_equal. pose proof (u32_i32 a) as H. unfold u32 in *.
  rewrite <- (Zplus_mod_idemp_l (i32 a * b)), <- (Zmult_mod_idemp_l (i32 a)), H. by rewrite Zmult_mod_idemp_l, Zplus_mod_idemp_l.
Qed.

Lemma i32_opp a : i32 (- i32 a) = i32 (- a).
Proof. pose proof (i32_step a (-1) 0) as H. replace (i32 a * -1 + 0) with (- i32 a) in H by lia. by replace (a * -1 + 0) with (- a) in H by lia. Qed.

Lemma digits_numeral m s base ds :
  2 <= base -> cstr m s ds -> numeral base ds ->
  digits m base s = Some (s + Z.of_nat (length ds), i32 (value base ds)).
Proof.
  intros Hb Hs Hds. pose proof (cstr_length _ _ _ Hs). unfold digits.
  rewrite (loop_trace (fun i => (u32 (s + Z.of_nat i), i32 (value base (take i ds)))) (length ds) _ _ _
    (s + Z.of_nat (length ds), i32 (value base ds))); [done| | | |unfold ADDRS; lia].
  - rewrite (cstr_start m s ds) by done. done.
  - intros i Hi. destruct (cstr_byte m s ds i Hs) as [-> ->]; [lia|].
    destruct (lookup_lt_is_Some_2 ds i Hi) as [c Hc]. rewrite Hc. simpl.
    destruct (numeral_digit _ _ _ _ Hds Hc) as (d & Hd & ?). rewrite Hd.
    destruct (Z.geb_spec d base); [lia|]. rewrite (take_S_r _ _ _ Hc), value_snoc, Hd. simpl.
    by rewrite i32_step.
  - destruct (cstr_byte m s ds (length ds) Hs) as [-> _]; [done|]. rewrite lookup_ge_None_2 by done.
    simpl. rewrite take_ge by lia. rewrite u32_small by (by eapply cstr_offset). done.
Qed.

Lemma skip_blanks_run m s k l :
  cstr m s (replicate k 32 ++ l) -> (forall c, head l = Some c -> is_blank c = false) ->
  skip_blanks m s = Some (s + Z.of_nat k).
Proof.
  intros Hs Hl. pose proof (cstr_length _ _ _ Hs) as Hlen. rewrite length_app, length_replicate in Hlen.
  unfold skip_blanks. rewrite (loop_trace (fun i => u32 (s + Z.of_nat i)) k _ _ _ (s + Z.of_nat k));
    [done| | | |unfold ADDRS; lia].
  - by eapply cstr_start.
  - intros i Hi. destruct (cstr_byte _ _ _ i Hs) as [-> ->]; [rewrite length_app, length_replicate; lia|].
    rewrite lookup_app_l by (rewrite length_replicate; lia). by rewrite lookup_replicate_2 by lia.
  - destruct (cstr_byte _ _ _ k Hs) as [-> _]; [rewrite length_app, length_replicate; lia|].
    rewrite lookup_app_r by (rewrite length_replicate; lia). rewrite length_replicate, Nat.sub_diag.
    rewrite (u32_small (s + Z.of_nat k)) by (eapply cstr_offset; [exact Hs|rewrite length_app, length_replicate; lia]).
    destruct l as [|c l]; simpl; [done|]. by rewrite (Hl c).
Qed.

(** [strtol] on blanks, a sign and a numeral, however large: the value modulo 2^32. *)
Lemma strtol_numeral m s k (neg : bool) ds base :
  2 <= base -> cstr m s (replicate k 32 ++ (if neg then [45] else []) ++ ds) ->
  ds <> [] -> numeral base ds ->
  strtol m s base =
    Some (i32 (if neg then - value base ds else value base ds),
          s + Z.of_nat (length (replicate k 32 ++ (if neg then [45] else []) ++ ds))).
Proof.
  intros Hb Hs Hne Hds. destruct ds as [|c ds]; [done|].
  destruct (numeral_digit base _ O c Hds eq_refl) as (d & Hd & _). destruct (digit_range _ _ Hd) as [_ Hc].
  assert (Hblank : forall x, head ((if neg then [45] else []) ++ c :: ds) = Some x -> is_blank x = false).
  { intros x. destruct neg; simpl; intros [= <-]; [done|]. unfold is_blank. lia. }
  unfold strtol. rewrite (skip_blanks_run _ _ _ _ Hs Hblank).
  pose proof (cstr_drop _ _ _ _ Hs) as Hs1. rewrite length_replicate in Hs1. set (s1 := s + Z.of_nat k) in *.
  set (s2 := if neg then s1 + 1 else s1).
  assert (H2 : (if load8 m s1 =? 43 then (u32 (s1 + 1), false)
                else if load8 m s1 =? 45 then (u32 (s1 + 1), true) else (s1, false)) = (s2, neg) /\ cstr m s2 (c :: ds)).
  { unfold s2. destruct neg; simpl in Hs1.
    - rewrite (cstr_head _ _ _ _ Hs1). simpl. change (45 :: c :: ds) with ([45] ++ c :: ds) in Hs1.
      pose proof (cstr_drop _ _ _ _ Hs1) as Hd1. simpl in Hd1. split; [|done].
      rewrite u32_small; [done|]. destruct Hd1 as (? & ? & _). lia.
    - rewrite (cstr_head _ _ _ _ Hs1). destruct (Z.eqb_spec c 43); [lia|]. by destruct (Z.eqb_spec c 45); [lia|]. }
  destruct H2 as [-> Hs2].
  assert (Hp : base_prefix m s2 base = (s2, base)).
  { unfold base_prefix. destruct (Z.eqb_spec base 0); [lia|]. simpl.
    destruct (_ && _) eqn:E; [|done]. rewrite !andb_true_iff, !Z.eqb_eq in E. destruct E as [-> [_ E]].
    exfalso. destruct (cstr_byte _ _ _ 1%nat Hs2) as [E' _]; [simpl; lia|].
    change (Z.of_nat 1) with 1 in E'. rewrite E in E'.
    destruct ds as [|c' ds]; [done|]. simpl in E'. subst c'.
    destruct (numeral_digit 16 _ 1%nat 120 Hds eq_refl) as (d' & Hd' & ?). vm_compute in Hd'. injection Hd' as <-. lia. }
  rewrite Hp, (digits_numeral m s2 base (c :: ds)) by done.
  f_equal. f_equal; [destruct neg; [apply i32_opp|done]|].
  unfold s2, s1. rewrite length_app, length_app, length_replicate. destruct neg; simpl length; lia.
Qed.

(** ** vsnprintf *)

(** The characters a list of actions prints. *)
Definition chars (out : list pact) : list Z := omap (fun a => match a with PutCh c => Some c | SetColor _ => None end) out.

Lemma chars_app a b : chars (a ++ b) = chars a ++ chars b.
Proof. apply omap_app. Qed.
Lemma chars_map l : chars (map PutCh l) = l.
Proof. induction l as [|c l IH]; [done|]. simpl. by f_equal. Qed.

Lemma sprintputch_fold out b :
  fold_left sprintputch out b =
    mkSb (sb_buf b ++ take (Z.to_nat (sb_room b)) (map u8 (chars out)))
      (if decide (0 <= sb_room b) then Z.max 0 (sb_room b - Z.of_nat (length (chars out))) else sb_room b)
      (if decide (chars out = []) then sb_cnt b else i32 (sb_cnt b + Z.of_nat (length (chars out)))).
Proof.
  revert b. induction out as [|a out IH]; intros b.
  - destruct b as [l r c]. simpl. rewrite take_nil, app_nil_r. f_equal. case_decide; lia.
  - cbn [fold_left]. rewrite IH. destruct a as [ch|v]; [|done].
    change (chars (PutCh ch :: out)) with (ch :: chars out). rewrite (decide_False (P := _ :: _ = [])) by done.
    assert (Hcnt : forall c, (if decide (chars out = []) then i32 (c + 1)
                              else i32 (i32 (c + 1) + Z.of_nat (length (chars out)))) =
                             i32 (c + Z.of_nat (length (ch :: chars out)))).
    { intros c. simpl length. case_decide as E; [rewrite E; f_equal; simpl; lia|].
      rewrite <- (i32_of_u32 (i32 _ + _)), <- (i32_of_u32 (c + Z.of_nat (S _))). f_equal.
      pose proof (u32_i32 (c + 1)). unfold u32 in *. lia. }
    simpl sprintputch. destruct (Z.ltb_spec 0 (sb_room b)); cbn [sb_buf sb_room sb_cnt]; rewrite Hcnt; f_equal.
    + rewrite <- app_assoc. f_equal. replace (Z.to_nat (sb_room b)) with (S (Z.to_nat (sb_room b - 1))) by lia. done.
    + simpl length. repeat case_decide; lia.
    + by replace (Z.to_nat (sb_room b)) with O by lia.
    + simpl length. repeat case_decide; lia.
Qed.

Lemma vsnprintf_ok n fmt ap out :
  1 <= n -> vprintfmt fmt ap = Some out -> Z.of_nat (length (chars out)) < 0x80000000 ->
  vsnprintf false n fmt ap =
    Some (Z.of_nat (length (chars out)), take (Z.to_nat (n - 1)) (map u8 (chars out)) ++ [0]) /\
  Z.of_nat (length (take (Z.to_nat (n - 1)) (map u8 (chars out)) ++ [0])) <= n.
Proof.
  intros Hn Hout Hl. split.
  - unfold vsnprintf. destruct (Z.ltb_spec n 1); [lia|]. simpl. rewrite Hout, sprintputch_fold. simpl.
    do 3 f_equal. case_decide as E; [by rewrite E|]. by rewrite i32_small by lia.
  - rewrite length_app, length_take. simpl. lia.
Qed.

(** C36: [vsnprintf] into a buffer of [n] bytes writes the first [n - 1]
    characters and a terminator, never more than [n] bytes, and returns the number
    of characters the whole output has. *)
Theorem vsnprintf_bounded n fmt ap out :
  1 <= n -> vprintfmt fmt ap = Some out -> Z.of_nat (length (chars out)) < 0x80000000 ->
  vsnprintf false n fmt ap =
    Some (Z.of_nat (length (chars out)), take (Z.to_nat (n - 1)) (map u8 (chars out)) ++ [0]) /\
  Z.of_nat (length (take (Z.to_nat (n - 1)) (map u8 (chars out)) ++ [0])) <= n.
Proof. apply vsnprintf_ok. Qed.

(** What [snprintf] with the format ["%d"] prints. *)
Lemma vprintfmt_d num :
  - 0x80000000 <= num < 0x80000000 ->
  vprintfmt (bytes_of "%d") [FInt num] =
    Some (map PutCh ((if num <? 0 then [45] else []) ++ printnum 64 (Z.abs num) 10 (-1) 32) ++ [SetColor 0x0100]).
Proof.
  intros Hn. unfold vprintfmt. change (bytes_of "%d") with [37; 100]. cbn [length vprintfmt_loop Z.eqb negb].
  cbn -[printnum i32]. rewrite i32_small by lia. unfold number. cbn [width padc spec0].
  destruct (Z.ltb_spec num 0).
  - rewrite Z.abs_neq by lia. unfold u64. rewrite Z.mod_small by zlia. done.
  - rewrite Z.abs_eq by lia. done.
Qed.

Lemma numeral_bytes base ds : numeral base ds -> Forall (fun c => 48 <= c < 123) ds.
Proof.
  intros H. eapply Forall_impl; [exact H|]. intros c (d & Hd & _). by destruct (digit_range _ _ Hd).
Qed.

Lemma map_u8_small l : Forall (fun c => 0 <= c < 256) l -> map u8 l = l.
Proof. induction 1 as [|c l Hc _ IH]; [done|]. simpl. rewrite IH. f_equal. by apply Z.mod_small. Qed.

(** A string just stored. *)
Lemma cstr_stored m s l :
  0 <= s -> s + Z.of_nat (length l) < 0x100000000 -> Forall (fun c => 0 < c < 256) l ->
  cstr (store_bytes m s (l ++ [0])) s l.
Proof.
  intros H0 Hl Hf. split; [done|]. split; [done|]. split; [done|]. split.
  - intros i c Hi. pose proof (lookup_lt_Some _ _ _ Hi).
    rewrite load8_store_bytes, length_app, decide_True by (simpl; lia).
    replace (Z.to_nat (s + Z.of_nat i - s)) with i by lia. rewrite lookup_app_l, Hi by done. simpl.
    apply Z.mod_small. eapply Forall_lookup_1 in Hf; [|done]. simpl in Hf. lia.
  - rewrite load8_store_bytes, length_app, decide_True by (simpl; lia).
    replace (Z.to_nat (s + Z.of_nat (length l) - s)) with (length l) by lia.
    rewrite lookup_app_r, Nat.sub_diag by done. done.
Qed.

(** C35: what [snprintf(buf, n, "%d", num)] writes, [strtol] in base 10 reads back
    as [num], up to the terminator, for every [int], -2^31 included: 12 bytes are
    enough. *)
Theorem snprintf_strtol m s n num :
  - 0x80000000 <= num < 0x80000000 -> 0 <= s -> s + n < 0x100000000 -> 12 <= n ->
  exists len l, snprintf false n (bytes_of "%d") [FInt num] = Some (len, l) /\
    strtol (store_bytes m s l) s 10 = Some (num, s + len).
Proof.
  intros Hn Hs Hsn Hn12. destruct (printnum_64 (Z.abs num) 10 (-1) 32) as (ds & Hp & Hl & Hds & Hv & Hk); [lia|zlia|].
  specialize (Hk 10 ltac:(lia) ltac:(lia)). set (l := (if num <? 0 then [45] else []) ++ ds).
  assert (Hpl : (if num <? 0 then [45] else []) ++ printnum 64 (Z.abs num) 10 (-1) 32 = l).
  { rewrite Hp. unfold l. by replace (Z.to_nat (-1 - Z.of_nat (length ds))) with O by lia. }
  assert (Hll : (length l <= 11)%nat) by (unfold l; rewrite length_app; destruct (num <? 0); simpl; lia).
  assert (Hf : Forall (fun c => 0 < c < 256) l).
  { apply Forall_app. split; [destruct (num <? 0); repeat constructor; lia|].
    eapply Forall_impl; [by eapply numeral_bytes|]. simpl. lia. }
  pose proof (vprintfmt_d num ltac:(lia)) as Hout. rewrite Hpl in Hout.
  assert (Hc : chars (map PutCh l ++ [SetColor 0x0100]) = l) by (by rewrite chars_app, chars_map, app_nil_r).
  exists (Z.of_nat (length l)), (l ++ [0]). split.
  - unfold snprintf. rewrite (proj1 (vsnprintf_ok n _ _ _ ltac:(lia) Hout ltac:(rewrite Hc; lia))), Hc. do 3 f_equal. rewrite map_u8_small by (eapply Forall_impl; [exact Hf|]; simpl; lia).
    by rewrite take_ge by lia.
  - assert (Hcs : cstr (store_bytes m s (l ++ [0])) s l) by (apply cstr_stored; [done|lia|done]).
    pose proof (strtol_numeral (store_bytes m s (l ++ [0])) s 0 (num <? 0) ds 10 ltac:(lia) Hcs) as H.
    rewrite Hv in H. rewrite H; [| |done].
    + replace (if num <? 0 then - Z.abs num else Z.abs num) with num by (destruct (Z.ltb_spec num 0); lia). by rewrite i32_small by lia.
    + intros ->. simpl in Hl. lia.
Qed.

(** ** The loops of [vprintfmt] end *)

Lemma scan_digits_length p l : (length (scan_digits p l).2 <= length l)%nat.
Proof.
  revert p. induction l as [|c l IH]; intros p; simpl; [done|]. destruct (is_digit c); [|done].
  etrans; [apply IH|]. lia.
Qed.

Lemma scan_fuel n k l sp ap : (length l < n)%nat -> (n <= k)%nat -> scan k l sp ap = scan n l sp ap.
Proof.
  revert k l sp ap. induction n as [|n IH]; intros k l sp ap Hn Hk; [lia|].
  destruct k as [|k]; [lia|]. destruct l as [|c l]; [done|]. cbn [scan]. simpl in Hn.
  pose proof (scan_digits_length (c - 48) l). destruct (scan_digits (c - 48) l) as [p rest]. simpl in H.
  destruct ap as [|[w|s] ap]; rewrite !(IH k) by lia; done.
Qed.

Lemma scan_ends n l sp ap : (length l < n)%nat -> scan n l sp ap <> OutOfFuel.
Proof.
  revert l sp ap. induction n as [|n IH]; intros l sp ap Hn; [lia|]. destruct l as [|c l]; [done|]. cbn [scan]. simpl in Hn.
  pose proof (scan_digits_length (c - 48) l). destruct (scan_digits (c - 48) l) as [p rest]. simpl in H.
  destruct ap as [|[w|s] ap]; repeat case_match; try done; apply IH; lia.
Qed.

Lemma scan_rest n l sp ap ch sp' rest ap' :
  scan n l sp ap = Done (ch, sp', rest, ap') -> (length rest <= length l)%nat.
Proof.
  revert l sp ap. induction n as [|n IH]; intros l sp ap; [done|]. destruct l as [|c l]; [by intros [= _ _ <- _]|].
  cbn [scan]. pose proof (scan_digits_length (c - 48) l). destruct (scan_digits (c - 48) l) as [p r]. simpl in H |- *.
  repeat case_match; try done; try (intros Hs%IH; lia). intros [= _ _ <- _]. lia.
Qed.

Lemma before_ends l r : r <> OutOfFuel -> before l r <> OutOfFuel.
Proof. by destruct r. Qed.

Lemma vprintfmt_loop_ends n fmt ap : (length fmt < n)%nat -> vprintfmt_loop n fmt ap <> OutOfFuel.
Proof.
  revert fmt ap. induction n as [|n IH]; intros fmt ap Hn; [lia|]. destruct fmt as [|c l]; [done|].
  cbn [vprintfmt_loop]. simpl in Hn. destruct (negb (c =? 37)); [apply before_ends, IH; lia|].
  pose proof (scan_ends (S (length l)) l spec0 ap ltac:(lia)) as Hse.
  destruct (scan (S (length l)) l spec0 ap) as [[[[ch sp] rest] ap']| |] eqn:Hs; [|done|done].
  pose proof (scan_rest _ _ _ _ _ _ _ _ Hs). destruct (convert ch sp ap') as [[[out ap'']|]|]; [..|done]; apply before_ends, IH; lia.
Qed.

Lemma vprintfmt_loop_fuel n k fmt ap : (length fmt < n)%nat -> (n <= k)%nat -> vprintfmt_loop k fmt ap = vprintfmt_loop n fmt ap.
Proof.
  revert k fmt ap. induction n as [|n IH]; intros k fmt ap Hn Hk; [lia|].
  destruct k as [|k]; [lia|]. destruct fmt as [|c l]; [done|]. cbn [vprintfmt_loop]. simpl in Hn.
  destruct (negb (c =? 37)); [by rewrite (IH k) by lia|].
  destruct (scan (S (length l)) l spec0 ap) as [[[[ch sp] rest] ap']| |] eqn:Hs; [|done|done].
  pose proof (scan_rest _ _ _ _ _ _ _ _ Hs). destruct (convert ch sp ap') as [[[out ap'']|]|]; [..|done]; by rewrite (IH k) by lia.
Qed.

(** The nested calls of [printnum] end: every one divides the number. *)
Lemma printnum_fuel n k num base w pad :
  2 <= base -> 0 <= num < base ^ Z.of_nat n -> (0 < n)%nat -> (n <= k)%nat -> printnum k num base w pad = printnum n num base w pad.
Proof.
  intros Hb. revert k num w. induction n as [|n IH]; intros k num w Hn H0 Hk; [lia|]. destruct k as [|k]; [lia|]. cbn [printnum].
  destruct (Z.geb_spec num base) as [Hge|]; [|done]. destruct (decide (n = O)) as [->|Hn0]; [simpl in Hn; lia|].
  rewrite (IH k); [done| |lia|lia]. rewrite Nat2Z.inj_succ, Z.pow_succ_r in Hn by lia.
  split; [apply Z.div_pos; lia|apply Z.div_lt_upper_bound; lia].
Qed.

(** C37: the loops of [vprintfmt] end: with one turn per character of the format
    and one for its end the fuel never runs out, in the loop itself and in the scan of a
    conversion within it, so that only an argument that C leaves undefined keeps it from
    a result; more fuel gives the same result, and so it does for [printnum]'s 64 nested
    calls on every number of 64 bits. *)
Theorem vprintfmt_terminates fmt ap k :
  (length fmt < k)%nat ->
  vprintfmt_loop k fmt ap <> OutOfFuel /\
  match vprintfmt fmt ap with
  | Some out => vprintfmt_loop k fmt ap = Done out
  | None => vprintfmt_loop k fmt ap = Undefined
  end /\
  forall j num base w pad, (64 <= j)%nat -> 2 <= base -> 0 <= num < 2 ^ 64 ->
    printnum j num base w pad = printnum 64 num base w pad.
Proof.
  intros Hk. pose proof (vprintfmt_loop_ends k fmt ap Hk) as He. split; [done|]. split.
  - unfold vprintfmt. rewrite <- (vprintfmt_loop_fuel (S (length fmt)) k fmt ap) by lia.
    by destruct (vprintfmt_loop k fmt ap).
  - intros j num base w pad Hj Hb Hn. apply printnum_fuel; [done| |lia|done]. pose proof (pow_64 base Hb).
    change (Z.of_nat 64) with 64. lia.
Qed.

(** ** The two cprintfs *)

(** The kernel's [cprintf] always returns 0, however much it printed:
    [*cnt++] moves a pointer and counts nothing. *)
Theorem kern_cprintf_returns_0 fmt ap st n st' : kern_cprintf fmt ap st = Some (n, st') -> n = 0.
Proof.
  unfold kern_cprintf, kern_vcprintf. destruct (vprintfmt fmt ap) as [out|]; [|done].
  assert (H : forall st, (fold_left kern_putch out st).2 = st.2).
  { induction out as [|a out IH]; intros s; [done|]. simpl. rewrite IH. by destruct a. }
  specialize (H (st, 0)). destruct (fold_left _ _ _) as [s c]. simpl in H. by intros [= <- _].
Qed.

Definition pb_ok (b : printbuf) : Prop :=
  length (pb_buf b) = 256%nat /\ 0 <= pb_idx b < 255 /\ Forall (fun l => length l = 255%nat) (pb_calls b).

(** What the buffer has taken in so far. *)
Definition pb_contents (b : printbuf) : list Z :=
  concat (pb_calls b) ++ take (Z.to_nat (pb_idx b)) (pb_buf b).

Lemma user_putch_ok b ch : pb_ok b ->
  pb_ok (user_putch b (PutCh ch)) /\
  pb_contents (user_putch b (PutCh ch)) = pb_contents b ++ [u8 ch] /\
  pb_cnt (user_putch b (PutCh ch)) = i32 (pb_cnt b + 1).
Proof.
  intros (Hl & Hi & Hc). unfold user_putch, pb_ok, pb_contents.
  assert (Hw : take (Z.to_nat (pb_idx b + 1)) (<[Z.to_nat (pb_idx b):=u8 ch]> (pb_buf b)) =
               take (Z.to_nat (pb_idx b)) (pb_buf b) ++ [u8 ch]).
  { replace (Z.to_nat (pb_idx b + 1)) with (S (Z.to_nat (pb_idx b))) by lia.
    rewrite (take_S_r _ _ (u8 ch)) by (apply list_lookup_insert_eq; lia). by rewrite take_insert_ge by done. }
  destruct (Z.eqb_spec (pb_idx b + 1) (256 - 1)); cbn [pb_buf pb_idx pb_calls pb_cnt].
  - rewrite length_insert, concat_app. simpl. rewrite !app_nil_r, Hw. split; [|by rewrite app_assoc].
    split; [done|]. split; [lia|]. apply Forall_app. split; [done|]. apply Forall_singleton.
    rewrite length_app, length_take. simpl. lia.
  - rewrite length_insert, Hw, app_assoc. split; [|done]. split; [done|]. split; [lia|done].
Qed.

(** The user's [cprintf] hands its whole output to [sys_cputs], in order and
    in pieces of at most 255 characters (its buffer is never overrun), and returns
    how many characters it printed. *)
Theorem user_cprintf_correct garbage fmt ap out :
  length garbage = 256%nat -> vprintfmt fmt ap = Some out -> Z.of_nat (length (chars out)) < 0x80000000 ->
  exists calls, user_cprintf garbage fmt ap = Some (Z.of_nat (length (chars out)), calls) /\
    concat calls = map u8 (chars out) /\ Forall (fun l => (length l <= 255)%nat) calls.
Proof.
  intros Hg Hout Hl. unfold user_cprintf, user_vcprintf. rewrite Hout.
  assert (H : forall out b, pb_ok b -> 0 <= pb_cnt b -> pb_cnt b + Z.of_nat (length (chars out)) < 0x80000000 ->
    let b' := fold_left user_putch out b in
    pb_ok b' /\ pb_contents b' = pb_contents b ++ map u8 (chars out) /\
    pb_cnt b' = pb_cnt b + Z.of_nat (length (chars out))).
  { clear. induction out as [|a out IH]; intros b Hb H0 Hc; cbn [fold_left].
    - simpl. rewrite app_nil_r. split; [done|]. split; [done|]. lia.
    - destruct a as [ch|v]; [|by apply IH]. change (chars (PutCh ch :: out)) with (ch :: chars out) in *.
      simpl length in Hc. destruct (user_putch_ok b ch Hb) as (Hb' & Hp & Hcnt). rewrite i32_small in Hcnt by lia.
      destruct (IH (user_putch b (PutCh ch))) as (? & Hp' & Hc'); [done|lia|lia|].
      split; [done|]. split; [by rewrite Hp', Hp, <- app_assoc|]. rewrite Hc', Hcnt. simpl length. lia. }
  destruct (H out (mkPb 0 0 garbage [])) as ((Hbl & Hi & Hcs) & Hp & Hcnt);
    [split; [done|split; [simpl; lia|constructor]]|simpl; lia|simpl; lia|].
  set (b := fold_left _ _ _) in *. eexists. split; [by rewrite Hcnt|]. split.
  - rewrite concat_app. simpl. rewrite app_nil_r. exact Hp.
  - apply Forall_app. split; [eapply Forall_impl; [exact Hcs|]; simpl; lia|].
    apply Forall_singleton. rewrite length_take. lia.
Qed.

(** ** readline *)

Lemma readline_loop_ok echoing input buf echo line echo' :
  (length buf <= 1023)%nat -> Forall (fun c => 0 <= c < 256) buf ->
  readline_loop echoing input buf echo = RlLine line echo' ->
  (length line <= 1023)%nat /\ Forall (fun c => 0 <= c < 256) line.
Proof.
  revert buf echo. induction input as [|c input IH]; intros buf echo Hl Hb; [done|]. cbn [readline_loop].
  destruct (c <? 0); [done|]. destruct (_ && (0 <? _)) eqn:E1.
  { apply IH.
    - destruct buf as [|x buf] using rev_ind; [done|]. rewrite removelast_last. rewrite length_app in Hl. simpl in Hl. lia.
    - destruct buf as [|x buf] using rev_ind; [done|]. rewrite removelast_last. by apply Forall_app in Hb as [? _]. }
  destruct (_ && (Z.of_nat (length buf) <? _)) eqn:E2.
  { apply andb_true_iff in E2 as [_ E2%Z.ltb_lt]. unfold BUFLEN in E2. apply IH.
    - rewrite length_app. simpl. lia.
    - apply Forall_app. split; [done|]. apply Forall_singleton. apply u8_range. }
  destruct ((c =? 10) || _); [by intros [= <- _]|]. by apply IH.
Qed.

(** Printable characters. *)
Definition printable (l : list Z) : Prop := Forall (fun c => 32 <= c < 127) l.

Lemma readline_type echoing l input buf echo :
  printable l -> (length buf + length l <= 1023)%nat ->
  readline_loop echoing (l ++ input) buf echo =
    readline_loop echoing input (buf ++ l) (if echoing then echo ++ l else echo).
Proof.
  revert buf echo. induction l as [|c l IH]; intros buf echo Hl Hlen; simpl in *.
  - rewrite !app_nil_r. by destruct echoing.
  - apply Forall_cons in Hl as [Hc Hl]. unfold BUFLEN.
    destruct (Z.ltb_spec c 0); [lia|]. destruct (Z.eqb_spec c 8); [lia|]. destruct (Z.eqb_spec c 127); [lia|].
    cbn [orb andb]. destruct (Z.geb_spec c 32); [|lia]. destruct (Z.ltb_spec (Z.of_nat (length buf)) (1024 - 1)); [|lia].
    cbn [andb]. rewrite IH by (rewrite ?length_app; simpl; lia || done). unfold u8. rewrite Z.mod_small by lia.
    rewrite <- !app_assoc. by destruct echoing; rewrite <- ?app_assoc.
Qed.

(** [readline] never overruns its buffer of 1024 bytes, whatever is typed;
    a line of printable characters that fits comes back as typed, and a backspace
    takes back the character typed last. *)
Theorem readline_correct :
  (forall prompt echoing input line echo, readline prompt echoing input = RlLine line echo ->
     (length line < 1024)%nat /\ Forall (fun c => 0 <= c < 256) line) /\
  (forall l rest, printable l -> (length l <= 1023)%nat ->
     readline None true (l ++ 10 :: rest) = RlLine l (l ++ [10])) /\
  (forall l c rest, printable l -> 32 <= c < 127 -> (length l < 1023)%nat ->
     readline None true (l ++ [c] ++ 8 :: 10 :: rest) = RlLine l (l ++ [c] ++ [8; 10])).
Proof.
  split; [|split].
  - intros prompt echoing input line echo H. apply readline_loop_ok in H as [? ?]; [split; [lia|done]|simpl; lia|done].
  - intros l rest Hl Hlen. unfold readline. rewrite readline_type by (simpl; lia || done). done.
  - intros l c rest Hl Hc Hlen. unfold readline. rewrite app_assoc.
    rewrite readline_type; [| |rewrite length_app; simpl; lia].
    2: { apply Forall_app. split; [done|]. by apply Forall_singleton. }
    simpl. rewrite length_app. destruct (Z.ltb_spec 0 (Z.of_nat (length l + length [c]))) as [_|?]; [|simpl in *; lia].
    rewrite removelast_last, <- !app_assoc. done.
Qed.

(** ** Witnesses *)

Lemma vsnprintf_bounded_witness :
  vsnprintf false 4 (bytes_of "%05d") [FInt 42] = Some (5, bytes_of "000" ++ [0]).
Proof.
  destruct (vsnprintf_bounded 4 (bytes_of "%05d") [FInt 42] (map PutCh (bytes_of "00042") ++ [SetColor 0x0100]))
    as [H _]; [lia|reflexivity|reflexivity|]. exact H.
Defined.

Lemma snprintf_strtol_witness :
  exists len l, snprintf false 12 (bytes_of "%d") [FInt (-2147483648)] = Some (len, l) /\
    strtol (store_bytes ∅ 0x1000 l) 0x1000 10 = Some (-2147483648, 0x1000 + len).
Proof. apply (snprintf_strtol ∅ 0x1000 12 (-2147483648)); lia. Defined.

Lemma vprintfmt_terminates_witness :
  vprintfmt_loop 100 (bytes_of "%-5z") [] = Done (map PutCh (bytes_of "%-5z") ++ [SetColor 0x0100]) /\
  vprintfmt_loop 100 (bytes_of "%d") [] = Undefined.
Proof.
  destruct (vprintfmt_terminates (bytes_of "%-5z") [] 100) as (_ & H & _); [vm_compute; lia|].
  destruct (vprintfmt_terminates (bytes_of "%d") [] 100) as (_ & H' & _); [vm_compute; lia|]. exact (conj H H').
Defined.

Lemma kern_cprintf_returns_0_witness :
  exists st', kern_cprintf (bytes_of "ok") [] example_con = Some (0, st').
Proof.
  destruct (kern_cprintf (bytes_of "ok") [] example_con) as [[n st']|] eqn:E; [|discriminate].
  exists st'. by rewrite (kern_cprintf_returns_0 _ _ _ _ _ E).
Defined.

Lemma user_cprintf_correct_witness :
  exists calls, user_cprintf (replicate 256 0) (bytes_of "%x") [FInt 255] = Some (2, calls) /\ concat calls = [102; 102].
Proof.
  destruct (user_cprintf_correct (replicate 256 0) (bytes_of "%x") [FInt 255] (map PutCh [102; 102] ++ [SetColor 0x0100]))
    as (calls & H & Hc & _); [reflexivity|reflexivity|reflexivity|]. exists calls. exact (conj H Hc).
Defined.
