(* ===== verification/Spinlock.v ===== *)
(** * kern/spinlock.c with all CPUs: the interleaving of their memory accesses

    Kstate.v gives the big kernel lock as one CPU sees it between two of its own
    operations.  Here every CPU is at a point of [spin_lock], of [spin_unlock] or
    outside; a step is one access to the lock by one CPU, in any order.  The words
    of the lock are accessed one at a time, [xchg] reads and writes at once; the
    array [pcs], which nobody else looks at while the lock is held, is written in
    one step. *)
From stdpp Require Import functions.
From S2P Require Import Prelude Mmu Kstate.

(** ** get_caller_pcs *)

Section pcs.
(** The memory of the stack. *)
Context (load32 : Z -> Z).

(** The first loop: the frames from [ebp] on; the second one fills with zeroes. *)
Fixpoint caller_pcs (n : nat) (ebp : Z) : list Z :=
  match n with
  | O => []
  | S n' =>
      if (ebp =? 0) || (ebp <? ULIM) then replicate n 0
      else load32 (u32 (ebp + 4)) :: caller_pcs n' (load32 ebp)
  end.
Definition get_caller_pcs (ebp : Z) : list Z := caller_pcs 10 ebp.

Lemma length_caller_pcs n ebp : length (caller_pcs n ebp) = n.
Proof.
  revert ebp. induction n as [|n IH]; intros ebp; [done|]. cbn [caller_pcs]. destruct (_ || _).
  - by rewrite length_replicate.
  - simpl. by rewrite IH.
Qed.
End pcs.

(** ** The CPUs *)

(** Where a CPU is; [h] tells whether it was in its critical section when it
    made the call. *)
Inductive point :=
| Outside                 (** no lock, no call *)
| LockTest (h : bool)     (** holding, in spin_lock: about to read [locked] *)
| LockTestCpu (h : bool)  (** about to read [cpu] *)
| LockXchg (h : bool)     (** about to exchange [locked] with 1 *)
| LockCpu                 (** about to write [cpu] *)
| LockPcs                 (** about to write [pcs] *)
| Critical                (** spin_lock has returned *)
| UnlockTest (h : bool)   (** holding, in spin_unlock *)
| UnlockTestCpu (h : bool)
| UnlockPcs               (** about to clear [pcs[0]] *)
| UnlockCpu               (** about to clear [cpu] *)
| UnlockXchg              (** about to exchange [locked] with 0 *)
| Panicked (h : bool).

Record lkstate := mkLk {
  word : Z;                (** [locked] *)
  holder : option Z;       (** [cpu] *)
  pcs : list Z;            (** [pcs] *)
  at_ : Z -> point }.

(** A CPU outside a call may make one; otherwise it goes on. *)
Inductive move := CallLock | CallUnlock | Go.

Definition goto (c : Z) (p : point) (s : lkstate) : lkstate :=
  mkLk (word s) (holder s) (pcs s) (<[c := p]> (at_ s)).

Section step.
(** The call stack that CPU [c] records. *)
Context (stack : Z -> list Z).

Definition step (c : Z) (mv : move) (s : lkstate) : option lkstate :=
  match at_ s c, mv with
  | Outside, CallLock => Some (goto c (LockTest false) s)
  | Outside, CallUnlock => Some (goto c (UnlockTest false) s)
  | Critical, CallLock => Some (goto c (LockTest true) s)
  | Critical, CallUnlock => Some (goto c (UnlockTest true) s)
  | LockTest h, Go => Some (goto c (if word s =? 0 then LockXchg h else LockTestCpu h) s)
  | LockTestCpu h, Go =>
      Some (goto c (if bool_decide (holder s = Some c) then Panicked h else LockXchg h) s)
  | LockXchg h, Go =>
      let old := word s in
      Some (mkLk 1 (holder s) (pcs s) (<[c := if old =? 0 then LockCpu else LockXchg h]> (at_ s)))
  | LockCpu, Go => Some (mkLk (word s) (Some c) (pcs s) (<[c := LockPcs]> (at_ s)))
  | LockPcs, Go => Some (mkLk (word s) (holder s) (stack c) (<[c := Critical]> (at_ s)))
  | UnlockTest h, Go => Some (goto c (if word s =? 0 then Panicked h else UnlockTestCpu h) s)
  | UnlockTestCpu h, Go =>
      Some (goto c (if bool_decide (holder s = Some c) then UnlockPcs else Panicked h) s)
  | UnlockPcs, Go => Some (mkLk (word s) (holder s) (<[O := 0]> (pcs s)) (<[c := UnlockCpu]> (at_ s)))
  | UnlockCpu, Go => Some (mkLk (word s) None (pcs s) (<[c := UnlockXchg]> (at_ s)))
  | UnlockXchg, Go => Some (mkLk 0 (holder s) (pcs s) (<[c := Outside]> (at_ s)))
  | _, _ => None
  end.

(** [__spin_initlock], with every CPU outside. *)
Definition initlock : lkstate := mkLk 0 None (replicate 10 0) (fun _ => Outside).

Inductive reachable : lkstate -> Prop :=
| ReachInit : reachable initlock
| ReachStep c mv s s' : reachable s -> step c mv s = Some s' -> reachable s'.

Inductive steps : lkstate -> lkstate -> Prop :=
| StepsNil s : steps s s
| StepsCons c mv s s' s'' : step c mv s = Some s' -> steps s' s'' -> steps s s''.

(** ** The invariant *)

(** The points at which a CPU owns the lock. *)
Definition owns (p : point) : bool :=
  match p with
  | LockCpu | LockPcs | Critical | UnlockPcs | UnlockCpu | UnlockXchg => true
  | LockTest h | LockTestCpu h | UnlockTest h | UnlockTestCpu h | Panicked h => h
  | Outside | LockXchg _ => false
  end.

(** What [cpu] holds while its owner [c] is at [p]. *)
Definition holder_at (c : Z) (p : point) : option Z :=
  match p with LockCpu | UnlockXchg => None | _ => Some c end.

Record lk_inv (s : lkstate) (o : option Z) : Prop := {
  li_word : word s = match o with Some _ => 1 | None => 0 end;
  li_owner c : owns (at_ s c) = true <-> o = Some c;
  li_holder : holder s = match o with Some c => holder_at c (at_ s c) | None => None end;
  li_spin c h : at_ s c = LockXchg h -> h = false }.

Lemma init_inv : lk_inv initlock None.
Proof. by split. Qed.

Lemma fn_lookup_insert_case (f : Z -> point) c p c' : (<[c := p]> f) c' = if decide (c = c') then p else f c'.
Proof. case_decide as E; [subst; apply fn_lookup_insert|by apply fn_lookup_insert_ne]. Qed.

(** A CPU that moves between two points with the same ownership. *)
Lemma goto_inv s o c p :
  lk_inv s o -> owns p = owns (at_ s c) -> (o = Some c -> holder_at c p = holder_at c (at_ s c)) ->
  (forall h, p = LockXchg h -> h = false) -> lk_inv (goto c p s) o.
Proof.
  intros [Hw Ho Hh Hs] Hp Hq Hx. split; simpl; [done| | |].
  - intros c'. rewrite fn_lookup_insert_case. case_decide as E; [subst c'; rewrite Hp; apply Ho|apply Ho].
  - rewrite Hh. destruct o as [c'|]; [|done]. rewrite fn_lookup_insert_case. case_decide as E; [|done].
    subst c'. by rewrite Hq.
  - intros c' h. rewrite fn_lookup_insert_case. case_decide; [apply Hx|apply Hs].
Qed.

(** A CPU that takes the lock, or gives it back. *)
Lemma take_inv s c p : lk_inv s None -> p = LockCpu -> lk_inv (mkLk 1 (holder s) (pcs s) (<[c := p]> (at_ s))) (Some c).
Proof.
  intros [Hw Ho Hh Hs] ->. split; simpl; [done| | |].
  - intros c'. rewrite fn_lookup_insert_case. case_decide as E; [subst; split; done|].
    rewrite Ho. split; [done|congruence].
  - by rewrite fn_lookup_insert.
  - intros c' h. rewrite fn_lookup_insert_case. case_decide; [done|apply Hs].
Qed.

Lemma give_inv s c : lk_inv s (Some c) -> holder s = None -> lk_inv (mkLk 0 (holder s) (pcs s) (<[c := Outside]> (at_ s))) None.
Proof.
  intros [Hw Ho Hh Hs] Hn. split; simpl; [done| |done|].
  - intros c'. rewrite fn_lookup_insert_case. case_decide as E; [done|]. rewrite Ho. split; [congruence|done].
  - intros c' h. rewrite fn_lookup_insert_case. case_decide; [done|apply Hs].
Qed.

(** The owner changes the other words. *)
Lemma owner_inv s c p h l :
  lk_inv s (Some c) -> owns p = true -> h = holder_at c p -> (forall b, p <> LockXchg b) ->
  lk_inv (mkLk (word s) h l (<[c := p]> (at_ s))) (Some c).
Proof.
  intros [Hw Ho Hh Hs] Hp -> Hx. split; simpl; [done| | |].
  - intros c'. rewrite fn_lookup_insert_case. case_decide as E; [subst; split; done|apply Ho].
  - by rewrite fn_lookup_insert.
  - intros c' b. rewrite fn_lookup_insert_case. case_decide; [by intros E; apply Hx in E|apply Hs].
Qed.

Lemma inv_owner s o c : lk_inv s o -> owns (at_ s c) = true -> o = Some c.
Proof. intros H. apply (li_owner _ _ H). Qed.

(** [holding] is exact, although it reads two words that other CPUs write. *)
Lemma test_word s o c h : lk_inv s o -> owns (at_ s c) = h -> h = true -> word s = 1.
Proof. intros H Hc ->. apply (inv_owner _ _ _ H) in Hc as ->. apply (li_word _ _ H). Qed.

Lemma test_holder s o c h :
  lk_inv s o -> owns (at_ s c) = h -> holder_at c (at_ s c) = Some c -> bool_decide (holder s = Some c) = h.
Proof.
  intros H Hc Hat. destruct h.
  - apply (inv_owner _ _ _ H) in Hc as ->. by rewrite (li_holder _ _ H), Hat, bool_decide_true by done.
  - apply bool_decide_false. rewrite (li_holder _ _ H). destruct o as [c'|]; [|done].
    intros E. assert (c' = c) as -> by (by destruct (at_ s c'); simpl in E; congruence).
    by rewrite (proj2 (li_owner _ _ H c) eq_refl) in Hc.
Qed.

Lemma step_inv s o c mv s' : lk_inv s o -> step c mv s = Some s' -> exists o', lk_inv s' o'.
Proof.
  intros H. unfold step. destruct (at_ s c) as [|h|h|h| | | |h|h| | | |h] eqn:Hc, mv; intros [= <-].
  1,2: exists o; apply goto_inv; rewrite ?Hc; done.
  - exists o. destruct (word s =? 0) eqn:Hw; apply goto_inv; rewrite ?Hc; try done.
    + destruct h; [|done]. rewrite (test_word s o c true H) in Hw by (by rewrite ?Hc). done.
    + intros b [= <-]. destruct h; [|done]. rewrite (test_word s o c true H) in Hw by (by rewrite ?Hc). done.
  - exists o. rewrite (test_holder s o c h H) by (by rewrite Hc). destruct h; apply goto_inv; rewrite ?Hc; try done.
    by intros b [= <-].
  - pose proof (li_spin _ _ H c h Hc) as ->. destruct (Z.eqb_spec (word s) 0) as [Hw|Hw].
    + exists (Some c). pose proof (li_word _ _ H) as Ho. destruct o; [congruence|]. by apply take_inv.
    + exists o. pose proof (li_word _ _ H) as Ho. destruct o as [c'|]; [|done].
      replace (mkLk 1 (holder s) (pcs s) (<[c:=LockXchg false]> (at_ s))) with (goto c (LockXchg false) s)
        by (unfold goto; by rewrite Ho). apply goto_inv; rewrite ?Hc; try done. by intros b [= <-].
  - exists (Some c). rewrite (inv_owner _ _ c H) in H by (by rewrite Hc). by apply owner_inv.
  - exists (Some c). rewrite (inv_owner _ _ c H) in H by (by rewrite Hc). apply owner_inv; try done.
    rewrite (li_holder _ _ H), Hc. done.
  - exists o. apply goto_inv; rewrite ?Hc; done.
  - exists o. apply goto_inv; rewrite ?Hc; done.
  - exists o. destruct (word s =? 0) eqn:Hw; apply goto_inv; rewrite ?Hc; done.
  - exists o. destruct (bool_decide _) eqn:Hb; apply goto_inv; rewrite ?Hc; try done.
    rewrite (test_holder s o c h H) in Hb by (by rewrite Hc). by subst h.
  - exists (Some c). rewrite (inv_owner _ _ c H) in H by (by rewrite Hc). apply owner_inv; try done.
    rewrite (li_holder _ _ H), Hc. done.
  - exists (Some c). rewrite (inv_owner _ _ c H) in H by (by rewrite Hc). by apply owner_inv.
  - exists None. rewrite (inv_owner _ _ c H) in H by (by rewrite Hc). apply give_inv; [done|].
    rewrite (li_holder _ _ H), Hc. done.
Qed.

Lemma reachable_inv s : reachable s -> exists o, lk_inv s o.
Proof.
  induction 1 as [|c mv s s' _ [o IH] Hs]; [exists None; apply init_inv|]. by eapply step_inv.
Qed.

(** C27: mutual exclusion: in every interleaving, however the calls are made, two
    CPUs are never both between the return of spin_lock and the exchange that
    releases the lock; the one that is there is the one the lock names. *)
Theorem mutual_exclusion s c c' :
  reachable s -> at_ s c = Critical ->
  word s = 1 /\ holder s = Some c /\ (owns (at_ s c') = true -> c' = c).
Proof.
  intros (o & H)%reachable_inv Hc. rewrite (inv_owner _ _ c H) in H by (by rewrite Hc).
  split; [apply (li_word _ _ H)|]. split; [rewrite (li_holder _ _ H), Hc; done|].
  intros Ho%(li_owner _ _ H). congruence.
Qed.

(** The test for holding is exact in every interleaving, although it reads two
    words one after the other: a CPU that takes the lock twice, or releases a lock it
    does not hold, panics, whatever the others do; no other CPU does. *)
Theorem holding_exact s c s' :
  reachable s -> step c Go s = Some s' ->
  match at_ s c with
  | LockTest h => at_ s' c = (if h then LockTestCpu true else if word s =? 0 then LockXchg false else LockTestCpu false)
  | LockTestCpu h => at_ s' c = (if h then Panicked true else LockXchg false)
  | UnlockTest h => at_ s' c = (if h then UnlockTestCpu true else if word s =? 0 then Panicked false else UnlockTestCpu false)
  | UnlockTestCpu h => at_ s' c = (if h then UnlockPcs else Panicked false)
  | _ => forall b, at_ s' c <> Panicked b
  end.
Proof.
  intros (o & H)%reachable_inv. unfold step. destruct (at_ s c) as [|b|b|b| | | |b|b| | | |b] eqn:Hc; try done; intros [= <-];
    simpl; rewrite ?fn_lookup_insert; try done.
  - destruct b; [|done]. by rewrite (test_word s o c true H) by (by rewrite ?Hc).
  - rewrite (test_holder s o c b H) by (by rewrite Hc). by destruct b.
  - by destruct (word s =? 0).
  - destruct b; [|done]. by rewrite (test_word s o c true H) by (by rewrite ?Hc).
  - rewrite (test_holder s o c b H) by (by rewrite Hc). by destruct b.
Qed.

(** *** The lock comes free *)

Lemma steps_trans s1 s2 s3 : steps s1 s2 -> steps s2 s3 -> steps s1 s3.
Proof. induction 1; [done|]. intros. econstructor; eauto. Qed.

Lemma steps_one c mv s s' : step c mv s = Some s' -> steps s s'.
Proof. intros. econstructor; [done|constructor]. Qed.

(** The steps of the owner to the release. *)
Definition rank (p : point) : nat :=
  match p with
  | LockCpu => 8 | LockPcs => 7 | Critical => 6 | UnlockTest _ => 5 | UnlockTestCpu _ => 4
  | UnlockPcs => 3 | UnlockCpu => 2 | UnlockXchg => 1 | _ => 0
  end.

(** The owner has not called spin_lock again. *)
Definition well_behaved (p : point) : bool := (0 <? Z.of_nat (rank p)).

Lemma owner_step s c : lk_inv s (Some c) -> well_behaved (at_ s c) = true ->
  exists mv s' o', step c mv s = Some s' /\ lk_inv s' o' /\ (forall c', c' <> c -> at_ s' c' = at_ s c') /\
    (o' = None \/ (o' = Some c /\ well_behaved (at_ s' c) = true /\ (rank (at_ s' c) < rank (at_ s c))%nat)).
Proof.
  intros H Hw. pose proof (proj2 (li_owner _ _ H c) eq_refl) as Ho.
  set (mv := match at_ s c with Critical => CallUnlock | _ => Go end).
  assert (Hs : exists s', step c mv s = Some s').
  { unfold step, mv. destruct (at_ s c); try done; by eexists. }
  destruct Hs as [s' Hs]. destruct (step_inv _ _ _ _ _ H Hs) as [o' H'].
  exists mv, s', o'. split; [done|]. split; [done|].
  assert (Hoth : forall c', c' <> c -> at_ s' c' = at_ s c').
  { intros c' Hne. unfold step in Hs. destruct (at_ s c), mv; try done; injection Hs as <-; simpl;
      by rewrite fn_lookup_insert_ne by done. }
  split; [done|].
  assert (Hnow : owns (at_ s' c) = false \/ (well_behaved (at_ s' c) = true /\ (rank (at_ s' c) < rank (at_ s c))%nat)).
  { unfold step, mv in Hs. destruct (at_ s c) as [|b|b|b| | | |b|b| | | |b] eqn:Hc; try done; injection Hs as <-; simpl;
      rewrite ?fn_lookup_insert; try (by left); try (right; split; [done|simpl; lia]).
    - simpl in Ho. subst b. rewrite (test_word s (Some c) c true H) by (by rewrite ?Hc). right. split; [done|simpl; lia].
    - simpl in Ho. subst b. rewrite (test_holder s (Some c) c true H) by (by rewrite Hc). right. split; [done|simpl; lia]. }
  destruct Hnow as [Hn|Hn].
  - left. destruct o' as [c'|]; [|done]. pose proof (proj2 (li_owner _ _ H' c') eq_refl) as Hc'.
    destruct (decide (c' = c)) as [->|Hne]; [congruence|]. rewrite Hoth in Hc' by done.
    apply (li_owner _ _ H) in Hc'. congruence.
  - right. split; [|done]. destruct Hn as [Hn _]. apply (inv_owner _ _ _ H').
    destruct (at_ s' c) as [|b|b|b| | | |b|b| | | |b] eqn:Hc'; try done.
    + unfold step, mv in Hs. destruct (at_ s c) eqn:Hc; try done; injection Hs as <-; simpl in Hc';
        rewrite fn_lookup_insert in Hc'; try (injection Hc' as <-); try done; repeat case_match; done.
    + unfold step, mv in Hs. destruct (at_ s c) eqn:Hc; try done; injection Hs as <-; simpl in Hc';
        rewrite fn_lookup_insert in Hc'; try (injection Hc' as <-); try done; repeat case_match; simplify_eq; done.
Qed.

Lemma owner_releases n s c : (rank (at_ s c) <= n)%nat -> lk_inv s (Some c) -> well_behaved (at_ s c) = true ->
  exists s', steps s s' /\ lk_inv s' None /\ forall c', c' <> c -> at_ s' c' = at_ s c'.
Proof.
  revert s. induction n as [|n IH]; intros s Hn H Hw.
  - unfold well_behaved in Hw. lia.
  - destruct (owner_step s c H Hw) as (mv & s1 & o1 & Hs & H1 & Hoth & [->|(-> & Hw1 & Hlt)]).
    + exists s1. split; [by eapply steps_one|done].
    + destruct (IH s1 ltac:(lia) H1 Hw1) as (s2 & H2 & Hi2 & Ho2). exists s2.
      split; [by econstructor|]. split; [done|]. intros c' Hne. by rewrite Ho2, Hoth.
Qed.

(** No deadlock: from every reachable state in which the CPU that owns the lock,
    if there is one, has not called spin_lock again, some continuation brings a CPU
    that waits for the lock into its critical section. *)
Theorem waiting_can_enter s c :
  reachable s -> at_ s c = LockXchg false ->
  (forall c', owns (at_ s c') = true -> well_behaved (at_ s c') = true) ->
  exists s', steps s s' /\ at_ s' c = Critical.
Proof.
  intros (o & H)%reachable_inv Hc Hw.
  assert (Hfree : exists s1, steps s s1 /\ lk_inv s1 None /\ at_ s1 c = LockXchg false).
  { destruct o as [c'|]; [|exists s; split; [constructor|done]].
    pose proof (proj2 (li_owner _ _ H c') eq_refl) as Ho.
    destruct (owner_releases _ s c' (le_n _) H (Hw c' Ho)) as (s1 & H1 & Hi & Hoth).
    exists s1. split; [done|]. split; [done|]. rewrite Hoth; [done|]. intros ->. by rewrite Hc in Ho. }
  destruct Hfree as (s1 & H1 & Hi1 & Hc1). pose proof (li_word _ _ Hi1) as Hword.
  eexists. split.
  - eapply steps_trans; [exact H1|]. eapply (StepsCons c Go); [unfold step; by rewrite Hc1|].
    eapply (StepsCons c Go); [unfold step; simpl; by rewrite fn_lookup_insert, Hword|].
    eapply (StepsCons c Go); [unfold step; simpl; by rewrite fn_lookup_insert|constructor].
  - simpl. by rewrite fn_lookup_insert.
Qed.
End step.

(** ** Witnesses *)

(** CPU 0 enters its critical section while CPU 1 waits. *)
Definition run (l : list (Z * move)) (s : lkstate) : option lkstate :=
  fold_left (fun o m => match o with Some s => step (fun _ => replicate 10 7) m.1 m.2 s | None => None end) l (Some s).
Definition schedule : list (Z * move) :=
  [(0, CallLock); (1, CallLock); (0, Go); (0, Go); (1, Go); (0, Go); (1, Go); (0, Go)].
Definition contended : lkstate := default initlock (run schedule initlock).

Lemma run_reachable l s s' :
  run l s = Some s' -> reachable (fun _ => replicate 10 7) s -> reachable (fun _ => replicate 10 7) s'.
Proof.
  unfold run. revert s'. induction l as [|m l IH] using rev_ind; intros s'; [by intros [= <-]|].
  rewrite fold_left_app. simpl. destruct (fold_left _ _ _) as [s1|] eqn:E; [|done].
  intros H Hs. by eapply ReachStep; [apply IH|].
Qed.

Lemma contended_reachable : reachable (fun _ => replicate 10 7) contended.
Proof. apply (run_reachable schedule initlock); [reflexivity|apply ReachInit]. Qed.

Lemma mutual_exclusion_witness : word contended = 1 /\ owns (at_ contended 1) = false.
Proof.
  destruct (mutual_exclusion (fun _ => replicate 10 7) contended 0 1 contended_reachable eq_refl) as (H & _ & Hx).
  split; [exact H|]. destruct (owns (at_ contended 1)) eqn:E; [|reflexivity]. discriminate (Hx eq_refl).
Defined.

Lemma holding_exact_witness :
  exists s', step (fun _ => replicate 10 7) 1 Go contended = Some s' /\ forall b, at_ s' 1 <> Panicked b.
Proof.
  eexists. split; [reflexivity|].
  exact (holding_exact (fun _ => replicate 10 7) contended 1 _ contended_reachable eq_refl).
Defined.

Lemma waiting_can_enter_witness :
  exists s', steps (fun _ => replicate 10 7) contended s' /\ at_ s' 1 = Critical.
Proof.
  apply (waiting_can_enter (fun _ => replicate 10 7) contended 1 contended_reachable); [reflexivity|].
  intros c' Hc. destruct (reachable_inv _ _ contended_reachable) as [o H].
  pose proof (inv_owner _ _ 0 H eq_refl) as H0. pose proof (inv_owner _ _ c' H Hc) as Hx.
  assert (c' = 0) as -> by congruence. reflexivity.
Defined.
