(* ===== verification/Kdebug.v ===== *)
(** * kern/kdebug.c: where an instruction comes from

    The search of the stabs table and [debuginfo_eip].  The table is an array
    of [struct Stab] in memory; a null result of an access is a page fault in the
    kernel. *)
From S2P Require Import Prelude Mmu Mem Console Kstate Pmap Env Cstring.

(** ** inc/stab.h *)
Definition N_FUN : Z := 0x24.
Definition N_SLINE : Z := 0x44.
Definition N_SO : Z := 0x64.
Definition N_SOL : Z := 0x84.
Definition N_PSYM : Z := 0xa0.

Record Stab := mkStab { n_strx : Z; n_type : Z; n_other : Z; n_desc : Z; n_value : Z }.
Definition sizeof_Stab : Z := 12.

(** ** stab_binsearch *)

Section binsearch.
Context (stabs : Z -> option Stab).

(** [for (m = hi; m > lo && stabs[m].n_type != type; m--)], with the condition
    [m >= lo] where the caller passes [lo - 1]; [None]: an access that faults. *)
Fixpoint scan_down (n : nat) (type lo m : Z) : option Z :=
  match n with
  | O => Some m
  | S n =>
      if m >? lo then
        match stabs m with
        | None => None
        | Some st => if negb (n_type st =? type) then scan_down n type lo (m - 1) else Some m
        end
      else Some m
  end.
(** The loop makes at most [m - lo] turns. *)
Definition earliest (type lo m : Z) : option Z := scan_down (Z.to_nat (m - lo)) type lo m.

(** The locals, and [*region_left] and [*region_right]. *)
Record search := mkSearch { s_l : Z; s_r : Z; s_left : Z; s_right : Z; s_addr : Z; s_any : bool }.

(** One turn of the main loop; [inr None] is a fault. *)
Definition search_turn (type : Z) (x : search) : search + option search :=
  let '(mkSearch l r rl rr addr any) := x in
  if l <=? r then
    let true_m := Z.quot (l + r) 2 in
    match earliest type (l - 1) true_m with
    | None => inr None
    | Some m =>
        if m <? l then inl (mkSearch (true_m + 1) r rl rr addr any)
        else
          match stabs m with
          | None => inr None
          | Some st =>
              if n_value st <? addr then inl (mkSearch (true_m + 1) r m rr addr true)
              else if n_value st >? addr then inl (mkSearch l (m - 1) rl (m - 1) addr true)
              else inl (mkSearch m r m rr (u32 (addr + 1)) true)
          end
    end
  else inr (Some x).

(** The two regions; [None] for a fault.  Every two turns bring [l] and [r]
    closer, so that 2^33 turns are enough for indices of 32 bits. *)
Definition stab_binsearch (region_left region_right type addr : Z) : option (Z * Z) :=
  match loop_upto 0x200000000 (search_turn type) (mkSearch region_left region_right region_left region_right addr false) with
  | inr (Some x) =>
      if negb (s_any x) then Some (s_left x, s_left x - 1)
      else match earliest type (s_left x) (s_right x) with
           | Some l => Some (l, s_right x)
           | None => None
           end
  | _ => None
  end.
End binsearch.

(** ** debuginfo_eip *)

(** A string in memory, or the literal ["<unknown>"]. *)
Inductive strptr := Unknown | At (va : Z).

Record Eipdebuginfo := mkInfo {
  eip_file : strptr; eip_line : Z; eip_fn_name : strptr; eip_fn_namelen : Z;
  eip_fn_addr : Z; eip_fn_narg : Z }.

(** A byte and a word at any linear address. *)
Definition lload8 (va : Z) : K Z := if va <? KERNBASE then vload8 va else kload8 va.
Definition lload32 (va : Z) : K Z :=
  a <- lload8 va ;; b <- lload8 (u32 (va + 1)) ;; c <- lload8 (u32 (va + 2)) ;; d <- lload8 (u32 (va + 3)) ;;
  ret (a + 0x100 * b + 0x10000 * c + 0x1000000 * d).

Definition stab_at (stabs i : Z) : K Stab :=
  let a := u32 (stabs + sizeof_Stab * i) in
  strx <- lload32 a ;;
  type <- lload8 (u32 (a + 4)) ;;
  other <- lload8 (u32 (a + 5)) ;;
  d0 <- lload8 (u32 (a + 6)) ;;
  d1 <- lload8 (u32 (a + 7)) ;;
  value <- lload32 (u32 (a + 8)) ;;
  ret (mkStab strx type other (d0 + 0x100 * d1) value).

(** The search does not change the state. *)
Definition binsearch (stabs region_left region_right type addr : Z) : K (Z * Z) := fun s =>
  match stab_binsearch (fun i => match stab_at stabs i s with Ret st _ => Some st | _ => None end)
          region_left region_right type addr with
  | Some r => Ret r s
  | None => Fault s
  end.

(** [strfind(name, ':') - name] *)
Definition name_length (p : strptr) : K Z :=
  match p with
  | Unknown => ret 9
  | At name =>
      r <- kloop ADDRS (fun s =>
        ch <- lload8 s ;; if (ch =? 0) || (ch =? 58) then ret (inr s) else ret (inl (u32 (s + 1)))) name ;;
      match r with inr s => ret (i32 (s - name)) | inl _ => fault end
  end.

(** The search backwards for the name of the file. *)
Definition file_stab (stabs lfile lline : Z) : K Z :=
  r <- kloop 0x100000000 (fun lline =>
    if lline >=? lfile then
      st <- stab_at stabs lline ;;
      if negb (n_type st =? N_SOL) && (negb (n_type st =? N_SO) || (n_value st =? 0))
      then ret (inl (lline - 1)) else ret (inr lline)
    else ret (inr lline)) lline ;;
  match r with inr i => ret i | inl _ => fault end.

Definition count_args (stabs lfun rfun : Z) : K Z :=
  if lfun <? rfun then
    r <- kloop 0x100000000 (fun '(lline, n) =>
      if lline <? rfun then
        st <- stab_at stabs lline ;;
        if n_type st =? N_PSYM then ret (inl (lline + 1, n + 1)) else ret (inr n)
      else ret (inr n)) (lfun + 1, 0) ;;
    match r with inr n => ret n | inl _ => fault end
  else ret 0.

(** [__STAB_BEGIN__] and the other symbols of the linker. *)
Record stab_symbols := mkSyms { stab_begin : Z; stab_end_ : Z; stabstr_begin : Z; stabstr_end_ : Z }.

Definition sizeof_UserStabData : Z := 16.

(** The table that covers [addr], if it may be read. *)
Definition find_tables (sym : stab_symbols) (addr : Z) : K (option stab_symbols) :=
  if addr >=? ULIM then ret (Some sym)
  else
    c <- curenv_deref ;;
    r <- user_mem_check c USTABDATA sizeof_UserStabData PTE_U ;;
    if negb (r =? 0) then ret None
    else
      stabs <- lload32 USTABDATA ;;
      stab_end <- lload32 (USTABDATA + 4) ;;
      stabstr <- lload32 (USTABDATA + 8) ;;
      stabstr_end <- lload32 (USTABDATA + 12) ;;
      r <- user_mem_check c stabs sizeof_Stab PTE_U ;;
      if negb (r =? 0) then ret None
      else
        r <- user_mem_check c stabstr (u32 (stabstr_end - stabstr)) PTE_U ;;
        if negb (r =? 0) then ret None else ret (Some (mkSyms stabs stab_end stabstr stabstr_end)).

(** The result and [*info]. *)
Definition debuginfo_eip (sym : stab_symbols) (addr : Z) : K (Z * Eipdebuginfo) :=
  let info := mkInfo Unknown 0 Unknown 9 addr 0 in
  t <- find_tables sym addr ;;
  match t with
  | None => ret (-1, info)
  | Some (mkSyms stabs stab_end stabstr stabstr_end) =>
      let strsize := u32 (stabstr_end - stabstr) in
      bad <- (if stabstr_end <=? stabstr then ret true
              else last <- lload8 (u32 (stabstr_end - 1)) ;; ret (negb (last =? 0))) ;;
      if bad then ret (-1, info)
      else
        file <- binsearch stabs 0 (Z.quot (i32 (stab_end - stabs)) sizeof_Stab - 1) N_SO addr ;;
        let '(lfile, rfile) := file in
        if lfile =? 0 then ret (-1, info)
        else
          fun_ <- binsearch stabs lfile rfile N_FUN addr ;;
          let '(lfun, rfun) := fun_ in
          x <- (if lfun <=? rfun then
                  st <- stab_at stabs lfun ;;
                  let name := if n_strx st <? strsize then At (u32 (stabstr + n_strx st)) else Unknown in
                  ret (name, n_value st, u32 (addr - n_value st), lfun, rfun)
                else ret (Unknown, addr, addr, lfile, rfile)) ;;
          let '(name, fn_addr, addr, lline, rline) := x in
          len <- name_length name ;;
          line <- binsearch stabs lline rline N_SLINE addr ;;
          let '(lline, rline) := line in
          let info := mkInfo Unknown 0 name len fn_addr 0 in
          if lline <=? rline then
            st <- stab_at stabs lline ;;
            let desc := n_desc st in
            lline <- file_stab stabs lfile lline ;;
            fname <- (if lline >=? lfile
                      then st <- stab_at stabs lline ;;
                           ret (if n_strx st <? strsize then At (u32 (stabstr + n_strx st)) else Unknown)
                      else ret Unknown) ;;
            narg <- count_args stabs lfun rfun ;;
            ret (0, mkInfo fname desc name len fn_addr narg)
          else ret (-1, info)
  end.
