(* ===== verification/KdebugSpec.v ===== *)
(** * Properties of the search of the stabs table

    [stab_binsearch] is correct where the addresses of the entries are at least
    two apart; two entries one byte apart confuse it. *)
From S2P Require Import Prelude Mmu Mem Console Kstate Pmap Env Cstring Kdebug.

Section spec.
Context (stabs : Z -> Stab) (type : Z).
Let table (i : Z) : option Stab := Some (stabs i).
Definition of_type (i : Z) : Prop := n_type (stabs i) = type.

(** The inner loop finds the last entry of the type in [(lo, m]], or [lo]. *)
Lemma scan_down_ok n lo m :
  m - lo = Z.of_nat n ->
  exists i, scan_down table n type lo m = Some i /\ lo <= i <= m /\ (forall j, i < j <= m -> ~ of_type j) /\
    (lo < i -> of_type i).
Proof.
  revert m. induction n as [|n IH]; intros m Hm; cbn [scan_down].
  - exists m. repeat split; lia.
  - replace (m >? lo) with true by lia. unfold table at 1. cbv iota.
    destruct (Z.eqb_spec (n_type (stabs m)) type) as [E|E]; cbn [negb].
    + exists m. repeat split; try lia. by intros _.
    + destruct (IH (m - 1) ltac:(lia)) as (i & H & Hi & Hno & Ht). exists i. split; [done|]. split; [lia|].
      split; [|done]. intros j Hj. destruct (decide (j = m)) as [->|]; [done|]. apply Hno. lia.
Qed.

Lemma earliest_ok lo m :
  lo <= m -> exists i, earliest table type lo m = Some i /\ lo <= i <= m /\
    (forall j, i < j <= m -> ~ of_type j) /\ (lo < i -> of_type i).
Proof. intros H. apply scan_down_ok. lia. Qed.

Lemma earliest_small lo m : m <= lo -> earliest table type lo m = Some m.
Proof. intros H. unfold earliest. by replace (Z.to_nat (m - lo)) with O by lia. Qed.

(** Entries [L] to [R], those of the type in increasing order, none of them at
    the address just after [A]. *)
Context (L R A : Z) (HL : 0 <= L) (HLR : L - 1 <= R) (HR : R < 0x40000000) (HA : 0 <= A < 0xffffffff).
Context (Hmono : forall i j, L <= i -> i < j -> j <= R -> of_type i -> of_type j -> n_value (stabs i) < n_value (stabs j)).
Context (Hgap : forall i, L <= i <= R -> of_type i -> n_value (stabs i) <> A + 1).

Definition covers (i : Z) : Prop := of_type i /\ n_value (stabs i) <= A.

(** The answer: the last entry at or below [A], up to the next one. *)
Definition bracket (lo hi : Z) : Prop :=
  L <= lo <= R /\ covers lo /\ lo <= hi <= R /\ (forall j, lo < j <= hi -> ~ of_type j) /\
  (hi = R \/ (of_type (hi + 1) /\ A < n_value (stabs (hi + 1)))).

Record search_inv (x : search) : Prop := {
  si_l : L <= s_l x <= s_r x + 1;
  si_r : s_r x = s_right x /\ s_r x <= R;
  si_addr : s_addr x = A \/ s_addr x = A + 1;
  si_low j : L <= j < s_l x -> of_type j -> n_value (stabs j) <= A;
  si_high j : s_r x < j <= R -> of_type j -> A < n_value (stabs j);
  si_next : s_r x = R \/ (of_type (s_r x + 1) /\ s_r x + 1 <= R);
  si_left : (L <= s_left x <= s_r x /\ covers (s_left x) /\ forall j, s_left x < j < s_l x -> ~ of_type j) \/
    (s_left x = L /\ forall j, L <= j < s_l x -> ~ of_type j);
  si_any : if s_any x then exists j, L <= j <= R /\ of_type j
           else s_r x = R /\ s_left x = L /\ forall j, L <= j < s_l x -> ~ of_type j }.

Definition measure (x : search) : Z := 2 * (s_r x - s_l x + 1) + (if s_addr x =? A then 1 else 0).

Lemma turn_ok x : search_inv x ->
  if s_l x <=? s_r x
  then exists x', search_turn table type x = inl x' /\ search_inv x' /\ measure x' < measure x
  else search_turn table type x = inr (Some x).
Proof.
  destruct x as [l r rl rr addr any]. intros [Hl [Hr HrR] Ha Hlow Hhigh Hnext Hleft Hany].
  cbn [s_l s_r s_left s_right s_addr s_any] in *. subst rr. unfold search_turn.
  destruct (Z.leb_spec l r) as [Hlr|]; [|done].
  rewrite Z.quot_div_nonneg by lia. set (tm := (l + r) / 2). assert (Htm : l <= tm <= r) by (unfold tm; lia). clearbody tm.
  destruct (earliest_ok (l - 1) tm ltac:(lia)) as (m & -> & Hm & Hno & Ht).
  destruct (Z.ltb_spec m l) as [Hml|Hml].
  { assert (m = l - 1) as -> by lia. eexists. split; [reflexivity|].
    assert (Hn : forall j, l <= j <= tm -> ~ of_type j) by (intros j Hj; apply Hno; lia).
    split; [|unfold measure; cbn; lia]. split; cbn; try done; try lia.
    - intros j Hj Hj'. destruct (decide (j < l)); [apply Hlow; [lia|done]|]. destruct (Hn j); [lia|done].
    - destruct Hleft as [(H1 & H2 & H3)|[H1 H3]]; [left; split; [lia|]; split; [done|]|right; split; [done|]];
        intros j Hj; destruct (decide (j < l)); try (apply H3; lia); apply Hn; lia.
    - destruct any; [done|]. destruct Hany as (? & ? & H3). split; [done|]. split; [done|].
      intros j Hj. destruct (decide (j < l)); [apply H3; lia|apply Hn; lia]. }
  assert (Hmt : of_type m) by (apply Ht; lia). unfold table at 1. cbv iota.
  assert (Hex : exists j, L <= j <= R /\ of_type j) by (exists m; split; [lia|done]).
  pose proof (Hgap m ltac:(lia) Hmt) as Hg.
  destruct (Z.ltb_spec (n_value (stabs m)) addr) as [Hlt|Hge].
  { eexists. split; [reflexivity|]. split; [|unfold measure; cbn; lia]. split; cbn; try done; try lia.
    - intros j Hj Hjt. destruct (decide (j <= m)) as [Hjm|].
      + destruct (decide (j = m)) as [->|]; [lia|]. pose proof (Hmono j m ltac:(lia) ltac:(lia) ltac:(lia) Hjt Hmt). lia.
      + destruct (Hno j); [lia|done].
    - left. split; [lia|]. split; [split; [done|lia]|]. intros j Hj. apply Hno. lia. }
  destruct (Z.gtb_spec (n_value (stabs m)) addr) as [Hgt|Hle].
  { eexists. split; [reflexivity|]. split; [|unfold measure; cbn; lia]. split; cbn; try done; try lia.
    - intros j Hj Hjt. destruct (decide (j = m)) as [->|]; [lia|].
      pose proof (Hmono m j ltac:(lia) ltac:(lia) ltac:(lia) Hmt Hjt). lia.
    - right. split; [|lia]. by replace (m - 1 + 1) with m by lia.
    - destruct Hleft as [(H1 & [H2 H2'] & H3)|H1]; [left|by right]. split; [|done].
      split; [lia|]. destruct (decide (rl < m)); [lia|].
      destruct (decide (rl = m)) as [->|]; [lia|]. pose proof (Hmono m rl ltac:(lia) ltac:(lia) ltac:(lia) Hmt H2). lia. }
  assert (Hv : n_value (stabs m) = addr) by lia. assert (addr = A) as -> by (destruct Ha as [->| ->]; lia).
  eexists. split; [reflexivity|]. rewrite u32_small by lia. split.
  - split; cbn; try done; try lia.
    + intros j Hj Hjt. pose proof (Hmono j m ltac:(lia) ltac:(lia) ltac:(lia) Hjt Hmt). lia.
    + left. split; [lia|]. split; [split; [done|lia]|]. intros j Hj. lia.
  - unfold measure. cbn. rewrite Z.eqb_refl. destruct (Z.eqb_spec (A + 1) A); lia.
Qed.

Lemma loop_ok n x : search_inv x -> measure x < Z.of_nat n ->
  exists x', loop_nat n (search_turn table type) x = inr (Some x') /\ search_inv x' /\ s_r x' < s_l x'.
Proof.
  revert x. induction n as [|n IH]; intros x Hx Hn.
  - pose proof (si_l _ Hx). unfold measure in Hn. destruct (s_addr x =? A); lia.
  - cbn [loop_nat]. pose proof (turn_ok x Hx) as H. destruct (Z.leb_spec (s_l x) (s_r x)).
    + destruct H as (x' & -> & Hx' & Hlt). apply IH; [done|lia].
    + rewrite H. by exists x.
Qed.

Lemma binsearch_exit :
  exists x, loop_upto 0x200000000 (search_turn table type) (mkSearch L R L R A false) = inr (Some x) /\
    search_inv x /\ s_r x < s_l x.
Proof.
  set (x0 := mkSearch L R L R A false).
  assert (H0 : search_inv x0) 
    by (split; cbn; auto; try lia; [right|split; [done|]]; (split; [done|]; intros j Hj; lia)).
  assert (Hm : measure x0 < 0x200000000 - 1) by (unfold measure; cbn; rewrite Z.eqb_refl; lia).
  assert (Hp : 0 <= measure x0) by (unfold measure; cbn; rewrite Z.eqb_refl; lia).
  destruct (loop_ok (S (Z.to_nat (measure x0))) x0 H0 ltac:(lia)) as (x & H & Hx & Hlt).
  exists x. split; [|done]. eapply loop_upto_exit; [exact H|lia].
Qed.

(** C38: the search ends, and where the entries of the type are in increasing order,
    none of them one byte after [A]: if some entry is at or below [A], it brackets [A]
    between the last such entry and the one before the next; if there is none of the
    type it returns an empty region; but if all of them are above [A] it returns a
    region that is not empty and covers nothing, which may begin at [L - 1]. *)
Theorem stab_binsearch_correct :
  exists lo hi, stab_binsearch table L R type A = Some (lo, hi) /\
    (bracket lo hi \/
     ((forall j, L <= j <= R -> ~ covers j) /\ L <= hi + 1 <= R /\ of_type (hi + 1) /\
        (forall j, L <= j <= hi -> ~ of_type j) /\ lo = Z.min L hi) \/
     ((forall j, L <= j <= R -> ~ of_type j) /\ lo = L /\ hi = L - 1)).
Proof.
  destruct binsearch_exit as (x & H & [Hl [Hr HrR] _ Hlow Hhigh Hnext Hleft Hany] & Hlt).
  unfold stab_binsearch. rewrite H. assert (El : s_l x = s_r x + 1) by lia. rewrite El in *. rewrite <- Hr in *.
  destruct (s_any x); cbn [negb].
  2: { destruct Hany as (E & -> & Hno). eexists _, _. split; [done|]. right; right. split; [|done].
       intros j Hj. apply Hno. lia. }
  destruct Hany as (j0 & Hj0 & Ht0). destruct Hleft as [(H1 & H2 & H3)|[-> H3]].
  - destruct (earliest_ok (s_left x) (s_r x) ltac:(lia)) as (i & -> & Hi & Hno & Hti).
    assert (i = s_left x) as ->.
    { destruct (decide (s_left x < i)); [|lia]. destruct (H3 i); [lia|apply Hti; lia]. }
    eexists _, _. split; [done|]. left. split; [lia|]. split; [done|]. split; [lia|].
    split; [intros j Hj; apply H3; lia|]. destruct Hnext as [->|[Hn1 Hn2]]; [by left|right].
    split; [done|]. apply Hhigh; [lia|done].
  - destruct Hnext as [E|[Hn1 Hn2]]; [destruct (H3 j0); [lia|done]|].
    assert (Hcov : forall j, L <= j <= R -> ~ covers j).
    { intros j Hj [Ht Hv]. destruct (decide (j < s_r x + 1)) as [Hlt'|Hge]; [destruct (H3 j); [lia|done]|].
      pose proof (Hhigh j ltac:(lia) Ht). lia. }
    destruct (decide (L <= s_r x)) as [Hle|Hgt].
    + destruct (earliest_ok L (s_r x) Hle) as (i & -> & Hi & Hno & Hti).
      assert (i = L) as -> by (destruct (decide (L < i)); [destruct (H3 i); [lia|apply Hti; lia]|lia]).
      eexists _, _. split; [done|]. right; left. split; [done|]. split; [lia|]. split; [done|].
      split; [intros j Hj; apply H3; lia|lia].
    + rewrite earliest_small by lia. eexists _, _. split; [done|]. right; left. split; [done|]. split; [lia|].
      split; [done|]. split; [intros j Hj; lia|lia].
Qed.
End spec.

(** Two line entries one byte apart: the search for the first address finds the
    second line, because an exact match goes on with the next address. *)
Theorem stab_binsearch_adjacent (line : Z -> Z) :
  let stabs i := Some (mkStab 0 N_SLINE 0 (line i) i) in
  stab_binsearch stabs 0 1 N_SLINE 0 = Some (1, 1).
Proof. reflexivity. Qed.

(** ** Witnesses *)

(** The example of the comment before [stab_binsearch]: seven source files. *)
Definition example_stabs (i : Z) : Stab :=
  mkStab 0 (if bool_decide (i ∈ [0; 13; 117; 118; 555; 556; 657]) then N_SO else N_SLINE) 0 0
    (0xf0100000 + 2 * i).

Lemma stab_binsearch_correct_witness :
  exists lo hi, stab_binsearch (fun i => Some (example_stabs i)) 0 657 N_SO 0xf0100184 = Some (lo, hi) /\
    bracket example_stabs N_SO 0 657 0xf0100184 lo hi.
Proof.
  unshelve epose proof (stab_binsearch_correct example_stabs N_SO 0 657 0xf0100184 _ _ _ _ _ _) as H;
    try lia; try (intros; unfold example_stabs; simpl; lia).
  destruct H as (lo & hi & H & [Hb|[(Hn & _)|(Hn & _)]]).
  - exists lo, hi. exact (conj H Hb).
  - destruct (Hn 0); [lia|]. split; [reflexivity|]. simpl. lia.
  - destruct (Hn 0); [lia|]. reflexivity.
Defined.
