(* ===== verification/Ulib.v ===== *)
(** * The user library: system calls, page-fault handlers, fork, IPC

    lib/syscall.c, lib/pgfault.c, lib/fork.c, lib/ipc.c, lib/libmain.c,
    lib/exit.c, lib/console.c and lib/panic.c, running on the kernel of the other
    files: a system call is the trap that the [int] instruction raises, a load or
    a store goes through the page tables in force with the rights of user mode.
    A user function is a computation of type [K] like the kernel's: it returns, or
    its run on this CPU ends (another environment goes on, the monitor is entered,
    or an access faults and the program is at its upcall).

    The registers that are no arguments are those of one frame [ctx]; locals are
    in registers (the stack is not used).  The names that the kernel uses too have
    the prefix [user_]. *)
From S2P Require Import Prelude Mmu Mem Console Kstate Pmap Env Sched Syscall Trap Cstring.

(** lib/entry.S and lib/fork.c *)
Definition UVPD : Z := UVPT + (UVPT .>> 12) * 4.
Definition PTE_COW : Z := 0x800.

(** ** Loads and stores in user mode *)

(** The physical address behind [va], if user mode may access it. *)
Definition uaddr (wr : bool) (va : Z) (s : kstate) : option Z :=
  let pde := load32 (mem s) (PTE_ADDR (cr3 s) + 4 * PDX va) in
  if has pde PTE_P && has pde PTE_U && (negb wr || has pde PTE_W) then
    let pte := load32 (mem s) (PTE_ADDR pde + 4 * PTX va) in
    if has pte PTE_P && has pte PTE_U && (negb wr || has pte PTE_W) then Some (PTE_ADDR pte + PGOFF va)
    else None
  else None.

Section user.
Context (stack_tf envs_va lapic : Z) (ctx : Trapframe).

(** The interrupt gate clears the interrupt flag: [trap] sees flags of 0. *)
Definition int_trap (tf : Trapframe) : K unit := trap stack_tf envs_va lapic 0 tf.

(** The page is there: the fault is one of rights. *)
Definition upresent (va : Z) (s : kstate) : bool :=
  let pde := load32 (mem s) (PTE_ADDR (cr3 s) + 4 * PDX va) in
  has pde PTE_P && has (load32 (mem s) (PTE_ADDR pde + 4 * PTX va)) PTE_P.

(** A page fault: the program does not go on from here. *)
Definition ufault {A} (wr : bool) (va : Z) : K A :=
  p <- gets (upresent va) ;;
  modify (set_cr2 va) ;;
  let err := (FEC_U .| (if wr then FEC_WR else 0)) .| (if p then FEC_PR else 0) in
  int_trap (mkTf (tf_regs ctx) (tf_es ctx) (tf_ds ctx) T_PGFLT err
    (tf_eip ctx) (tf_cs ctx) (tf_eflags ctx) (tf_esp ctx) (tf_ss ctx)) ;;
  fault.

(** The addresses of the four bytes of a word, or the address of the fault. *)
Definition uword (wr : bool) (va : Z) (s : kstate) : (Z * Z * Z * Z) + Z :=
  match uaddr wr va s, uaddr wr (u32 (va + 1)) s, uaddr wr (u32 (va + 2)) s, uaddr wr (u32 (va + 3)) s with
  | Some a, Some b, Some c, Some d => inl (a, b, c, d)
  | None, _, _, _ => inr va
  | _, _, _, _ => inr (ROUNDDOWN (u32 (va + 3)) PGSIZE)
  end.

Definition uload32 (va : Z) : K Z := fun s =>
  match uword false va s with
  | inl (a, b, c, d) =>
      let m := mem s in
      Ret (load8 m a + 0x100 * load8 m b + 0x10000 * load8 m c + 0x1000000 * load8 m d) s
  | inr fa => ufault false fa s
  end.

Definition ustore32 (va v : Z) : K unit := fun s =>
  match uword true va s with
  | inl (a, b, c, d) =>
      Ret tt (set_mem (store8 (store8 (store8 (store8 (mem s) a v) b (v / 0x100)) c (v / 0x10000)) d (v / 0x1000000)) s)
  | inr fa => ufault true fa s
  end.

Definition uload8 (va : Z) : K Z := fun s =>
  match uaddr false va s with Some a => Ret (load8 (mem s) a) s | None => ufault false va s end.
Definition ustore8 (va v : Z) : K unit := fun s =>
  match uaddr true va s with Some a => Ret tt (set_mem (store8 (mem s) a v) s) | None => ufault true va s end.

(** [uvpt[pn]] and [uvpd[i]]. *)
Definition uvpt (pn : Z) : K Z := uload32 (u32 (UVPT + 4 * pn)).
Definition uvpd (i : Z) : K Z := uload32 (u32 (UVPD + 4 * i)).

(** [memcpy] (lib/string.c) on user memory. *)
Definition umovsl (dir d s n : Z) : K unit :=
  for_each (seqZ 0 n) (fun i => w <- uload32 (u32 (s + 4 * dir * i)) ;; ustore32 (u32 (d + 4 * dir * i)) w).
Definition umovsb (dir d s n : Z) : K unit :=
  for_each (seqZ 0 n) (fun i => b <- uload8 (u32 (s + dir * i)) ;; ustore8 (u32 (d + dir * i)) b).
Definition user_memcpy (dst src n : Z) : K unit :=
  if (src <? dst) && (u32 (src + n) >? dst) then
    let s := u32 (src + n) in
    let d := u32 (dst + n) in
    if aligned4 s && aligned4 d && aligned4 n then umovsl (-1) (u32 (d - 4)) (u32 (s - 4)) (n / 4)
    else umovsb (-1) (u32 (d - 1)) (u32 (s - 1)) n
  else if aligned4 src && aligned4 dst && aligned4 n then umovsl 1 dst src (n / 4)
  else umovsb 1 dst src n.

(** The array [envs] of the kernel, mapped read-only at UENVS. *)
Definition user_envs (p : Z) : K Env := get_env ((p - UENVS) / sizeof_Env).

(** ** System calls (lib/syscall.c, inc/lib.h) *)

(** The frame the processor and the entry code push for [int $T_SYSCALL]. *)
Definition syscall_tf (num a1 a2 a3 a4 a5 : Z) : Trapframe :=
  let r := tf_regs ctx in
  mkTf (mkRegs a4 a5 (reg_ebp r) (reg_oesp r) a3 a1 a2 num) (tf_es ctx) (tf_ds ctx) T_SYSCALL 0
    (tf_eip ctx) (tf_cs ctx) (tf_eflags ctx) (tf_esp ctx) (tf_ss ctx).

(** The instruction: it is over when the same environment is resumed. *)
Definition int_syscall (num a1 a2 a3 a4 a5 : Z) : K Z := fun s =>
  match int_trap (syscall_tf num a1 a2 a3 a4 a5) s with
  | Resume tf s' =>
      if bool_decide (curenv s' = curenv s) then Ret (i32 (reg_eax (tf_regs tf))) s' else Resume tf s'
  | Ret _ s' => Fault s'
  | Panic s' => Panic s'
  | Halted s' => Halted s'
  | Monitor s' => Monitor s'
  | Spin s' => Spin s'
  | Fault s' => Fault s'
  end.

(** [_panic]: the message, printed through [sys_cputs], is left out; the
    breakpoint never returns. *)
Definition user_panic {A} : K A :=
  int_syscall SYS_getenvid 0 0 0 0 0 ;;
  int_trap (mkTf (tf_regs ctx) (tf_es ctx) (tf_ds ctx) T_BRKPT 0
    (tf_eip ctx) (tf_cs ctx) (tf_eflags ctx) (tf_esp ctx) (tf_ss ctx)) ;;
  fault.

Definition user_syscall (num : Z) (check : bool) (a1 a2 a3 a4 a5 : Z) : K Z :=
  r <- int_syscall num a1 a2 a3 a4 a5 ;;
  if check && (r >? 0) then user_panic else ret r.

Definition user_sys_cputs (s len : Z) : K unit := user_syscall SYS_cputs false s len 0 0 0 ;; ret tt.
Definition user_sys_cgetc : K Z := user_syscall SYS_cgetc false 0 0 0 0 0.
Definition user_sys_env_destroy (envid : Z) : K Z := user_syscall SYS_env_destroy true (u32 envid) 0 0 0 0.
Definition user_sys_getenvid : K Z := user_syscall SYS_getenvid false 0 0 0 0 0.
Definition user_sys_yield : K unit := user_syscall SYS_yield false 0 0 0 0 0 ;; ret tt.
Definition user_sys_page_alloc (envid va perm : Z) : K Z :=
  user_syscall SYS_page_alloc true (u32 envid) va (u32 perm) 0 0.
Definition user_sys_page_map (srcenv srcva dstenv dstva perm : Z) : K Z :=
  user_syscall SYS_page_map true (u32 srcenv) srcva (u32 dstenv) dstva (u32 perm).
Definition user_sys_page_unmap (envid va : Z) : K Z := user_syscall SYS_page_unmap true (u32 envid) va 0 0 0.
Definition user_sys_env_set_status (envid status : Z) : K Z :=
  user_syscall SYS_env_set_status true (u32 envid) (u32 status) 0 0 0.
Definition user_sys_env_set_pgfault_upcall (envid upcall : Z) : K Z :=
  user_syscall SYS_env_set_pgfault_upcall true (u32 envid) upcall 0 0 0.
Definition user_sys_ipc_try_send (envid value srcva perm : Z) : K Z :=
  user_syscall SYS_ipc_try_send false (u32 envid) value srcva (u32 perm) 0.
Definition user_sys_ipc_recv (dstva : Z) : K Z := user_syscall SYS_ipc_recv true dstva 0 0 0 0.

(** Inlined, and without the check; the other registers keep what they hold. *)
Definition user_sys_exofork : K Z :=
  let r := tf_regs ctx in
  int_syscall SYS_exofork (reg_edx r) (reg_ecx r) (reg_ebx r) (reg_edi r) (reg_esi r).

(** ** The globals of a program *)

(** The addresses of [_pgfault_handler] and [thisenv], of the assembly routine
    [_pgfault_upcall] and of the function [pgfault]. *)
Context (handler_va thisenv_va pgfault_upcall pgfault_fn : Z).

(** ** lib/pgfault.c *)
Definition set_pgfault_handler (handler : Z) : K unit :=
  h <- uload32 handler_va ;;
  (if h =? 0 then
     r <- user_sys_page_alloc 0 (UXSTACKTOP - PGSIZE) ((PTE_U .| PTE_P) .| PTE_W) ;;
     if r <? 0 then user_panic
     else
       r <- user_sys_env_set_pgfault_upcall 0 pgfault_upcall ;;
       if r <? 0 then user_panic else ret tt
   else ret tt) ;;
  ustore32 handler_va handler.

(** ** lib/fork.c *)

(** [utf]: the address of the frame on the exception stack. *)
Definition pgfault (utf : Z) : K unit :=
  addr <- uload32 utf ;;
  err <- uload32 (u32 (utf + 4)) ;;
  let perm := PTE_U .| PTE_P in
  bad <- (if negb (has err FEC_WR) then ret true
          else pte <- uvpt (PGNUM addr) ;; ret (negb (pte .& (perm .| PTE_COW) =? perm .| PTE_COW))) ;;
  if bad : bool then user_panic
  else
    r <- user_sys_page_alloc 0 PFTEMP (perm .| PTE_W) ;;
    if r <? 0 then user_panic
    else
      user_memcpy PFTEMP (ROUNDDOWN addr PGSIZE) PGSIZE ;;
      r <- user_sys_page_map 0 PFTEMP 0 (ROUNDDOWN addr PGSIZE) (perm .| PTE_W) ;;
      if r <? 0 then user_panic
      else
        r <- user_sys_page_unmap 0 PFTEMP ;;
        if r <? 0 then user_panic else ret tt.

Definition duppage (envid pn : Z) : K Z :=
  pte <- uvpt pn ;;
  let t := has pte (PTE_W .| PTE_COW) in
  let defaultperms := if t then (PTE_U .| PTE_P) .| PTE_COW else PTE_U .| PTE_P in
  let va := u32 (pn * PGSIZE) in
  r <- user_sys_page_map 0 va envid va defaultperms ;;
  if r <? 0 then ret (- E_INVAL)
  else if t then
    r <- user_sys_page_map 0 va 0 va defaultperms ;;
    if r <? 0 then ret (- E_INVAL) else ret 0
  else ret 0.

(** The body of the loop of [fork] at address [va]; the result of [duppage] is
    not looked at. *)
Definition fork_page (child va : Z) : K unit :=
  pde <- uvpd (PDX va) ;;
  if has pde PTE_P then
    pte <- uvpt (PGNUM va) ;;
    if has pte PTE_P then duppage child (PGNUM va) ;; ret tt else ret tt
  else ret tt.

(** What the parent does once it has the child's id. *)
Definition fork_parent (child : Z) : K Z :=
  for_each (seqZ 0 (USTACKTOP / PGSIZE)) (fun i => fork_page child (PGSIZE * i)) ;;
  r <- user_sys_page_alloc child (UXSTACKTOP - PGSIZE) ((PTE_P .| PTE_U) .| PTE_W) ;;
  if r <? 0 then user_panic
  else
    p <- uload32 thisenv_va ;;
    env <- user_envs p ;;
    r <- user_sys_env_set_pgfault_upcall child (env_pgfault_upcall env) ;;
    if r <? 0 then user_panic
    else
      r <- user_sys_env_set_status child ENV_RUNNABLE ;;
      if r <? 0 then user_panic else ret child.

Definition fork : K Z :=
  set_pgfault_handler pgfault_fn ;;
  child <- user_sys_exofork ;;
  if child <? 0 then user_panic
  else if child =? 0 then
    id <- user_sys_getenvid ;;
    ustore32 thisenv_va (UENVS + sizeof_Env * ENVX id) ;;
    ret 0
  else fork_parent child.

Definition sfork : K Z := user_panic.

(** ** lib/ipc.c *)

(** The pointers may be null. *)
Definition store_opt (p v : Z) : K unit := if negb (p =? 0) then ustore32 p v else ret tt.

Definition ipc_recv (from_env_store pg perm_store : Z) : K Z :=
  let pg := if pg =? 0 then KERNBASE else pg in
  r <- user_sys_ipc_recv pg ;;
  if r <? 0 then
    store_opt from_env_store 0 ;;
    store_opt perm_store 0 ;;
    ret r
  else
    p <- uload32 thisenv_va ;;
    (if negb (from_env_store =? 0) then env <- user_envs p ;; ustore32 from_env_store (env_ipc_from env)
     else ret tt) ;;
    (if negb (perm_store =? 0) then env <- user_envs p ;; ustore32 perm_store (env_ipc_perm env)
     else ret tt) ;;
    env <- user_envs p ;;
    ret (i32 (env_ipc_value env)).

(** One turn of the loop: [inr] when the value is sent. *)
Definition ipc_send_turn (to_env val pg perm : Z) : K (unit + unit) :=
  r <- user_sys_ipc_try_send to_env val pg perm ;;
  if r =? 0 then ret (inr tt)
  else if negb (r =? - E_IPC_NOT_RECV) then user_panic
  else user_sys_yield ;; ret (inl tt).

(** At most [turns] turns; the code has no such bound. *)
Definition ipc_send (turns : positive) (to_env val pg perm : Z) : K (unit + unit) :=
  let pg := if pg =? 0 then KERNBASE else pg in
  kloop turns (fun _ => ipc_send_turn to_env val pg perm) tt.

(** The first element of [envs] from index [i] on. *)
Fixpoint ipc_find_from (n : nat) (type i : Z) : K Z :=
  match n with
  | O => ret 0
  | S n =>
      env <- user_envs (UENVS + sizeof_Env * i) ;;
      if env_type env =? type then ret (env_id env) else ipc_find_from n type (i + 1)
  end.
Definition ipc_find_env (type : Z) : K Z := ipc_find_from (Z.to_nat NENV) type 0.

(** ** lib/console.c, lib/exit.c, lib/libmain.c *)

(** [buf]: the address of the local [c]. *)
Definition user_cputchar (buf ch : Z) : K unit := ustore8 buf ch ;; user_sys_cputs buf 1.

Definition user_getchar (turns : positive) : K (unit + Z) :=
  kloop turns (fun _ =>
    r <- user_sys_cgetc ;; if r =? 0 then user_sys_yield ;; ret (inl tt) else ret (inr r)) tt.

Definition exit : K unit := user_sys_env_destroy 0 ;; ret tt.

(** [binaryname_va]: the address of [binaryname]; [umain]: the program. *)
Definition libmain (binaryname_va : Z) (umain : Z -> Z -> K unit) (argc argv : Z) : K unit :=
  id <- user_sys_getenvid ;;
  ustore32 thisenv_va (UENVS + sizeof_Env * ENVX id) ;;
  (if i32 argc >? 0 then a <- uload32 argv ;; ustore32 binaryname_va a else ret tt) ;;
  umain argc argv ;;
  exit.
End user.
