(* ===== verification/UserRun.v ===== *)
(** * Programs on the kernel

    What a program finds when it runs: [uready], the invariant of the kernel
    together with an environment that is running on this CPU in user mode, and the
    steps of a program that keep it: loads and stores through the page tables (the
    page tables themselves included, at UVPT), and system calls, each taken from
    the trap to the return. *)
From S2P Require Import Prelude Mmu Mem Console Kstate Pmap PmapAlloc PmapSpace PmapMap PmapDir Env EnvSpec KernInv Sched SchedSpec Syscall SyscallSpec UserMem Trap TrapSpec Ulib.

(** States that agree on all that the kernel's invariant speaks of. *)
Lemma kinv_ext s s' l D M :
  mem s' = mem s -> pages s' = pages s -> page_free_list s' = page_free_list s -> npages s' = npages s ->
  envs s' = envs s -> env_free_list s' = env_free_list s -> kern_pgdir s' = kern_pgdir s -> curenv s' = curenv s ->
  kinv s l D M -> kinv s' l D M.
Proof.
  intros Hm Hp Hf Hn He Hef Hkp Hc [Hvm Hdom Hcur Hdir Hown Hfree (k & Hk & Hk0 & Hkl & [HkD Hkt] & Hkm)].
  split; rewrite ?He, ?Hc, ?Hef, ?Hkp; try done.
  - by eapply (vm_ok_frame s).
  - intros i. rewrite He. apply Hdom.
  - exists k. do 3 (split; [done|]). split; [|done]. split; [done|]. by rewrite Hm.
Qed.

(** Environment [c], whose directory is page [d], runs on this CPU. *)
Record uready (ctx : Trapframe) (s : kstate) (c : Z) (env : Env) (d : Z) (l : list Z) (D : gset Z) (M : aspace) :
    Prop := {
  ur_kinv : kinv s l D M;
  ur_trap : user_trap s c env 0 ctx;
  ur_pgdir : env_pgdir env = pgdir_kva d;
  ur_dir : d ∈ D;
  ur_cr3 : cr3 s = 4096 * d }.

(** The same environment up to the saved registers and the CPU it was last on. *)
Definition env_sim (env env' : Env) : Prop := exists tf n, env' = set_env_cpunum n (set_env_tf tf env).

#[export] Instance env_sim_preorder : PreOrder env_sim.
Proof.
  split.
  - intros e. exists (env_tf e), (env_cpunum e). by destruct e.
  - intros e1 e2 e3 (tf & n & ->) (tf' & n' & ->). by exists tf', n'.
Qed.

Lemma env_sim_fields env env' : env_sim env env' ->
  env_id env' = env_id env /\ env_status env' = env_status env /\ env_pgdir env' = env_pgdir env /\
  env_parent_id env' = env_parent_id env /\ env_pgfault_upcall env' = env_pgfault_upcall env.
Proof. by intros (tf & n & ->). Qed.

Lemma env_sim_tf tf env : env_sim env (set_env_tf tf env).
Proof. exists tf, (env_cpunum env). by destruct env. Qed.

Section run.
Context (stack_tf envs_va lapic : Z) (ctx : Trapframe).

Section ready.
Context (s : kstate) (c : Z) (env : Env) (d : Z) (l : list Z) (D : gset Z) (M : aspace).
Context (Hu : uready ctx s c env d l D M).

Lemma ur_env : envs s !! c = Some env.
Proof. apply (ut_env _ _ _ _ _ (ur_trap _ _ _ _ _ _ _ _ Hu)). Qed.
Lemma ur_cur : curenv s = Some c.
Proof. apply (ut_cur _ _ _ _ _ (ur_trap _ _ _ _ _ _ _ _ Hu)). Qed.
Lemma ur_run : env_status env = ENV_RUNNING.
Proof. apply (ut_run _ _ _ _ _ (ur_trap _ _ _ _ _ _ _ _ Hu)). Qed.
Lemma ur_vm : vm_ok s l D M no_refs.
Proof. apply (ki_vm _ _ _ _ (ur_kinv _ _ _ _ _ _ _ _ Hu)). Qed.

(** ** Loads and stores *)

Lemma uaddr_mapped wr va pte :
  0 <= va < UTOP -> M !! (d, va / 4096) = Some pte -> has pte PTE_U = true -> (wr = true -> has pte PTE_W = true) ->
  uaddr wr va s = Some (4096 * frame_of pte + va mod 4096).
Proof.
  intros Hva HM HU HW. destruct (mapped_present _ _ _ _ _ _ _ _ ur_vm (ur_dir _ _ _ _ _ _ _ _ Hu) Hva HM) as (Hp & Hent & HP).
  destruct (vm_va_parts va Hva) as (Hi & _). pose proof (ur_dir _ _ _ _ _ _ _ _ Hu) as Hd.
  pose proof (pde_has s l D M no_refs d (PDX va) PTE_U ur_vm Hd Hi Hp ltac:(done)) as HpU.
  pose proof (pde_has s l D M no_refs d (PDX va) PTE_W ur_vm Hd Hi Hp ltac:(done)) as HpW.
  unfold uaddr. rewrite (ur_cr3 _ _ _ _ _ _ _ _ Hu), PTE_ADDR_div.
  replace (4096 * (4096 * d / 4096) + 4 * PDX va) with (ent_addr d (PDX va)) by (unfold ent_addr; lia).
  fold (entry (mem s) d (PDX va)). fold (present (mem s) d (PDX va)). rewrite Hp, HpU, HpW.
  change (has 7 PTE_U) with true. change (has 7 PTE_W) with true. rewrite orb_true_r. cbn [andb]. cbv iota.
  rewrite (PTE_ADDR_div (entry _ _ _)). fold (frame_of (entry (mem s) d (PDX va))).
  fold (ent_addr (frame_of (entry (mem s) d (PDX va))) (PTX va)).
  fold (entry (mem s) (frame_of (entry (mem s) d (PDX va))) (PTX va)).
  rewrite Hent, HP, HU. cbn [andb].
  replace (negb wr || has pte PTE_W) with true by (destruct wr; [by rewrite HW|done]). cbv iota.
  by rewrite PTE_ADDR_div, PGOFF_mod.
Qed.

(** Through the self-mapping: the directory seen as a page table. *)
Lemma uaddr_uvpt i a :
  0 <= i < 1024 -> 0 <= a < 4096 -> has (entry (mem s) d i) PTE_P = true -> has (entry (mem s) d i) PTE_U = true ->
  uaddr false (UVPT + 4096 * i + a) s = Some (4096 * frame_of (entry (mem s) d i) + a).
Proof.
  intros Hi Ha HP HU. set (va := UVPT + 4096 * i + a). pose proof (ur_dir _ _ _ _ _ _ _ _ Hu) as Hd.
  assert (Hva : PDX va = UVPDE /\ PTX va = i /\ PGOFF va = a).
  { rewrite PDX_div, PTX_div, PGOFF_mod. unfold va. change UVPT with (957 * 0x400000). unfold UVPDE. lia. }
  destruct Hva as (Hx & Ht & Ho). unfold uaddr. rewrite Hx, Ht, Ho, (ur_cr3 _ _ _ _ _ _ _ _ Hu), (PTE_ADDR_div (4096 * d)).
  replace (4096 * (4096 * d / 4096) + 4 * UVPDE) with (ent_addr d UVPDE) by (unfold ent_addr; lia).
  fold (entry (mem s) d UVPDE). rewrite (vo_self _ _ _ _ _ ur_vm d Hd).
  rewrite (has_mod (4096 * d + 5) PTE_P), (has_mod (4096 * d + 5) PTE_U) by done.
  replace ((4096 * d + 5) mod 4096) with 5 by lia. change (has 5 PTE_P) with true. change (has 5 PTE_U) with true.
  cbn [andb negb orb]. cbv iota. rewrite (PTE_ADDR_div (4096 * d + 5)).
  replace (4096 * ((4096 * d + 5) / 4096) + 4 * i) with (ent_addr d i) by (unfold ent_addr; lia).
  fold (entry (mem s) d i). rewrite HP, HU. cbn [andb orb]. cbv iota. by rewrite PTE_ADDR_div.
Qed.

(** A word within a page whose bytes are all there. *)
Lemma uload32_at va pa :
  (forall b, 0 <= b < 4 -> uaddr false (u32 (va + b)) s = Some (pa + b)) -> uaddr false va s = Some pa ->
  uload32 stack_tf envs_va lapic ctx va s = Ret (load32 (mem s) pa) s.
Proof.
  intros H H0. unfold uload32, uword. by rewrite H0, !H by lia.
Qed.

Lemma ustore32_at va pa v :
  (forall b, 0 <= b < 4 -> uaddr true (u32 (va + b)) s = Some (pa + b)) -> uaddr true va s = Some pa ->
  ustore32 stack_tf envs_va lapic ctx va v s = Ret tt (set_mem (store32 (mem s) pa v) s).
Proof.
  intros H H0. unfold ustore32, uword. by rewrite H0, !H by lia.
Qed.

Lemma word_in_page va b : 0 <= va -> va mod 4 = 0 -> 0 <= b < 4 ->
  (va + b) / 4096 = va / 4096 /\ (va + b) mod 4096 = va mod 4096 + b.
Proof. lia. Qed.

(** A word of a user page. *)
Lemma uload32_mapped va pte :
  0 <= va < UTOP -> va mod 4 = 0 -> M !! (d, va / 4096) = Some pte -> has pte PTE_U = true ->
  uload32 stack_tf envs_va lapic ctx va s = Ret (load32 (mem s) (4096 * frame_of pte + va mod 4096)) s.
Proof.
  intros Hva Hal HM HU. assert (HT : UTOP <= 0xf0000000 /\ UTOP mod 4096 = 0) by done.
  apply uload32_at; [|by apply uaddr_mapped]. intros b Hb.
  destruct (word_in_page va b ltac:(lia) Hal Hb) as [Hq Hr]. rewrite u32_small by lia.
  rewrite (uaddr_mapped false (va + b) pte); [f_equal; lia|lia|by rewrite Hq|done|done].
Qed.

(** [uvpd[i]] is the entry of the directory. *)
Lemma uvpd_ok i : 0 <= i < 1024 -> uvpd stack_tf envs_va lapic ctx i s = Ret (entry (mem s) d i) s.
Proof.
  intros Hi. unfold uvpd. change UVPD with (UVPT + 4096 * UVPDE). pose proof (ur_dir _ _ _ _ _ _ _ _ Hu) as Hd.
  assert (Ha : forall a, 0 <= a < 4096 -> uaddr false (u32 (UVPT + 4096 * UVPDE + a)) s = Some (4096 * d + a)).
  { intros a Ha. rewrite u32_small by (change UVPT with (957 * 0x400000); unfold UVPDE; lia).
    pose proof (vo_self _ _ _ _ _ ur_vm d Hd) as He.
    rewrite uaddr_uvpt, He; [unfold frame_of; do 2 f_equal; lia|done|done|..];
      rewrite He, has_mod by done; by replace ((4096 * d + 5) mod 4096) with 5 by lia. }
  assert (Hu32 : u32 (UVPT + 4096 * UVPDE + 4 * i) = UVPT + 4096 * UVPDE + 4 * i)
    by (apply u32_small; change UVPT with (957 * 0x400000); unfold UVPDE; lia).
  rewrite (uload32_at _ (4096 * d + 4 * i)); [done| |].
  - intros b Hb. rewrite Hu32, <- !Z.add_assoc, Z.add_assoc, Ha by lia. by rewrite Z.add_assoc.
  - apply Ha. lia.
Qed.

(** [uvpt[pn]], where there is a page table: its entry, zero bit P included. *)
Lemma uvpt_ok pn : 0 <= pn < NUVPN -> present (mem s) d (pn / 1024) = true ->
  uvpt stack_tf envs_va lapic ctx pn s =
    Ret (entry (mem s) (frame_of (entry (mem s) d (pn / 1024))) (pn mod 1024)) s.
Proof.
  intros Hpn Hp. unfold NUVPN in Hpn. set (i := pn / 1024). set (j := pn mod 1024).
  assert (Hij : 0 <= i < NUPDE /\ 0 <= j < 1024 /\ pn = 1024 * i + j) by (unfold i, j, NUPDE; lia).
  destruct Hij as (Hi & Hj & Hpnij). fold i in Hp. clearbody i j. pose proof (ur_dir _ _ _ _ _ _ _ _ Hu) as Hd.
  set (t := frame_of (entry (mem s) d i)).
  assert (Ha : forall a, 0 <= a < 4096 -> uaddr false (u32 (UVPT + 4096 * i + a)) s = Some (4096 * t + a)).
  { intros a Ha. rewrite u32_small by (change UVPT with (957 * 0x400000); unfold NUPDE in Hi; lia).
    apply uaddr_uvpt; [unfold NUPDE in Hi; lia|done|exact Hp|].
    by rewrite (pde_has s l D M no_refs d i PTE_U ur_vm Hd Hi Hp). }
  unfold uvpt. replace (UVPT + 4 * pn) with (UVPT + 4096 * i + 4 * j) by lia.
  assert (Hu32 : u32 (UVPT + 4096 * i + 4 * j) = UVPT + 4096 * i + 4 * j)
    by (apply u32_small; change UVPT with (957 * 0x400000); unfold NUPDE in Hi; lia).
  rewrite (uload32_at _ (4096 * t + 4 * j)); [done| |].
  - intros b Hb. rewrite Hu32, <- !Z.add_assoc, Z.add_assoc, Ha by lia. by rewrite Z.add_assoc.
  - apply Ha. lia.
Qed.
End ready.

(** ** A store *)

(** A change within a user page. *)
Lemma kinv_write_page s l D M k pte m' :
  kinv s l D M -> M !! k = Some pte -> mem_ok m' ->
  (forall b, b < 4096 * frame_of pte \/ 4096 * frame_of pte + 4096 <= b -> load8 m' b = load8 (mem s) b) ->
  kinv (set_mem m' s) l D M.
Proof.
  intros Hk HM Hm Hout. pose proof (ki_vm _ _ _ _ Hk) as Hvm. pose proof (mappings_pos _ _ _ HM) as Hpos.
  assert (Hnt : no_table s D (frame_of pte)).
  { destruct (vo_data _ _ _ _ _ Hvm (frame_of pte)) as (_ & ? & _ & ?); [unfold no_refs; lia|by split]. }
  assert (Hent : forall t j, t <> frame_of pte -> 0 <= j < 1024 -> entry m' t j = entry (mem s) t j).
  { intros t j Ht Hj. unfold entry, load32, ent_addr. rewrite !Hout by lia. done. }
  destruct (vm_ok_write_page s l D M no_refs (frame_of pte) m' Hvm Hnt Hm Hent) as [Hvm' _].
  apply (kinv_frame s _ l l D M); [done|apply set_mem_vm_frame|done|].
  intros i _ (Hi0 & Hil & [HiD Hit] & Him). split; [done|]. split; [done|]. split; [|done]. split; [done|].
  intros d' i' Hd' Hi'. unfold present. simpl. rewrite Hent; [by apply Hit|destruct Hnt as [HD _]; congruence|unfold NUPDE in Hi'; lia].
Qed.

Lemma uready_write_page s c env d l D M k pte m' :
  uready ctx s c env d l D M -> M !! k = Some pte -> mem_ok m' ->
  (forall b, b < 4096 * frame_of pte \/ 4096 * frame_of pte + 4096 <= b -> load8 m' b = load8 (mem s) b) ->
  uready ctx (set_mem m' s) c env d l D M.
Proof.
  intros [Hk [] Hp Hd Hc] HM Hm Hout. split; [by eapply kinv_write_page|by split|done..].
Qed.

Lemma ustore32_mapped s c env d l D M va v pte :
  uready ctx s c env d l D M -> 0 <= va < UTOP -> va mod 4 = 0 -> M !! (d, va / 4096) = Some pte ->
  has pte PTE_U = true -> has pte PTE_W = true ->
  let s' := set_mem (store32 (mem s) (4096 * frame_of pte + va mod 4096) v) s in
  ustore32 stack_tf envs_va lapic ctx va v s = Ret tt s' /\ uready ctx s' c env d l D M.
Proof.
  intros Hu Hva Hal HM HU HW s'. assert (HT : UTOP <= 0xf0000000 /\ UTOP mod 4096 = 0) by done.
  assert (Ha : forall b, 0 <= b < 4 -> uaddr true (va + b) s = Some (4096 * frame_of pte + va mod 4096 + b)).
  { intros b Hb. destruct (word_in_page va b ltac:(lia) Hal Hb) as [Hq Hr].
    rewrite (uaddr_mapped s c env d l D M Hu true (va + b) pte); [f_equal; lia|lia|by rewrite Hq|done|done]. }
  split.
  - apply ustore32_at; [|rewrite <- (Z.add_0_r va) at 1; rewrite Ha by lia; f_equal; lia].
    intros b Hb. rewrite u32_small by lia. by apply Ha.
  - eapply uready_write_page; [done|done|apply mem_ok_store32, (vo_mem _ _ _ _ _ (ur_vm _ _ _ _ _ _ _ Hu))|].
    intros b Hb. apply load8_store32_ne. lia.
Qed.

(** ** System calls *)

(** The same environment makes a trap with other registers. *)
Lemma user_trap_tf s c env tf tf' :
  user_trap s c env 0 tf -> tf_cs tf' = tf_cs tf -> user_trap s c env 0 tf'.
Proof. intros [] E. split; try done. by rewrite E. Qed.

Section syscall.
Context (s : kstate) (c : Z) (env : Env) (d : Z) (l : list Z) (D : gset Z) (M : aspace).
Context (Hu : uready ctx s c env d l D M).
Context (num a1 a2 a3 a4 a5 : Z).
Let tf := syscall_tf ctx num a1 a2 a3 a4 a5.
Let s0 := entered s c env tf.

Lemma entered_kinv : kinv s0 l D M.
Proof.
  pose proof (ur_kinv _ _ _ _ _ _ _ _ Hu) as Hk. pose proof (ur_trap _ _ _ _ _ _ _ _ Hu) as Ht.
  unfold s0, entered. set (s1 := set_kernel_lock _ _).
  assert (Hk1 : kinv s1 l D M).
  { eapply (kinv_ext s); try done. unfold s1. apply curenv_set_cpu_status. }
  eapply kinv_upd_env; [exact Hk1|exact (ut_env _ _ _ _ _ Ht)|..|done];
    unfold live; simpl; by rewrite (ut_run _ _ _ _ _ Ht).
Qed.

Lemma entered_cur0 : curenv s0 = Some c.
Proof.
  eapply entered_cur, (user_trap_tf _ _ _ ctx); [apply (ur_trap _ _ _ _ _ _ _ _ Hu)|done].
Qed.

Lemma entered_may_use id cp e : may_use s id cp e -> may_use s0 id cp e.
Proof.
  unfold may_use. rewrite entered_cur0, (ur_cur _ _ _ _ _ _ _ Hu). destruct (id =? 0); [done|].
  pose proof (ur_env _ _ _ _ _ _ _ Hu) as He0.
  assert (Hlk : forall i ei, envs s !! i = Some ei -> exists ei', envs s0 !! i = Some ei' /\
    env_status ei' = env_status ei /\ env_id ei' = env_id ei /\ env_parent_id ei' = env_parent_id ei).
  { intros i ei Hi. unfold s0, entered. simpl. rewrite lookup_insert. case_decide as E; [|by exists ei].
    subst i. rewrite He0 in Hi. injection Hi as <-. by eexists. }
  intros (-> & env' & He & Hs & Hid & Hcp). split; [done|].
  destruct (Hlk _ _ He) as (env1 & He1 & Hs1 & Hid1 & Hp1). exists env1.
  split; [done|]. split; [congruence|]. split; [congruence|]. intros H. destruct (Hcp H) as [?|(c' & cenv & Hc & Hcenv & Hp)]; [by left|].
  destruct (Hlk _ _ Hcenv) as (cenv1 & Hc1 & _ & Hidc & _). right. exists c', cenv1. split; [done|]. split; [done|]. congruence.
Qed.

(** A handler that returns: the program goes on with the result. *)
Lemma int_syscall_ok v s1 env1 l1 D1 M1 :
  syscall num a1 a2 a3 a4 a5 s0 = Ret v s1 -> same_cpu s0 s1 ->
  envs s1 !! c = Some env1 -> env_status env1 = env_status env -> env_pgdir env1 = env_pgdir env ->
  kinv s1 l1 D1 M1 -> d ∈ D1 ->
  exists s2 env2, int_syscall stack_tf envs_va lapic ctx num a1 a2 a3 a4 a5 s = Ret (i32 (u32 v)) s2 /\
    uready ctx s2 c env2 d l1 D1 M1 /\ env_sim env1 env2 /\ envs s2 = <[c := env2]> (envs s1) /\ mem s2 = mem s1 /\
    page_free_list s2 = page_free_list s1 /\ env_free_list s2 = env_free_list s1.
Proof.
  intros Hsys (Hcp & Hth & Hlk & Hcr & Hpn) He1 Hst Hpg Hk1 Hd1. pose proof (ur_trap _ _ _ _ _ _ _ _ Hu) as Ht.
  assert (Hc1 : curenv s1 = Some c) by (rewrite <- entered_cur0; unfold curenv, thiscpu, cpu_of; by rewrite Hcp, Hth).
  assert (Hl1 : lock_held s1) by (unfold lock_held; rewrite Hlk, Hth; done).
  assert (Hr1 : env_status env1 = ENV_RUNNING) by (rewrite Hst; apply (ut_run _ _ _ _ _ Ht)).
  pose proof (trap_syscall_ok stack_tf envs_va lapic s c env 0 tf
    (user_trap_tf _ _ _ ctx tf Ht eq_refl) v s1 env1 eq_refl Hsys Hc1 Hl1 He1 Hr1) as Htrap.
  set (env1' := with_result v env1) in *. set (s2 := returned c env1' s1) in *.
  set (env2 := set_env_cpunum (this_cpu s1) env1').
  assert (Hc2 : curenv s2 = Some c) by exact Hc1.
  assert (Hsim2 : env_sim env1 env2) by (eexists _, _; reflexivity).
  exists s2, env2. split; [|split; [|done]].
  - unfold int_syscall, int_trap. fold tf. rewrite Htrap. rewrite Hc2, (ut_cur _ _ _ _ _ Ht), bool_decide_true by done. done.
  - assert (Hst2 : env_status env2 = ENV_RUNNING) by exact Hr1. split; [| | |done|].
    + unfold s2, returned. set (sl := set_kernel_lock _ s1). assert (Hkl : kinv sl l1 D1 M1) by (by eapply (kinv_ext s1)).
      eapply (kinv_upd_env sl l1 D1 M1 c env1 env2); [done|exact He1|..|done]; unfold live; by rewrite ?Hr1, ?Hst2.
    + split; try done.
      * by rewrite <- (ut_panic _ _ _ _ _ Ht).
      * change (thiscpu s2) with (thiscpu s1). unfold thiscpu, cpu_of. rewrite Hcp, Hth. fold (cpu_of s0 (this_cpu s0)). fold (thiscpu s0).
        unfold s0, entered. change (thiscpu (set_envs ?e ?x)) with (thiscpu x). change (thiscpu (set_kernel_lock ?e ?x)) with (thiscpu x).
        by rewrite thiscpu_upd.
      * apply lookup_insert_eq.
      * apply (ut_user _ _ _ _ _ Ht).
    + etrans; [|apply (ur_pgdir _ _ _ _ _ _ _ _ Hu)]. exact Hpg.
    + change (cr3 s2) with (cr3 s1). rewrite Hcr. apply (ur_cr3 _ _ _ _ _ _ _ _ Hu).
Qed.
End syscall.
End run.
