(* ===== verification/UserCalls.v ===== *)
(** * System calls of a program

    lib/syscall.c's stubs on the kernel: what each call that the library makes
    does to the abstract address spaces and to the table of environments, seen
    from the program that makes it, the trap and the return included. *)
From S2P Require Import Prelude Mmu Mem Console Kstate Pmap PmapAlloc PmapSpace PmapMap PmapDir Env EnvSpec KernInv Sched SchedSpec Syscall SyscallSpec UserMem Trap TrapSpec Ulib UserRun.

Lemma data_frame_ext s1 s1' s2 s2' l D :
  mem s1 = mem s1' -> mem s2 = mem s2' -> data_frame s1 s2 l D -> data_frame s1' s2' l D.
Proof.
  intros E1 E2 H t Hl Ht. unfold no_table in *. rewrite <- E1, <- E2 in *. by apply H.
Qed.

Lemma elem_of_tail_if (b : bool) (t : Z) l : t ∈ (if b then l else tail l) -> t ∈ l.
Proof. destruct b; [done|]. destruct l; [done|]. by right. Qed.

(** A mapped page is neither free nor part of the page tables, so it keeps its contents. *)
Lemma mapped_no_table s l D M X k pte :
  vm_ok s l D M X -> M !! k = Some pte -> frame_of pte ∉ l /\ no_table s D (frame_of pte).
Proof.
  intros Hvm HM. pose proof (mappings_pos _ _ _ HM). pose proof (vo_X _ _ _ _ _ Hvm (frame_of pte)).
  destruct (vo_data _ _ _ _ _ Hvm (frame_of pte)) as (? & ? & _ & ?); [lia|by split].
Qed.

Lemma mapped_kept s s' l D M X k pte :
  vm_ok s l D M X -> data_frame s s' l D -> M !! k = Some pte ->
  forall j, 0 <= j < 1024 -> entry (mem s') (frame_of pte) j = entry (mem s) (frame_of pte) j.
Proof. intros Hvm Hdf HM. destruct (mapped_no_table _ _ _ _ _ _ _ Hvm HM) as [Hl Ht]. by apply Hdf. Qed.

Lemma load32_entry m t o : o mod 4 = 0 -> load32 m (4096 * t + o) = entry m t (o / 4).
Proof. intros H. unfold entry, ent_addr. f_equal. lia. Qed.

(** The part of the dispatch that the library uses. *)
Lemma syscall_page_map a1 a2 a3 a4 a5 :
  syscall SYS_page_map a1 a2 a3 a4 a5 = sys_page_map (i32 a1) a2 (i32 a3) a4 (i32 a5).
Proof. reflexivity. Qed.
Lemma syscall_page_alloc a1 a2 a3 a4 a5 :
  syscall SYS_page_alloc a1 a2 a3 a4 a5 = sys_page_alloc (i32 a1) a2 (i32 a3).
Proof. reflexivity. Qed.
Lemma syscall_exofork a1 a2 a3 a4 a5 : syscall SYS_exofork a1 a2 a3 a4 a5 = sys_exofork.
Proof. reflexivity. Qed.
Lemma syscall_env_set_status a1 a2 a3 a4 a5 :
  syscall SYS_env_set_status a1 a2 a3 a4 a5 = sys_env_set_status (i32 a1) (i32 a2).
Proof. reflexivity. Qed.
Lemma syscall_env_set_pgfault_upcall a1 a2 a3 a4 a5 :
  syscall SYS_env_set_pgfault_upcall a1 a2 a3 a4 a5 = sys_env_set_pgfault_upcall (i32 a1) a2.
Proof. reflexivity. Qed.
Lemma syscall_getenvid a1 a2 a3 a4 a5 : syscall SYS_getenvid a1 a2 a3 a4 a5 = sys_getenvid.
Proof. reflexivity. Qed.

Lemma frame_of_pte M s l D X k pte perm :
  vm_ok s l D M X -> M !! k = Some pte -> 0 <= perm < 4096 -> frame_of (pte_of (frame_of pte) perm) = frame_of pte.
Proof.
  intros Hvm HM Hp. destruct k as [d v]. destruct (vm_mapped_data Hvm _ _ _ HM) as (Hf & _). pose proof (vm_npages Hvm).
  by apply frame_of_page_entry; [lia|].
Qed.

(** The free list after a mapping is replaced. *)
Lemma freed_by_same l M k pte : M !! k = Some pte -> freed_by l M k (frame_of pte) = l.
Proof. intros H. unfold freed_by. rewrite H. by rewrite bool_decide_false by (intros Hn; by apply Hn). Qed.
Lemma freed_by_none l M k pp : M !! k = None -> freed_by l M k pp = l.
Proof. intros H. unfold freed_by. by rewrite H. Qed.
Lemma freed_by_length l M k pp : (length l <= length (freed_by l M k pp))%nat.
Proof. unfold freed_by. destruct (M !! k); [|done]. destruct (_ && _); simpl; lia. Qed.

Section calls.
Context (stack_tf envs_va lapic : Z) (ctx : Trapframe).

(** A system call that returns no positive result, seen from the program. *)
Section call.
Context (s : kstate) (c : Z) (env : Env) (d : Z) (l : list Z) (D : gset Z) (M : aspace).
Context (Hu : uready ctx s c env d l D M).
Context (num a1 a2 a3 a4 a5 : Z).
Let s0 := entered s c env (syscall_tf ctx num a1 a2 a3 a4 a5).

Lemma entered_lookup i ei : envs s0 !! i = Some ei ->
  exists ei0, envs s !! i = Some ei0 /\ env_pgdir ei = env_pgdir ei0.
Proof.
  unfold s0, entered. simpl. rewrite lookup_insert. case_decide as E; [|by intros ?; exists ei].
  subst i. intros [= <-]. exists env. split; [apply (ur_env _ _ _ _ _ _ _ _ Hu)|done].
Qed.

Lemma user_call check r s1 env1 l1 D1 M1 :
  syscall num a1 a2 a3 a4 a5 s0 = Ret r s1 -> same_cpu s0 s1 ->
  envs s1 !! c = Some env1 -> env_status env1 = env_status env -> env_pgdir env1 = env_pgdir env ->
  kinv s1 l1 D1 M1 -> d ∈ D1 -> -0x80000000 <= r <= 0 ->
  exists s2 env2, user_syscall stack_tf envs_va lapic ctx num check a1 a2 a3 a4 a5 s = Ret r s2 /\
    uready ctx s2 c env2 d l1 D1 M1 /\ env_sim env1 env2 /\ envs s2 = <[c := env2]> (envs s1) /\ mem s2 = mem s1 /\
    env_free_list s2 = env_free_list s1.
Proof.
  intros H1 Hcpu He1 Hst Hpg Hk1 Hd1 Hr.
  destruct (int_syscall_ok stack_tf envs_va lapic ctx s c env d l D M Hu num a1 a2 a3 a4 a5
    r s1 env1 l1 D1 M1 H1 Hcpu He1 Hst Hpg Hk1 Hd1) as (s2 & env2 & H2 & Hu2 & Hs2 & He2 & Hmm & _ & Hef).
  rewrite i32_u32 in H2 by lia. exists s2, env2. split; [|done].
  unfold user_syscall. rewrite (bind_ret _ _ _ _ _ H2). replace (r >? 0) with false by lia. by rewrite andb_false_r.
Qed.

(** A call that changes no environment. *)
Lemma user_call_frame check r s1 l1 M1 :
  syscall num a1 a2 a3 a4 a5 s0 = Ret r s1 -> vm_frame s0 s1 -> kinv s1 l1 D M1 -> -0x80000000 <= r <= 0 ->
  exists s2 env2, user_syscall stack_tf envs_va lapic ctx num check a1 a2 a3 a4 a5 s = Ret r s2 /\
    uready ctx s2 c env2 d l1 D M1 /\ env_sim env env2 /\ envs s2 = <[c := env2]> (envs s) /\ mem s2 = mem s1 /\
    env_free_list s2 = env_free_list s.
Proof.
  intros H1 Hfr Hk1 Hr. destruct (vm_frame_curenv _ _ Hfr) as (_ & He1 & _).
  destruct (user_call check r s1 (set_env_tf (syscall_tf ctx num a1 a2 a3 a4 a5) env) l1 D M1 H1 (vm_frame_same_cpu _ _ Hfr))
    as (s2 & env2 & H2 & Hu2 & Hs2 & He2 & Hmm & Hef); [|done|done|done|apply (ur_dir _ _ _ _ _ _ _ _ Hu)|done|].
  - rewrite He1. apply lookup_insert_eq.
  - exists s2, env2. do 2 (split; [done|]). split; [by etrans; [apply env_sim_tf|]|]. split; [|split; [done|]].
    + rewrite He2, He1. unfold s0, entered. simpl. by rewrite insert_insert_eq.
    + rewrite Hef. by destruct Hfr as (m & fl & pg & tr & ->).
Qed.
End call.

Lemma page_va_ok v : 0 <= v < NUVPN -> va_bad (4096 * v) = false.
Proof.
  intros Hv. unfold va_bad. rewrite PGOFF_mod. replace (4096 * v mod 4096) with 0 by lia.
  pose proof NUVPN_eq. unfold NUVPN, PGSIZE in *. destruct (Z.geb_spec (4096 * v) UTOP); [lia|done].
Qed.

(** A page of the program mapped in the environment [dstid], with no more rights. *)
Lemma user_page_map_ok s c env d l D M dstid e denv d' v va w wa perm pte :
  va = 4096 * v -> wa = 4096 * w -> uready ctx s c env d l D M -> may_use s dstid true e -> envs s !! e = Some denv -> env_pgdir denv = pgdir_kva d' ->
  0 <= dstid < 0x80000000 -> 0 <= v < NUVPN -> 0 <= w < NUVPN -> 0 <= perm < 4096 -> perm_bad perm = false ->
  (has perm PTE_W = true -> has pte PTE_W = true) ->
  M !! (d, v) = Some pte -> (forall k, mappings M k + 1 < 0x10000) ->
  exists s2 env2 r, user_sys_page_map stack_tf envs_va lapic ctx 0 va dstid wa perm s = Ret r s2 /\
    env_sim env env2 /\ envs s2 = <[c := env2]> (envs s) /\
    ((r = - E_NO_MEM /\ uready ctx s2 c env2 d l D M /\ mem s2 = mem s /\ l = [] /\ present (mem s) d' (w / 1024) = false) \/
     exists l', r = 0 /\ uready ctx s2 c env2 d l' D (<[(d', w) := pte_of (frame_of pte) perm]> M) /\
       data_frame s s2 l D /\
       l' = freed_by (if present (mem s) d' (w / 1024) then l else tail l) M (d', w) (frame_of pte)).
Proof.
  intros Hva Hwa Hu Hm He Hpg Hid Hv Hw' Hperm Hpb Hw HM Hb.
  set (a3 := u32 dstid). set (a5 := u32 perm).
  pose proof (entered_kinv ctx s c env d l D M Hu SYS_page_map (u32 0) va a3 wa a5) as Hk0.
  pose proof (entered_cur0 ctx s c env d l D M Hu SYS_page_map (u32 0) va a3 wa a5) as Hc0.
  set (s0 := entered s c env (syscall_tf ctx SYS_page_map (u32 0) va a3 wa a5)) in *.
  assert (Hm0 : may_use s0 dstid true e) by (by eapply entered_may_use).
  pose proof (entered_lookup s c env d l D M Hu SYS_page_map (u32 0) va a3 wa a5) as Hlk. fold s0 in Hlk.
  assert (Hnb : va_bad va = false) by (rewrite Hva; by apply page_va_ok).
  assert (Hnb' : va_bad wa = false) by (rewrite Hwa; by apply page_va_ok).
  assert (Hq : va / 4096 = v) by lia. assert (Hq' : wa / 4096 = w) by lia.
  assert (Hpx : PDX wa = w / 1024) by (rewrite PDX_div; unfold NUVPN in Hw'; lia).
  pose proof (sys_page_map_ok s0 l D M 0 va dstid wa perm Hk0 ltac:(by eexists) ltac:(lia) ltac:(lia) Hb) as Hres.
  assert (Hcall : syscall SYS_page_map (u32 0) va a3 wa a5 s0 = sys_page_map 0 va dstid wa perm s0).
  { rewrite syscall_page_map. unfold a3, a5. rewrite !i32_u32 by lia. done. }
  rewrite <- Hcall in Hres.
  pose proof (user_call_frame s c env d l D M Hu SYS_page_map (u32 0) va a3 wa a5 true) as Hfin. fold s0 in Hfin.
  assert (Hms : mem s0 = mem s) by done. clear Hcall. clearbody s0.
  destruct (syscall SYS_page_map (u32 0) va a3 wa a5 s0) as [r s1| | | | | |] eqn:Hsys; [|by inversion Hres..].
  inversion Hres as [Hx|? ? ? ? Hx|e1 ev1 d1 Hu1 He1 Hp1 Hx|e1 ev1 d1 p1 Hu1 He1 Hp1 Hx Hw1|e1 ev1 d1 Hu1 He1 Hp1 Hx Hl1|
    e1 ev1 d1 e2 ev2 d2 p1 s1' l1 Hu1 He1 Hp1 Hu2 He2 Hp2 _ _ _ HM1 _ Hk1 Hfr Hdf Hl1]; subst.
  - destruct Hx as [Hx|Hx]; [by destruct (Hx c)|by destruct (Hx e)].
  - destruct Hx as [Hx|[Hx|Hx]]; congruence.
  - exfalso. assert (e1 = c) as -> by (pose proof (may_use_det _ _ _ _ c Hu1 Hc0); done).
    destruct (Hlk _ _ He1) as (ev & Hev & E). rewrite (ur_env _ _ _ _ _ _ _ _ Hu) in Hev. injection Hev as <-.
    rewrite E, (ur_pgdir _ _ _ _ _ _ _ _ Hu) in Hp1. apply pgdir_kva_inj in Hp1. subst d1. rewrite Hq in Hx. congruence.
  - exfalso. assert (e1 = c) as -> by (pose proof (may_use_det _ _ _ _ c Hu1 Hc0); done).
    destruct (Hlk _ _ He1) as (ev & Hev & E). rewrite (ur_env _ _ _ _ _ _ _ _ Hu) in Hev. injection Hev as <-.
    rewrite E, (ur_pgdir _ _ _ _ _ _ _ _ Hu) in Hp1. apply pgdir_kva_inj in Hp1. subst d1. rewrite Hq, HM in Hx.
    injection Hx as <-. specialize (Hw Hw1). congruence.
  - destruct (Hfin (- E_NO_MEM) s1 [] M eq_refl ltac:(reflexivity) Hk0 ltac:(done)) as (s2 & env2 & H2 & Hu2' & Hs2 & Hee & Hmm & Hef).
    exists s2, env2, (- E_NO_MEM). split; [done|]. split; [done|]. split; [done|]. left. split; [done|]. split; [done|].
    split; [congruence|]. split; [done|]. assert (e1 = e) as -> by (by eapply may_use_det).
    destruct (Hlk _ _ He1) as (ev & Hev & E). rewrite He in Hev. injection Hev as <-. rewrite E, Hpg in Hp1.
    apply pgdir_kva_inj in Hp1. subst d1. by rewrite <- Hpx, <- Hms.
  - assert (e1 = c) as -> by (pose proof (may_use_det _ _ _ _ c Hu1 Hc0); done).
    destruct (Hlk _ _ He1) as (ev & Hev & E). rewrite (ur_env _ _ _ _ _ _ _ _ Hu) in Hev. injection Hev as <-.
    rewrite E, (ur_pgdir _ _ _ _ _ _ _ _ Hu) in Hp1. apply pgdir_kva_inj in Hp1. subst d1. rewrite Hq, HM in HM1. injection HM1 as <-.
    assert (e2 = e) as -> by (by eapply may_use_det).
    destruct (Hlk _ _ He2) as (ev' & Hev' & E'). rewrite He in Hev'. injection Hev' as <-. rewrite E', Hpg in Hp2.
    apply pgdir_kva_inj in Hp2. subst d2. rewrite Hq' in *. rewrite Hpx in *.
    destruct (Hfin 0 s1 _ _ eq_refl Hfr Hk1 ltac:(done)) as (s2 & env2 & H2 & Hu2' & Hs2 & Hee & Hmm & Hef).
    exists s2, env2, 0. split; [done|]. split; [done|]. split; [done|]. right. eexists. split; [done|].
    rewrite Hms in *. split; [exact Hu2'|]. split; [|done]. by eapply (data_frame_ext s0 s s1 s2).
Qed.
(** The right to use an environment depends on ids, parents and liveness only. *)
Lemma may_use_mono s s2 id e :
  curenv s2 = curenv s ->
  (forall i ei, envs s !! i = Some ei -> exists ei', envs s2 !! i = Some ei' /\
    (env_status ei <> ENV_FREE -> env_status ei' <> ENV_FREE) /\ env_id ei' = env_id ei /\ env_parent_id ei' = env_parent_id ei) ->
  may_use s id true e -> may_use s2 id true e.
Proof.
  intros Hc Hlk. unfold may_use. rewrite Hc. destruct (id =? 0); [done|].
  intros (-> & env' & He' & Hs' & Hid' & Hcp). split; [done|].
  destruct (Hlk _ _ He') as (env1 & He1 & Hs1 & Hid1 & Hp1). exists env1. split; [done|]. split; [by apply Hs1|].
  split; [congruence|]. intros H. destruct (Hcp H) as [?|(c' & cenv & Hc' & Hcenv & Hp)]; [by left|].
  destruct (Hlk _ _ Hcenv) as (cenv1 & Hc1 & _ & Hidc & _). right. exists c', cenv1. split; [done|]. split; [done|]. congruence.
Qed.

(** The handle on an environment survives a system call of its user. *)
Lemma may_use_sim s s2 c env env2 id e :
  curenv s = Some c -> curenv s2 = Some c -> envs s !! c = Some env -> env_sim env env2 ->
  envs s2 = <[c := env2]> (envs s) -> may_use s id true e -> may_use s2 id true e.
Proof.
  intros Hc Hc2 He Hs Hes. apply may_use_mono; [congruence|]. destruct (env_sim_fields _ _ Hs) as (Hid & Hst & _ & Hpar & _).
  intros i ei Hi. rewrite Hes, lookup_insert. case_decide as E; [|by exists ei].
  subst i. rewrite He in Hi. injection Hi as <-. exists env2. by rewrite Hst.
Qed.

(** ** The other calls *)

(** A panic of the program ends in the monitor. *)
Lemma user_panic_ok {A} s c env d l D M :
  uready ctx s c env d l D M -> exists s', @user_panic stack_tf envs_va lapic ctx A s = Monitor s'.
Proof.
  intros Hu. unfold user_panic.
  pose proof (entered_kinv ctx s c env d l D M Hu SYS_getenvid 0 0 0 0 0) as Hk0.
  pose proof (entered_cur0 ctx s c env d l D M Hu SYS_getenvid 0 0 0 0 0) as Hc0.
  set (s0 := entered s c env (syscall_tf ctx SYS_getenvid 0 0 0 0 0)) in *.
  assert (He0 : envs s0 !! c = Some (set_env_tf (syscall_tf ctx SYS_getenvid 0 0 0 0 0) env)) by apply lookup_insert_eq.
  assert (Hsys : syscall SYS_getenvid 0 0 0 0 0 s0 = Ret (env_id env) s0).
  { rewrite syscall_getenvid. unfold sys_getenvid, curenv_deref. unfold bind at 1. rewrite Hc0. simpl.
    by erewrite bind_ret by (by apply get_env_eq). }
  destruct (int_syscall_ok stack_tf envs_va lapic ctx s c env d l D M Hu SYS_getenvid 0 0 0 0 0 (env_id env) s0
    _ l D M Hsys ltac:(done) He0 eq_refl eq_refl Hk0 (ur_dir _ _ _ _ _ _ _ _ Hu)) as (s2 & env2 & H2 & Hu2 & _).
  rewrite (bind_ret _ _ _ _ _ H2). unfold int_trap. set (tf := mkTf _ _ _ _ _ _ _ _ _ _).
  pose proof (user_trap_tf s2 c env2 ctx tf (ur_trap _ _ _ _ _ _ _ _ Hu2) eq_refl) as Ht.
  unfold bind at 1. rewrite (trap_user stack_tf envs_va lapic s2 c env2 0 tf Ht). unfold trap_dispatch, get_tf. kpure.
  erewrite bind_ret by (apply get_env_eq, (entered_env s2 c env2 tf)). cbn [env_tf set_env_tf].
  change (tf_trapno tf) with T_BRKPT. change (T_BRKPT =? IRQ_OFFSET + IRQ_SPURIOUS) with false.
  change (T_BRKPT =? T_PGFLT) with false. change (T_BRKPT =? T_BRKPT) with true. cbv iota. by eexists.
Qed.

Lemma user_page_alloc_ok s c env d l D M envid e denv v va perm d' :
  va = 4096 * v -> uready ctx s c env d l D M -> may_use s envid true e -> envs s !! e = Some denv ->
  env_pgdir denv = pgdir_kva d' -> 0 <= envid < 0x80000000 -> 0 <= v < NUVPN ->
  0 <= perm < 4096 -> perm_bad perm = false ->
  exists s2 env2 r, user_sys_page_alloc stack_tf envs_va lapic ctx envid va perm s = Ret r s2 /\
    env_sim env env2 /\ envs s2 = <[c := env2]> (envs s) /\ env_free_list s2 = env_free_list s /\
    ((r = - E_NO_MEM /\ uready ctx s2 c env2 d l D M /\ (length l <= 1)%nat) \/
     exists p l', r = 0 /\ head l = Some p /\
       uready ctx s2 c env2 d l' D (<[(d', v) := pte_of p ((PTE_U .| PTE_P) .| perm)]> M) /\
       data_frame s s2 l D /\ (forall j, 0 <= j < 1024 -> entry (mem s2) p j = 0) /\
       l' = freed_by (if present (mem s) d' (v / 1024) then tail l else tail (tail l)) M (d', v) p).
Proof.
  intros Hva Hu Hm He Hpg Hid Hv Hperm Hpb.
  set (a1 := u32 envid). set (a3 := u32 perm).
  pose proof (entered_kinv ctx s c env d l D M Hu SYS_page_alloc a1 va a3 0 0) as Hk0.
  pose proof (entered_cur0 ctx s c env d l D M Hu SYS_page_alloc a1 va a3 0 0) as Hc0.
  set (s0 := entered s c env (syscall_tf ctx SYS_page_alloc a1 va a3 0 0)) in *.
  assert (Hm0 : may_use s0 envid true e) by (by eapply entered_may_use).
  pose proof (entered_lookup s c env d l D M Hu SYS_page_alloc a1 va a3 0 0) as Hlk. fold s0 in Hlk.
  assert (Hnb : va_bad va = false) by (rewrite Hva; by apply page_va_ok).
  assert (Hq : va / 4096 = v) by lia.
  assert (Hpx : PDX va = v / 1024) by (rewrite PDX_div; unfold NUVPN in Hv; lia).
  pose proof (sys_page_alloc_ok s0 l D M envid va perm Hk0 ltac:(by eexists) ltac:(lia)) as Hres.
  assert (Hcall : syscall SYS_page_alloc a1 va a3 0 0 s0 = sys_page_alloc envid va perm s0).
  { rewrite syscall_page_alloc. unfold a1, a3. rewrite !i32_u32 by lia. done. }
  rewrite <- Hcall in Hres.
  pose proof (user_call_frame s c env d l D M Hu SYS_page_alloc a1 va a3 0 0 true) as Hfin. fold s0 in Hfin.
  assert (Hms : mem s0 = mem s) by done. clear Hcall. clearbody s0.
  destruct (syscall SYS_page_alloc a1 va a3 0 0 s0) as [r s1| | | | | |] eqn:Hsys; [|by inversion Hres..].
  inversion Hres as [Hx|? ? Hx|? ? ? ? Hx|e1 ev1 d1 p1 s1' Hu1 He1 Hp1 _ _ Hl1 _ Hk1 Hfr|
    e1 ev1 d1 p1 s1' l1 Hu1 He1 Hp1 _ _ Hl1 Hk1 Hfr Hdf Hl2 Hz]; subst.
  - by destruct (Hx e).
  - destruct Hx; congruence.
  - destruct (Hfin (- E_NO_MEM) s1 [] M eq_refl ltac:(reflexivity) Hk0 ltac:(done)) as (s2 & env2 & H2 & Hu2' & Hs2 & Hee & Hmm & Hef).
    exists s2, env2, (- E_NO_MEM). do 4 (split; [done|]). left. split; [done|]. split; [done|]. simpl. lia.
  - destruct (Hfin (- E_NO_MEM) s1 _ M eq_refl Hfr Hk1 ltac:(done)) as (s2 & env2 & H2 & Hu2' & Hs2 & Hee & Hmm & Hef).
    exists s2, env2, (- E_NO_MEM). do 4 (split; [done|]). left. split; [done|]. split; [done|]. simpl. lia.
  - destruct (Hfin 0 s1 _ _ eq_refl Hfr Hk1 ltac:(done)) as (s2 & env2 & H2 & Hu2' & Hs2 & Hee & Hmm & Hef).
    exists s2, env2, 0. do 4 (split; [done|]). right. assert (e1 = e) as -> by (by eapply may_use_det).
    destruct (Hlk _ _ He1) as (ev & Hev & E). rewrite He in Hev. injection Hev as <-. rewrite E, Hpg in Hp1.
    apply pgdir_kva_inj in Hp1. subst d1. rewrite Hq, Hpx, Hms in *. eexists p1, _. split; [done|]. split; [done|].
    split; [exact Hu2'|]. split; [by eapply (data_frame_ext s0 s s1 s2)|]. split; [|done]. by rewrite Hmm.
Qed.
Lemma user_page_unmap_ok s c env d l D M v va :
  va = 4096 * v -> uready ctx s c env d l D M -> 0 <= v < NUVPN ->
  exists s2 env2 l', user_sys_page_unmap stack_tf envs_va lapic ctx 0 va s = Ret 0 s2 /\
    uready ctx s2 c env2 d l' D (delete (d, v) M) /\ env_sim env env2 /\ envs s2 = <[c := env2]> (envs s) /\
    data_frame s s2 l D.
Proof.
  intros Hva Hu Hv. set (num := SYS_page_unmap). set (a1 := u32 0).
  pose proof (entered_kinv ctx s c env d l D M Hu num a1 va 0 0 0) as Hk0.
  pose proof (entered_cur0 ctx s c env d l D M Hu num a1 va 0 0 0) as Hc0.
  set (tf := syscall_tf ctx num a1 va 0 0 0) in *. set (s0 := entered s c env tf) in *.
  destruct (sys_page_unmap_ok s0 l D M 0 va c (set_env_tf tf env) d Hk0) as (s1 & l1 & H1 & Hk1 & Hfr & Hdf).
  - by eexists.
  - lia.
  - done.
  - rewrite Hva. by apply page_va_ok.
  - apply lookup_insert_eq.
  - apply (ur_pgdir _ _ _ _ _ _ _ _ Hu).
  - replace (va / 4096) with v in Hk1 by lia.
    destruct (user_call_frame s c env d l D M Hu num a1 va 0 0 0 true 0 s1 l1 _ H1 Hfr Hk1 ltac:(done))
      as (s2 & env2 & H2 & Hu2 & Hs2 & Hes2 & Hmm & _).
    exists s2, env2, l1. do 4 (split; [done|]). by eapply (data_frame_ext s0 s s1 s2).
Qed.

(** A call that changes another environment [e]. *)
Lemma user_upd_child s c env d l D M num a1 a2 a3 a4 a5 e denv denv' :
  uready ctx s c env d l D M -> e <> c -> envs s !! e = Some denv ->
  (let s0 := entered s c env (syscall_tf ctx num a1 a2 a3 a4 a5) in
   let s1 := set_envs (<[e := denv']> (envs s0)) s0 in
   syscall num a1 a2 a3 a4 a5 s0 = Ret 0 s1 /\ kinv s1 l D M) ->
  exists s2 env2, user_syscall stack_tf envs_va lapic ctx num true a1 a2 a3 a4 a5 s = Ret 0 s2 /\
    uready ctx s2 c env2 d l D M /\ env_sim env env2 /\ envs s2 = <[c := env2]> (<[e := denv']> (envs s)) /\
    mem s2 = mem s.
Proof.
  intros Hu Hec He [H1 Hk1]. set (tf := syscall_tf ctx num a1 a2 a3 a4 a5) in *. set (s0 := entered s c env tf) in *.
  destruct (user_call s c env d l D M Hu num a1 a2 a3 a4 a5 true 0 _ (set_env_tf tf env) l D M H1)
    as (s2 & env2 & H2 & Hu2 & Hs2 & He2 & Hmm & _); try done.
  - simpl. rewrite lookup_insert_ne by done. apply lookup_insert_eq.
  - apply (ur_dir _ _ _ _ _ _ _ _ Hu).
  - exists s2, env2. split; [done|]. split; [done|]. split; [by etrans; [apply env_sim_tf|]|]. split; [|done].
    rewrite He2. simpl. rewrite (insert_insert_ne (envs s) e c) by done. by rewrite insert_insert_eq.
Qed.
Lemma user_set_upcall_ok s c env d l D M id func e denv :
  uready ctx s c env d l D M -> may_use s id true e -> e <> c -> envs s !! e = Some denv -> 0 <= id < 0x80000000 ->
  exists s2 env2, user_sys_env_set_pgfault_upcall stack_tf envs_va lapic ctx id func s = Ret 0 s2 /\
    uready ctx s2 c env2 d l D M /\ env_sim env env2 /\
    envs s2 = <[c := env2]> (<[e := set_env_pgfault_upcall func denv]> (envs s)) /\ mem s2 = mem s.
Proof.
  intros Hu Hm Hec He Hid. apply (user_upd_child s c env d l D M SYS_env_set_pgfault_upcall _ _ _ _ _ e denv); [done..|].
  cbv zeta. rewrite syscall_env_set_pgfault_upcall, i32_u32 by lia.
  apply (sys_env_set_pgfault_upcall_ok _ _ _ _ _ _ e); [by eapply entered_kinv| |by eapply entered_may_use|].
  - erewrite entered_cur0 by exact Hu. by eexists.
  - simpl. by rewrite lookup_insert_ne.
Qed.

Lemma user_set_runnable_ok s c env d l D M id e denv :
  uready ctx s c env d l D M -> may_use s id true e -> e <> c -> envs s !! e = Some denv -> 0 <= id < 0x80000000 ->
  exists s2 env2, user_sys_env_set_status stack_tf envs_va lapic ctx id ENV_RUNNABLE s = Ret 0 s2 /\
    uready ctx s2 c env2 d l D M /\ env_sim env env2 /\
    envs s2 = <[c := env2]> (<[e := set_env_status ENV_RUNNABLE denv]> (envs s)) /\ mem s2 = mem s.
Proof.
  intros Hu Hm Hec He Hid. apply (user_upd_child s c env d l D M SYS_env_set_status _ _ _ _ _ e denv); [done..|].
  cbv zeta. rewrite syscall_env_set_status, i32_u32 by lia.
  change (i32 (u32 ENV_RUNNABLE)) with ENV_RUNNABLE. set (a2 := u32 ENV_RUNNABLE).
  pose proof (entered_kinv ctx s c env d l D M Hu SYS_env_set_status (u32 id) a2 0 0 0) as Hk0.
  pose proof (entered_cur0 ctx s c env d l D M Hu SYS_env_set_status (u32 id) a2 0 0 0) as Hc0.
  pose proof (entered_may_use ctx s c env d l D M Hu SYS_env_set_status (u32 id) a2 0 0 0 _ _ _ Hm) as Hm0.
  destruct (sys_env_set_status_correct _ l D M id ENV_RUNNABLE Hk0 ltac:(by eexists))
    as [[Hx _]|[(? & _ & Hx & _)|(e' & env' & Hm' & _ & He' & H)]]; [by destruct (Hx e)|done|].
  assert (e' = e) as -> by (by eapply may_use_det). simpl in He'. rewrite lookup_insert_ne, He in He' by done.
  injection He' as <-. exact H.
Qed.

(** A call that sets the caller's own upcall. *)
Lemma user_set_upcall_self s c env d l D M func :
  uready ctx s c env d l D M ->
  exists s2 env2, user_sys_env_set_pgfault_upcall stack_tf envs_va lapic ctx 0 func s = Ret 0 s2 /\
    uready ctx s2 c env2 d l D M /\ env_sim (set_env_pgfault_upcall func env) env2 /\
    envs s2 = <[c := env2]> (envs s) /\ mem s2 = mem s /\ env_free_list s2 = env_free_list s.
Proof.
  intros Hu. unfold user_sys_env_set_pgfault_upcall. set (num := SYS_env_set_pgfault_upcall). set (a1 := u32 0).
  pose proof (entered_kinv ctx s c env d l D M Hu num a1 func 0 0 0) as Hk0.
  pose proof (entered_cur0 ctx s c env d l D M Hu num a1 func 0 0 0) as Hc0.
  set (tf := syscall_tf ctx num a1 func 0 0 0) in *. set (s0 := entered s c env tf) in *.
  destruct (sys_env_set_pgfault_upcall_ok s0 l D M 0 func c (set_env_tf tf env) Hk0) as [H1 Hk1];
    [by eexists|done|apply lookup_insert_eq|].
  set (s1 := set_envs _ s0) in *.
  destruct (user_call s c env d l D M Hu num a1 func 0 0 0 true 0 s1 (set_env_pgfault_upcall func (set_env_tf tf env)) l D M)
    as (s2 & env2 & H2 & Hu2 & Hs2 & He2 & Hmm & Hef); try done.
  - apply lookup_insert_eq.
  - apply (ur_dir _ _ _ _ _ _ _ _ Hu).
  - exists s2, env2. split; [done|]. split; [done|]. split; [by etrans; [apply (env_sim_tf tf)|]|].
    split; [|done]. rewrite He2. unfold s1, s0, entered. simpl. by rewrite !insert_insert_eq.
Qed.

(** ** exofork *)

(** The environment sys_exofork makes for a caller trapped with the registers [tf]. *)
Definition exofork_child (env : Env) (e n : Z) (free : Env) : Env :=
  let r := tf_regs ctx in
  fork_child (env_id env) e n free
    (set_env_tf (syscall_tf ctx SYS_exofork (reg_edx r) (reg_ecx r) (reg_ebx r) (reg_edi r) (reg_esi r)) env).

Lemma user_exofork_ok s c env d l D M :
  uready ctx s c env d l D M -> (forall i ei, envs s !! i = Some ei -> 0 <= env_id ei < 0x80000000) ->
  match env_free_list s, l with
  | Some e, n :: l' => exists s2 env2 free, let child := next_env_id (env_id free) e in
      user_sys_exofork stack_tf envs_va lapic ctx s = Ret child s2 /\ 0 < child < 0x80000000 /\ ENVX child = e /\
      envs s !! e = Some free /\ e <> c /\ n ∉ D /\ uready ctx s2 c env2 d l' ({[n]} ∪ D) M /\ env_sim env env2 /\
      envs s2 = <[c := env2]> (<[e := exofork_child env e n free]> (envs s)) /\
      (forall t j, t <> n -> 0 <= j < 1024 -> entry (mem s2) t j = entry (mem s) t j)
  | _, _ => exists r s2 env2, user_sys_exofork stack_tf envs_va lapic ctx s = Ret r s2 /\ r < 0 /\
      uready ctx s2 c env2 d l D M
  end.
Proof.
  intros Hu Hids. unfold user_sys_exofork. set (r := tf_regs ctx). pose proof (ur_dir _ _ _ _ _ _ _ _ Hu) as HdD.
  set (num := SYS_exofork). set (tf := syscall_tf ctx num (reg_edx r) (reg_ecx r) (reg_ebx r) (reg_edi r) (reg_esi r)).
  pose proof (entered_kinv ctx s c env d l D M Hu num (reg_edx r) (reg_ecx r) (reg_ebx r) (reg_edi r) (reg_esi r)) as Hk0.
  pose proof (entered_cur0 ctx s c env d l D M Hu num (reg_edx r) (reg_ecx r) (reg_ebx r) (reg_edi r) (reg_esi r)) as Hc0.
  pose proof (int_syscall_ok stack_tf envs_va lapic ctx s c env d l D M Hu num (reg_edx r) (reg_ecx r) (reg_ebx r) (reg_edi r) (reg_esi r)) as Hcall.
  fold tf in Hk0, Hc0, Hcall. set (s0 := entered s c env tf) in *. unfold num in Hcall at 1. rewrite syscall_exofork in Hcall.
  assert (Hce : envs s0 !! c = Some (set_env_tf tf env)) by apply lookup_insert_eq.
  pose proof (sys_exofork_ok s0 l D M c _ Hk0 Hc0 Hce) as Hres. change (env_free_list s0) with (env_free_list s) in Hres.
  assert (Hfail : forall r0, sys_exofork s0 = Ret r0 s0 -> -0x80000000 <= r0 < 0 ->
    exists q s2 env2, int_syscall stack_tf envs_va lapic ctx num (reg_edx r) (reg_ecx r) (reg_ebx r) (reg_edi r) (reg_esi r) s = Ret q s2 /\ q < 0 /\ uready ctx s2 c env2 d l D M).
  { intros r0 H0 Hr0. destruct (Hcall r0 s0 _ l D M H0 ltac:(done) Hce eq_refl eq_refl Hk0 HdD) as (s2 & env2 & H2 & Hu2 & _).
    rewrite i32_u32 in H2 by lia. exists r0, s2, env2. split; [exact H2|]. split; [lia|done]. }
  destruct (env_free_list s) as [e|]; [destruct l as [|n l']|]; [by apply (Hfail _ Hres)| |by apply (Hfail _ Hres)].
  destruct Hres as (s1 & free & Hf & Hec & H1 & Hk1 & Hes & Hcpu & HnD & Hother).
  unfold s0, entered in Hf. simpl in Hf. rewrite lookup_insert_ne in Hf by done.
  destruct (next_env_id_ok (env_id free) e (Hids _ _ Hf)) as (Hch & Hx & _).
  { apply (ki_dom _ _ _ _ (ur_kinv _ _ _ _ _ _ _ _ Hu)). by eexists. }
  assert (He1 : envs s1 !! c = Some (set_env_tf tf env)) by (rewrite Hes; by rewrite lookup_insert_ne).
  destruct (Hcall _ s1 _ l' ({[n]} ∪ D) M H1 Hcpu He1 eq_refl eq_refl Hk1 ltac:(set_solver)) as (s2 & env2 & H2 & Hu2 & Hs2 & He2 & Hmm & _).
  rewrite i32_u32 in H2 by lia. exists s2, env2, free. cbv zeta. do 6 (split; [done|]). split; [done|].
  split; [by etrans; [apply env_sim_tf|]|]. split; [|by rewrite Hmm].
  rewrite He2, Hes. unfold s0, entered. simpl. rewrite (insert_insert_ne (envs s) e c) by done. by rewrite insert_insert_eq.
Qed.
End calls.
