(* ===== verification/Mpconfig.v ===== *)
(** * The multiprocessor tables of the BIOS

    kern/mpconfig.c: the search for the configuration table in memory, its
    checks, and the CPUs that its entries name.  [conf_spec] is a reference function
    on the bytes of memory that says where the table is and which check it fails. *)
From S2P Require Import Prelude Mmu Mem Console Kstate Pmap Env Kbytes.

(** ** The tables

    struct mp: signature at 0, physaddr 4, type 11, imcrp 12; 16 bytes.  struct
    mpconf: signature 0, length 4, version 6, entry 34, lapicaddr 36, xlength 40,
    xchecksum 42, entries from 44 on.  struct mpproc: type 0, apicid 1, flags 3;
    20 bytes, the other entries take 8. *)
Definition MPPROC_BOOT : Z := 0x02.
Definition MPPROC : Z := 0x00.
Definition MPBUS : Z := 0x01.
Definition MPIOAPIC : Z := 0x02.
Definition MPIOINTR : Z := 0x03.
Definition MPLINTR : Z := 0x04.
Definition sizeof_mp : Z := 16.
Definition sizeof_mpproc : Z := 20.

(** The variables of the file; [bootcpu] as an index into [cpus], which the
    kernel's state holds. *)
Record mpvars := mkMp { bootcpu : Z; ismp : bool; ncpu : Z; lapicaddr : Z }.
Definition mp_start : mpvars := mkMp 0 false 0 0.

Fixpoint sum_from (n : nat) (a acc : Z) : K Z :=
  match n with
  | O => ret (u8 acc)
  | S n => b <- kload8 a ;; sum_from n (a + 1) (acc + b)
  end.
Definition sum (addr len : Z) : K Z := sum_from (Z.to_nat len) addr 0.

(** [n]: the number of structures from [mp] to [end_]. *)
Fixpoint mp_scan (n : nat) (mp end_ : Z) : K (option Z) :=
  match n with
  | O => ret None
  | S n =>
      if mp <? end_ then
        sig <- bytes_are mp [0x5f; 0x4d; 0x50; 0x5f] ;;
        ok <- (if sig : bool then c <- sum mp sizeof_mp ;; ret (c =? 0) else ret false) ;;
        if ok : bool then ret (Some mp) else mp_scan n (mp + sizeof_mp) end_
      else ret None
  end.
Definition mpsearch1 (a len : Z) : K (option Z) :=
  mp <- KADDR a ;;
  end_ <- KADDR (u32 (a + len)) ;;
  mp_scan (Z.to_nat ((end_ - mp + sizeof_mp - 1) / sizeof_mp)) mp end_.

Definition mpsearch : K (option Z) :=
  bda <- KADDR (0x40 .<< 4) ;;
  p <- kload16 (bda + 0x0E) ;;
  r <- (if negb (p =? 0) then mpsearch1 (p .<< 4) 1024
        else p <- kload16 (bda + 0x13) ;; mpsearch1 (u32 (p * 1024 - 1024)) 1024) ;;
  match r with
  | Some mp => ret (Some mp)
  | None => mpsearch1 0xF0000 0x10000
  end.

(** The table and the structure that points to it. *)
Definition mpconfig : K (option (Z * Z)) :=
  r <- mpsearch ;;
  match r with
  | None => ret None
  | Some mp =>
      physaddr <- kload32 (mp + 4) ;;
      type <- kload8 (mp + 11) ;;
      if (physaddr =? 0) || negb (type =? 0) then
        cprintf "SMP: Default configurations not implemented\n" [] ;; ret None
      else
        conf <- KADDR physaddr ;;
        sig <- bytes_are conf [0x50; 0x43; 0x4d; 0x50] ;;
        if negb sig then cprintf "SMP: Incorrect MP configuration table signature\n" [] ;; ret None
        else
          length <- kload16 (conf + 4) ;;
          c <- sum conf length ;;
          if negb (c =? 0) then cprintf "SMP: Bad MP configuration checksum\n" [] ;; ret None
          else
            version <- kload8 (conf + 6) ;;
            if negb (version =? 1) && negb (version =? 4) then
              cprintf "SMP: Unsupported MP version %d\n" [VInt version] ;; ret None
            else
              xlength <- kload16 (conf + 40) ;;
              x <- sum (conf + length) xlength ;;
              xchecksum <- kload8 (conf + 42) ;;
              if negb ((x + xchecksum) .& 0xff =? 0) then
                cprintf "SMP: Bad MP configuration extended checksum\n" [] ;; ret None
              else ret (Some (mp, conf))
  end.

(** An element of [cpus]; there is none beyond the array. *)
Definition upd_cpu (i : Z) (f : CpuInfo -> CpuInfo) : K unit := fun s =>
  if (0 <=? i) && (i <? NCPU) then Ret tt (set_cpus (<[i := f (cpu_of s i)]> (cpus s)) s) else Fault s.

(** The case of a processor. *)
Definition mp_proc (p : Z) (v : mpvars) : K mpvars :=
  flags <- kload8 (p + 3) ;;
  let v := if has flags MPPROC_BOOT then mkMp (ncpu v) (ismp v) (ncpu v) (lapicaddr v) else v in
  if ncpu v <? NCPU then
    upd_cpu (ncpu v) (set_cpu_id (ncpu v)) ;;
    ret (mkMp (bootcpu v) (ismp v) (ncpu v + 1) (lapicaddr v))
  else
    apicid <- kload8 (p + 1) ;;
    cprintf "SMP: too many CPUs, CPU %d disabled\n" [VInt apicid] ;;
    ret v.

(** [n]: the entries that are left. *)
Fixpoint mp_entries (n : nat) (p : Z) (v : mpvars) : K mpvars :=
  match n with
  | O => ret v
  | S n =>
      type <- kload8 p ;;
      if type =? MPPROC then v <- mp_proc p v ;; mp_entries n (p + sizeof_mpproc) v
      else if (type =? MPBUS) || (type =? MPIOAPIC) || (type =? MPIOINTR) || (type =? MPLINTR)
      then mp_entries n (p + 8) v
      else
        cprintf "mpinit: unknown config type %x\n" [VInt type] ;;
        ret (mkMp (bootcpu v) false (ncpu v) (lapicaddr v))
  end.

(** [imcr]: what port 0x23 returns. *)
Definition mp_init (imcr : Z) (v : mpvars) : K mpvars :=
  let v := mkMp 0 (ismp v) (ncpu v) (lapicaddr v) in
  r <- mpconfig ;;
  match r with
  | None => ret v
  | Some (mp, conf) =>
      lapicaddr <- kload32 (conf + 36) ;;
      entry <- kload16 (conf + 34) ;;
      v <- mp_entries (Z.to_nat entry) (conf + 44) (mkMp (bootcpu v) true (ncpu v) lapicaddr) ;;
      upd_cpu (bootcpu v) (set_cpu_status CPU_STARTED) ;;
      if negb (ismp v) then
        cprintf "SMP: configuration not found, SMP disabled\n" [] ;;
        ret (mkMp (bootcpu v) (ismp v) 1 0)
      else
        id <- gets (fun s => cpu_id (cpu_of s (bootcpu v))) ;;
        cprintf "SMP: CPU %d found %d CPU(s)\n" [VInt id; VInt (ncpu v)] ;;
        imcrp <- kload8 (mp + 12) ;;
        (if negb (imcrp =? 0) then
           cprintf "SMP: Setting IMCR to switch from PIC mode to symmetric I/O mode\n" [] ;;
           emit (EOutb 0x22 0x70) ;;
           emit (EOutb 0x23 (u8 (imcr .| 1)))
         else ret tt) ;;
        ret v
  end.

(** ** What the tables say, as functions of memory *)

Definition MP_SIG : list Z := [0x5f; 0x4d; 0x50; 0x5f].
Definition PCMP_SIG : list Z := [0x50; 0x43; 0x4d; 0x50].

Definition sum_bytes (m : bytemem) (a n : Z) : Z := u8 (foldr Z.add 0 (map (load8 m) (range a (Z.to_nat n)))).
(** A floating pointer structure at [p], and a configuration table at [c]. *)
Definition mp_valid (m : bytemem) (p : Z) : bool := match_bytes m p MP_SIG && (sum_bytes m p sizeof_mp =? 0).
(** Where the search looks: the memory has [n] pages, and every 16 bytes of the first KB
    of the extended BIOS data area (or of the last KB of base memory) and then of the
    BIOS from 0xF0000 on may hold the structure; the first valid one counts.  Both ends of
    an area must be within memory. *)
Definition has_page (n a : Z) : bool := a / 4096 <? n.
Definition mp_area (a len : Z) : list Z := map (fun k => a + 16 * k) (seqZ 0 (len / 16)).
Definition ebda_base (m : bytemem) : Z :=
  if mload16 m 0x40E =? 0 then u32 (mload16 m 0x413 * 1024 - 1024) else 16 * mload16 m 0x40E.

Inductive mp_place := MpOutside | MpNowhere | MpAt (p : Z).
Definition search_area (n : Z) (m : bytemem) (a len : Z) : mp_place :=
  if has_page n a && has_page n (a + len) then
    match find (mp_valid m) (mp_area a len) with Some p => MpAt p | None => MpNowhere end
  else MpOutside.
Definition search_spec (n : Z) (m : bytemem) : mp_place :=
  if negb (has_page n 0x400) then MpOutside
  else match search_area n m (ebda_base m) 1024 with
       | MpNowhere => search_area n m 0xF0000 0x10000
       | r => r
       end.

(** What a table at [c] must satisfy, in this order, and the message when it does not. *)
Definition conf_checks (m : bytemem) (c : Z) : list (bool * kevent) :=
  [(match_bytes m c PCMP_SIG, EPrintf "SMP: Incorrect MP configuration table signature\n" []);
   (sum_bytes m c (mload16 m (c + 4)) =? 0, EPrintf "SMP: Bad MP configuration checksum\n" []);
   ((load8 m (c + 6) =? 1) || (load8 m (c + 6) =? 4), EPrintf "SMP: Unsupported MP version %d\n" [VInt (load8 m (c + 6))]);
   ((sum_bytes m (c + mload16 m (c + 4)) (mload16 m (c + 40)) + load8 m (c + 42)) .& 0xff =? 0,
     EPrintf "SMP: Bad MP configuration extended checksum\n" [])].

(** The table: an address outside of memory; none, with what is printed; or the
    structure and the table, by their physical addresses. *)
Inductive mp_answer := AnsOutside | AnsNone (msgs : list kevent) | AnsTable (p c : Z).
Definition conf_spec (n : Z) (m : bytemem) : mp_answer :=
  match search_spec n m with
  | MpOutside => AnsOutside
  | MpNowhere => AnsNone []
  | MpAt p =>
      let c := load32 m (p + 4) in
      if (c =? 0) || negb (load8 m (p + 11) =? 0) then AnsNone [EPrintf "SMP: Default configurations not implemented\n" []]
      else if negb (has_page n c) then AnsOutside
      else match find (fun x => negb x.1) (conf_checks m c) with
           | Some x => AnsNone [x.2]
           | None => AnsTable p c
           end
  end.

Lemma find_area m a len p : 0 <= a -> find (mp_valid m) (mp_area a len) = Some p -> 0 <= p.
Proof.
  intros Ha [Hin _]%find_some. apply list_elem_of_In, list_elem_of_fmap in Hin as (k & -> & Hk%elem_of_seqZ). lia.
Qed.
Lemma search_area_nonneg n m a len p : 0 <= a -> search_area n m a len = MpAt p -> 0 <= p.
Proof.
  intros Ha. unfold search_area. destruct (_ && _); [|done]. destruct (find _ _) eqn:E; [|done]. intros [= <-]. by eapply find_area.
Qed.
Lemma search_spec_nonneg n m p : mem_ok m -> search_spec n m = MpAt p -> 0 <= p.
Proof.
  intros Hok. unfold search_spec. destruct (negb _); [done|].
  assert (He : 0 <= ebda_base m).
  { unfold ebda_base. pose proof (mload16_range m 0x40E Hok). pose proof (u32_range (mload16 m 0x413 * 1024 - 1024)). destruct (_ =? 0); lia. }
  destruct (search_area n m (ebda_base m) 1024) eqn:E; [done| |].
  - by apply search_area_nonneg.
  - intros [= <-]. by eapply search_area_nonneg.
Qed.

(** The processors (local APIC id and flags) that [n] entries from [p] on name, up to
    the first entry of an unknown type, and whether there is none such. *)
Fixpoint mp_table (m : bytemem) (n : nat) (p : Z) : list (Z * Z) * bool :=
  match n with
  | O => ([], true)
  | S n =>
      if load8 m p =? MPPROC then
        let '(l, known) := mp_table m n (p + sizeof_mpproc) in ((load8 m (p + 1), load8 m (p + 3)) :: l, known)
      else if (0 <? load8 m p) && (load8 m p <=? 4) then mp_table m n (p + 8)
      else ([], false)
  end.

(** The index of the last of the processors [i], [i + 1], ... that is marked as the
    boot processor, [b] if none is; the ninth and later ones count as [NCPU]. *)
Fixpoint boot_from (b i : Z) (l : list (Z * Z)) : Z :=
  match l with
  | [] => b
  | (_, flags) :: l => boot_from (if has flags MPPROC_BOOT then i else b) (Z.min NCPU (i + 1)) l
  end.

(** ** The search *)

Lemma sum_from_eq n a acc s : KERNBASE <= a ->
  sum_from n a acc s = Ret (u8 (acc + foldr Z.add 0 (map (load8 (mem s)) (range (a - KERNBASE) n)))) s.
Proof.
  revert a acc. induction n as [|n IH]; intros a acc Ha; cbn [sum_from].
  - unfold range. simpl. by rewrite Z.add_0_r.
  - rewrite (bind_ret _ _ _ _ _ (kload8_eq a s Ha)), IH by lia. unfold range.
    rewrite (seqZ_cons (a - KERNBASE)) by lia. cbn [map foldr]. do 2 f_equal.
    replace (Z.pred (Z.of_nat (S n))) with (Z.of_nat n) by lia.
    replace (Z.succ (a - KERNBASE)) with (a + 1 - KERNBASE) by lia. lia.
Qed.
Lemma sum_eq a n s : KERNBASE <= a -> sum a n s = Ret (sum_bytes (mem s) (a - KERNBASE) n) s.
Proof. intros Ha. unfold sum. by rewrite sum_from_eq. Qed.

(** A physical address that KADDR accepts. *)
Lemma KADDR_in_memory a s : 0 <= a -> npages s <= 0x10000 ->
  KADDR a s = if has_page (npages s) a then Ret (KERNBASE + a) s else panic s.
Proof.
  intros Ha Hm. unfold has_page. assert (E : PGNUM a = a / 4096) by apply PGNUM_div.
  destruct (Z.ltb_spec (a / 4096) (npages s)); [apply KADDR_mem; lia|].
  unfold KADDR. by replace (PGNUM a >=? npages s) with true by lia.
Qed.

(** The lowest of the valid structures. *)
Lemma mp_scan_eq n a end_ s : 0 <= a -> (n = O \/ KERNBASE + a + 16 * (Z.of_nat n - 1) < end_) ->
  mp_scan n (KERNBASE + a) end_ s =
    Ret (option_map (Z.add KERNBASE) (find (mp_valid (mem s)) (map (fun k => a + 16 * k) (seqZ 0 (Z.of_nat n))))) s.
Proof.
  revert a. induction n as [|n IH]; intros a Ha Hn; [done|]. cbn [mp_scan].
  replace (KERNBASE + a <? end_) with true by lia. rewrite (bind_ret _ _ _ _ _ (bytes_are_eq (KERNBASE + a) _ s ltac:(lia))).
  replace (KERNBASE + a - KERNBASE) with a by lia.
  assert (Hok : (if match_bytes (mem s) a MP_SIG then c <- sum (KERNBASE + a) sizeof_mp ;; ret (c =? 0) else ret false) s
    = Ret (mp_valid (mem s) a) s).
  { unfold mp_valid. destruct (match_bytes _ _ _); [|done]. rewrite (bind_ret _ _ _ _ _ (sum_eq (KERNBASE + a) sizeof_mp s ltac:(lia))).
    by replace (KERNBASE + a - KERNBASE) with a by lia. }
  rewrite (bind_ret _ _ _ _ _ Hok). rewrite (seqZ_cons 0) by lia. cbn [map find]. rewrite Z.mul_0_r, Z.add_0_r.
  destruct (mp_valid (mem s) a); [done|]. replace (KERNBASE + a + sizeof_mp) with (KERNBASE + (a + 16)) by (unfold sizeof_mp; lia).
  rewrite IH by lia. replace (Z.pred (Z.of_nat (S n))) with (Z.of_nat n) by lia. do 3 f_equal.
  rewrite <- (fmap_add_seqZ 1 0). rewrite <- list_fmap_compose. apply list_fmap_ext. intros i x _. simpl. lia.
Qed.

Lemma mpsearch1_eq a len s : 0 <= a < 0x100000000 -> 0 <= len <= 0x10000 -> len mod 16 = 0 -> npages s <= 0x10000 ->
  mpsearch1 a len s = match search_area (npages s) (mem s) a len with
    | MpOutside => panic s
    | MpNowhere => Ret None s
    | MpAt p => Ret (Some (KERNBASE + p)) s
    end.
Proof.
  intros Ha Hl Hl16 Hm. unfold mpsearch1, search_area. pose proof (KADDR_in_memory a s ltac:(lia) Hm) as H.
  destruct (has_page (npages s) a) eqn:E1; [|unfold bind; by rewrite H]. cbn [andb]. rewrite (bind_ret _ _ _ _ _ H).
  assert (Hal : a + len < 0x100000000) by (unfold has_page in E1; lia). rewrite u32_small by lia.
  pose proof (KADDR_in_memory (a + len) s ltac:(lia) Hm) as H2.
  destruct (has_page (npages s) (a + len)); [|unfold bind; by rewrite H2]. rewrite (bind_ret _ _ _ _ _ H2). unfold sizeof_mp.
  replace ((KERNBASE + (a + len) - (KERNBASE + a) + 16 - 1) / 16) with (len / 16) by lia.
  rewrite mp_scan_eq by lia. rewrite Z2Nat.id by lia. unfold mp_area. by destruct (find _ _).
Qed.

Lemma mpsearch_eq s : mem_ok (mem s) -> npages s <= 0x10000 ->
  mpsearch s = match search_spec (npages s) (mem s) with
    | MpOutside => panic s
    | MpNowhere => Ret None s
    | MpAt p => Ret (Some (KERNBASE + p)) s
    end.
Proof.
  intros Hok Hm. unfold mpsearch, search_spec. change (0x40 .<< 4) with 0x400. pose proof (KADDR_in_memory 0x400 s ltac:(lia) Hm) as H.
  destruct (has_page (npages s) 0x400); [|unfold bind; by rewrite H]. cbn [negb].
  rewrite (bind_ret _ _ _ _ _ H), (bind_ret _ _ _ _ _ (kload16_eq (KERNBASE + 0x400 + 0x0E) s ltac:(lia))).
  change (KERNBASE + 0x400 + 0x0E - KERNBASE) with 0x40E. unfold ebda_base.
  pose proof (mload16_range (mem s) 0x40E Hok) as Hp. set (p := mload16 (mem s) 0x40E) in *.
  assert (Hgo : forall base, 0 <= base < 0x100000000 ->
    (r <- mpsearch1 base 1024 ;; match r with Some mp => ret (Some mp) | None => mpsearch1 0xF0000 0x10000 end) s =
    match match search_area (npages s) (mem s) base 1024 with
          | MpNowhere => search_area (npages s) (mem s) 0xF0000 0x10000 | r => r end with
    | MpOutside => panic s | MpNowhere => Ret None s | MpAt p => Ret (Some (KERNBASE + p)) s end).
  { intros base Hb. pose proof (mpsearch1_eq base 1024 s Hb ltac:(lia) eq_refl Hm) as H1.
    destruct (search_area (npages s) (mem s) base 1024); [unfold bind; by rewrite H1| |by rewrite (bind_ret _ _ _ _ _ H1)].
    rewrite (bind_ret _ _ _ _ _ H1). by apply mpsearch1_eq. }
  destruct (p =? 0); cbn [negb]; cbv iota.
  - rewrite bind_assoc, (bind_ret _ _ _ _ _ (kload16_eq (KERNBASE + 0x400 + 0x13) s ltac:(lia))). apply Hgo, u32_range.
  - assert (Hsh : p .<< 4 = 16 * p) by (rewrite Z.shiftl_mul_pow2 by lia; lia). rewrite Hsh. apply Hgo. lia.
Qed.

(** ** The table *)

Lemma mpconfig_eq s : mem_ok (mem s) -> npages s <= 0x10000 ->
  mpconfig s = match conf_spec (npages s) (mem s) with
    | AnsOutside => panic s
    | AnsNone msgs => Ret None (set_trace (trace s ++ msgs) s)
    | AnsTable p c => Ret (Some (KERNBASE + p, KERNBASE + c)) s
    end.
Proof.
  intros Hok Hm. unfold mpconfig, conf_spec. pose proof (mpsearch_eq s Hok Hm) as H.
  destruct (search_spec (npages s) (mem s)) as [| |p] eqn:Es.
  { unfold bind. by rewrite H. }
  { rewrite (bind_ret _ _ _ _ _ H). rewrite app_nil_r. by destruct s. }
  pose proof (search_spec_nonneg _ _ _ Hok Es) as Hp0.
  rewrite (bind_ret _ _ _ _ _ H), (bind_ret _ _ _ _ _ (kload32_eq (KERNBASE + p + 4) s ltac:(lia))),
    (bind_ret _ _ _ _ _ (kload8_eq (KERNBASE + p + 11) s ltac:(lia))).
  replace (KERNBASE + p + 4 - KERNBASE) with (p + 4) by lia. replace (KERNBASE + p + 11 - KERNBASE) with (p + 11) by lia.
  pose proof (load32_nonneg (mem s) (p + 4) Hok) as Hphys. set (c := load32 (mem s) (p + 4)) in *.
  destruct (_ || _); [done|]. pose proof (KADDR_in_memory c s Hphys Hm) as Hk.
  destruct (has_page (npages s) c); [|unfold bind; by rewrite Hk]. cbn [negb]. rewrite (bind_ret _ _ _ _ _ Hk).
  rewrite (bind_ret _ _ _ _ _ (bytes_are_eq (KERNBASE + c) _ s ltac:(lia))). replace (KERNBASE + c - KERNBASE) with c by lia.
  unfold conf_checks. fold PCMP_SIG. cbn [find fst].
  destruct (match_bytes (mem s) c PCMP_SIG); cbn [negb]; [|done].
  rewrite (bind_ret _ _ _ _ _ (kload16_eq (KERNBASE + c + 4) s ltac:(lia))), (bind_ret _ _ _ _ _ (sum_eq (KERNBASE + c) _ s ltac:(lia))).
  replace (KERNBASE + c - KERNBASE) with c by lia. replace (KERNBASE + c + 4 - KERNBASE) with (c + 4) by lia.
  pose proof (mload16_range (mem s) (c + 4) Hok) as Hlen. destruct (sum_bytes _ _ _ =? 0); cbn [negb]; [|done].
  rewrite (bind_ret _ _ _ _ _ (kload8_eq (KERNBASE + c + 6) s ltac:(lia))). replace (KERNBASE + c + 6 - KERNBASE) with (c + 6) by lia.
  rewrite <- negb_orb. destruct (_ || _); cbn [negb]; [|done].
  rewrite (bind_ret _ _ _ _ _ (kload16_eq (KERNBASE + c + 40) s ltac:(lia))), (bind_ret _ _ _ _ _ (sum_eq (KERNBASE + c + mload16 (mem s) (c + 4)) _ s ltac:(lia))),
    (bind_ret _ _ _ _ _ (kload8_eq (KERNBASE + c + 42) s ltac:(lia))).
  replace (KERNBASE + c + 40 - KERNBASE) with (c + 40) by lia. replace (KERNBASE + c + 42 - KERNBASE) with (c + 42) by lia.
  replace (KERNBASE + c + mload16 (mem s) (c + 4) - KERNBASE) with (c + mload16 (mem s) (c + 4)) by lia.
  by destruct (_ .& 0xff =? 0).
Qed.

(** ** The processors *)

Definition is_printf (e : kevent) : Prop := match e with EPrintf _ _ => True | _ => False end.

(** CPU [k] after the entries: numbered if there are more than [k] processors; the
    messages are the only other effect. *)
Definition numbered (n : Z) (s s' : kstate) : Prop :=
  (exists cs t, s' = set_trace (trace s ++ t) (set_cpus cs s) /\ Forall is_printf t) /\
  forall k, cpu_of s' k = if decide (0 <= k < n) then set_cpu_id k (cpu_of s k) else cpu_of s k.

Lemma numbered_mem n s s' : numbered n s s' -> mem s' = mem s.
Proof. by intros [(cs & t & -> & _) _]. Qed.

Lemma numbered_printf n s s' f l : numbered n s s' -> exists s'', cprintf f l s' = Ret tt s'' /\ numbered n s s''.
Proof.
  intros [(cs & t & -> & Ht) H]. eexists. split; [reflexivity|]. split; [|exact H].
  exists cs, (t ++ [EPrintf f l]). cbn [trace set_trace]. rewrite app_assoc. split; [done|]. apply Forall_app. split; [done|by constructor].
Qed.

Lemma numbered_next n s s' : 0 <= n < NCPU -> numbered n s s' ->
  exists s'', upd_cpu n (set_cpu_id n) s' = Ret tt s'' /\ numbered (n + 1) s s''.
Proof.
  intros Hn [(cs & t & -> & Ht) H]. unfold upd_cpu. replace ((0 <=? n) && (n <? NCPU)) with true by lia. eexists. split; [done|].
  split; [by eexists _, t|]. intros k. unfold cpu_of at 1. cbn [cpus set_cpus].
  destruct (decide (k = n)) as [->|Hkn].
  - rewrite lookup_insert_eq. cbn [default]. rewrite decide_True by lia. rewrite H, decide_False by lia. done.
  - rewrite lookup_insert_ne by done. change (default cpu_zero _) with (cpu_of (set_trace (trace s ++ t) (set_cpus cs s)) k).
    rewrite H. repeat case_decide; lia || done.
Qed.

Lemma mp_proc_ok p v s s' :
  KERNBASE <= p -> 0 <= ncpu v <= NCPU -> numbered (ncpu v) s s' ->
  let n' := Z.min NCPU (ncpu v + 1) in
  exists s'', mp_proc p v s' =
      Ret (mkMp (if has (load8 (mem s) (p - KERNBASE + 3)) MPPROC_BOOT then ncpu v else bootcpu v) (ismp v) n' (lapicaddr v)) s'' /\
    numbered n' s s''.
Proof.
  intros Hp Hv Hnum n'. unfold mp_proc. rewrite (bind_ret _ _ _ _ _ (kload8_eq (p + 3) s' ltac:(lia))), (numbered_mem _ _ _ Hnum).
  replace (p + 3 - KERNBASE) with (p - KERNBASE + 3) by lia. cbv zeta.
  set (v1 := if has _ MPPROC_BOOT then mkMp (ncpu v) (ismp v) (ncpu v) (lapicaddr v) else v).
  assert (E : v1 = mkMp (if has (load8 (mem s) (p - KERNBASE + 3)) MPPROC_BOOT then ncpu v else bootcpu v) (ismp v) (ncpu v) (lapicaddr v)).
  { unfold v1. destruct (has _ _); by destruct v. }
  rewrite E. cbn [ncpu bootcpu ismp lapicaddr]. destruct (Z.ltb_spec (ncpu v) NCPU) as [Hlt|Hge].
  - destruct (numbered_next (ncpu v) s s') as (s2 & H2 & Hn2); [lia|done|]. rewrite (bind_ret _ _ _ _ _ H2).
    exists s2. unfold n'. rewrite Z.min_r by lia. done.
  - rewrite (bind_ret _ _ _ _ _ (kload8_eq (p + 1) s' ltac:(lia))). unfold n'. rewrite Z.min_l by lia.
    replace (ncpu v) with NCPU in * by lia. destruct (numbered_printf NCPU s s' "SMP: too many CPUs, CPU %d disabled\n" [VInt (load8 (mem s') (p + 1 - KERNBASE))] Hnum) as (s2 & H2 & Hn2).
    rewrite (bind_ret _ _ _ _ _ H2). by exists s2.
Qed.

Lemma mp_entries_ok n p v s s' :
  KERNBASE <= p -> 0 <= ncpu v <= NCPU -> numbered (ncpu v) s s' ->
  let '(l, known) := mp_table (mem s) n (p - KERNBASE) in
  let n' := Z.min NCPU (ncpu v + Z.of_nat (length l)) in
  exists s'', mp_entries n p v s' = Ret (mkMp (boot_from (bootcpu v) (ncpu v) l) (known && ismp v) n' (lapicaddr v)) s'' /\
    numbered n' s s''.
Proof.
  revert p v s'. induction n as [|n IH]; intros p v s' Hp Hv Hnum; cbn [mp_table mp_entries].
  { exists s'. cbn [length]. rewrite Z.add_0_r, Z.min_r by lia. split; [by destruct v|done]. }
  rewrite (bind_ret _ _ _ _ _ (kload8_eq p s' Hp)), (numbered_mem _ _ _ Hnum).
  set (ty := load8 (mem s) (p - KERNBASE)). destruct (ty =? MPPROC).
  - destruct (mp_proc_ok p v s s' Hp Hv Hnum) as (s1 & H1 & Hn1). rewrite (bind_ret _ _ _ _ _ H1).
    set (v1 := mkMp _ _ _ _) in *. pose proof (IH (p + sizeof_mpproc) v1 s1) as IH1. unfold sizeof_mpproc in *.
    replace (p + 20 - KERNBASE) with (p - KERNBASE + 20) in IH1 by lia.
    destruct (mp_table (mem s) n (p - KERNBASE + 20)) as [l known]. cbn [ncpu v1 length boot_from bootcpu ismp lapicaddr] in IH1 |- *.
    destruct IH1 as (s2 & H2 & Hn2); [lia|lia|done|]. exists s2.
    replace (NCPU `min` (ncpu v + Z.of_nat (S (length l)))) with (NCPU `min` (NCPU `min` (ncpu v + 1) + Z.of_nat (length l))) by lia.
    done.
  - assert (Hty : ((ty =? MPBUS) || (ty =? MPIOAPIC) || (ty =? MPIOINTR) || (ty =? MPLINTR)) = ((0 <? ty) && (ty <=? 4))).
    { unfold MPBUS, MPIOAPIC, MPIOINTR, MPLINTR. lia. }
    rewrite Hty. destruct ((0 <? ty) && (ty <=? 4)).
    + pose proof (IH (p + 8) v s') as IH1. replace (p + 8 - KERNBASE) with (p - KERNBASE + 8) in IH1 by lia. apply IH1; [lia|done|done].
    + destruct (numbered_printf _ s s' "mpinit: unknown config type %x\n" [VInt ty] Hnum) as (s2 & H2 & Hn2).
      rewrite (bind_ret _ _ _ _ _ H2). exists s2. cbn [length boot_from andb]. by rewrite Z.add_0_r, Z.min_r by lia.
Qed.

(** ** mp_init *)

(** The table at [c]: its processors and whether every entry is of a known type. *)
Definition conf_procs (m : bytemem) (c : Z) : list (Z * Z) * bool := mp_table m (Z.to_nat (mload16 m (c + 34))) (c + 44).

(** CPU [k] once the table has been read. *)
Definition cpu_found (n b k : Z) (c : CpuInfo) : CpuInfo :=
  let c := if decide (0 <= k < n) then set_cpu_id k c else c in
  if decide (k = b) then set_cpu_status CPU_STARTED c else c.

(** What mp_init reports at the end, and the interrupt mode it then sets. *)
Definition mp_report (m : bytemem) (p imcr : Z) (known : bool) (id n : Z) : list kevent :=
  if known then
    EPrintf "SMP: CPU %d found %d CPU(s)\n" [VInt id; VInt n] ::
    (if load8 m (p + 12) =? 0 then []
     else [EPrintf "SMP: Setting IMCR to switch from PIC mode to symmetric I/O mode\n" []; EOutb 0x22 0x70; EOutb 0x23 (u8 (imcr .| 1))])
  else [EPrintf "SMP: configuration not found, SMP disabled\n" []].

Lemma conf_spec_nonneg n m p c : mem_ok m -> conf_spec n m = AnsTable p c -> 0 <= p /\ 0 <= c.
Proof.
  intros Hok. unfold conf_spec. destruct (search_spec n m) eqn:E; try done. destruct (_ || _); [done|]. destruct (negb _); [done|].
  destruct (find _ _); [done|]. intros [= <- <-]. split; [by eapply search_spec_nonneg|by apply load32_nonneg].
Qed.

(** The boot CPU is marked. *)
Lemma started_numbered n b s s2 : numbered n s s2 ->
  exists cs t, set_cpus (<[b := set_cpu_status CPU_STARTED (cpu_of s2 b)]> (cpus s2)) s2 = set_trace (trace s ++ t) (set_cpus cs s) /\
    Forall is_printf t /\ forall k, cpu_of (set_cpus cs s) k = cpu_found n b k (cpu_of s k).
Proof.
  intros [(cs & t & -> & Ht) Hcpu]. set (s1 := set_trace _ _) in *. exists (<[b := set_cpu_status CPU_STARTED (cpu_of s1 b)]> cs), t.
  split; [reflexivity|]. split; [done|]. intros k. unfold cpu_of at 1, cpu_found. cbn [cpus set_cpus set_trace].
  destruct (decide (k = b)) as [->|]; [rewrite lookup_insert_eq; cbn [default]; by rewrite Hcpu|].
  rewrite lookup_insert_ne by done. apply Hcpu.
Qed.

(** The last part of mp_init. *)
Lemma mp_report_ok m p imcr known b n la cs t id s :
  0 <= p -> m = mem s -> id = cpu_id (cpu_of (set_cpus cs s) b) ->
  (if negb known then
     cprintf "SMP: configuration not found, SMP disabled\n" [] ;; ret (mkMp b known 1 0)
   else
     id <- gets (fun s => cpu_id (cpu_of s b)) ;;
     cprintf "SMP: CPU %d found %d CPU(s)\n" [VInt id; VInt n] ;;
     imcrp <- kload8 (KERNBASE + p + 12) ;;
     (if negb (imcrp =? 0) then
        cprintf "SMP: Setting IMCR to switch from PIC mode to symmetric I/O mode\n" [] ;;
        emit (EOutb 0x22 0x70) ;;
        emit (EOutb 0x23 (u8 (imcr .| 1)))
      else ret tt) ;;
     ret (mkMp b known n la)) (set_trace (trace s ++ t) (set_cpus cs s)) =
  Ret (if known then mkMp b true n la else mkMp b false 1 0)
    (set_trace (trace s ++ t ++ mp_report m p imcr known id n) (set_cpus cs s)).
Proof.
  intros Hp -> ->. unfold mp_report. destruct known; cbn [negb].
  2: { unfold cprintf, emit, ret. kpure. cbn [trace set_trace]. by rewrite app_assoc. }
  unfold cprintf at 1, emit at 1. kpure. cbn [trace set_trace]. 
  rewrite (bind_ret _ _ _ _ _ (kload8_eq (KERNBASE + p + 12) _ ltac:(lia))). cbn [mem set_trace set_cpus].
  replace (KERNBASE + p + 12 - KERNBASE) with (p + 12) by lia. change (cpu_of (set_trace _ (set_cpus cs s)) b) with (cpu_of (set_cpus cs s) b).
  destruct (load8 (mem s) (p + 12) =? 0); cbn [negb]; unfold cprintf, emit, ret; kpure; cbn [trace set_trace].
  - by rewrite <- app_assoc.
  - by rewrite <- !app_assoc.
Qed.

(** C11: On every memory, mp_init does what [conf_spec] says of it.  It panics exactly when
    an area to be searched or the table lies outside of memory.  It leaves a machine
    without other CPUs when there is no structure in the extended BIOS data area (or the end
    of base memory), searched first, nor in the BIOS, or when its table fails a check, the
    first of which is reported.  Otherwise it numbers the first eight of the table's
    processors; their number, the boot CPU and the address of the APIC are those of the
    table, unless an entry is of an unknown type, where it falls back to one CPU without
    APIC; the boot CPU is started, and the interrupt mode register written when the
    structure asks for it.  When the boot processor is the ninth or a later one the pointer
    to it leaves the array.  Nothing but [cpus] and the trace changes. *)
Theorem mp_init_correct imcr s : mem_ok (mem s) -> npages s <= 0x10000 ->
  match conf_spec (npages s) (mem s) with
  | AnsOutside => mp_init imcr mp_start s = panic s
  | AnsNone msgs => mp_init imcr mp_start s = Ret mp_start (set_trace (trace s ++ msgs) s)
  | AnsTable p c =>
      let '(l, known) := conf_procs (mem s) c in
      let n := Z.min NCPU (Z.of_nat (length l)) in
      let b := boot_from 0 0 l in
      if decide (0 <= b < NCPU) then exists cs t,
        let s' := set_trace (trace s ++ t ++ mp_report (mem s) p imcr known (cpu_id (cpu_found n b b (cpu_of s b))) n) (set_cpus cs s) in
        mp_init imcr mp_start s = Ret (if known then mkMp b true n (load32 (mem s) (c + 36)) else mkMp b false 1 0) s' /\
        Forall is_printf t /\
        forall k, cpu_of s' k = cpu_found n b k (cpu_of s k)
      else exists s', mp_init imcr mp_start s = Fault s'
  end.
Proof.
  intros Hok Hm. unfold mp_init. pose proof (mpconfig_eq s Hok Hm) as H. destruct (conf_spec (npages s) (mem s)) as [|msgs|p c] eqn:Ec.
  { unfold bind. by rewrite H. }
  { by rewrite (bind_ret _ _ _ _ _ H). }
  destruct (conf_spec_nonneg _ _ _ _ Hok Ec) as [Hp Hc].
  rewrite (bind_ret _ _ _ _ _ H). rewrite (bind_ret _ _ _ _ _ (kload32_eq (KERNBASE + c + 36) s ltac:(lia))),
    (bind_ret _ _ _ _ _ (kload16_eq (KERNBASE + c + 34) s ltac:(lia))).
  replace (KERNBASE + c + 36 - KERNBASE) with (c + 36) by lia. replace (KERNBASE + c + 34 - KERNBASE) with (c + 34) by lia.
  cbn [bootcpu ncpu mp_start]. set (la := load32 _ _). unfold conf_procs. set (e := Z.to_nat _).
  pose proof (mp_entries_ok e (KERNBASE + c + 44) (mkMp 0 true 0 la) s s ltac:(lia)) as He.
  replace (KERNBASE + c + 44 - KERNBASE) with (c + 44) in He by lia.
  destruct (mp_table (mem s) e (c + 44)) as [l known]. cbn [ncpu bootcpu ismp lapicaddr] in He.
  rewrite Z.add_0_l, andb_true_r in He. set (n := NCPU `min` Z.of_nat (length l)) in *. set (b := boot_from 0 0 l) in *.
  destruct He as (s2 & H2 & Hn2); [done| |].
  { split; [exists (cpus s), []; rewrite app_nil_r; by destruct s|]. intros k. by rewrite decide_False by lia. }
  rewrite (bind_ret _ _ _ _ _ H2). cbn [bootcpu ncpu ismp lapicaddr].
  assert (Hu : upd_cpu b (set_cpu_status CPU_STARTED) s2 = if decide (0 <= b < NCPU) then
    Ret tt (set_cpus (<[b := set_cpu_status CPU_STARTED (cpu_of s2 b)]> (cpus s2)) s2) else Fault s2).
  { unfold upd_cpu. case_decide; [by replace ((0 <=? b) && (b <? NCPU)) with true by lia|].
    by replace ((0 <=? b) && (b <? NCPU)) with false by lia. }
  case_decide as Hb; [|exists s2; unfold bind; by rewrite Hu].
  rewrite (bind_ret _ _ _ _ _ Hu). clear Hu. destruct (started_numbered n b s s2 Hn2) as (cs & t & E & Ht & Hk). rewrite E.
  exists cs, t. split; [|split; [done|exact Hk]]. apply mp_report_ok; [done|done|by rewrite Hk].
Qed.

(** A machine whose table names two processors, the second one the boot processor. *)
Definition demo_mp : list Z := [0x5f; 0x4d; 0x50; 0x5f; 0; 0x10; 0; 0; 1; 4; 0x90; 0; 0; 0; 0; 0].
Definition demo_conf : list Z :=
  [0x50; 0x43; 0x4d; 0x50; 84; 0; 4; 0x93] ++ replicate 26 0 ++ [2; 0; 0; 0; 0xe0; 0xfe; 0; 0; 0; 0] ++
  [0; 0; 0; 1] ++ replicate 16 0 ++ [0; 1; 0; 3] ++ replicate 16 0.
Definition demo_mem : bytemem :=
  store_bytes (store_bytes (store_bytes ∅ 0x413 [0x80; 2]) 0xF0000 demo_mp) 0x1000 demo_conf.
Definition demo_mp_state : kstate := set_mem demo_mem (zero_kstate 257).

Lemma demo_mem_ok : mem_ok demo_mem.
Proof. do 3 apply store_bytes_mem_ok. intros a. done. Qed.

Lemma demo_found : conf_spec (npages demo_mp_state) (mem demo_mp_state) = AnsTable 0xF0000 0x1000.
Proof. vm_compute. reflexivity. Qed.

Lemma demo_table : conf_procs (mem demo_mp_state) 0x1000 = ([(0, 1); (1, 3)], true) /\
  load32 (mem demo_mp_state) (0x1000 + 36) = 0xFEE00000.
Proof. split; vm_compute; reflexivity. Qed.

Lemma demo_npages : npages demo_mp_state <= 0x10000.
Proof. vm_compute. discriminate. Qed.

Lemma mp_init_correct_witness :
  (mem_ok (mem demo_mp_state) /\ npages demo_mp_state <= 0x10000) /\
  exists s', mp_init 0 mp_start demo_mp_state = Ret (mkMp 1 true 2 0xFEE00000) s' /\
    forall k, cpu_of s' k = cpu_found 2 1 k (cpu_of demo_mp_state k).
Proof.
  pose proof (demo_mem_ok : mem_ok (mem demo_mp_state)) as H1. pose proof demo_npages as H2.
  pose proof demo_found as Hf. pose proof demo_table as [E1 E2].
  revert H1 H2 Hf E1 E2. generalize demo_mp_state. intros s H1 H2 Hf E1 E2. split; [exact (conj H1 H2)|].
  pose proof (mp_init_correct 0 s H1 H2) as H. rewrite Hf, E1, E2 in H. destruct H as (cs & t & H & _ & Hk).
  eexists. split; [exact H|exact Hk].
Defined.
