(* ===== verification/Lapic.v ===== *)
(** * Interrupt controllers

    kern/lapic.c: the local APIC, a page of device registers whose writes are
    recorded in the trace; kern/picirq.c: the two 8259A; and kern/console.c's
    [cons_init], which already sets the interrupt mask.  What the registers return is given. *)
From S2P Require Import Prelude Mmu Mem Console Kstate Pmap Env Sched Syscall Trap Kbytes.

(** ** kern/lapic.c: registers, as indices of 32-bit words *)
Definition LAPIC_ID : Z := 0x0020 / 4.
Definition VER : Z := 0x0030 / 4.
Definition TPR : Z := 0x0080 / 4.
Definition EOI : Z := 0x00B0 / 4.
Definition SVR : Z := 0x00F0 / 4.
Definition ENABLE : Z := 0x00000100.
Definition ESR : Z := 0x0280 / 4.
Definition ICRLO : Z := 0x0300 / 4.
Definition INIT : Z := 0x00000500.
Definition STARTUP : Z := 0x00000600.
Definition DELIVS : Z := 0x00001000.
Definition ASSERT : Z := 0x00004000.
Definition LEVEL : Z := 0x00008000.
Definition BCAST : Z := 0x00080000.
Definition OTHERS : Z := 0x000C0000.
Definition FIXED : Z := 0x00000000.
Definition ICRHI : Z := 0x0310 / 4.
Definition TIMER : Z := 0x0320 / 4.
Definition X1 : Z := 0x0000000B.
Definition PERIODIC : Z := 0x00020000.
Definition PCINT : Z := 0x0340 / 4.
Definition LINT0 : Z := 0x0350 / 4.
Definition LINT1 : Z := 0x0360 / 4.
Definition ERROR : Z := 0x0370 / 4.
Definition MASKED : Z := 0x00010000.
Definition TICR : Z := 0x0380 / 4.
Definition TDCR : Z := 0x03E0 / 4.

(** The read of [LAPIC_ID] that follows only waits. *)
Definition lapicw (index value : Z) : K unit := emit (ELapicw index (u32 value)).

(** [while (lapic[ICRLO] & DELIVS)]: [icr] lists what the register returns. *)
Fixpoint wait_delivs (icr : list Z) : K unit :=
  match icr with
  | [] => fun s => Spin s
  | v :: icr => if has v DELIVS then wait_delivs icr else ret tt
  end.

(** The new value of [lapic].  [ver], [icr]: what the registers return. *)
Definition lapic_init (lapicaddr bootcpu ver : Z) (icr : list Z) (lapic : Z) : K Z :=
  if lapicaddr =? 0 then ret lapic
  else
    lapic <- mmio_map_region lapicaddr 4096 ;;
    lapicw SVR (ENABLE .| (IRQ_OFFSET + IRQ_SPURIOUS)) ;;
    lapicw TDCR X1 ;;
    lapicw TIMER (PERIODIC .| (IRQ_OFFSET + IRQ_TIMER)) ;;
    lapicw TICR 10000000 ;;
    c <- gets this_cpu ;;
    when (negb (c =? bootcpu)) (lapicw LINT0 MASKED) ;;
    lapicw LINT1 MASKED ;;
    when ((ver .>> 16) .& 0xFF >=? 4) (lapicw PCINT MASKED) ;;
    lapicw ERROR (IRQ_OFFSET + IRQ_ERROR) ;;
    lapicw ESR 0 ;;
    lapicw ESR 0 ;;
    lapicw EOI 0 ;;
    lapicw ICRHI 0 ;;
    lapicw ICRLO ((BCAST .| INIT) .| LEVEL) ;;
    wait_delivs icr ;;
    lapicw TPR 0 ;;
    ret lapic.

Definition cpunum (lapic id : Z) : Z := if negb (lapic =? 0) then id .>> 24 else 0.

Definition microdelay (us : Z) : K unit := ret tt.

Definition IO_RTC_LAPIC : Z := 0x70.

Definition lapic_startap (apicid addr : Z) : K unit :=
  emit (EOutb IO_RTC_LAPIC 0xF) ;;
  emit (EOutb (IO_RTC_LAPIC + 1) 0x0A) ;;
  wrv <- KADDR (0x40 .<< 4 .| 0x67) ;;
  kstore16 wrv 0 ;;
  kstore16 (wrv + 2) (addr .>> 4) ;;
  lapicw ICRHI (apicid .<< 24) ;;
  lapicw ICRLO ((INIT .| LEVEL) .| ASSERT) ;;
  microdelay 200 ;;
  lapicw ICRLO (INIT .| LEVEL) ;;
  microdelay 100 ;;
  for_each (seqZ 0 2) (fun _ =>
    lapicw ICRHI (apicid .<< 24) ;;
    lapicw ICRLO (STARTUP .| (addr .>> 12)) ;;
    microdelay 200).

Definition lapic_ipi (vector : Z) (icr : list Z) : K unit :=
  lapicw ICRLO ((OTHERS .| FIXED) .| vector) ;; wait_delivs icr.

(** ** kern/picirq.c *)

Definition IO_PIC1 : Z := 0x20.
Definition IO_PIC2 : Z := 0xA0.
Definition IRQ_SLAVE : Z := 2.

Record pics := mkPics { irq_mask_8259A : Z; didinit : bool }.
Definition pics_start : pics := mkPics (0xFFFF .& Z.lnot (1 .<< IRQ_SLAVE)) false.

Definition irq_setmask_8259A (mask : Z) (p : pics) : K pics :=
  let p := mkPics mask (didinit p) in
  if negb (didinit p) then ret p
  else
    emit (EOutb (IO_PIC1 + 1) (u8 mask)) ;;
    emit (EOutb (IO_PIC2 + 1) (u8 (mask .>> 8))) ;;
    cprintf "enabled interrupts:" [] ;;
    for_each (seqZ 0 16) (fun i => when (has (Z.lnot mask) (1 .<< i)) (cprintf " %d" [VInt i])) ;;
    cprintf "\n" [] ;;
    ret p.

Definition pic_init (p : pics) : K pics :=
  let p := mkPics (irq_mask_8259A p) true in
  emit (EOutb (IO_PIC1 + 1) 0xFF) ;;
  emit (EOutb (IO_PIC2 + 1) 0xFF) ;;
  emit (EOutb IO_PIC1 0x11) ;;
  emit (EOutb (IO_PIC1 + 1) IRQ_OFFSET) ;;
  emit (EOutb (IO_PIC1 + 1) (1 .<< IRQ_SLAVE)) ;;
  emit (EOutb (IO_PIC1 + 1) 0x3) ;;
  emit (EOutb IO_PIC2 0x11) ;;
  emit (EOutb (IO_PIC2 + 1) (IRQ_OFFSET + 8)) ;;
  emit (EOutb (IO_PIC2 + 1) IRQ_SLAVE) ;;
  emit (EOutb (IO_PIC2 + 1) 0x01) ;;
  emit (EOutb IO_PIC1 0x68) ;;
  emit (EOutb IO_PIC1 0x0a) ;;
  emit (EOutb IO_PIC2 0x68) ;;
  emit (EOutb IO_PIC2 0x0a) ;;
  if negb (irq_mask_8259A p =? 0xFFFF) then irq_setmask_8259A (irq_mask_8259A p) p else ret p.

(** ** kern/console.c *)

Definition kbd_init (p : pics) : K pics :=
  modify (fun s => set_con (kbd_intr (con s)) s) ;;
  irq_setmask_8259A (u16 (irq_mask_8259A p .& Z.lnot (1 .<< IRQ_KBD))) p.

(** [cga], [hi], [lo], [screen], [lsr0]: what [cga_init] and [serial_init] read. *)
Definition cons_init (cga : bool) (hi lo : Z) (screen : list Z) (lsr0 : Z) (p : pics) : K pics :=
  modify (fun s => set_con (cga_init cga hi lo screen (con s)) s) ;;
  p <- kbd_init p ;;
  modify (fun s => set_con (serial_init lsr0 (con s)) s) ;;
  c <- gets con ;;
  when (negb (serial_exists c)) (cprintf "Serial port does not exist!\n" []) ;;
  ret p.
