(* ===== verification/Init.v ===== *)
(** * Start-up of the kernel

    kern/init.c: the first CPU's initialization in its order, the start of the
    other CPUs, what each of them does, and the panics.  While [boot_aps] waits for
    a CPU it only reads that CPU's status, so the other CPU's part up to the write
    of the status is run in its place; Smp.v has the interleavings. *)
From S2P Require Import Prelude Mmu Mem Console Kstate Pmap PmapChecks Env Sched Syscall Trap Cstring Kbytes Mpconfig Lapic.

(** ** Panics *)

Definition vcprintf_ev (fmt : string) (ap : list varg) : K unit := emit (EPrintf fmt ap).

Definition _panic {A} (file : string) (line : Z) (fmt : string) (ap : list varg) : K A :=
  p <- gets Kstate.panicstr ;;
  (if p : bool then ret tt
   else
     modify (set_panicstr true) ;;
     c <- gets this_cpu ;;
     cprintf "kernel panic on CPU %d at %s:%d: " [VInt c; VStr file; VInt line] ;;
     vcprintf_ev fmt ap ;;
     cprintf "\n" []) ;;
  (fun s => Panic s).

Definition _warn (file : string) (line : Z) (fmt : string) (ap : list varg) : K unit :=
  cprintf "kernel warning at %s:%d: " [VStr file; VInt line] ;;
  vcprintf_ev fmt ap ;;
  cprintf "\n" [].

Section init.
(** Linker symbols, the address of [cpus[i].cpu_ts], the program that is embedded, the
    entry points of the traps, and what devices and uninitialised memory hold. *)
Context (end_ bootstack percpu_kstacks mpentry_start mpentry_end user_yield : Z).
Context (cpu_ts_addr : Z -> Z) (entry : handler -> Z).
Context (cr0 imcr ver : Z) (u1 u2 : option Z) (nvram : Z -> Z) (icr : list Z).
Context (cga : bool) (hi lo : Z) (screen : list Z) (lsr0 : Z).

(** ** The other CPUs *)

(** The variables [lapic] and [mpentry_kstack]. *)
Record smpvars := mkSmp { lapic_va : Z; mpentry_kstack : Z }.

(** [mp_main] up to the write of the status; the value is the new [lapic]. *)
Definition mp_main_setup (v : mpvars) (lapic : Z) : K Z :=
  kp <- gets kern_pgdir ;;
  pa <- PADDR kp ;;
  lcr3 pa ;;
  c <- gets this_cpu ;;
  cprintf "SMP: CPU %d starting\n" [VInt c] ;;
  lapic <- lapic_init (lapicaddr v) (bootcpu v) ver icr lapic ;;
  env_init_percpu ;;
  trap_init_percpu percpu_kstacks cpu_ts_addr ;;
  modify (upd_thiscpu (set_cpu_status CPU_STARTED)) ;;
  ret lapic.

Definition mp_main (v : mpvars) (lapic : Z) : K unit :=
  mp_main_setup v lapic ;;
  lock_kernel ;;
  sched_yield.

(** [m] run by CPU [c], which has registers of its own. *)
Definition on_cpu {A} (c : Z) (m : K A) : K A :=
  me <- gets this_cpu ;; my_cr3 <- gets cr3 ;;
  modify (set_this_cpu c) ;;
  a <- m ;;
  modify (fun s => set_cr3 my_cr3 (set_this_cpu me s)) ;;
  ret a.

Definition boot_ap (v : mpvars) (c : Z) (x : smpvars) : K smpvars :=
  me <- gets this_cpu ;;
  if c =? me then ret x
  else
    let kstack := u32 (percpu_kstacks + c * KSTKSIZE + KSTKSIZE) in
    id <- gets (fun s => cpu_id (cpu_of s c)) ;;
    lapic_startap id MPENTRY_PADDR ;;
    lapic <- on_cpu c (mp_main_setup v (lapic_va x)) ;;
    st <- gets (fun s => cpu_status (cpu_of s c)) ;;
    if st =? CPU_STARTED then ret (mkSmp lapic kstack) else (fun s => Spin s).

Fixpoint boot_ap_list (v : mpvars) (l : list Z) (x : smpvars) : K smpvars :=
  match l with
  | [] => ret x
  | c :: l => x <- boot_ap v c x ;; boot_ap_list v l x
  end.

Definition boot_aps (v : mpvars) (x : smpvars) : K smpvars :=
  code <- KADDR MPENTRY_PADDR ;;
  modify (fun s => set_mem (memmove (mem s) (code - KERNBASE) (mpentry_start - KERNBASE) (mpentry_end - mpentry_start)) s) ;;
  boot_ap_list v (seqZ 0 (ncpu v)) x.

(** ** The first CPU *)

Definition i386_init : K unit :=
  p <- cons_init cga hi lo screen lsr0 pics_start ;;
  cprintf "444544 decimal is %o octal!\n" [VInt 444544] ;;
  mem_init end_ bootstack percpu_kstacks cr0 u1 u2 nvram ;;
  env_init ;;
  trap_init entry percpu_kstacks cpu_ts_addr ;;
  v <- mp_init imcr mp_start ;;
  lapic <- lapic_init (lapicaddr v) (bootcpu v) ver icr 0 ;;
  pic_init p ;;
  lock_kernel ;;
  boot_aps v (mkSmp lapic 0) ;;
  for_each (replicate 6 user_yield) (fun binary => env_create binary ENV_TYPE_USER) ;;
  sched_yield.
End init.
