(* ===== verification/Smp.v ===== *)
(** * The start of the other CPUs, all interleavings

    kern/init.c gives every CPU its stack through one variable, [mpentry_kstack]:
    [boot_aps] writes it, starts a CPU and waits for the CPU's status; the code at
    MPENTRY_PADDR reads it; [mp_main] writes the status and waits for the big kernel
    lock, which the first CPU holds until it runs an environment.  A step is one of
    these accesses by one CPU, in any order.  Init.v has the functions themselves. *)
From stdpp Require Import functions.
From S2P Require Import Prelude Mmu Kstate.

(** Where the first CPU is. *)
Inductive boot_point :=
| BLoop (c : Z)      (** at the head of the loop of [boot_aps] *)
| BStartap (c : Z)   (** about to call [lapic_startap] *)
| BWait (c : Z)      (** waiting for the status of [c] *)
| BEnvs              (** creating the environments *)
| BRun.              (** it has released the kernel *)

(** Where another CPU is, and on which CPU's stack it runs. *)
Inductive ap_point :=
| AOff               (** not started *)
| AEntry             (** in mpentry.S, about to read [mpentry_kstack] *)
| AMain (k : Z)      (** in [mp_main], about to write its status *)
| AUp (k : Z)        (** about to take the kernel lock *)
| ASched (k : Z).    (** in [sched_yield] *)

Record smp := mkSmpState {
  kstack : option Z;         (** whose stack [mpentry_kstack] points to *)
  status : Z -> Z;           (** [cpus[c].cpu_status] *)
  klock : option Z;          (** the owner of the kernel lock *)
  boot_at : boot_point;
  ap_at : Z -> ap_point }.

Definition boot_goto (p : boot_point) (s : smp) : smp := mkSmpState (kstack s) (status s) (klock s) p (ap_at s).
Definition ap_goto (c : Z) (p : ap_point) (s : smp) : smp :=
  mkSmpState (kstack s) (status s) (klock s) (boot_at s) (<[c := p]> (ap_at s)).

Section smp.
(** The CPUs found, and the first one. *)
Context (ncpu bsp : Z).

Definition boot_step (s : smp) : option smp :=
  match boot_at s with
  | BLoop c =>
      if c <? ncpu then
        if c =? bsp then Some (boot_goto (BLoop (c + 1)) s)
        else Some (mkSmpState (Some c) (status s) (klock s) (BStartap c) (ap_at s))
      else Some (boot_goto BEnvs s)
  | BStartap c => Some (boot_goto (BWait c) (match ap_at s c with AOff => ap_goto c AEntry s | _ => s end))
  | BWait c => Some (if status s c =? CPU_STARTED then boot_goto (BLoop (c + 1)) s else s)
  | BEnvs => Some (mkSmpState (kstack s) (status s) None BRun (ap_at s))
  | BRun => None
  end.

Definition ap_step (c : Z) (s : smp) : option smp :=
  match ap_at s c with
  | AOff => None
  | AEntry => match kstack s with Some k => Some (ap_goto c (AMain k) s) | None => None end
  | AMain k => Some (mkSmpState (kstack s) (<[c := CPU_STARTED]> (status s)) (klock s) (boot_at s) (<[c := AUp k]> (ap_at s)))
  | AUp k =>
      match klock s with
      | None => Some (mkSmpState (kstack s) (status s) (Some c) (boot_at s) (<[c := ASched k]> (ap_at s)))
      | Some _ => Some s
      end
  | ASched k => None
  end.

Definition smp_step (c : Z) (s : smp) : option smp := if c =? bsp then boot_step s else ap_step c s.

Definition smp_start : smp := mkSmpState None (fun c => if c =? bsp then CPU_STARTED else CPU_UNUSED) (Some bsp) (BLoop 0) (fun _ => AOff).

Inductive smp_reachable : smp -> Prop :=
| SmpInit : smp_reachable smp_start
| SmpStep c s s' : smp_reachable s -> smp_step c s = Some s' -> smp_reachable s'.

Inductive smp_steps : smp -> smp -> Prop :=
| SmpNil s : smp_steps s s
| SmpCons c s s' s'' : smp_step c s = Some s' -> smp_steps s' s'' -> smp_steps s s''.

(** ** The invariant *)

(** The CPU has written its status. *)
Definition up (p : ap_point) : bool := match p with AUp _ | ASched _ => true | _ => false end.
Definition stack_of (p : ap_point) : option Z :=
  match p with AMain k | AUp k | ASched k => Some k | _ => None end.

(** What CPU [c] may be doing while the first one is at [b]. *)
Definition allowed (b : boot_point) (c : Z) (p : ap_point) : Prop :=
  match b with
  | BLoop n | BStartap n => if c <? n then c <> bsp -> up p = true else p = AOff
  | BWait n => if c <? n then c <> bsp -> up p = true else if c =? n then p <> AOff else p = AOff
  | BEnvs | BRun => c < ncpu -> c <> bsp -> up p = true
  end.

Record smp_inv (s : smp) : Prop := {
  si_stack c k : stack_of (ap_at s c) = Some k -> k = c;
  si_status c : c <> bsp -> status s c = CPU_STARTED <-> up (ap_at s c) = true;
  si_allowed c : 0 <= c -> allowed (boot_at s) c (ap_at s c);
  si_kstack : match boot_at s with BStartap n | BWait n => 0 <= n < ncpu /\ n <> bsp /\ kstack s = Some n | BLoop n => 0 <= n | _ => True end;
  si_out c : ~ (0 <= c < ncpu) \/ c = bsp -> ap_at s c = AOff;
  si_sched c k : ap_at s c = ASched k -> boot_at s = BRun /\ klock s = Some c;
  si_lock : boot_at s <> BRun -> klock s = Some bsp }.

Lemma ap_insert_case {A} (f : Z -> A) c p c' : (<[c := p]> f) c' = if decide (c = c') then p else f c'.
Proof. case_decide as E; [subst; apply fn_lookup_insert|by apply fn_lookup_insert_ne]. Qed.

Lemma smp_start_inv : smp_inv smp_start.
Proof.
  split; simpl; try done.
  - intros c Hc. by replace (c =? bsp) with false by lia.
  - intros c Hc. by replace (c <? 0) with false by lia.
Qed.

Context (Hbsp : 0 <= bsp < ncpu).

Lemma boot_step_inv s s' : smp_inv s -> boot_step s = Some s' -> smp_inv s'.
Proof.
  intros [H1 H2 H3 H4 H5 H6 H7] Hs. unfold boot_step in Hs.
  destruct (boot_at s) as [n|n|n| |] eqn:Eb; [| | | |done].
  - destruct (Z.ltb_spec n ncpu) as [Hn|Hn]; [destruct (Z.eqb_spec n bsp) as [->|Hnb]|]; injection Hs as <-;
      (split; simpl; [exact H1|exact H2| |try done; lia|exact H5|intros c k Hc; by destruct (H6 c k Hc)|intros _; by apply H7]).
    + intros c Hc. specialize (H3 c Hc). simpl in H3. repeat case_match; done || lia.
    + exact H3.
    + intros c Hc Hcn. specialize (H3 c Hc). simpl in H3. by replace (c <? n) with true in H3 by lia.
  - destruct H4 as (Hn & Hnb & Hk). pose proof (H3 n ltac:(lia)) as Hoff. simpl in Hoff. replace (n <? n) with false in Hoff by lia.
    rewrite Hoff in Hs. injection Hs as <-. split; simpl.
    + intros c k. rewrite ap_insert_case. case_decide; [done|apply H1].
    + intros c Hc. rewrite ap_insert_case. case_decide as E; [subst c; rewrite H2, Hoff by done; done|by apply H2].
    + intros c Hc. specialize (H3 c Hc). simpl in H3. rewrite ap_insert_case. repeat case_match; try done; try lia; subst; lia.
    + done.
    + intros c Hc. rewrite ap_insert_case. rewrite decide_False; [by apply H5|lia].
    + intros c k. rewrite ap_insert_case. case_decide; [done|]. intros Hc. by destruct (H6 c k Hc).
    + intros _. by apply H7.
  - destruct H4 as (Hn & Hnb & Hk). destruct (Z.eqb_spec (status s n) CPU_STARTED) as [Hst|Hst]; injection Hs as <-.
    2: { split; try done; rewrite Eb; done. }
    apply (H2 n Hnb) in Hst. split; simpl; [exact H1|exact H2| |lia|exact H5|intros c k Hc; by destruct (H6 c k Hc)|intros _; by apply H7].
    intros c Hc. specialize (H3 c Hc). simpl in H3. repeat case_match; try done; try lia. intros _. by replace c with n by lia.
  - injection Hs as <-. split; simpl; try done. intros c k Hc; by destruct (H6 c k Hc).
Qed.

(** A CPU whose next point is no less started than the last. *)
Lemma allowed_mono b c p q : (up p = true -> up q = true) -> p <> AOff -> q <> AOff -> allowed b c p -> allowed b c q.
Proof. unfold allowed. intros. repeat case_match; try done; auto. Qed.

Lemma ap_step_inv c s s' : c <> bsp -> smp_inv s -> ap_step c s = Some s' -> smp_inv s'.
Proof.
  intros Hcb [H1 H2 H3 H4 H5 H6 H7] Hs. unfold ap_step in Hs.
  assert (Hc : ap_at s c <> AOff -> 0 <= c < ncpu).
  { intros Hne. destruct (decide (0 <= c < ncpu)); [done|]. destruct Hne. apply H5. by left. }
  assert (Hout : ap_at s c <> AOff -> forall p c', ~ (0 <= c' < ncpu) \/ c' = bsp -> (<[c := p]> (ap_at s)) c' = AOff).
  { intros Hne p c' Hc'. specialize (Hc Hne). rewrite ap_insert_case, decide_False by lia. by apply H5. }
  assert (Hall : forall p, (up (ap_at s c) = true -> up p = true) -> ap_at s c <> AOff -> p <> AOff ->
    forall c', 0 <= c' -> allowed (boot_at s) c' ((<[c := p]> (ap_at s)) c')).
  { intros p Hu Hne Hp c' Hc'. rewrite ap_insert_case. case_decide as E; [subst c'|by apply H3].
    apply (allowed_mono _ _ (ap_at s c)); [done..|by apply H3]. }
  assert (Hsch : forall p, (forall k, p <> ASched k) -> forall c' k, (<[c := p]> (ap_at s)) c' = ASched k -> boot_at s = BRun /\ klock s = Some c').
  { intros p Hp c' k. rewrite ap_insert_case. case_decide; [intros E; by apply Hp in E|apply H6]. }
  destruct (ap_at s c) as [| |k|k|k] eqn:Ea; [done| | | |done]; specialize (Hc ltac:(done)).
  - destruct (kstack s) as [k|] eqn:Ek; [|done]. injection Hs as <-.
    assert (Hkc : k = c).
    { specialize (H3 c ltac:(lia)). rewrite Ea in H3. unfold allowed in H3. simpl in H3. destruct (boot_at s) as [n|n|n| |].
      1-2: destruct (c <? n); [by specialize (H3 Hcb)|done].
      - destruct H4 as (_ & _ & Hk). injection Hk as Hk. destruct (Z.ltb_spec c n); [by specialize (H3 Hcb)|]. destruct (Z.eqb_spec c n); [congruence|done].
      - by specialize (H3 ltac:(lia) Hcb).
      - by specialize (H3 ltac:(lia) Hcb). }
    subst k. split; simpl; [| |by apply Hall| |by apply Hout|by apply Hsch|exact H7].
    + intros c' k. rewrite ap_insert_case. case_decide; [simpl; congruence|apply H1].
    + intros c' Hc'. rewrite ap_insert_case. case_decide as E; [subst c'; rewrite H2, Ea by done; done|by apply H2].
    + by rewrite <- Ek in H4.
  - injection Hs as <-. pose proof (H1 c k) as Hk. rewrite Ea in Hk. specialize (Hk eq_refl). subst k.
    split; simpl; [| |by apply Hall|exact H4|by apply Hout|by apply Hsch|exact H7].
    + intros c' k. rewrite ap_insert_case. case_decide; [simpl; congruence|apply H1].
    + intros c' Hc'. rewrite !ap_insert_case. case_decide; [done|by apply H2].
  - pose proof (H1 c k) as Hk. rewrite Ea in Hk. specialize (Hk eq_refl). subst k.
    destruct (klock s) as [o|] eqn:El; injection Hs as <-; [split; try done; by rewrite El|].
    assert (Hrun : boot_at s = BRun) by (destruct (boot_at s); try done; by specialize (H7 ltac:(done))).
    split; simpl; [| |by apply Hall|exact H4|by apply Hout| |by rewrite Hrun].
    + intros c' k. rewrite ap_insert_case. case_decide; [simpl; congruence|apply H1].
    + intros c' Hc'. rewrite ap_insert_case. case_decide as E; [subst c'; rewrite H2, Ea by done; done|by apply H2].
    + intros c' k. rewrite ap_insert_case. case_decide as E; [by subst c'|]. intros Hc'. by destruct (H6 c' k Hc').
Qed.

Lemma smp_reachable_inv s : smp_reachable s -> smp_inv s.
Proof.
  induction 1 as [|c s s' _ IH Hs]; [apply smp_start_inv|]. unfold smp_step in Hs.
  destruct (Z.eqb_spec c bsp); [by eapply boot_step_inv|by eapply ap_step_inv].
Qed.

(** ** Progress *)

(** The steps that are left for the first CPU and the CPU it waits for. *)
Definition left_over (s : smp) : Z :=
  match boot_at s with
  | BLoop n => 10 * Z.max 0 (ncpu - n) + 9
  | BStartap n => 10 * Z.max 0 (ncpu - n) + 8
  | BWait n => 10 * Z.max 0 (ncpu - n) + match ap_at s n with AEntry => 7 | AMain _ => 6 | _ => 5 end
  | BEnvs => 1
  | BRun => 0
  end.

(** Until the first CPU runs environments, it or the CPU it waits for can make a step
    that leaves fewer. *)
Lemma smp_advance s : smp_inv s -> boot_at s <> BRun ->
  exists c s', smp_step c s = Some s' /\ left_over s' < left_over s.
Proof.
  intros [H1 H2 H3 H4 _ _ _] Hb. unfold left_over. destruct (boot_at s) as [n|n|n| |] eqn:Eb; [| | | |done].
  - exists bsp. unfold smp_step, boot_step. rewrite Z.eqb_refl, Eb.
    destruct (Z.ltb_spec n ncpu); [destruct (n =? bsp)|]; eexists; (split; [reflexivity|]); cbn [boot_at boot_goto]; lia.
  - destruct H4 as (Hn & Hnb & Hk). pose proof (H3 n ltac:(lia)) as Hoff. simpl in Hoff. replace (n <? n) with false in Hoff by lia.
    exists bsp. unfold smp_step, boot_step. rewrite Z.eqb_refl, Eb, Hoff. eexists. split; [reflexivity|].
    cbn [boot_at boot_goto ap_goto ap_at]. rewrite ap_insert_case, decide_True by done. lia.
  - destruct H4 as (Hn & Hnb & Hk). pose proof (H3 n ltac:(lia)) as Hoff. simpl in Hoff.
    replace (n <? n) with false in Hoff by lia. rewrite Z.eqb_refl in Hoff.
    assert (Hap : smp_step n s = ap_step n s) by (unfold smp_step; by replace (n =? bsp) with false by lia).
    assert (Hdone : up (ap_at s n) = true -> smp_step bsp s = Some (boot_goto (BLoop (n + 1)) s)).
    { intros Hu. apply H2 in Hu; [|done]. unfold smp_step, boot_step. by rewrite Z.eqb_refl, Eb, Hu. }
    unfold ap_step in Hap. destruct (ap_at s n) as [| |k|k|k] eqn:Ea; [done| | | |].
    + rewrite Hk in Hap. exists n. eexists. split; [exact Hap|]. cbn [boot_at ap_goto ap_at]. rewrite Eb, ap_insert_case, decide_True by done. lia.
    + exists n. eexists. split; [exact Hap|]. cbn [boot_at ap_at]. rewrite Eb, ap_insert_case, decide_True by done. lia.
    + exists bsp. eexists. split; [by apply Hdone|]. cbn [boot_at boot_goto]. lia.
    + exists bsp. eexists. split; [by apply Hdone|]. cbn [boot_at boot_goto]. lia.
  - exists bsp. unfold smp_step, boot_step. rewrite Z.eqb_refl, Eb. eexists. split; [reflexivity|]. cbn [boot_at]. lia.
Qed.

Lemma smp_finishes n s : smp_reachable s -> left_over s < Z.of_nat n ->
  exists s', smp_steps s s' /\ smp_reachable s' /\ boot_at s' = BRun.
Proof.
  revert s. induction n as [|n IH]; intros s Hr Hn.
  { unfold left_over in Hn. destruct (boot_at s); try destruct (ap_at s _); lia. }
  assert (Hdec : boot_at s = BRun \/ boot_at s <> BRun) by (destruct (boot_at s); (by left) || (by right)).
  destruct Hdec as [Hb|Hb]; [exists s; split; [constructor|done]|].
  destruct (smp_advance s (smp_reachable_inv s Hr) Hb) as (c & s1 & H1 & Hlt).
  destruct (IH s1) as (s' & Hs & Hr' & Hb'); [by eapply SmpStep|lia|]. exists s'. split; [by econstructor|done].
Qed.
End smp.

(** ** Theorems *)

(** C8: In every interleaving each CPU that [boot_aps] starts runs on its own kernel
    stack, though all of them find it through the one variable [mpentry_kstack]; no
    CPU enters the scheduler before the first one has created the environments and
    released the kernel, and two never do at a time; and by then every CPU has been started. *)
Theorem smp_start_safe ncpu bsp s : 0 <= bsp < ncpu -> smp_reachable ncpu bsp s ->
  (forall c k, stack_of (ap_at s c) = Some k -> k = c) /\
  (forall c k, ap_at s c = ASched k -> boot_at s = BRun) /\
  (forall c c' k k', ap_at s c = ASched k -> ap_at s c' = ASched k' -> c = c') /\
  (boot_at s = BEnvs \/ boot_at s = BRun -> forall c, 0 <= c < ncpu -> c <> bsp -> up (ap_at s c) = true).
Proof.
  intros Hb Hr. destruct (smp_reachable_inv ncpu bsp Hb s Hr) as [H1 _ H3 _ _ H6 _]. split; [exact H1|]. split; [|split].
  - intros c k Hc. by destruct (H6 c k Hc).
  - intros c c' k k' Hc Hc'. destruct (H6 c k Hc) as [_ E]. destruct (H6 c' k' Hc') as [_ E']. congruence.
  - intros Hrun c Hc Hcb. specialize (H3 c ltac:(lia)). destruct Hrun as [E|E]; rewrite E in H3; (apply H3; [lia|done]).
Qed.

(** C15: The start never gets stuck: from every reachable state the CPUs can reach one where
    all of them are started and the first one runs environments. *)
Theorem smp_start_completes ncpu bsp s : 0 <= bsp < ncpu -> smp_reachable ncpu bsp s ->
  exists s', smp_steps ncpu bsp s s' /\ boot_at s' = BRun /\
    forall c, 0 <= c < ncpu -> c <> bsp -> status s' c = CPU_STARTED /\ stack_of (ap_at s' c) = Some c.
Proof.
  intros Hb Hr. destruct (smp_finishes ncpu bsp Hb (Z.to_nat (left_over ncpu s + 1)) s Hr) as (s' & Hs & Hr' & Hb'); [lia|].
  exists s'. split; [done|]. split; [done|]. intros c Hc Hcb.
  destruct (smp_reachable_inv ncpu bsp Hb s' Hr') as [H1 H2 H3 _ _ _ _].
  specialize (H3 c ltac:(lia)). rewrite Hb' in H3. specialize (H3 ltac:(lia) Hcb). split; [by apply H2|].
  specialize (H1 c). destruct (ap_at s' c); try done; simpl; f_equal; by apply H1.
Qed.

(** ** Two CPUs, the other one started *)

Definition step_or (ncpu bsp : Z) (s : smp) (c : Z) : smp := default s (smp_step ncpu bsp c s).

Lemma step_or_reachable ncpu bsp l s : smp_reachable ncpu bsp s -> smp_reachable ncpu bsp (foldl (step_or ncpu bsp) s l).
Proof.
  revert s. induction l as [|c l IH]; intros s Hs; [done|]. apply IH. unfold step_or.
  destruct (smp_step ncpu bsp c s) eqn:E; [by eapply SmpStep|done].
Qed.

(** The second CPU is on its stack and has not told the first one yet. *)
Definition two_cpus : smp := foldl (step_or 2 0) (smp_start 0) [0; 0; 0; 1].

Lemma smp_start_safe_witness : 0 <= 0 < 2 /\ (ap_at two_cpus 1 = AMain 1 /\ forall c k, stack_of (ap_at two_cpus c) = Some k -> k = c).
Proof.
  split; [lia|]. split; [vm_compute; reflexivity|].
  exact (proj1 (smp_start_safe 2 0 two_cpus ltac:(lia) (step_or_reachable 2 0 [0; 0; 0; 1] _ (SmpInit 2 0)))).
Defined.

Lemma smp_start_completes_witness : exists s', smp_steps 2 0 two_cpus s' /\ boot_at s' = BRun /\ status s' 1 = CPU_STARTED.
Proof.
  destruct (smp_start_completes 2 0 two_cpus ltac:(lia) (step_or_reachable 2 0 [0; 0; 0; 1] _ (SmpInit 2 0))) as (s' & H1 & H2 & H3).
  exists s'. split; [exact H1|]. split; [exact H2|]. apply H3; lia.
Defined.
