(* ===== verification/Monitor.v ===== *)
(** * The kernel monitor

    kern/monitor.c: the commands, the command line taken apart, and the loop
    that reads lines.  Memory is read where the code reads it: the line and its words
    in kernel memory, the stack and the dumped range through the page tables.  The
    trap frame that every command takes is used by none.  A string in memory
    that is printed is recorded by its address. *)
From S2P Require Import Prelude Mmu Mem Console Kstate Pmap Env Sched Syscall Trap Cstring Kdebug Printfmt Kbytes.

(** A command that never ends keeps the CPU in the monitor. *)
Definition stuck {A} : K A := fun s => Monitor s.

Definition CMDBUF_SIZE : Z := 80.
Definition MAXARGS : Z := 16.

Inductive monfn := MonHelp | MonKerninfo | MonBacktrace | MonShowmapping | MonDumpmem | MonSetperms.

Definition commands : list (string * string * monfn) :=
  [("help", "Display this list of commands", MonHelp);
   ("kerninfo", "Display information about the kernel", MonKerninfo);
   ("backtrace", "Display the stack information with backtrace", MonBacktrace);
   ("showmapping", "Display mapping of a virtual address range", MonShowmapping);
   ("dumpmem", "Display a memory of of a vritual/physical range", MonDumpmem);
   ("setperms", "Set the perms of an address", MonSetperms)]%string.

(** ** Arguments

    [argv] lists the pointers up to the null pointer that ends them; the elements
    after it were never written. *)
Definition argv_at (argv : list Z) (i : nat) : K Z := liftopt ((argv ++ [0]) !! i).
Definition argc_of (argv : list Z) : Z := Z.of_nat (length argv).

(** [strcmp(p, lit) == 0] *)
Definition streq (p : Z) (lit : string) : K bool := bytes_are p (bytes_of lit ++ [0]).

(** [strtol(p, NULL, 0)] *)
Definition kstrtol (p : Z) : K Z := fun s =>
  if p <? KERNBASE then Fault s else liftopt (fst <$> strtol (mem s) (p - KERNBASE) 0) s.

(** ** The commands *)

Section monitor.
(** The symbols of the linker, the value of %ebp and the tables of stabs. *)
Context (start_ entry_ etext edata end_ ebp0 : Z) (sym : stab_symbols).

Definition mon_help : K Z :=
  for_each commands (fun '(name, desc, _) => cprintf "%s - %s\n" [VStr name; VStr desc]) ;;
  ret 0.

Definition mon_kerninfo : K Z :=
  cprintf "Special kernel symbols:\n" [] ;;
  cprintf "  _start                  %08x (phys)\n" [VInt start_] ;;
  cprintf "  entry  %08x (virt)  %08x (phys)\n" [VInt entry_; VInt (u32 (entry_ - KERNBASE))] ;;
  cprintf "  etext  %08x (virt)  %08x (phys)\n" [VInt etext; VInt (u32 (etext - KERNBASE))] ;;
  cprintf "  edata  %08x (virt)  %08x (phys)\n" [VInt edata; VInt (u32 (edata - KERNBASE))] ;;
  cprintf "  end    %08x (virt)  %08x (phys)\n" [VInt end_; VInt (u32 (end_ - KERNBASE))] ;;
  cprintf "Kernel executable memory footprint: %dKB\n"
    [VInt (Z.quot (i32 (ROUNDUP (u32 (end_ - entry_)) 1024)) 1024)] ;;
  ret 0.

Definition str_arg (p : strptr) : varg := match p with Unknown => VStr "<unknown>" | At va => VInt va end.

(** One frame; the loop ends at a null frame pointer. *)
Definition backtrace_frame (ebp : Z) : K (Z + unit) :=
  if ebp =? 0 then ret (inr tt)
  else
    eip <- lload32 (u32 (ebp + 4)) ;;
    a2 <- lload32 (u32 (ebp + 8)) ;; a3 <- lload32 (u32 (ebp + 12)) ;; a4 <- lload32 (u32 (ebp + 16)) ;;
    a5 <- lload32 (u32 (ebp + 20)) ;; a6 <- lload32 (u32 (ebp + 24)) ;;
    cprintf "ebp %08x eip %08x args %08x %08x %08x %08x %08x\n"
      [VInt ebp; VInt eip; VInt a2; VInt a3; VInt a4; VInt a5; VInt a6] ;;
    r <- debuginfo_eip sym eip ;;
    let ed := r.2 in
    cprintf "\t%s:%d: %.*s+%d\n"
      [str_arg (eip_file ed); VInt (eip_line ed); VInt (eip_fn_namelen ed); str_arg (eip_fn_name ed);
       VInt (u32 (eip - eip_fn_addr ed))] ;;
    next <- lload32 ebp ;;
    ret (inl next).

Definition mon_backtrace : K Z :=
  cprintf "Stack backtrace:\n" [] ;;
  r <- kloop ADDRS backtrace_frame ebp0 ;;
  match r with inr _ => ret 0 | inl _ => stuck end.

Definition dumpmem_word (end_va start_va : Z) : K (Z + unit) :=
  if start_va <=? end_va then
    kp <- gets kern_pgdir ;;
    pte <- pgdir_walk kp start_va 0 ;;
    match pte with
    | None => cprintf "Inaccessible @ 0x%x\n" [VInt start_va]
    | Some _ => w <- lload32 start_va ;; cprintf "Address: 0x%x Found 0x%x\n" [VInt start_va; VInt w]
    end ;;
    ret (inl (u32 (start_va + 4)))
  else ret (inr tt).

Definition dumpmemhelper (start_va end_va : Z) : K Z :=
  r <- kloop ADDRS (dumpmem_word end_va) start_va ;;
  match r with inr _ => ret 0 | inl _ => stuck end.

Definition mon_dumpmem (argv : list Z) : K Z :=
  if negb (argc_of argv =? 4) then
    cprintf "We cannot do mon_dumpmem with these parameters\n" [] ;; panic
  else
    a2 <- argv_at argv 2 ;; start_va <- kstrtol a2 ;;
    a3 <- argv_at argv 3 ;; end_va <- kstrtol a3 ;;
    let start_va := u32 start_va in
    let end_va := u32 end_va in
    a1 <- argv_at argv 1 ;;
    pa <- streq a1 "pa" ;;
    if pa : bool then
      start_kva <- KADDR start_va ;; end_kva <- KADDR end_va ;; dumpmemhelper start_kva end_kva ;; ret 0
    else
      va <- streq a1 "va" ;;
      (if va : bool then dumpmemhelper start_va end_va else ret 0) ;; ret 0.

(** An assignment to what [pte] points to. *)
Definition upd_pte (pte : Z) (f : Z -> Z) : K unit := v <- kload32 pte ;; kstore32 pte (f v).

(** One turn over the characters of the permissions, which looks at every other one. *)
Definition setperms_char (pte arg i : Z) : K (Z + unit) :=
  c <- kload8 (u32 (arg + i)) ;;
  if c =? 0 then ret (inr tt)
  else
    when (c =? 80) (upd_pte pte (fun v => v .| PTE_P)) ;;
    c <- kload8 (u32 (arg + i)) ;;
    when (c =? 85) (upd_pte pte (fun v => v .| PTE_U)) ;;
    c <- kload8 (u32 (arg + i)) ;;
    when (c =? 87) (upd_pte pte (fun v => v .| PTE_W)) ;;
    ret (inl (i + 2)).

Definition mon_setperms (argv : list Z) : K Z :=
  a2 <- argv_at argv 2 ;; va <- kstrtol a2 ;;
  kp <- gets kern_pgdir ;;
  pte <- pgdir_walk kp (u32 va) 0 ;;
  if argc_of argv <=? 1 then cprintf "Format required\n" [] ;; panic
  else
    match pte with
    | None => panic
    | Some pte =>
        a1 <- argv_at argv 1 ;;
        clear <- streq a1 "clear" ;;
        if clear : bool then
          cprintf "Clearing\n" [] ;; upd_pte pte (fun v => v .& Z.lnot 0x7) ;; ret 0
        else
          set <- streq a1 "set" ;;
          if set : bool then
            upd_pte pte (fun v => v .& Z.lnot 0x7) ;;
            a3 <- argv_at argv 3 ;;
            r <- kloop ADDRS (setperms_char pte a3) 1 ;;
            match r with inr _ => ret 0 | inl _ => stuck end
          else ret 0
    end.

Definition showmapping_page (end_va start_va : Z) : K (Z + unit) :=
  if start_va <=? end_va then
    kp <- gets kern_pgdir ;;
    pte <- pgdir_walk kp start_va 0 ;;
    match pte with
    | Some p =>
        pte <- kload32 p ;;
        cprintf "VA: 0x%x maps to 0x%x\n  Permissions: [ " [VInt start_va; VInt (PTE_ADDR pte)] ;;
        when (has pte PTE_P) (cprintf "P " []) ;;
        when (has pte PTE_U) (cprintf "U " []) ;;
        when (has pte PTE_W) (cprintf "W " []) ;;
        cprintf "]\n" []
    | None => cprintf "Location at %p does not have a valid page\n" [VInt start_va]
    end ;;
    ret (inl (u32 (start_va + PGSIZE)))
  else ret (inr tt).

Definition mon_showmapping (argv : list Z) : K Z :=
  if negb (argc_of argv =? 3) then panic
  else
    a1 <- argv_at argv 1 ;; v1 <- kstrtol a1 ;;
    a2 <- argv_at argv 2 ;; v2 <- kstrtol a2 ;;
    let start_va := ROUNDDOWN (u32 v1) PGSIZE in
    let end_va := ROUNDUP (u32 v2) PGSIZE in
    cprintf "Start_va: %p, End_va: %p\n" [VInt start_va; VInt end_va] ;;
    r <- kloop ADDRS (showmapping_page end_va) start_va ;;
    match r with inr _ => ret 0 | inl _ => stuck end.

(** ** The command line *)

(** [strchr(WHITESPACE, c)] for a character [c] that is not 0. *)
Definition white (c : Z) : bool := (c =? 9) || (c =? 13) || (c =? 10) || (c =? 32).

Definition gobble (buf : Z) : K Z :=
  r <- kloop ADDRS (fun buf =>
    c <- kload8 buf ;;
    if negb (c =? 0) && white c then kstore8 buf 0 ;; ret (inl (u32 (buf + 1))) else ret (inr buf)) buf ;;
  match r with inr b => ret b | inl _ => stuck end.

Definition skip_word (buf : Z) : K Z :=
  r <- kloop ADDRS (fun buf =>
    c <- kload8 buf ;; if negb (c =? 0) && negb (white c) then ret (inl (u32 (buf + 1))) else ret (inr buf)) buf ;;
  match r with inr b => ret b | inl _ => stuck end.

(** [None]: too many arguments.  [n]: the turns that are left, [MAXARGS] less
    the arguments already found. *)
Fixpoint parse_args (n : nat) (buf : Z) (argv : list Z) : K (option (list Z)) :=
  match n with
  | O => fault
  | S n =>
      buf <- gobble buf ;;
      c <- kload8 buf ;;
      if c =? 0 then ret (Some argv)
      else if argc_of argv =? MAXARGS - 1 then cprintf "Too many arguments (max %d)\n" [VInt MAXARGS] ;; ret None
      else
        next <- skip_word buf ;;
        parse_args n next (argv ++ [buf])
  end.

Definition call (f : monfn) (argv : list Z) : K Z :=
  match f with
  | MonHelp => mon_help
  | MonKerninfo => mon_kerninfo
  | MonBacktrace => mon_backtrace
  | MonShowmapping => mon_showmapping argv
  | MonDumpmem => mon_dumpmem argv
  | MonSetperms => mon_setperms argv
  end.

Fixpoint invoke (l : list (string * string * monfn)) (argv0 : Z) (argv : list Z) : K Z :=
  match l with
  | [] => cprintf "Unknown command '%s'\n" [VInt argv0] ;; ret 0
  | (name, _, f) :: l => e <- streq argv0 name ;; if e : bool then call f argv else invoke l argv0 argv
  end.

Definition runcmd (buf : Z) : K Z :=
  argv <- parse_args (Z.to_nat MAXARGS) buf [] ;;
  match argv with
  | None => ret 0
  | Some [] => ret 0
  | Some (argv0 :: rest) => invoke commands argv0 (argv0 :: rest)
  end.

(** ** The loop

    [typed]: the characters that each call of [readline] takes; [buf]: the address
    of its buffer. *)
Definition print_echo (echo : list Z) : K unit := cprintf "%s" [VBytes echo].

Fixpoint monitor_loop (buf : Z) (typed : list (list Z)) : K unit :=
  match typed with
  | [] => stuck
  | chars :: typed =>
      match readline (Some (bytes_of "K> ")) true chars with
      | RlWait => stuck
      | RlError echo => print_echo echo ;; monitor_loop buf typed
      | RlLine line echo =>
          print_echo echo ;;
          for_each (imap (fun i c => (buf + Z.of_nat i, c)) (line ++ [0])) (fun ac => kstore8 ac.1 ac.2) ;;
          r <- runcmd buf ;;
          if r <? 0 then ret tt else monitor_loop buf typed
      end
  end.

Definition kmonitor (tf : option (Z * Trapframe)) (buf : Z) (typed : list (list Z)) : K unit :=
  cprintf "Welcome to the JOS kernel monitor!\n" [] ;;
  cprintf "Type 'help' for a list of commands.\n" [] ;;
  match tf with Some (addr, tf) => print_trapframe addr true tf | None => ret tt end ;;
  monitor_loop buf typed.
End monitor.
