(* ===== verification/MonitorSpec.v ===== *)
(** * The kernel monitor: theorems

    The command line is split like the reference function [words] splits it, the
    command that is called is the one the first word names, and the monitor never
    returns. *)
From S2P Require Import Prelude Mmu Mem Console Kstate Pmap Env Trap Cstring Kdebug Printfmt Kbytes Monitor.

(** ** The words of a line *)

(** The reference: maximal runs of characters that are not white space. *)
Fixpoint words (l : list Z) : list (list Z) :=
  match l with
  | [] => []
  | c :: l =>
      if white c then words l
      else match words l with
           | [] => [[c]]
           | w :: ws => if match l with d :: _ => white d | [] => true end then [c] :: w :: ws else (c :: w) :: ws
           end
  end.

Example words_ls : words (bytes_of " showmapping  0x10 32 ") = [bytes_of "showmapping"; bytes_of "0x10"; bytes_of "32"].
Proof. reflexivity. Qed.

(** How many characters at the front satisfy [p]. *)
Fixpoint lead (p : Z -> bool) (l : list Z) : nat :=
  match l with c :: l => if p c then S (lead p l) else O | [] => O end.

Lemma lead_le p l : (lead p l <= length l)%nat.
Proof. induction l as [|c l IH]; simpl; [lia|]. destruct (p c); lia. Qed.

Lemma lead_stop p l : match drop (lead p l) l with [] => True | c :: _ => p c = false end.
Proof. induction l as [|c l IH]; simpl; [done|]. by destruct (p c) eqn:E. Qed.

Lemma words_white l : words l = words (drop (lead white l) l).
Proof. induction l as [|c l IH]; simpl; [done|]. by destruct (white c) eqn:E; [|simpl; rewrite E]. Qed.

Lemma words_word c l : white c = false ->
  words (c :: l) = (c :: take (lead (fun c => negb (white c)) l) l) :: words (drop (lead (fun c => negb (white c)) l) l).
Proof.
  revert c. induction l as [|d l IH]; intros c Hc; [simpl; by rewrite Hc|].
  assert (E : words (c :: d :: l) = if white c then words (d :: l) else
    match words (d :: l) with w :: ws => if white d then [c] :: w :: ws else (c :: w) :: ws | [] => [[c]] end).
  { reflexivity. }
  rewrite E.
  rewrite Hc. cbn [lead]. destruct (white d) eqn:Hd; cbn [negb take drop].
  - by destruct (words (d :: l)).
  - by rewrite (IH d Hd).
Qed.

(** ** Strings in memory *)

(** The string [l] with its terminator from the physical address [a] on. *)
Fixpoint pstr (m : bytemem) (a : Z) (l : list Z) : Prop :=
  match l with
  | [] => load8 m a = 0
  | c :: l => c <> 0 /\ load8 m a = c /\ pstr m (a + 1) l
  end.

Lemma pstr_ext m m' a l :
  (forall x, a <= x <= a + Z.of_nat (length l) -> load8 m' x = load8 m x) -> pstr m a l -> pstr m' a l.
Proof.
  revert a. induction l as [|c l IH]; intros a Hx H; simpl in *.
  - rewrite Hx by lia. done.
  - destruct H as (Hc & Ha & Hl). split; [done|]. split; [by rewrite Hx by lia|]. apply IH; [|done]. intros x Hr. apply Hx. lia.
Qed.

Lemma pstr_drop m a l n : (n <= length l)%nat -> pstr m a l -> pstr m (a + Z.of_nat n) (drop n l).
Proof.
  revert a l. induction n as [|n IH]; intros a l Hn H; [by rewrite Z.add_0_r|].
  destruct l as [|c l]; simpl in Hn; [lia|]. destruct H as (_ & _ & H). cbn [drop].
  replace (a + Z.of_nat (S n)) with (a + 1 + Z.of_nat n) by lia. apply IH; [lia|done].
Qed.

(** A prefix of a string whose terminator has been written. *)
Lemma pstr_take m m' a l n : (n <= length l)%nat -> pstr m a l ->
  (forall x, a <= x < a + Z.of_nat n -> load8 m' x = load8 m x) -> load8 m' (a + Z.of_nat n) = 0 -> pstr m' a (take n l).
Proof.
  revert a l. induction n as [|n IH]; intros a l Hn H Hx H0; [by rewrite Z.add_0_r in H0|].
  destruct l as [|c l]; simpl in Hn; [lia|]. destruct H as (Hc & Ha & Hl). cbn [take pstr].
  split; [done|]. split; [by rewrite Hx by lia|]. apply IH; [lia|done| |].
  - intros x Hr. apply Hx. lia.
  - by replace (a + 1 + Z.of_nat n) with (a + Z.of_nat (S n)) by lia.
Qed.

Lemma pstr_head m a l : pstr m a l -> load8 m a = match l with [] => 0 | c :: _ => c end.
Proof. destruct l; [done|]. by intros (_ & H & _). Qed.

(** ** The loops *)

Definition blanked (m : bytemem) (a : Z) (n : nat) : bytemem := store_bytes m a (replicate n 0).

Lemma load8_blanked m a n x : load8 (blanked m a n) x = if decide (a <= x < a + Z.of_nat n) then 0 else load8 m x.
Proof.
  unfold blanked. rewrite load8_store_bytes, length_replicate. case_decide; [|done].
  by rewrite lookup_replicate_2 by lia.
Qed.

Lemma kload8_at a s : 0 <= a -> kload8 (KERNBASE + a) s = Ret (load8 (mem s) a) s.
Proof. intros H. rewrite kload8_eq by lia. by replace (KERNBASE + a - KERNBASE) with a by lia. Qed.

Lemma kstore8_at a v s : 0 <= a -> kstore8 (KERNBASE + a) v s = Ret tt (set_mem (store8 (mem s) a v) s).
Proof. intros H. unfold kstore8. replace (KERNBASE + a <? KERNBASE) with false by lia. by replace (KERNBASE + a - KERNBASE) with a by lia. Qed.

(** The space of the kernel's window on physical memory. *)
Definition in_window (a : Z) (l : list Z) : Prop := 0 <= a /\ a + Z.of_nat (length l) + 1 < 0x10000000.

Lemma next_ptr a l c : in_window a (c :: l) -> u32 (KERNBASE + a + 1) = KERNBASE + (a + 1) /\ in_window (a + 1) l.
Proof. unfold in_window. cbn [length]. intros [H1 H2]. split; [rewrite u32_small; unfold KERNBASE; lia|lia]. Qed.

(** A loop whose result is a pointer. *)
Lemma kloop_ptr {A R} n p (f : A -> K (A + R)) a s b s' :
  kloop_nat n f a s = Ret (inr b) s' -> Z.of_nat n <= Z.pos p ->
  (r <- kloop p f a ;; match r with inr b => ret b | inl _ => stuck end) s = Ret b s'.
Proof. intros H Hn. by rewrite (bind_ret _ _ _ _ _ (kloop_exit n p f a s b s' H Hn)). Qed.

Lemma gobble_ok l a s : in_window a l -> pstr (mem s) a l ->
  gobble (KERNBASE + a) s = Ret (KERNBASE + (a + Z.of_nat (lead white l))) (set_mem (blanked (mem s) a (lead white l)) s).
Proof.
  intros Hw Hp. unfold gobble.
  apply (kloop_ptr (S (lead white l))); [|pose proof (lead_le white l); unfold in_window, ADDRS in *; lia].
  revert a s Hw Hp. induction l as [|c l IH]; intros a s Hw Hp; cbn [kloop_nat lead]; rewrite bind_assoc;
    rewrite (bind_ret _ _ _ _ _ (kload8_at a s ltac:(unfold in_window in *; lia))), (pstr_head _ _ _ Hp); cbv iota beta.
  - kpure. rewrite Z.add_0_r. unfold blanked. simpl. by destruct s.
  - destruct Hp as (Hc & Ha & Hl). replace (c =? 0) with false by lia. cbn [negb andb].
    destruct (white c).
    + rewrite bind_assoc, (bind_ret _ _ _ _ _ (kstore8_at a 0 s ltac:(unfold in_window in *; lia))). kpure.
      destruct (next_ptr a l c Hw) as [-> Hw']. rewrite IH; [|done|].
      * replace (a + 1 + Z.of_nat (lead white l)) with (a + Z.of_nat (S (lead white l))) by lia. done.
      * eapply pstr_ext; [|exact Hl]. intros x Hx. cbn [mem set_mem]. by rewrite load8_store8_ne by lia.
    + kpure. rewrite Z.add_0_r. unfold blanked. simpl. by destruct s.
Qed.

Lemma skip_word_ok l a s : in_window a l -> pstr (mem s) a l ->
  skip_word (KERNBASE + a) s = Ret (KERNBASE + (a + Z.of_nat (lead (fun c => negb (white c)) l))) s.
Proof.
  intros Hw Hp. unfold skip_word.
  apply (kloop_ptr (S (lead (fun c => negb (white c)) l))); [|pose proof (lead_le (fun c => negb (white c)) l); unfold in_window, ADDRS in *; lia].
  revert a Hw Hp. induction l as [|c l IH]; intros a Hw Hp; cbn [kloop_nat lead]; rewrite bind_assoc;
    rewrite (bind_ret _ _ _ _ _ (kload8_at a s ltac:(unfold in_window in *; lia))), (pstr_head _ _ _ Hp); cbv iota beta.
  - kpure. by rewrite Z.add_0_r.
  - destruct Hp as (Hc & Ha & Hl). replace (c =? 0) with false by lia. cbn [negb andb].
    destruct (white c); cbn [negb]; kpure; [by rewrite Z.add_0_r|].
    destruct (next_ptr a l c Hw) as [-> Hw']. rewrite IH by done.
    by replace (a + 1 + Z.of_nat (lead (fun c => negb (white c)) l)) with (a + Z.of_nat (S (lead (fun c => negb (white c)) l))) by lia.
Qed.

(** ** The command line *)

(** The pointer [p] is to the string [w]. *)
Definition word_at (m : bytemem) (p : Z) (w : list Z) : Prop := KERNBASE <= p /\ pstr m (p - KERNBASE) w.

Definition too_many (s : kstate) : kstate :=
  set_trace (trace s ++ [EPrintf "Too many arguments (max %d)\n" [VInt MAXARGS]]) s.

(** What the parser returns for the rest [l] of the line at [a]: a memory that differs
    only there, which ends a word before [a], and pointers to the words. *)
Definition parsed (argv : list Z) (a : Z) (l : list Z) (s : kstate) (m' : bytemem) (r : outcome (option (list Z))) : Prop :=
  (forall x, ~ (a <= x < a + Z.of_nat (length l)) -> load8 m' x = load8 (mem s) x) /\
  match l with c :: _ => white c = true -> load8 m' a = 0 | [] => True end /\
  if decide (length argv + length (words l) < 16)%nat then
    exists ptrs, r = Ret (Some (argv ++ ptrs)) (set_mem m' s) /\ Forall2 (word_at m') ptrs (words l)
  else r = Ret None (too_many (set_mem m' s)).

Lemma parse_args_ok n a l argv s :
  in_window a l -> pstr (mem s) a l -> (length argv + n = 16)%nat -> (0 < n)%nat ->
  exists m', parsed argv a l s m' (parse_args n (KERNBASE + a) argv s).
Proof.
  revert a l argv s. induction n as [|n IH]; intros a l argv s Hw Hp Hn Hn0; [lia|]. cbn [parse_args].
  set (k := lead white l). pose proof (lead_le white l : (k <= length l)%nat) as Hk.
  rewrite (bind_ret _ _ _ _ _ (gobble_ok l a s Hw Hp)). fold k. set (m1 := blanked (mem s) a k). set (s1 := set_mem m1 s).
  set (a1 := a + Z.of_nat k).
  assert (Hm1 : forall x, ~ (a <= x < a1) -> load8 m1 x = load8 (mem s) x).
  { intros x Hx. unfold m1. rewrite load8_blanked, decide_False; [done|]. unfold a1 in Hx. lia. }
  assert (Hblank : match l with c :: _ => white c = true -> load8 m1 a = 0 | [] => True end).
  { destruct l as [|c l]; [done|]. intros Hc. unfold m1. rewrite load8_blanked, decide_True; [done|].
    unfold k. cbn [lead]. rewrite Hc. lia. }
  assert (Hp1 : pstr m1 a1 (drop k l)).
  { eapply pstr_ext; [|by apply (pstr_drop _ _ _ k)]. intros x Hx. rewrite Hm1; [done|]. fold a1 in Hx. lia. }
  rewrite (bind_ret _ _ _ _ _ (kload8_at a1 s1 ltac:(unfold in_window, a1 in *; lia))).
  change (mem s1) with m1. rewrite (pstr_head _ _ _ Hp1). pose proof (words_white l) as Hwords. fold k in Hwords.
  pose proof (lead_stop white l) as Hstop. fold k in Hstop. pose proof (length_drop l k) as Hlen.
  destruct (drop k l) as [|c l2]; simpl in Hlen.
  { exists m1. split; [intros x Hx; apply Hm1; unfold a1; lia|]. split; [done|]. rewrite Hwords. cbn [words length].
    rewrite decide_True by lia. exists []. rewrite app_nil_r. by split. }
  destruct Hp1 as (Hc & Hca & Hp2). replace (c =? 0) with false by lia. rewrite (words_word c l2 Hstop) in Hwords.
  set (j := lead (fun c => negb (white c)) l2) in *. pose proof (lead_le _ l2 : (j <= length l2)%nat) as Hj.
  unfold argc_of. destruct (Z.eqb_spec (Z.of_nat (length argv)) (MAXARGS - 1)) as [E|E]; unfold MAXARGS in E.
  { exists m1. split; [intros x Hx; apply Hm1; unfold a1; lia|]. split; [done|]. rewrite Hwords. cbn [length].
    rewrite decide_False by lia. done. }
  assert (Hw1 : in_window a1 (c :: l2)) by (unfold in_window, a1 in *; cbn [length]; lia).
  assert (Hl1 : lead (fun c => negb (white c)) (c :: l2) = S j) by (cbn [lead]; by rewrite Hstop).
  assert (Hskip := skip_word_ok (c :: l2) a1 s1 Hw1 (conj Hc (conj Hca Hp2))). rewrite Hl1 in Hskip.
  rewrite (bind_ret _ _ _ _ _ Hskip). set (a2 := a1 + Z.of_nat (S j)).
  assert (Hp3 : pstr m1 a2 (drop j l2)).
  { replace a2 with (a1 + 1 + Z.of_nat j) by (unfold a2; lia). by apply pstr_drop. }
  pose proof (length_drop l2 j) as Hlen2.
  destruct (IH a2 (drop j l2) (argv ++ [KERNBASE + a1]) s1) as (m' & Hout & Hterm & Hres).
  { unfold in_window, a2 in *. cbn [length] in Hw1. lia. } { done. } { rewrite length_app. simpl. lia. } { lia. }
  change (mem s1) with m1 in Hout. rewrite length_app in Hres. cbn [length] in Hres.
  exists m'. split; [|split].
  - intros x Hx. rewrite Hout by (unfold a2, a1; lia). apply Hm1. unfold a1. lia.
  - destruct l as [|d l]; [done|]. intros Hd. rewrite Hout by (unfold a2, a1; lia). by apply Hblank.
  - rewrite Hwords. cbn [length]. replace (length argv + S (length (words (drop j l2))))%nat with (length argv + 1 + length (words (drop j l2)))%nat by lia.
    case_decide; [|done]. destruct Hres as (ptrs & Hr & Hall). exists ((KERNBASE + a1) :: ptrs).
    rewrite <- app_assoc in Hr. split; [exact Hr|]. constructor; [|done]. split; [unfold a1, in_window in *; lia|].
    replace (KERNBASE + a1 - KERNBASE) with a1 by lia.
    change (c :: take j l2) with (take (S j) (c :: l2)). apply (pstr_take m1); [cbn [length]; lia|done| |].
    + intros x Hx. apply Hout. unfold a2. lia.
    + fold a2. pose proof (lead_stop (fun c => negb (white c)) l2) as Hs2. fold j in Hs2.
      destruct (drop j l2) as [|d l3]; [|apply Hterm; by apply negb_false_iff].
      rewrite Hout by (simpl; lia). exact Hp3.
Qed.

(** A comparison with a command's name. *)
Lemma match_bytes_pstr m a x w : Forall (fun c => c <> 0) x -> pstr m a w ->
  match_bytes m a (x ++ [0]) = bool_decide (w = x).
Proof.
  revert a w. induction x as [|c x IH]; intros a w Hx Hp; cbn [app match_bytes].
  - rewrite (pstr_head _ _ _ Hp). destruct w as [|d w]; [done|]. destruct Hp as (Hd & _). rewrite andb_true_r. rewrite bool_decide_eq_false_2 by done. lia.
  - apply Forall_cons in Hx as [Hc Hx]. rewrite (pstr_head _ _ _ Hp). destruct w as [|d w].
    { rewrite bool_decide_eq_false_2 by done. by replace (0 =? c) with false by lia. }
    destruct Hp as (_ & _ & Hp). rewrite (IH _ w Hx Hp). destruct (Z.eqb_spec d c) as [->|Hne]; cbn [andb].
    + by destruct (decide (w = x)) as [->|Hwx]; [rewrite !bool_decide_eq_true_2 by done|rewrite !bool_decide_eq_false_2 by congruence].
    + by rewrite bool_decide_eq_false_2 by congruence.
Qed.

(** The command that the word [w] names. *)
Fixpoint named (l : list (string * string * monfn)) (w : list Z) : option monfn :=
  match l with
  | [] => None
  | (name, _, f) :: l => if decide (w = bytes_of name) then Some f else named l w
  end.

Example named_dumpmem : named commands (bytes_of "dumpmem") = Some MonDumpmem.
Proof. reflexivity. Qed.

Section runcmd.
Context (start_ entry_ etext edata end_ ebp0 : Z) (sym : stab_symbols).
Local Abbreviation do_call := (call start_ entry_ etext edata end_ ebp0 sym).
Local Abbreviation do_invoke := (invoke start_ entry_ etext edata end_ ebp0 sym).
Local Abbreviation do_runcmd := (runcmd start_ entry_ etext edata end_ ebp0 sym).

Definition unknown (p : Z) (s : kstate) : kstate := set_trace (trace s ++ [EPrintf "Unknown command '%s'\n" [VInt p]]) s.

Lemma invoke_ok l p w argv s :
  Forall (fun e => Forall (fun c => c <> 0) (bytes_of e.1.1)) l -> word_at (mem s) p w ->
  do_invoke l p argv s = match named l w with Some f => do_call f argv s | None => Ret 0 (unknown p s) end.
Proof.
  intros Hl [Hp Hw]. induction Hl as [|[[name desc] f] l Hn Hl IH]; [done|]. cbn [Monitor.invoke named].
  cbn [fst] in Hn. unfold streq. rewrite (bind_ret _ _ _ _ _ (bytes_are_eq p _ s Hp)), (match_bytes_pstr _ _ _ w Hn Hw).
  by destruct (decide (w = bytes_of name)); [rewrite bool_decide_eq_true_2|rewrite bool_decide_eq_false_2].
Qed.

Lemma commands_named : Forall (fun e : string * string * monfn => Forall (fun c => c <> 0) (bytes_of e.1.1)) commands.
Proof. by apply (bool_decide_eq_true_1 _). Qed.

(** C12: runcmd takes a line apart as the reference function [words] does: a line without
    words does nothing, one with more than fifteen is refused, and any other calls
    the command that its first word names, with one pointer per word, each to a string
    that ends where the word does, or reports an unknown command.  Of memory only
    the line changes. *)
Theorem runcmd_words a l s :
  in_window a l -> pstr (mem s) a l ->
  exists m', (forall x, ~ (a <= x < a + Z.of_nat (length l)) -> load8 m' x = load8 (mem s) x) /\
    match words l with
    | [] => do_runcmd (KERNBASE + a) s = Ret 0 (set_mem m' s)
    | w :: ws =>
        if decide (15 < length (w :: ws))%nat then do_runcmd (KERNBASE + a) s = Ret 0 (too_many (set_mem m' s))
        else exists p ps, Forall2 (word_at m') (p :: ps) (w :: ws) /\
          do_runcmd (KERNBASE + a) s =
            match named commands w with
            | Some f => do_call f (p :: ps) (set_mem m' s)
            | None => Ret 0 (unknown p (set_mem m' s))
            end
    end.
Proof.
  intros Hw Hp. destruct (parse_args_ok (Z.to_nat MAXARGS) a l [] s Hw Hp eq_refl) as (m' & Hout & _ & Hr); [by apply Nat.ltb_lt|].
  exists m'. split; [done|]. unfold Monitor.runcmd. simpl (length [] + _)%nat in Hr.
  destruct (words l) as [|w ws] eqn:E.
  - destruct Hr as (ptrs & Hr & Hall). apply Forall2_nil_inv_r in Hall as ->. by rewrite (bind_ret _ _ _ _ _ Hr).
  - destruct (decide (15 < length (w :: ws))%nat) as [Hm|Hm].
    + rewrite decide_False in Hr by lia. by rewrite (bind_ret _ _ _ _ _ Hr).
    + rewrite decide_True in Hr by lia. destruct Hr as (ptrs & Hr & Hall). destruct ptrs as [|p ps]; [by inversion Hall|].
      exists p, ps. split; [exact Hall|]. rewrite (bind_ret _ _ _ _ _ Hr). cbn [app].
      apply invoke_ok; [apply commands_named|]. by apply Forall2_cons in Hall as [? _].
Qed.

(** ** The monitor does not return *)

(** A function that returns nothing but 0. *)
Definition zero_only (m : K Z) : Prop := forall s r s', m s = Ret r s' -> r = 0.

Lemma zero_ret : zero_only (ret 0).
Proof. intros s r s' H. by injection H as <- <-. Qed.
Lemma zero_bind {A} (m : K A) f : (forall a, zero_only (f a)) -> zero_only (bind m f).
Proof. intros Hf s r s' (a & s1 & _ & H)%bind_inv. by apply (Hf a s1 r s'). Qed.
Lemma zero_stuck : zero_only stuck.
Proof. done. Qed.
Lemma zero_panic : zero_only panic.
Proof. done. Qed.
Lemma zero_fault : zero_only fault.
Proof. done. Qed.

Ltac zero_tac := repeat first
  [ apply zero_ret | apply zero_stuck | apply zero_panic | apply zero_fault | apply zero_bind; intros ?
  | match goal with |- zero_only (if ?b then _ else _) => destruct b end
  | match goal with |- zero_only (match ?x with _ => _ end) => destruct x end
  | progress cbv zeta ].

Lemma call_zero f argv : zero_only (do_call f argv).
Proof.
  destruct f; cbn [Monitor.call];
    unfold mon_help, mon_kerninfo, mon_backtrace, mon_showmapping, mon_dumpmem, mon_setperms; zero_tac.
Qed.

Lemma runcmd_zero buf : zero_only (do_runcmd buf).
Proof.
  unfold Monitor.runcmd. apply zero_bind. intros [[|p ps]|]; [apply zero_ret| |apply zero_ret].
  induction commands as [|[[name desc] f] l IH]; cbn [Monitor.invoke]; [zero_tac|].
  apply zero_bind. intros []; [apply call_zero|exact IH].
Qed.

(** Whatever is typed, the monitor does not return: no command asks it to. *)
Theorem monitor_never_returns tf buf typed s a s' :
  kmonitor start_ entry_ etext edata end_ ebp0 sym tf buf typed s <> Ret a s'.
Proof.
  unfold kmonitor. intros H. do 2 (apply bind_inv in H as (? & ? & _ & H)). apply bind_inv in H as (u & s0 & _ & H).
   revert s0 H. induction typed as [|chars typed IH]; intros s0 H; [done|]. cbn [Monitor.monitor_loop] in H.
  destruct (readline _ _ _); [|apply bind_inv in H as (? & ? & _ & H); by apply IH in H|done].
  do 2 (apply bind_inv in H as (? & ? & _ & H)). apply bind_inv in H as (r & s1 & Hr & H).
  apply runcmd_zero in Hr as ->. by apply IH in H.
Qed.
End runcmd.

(** ** A line with two words *)

Definition help_line : list Z := bytes_of " help  me".
Definition line_state : kstate := set_mem (store_bytes ∅ 0x1000 (help_line ++ [0])) (zero_kstate 8).
Definition no_symbols : stab_symbols := mkSyms 0 0 0 0.

Lemma help_line_window : in_window 0x1000 help_line.
Proof. split; [lia|vm_compute; reflexivity]. Qed.
Lemma help_line_stored : pstr (mem line_state) 0x1000 help_line.
Proof. vm_compute. repeat split; discriminate. Qed.

Lemma runcmd_words_witness : exists p q m',
  runcmd 0 0 0 0 0 0 no_symbols (KERNBASE + 0x1000) line_state = call 0 0 0 0 0 0 no_symbols MonHelp [p; q] (set_mem m' line_state) /\
  word_at m' p (bytes_of "help") /\ word_at m' q (bytes_of "me").
Proof.
  pose proof help_line_window as Hw. pose proof help_line_stored as Hp. revert Hp. generalize line_state. intros s Hp.
  destruct (runcmd_words 0 0 0 0 0 0 no_symbols 0x1000 help_line s Hw Hp) as (m' & _ & H).
  change (words help_line) with [bytes_of "help"; bytes_of "me"] in H. cbv iota in H. rewrite decide_False in H by (simpl; lia).
  destruct H as (p & ps & Hall & Hr). change (named commands (bytes_of "help")) with (Some MonHelp) in Hr.
  apply Forall2_cons in Hall as [H1 Hall]. destruct ps as [|q ps]; [by inversion Hall|]. apply Forall2_cons in Hall as [H2 Hall].
  apply Forall2_nil_inv_r in Hall as ->. exists p, q, m'. split; [exact Hr|]. split; [exact H1|exact H2].
Defined.
