(* ===== verification/Boot.v ===== *)
(** * The boot loader

    boot/main.c: the sectors of the disk, and the kernel's segments loaded from
    them.  The status port returns a list of values that the model is given; the
    registers written to the disk controller are kept and name the sector that it
    delivers (the ATA protocol with 28-bit block addresses).  The controller takes a
    register and delivers a sector only if its status port has said that it is
    ready since the last command.  The loader's own code and stack at 0x7C00 are not
    in the modelled memory, and a sector once asked for is read without error. *)
From S2P Require Import Prelude Mem.

Definition SECTSIZE : Z := 512.
Definition ELFHDR : Z := 0x10000.
Definition BOOT_MAGIC : Z := 0x464C457F.

(** Memory, the registers of the disk controller as last written, the values its
    status port will return, and whether the last of them said that it is ready. *)
Record boot := mkBoot { bm : bytemem; ata : gmap Z Z; status : list Z; settled : bool }.
Definition set_bm (m : bytemem) (b : boot) : boot := mkBoot m (ata b) (status b) (settled b).
Definition set_status (l : list Z) (b : boot) : boot := mkBoot (bm b) (ata b) l true.

(** A busy controller does not take the byte; a command makes it busy. *)
Definition boot_outb (port v : Z) (b : boot) : boot :=
  if settled b then mkBoot (bm b) (<[port := u8 v]> (ata b)) (status b) (negb (port =? 0x1F7)) else b.

Section disk.
(** The bytes on the disk. *)
Context (disk : Z -> Z).

(** ** One sector *)

(** [None] where the loader waits for ever. *)
Fixpoint waitdisk_from (l : list Z) : option (list Z) :=
  match l with
  | [] => None
  | v :: l => if v .& 0xC0 =? 0x40 then Some l else waitdisk_from l
  end.
Definition waitdisk (b : boot) : option boot := l ← waitdisk_from (status b); Some (set_status l b).

(** The sector that the registers name, and its bytes. *)
Definition lba (r : gmap Z Z) : Z :=
  let p a := default 0 (r !! a) in
  p 0x1F3 + 0x100 * p 0x1F4 + 0x10000 * p 0x1F5 + 0x1000000 * (p 0x1F6 .& 0xF).

(** [None] from a controller that is still busy: what it gives then is undefined. *)
Definition insl (dst cnt : Z) (b : boot) : option boot :=
  if settled b
  then Some (set_bm (store_bytes (bm b) dst (map disk (range (SECTSIZE * lba (ata b)) (Z.to_nat (4 * cnt))))) b)
  else None.

Definition readsect (dst offset : Z) (b : boot) : option boot :=
  b ← waitdisk b;
  let b := boot_outb 0x1F2 1 b in
  let b := boot_outb 0x1F3 offset b in
  let b := boot_outb 0x1F4 (offset .>> 8) b in
  let b := boot_outb 0x1F5 (offset .>> 16) b in
  let b := boot_outb 0x1F6 ((offset .>> 24) .| 0xE0) b in
  let b := boot_outb 0x1F7 0x20 b in
  b ← waitdisk b;
  insl dst (SECTSIZE / 4) b.

(** ** A range of bytes *)

Definition readseg_turn (end_pa : Z) (st : Z * Z * boot) : (Z * Z * boot) + option boot :=
  let '(pa, offset, b) := st in
  if pa <? end_pa then
    match readsect pa offset b with
    | Some b => inl (u32 (pa + SECTSIZE), u32 (offset + 1), b)
    | None => inr None
    end
  else inr (Some b).

(** [pa] takes 2^23 values: after as many turns the loop goes on for ever. *)
Definition TURNS : positive := 0x800001.
Definition readseg (pa count offset : Z) (b : boot) : option boot :=
  let end_pa := u32 (pa + count) in
  let pa := pa .& Z.lnot (SECTSIZE - 1) in
  let offset := u32 (offset / SECTSIZE + 1) in
  match loop_upto TURNS (readseg_turn end_pa) (pa, offset, b) with inr r => r | inl _ => None end.

(** ** The kernel *)

Definition load16 (m : bytemem) (a : Z) : Z := load8 m a + 0x100 * load8 m (a + 1).

(** The fields of the headers. *)
Definition elf_magic (m : bytemem) : Z := load32 m ELFHDR.
Definition elf_entry (m : bytemem) : Z := load32 m (ELFHDR + 24).
Definition elf_phoff (m : bytemem) : Z := load32 m (ELFHDR + 28).
Definition elf_phnum (m : bytemem) : Z := load16 m (ELFHDR + 44).
Definition ph_offset (m : bytemem) (ph : Z) : Z := load32 m (ph + 4).
Definition ph_pa (m : bytemem) (ph : Z) : Z := load32 m (ph + 12).
Definition ph_filesz (m : bytemem) (ph : Z) : Z := load32 m (ph + 16).
Definition ph_memsz (m : bytemem) (ph : Z) : Z := load32 m (ph + 20).

(** The loop over the rest of a segment; [i] is compared as an unsigned number. *)
Definition zero_turn (ph : Z) (st : Z * bytemem) : (Z * bytemem) + bytemem :=
  let '(i, m) := st in
  if u32 i <? u32 (ph_memsz m ph - ph_filesz m ph)
  then inl (i + 1, store8 m (u32 (ph_pa m ph + ph_filesz m ph + i)) 0)
  else inr m.

Definition load_ph (ph : Z) (b : boot) : option boot :=
  let m := bm b in
  b ← readseg (ph_pa m ph) (ph_memsz m ph) (ph_offset m ph) b;
  match loop_upto 0x100000000 (zero_turn ph) (0, bm b) with inr m => Some (set_bm m b) | inl _ => None end.

Fixpoint load_phs (n : nat) (ph : Z) (b : boot) : option boot :=
  match n with
  | O => Some b
  | S n => b ← load_ph ph b; load_phs n (ph + 32) b
  end.

Inductive boot_end := Jump (entry : Z) (b : boot) | Bad (b : boot) | Hang.

Definition bootmain (b : boot) : boot_end :=
  match readseg ELFHDR (SECTSIZE * 8) 0 b with
  | None => Hang
  | Some b =>
      if negb (elf_magic (bm b) =? BOOT_MAGIC) then Bad b
      else
        let ph := u32 (ELFHDR + elf_phoff (bm b)) in
        let eph := u32 (ph + 32 * elf_phnum (bm b)) in
        match (if ph <? eph then load_phs (Z.to_nat (elf_phnum (bm b))) ph b else Some b) with
        | Some b => Jump (elf_entry (bm b)) b
        | None => Hang
        end
  end.

(** ** Loading *)

Context (disk_byte : forall a, 0 <= disk a < 256).

(** How often the controller will say that it is ready. *)
Definition ready (b : boot) : nat := length (filter (fun v => v .& 0xC0 = 0x40) (status b)).

Lemma waitdisk_ok b : (0 < ready b)%nat ->
  exists l, waitdisk b = Some (set_status l b) /\ S (ready (set_status l b)) = ready b.
Proof.
  unfold ready, waitdisk. cbn [status set_status]. induction (status b) as [|v l IH]; simpl; [lia|].
  destruct (Z.eqb_spec (v .& 0xC0) 0x40) as [E|E].
  - intros _. exists l. split; [done|]. by rewrite filter_cons_True.
  - rewrite filter_cons_False by done. apply IH.
Qed.

(** The six registers name the sector. *)
Lemma lba_regs r r1 r2 offset :
  0 <= offset < 0x10000000 ->
  lba (<[0x1F7 := r1]> (<[0x1F6 := u8 ((offset .>> 24) .| 0xE0)]> (<[0x1F5 := u8 (offset .>> 16)]>
    (<[0x1F4 := u8 (offset .>> 8)]> (<[0x1F3 := u8 offset]> (<[0x1F2 := r2]> r)))))) = offset.
Proof.
  intros Ho. unfold lba. rewrite !lookup_insert. simpl. rewrite !Z.shiftr_div_pow2 by lia. zpow.
  assert (H : u8 (offset / 16777216 .| 224) .& 15 = offset / 16777216).
  { assert (Hx : offset / 16777216 .| 224 = 224 + offset / 16777216).
    { rewrite Z.lor_comm. apply (lor_add_low _ _ 4); zlia. }
    rewrite Hx. unfold u8. rewrite Z.mod_small by lia. change 15 with (Z.ones 4). rewrite Z.land_ones by lia. zlia. }
  rewrite H. unfold u8. lia.
Qed.

(** Memory after the bytes of the disk from [from] on are at [lo, hi). *)
Definition loaded (m m' : bytemem) (lo hi from : Z) : Prop :=
  forall a, load8 m' a = if decide (lo <= a < hi) then disk (from + (a - lo)) else load8 m a.

Lemma readsect_ok dst offset b :
  0 <= offset < 0x10000000 -> (1 < ready b)%nat ->
  exists b', readsect dst offset b = Some b' /\ S (S (ready b')) = ready b /\
    loaded (bm b) (bm b') dst (dst + 512) (512 * offset).
Proof.
  intros Ho Hr. unfold readsect. destruct (waitdisk_ok b) as (l & H1 & Hr1); [lia|]. rewrite H1. cbn [mbind option_bind].
  set (b1 := boot_outb 0x1F7 0x20 _). assert (Hb1 : ready b1 = ready (set_status l b)) by done.
  destruct (waitdisk_ok b1) as (l2 & H2 & Hr2); [lia|]. rewrite H2. cbn [mbind option_bind].
  assert (Hlba : lba (ata b1) = offset) by (by apply lba_regs).
  assert (Hbm : bm b1 = bm b) by done. clearbody b1.
  unfold insl. cbn [settled set_status bm ata]. eexists. split; [reflexivity|]. split.
  { change (ready (set_bm _ (set_status l2 b1))) with (ready (set_status l2 b1)). lia. }
  intros a. cbn [bm set_bm]. rewrite Hlba, Hbm, load8_store_bytes, length_map. unfold range.
  rewrite length_seqZ, Nat2Z.id. change (Z.of_nat (Z.to_nat (4 * (SECTSIZE / 4)))) with 512.
  case_decide as Ha; [|done]. rewrite list_lookup_fmap, lookup_seqZ_lt by lia. cbn [fmap option_fmap option_map default].
  unfold SECTSIZE. rewrite Z2Nat.id by lia. pose proof (disk_byte (512 * offset + (a - dst))). unfold u8. by apply Z.mod_small.
Qed.

Lemma readseg_loop end_pa n pa offset b :
  0 <= pa -> pa + 512 * Z.of_nat n < 0x100000000 -> end_pa <= pa + 512 * Z.of_nat n ->
  (0 < n)%nat \/ end_pa <= pa -> pa + 512 * (Z.of_nat n - 1) < end_pa \/ n = O ->
  0 <= offset -> offset + Z.of_nat n <= 0x10000000 -> (2 * n <= ready b)%nat ->
  exists b', loop_nat (S n) (readseg_turn end_pa) (pa, offset, b) = inr (Some b') /\
    (ready b' + 2 * n)%nat = ready b /\ loaded (bm b) (bm b') pa (pa + 512 * Z.of_nat n) (512 * offset).
Proof.
  revert pa offset b. induction n as [|n IH]; intros pa offset b Hpa Hhi Hend Hn Hlast Ho Hoff Hr.
  - exists b. cbn [loop_nat]. unfold readseg_turn. replace (pa <? end_pa) with false by lia. split; [done|]. split; [lia|].
    intros a. by rewrite decide_False by lia.
  - cbn [loop_nat]. unfold readseg_turn at 1. replace (pa <? end_pa) with true by lia.
    destruct (readsect_ok pa offset b) as (b1 & H1 & Hr1 & Hl1); [lia|lia|]. rewrite H1, !u32_small by (unfold SECTSIZE; lia).
    unfold SECTSIZE. destruct (IH (pa + 512) (offset + 1) b1) as (b2 & H2 & Hr2 & Hl2); [lia..|].
    exists b2. split; [exact H2|]. split; [lia|]. intros a. rewrite Hl2, Hl1. repeat case_decide; try lia; f_equal; lia.
Qed.

(** The sectors that hold [pa, pa + count). *)
Definition sec_lo (pa : Z) : Z := 512 * (pa / 512).
Definition sectors (pa count : Z) : Z := (pa mod 512 + count + 511) / 512.
Definition sec_hi (pa count : Z) : Z := sec_lo pa + 512 * sectors pa count.

Lemma round_sector pa : pa .& Z.lnot (SECTSIZE - 1) = sec_lo pa.
Proof.
  change (SECTSIZE - 1) with (Z.ones 9). rewrite <- Z.ldiff_land, Z.ldiff_ones_r by lia.
  rewrite Z.shiftl_mul_pow2, Z.shiftr_div_pow2 by lia. unfold sec_lo. zlia.
Qed.

Lemma sec_span pa count : 0 <= count -> 0 <= sectors pa count /\ sec_lo pa <= pa < sec_lo pa + 512 /\ pa + count <= sec_hi pa count.
Proof. intros. unfold sec_hi, sec_lo, sectors. lia. Qed.

Lemma readseg_ok pa count offset b :
  0 <= pa -> 0 <= count -> 0 <= offset -> sec_hi pa count < 0x100000000 ->
  offset / 512 + 1 + sectors pa count <= 0x10000000 -> 2 * sectors pa count <= Z.of_nat (ready b) ->
  exists b', readseg pa count offset b = Some b' /\ Z.of_nat (ready b') = Z.of_nat (ready b) - 2 * sectors pa count /\
    loaded (bm b) (bm b') (sec_lo pa) (sec_hi pa count) (512 * (offset / 512 + 1)).
Proof.
  intros Hpa Hc Ho Hhi Hoff Hr. destruct (sec_span pa count Hc) as (Hn & Hlo & Hlo').
  destruct (readseg_loop (pa + count) (Z.to_nat (sectors pa count)) (sec_lo pa) (offset / 512 + 1) b) as (b' & H & Hr' & Hl).
  1-8: rewrite ?Z2Nat.id by done; unfold sec_hi, sec_lo, sectors in *; lia.
  exists b'. split; [|split; [lia|]].
  - unfold readseg. rewrite round_sector, (u32_small (pa + count)) by lia. unfold SECTSIZE. rewrite u32_small by lia.
    rewrite (loop_upto_exit _ _ _ _ _ H); [done|]. unfold sec_hi, sec_lo in *. unfold TURNS. lia.
  - rewrite Z2Nat.id in Hl by done. exact Hl.
Qed.

(** A range that ends in the last sector below 4 GB: the pointer wraps around. *)
Lemma readseg_spins pa count offset b :
  0 <= pa -> 0 <= count -> 0xfffffe00 < pa + count < 0x100000000 -> readseg pa count offset b = None.
Proof.
  intros Hpa Hc Hend. unfold readseg. rewrite loop_upto_nat, round_sector, (u32_small (pa + count)) by lia.
  generalize (u32 (offset / SECTSIZE + 1)) as off. assert (Hlo : sec_lo pa mod 512 = 0 /\ 0 <= sec_lo pa < 0x100000000) by (unfold sec_lo; lia).
  revert Hlo. generalize (sec_lo pa) as q. generalize (Pos.to_nat TURNS) as n. intros n. revert b.
  induction n as [|n IH]; intros b q Hq off; [done|]. cbn [loop_nat]. unfold readseg_turn at 1.
  replace (q <? pa + count) with true by lia. destruct (readsect q off b) as [b1|]; [|done].
  apply IH. unfold SECTSIZE, u32. lia.
Qed.

(** ** The rest of a segment *)

Lemma load8_out m a l b : b < a \/ a + Z.of_nat (length l) <= b -> load8 (store_bytes m a l) b = load8 m b.
Proof. intros H. by rewrite load8_store_bytes, decide_False by lia. Qed.
Lemma load32_out m a l b : b + 4 <= a \/ a + Z.of_nat (length l) <= b -> load32 (store_bytes m a l) b = load32 m b.
Proof. intros H. unfold load32. by rewrite !load8_out by lia. Qed.

Lemma zero_loop ph m n :
  let a := ph_pa m ph + ph_filesz m ph in
  ph_memsz m ph = ph_filesz m ph + Z.of_nat n -> Z.of_nat n < 0x100000000 -> 0 <= a -> a + Z.of_nat n <= 0x100000000 ->
  a + Z.of_nat n <= ph \/ ph + 24 <= a ->
  loop_upto 0x100000000 (zero_turn ph) (0, m) = inr (store_bytes m a (replicate n 0)).
Proof.
  intros a Hsz Hn Ha Hhi Hdis.
  assert (Hf : forall k, (k <= n)%nat -> let m' := store_bytes m a (replicate k 0) in
    ph_memsz m' ph = ph_memsz m ph /\ ph_filesz m' ph = ph_filesz m ph /\ ph_pa m' ph = ph_pa m ph).
  { intros k Hk m'. unfold ph_memsz, ph_filesz, ph_pa, m'. by rewrite !load32_out by (rewrite length_replicate; lia). }
  apply (loop_trace (fun k => (Z.of_nat k, store_bytes m a (replicate k 0))) n); [done| | |lia].
  - intros k Hk. unfold zero_turn. destruct (Hf k ltac:(lia)) as (-> & -> & ->). rewrite Hsz, !u32_small by lia.
    replace (Z.of_nat k <? ph_filesz m ph + Z.of_nat n - ph_filesz m ph) with true by lia.
    rewrite Nat2Z.inj_succ, <- Z.add_1_r, replicate_S_end, store_bytes_app, length_replicate. cbn [store_bytes].
    done.
  - unfold zero_turn. destruct (Hf n ltac:(lia)) as (-> & -> & ->). rewrite Hsz, !u32_small by lia.
    by replace (Z.of_nat n <? ph_filesz m ph + Z.of_nat n - ph_filesz m ph) with false by lia.
Qed.

(** ** The kernel image: the disk from its second sector on *)

Definition dbyte (o : Z) : Z := disk (512 + o).
Definition dload16 (o : Z) : Z := dbyte o + 0x100 * dbyte (o + 1).
Definition dload32 (o : Z) : Z :=
  dbyte o + 0x100 * dbyte (o + 1) + 0x10000 * dbyte (o + 2) + 0x1000000 * dbyte (o + 3).

Record segment := mkSeg { sg_off : Z; sg_pa : Z; sg_filesz : Z; sg_memsz : Z }.
Definition phoff : Z := dload32 28.
Definition phnum : Z := dload16 44.
(** The program header [k]. *)
Definition dseg (k : Z) : segment :=
  let h := phoff + 32 * k in mkSeg (dload32 (h + 4)) (dload32 (h + 12)) (dload32 (h + 16)) (dload32 (h + 20)).

Definition seg_lo (g : segment) : Z := sec_lo (sg_pa g).
Definition seg_hi (g : segment) : Z := sec_hi (sg_pa g) (sg_memsz g).

(** A segment that the loader can load: at the same place in its sector in memory as
    in the file, below the last sector of the address space, off the header. *)
Record seg_ok (g : segment) : Prop := {
  so_size : sg_filesz g <= sg_memsz g;
  so_place : sg_pa g mod 512 = sg_off g mod 512;
  so_high : seg_hi g < 0x100000000;
  so_header : seg_hi g <= ELFHDR \/ ELFHDR + 4096 <= seg_lo g;
  so_disk : sg_off g / 512 + 1 + sectors (sg_pa g) (sg_memsz g) <= 0x10000000 }.

(** The segment as it is to be found in memory. *)
Definition seg_loaded (m : bytemem) (g : segment) : Prop :=
  forall i, 0 <= i < sg_memsz g -> load8 m (sg_pa g + i) = if i <? sg_filesz g then dbyte (sg_off g + i) else 0.

Definition header_loaded (m : bytemem) : Prop := forall o, 0 <= o < 4096 -> load8 m (ELFHDR + o) = dbyte o.

Lemma dload32_range o : 0 <= dload32 o < 0x100000000.
Proof.
  unfold dload32, dbyte. pose proof (disk_byte (512 + o)). pose proof (disk_byte (512 + (o + 1))).
  pose proof (disk_byte (512 + (o + 2))). pose proof (disk_byte (512 + (o + 3))). lia.
Qed.

Lemma header_load32 m o : header_loaded m -> 0 <= o -> o + 4 <= 4096 -> load32 m (ELFHDR + o) = dload32 o.
Proof. intros H Ho Ho4. unfold load32, dload32. by rewrite <- !Z.add_assoc, !H by lia. Qed.

Lemma header_seg m k : header_loaded m -> 0 <= phoff -> 0 <= k -> phoff + 32 * k + 32 <= 4096 ->
  let ph := ELFHDR + (phoff + 32 * k) in
  mkSeg (ph_offset m ph) (ph_pa m ph) (ph_filesz m ph) (ph_memsz m ph) = dseg k.
Proof.
  intros H Hp Hk Hhi ph. unfold ph_offset, ph_pa, ph_filesz, ph_memsz, dseg, ph.
  by rewrite <- !(Z.add_assoc ELFHDR), !header_load32 by (done || lia).
Qed.

Lemma load_ph_ok b k :
  header_loaded (bm b) -> 0 <= phoff -> 0 <= k -> phoff + 32 * k + 32 <= 4096 -> seg_ok (dseg k) ->
  2 * sectors (sg_pa (dseg k)) (sg_memsz (dseg k)) <= Z.of_nat (ready b) ->
  exists b', load_ph (ELFHDR + (phoff + 32 * k)) b = Some b' /\ header_loaded (bm b') /\ seg_loaded (bm b') (dseg k) /\
    (forall a, ~ (seg_lo (dseg k) <= a < seg_hi (dseg k)) -> load8 (bm b') a = load8 (bm b) a) /\
    Z.of_nat (ready b') = Z.of_nat (ready b) - 2 * sectors (sg_pa (dseg k)) (sg_memsz (dseg k)).
Proof.
  intros Hh Hp Hk Hhi Hg Hr. set (ph := ELFHDR + (phoff + 32 * k)).
  pose proof (header_seg (bm b) k Hh Hp Hk Hhi) as Hsg. cbv zeta in Hsg. fold ph in Hsg.
  assert (Hrange : 0 <= sg_pa (dseg k) /\ 0 <= sg_memsz (dseg k) /\ 0 <= sg_filesz (dseg k) /\ 0 <= sg_off (dseg k)).
  { unfold dseg. cbn. repeat split; apply dload32_range. }
  destruct Hrange as (R1 & R2 & R3 & R4). destruct Hg as [G1 G2 G3 G4 G5].
  remember (dseg k) as g eqn:Hgk. unfold seg_lo, seg_hi in *.
  destruct (readseg_ok (sg_pa g) (sg_memsz g) (sg_off g) b R1 R2 R4 G3 G5 Hr) as (b1 & H1 & Hr1 & Hl1).
  destruct (sec_span (sg_pa g) (sg_memsz g) R2) as (_ & Hspan & Hspan').
  assert (Hh1 : header_loaded (bm b1)).
  { intros o Ho. rewrite Hl1, decide_False by lia. by apply Hh. }
  pose proof (header_seg (bm b1) k Hh1 Hp Hk Hhi) as Hsg1. cbv zeta in Hsg1. fold ph in Hsg1.
  rewrite <- Hgk in Hsg1.
  assert (Hz : loop_upto 0x100000000 (zero_turn ph) (0, bm b1) =
    inr (store_bytes (bm b1) (sg_pa g + sg_filesz g) (replicate (Z.to_nat (sg_memsz g - sg_filesz g)) 0))).
  { assert (E1 : ph_pa (bm b1) ph = sg_pa g) by (by rewrite <- Hsg1).
    assert (E2 : ph_filesz (bm b1) ph = sg_filesz g) by (by rewrite <- Hsg1).
    assert (E3 : ph_memsz (bm b1) ph = sg_memsz g) by (by rewrite <- Hsg1).
    rewrite (zero_loop ph (bm b1) (Z.to_nat (sg_memsz g - sg_filesz g))); rewrite ?E1, ?E2, ?E3, ?Z2Nat.id by lia; done || lia. }
  exists (set_bm (store_bytes (bm b1) (sg_pa g + sg_filesz g) (replicate (Z.to_nat (sg_memsz g - sg_filesz g)) 0)) b1).
  assert (Hout : forall a, a < sg_pa g + sg_filesz g \/ sg_pa g + sg_memsz g <= a ->
    load8 (store_bytes (bm b1) (sg_pa g + sg_filesz g) (replicate (Z.to_nat (sg_memsz g - sg_filesz g)) 0)) a = load8 (bm b1) a).
  { intros a Ha. apply load8_out. rewrite length_replicate. lia. }
  split; [|split; [|split; [|split]]].
  - unfold load_ph. replace (ph_pa (bm b) ph) with (sg_pa g) by (by rewrite <- Hsg).
    replace (ph_memsz (bm b) ph) with (sg_memsz g) by (by rewrite <- Hsg).
    replace (ph_offset (bm b) ph) with (sg_off g) by (by rewrite <- Hsg). rewrite H1. cbn [mbind option_bind]. by rewrite Hz.
  - intros o Ho. cbn [bm set_bm]. rewrite Hout by lia. by apply Hh1.
  - intros i Hi. cbn [bm set_bm]. destruct (Z.ltb_spec i (sg_filesz g)).
    + rewrite Hout, Hl1, decide_True by lia. unfold dbyte. f_equal. unfold sec_lo. lia.
    + rewrite load8_store_bytes, length_replicate, decide_True by lia. by rewrite lookup_replicate_2 by lia.
  - intros a Ha. cbn [bm set_bm]. rewrite Hout, Hl1, decide_False by lia. done.
  - done.
Qed.

(** ** bootmain *)

(** The sectors that the segments from [j] on take. *)
Fixpoint sectors_from (n : nat) (j : Z) : Z :=
  match n with
  | O => 0
  | S n => sectors (sg_pa (dseg j)) (sg_memsz (dseg j)) + sectors_from n (j + 1)
  end.

(** The kernel image: a header within the first page, segments that can be loaded,
    and none of them in a sector that a later one is read into. *)
Record kernel_image : Prop := {
  ki_magic : dload32 0 = BOOT_MAGIC;
  ki_phdrs : phoff + 32 * phnum <= 4096;
  ki_segs k : 0 <= k < phnum -> seg_ok (dseg k);
  ki_order j k : 0 <= j < k -> k < phnum ->
    sg_pa (dseg j) + sg_memsz (dseg j) <= seg_lo (dseg k) \/ seg_hi (dseg k) <= sg_pa (dseg j) }.

Lemma dload16_range o : 0 <= dload16 o < 0x10000.
Proof. unfold dload16, dbyte. pose proof (disk_byte (512 + o)). pose proof (disk_byte (512 + (o + 1))). lia. Qed.

Lemma phoff_range : 0 <= phoff.
Proof. apply dload32_range. Qed.

Lemma sectors_from_nonneg n j : 0 <= sectors_from n j.
Proof.
  revert j. induction n as [|n IH]; intros j; [done|]. cbn [sectors_from]. specialize (IH (j + 1)).
  destruct (sec_span (sg_pa (dseg j)) (sg_memsz (dseg j))) as (? & _); [apply dload32_range|lia].
Qed.

Lemma load_phs_ok n j b :
  kernel_image -> 0 <= j -> j + Z.of_nat n = phnum -> header_loaded (bm b) ->
  (forall k, 0 <= k < j -> seg_loaded (bm b) (dseg k)) -> 2 * sectors_from n j <= Z.of_nat (ready b) ->
  exists b', load_phs n (ELFHDR + (phoff + 32 * j)) b = Some b' /\ header_loaded (bm b') /\
    (forall k, 0 <= k < phnum -> seg_loaded (bm b') (dseg k)) /\
    (forall a, (forall k, j <= k < phnum -> ~ (seg_lo (dseg k) <= a < seg_hi (dseg k))) -> load8 (bm b') a = load8 (bm b) a).
Proof.
  intros Hi. pose proof (ki_phdrs Hi) as Hph. revert j b. induction n as [|n IH]; intros j b Hj Hn Hh Hdone Hr.
  - exists b. split; [done|]. split; [done|]. split; [|done]. intros k Hk. apply Hdone. lia.
  - cbn [load_phs sectors_from] in *. pose proof (sectors_from_nonneg n (j + 1)).
    destruct (load_ph_ok b j Hh phoff_range Hj) as (b1 & H1 & Hh1 & Hs1 & Hf1 & Hr1); [lia|apply (ki_segs Hi); lia|lia|].
    rewrite H1. cbn [mbind option_bind].
    replace (ELFHDR + (phoff + 32 * j) + 32) with (ELFHDR + (phoff + 32 * (j + 1))) by lia.
    destruct (IH (j + 1) b1) as (b2 & H2 & Hh2 & Hs2 & Hf2); [lia|lia|done| |lia|].
    { intros k Hk. destruct (decide (k = j)) as [->|Hkj]; [done|].
      intros i Hi'. rewrite Hf1; [by apply Hdone; lia|]. destruct (ki_order Hi k j); lia. }
    exists b2. split; [done|]. split; [done|]. split; [done|]. intros a Ha. rewrite Hf2, Hf1; [done|apply Ha; lia|].
    intros k Hk. apply Ha. lia.
Qed.

Lemma bootmain_ok b :
  kernel_image -> 2 * (8 + sectors_from (Z.to_nat phnum) 0) <= Z.of_nat (ready b) ->
  exists b', bootmain b = Jump (dload32 24) b' /\
    (forall k, 0 <= k < phnum -> seg_loaded (bm b') (dseg k)) /\
    (forall a, ~ (ELFHDR <= a < ELFHDR + 4096) ->
       (forall k, 0 <= k < phnum -> ~ (seg_lo (dseg k) <= a < seg_hi (dseg k))) -> load8 (bm b') a = load8 (bm b) a).
Proof.
  intros Hi Hr. unfold bootmain. pose proof (sectors_from_nonneg (Z.to_nat phnum) 0) as Hs0.
  pose proof phoff_range as Hpo. pose proof (dload16_range 44) as Hpn. fold phnum in Hpn. pose proof (ki_phdrs Hi) as Hph.
  assert (Hsec : sectors ELFHDR (SECTSIZE * 8) = 8 /\ sec_lo ELFHDR = ELFHDR /\ sec_hi ELFHDR (SECTSIZE * 8) = ELFHDR + 4096) by done.
  destruct Hsec as (S1 & S2 & S3).
  destruct (readseg_ok ELFHDR (SECTSIZE * 8) 0 b) as (b1 & H1 & Hr1 & Hl1); [done..|rewrite S1; lia|].
  rewrite S1 in Hr1. rewrite S2, S3 in Hl1. rewrite H1.
  assert (Hh1 : header_loaded (bm b1)).
  { intros o Ho. rewrite Hl1, decide_True by lia. unfold dbyte. f_equal. lia. }
  assert (E0 : elf_magic (bm b1) = dload32 0) by (unfold elf_magic; rewrite <- (Z.add_0_r ELFHDR); by apply header_load32).
  assert (E1 : elf_phoff (bm b1) = phoff) by (by apply header_load32).
  assert (E2 : elf_phnum (bm b1) = phnum).
  { unfold elf_phnum, load16, phnum, dload16. rewrite <- Z.add_assoc. by rewrite !Hh1. }
  rewrite E0, (ki_magic Hi), E1, E2. change (negb (BOOT_MAGIC =? BOOT_MAGIC)) with false. cbv iota.
  unfold ELFHDR in *. rewrite !u32_small by lia.
  assert (Hloop : exists b2, (if 0x10000 + phoff <? 0x10000 + phoff + 32 * phnum
      then load_phs (Z.to_nat phnum) (0x10000 + phoff) b1 else Some b1) = Some b2 /\ header_loaded (bm b2) /\
    (forall k, 0 <= k < phnum -> seg_loaded (bm b2) (dseg k)) /\
    (forall a, (forall k, 0 <= k < phnum -> ~ (seg_lo (dseg k) <= a < seg_hi (dseg k))) -> load8 (bm b2) a = load8 (bm b1) a)).
  { destruct (load_phs_ok (Z.to_nat phnum) 0 b1 Hi) as (b2 & H2 & Hh2 & Hs2 & Hf2); [lia|lia|done|lia|lia|].
    rewrite Z.mul_0_r, Z.add_0_r in H2. destruct (Z.ltb_spec (0x10000 + phoff) (0x10000 + phoff + 32 * phnum)).
    - by exists b2.
    - exists b1. split; [done|]. split; [done|]. split; [lia|done]. }
  destruct Hloop as (b2 & H2 & Hh2 & Hs2 & Hf2). rewrite H2. exists b2. split; [|split; [done|]].
  - f_equal. by apply (header_load32 (bm b2) 24).
  - intros a Ha Hk. rewrite Hf2, Hl1 by done. by rewrite decide_False.
Qed.
End disk.

(** C10: bootmain loads the kernel the way its ELF headers say: every segment's bytes
    come from the disk, the rest of the segment is zero, nothing outside the
    sectors of the segments and the header's page is written, and control goes to
    the entry point.  Segments must lie in their sectors as in the file and outside
    the header's page, and no later segment may share a sector with an earlier one. *)
Theorem bootmain_loads disk b :
  (forall a, 0 <= disk a < 256) -> kernel_image disk ->
  2 * (8 + sectors_from disk (Z.to_nat (phnum disk)) 0) <= Z.of_nat (ready b) ->
  exists b', bootmain disk b = Jump (dload32 disk 24) b' /\
    (forall k, 0 <= k < phnum disk -> seg_loaded disk (bm b') (dseg disk k)) /\
    (forall a, ~ (ELFHDR <= a < ELFHDR + 4096) ->
       (forall k, 0 <= k < phnum disk -> ~ (seg_lo (dseg disk k) <= a < seg_hi (dseg disk k))) ->
       load8 (bm b') a = load8 (bm b) a).
Proof. intros Hd. by apply bootmain_ok. Qed.

(** readseg never returns for a range that ends in the last sector of the 4 GB
    address space, whatever the disk does: the pointer wraps to 0. *)
Theorem readseg_wraps disk pa count offset b :
  0 <= pa -> 0 <= count -> 0xfffffe00 < pa + count < 0x100000000 -> readseg disk pa count offset b = None.
Proof. apply readseg_spins. Qed.

(** ** A small kernel: one segment of 3 bytes and 697 zeroes at 0x100000 *)

Definition small_image : bytemem :=
  store_bytes (store32 (store32 (store32 (store32 (store32 (store32 (store32 (store32 ∅ 512 BOOT_MAGIC)
    (512 + 24) 0x10000c) (512 + 28) 52) (512 + 44) 1) (512 + 56) 0x1000) (512 + 64) 0x100000) (512 + 68) 3) (512 + 72) 700)
    (512 + 0x1000) [0xeb; 0xfe; 0x90].
Definition small_disk (a : Z) : Z := load8 small_image a.
Definition patient : boot := mkBoot ∅ ∅ (replicate 24 0x50) false.

Lemma small_disk_byte a : 0 <= small_disk a < 256.
Proof. apply mem_ok_store_bytes. repeat apply mem_ok_store32. apply mem_ok_empty. Qed.

Lemma small_kernel : kernel_image small_disk.
Proof.
  assert (Hn : phnum small_disk = 1) by (vm_compute; reflexivity).
  assert (Hg : dseg small_disk 0 = mkSeg 0x1000 0x100000 3 700) by (vm_compute; reflexivity).
  split.
  - vm_compute. reflexivity.
  - vm_compute. discriminate.
  - intros k Hk. replace k with 0 by lia. rewrite Hg. split; [|reflexivity|reflexivity|right|]; vm_compute; discriminate.
  - intros j k Hj Hk. lia.
Qed.

Lemma bootmain_loads_witness : exists b,
  bootmain small_disk patient = Jump 0x10000c b /\ load8 (bm b) 0x100000 = 0xeb /\ load8 (bm b) 0x1002bb = 0.
Proof.
  destruct (bootmain_loads small_disk patient small_disk_byte small_kernel) as (b & H & Hs & _); [vm_compute; discriminate|].
  assert (Hn : phnum small_disk = 1) by (vm_compute; reflexivity).
  assert (Hg : dseg small_disk 0 = mkSeg 0x1000 0x100000 3 700) by (vm_compute; reflexivity).
  specialize (Hs 0 ltac:(rewrite Hn; lia)). rewrite Hg in Hs. exists b. split; [exact H|]. split.
  - transitivity (if 0 <? 3 then dbyte small_disk (0x1000 + 0) else 0); [apply (Hs 0); cbn; lia|vm_compute; reflexivity].
  - transitivity (if 699 <? 3 then dbyte small_disk (0x1000 + 699) else 0); [apply (Hs 699); cbn; lia|reflexivity].
Defined.

Lemma readseg_wraps_witness : readseg small_disk 0xfffffff0 8 0 patient = None.
Proof. apply readseg_wraps; lia. Defined.
