(* ===== verification/ForkSpec.v ===== *)
(** * Copy-on-write fork

    lib/fork.c on the kernel: [duppage] and [fork] as transitions on the abstract
    address spaces, each system call taken through the trap, the page tables read
    by the program through their own mapping. *)
From S2P Require Import Prelude Mmu Mem Console Kstate Pmap PmapAlloc PmapSpace PmapMap PmapDir Env EnvSpec KernInv Sched SchedSpec Syscall SyscallSpec UserMem Trap TrapSpec Ulib UserRun UserCalls.

(** The entry [duppage] gives parent and child in place of [pte]. *)
Definition dup_perm (pte : Z) : Z :=
  if has pte (PTE_W .| PTE_COW) then (PTE_U .| PTE_P) .| PTE_COW else PTE_U .| PTE_P.
Definition dup_pte (pte : Z) : Z := pte_of (frame_of pte) (dup_perm pte).

(** Page [v] of directory [d] shared with directory [n]. *)
Definition dup (M : aspace) (d n v : Z) : aspace :=
  match M !! (d, v) with
  | None => M
  | Some pte =>
      let M1 := <[(n, v) := dup_pte pte]> M in
      if has pte (PTE_W .| PTE_COW) then <[(d, v) := dup_pte pte]> M1 else M1
  end.

Definition keep_pte (pte : Z) : Z := if has pte (PTE_W .| PTE_COW) then dup_pte pte else pte.

(** The address spaces once the pages below [k] of directory [d] are shared with [n]. *)
Definition shared (M : aspace) (d n k : Z) (i : Z * Z) : option Z :=
  if decide (0 <= i.2 < k) then
    if decide (i.1 = n) then dup_pte <$> M !! (d, i.2)
    else if decide (i.1 = d) then keep_pte <$> M !! (d, i.2)
    else M !! i
  else M !! i.

Lemma dup_lookup M d n v i : n <> d ->
  dup M d n v !! i =
    if decide (i = (n, v)) then (match M !! (d, v) with Some pte => Some (dup_pte pte) | None => M !! i end)
    else if decide (i = (d, v)) then keep_pte <$> M !! (d, v) else M !! i.
Proof.
  intros Hnd. unfold dup, keep_pte. destruct (M !! (d, v)) as [pte|] eqn:HM; simpl.
  - destruct (has pte _); rewrite ?lookup_insert; repeat case_decide; simplify_eq; done.
  - repeat case_decide; simplify_eq; done.
Qed.

Lemma shared_step M Mk d n k :
  n <> d -> 0 <= k -> (forall i, Mk !! i = shared M d n k i) -> M !! (n, k) = None ->
  forall i, dup Mk d n k !! i = shared M d n (k + 1) i.
Proof.
  intros Hnd Hk H Hn i. rewrite dup_lookup, !H by done.
  assert (Hdk : shared M d n k (d, k) = M !! (d, k)) by (unfold shared; simpl; rewrite decide_False by lia; done).
  rewrite Hdk. unfold shared. destruct i as [i1 i2]. cbn [fst snd].
  destruct (decide ((i1, i2) = (n, k))) as [[= -> ->]|H1].
  - rewrite (decide_True (P := 0 <= k < k + 1)), (decide_False (P := 0 <= k < k)), !decide_True by lia || done.
    by destruct (M !! (d, k)).
  - destruct (decide ((i1, i2) = (d, k))) as [[= -> ->]|H2].
    + rewrite decide_True by lia. by rewrite decide_False, decide_True by done.
    + destruct (decide (i2 = k)) as [->|H3].
      * assert (i1 <> n /\ i1 <> d) as [??] by (split; congruence).
        rewrite (decide_False (P := 0 <= k < k)) by lia. rewrite decide_True by lia. by rewrite !decide_False by done.
      * by destruct (decide (0 <= i2 < k)), (decide (0 <= i2 < k + 1)); try lia.
Qed.

Lemma mappings_dup M d n v pte j :
  n <> d -> M !! (d, v) = Some pte -> frame_of (dup_pte pte) = frame_of pte -> M !! (n, v) = None ->
  mappings (dup M d n v) j = mappings M j + (if decide (frame_of pte = j) then 1 else 0).
Proof.
  intros Hnd HM Hf Hn. unfold dup. rewrite HM. destruct (has pte _).
  - rewrite mappings_insert_over, (mappings_delete _ _ pte), mappings_insert, Hf by
      (done || by rewrite lookup_insert_ne by congruence). lia.
  - by rewrite mappings_insert, Hf.
Qed.

Section fork.
Context (stack_tf envs_va lapic : Z) (ctx : Trapframe).

(** ** duppage *)

Lemma dup_perm_ok pte : 0 <= dup_perm pte < 4096 /\ perm_bad (dup_perm pte) = false /\ has (dup_perm pte) PTE_W = false.
Proof. unfold dup_perm. by destruct (has pte _). Qed.

(** The entries that [duppage] leaves: same page, user rights, no write. *)
Lemma keep_pte_ok M s l D X k pte :
  vm_ok s l D M X -> M !! k = Some pte ->
  frame_of (dup_pte pte) = frame_of pte /\ frame_of (keep_pte pte) = frame_of pte /\
  (has pte PTE_U = true -> has (keep_pte pte) PTE_U = true).
Proof.
  intros Hvm HM. destruct k as [d v]. destruct (vm_mapped_data Hvm _ _ _ HM) as (Hf & _). pose proof (vm_npages Hvm).
  destruct (frame_of_page_entry (frame_of pte) (dup_perm pte) ltac:(lia) (proj1 (dup_perm_ok pte))) as (_ & Hfr & _ & Hlow).
  fold (pte_of (frame_of pte) (dup_perm pte)) in Hfr, Hlow. fold (dup_pte pte) in Hfr, Hlow.
  split; [done|]. unfold keep_pte. destruct (has pte (PTE_W .| PTE_COW)) eqn:Hw; [|done]. split; [done|]. intros _.
  rewrite has_mod, Hlow by done. unfold dup_perm. by rewrite Hw.
Qed.

(** One page: both mappings, or no page was left for the child's page table. *)
Lemma duppage_ok s c env d l D M child e denv n v pte :
  uready ctx s c env d l D M -> may_use s child true e -> e <> c -> envs s !! e = Some denv ->
  env_pgdir denv = pgdir_kva n -> n <> d -> n ∈ D -> 0 <= child < 0x80000000 -> 0 <= v < NUVPN ->
  M !! (d, v) = Some pte -> M !! (n, v) = None -> (forall k, mappings M k + 2 < 0x10000) ->
  exists s2 env2 r, duppage stack_tf envs_va lapic ctx child v s = Ret r s2 /\
    env_sim env env2 /\ envs s2 = <[c := env2]> (envs s) /\
    ((uready ctx s2 c env2 d l D M /\ mem s2 = mem s /\ l = []) \/
     exists l', uready ctx s2 c env2 d l' D (dup M d n v) /\ data_frame s s2 l D /\
       l' = if present (mem s) n (v / 1024) then l else tail l).
Proof.
  intros Hu Hm Hec He Hpg Hnd HnD Hid Hv HM HMn Hb. pose proof (ur_dir _ _ _ _ _ _ _ _ Hu) as HdD.
  assert (Hvm : vm_ok s l D M no_refs) by (by eapply ur_vm).
  assert (HU : UTOP <= 0xf0000000 /\ NUVPN * 4096 = UTOP) by done. destruct HU as [HUT HNU].
  destruct (mapped_present s l D M no_refs d (4096 * v) pte Hvm HdD ltac:(lia)) as (Hpr & Hent & _).
  { by replace (4096 * v / 4096) with v by lia. }
  assert (Hpx : PDX (4096 * v) = v / 1024 /\ PTX (4096 * v) = v mod 1024).
  { rewrite PDX_div, PTX_div. unfold NUVPN in Hv. lia. }
  destruct Hpx as [Hpx Hptx]. rewrite Hpx in Hpr. rewrite Hpx, Hptx in Hent. unfold duppage.
  rewrite (bind_ret _ _ _ _ _ (uvpt_ok stack_tf envs_va lapic ctx s c env d l D M Hu v Hv Hpr)).
  rewrite Hent. cbv zeta. fold (dup_perm pte). destruct (dup_perm_ok pte) as (Hp1 & Hp2 & Hp3).
  rewrite (u32_small (v * PGSIZE)) by (unfold PGSIZE; lia). replace (v * PGSIZE) with (4096 * v) by (unfold PGSIZE; lia).
  destruct (user_page_map_ok stack_tf envs_va lapic ctx s c env d l D M child e denv n v (4096 * v) v (4096 * v) (dup_perm pte) pte eq_refl eq_refl Hu Hm He Hpg
    Hid Hv Hv Hp1 Hp2 ltac:(congruence) HM ltac:(intros k; specialize (Hb k); lia)) as (s2 & env2 & r & Hr & Hs & Hes & [(-> & Hu2 & Hmm & Hl & _)|(l' & -> & Hu2 & Hdf & Hl')]).
  { rewrite (bind_ret _ _ _ _ _ Hr). change (- E_NO_MEM <? 0) with true. cbv iota.
    exists s2, env2, (- E_INVAL). do 3 (split; [done|]). by left. }
  rewrite (bind_ret _ _ _ _ _ Hr). change (0 <? 0) with false. cbv iota. fold (dup_pte pte) in Hu2.
  rewrite (freed_by_none _ M (n, v)) in Hl' by done. unfold dup. rewrite HM.
  destruct (has pte (PTE_W .| PTE_COW)) eqn:Hw.
  2: { exists s2, env2, 0. do 3 (split; [done|]). right. by exists l'. }
  pose proof (ur_env _ _ _ _ _ _ _ _ Hu) as Henv.
  destruct (user_page_map_ok stack_tf envs_va lapic ctx s2 c env2 d l' D (<[(n, v) := dup_pte pte]> M) 0 c env2 d v (4096 * v) v (4096 * v) (dup_perm pte) pte)
    as (s3 & env3 & r & Hr3 & Hs3 & Hes3 & Hcase); try done.
  { apply (ur_cur _ _ _ _ _ _ _ _ Hu2). }
  { apply (ur_env _ _ _ _ _ _ _ _ Hu2). }
  { apply (ur_pgdir _ _ _ _ _ _ _ _ Hu2). }
  { by rewrite Hp3. }
  { by rewrite lookup_insert_ne by congruence. }
  { intros k. specialize (Hb k). pose proof (mappings_insert_le M (n, v) (dup_pte pte) k). case_decide; lia. }
  assert (Hp2' : present (mem s2) d (v / 1024) = true).
  { destruct (mapped_present s2 l' D (<[(n, v) := dup_pte pte]> M) no_refs d (4096 * v) pte) as (Hx & _);
      [by eapply ur_vm|done|lia| |by rewrite <- Hpx].
    replace (4096 * v / 4096) with v by lia. by rewrite lookup_insert_ne by congruence. }
  destruct Hcase as [(_ & _ & _ & _ & Hx)|(l3 & -> & Hu3 & Hdf3 & Hl3)]; [congruence|].
  rewrite (bind_ret _ _ _ _ _ Hr3). change (0 <? 0) with false. cbv iota. fold (dup_pte pte) in Hu3.
  rewrite Hp2', freed_by_same in Hl3 by (by rewrite lookup_insert_ne by congruence). subst l3.
  exists s3, env3, 0. split; [done|]. split; [by etrans|]. split; [by rewrite Hes3, Hes, insert_insert_eq|].
  right. exists l'. split; [done|]. split; [|done].
  eapply data_frame_trans; [exact Hdf|]. intros t Ht. apply Hdf3. rewrite Hl'. intros Hin. by apply Ht, (elem_of_tail_if (present (mem s) n (v / 1024))).
Qed.
(** ** The loop *)

(** What the program reads in its page tables. *)
Lemma read_page s c env d l D M v :
  uready ctx s c env d l D M -> 0 <= v < NUVPN ->
  exists pde, uvpd stack_tf envs_va lapic ctx (v / 1024) s = Ret pde s /\
    if has pde PTE_P
    then exists pte, uvpt stack_tf envs_va lapic ctx v s = Ret pte s /\
      (if has pte PTE_P then M !! (d, v) = Some pte else M !! (d, v) = None)
    else M !! (d, v) = None.
Proof.
  intros Hu Hv. exists (entry (mem s) d (v / 1024)). unfold NUVPN in Hv.
  split; [apply (uvpd_ok stack_tf envs_va lapic ctx s c env d l D M Hu); lia|].
  pose proof (vo_map _ _ _ _ _ (ur_vm _ _ _ _ _ _ _ _ Hu) d (v / 1024) (v mod 1024) (ur_dir _ _ _ _ _ _ _ _ Hu)
    ltac:(unfold NUPDE; lia) ltac:(lia)) as Hmap.
  replace (1024 * (v / 1024) + v mod 1024) with v in Hmap by lia. unfold uent in Hmap.
  fold (present (mem s) d (v / 1024)). destruct (present (mem s) d (v / 1024)) eqn:Hp; [|done].
  eexists. split; [by apply (uvpt_ok stack_tf envs_va lapic ctx s c env d l D M Hu)|].
  by destruct (has (entry (mem s) (frame_of (entry (mem s) d (v / 1024))) (v mod 1024)) PTE_P).
Qed.

Section loop.
Context (s0 : kstate) (c : Z) (env0 : Env) (d : Z) (l0 : list Z) (D : gset Z) (M : aspace).
Context (child e n : Z) (denv : Env).
Context (Hu0 : uready ctx s0 c env0 d l0 D M).
Context (Hchild : may_use s0 child true e) (Hec : e <> c) (He : envs s0 !! e = Some denv).
Context (Hpg : env_pgdir denv = pgdir_kva n) (Hnd : n <> d) (HnD : n ∈ D) (Hid : 0 <= child < 0x80000000).
Context (Hnew : forall v, M !! (n, v) = None) (Hb : forall j, 2 * mappings M j + 2 < 0x10000).

(** The state before page [k]: an exact copy up to there, or no memory is left. *)
Record sharing (k : Z) (s : kstate) (env : Env) (l : list Z) (Mk : aspace) : Prop := {
  sh_ready : uready ctx s c env d l D Mk;
  sh_sim : env_sim env0 env;
  sh_envs : envs s = <[c := env]> (envs s0);
  sh_data : data_frame s0 s l0 D;
  sh_todo v : k <= v -> Mk !! (d, v) = M !! (d, v) /\ Mk !! (n, v) = None;
  sh_count j : mappings Mk j + mappings (unmap M d 0 k) j <= 2 * mappings M j;
  sh_free t : t ∈ l -> t ∈ l0;
  sh_used : Z.of_nat (length l0) <= Z.of_nat (length l) + k / 1024 +
    (if negb (k mod 1024 =? 0) && present (mem s) n (k / 1024) then 1 else 0);
  sh_exact : (forall i, Mk !! i = shared M d n k i) \/ l = [] }.

Lemma sharing_start : sharing 0 s0 env0 l0 M.
Proof.
  split; try done.
  - by rewrite insert_id by (by eapply ur_env).
  - intros j. rewrite unmap_empty. lia.
  - simpl. lia.
  - left. intros [i1 i2]. unfold shared. simpl. by rewrite decide_False by lia.
Qed.

Lemma sharing_count_none k Mk j :
  0 <= k -> M !! (d, k) = None -> mappings Mk j + mappings (unmap M d 0 k) j <= 2 * mappings M j ->
  mappings Mk j + mappings (unmap M d 0 (k + 1)) j <= 2 * mappings M j.
Proof.
  intros Hk HM H. rewrite <- unmap_step by done. rewrite delete_id; [done|].
  rewrite unmap_lookup. by case_decide.
Qed.

Lemma sharing_used k len x (p p' : Z -> bool) :
  0 <= k -> x <= len + k / 1024 + (if negb (k mod 1024 =? 0) && p (k / 1024) then 1 else 0) ->
  (p (k / 1024) = true -> p' (k / 1024) = true) ->
  x <= len + (k + 1) / 1024 + (if negb ((k + 1) mod 1024 =? 0) && p' ((k + 1) / 1024) then 1 else 0).
Proof.
  intros Hk H Hp. destruct (Z.eqb_spec ((k + 1) mod 1024) 0) as [|Hn].
  - destruct (negb (k mod 1024 =? 0) && p (k / 1024)); simpl; lia.
  - replace ((k + 1) / 1024) with (k / 1024) by lia. cbn [negb andb].
    destruct (p (k / 1024)) eqn:E; [rewrite Hp by done|]; destruct (negb (k mod 1024 =? 0)), (p' (k / 1024)); simpl in H; lia.
Qed.

(** A page taken for the page table: it is there afterwards. *)
Lemma sharing_used_table k len x (p p' : Z -> bool) :
  0 <= k -> x <= len + 1 + k / 1024 + (if negb (k mod 1024 =? 0) && p (k / 1024) then 1 else 0) ->
  p (k / 1024) = false -> p' (k / 1024) = true ->
  x <= len + (k + 1) / 1024 + (if negb ((k + 1) mod 1024 =? 0) && p' ((k + 1) / 1024) then 1 else 0).
Proof.
  intros Hk H Hp Hp'. rewrite Hp, andb_false_r in H. destruct (Z.eqb_spec ((k + 1) mod 1024) 0) as [|Hn].
  - simpl. lia.
  - replace ((k + 1) / 1024) with (k / 1024) by lia. rewrite Hp'. simpl. lia.
Qed.

Lemma sharing_none k s env l Mk :
  0 <= k -> sharing k s env l Mk -> Mk !! (d, k) = None -> sharing (k + 1) s env l Mk.
Proof.
  intros Hk [H1 H2 H3 H4 H5 H6 H7 H8 H9] Hn. destruct (H5 k) as [Hdk Hnk]; [lia|]. split; try done.
  - intros v Hv. apply H5. lia.
  - intros j. apply sharing_count_none; [done|congruence|apply H6].
  - by apply sharing_used with (present (mem s) n).
  - destruct H9 as [H9|?]; [left|by right]. intros i. rewrite <- (shared_step M Mk d n k Hnd Hk H9 (Hnew k) i).
    unfold dup. by rewrite Hn.
Qed.

Lemma sharing_step k s env l Mk :
  0 <= k < NUVPN -> sharing k s env l Mk ->
  exists s' env' l' Mk', fork_page stack_tf envs_va lapic ctx child (PGSIZE * k) s = Ret tt s' /\
    sharing (k + 1) s' env' l' Mk'.
Proof.
  intros Hk Hsh. pose proof Hsh as [H1 H2 H3 H4 H5 H6 H7 H8 H9].
  assert (Hpx : PDX (PGSIZE * k) = k / 1024 /\ PGNUM (PGSIZE * k) = k).
  { rewrite PDX_div, PGNUM_div. unfold PGSIZE, NUVPN in *. lia. }
  destruct Hpx as [Hpx Hpn]. unfold fork_page. rewrite Hpx, Hpn.
  destruct (read_page s c env d l D Mk k H1 Hk) as (pde & Hpde & Hrd). rewrite (bind_ret _ _ _ _ _ Hpde).
  destruct (has pde PTE_P).
  2: { exists s, env, l, Mk. split; [done|]. apply sharing_none; [lia|done..]. }
  destruct Hrd as (pte & Hpte & HM). rewrite (bind_ret _ _ _ _ _ Hpte). destruct (has pte PTE_P).
  2: { exists s, env, l, Mk. split; [done|]. apply sharing_none; [lia|done..]. }
  destruct (H5 k) as [Hdk Hnk]; [lia|]. rewrite HM in Hdk. symmetry in Hdk.
  assert (Hm : may_use s child true e).
  { eapply (may_use_sim s0); [by eapply ur_cur|by eapply ur_cur|by eapply ur_env|done..]. }
  destruct (duppage_ok s c env d l D Mk child e denv n k pte) as (s2 & env2 & r & Hr & Hs & Hes & Hcase); try done.
  { rewrite H3. by rewrite lookup_insert_ne by congruence. }
  { intros j. specialize (Hb j). specialize (H6 j). pose proof (mappings_nonneg (unmap M d 0 k) j). lia. }
  rewrite (bind_ret _ _ _ _ _ Hr). exists s2, env2.
  assert (Hes' : envs s2 = <[c := env2]> (envs s0)) by (by rewrite Hes, H3, insert_insert_eq).
  assert (Hs' : env_sim env0 env2) by (by etrans).
  assert (Hcnt : forall j, mappings (unmap M d 0 (k + 1)) j =
    mappings (unmap M d 0 k) j - (if decide (frame_of pte = j) then 1 else 0)).
  { intros j. rewrite <- unmap_step by lia. apply mappings_delete. rewrite unmap_lookup. by rewrite decide_False by lia. }
  assert (Hfr : frame_of (dup_pte pte) = frame_of pte).
  { unfold dup_pte. apply (frame_of_pte Mk s l D no_refs (d, k)); [by eapply ur_vm|done|exact (proj1 (dup_perm_ok pte))]. }
  destruct Hcase as [(Hu2 & Hmm & ->)|(l' & Hu2 & Hdf & Hl')].
  - exists [], Mk. split; [done|]. split; try done.
    + by eapply (data_frame_ext s0 s0 s s2).
    + intros v Hv. apply H5. lia.
    + intros j. rewrite Hcnt. specialize (H6 j). case_decide; lia.
    + rewrite Hmm. apply sharing_used with (present (mem s) n); [lia|done..].
    + by right.
  - exists l', (dup Mk d n k). split; [done|]. split; try done.
    + eapply data_frame_trans; [exact H4|]. intros t Ht. apply Hdf. intros ?. by apply Ht, H7.
    + intros v Hv. rewrite dup_lookup by done. rewrite dup_lookup by done.
      rewrite !decide_False by (intros [= ?]; lia || congruence). apply H5. lia.
    + intros j. rewrite Hcnt, (mappings_dup _ _ _ _ pte) by done. specialize (H6 j). case_decide; lia.
    + intros t. rewrite Hl'. intros Hin%elem_of_tail_if. by apply H7.
    + assert (Hp' : present (mem s2) n (k / 1024) = true).
      { destruct (mapped_present s2 l' D (dup Mk d n k) no_refs n (PGSIZE * k) (dup_pte pte)) as (Hx & _); [by eapply ur_vm|done|..].
        - unfold PGSIZE, NUVPN in *. change UTOP with (4096 * 977920). lia.
        - replace (PGSIZE * k / 4096) with k by (unfold PGSIZE; lia). rewrite dup_lookup, decide_True by done. by rewrite HM.
        - by rewrite <- Hpx. }
      destruct (Bool.bool_dec (present (mem s) n (k / 1024)) true) as [Hp|Hp%not_true_is_false]; rewrite Hp in Hl'; rewrite Hl'.
      * apply sharing_used with (present (mem s) n); [lia|done..].
      * destruct l as [|t l]; [apply sharing_used with (present (mem s) n); [lia|done..]|].
        apply sharing_used_table with (present (mem s) n); [lia| |done..]. revert H8. cbn [length tail]. lia.
    + destruct H9 as [H9| ->]; [left; apply shared_step; [done|lia|done..]|right]. by rewrite Hl'; destruct (present _ _ _).
Qed.
End loop.

(** ** The parent *)

Context (handler_va thisenv_va pgfault_upcall pgfault_fn : Z).

(** The pages fork shares are those below the user stack's top. *)
Definition fork_pages : Z := USTACKTOP / PGSIZE.
Definition xstack_page : Z := (UXSTACKTOP - PGSIZE) / PGSIZE.

(** The entries of [M] once directory [n] holds the copy of [d], with page [p] as
    its exception stack. *)
Definition forked_map (M : aspace) (d n p : Z) (i : Z * Z) : option Z :=
  if decide (i = (n, xstack_page)) then Some (pte_of p ((PTE_P .| PTE_U) .| PTE_W)) else shared M d n fork_pages i.

Section parent.
Context (s0 : kstate) (c : Z) (env0 : Env) (d : Z) (l0 : list Z) (D : gset Z) (M : aspace).
Context (child e n : Z) (denv : Env).
Context (Hu0 : uready ctx s0 c env0 d l0 D M).
Context (Hchild : may_use s0 child true e) (Hec : e <> c) (He : envs s0 !! e = Some denv).
Context (Hpg : env_pgdir denv = pgdir_kva n) (Hnd : n <> d) (HnD : n ∈ D) (Hid : 0 < child < 0x80000000).
Context (Hnew : forall v, M !! (n, v) = None) (Hb : forall j, 2 * mappings M j + 2 < 0x10000).

(** After the loop. *)
Lemma fork_loop_ok :
  exists s env l Mk, for_each (seqZ 0 (USTACKTOP / PGSIZE))
      (fun i => fork_page stack_tf envs_va lapic ctx child (PGSIZE * i)) s0 = Ret tt s /\
    sharing s0 c env0 d l0 D M n fork_pages s env l Mk.
Proof.
  destruct (for_each_seqZ (fun k s => exists env l Mk, sharing s0 c env0 d l0 D M n k s env l Mk) 0 (USTACKTOP / PGSIZE)
    (fun i => fork_page stack_tf envs_va lapic ctx child (PGSIZE * i)) s0) as (s & H & env & l & Mk & Hsh); [done|..].
  - exists env0, l0, M. by eapply sharing_start.
  - intros k s Hk (env & l & Mk & Hsh). assert (Hk' : 0 <= k < NUVPN).
    { change (USTACKTOP / PGSIZE) with 977918 in Hk. unfold NUVPN. lia. }
    destruct (sharing_step s0 c env0 d l0 D M child e n denv Hu0 Hchild Hec He Hpg Hnd HnD ltac:(lia) Hnew Hb k s env l Mk Hk' Hsh)
      as (s' & env' & l' & Mk' & H' & Hsh'). exists s'. split; [done|]. by exists env', l', Mk'.
  - exists s, env, l, Mk. done.
Qed.
Definition fork_done (s' : kstate) : Prop :=
  exists env' l' M' p, uready ctx s' c env' d l' D M' /\ env_sim env0 env' /\
    envs s' = <[c := env']> (<[e := set_env_status ENV_RUNNABLE
      (set_env_pgfault_upcall (env_pgfault_upcall env0) denv)]> (envs s0)) /\
    (forall i, M' !! i = forked_map M d n p i) /\ p ∈ l0 /\ (forall j, 0 <= j < 1024 -> entry (mem s') p j = 0) /\
    data_frame s0 s' l0 D.

Lemma fork_parent_ok tpte :
  0 <= thisenv_va < USTACKTOP -> thisenv_va mod 4 = 0 -> M !! (d, thisenv_va / 4096) = Some tpte ->
  has tpte PTE_U = true ->
  load32 (mem s0) (4096 * frame_of tpte + thisenv_va mod 4096) = UENVS + sizeof_Env * c ->
  let r := fork_parent stack_tf envs_va lapic ctx thisenv_va child s0 in
  (exists s', r = Ret child s' /\ fork_done s') \/ (exists s', r = Monitor s' /\ Z.of_nat (length l0) < 957).
Proof.
  intros Htv Hta HtM HtU Hword. cbv zeta. unfold fork_parent.
  destruct fork_loop_ok as (s1 & env1 & l1 & M1 & H1 & Hsh). rewrite (bind_ret _ _ _ _ _ H1).
  destruct Hsh as [Hu1 Hs1 Hes1 Hdf1 Htodo _ Hfree Hused Hexact].
  assert (Hm1 : may_use s1 child true e).
  { eapply (may_use_sim s0); [by eapply ur_cur|by eapply ur_cur|by eapply ur_env|done..]. }
  assert (He1 : envs s1 !! e = Some denv) by (rewrite Hes1; by rewrite lookup_insert_ne by congruence).
  destruct (user_page_alloc_ok stack_tf envs_va lapic ctx s1 c env1 d l1 D M1 child e denv xstack_page (UXSTACKTOP - PGSIZE) ((PTE_P .| PTE_U) .| PTE_W) n)
    as (s2 & env2 & r & Hr & Hs2 & Hes2 & _ & Hcase); [done|done|done|done|done|lia|done|done|done|].
  rewrite (bind_ret _ _ _ _ _ Hr).
  destruct Hcase as [(-> & Hu2 & Hl1)|(p & l2 & -> & Hhd & Hu2 & Hdf2 & Hz & _)].
  { change (- E_NO_MEM <? 0) with true. cbv iota. right. destruct (user_panic_ok (A := Z) stack_tf envs_va lapic ctx s2 c env2 d l1 D M1 Hu2) as (s' & Hp).
    exists s'. split; [done|]. change (fork_pages / 1024) with 954 in Hused.
    destruct (negb (fork_pages mod 1024 =? 0) && present (mem s1) n 954); lia. }
  change (0 <? 0) with false. cbv iota. left.
  destruct Hexact as [Hexact| ->]; [|done].
  set (M2 := <[_ := _]> M1) in Hu2.
  assert (HM2 : forall i, M2 !! i = forked_map M d n p i).
  { intros i. unfold M2, forked_map. rewrite lookup_insert. repeat case_decide; simplify_eq; done. }
  assert (Hdf : data_frame s0 s2 l0 D).
  { eapply data_frame_trans; [exact Hdf1|]. intros t Ht. apply Hdf2. intros ?. by apply Ht, Hfree. }
  assert (Ht2 : M2 !! (d, thisenv_va / 4096) = Some (keep_pte tpte)).
  { rewrite HM2. unfold forked_map, shared. cbn [fst snd]. rewrite decide_False by congruence.
    assert (HT : USTACKTOP = 4096 * fork_pages) by done. rewrite decide_True, decide_False, decide_True by (done || lia).
    by rewrite HtM. }
  destruct (keep_pte_ok M s0 l0 D no_refs _ _ (ur_vm _ _ _ _ _ _ _ _ Hu0) HtM) as (_ & Hfr & HU).
  assert (HT : USTACKTOP <= UTOP) by done.
  assert (Hrd : uload32 stack_tf envs_va lapic ctx thisenv_va s2 = Ret (UENVS + sizeof_Env * c) s2).
  { rewrite (uload32_mapped stack_tf envs_va lapic ctx s2 c env2 d l2 D M2 Hu2 thisenv_va (keep_pte tpte)) by (done || lia || by apply HU).
    f_equal. rewrite <- Hword, Hfr, !load32_entry by lia.
    apply (mapped_kept s0 s2 l0 D M no_refs (d, thisenv_va / 4096) tpte (ur_vm _ _ _ _ _ _ _ _ Hu0) Hdf HtM). lia. }
  rewrite (bind_ret _ _ _ _ _ Hrd). unfold user_envs.
  replace ((UENVS + sizeof_Env * c - UENVS) / sizeof_Env) with c by (unfold sizeof_Env; lia).
  erewrite bind_ret by (apply get_env_eq; by eapply ur_env).
  destruct (user_set_upcall_ok stack_tf envs_va lapic ctx s2 c env2 d l2 D M2 child (env_pgfault_upcall env2) e denv) as (s3 & env3 & Hr3 & Hu3 & Hs3 & Hes3 & Hm3); try done.
  { eapply (may_use_sim s1); [by eapply ur_cur|by eapply ur_cur|by eapply ur_env|done..]. }
  { rewrite Hes2. by rewrite lookup_insert_ne by congruence. }
  { lia. }
  rewrite (bind_ret _ _ _ _ _ Hr3). change (0 <? 0) with false. cbv iota.
  set (denv3 := set_env_pgfault_upcall _ denv) in Hes3.
  assert (He3 : envs s3 !! e = Some denv3) by (rewrite Hes3, lookup_insert_ne by congruence; apply lookup_insert_eq).
  destruct (user_set_runnable_ok stack_tf envs_va lapic ctx s3 c env3 d l2 D M2 child e denv3) as (s4 & env4 & Hr4 & Hu4 & Hs4 & Hes4 & Hm4); try done.
  { eapply (may_use_mono s1); [by erewrite !ur_cur by done| |done]. intros i ei Hi. rewrite Hes3, Hes2, !lookup_insert.
    rewrite Hes1, lookup_insert in Hi. destruct (env_sim_fields _ _ Hs3) as (E1 & E2 & _ & E3 & _), (env_sim_fields _ _ Hs2) as (E4 & E5 & _ & E6 & _).
    destruct (decide (c = i)) as [<-|Hci].
    - injection Hi as <-. exists env3. by rewrite E2, E5, E1, E4, E3, E6.
    - rewrite Hes1, lookup_insert_ne by done. destruct (decide (e = i)) as [<-|Hei]; [|by exists ei].
      exists denv3. rewrite He in Hi. by injection Hi as <-. }
  { lia. }
  rewrite (bind_ret _ _ _ _ _ Hr4). change (0 <? 0) with false. cbv iota.
  exists s4. split; [done|]. exists env4, l2, M2, p. split; [done|].
  assert (Hs02 : env_sim env0 env2) by (by etrans).
  split; [by etrans; [exact Hs02|]; etrans; [exact Hs3|]|]. split.
  { destruct (env_sim_fields _ _ Hs02) as (_ & _ & _ & _ & <-). rewrite Hes4, Hes3, Hes2, Hes1. apply map_eq. intros i.
    rewrite !lookup_insert. by repeat case_decide. }
  split; [done|]. split; [apply Hfree; destruct l1; [done|injection Hhd as ->; by left]|]. rewrite Hm4, Hm3. split; [done|].
  eapply (data_frame_ext s0 s0 s2 s4); [done|congruence|done].
Qed.
End parent.

(** ** set_pgfault_handler *)

(** The handler [fn] is installed: at the first call the caller has got an
    exception stack and its upcall. *)
Definition handler_set (s : kstate) (c : Z) (env : Env) (d : Z) (l : list Z) (D : gset Z) (M : aspace)
    (h pa fn : Z) (s' : kstate) : Prop :=
  exists env' l' M' m, uready ctx s' c env' d l' D M' /\ envs s' = <[c := env']> (envs s) /\
    env_sim (if h =? 0 then set_env_pgfault_upcall pgfault_upcall env else env) env' /\
    env_free_list s' = env_free_list s /\ (length l <= length l' + 2)%nat /\
    mem s' = store32 m pa fn /\ data_frame s (set_mem m s) l D /\
    (if h =? 0 then exists p, head l = Some p /\ M' = <[(d, xstack_page) := pte_of p ((PTE_P .| PTE_U) .| PTE_W)]> M
     else M' = M /\ l' = l).

Lemma set_pgfault_handler_ok s c env d l D M fn hpte :
  uready ctx s c env d l D M ->
  0 <= handler_va < USTACKTOP -> handler_va mod 4 = 0 -> M !! (d, handler_va / 4096) = Some hpte ->
  has hpte PTE_U = true -> has hpte PTE_W = true ->
  let pa := 4096 * frame_of hpte + handler_va mod 4096 in
  let r := set_pgfault_handler stack_tf envs_va lapic ctx handler_va pgfault_upcall fn s in
  (exists s', r = Ret tt s' /\ handler_set s c env d l D M (load32 (mem s) pa) pa fn s') \/
  (exists s', r = Monitor s' /\ (length l <= 1)%nat).
Proof.
  intros Hu Hhv Hha HM HU HW pa. cbv zeta. assert (HT : USTACKTOP <= UTOP /\ USTACKTOP = 4096 * (xstack_page - 1)) by done.
  unfold set_pgfault_handler.
  rewrite (bind_ret _ _ _ _ _ (uload32_mapped stack_tf envs_va lapic ctx s c env d l D M Hu handler_va hpte ltac:(lia) Hha HM HU)).
  fold pa. unfold handler_set. destruct (load32 (mem s) pa =? 0).
  2: { left. kpure. destruct (ustore32_mapped stack_tf envs_va lapic ctx s c env d l D M handler_va fn hpte Hu ltac:(lia) Hha HM HU HW) as [H1 Hu1].
       fold pa in H1, Hu1. eexists. split; [exact H1|]. exists env, l, M, (mem s).
       split; [done|]. split; [simpl; by rewrite insert_id by (by eapply ur_env)|]. do 2 (split; [done|]). split; [lia|]. done. }
  pose proof (ur_env _ _ _ _ _ _ _ _ Hu) as He.
  destruct (user_page_alloc_ok stack_tf envs_va lapic ctx s c env d l D M 0 c env xstack_page (UXSTACKTOP - PGSIZE) ((PTE_U .| PTE_P) .| PTE_W) d)
    as (s1 & env1 & r & Hr & Hs1 & Hes1 & Hef1 & Hcase); try done.
  { by eapply ur_cur. }
  { by eapply ur_pgdir. }
  match goal with |- context [bind (bind ?m ?f) ?g s] => set (first := bind m f) end.
  destruct Hcase as [(-> & Hu1 & Hl)|(p & l1 & -> & Hhd & Hu1 & Hdf1 & _ & Hl1)].
  { right. destruct (user_panic_ok (A := unit) stack_tf envs_va lapic ctx s1 c env1 d l D M Hu1) as (s' & Hp). exists s'. split; [|done].
    assert (Hin : first s = Monitor s') by (unfold first; rewrite (bind_ret _ _ _ _ _ Hr); exact Hp).
    unfold bind at 1. by rewrite Hin. }
  left. change (pte_of p _) with (pte_of p ((PTE_P .| PTE_U) .| PTE_W)) in Hu1.
  set (M1 := <[_ := _]> M) in Hu1.
  destruct (user_set_upcall_self stack_tf envs_va lapic ctx s1 c env1 d l1 D M1 pgfault_upcall Hu1) as (s2 & env2 & H2 & Hu2 & Hs2 & Hes2 & Hm2 & Hef2).
  assert (Hin : first s = Ret tt s2).
  { unfold first. rewrite (bind_ret _ _ _ _ _ Hr). change (0 <? 0) with false. cbv iota.
    by rewrite (bind_ret _ _ _ _ _ H2). }
  rewrite (bind_ret _ _ _ _ _ Hin).
  assert (HM1 : M1 !! (d, handler_va / 4096) = Some hpte).
  { unfold M1. rewrite lookup_insert_ne; [done|]. intros [= E]. unfold xstack_page in *. lia. }
  destruct (ustore32_mapped stack_tf envs_va lapic ctx s2 c env2 d l1 D M1 handler_va fn hpte Hu2 ltac:(lia) Hha HM1 HU HW) as [H3 Hu3].
  fold pa in H3, Hu3. eexists. split; [exact H3|]. exists env2, l1, M1, (mem s2).
  split; [done|]. split; [simpl; by rewrite Hes2, Hes1, insert_insert_eq|]. split; [|split; [by etrans|split]].
  - etrans; [|exact Hs2]. destruct Hs1 as (tf & k & ->). by exists tf, k.
  - rewrite Hl1. match goal with |- context [freed_by ?x ?y ?z ?w] => pose proof (freed_by_length x y z w) as Hlen end.
    revert Hlen. destruct (present _ _ _), l as [|? [|? ?]]; simpl; lia.
  - split; [done|]. split; [by eapply (data_frame_ext s s s1)|]. by exists p.
Qed.
(** ** fork *)

(** Free pages that are always enough: the child's directory and page tables,
    both exception stacks with a page table. *)
Definition fork_need : Z := 960.

Section copy.
Context (s : kstate) (c : Z) (env : Env) (d : Z) (l : list Z) (D : gset Z) (M : aspace) (hpte tpte : Z).

(** The program's variables: the handler's pointer in a writable page, [thisenv]
    pointing to the caller's own slot; both below the stack's top. *)
Record fork_ready : Prop := {
  fr_ready : uready ctx s c env d l D M;
  fr_ids i ei : envs s !! i = Some ei -> 0 <= env_id ei < 0x80000000;
  fr_count j : 2 * mappings M j + 4 < 0x10000;
  fr_hva : 0 <= handler_va < USTACKTOP /\ handler_va mod 4 = 0;
  fr_hpte : M !! (d, handler_va / 4096) = Some hpte;
  fr_hperm : has hpte PTE_U = true /\ has hpte PTE_W = true;
  fr_tva : 0 <= thisenv_va < USTACKTOP /\ thisenv_va mod 4 = 0;
  fr_tpte : M !! (d, thisenv_va / 4096) = Some tpte;
  fr_tperm : has tpte PTE_U = true;
  fr_this : load32 (mem s) (4096 * frame_of tpte + thisenv_va mod 4096) = UENVS + sizeof_Env * c;
  fr_sep : 4096 * frame_of hpte + handler_va mod 4096 <> 4096 * frame_of tpte + thisenv_va mod 4096 }.

Definition handler_pa : Z := 4096 * frame_of hpte + handler_va mod 4096.

(** The caller with its upcall set. *)
Definition fork_caller : Env :=
  if load32 (mem s) handler_pa =? 0 then set_env_pgfault_upcall pgfault_upcall env else env.

(** The child in slot [e] with directory [n], in the parent's return with [id]. *)
Record fork_success (id : Z) (s' : kstate) (e n p : Z) (free env' : Env) (l' : list Z) (M' : aspace) : Prop := {
  fs_slot : env_free_list s = Some e /\ envs s !! e = Some free /\ e <> c;
  fs_id : id = next_env_id (env_id free) e /\ 0 < id < 0x80000000 /\ ENVX id = e;
  fs_ready : uready ctx s' c env' d l' ({[n]} ∪ D) M';
  fs_dir : n ∉ D;
  fs_caller : env_sim fork_caller env';
  fs_envs : envs s' = <[c := env']> (<[e := set_env_status ENV_RUNNABLE
    (set_env_pgfault_upcall (env_pgfault_upcall fork_caller) (exofork_child ctx env e n free))]> (envs s));
  fs_child v : 0 <= v < fork_pages -> M' !! (n, v) = dup_pte <$> M !! (d, v);
  fs_parent v : 0 <= v < fork_pages -> M' !! (d, v) = keep_pte <$> M !! (d, v);
  fs_only v : fork_pages <= v -> M' !! (n, v) =
    if decide (v = xstack_page) then Some (pte_of p ((PTE_P .| PTE_U) .| PTE_W)) else None;
  fs_others d' v : d' <> d -> d' <> n -> M' !! (d', v) = M !! (d', v);
  fs_zero j : 0 <= j < 1024 -> entry (mem s') p j = 0;
  fs_data v pte : 0 <= v < fork_pages -> M !! (d, v) = Some pte ->
    forall j, 0 <= j < 1024 -> entry (mem s') (frame_of pte) j =
      entry (store32 (mem s) handler_pa pgfault_fn) (frame_of pte) j }.

Lemma exofork_child_sim env1 e n free :
  env_id env1 = env_id env -> exofork_child ctx env1 e n free = exofork_child ctx env e n free.
Proof. intros H. unfold exofork_child, fork_child. by rewrite H. Qed.

(** A store changes a word in the same way wherever the rest agrees. *)
Lemma entry_store_cong m m' a v t j :
  a mod 4 = 0 -> entry m t j = entry m' t j -> entry (store32 m a v) t j = entry (store32 m' a v) t j.
Proof.
  intros Ha H. unfold entry in *. destruct (decide (a = ent_addr t j)) as [->|Hne]; [by rewrite !load32_store32_eq|].
  rewrite !load32_store32_ne by (unfold ent_addr in *; lia). done.
Qed.
(** What the first call leaves below the stack's top. *)
Lemma handler_set_facts fn s1 env1 l1 M1 m :
  fork_ready -> uready ctx s1 c env1 d l1 D M1 ->
  (if load32 (mem s) handler_pa =? 0
   then exists p, head l = Some p /\ M1 = <[(d, xstack_page) := pte_of p ((PTE_P .| PTE_U) .| PTE_W)]> M
   else M1 = M /\ l1 = l) ->
  mem s1 = store32 m handler_pa fn -> data_frame s (set_mem m s) l D ->
  (forall v, 0 <= v < fork_pages -> M1 !! (d, v) = M !! (d, v)) /\
  (forall d' v, d' <> d -> M1 !! (d', v) = M !! (d', v)) /\
  (forall j, 2 * mappings M1 j + 2 < 0x10000) /\
  (forall k pte, M !! k = Some pte -> forall j, 0 <= j < 1024 ->
     entry (mem s1) (frame_of pte) j = entry (store32 (mem s) handler_pa fn) (frame_of pte) j).
Proof.
  intros Hr Hu1 HM1 Hm Hdf. destruct (fr_hva Hr) as [_ Hha].
  assert (Hx : forall i, i <> (d, xstack_page) -> M1 !! i = M !! i).
  { intros i Hi. destruct (_ =? 0); [destruct HM1 as (p & _ & ->)|by destruct HM1 as [-> _]]. by rewrite lookup_insert_ne. }
  split; [intros v Hv; apply Hx; intros [= ->]; by destruct Hv|]. split; [intros d' v Hd; apply Hx; congruence|]. split.
  - intros j. pose proof (fr_count Hr j). destruct (_ =? 0); [destruct HM1 as (p & _ & ->)|destruct HM1 as [-> _]; lia].
    pose proof (mappings_insert_le M (d, xstack_page) (pte_of p ((PTE_P .| PTE_U) .| PTE_W)) j). case_decide; lia.
  - intros k pte HM j Hj. rewrite Hm. apply entry_store_cong; [unfold handler_pa; lia|].
    by apply (mapped_kept s (set_mem m s) l D M no_refs k pte (ur_vm _ _ _ _ _ _ _ _ (fr_ready Hr)) Hdf HM).
Qed.

(** The parent from its return from sys_exofork on. *)
Lemma fork_tail_ok s1 env1 l1 M1 e n s2 env2 free :
  fork_ready -> uready ctx s1 c env1 d (n :: l1) D M1 -> env_free_list s = Some e ->
  envs s1 = <[c := env1]> (envs s) -> env_sim fork_caller env1 -> env_id env1 = env_id env ->
  (forall v, 0 <= v < fork_pages -> M1 !! (d, v) = M !! (d, v)) ->
  (forall d' v, d' <> d -> M1 !! (d', v) = M !! (d', v)) ->
  (forall j, 2 * mappings M1 j + 2 < 0x10000) ->
  (forall k pte, M !! k = Some pte -> forall j, 0 <= j < 1024 ->
     entry (mem s1) (frame_of pte) j = entry (store32 (mem s) handler_pa pgfault_fn) (frame_of pte) j) ->
  let id := next_env_id (env_id free) e in
  0 < id < 0x80000000 -> ENVX id = e -> envs s1 !! e = Some free -> e <> c -> n ∉ D ->
  uready ctx s2 c env2 d l1 ({[n]} ∪ D) M1 -> env_sim env1 env2 ->
  envs s2 = <[c := env2]> (<[e := exofork_child ctx env1 e n free]> (envs s1)) ->
  (forall t j, t <> n -> 0 <= j < 1024 -> entry (mem s2) t j = entry (mem s1) t j) ->
  let r := fork_parent stack_tf envs_va lapic ctx thisenv_va id s2 in
  (exists s' p env' l' M', r = Ret id s' /\ fork_success id s' e n p free env' l' M') \/
  (exists s', r = Monitor s' /\ Z.of_nat (length l1) < 957).
Proof.
  intros Hr Hu1 Hef Hes1 Hs1 Hid1 Hlow Hoth Hcnt Hdat id Hid Hx Hfree Hec HnD Hu2 Hs2 Hes2 Hkeep. cbv zeta.
  rewrite (exofork_child_sim env1 e n free Hid1) in Hes2. set (denv := exofork_child ctx env e n free) in *.
  destruct (fr_tva Hr) as [Htv Hta]. assert (HT : USTACKTOP = 4096 * fork_pages) by done.
  assert (HtM : M1 !! (d, thisenv_va / 4096) = Some tpte) by (rewrite Hlow by lia; apply (fr_tpte Hr)).
  assert (Hframe : forall k pte, M1 !! k = Some pte -> frame_of pte <> n).
  { intros k pte HM E. destruct (mapped_no_table _ _ _ _ _ _ _ (ur_vm _ _ _ _ _ _ _ _ Hu1) HM) as [Hl _].
    apply Hl. rewrite E. by left. }
  assert (Hdat2 : forall v pte, 0 <= v < fork_pages -> M !! (d, v) = Some pte -> forall j, 0 <= j < 1024 ->
    entry (mem s2) (frame_of pte) j = entry (store32 (mem s) handler_pa pgfault_fn) (frame_of pte) j).
  { intros v pte Hv HM j Hj. rewrite Hkeep; [by eapply Hdat| |done]. apply (Hframe (d, v)). by rewrite Hlow. }
  assert (Hword : load32 (mem s2) (4096 * frame_of tpte + thisenv_va mod 4096) = UENVS + sizeof_Env * c).
  { rewrite <- (fr_this Hr), load32_entry by lia. rewrite (Hdat2 (thisenv_va / 4096)) by (lia || apply (fr_tpte Hr)).
    rewrite <- load32_entry by lia. apply load32_store32_ne. pose proof (fr_sep Hr). unfold handler_pa.
    destruct (fr_hva Hr). lia. }
  assert (Hm : may_use s2 id true e).
  { unfold may_use. rewrite (proj2 (Z.eqb_neq id 0)) by lia. split; [done|]. exists denv.
    split; [rewrite Hes2, lookup_insert_ne by congruence; apply lookup_insert_eq|]. split; [done|]. split; [done|]. intros _. right.
    exists c, env2. split; [by eapply ur_cur|]. split; [by eapply ur_env|].
    destruct (env_sim_fields _ _ Hs2) as (-> & _). by rewrite Hid1. }
  assert (Hnew : forall v, M1 !! (n, v) = None).
  { intros v. destruct (M1 !! (n, v)) as [pte|] eqn:E; [|done]. by destruct (vo_dom _ _ _ _ _ (ur_vm _ _ _ _ _ _ _ _ Hu1) n v pte E). }
  assert (Hnd : n <> d) by (intros ->; apply HnD, (ur_dir _ _ _ _ _ _ _ _ Hu1)).
  assert (He2 : envs s2 !! e = Some denv) by (rewrite Hes2, lookup_insert_ne by congruence; apply lookup_insert_eq).
  destruct (fork_parent_ok s2 c env2 d l1 ({[n]} ∪ D) M1 id e n denv Hu2 Hm Hec He2 eq_refl Hnd ltac:(set_solver) Hid Hnew Hcnt
    tpte Htv Hta HtM (fr_tperm Hr) Hword) as [(s' & H & Hd)|H]; [left|by right].
  destruct Hd as (env' & l' & M' & p & Hu' & Hs' & Hes' & HM' & _ & Hz & Hdf). exists s', p, env', l', M'. split; [done|].
  assert (Hfk : xstack_page = fork_pages + 1) by done.
  assert (HM : forall i, i <> (n, xstack_page) -> M' !! i = shared M1 d n fork_pages i).
  { intros i Hi. rewrite HM'. unfold forked_map. by rewrite decide_False. }
  assert (Hsim : env_sim fork_caller env2) by (by etrans).
  split; [| |exact Hu'|exact HnD|..|exact Hz|].
  - split; [done|]. split; [|done]. by rewrite Hes1, lookup_insert_ne in Hfree by done.
  - done.
  - by etrans.
  - rewrite Hes', Hes2, Hes1. destruct (env_sim_fields _ _ Hsim) as (_ & _ & _ & _ & <-). unfold denv. apply map_eq. intros i.
    destruct (decide (c = i)) as [<-|Hci]; [by rewrite !lookup_insert_eq|]. rewrite !(lookup_insert_ne _ c) by done.
    destruct (decide (e = i)) as [<-|Hei]; [rewrite !lookup_insert_eq; reflexivity|by rewrite !lookup_insert_ne].
  - intros v Hv. rewrite HM by (intros [= ->]; lia). unfold shared. cbn [fst snd]. by rewrite !decide_True, Hlow by done.
  - intros v Hv. rewrite HM by congruence. unfold shared. cbn [fst snd]. by rewrite decide_True, decide_False, decide_True, Hlow by done.
  - intros v Hv. rewrite HM'. unfold forked_map, shared. cbn [fst snd]. rewrite (decide_False (P := 0 <= v < fork_pages)) by lia.
    rewrite Hnew. destruct (decide (v = xstack_page)) as [->|]; [by rewrite decide_True|by rewrite decide_False by congruence].
  - intros d' v Hdd Hdn. rewrite HM by congruence. unfold shared. cbn [fst snd].
    rewrite (decide_False (P := d' = n)), (decide_False (P := d' = d)), Hoth by done. by case_decide.
  - intros v pte Hv HMv j Hj. rewrite <- (Hdat2 v) by done.
    apply (mapped_kept s2 s' l1 _ M1 no_refs (d, v) pte (ur_vm _ _ _ _ _ _ _ _ Hu2) Hdf); [by rewrite Hlow|done].
Qed.

Lemma fork_ok :
  fork_ready ->
  let r := fork stack_tf envs_va lapic ctx handler_va thisenv_va pgfault_upcall pgfault_fn s in
  (exists id s' e n p free env' l' M', r = Ret id s' /\ fork_success id s' e n p free env' l' M') \/
  (exists s', r = Monitor s' /\ (env_free_list s = None \/ Z.of_nat (length l) < fork_need)).
Proof.
  intros Hr. cbv zeta. unfold fork, fork_need. pose proof (fr_ready Hr) as Hu. destruct (fr_hva Hr) as [Hhv Hha], (fr_hperm Hr) as [HhU HhW].
  destruct (set_pgfault_handler_ok s c env d l D M pgfault_fn hpte Hu Hhv Hha (fr_hpte Hr) HhU HhW) as [(s1 & H1 & Hset)|(s1 & H1 & Hl)].
  2: { right. exists s1. split; [by unfold bind; rewrite H1|]. right. lia. }
  fold handler_pa in Hset. destruct Hset as (env1 & l1 & M1 & m & Hu1 & Hes1 & Hs1 & Hef1 & Hl1 & Hm1 & Hdf1 & HM1).
  fold fork_caller in Hs1. rewrite (bind_ret _ _ _ _ _ H1).
  destruct (handler_set_facts pgfault_fn s1 env1 l1 M1 m Hr Hu1 HM1 Hm1 Hdf1) as (Hlow & Hoth & Hcnt & Hdat).
  assert (Hid1 : env_id env1 = env_id env).
  { destruct (env_sim_fields _ _ Hs1) as (-> & _). unfold fork_caller. by destruct (_ =? 0). }
  pose proof (user_exofork_ok stack_tf envs_va lapic ctx s1 c env1 d l1 D M1 Hu1) as Hex. rewrite Hef1 in Hex.
  assert (Hids1 : forall i ei, envs s1 !! i = Some ei -> 0 <= env_id ei < 0x80000000).
  { intros i ei. rewrite Hes1, lookup_insert. case_decide; [|apply (fr_ids Hr)].
    intros [= <-]. rewrite Hid1. apply (fr_ids Hr c), (ur_env _ _ _ _ _ _ _ _ Hu). }
  specialize (Hex Hids1). destruct (env_free_list s) as [e|] eqn:Hef; [destruct l1 as [|n l2]|].
  - destruct Hex as (r & s2 & env2 & H2 & Hneg & Hu2). right. rewrite (bind_ret _ _ _ _ _ H2). rewrite (proj2 (Z.ltb_lt r 0)) by done.
    destruct (user_panic_ok (A := Z) stack_tf envs_va lapic ctx s2 c env2 d [] D M1 Hu2) as (s' & Hp). exists s'. split; [done|]. right. simpl in Hl1. lia.
  - destruct Hex as (s2 & env2 & free & H2 & Hch & Hx & Hfree & Hec & HnD & Hu2 & Hs2 & Hes2 & Hkeep).
    rewrite (bind_ret _ _ _ _ _ H2). set (child := next_env_id (env_id free) e) in *.
    rewrite (proj2 (Z.ltb_ge child 0)) by lia. rewrite (proj2 (Z.eqb_neq child 0)) by lia.
    destruct (fork_tail_ok s1 env1 l2 M1 e n s2 env2 free) as [(s' & p & env' & l' & M' & H & Hok)|(s' & H & Hlen)]; try done.
    + left. by exists child, s', e, n, p, free, env', l', M'.
    + right. exists s'. split; [done|]. right. simpl in Hl1. lia.
  - destruct Hex as (r & s2 & env2 & H2 & Hneg & Hu2). right. rewrite (bind_ret _ _ _ _ _ H2). rewrite (proj2 (Z.ltb_lt r 0)) by done.
    destruct (user_panic_ok (A := Z) stack_tf envs_va lapic ctx s2 c env2 d l1 D M1 Hu2) as (s' & Hp). exists s'. split; [done|]. by left.
Qed.
End copy.
End fork.

(** C1: fork gives the parent a runnable child whose pages below the stack's top are
    the parent's: read-only in both and marked copy-on-write where the parent could
    write or they were copy-on-write already, plain read-only otherwise; the child
    has a fresh zeroed exception stack, the parent's upcall, and in its frame the
    parent's registers with result 0, no page's contents change but for the handler
    pointer, and no other address space.  Every system call is taken through the
    trap and every page table entry read through the mapping at UVPT.  With a free
    environment and 960 free pages it does not fail; when it fails it panics, and a
    child whose copy is incomplete is never made runnable. *)
Theorem fork_correct stack_tf envs_va lapic ctx handler_va thisenv_va pgfault_upcall pgfault_fn
    s c env d l D M hpte tpte :
  fork_ready ctx handler_va thisenv_va s c env d l D M hpte tpte ->
  let r := fork stack_tf envs_va lapic ctx handler_va thisenv_va pgfault_upcall pgfault_fn s in
  (exists id s' e n p free env' l' M', r = Ret id s' /\
     fork_success ctx handler_va pgfault_upcall pgfault_fn s c env d D M hpte id s' e n p free env' l' M') \/
  (exists s', r = Monitor s' /\ (env_free_list s = None \/ Z.of_nat (length l) < fork_need)).
Proof. apply fork_ok. Qed.

(** ** A machine with room for a fork *)

Definition free_all (L : list Z) (s : kstate) : kstate := foldr (fun i s => free_post i (mkPage None 0) s) s L.

Lemma free_all_ok L s :
  alloc_ok s [] -> NoDup L -> (forall i, i ∈ L -> pages s !! i = Some (mkPage None 0)) ->
  alloc_ok (free_all L s) L /\ (forall j, j ∉ L -> pages (free_all L s) !! j = pages s !! j).
Proof.
  intros Ha. induction L as [|i L IH]; [done|]. intros [Hi Hnd]%NoDup_cons HL.
  destruct IH as [IHa IHp]; [done|by intros j Hj; apply HL; right|]. split.
  - apply (alloc_ok_free (free_all L s)); [done| |done|done]. rewrite IHp by done. apply HL. by left.
  - intros j [Hji HjL]%not_elem_of_cons. simpl. rewrite lookup_insert_ne by done. by apply IHp.
Qed.

Lemma with_room_ok s0 L m cr :
  alloc_ok s0 [] -> NoDup L -> (forall i, i ∈ L -> pages s0 !! i = Some (mkPage None 0)) ->
  3 ∉ L -> pages s0 !! 3 = Some (mkPage None 1) -> mem_ok m ->
  (forall i, 0 <= i < NUPDE -> entry m 3 i = 0) -> entry m 3 UVPDE = 4096 * 3 + 5 ->
  vm_ok (set_cr3 cr (set_mem m (free_all L s0))) L {[3]} ∅ no_refs.
Proof.
  intros Ha Hnd HL H3 Hp3 Hm Hz Hs. destruct (free_all_ok L s0 Ha Hnd HL) as [Ha' Hp'].
  set (s := set_cr3 cr (set_mem m (free_all L s0))). rewrite <- (union_empty_r_L {[3]}).
  apply vm_ok_add_dir; [|done| |done|set_solver|set_solver| |done].
  - apply vm_ok_empty; [|done]. by apply (alloc_ok_frame (free_all L s0)).
  - change (pages s) with (pages (free_all L s0)). by rewrite Hp', Hp3.
  - intros i Hi. unfold present. change (mem s) with m. by rewrite Hz.
Qed.

(** Pages 8 to 1031 are free, page 3 is a directory and page 6 the kernel's. *)
Definition roomy : list Z := seqZ 8 1024.
Definition roomy_pages : kstate := set_pages (<[3 := mkPage None 1]> (zero_pages 2048)) (zero_kstate 2048).
Definition roomy_vm : kstate := set_cr3 0x3000 (set_mem (mem small_vm) (free_all roomy roomy_pages)).

Lemma roomy_range i : i ∈ roomy -> 8 <= i < 1032.
Proof. unfold roomy. rewrite elem_of_seqZ. lia. Qed.

Lemma roomy_pages_lookup i : pages roomy_pages !! i =
  if decide (i = 3) then Some (mkPage None 1) else if decide (0 <= i < 2048) then Some (mkPage None 0) else None.
Proof.
  change (pages roomy_pages) with (<[3 := mkPage None 1]> (zero_pages 2048)).
  rewrite lookup_insert, zero_pages_lookup. change (Z.of_nat 2048) with 2048. repeat case_decide; congruence.
Qed.

Lemma roomy_alloc : alloc_ok roomy_pages [].
Proof.
  change roomy_pages with (set_pages (<[3 := set_pp_ref 1 (mkPage None 0)]> (pages (zero_kstate 2048))) (zero_kstate 2048)).
  apply alloc_ok_ref; [by apply zero_alloc_ok| |apply not_elem_of_nil].
  change (pages (zero_kstate 2048)) with (zero_pages 2048). by rewrite zero_pages_lookup.
Qed.

Lemma roomy_vm_ok : vm_ok roomy_vm roomy {[3]} ∅ no_refs.
Proof.
  apply with_room_ok.
  - exact roomy_alloc.
  - apply NoDup_seqZ.
  - intros i Hi%roomy_range. rewrite roomy_pages_lookup. by rewrite decide_False, decide_True by lia.
  - intros ?%roomy_range. lia.
  - by rewrite roomy_pages_lookup.
  - apply mem_ok_store32, mem_ok_empty.
  - exact small_vm_entry.
  - reflexivity.
Qed.

Definition fork_tf : Trapframe := user_tf T_SYSCALL 0 0xeebfd000.

Lemma roomy_uready : uready fork_tf (one_env roomy_vm) 0 small_environment 3 roomy {[3]} ∅.
Proof.
  split; [|split|reflexivity|by apply elem_of_singleton|reflexivity].
  - apply one_env_kinv; [exact roomy_vm_ok|intros ?%roomy_range; lia|]. apply small_no_table; [reflexivity|lia].
  - reflexivity.
  - unfold one_env, with_envs. rewrite thiscpu_upd. discriminate.
  - reflexivity.
  - apply curenv_set_cpu_env.
  - apply lookup_insert_eq.
  - reflexivity.
  - reflexivity.
  - reflexivity.
Qed.

(** The program has a page for its variables, at 0x800000. *)
Lemma roomy_ready : exists s env l pte,
  uready fork_tf s 0 env 3 l {[3]} (<[(3, 2048) := pte]> ∅) /\ has pte PTE_U = true /\ has pte PTE_W = true /\
  env_sim small_environment env /\ envs s = <[0 := env]> (envs (one_env roomy_vm)) /\ env_free_list s = Some 1 /\
  960 <= Z.of_nat (length l) /\ load32 (mem s) (4096 * frame_of pte + 4) = UENVS.
Proof.
  assert (Hlen : length roomy = 1024%nat) by (unfold roomy; by rewrite length_seqZ).
  destruct (user_page_alloc_ok 0 0 0 fork_tf (one_env roomy_vm) 0 small_environment 3 roomy {[3]} ∅ 0 0 small_environment 2048
    0x800000 PTE_SYSCALL 3 eq_refl roomy_uready) as (s1 & env1 & r & _ & Hs1 & Hes1 & Hef & Hcase).
  - exact (ur_cur _ _ _ _ _ _ _ _ roomy_uready).
  - apply lookup_insert_eq.
  - reflexivity.
  - lia.
  - unfold NUVPN. lia.
  - split; [discriminate|reflexivity].
  - reflexivity.
  - destruct Hcase as [(_ & _ & Hl)|(p & l1 & -> & Hhd & Hu1 & _ & _ & Hl1)]; [lia|].
    set (perm := (PTE_U .| PTE_P) .| PTE_SYSCALL) in *.
    assert (Hp : 0 <= p < 1048576).
    { assert (Hin : p ∈ roomy) by (destruct roomy; [done|injection Hhd as ->; by left]). apply roomy_range in Hin. lia. }
    destruct (frame_of_page_entry p perm Hp ltac:(split; [discriminate|reflexivity])) as (_ & _ & _ & Hlow).
    fold (pte_of p perm) in Hlow.
    assert (HU : has (pte_of p perm) PTE_U = true) by (by rewrite has_mod, Hlow).
    assert (HW : has (pte_of p perm) PTE_W = true) by (by rewrite has_mod, Hlow).
    destruct (ustore32_mapped 0 0 0 fork_tf s1 0 env1 3 l1 {[3]} _ 0x800004 UENVS (pte_of p perm) Hu1 ltac:(split; [discriminate|reflexivity])
      eq_refl (lookup_insert_eq _ _ _) HU HW) as [_ Hu2].
    eexists _, env1, l1, (pte_of p perm). split; [exact Hu2|]. do 3 (split; [done|]). split; [done|]. split; [exact Hef|]. split.
    + rewrite Hl1, freed_by_none by apply lookup_empty. destruct roomy as [|? [|? ?]]; simpl in Hlen; [lia..|].
      destruct (present _ _ _); simpl; lia.
    + apply load32_store32_eq.
Qed.

Lemma fork_correct_witness : exists s id s',
  fork 0 0 0 fork_tf 0x800000 0x800004 0x800100 0x800200 s = Ret id s' /\ 0 < id.
Proof.
  destruct roomy_ready as (s & env & l & pte & Hu & HU & HW & Hs & Hes & Hef & Hl & Hw).
  destruct (fork_correct 0 0 0 fork_tf 0x800000 0x800004 0x800100 0x800200 s 0 env 3 l {[3]} (<[(3, 2048) := pte]> ∅) pte pte)
    as [(id & s' & e & n & p & free & env' & l' & M' & H & Hok)|(s' & H & [Hn|Hn])].
  - split; try done.
    + intros i ei. rewrite Hes. change (envs (one_env roomy_vm)) with (envs small_env). rewrite lookup_insert. case_decide as Hi.
      * intros [= <-]. destruct (env_sim_fields _ _ Hs) as (-> & _). done.
      * intros Hei. assert (Hr : 0 <= i < NENV) by (apply small_env_dom; by eexists).
        rewrite small_env_lookup in Hei by done. case_decide; by injection Hei as <-.
    + intros j. pose proof (mappings_insert_le ∅ (3, 2048) pte j) as Hj. change (mappings ∅ j) with 0 in Hj. case_decide; lia.
    + change (4096 * frame_of pte + 0 <> 4096 * frame_of pte + 4). lia.
  - exists s, id, s'. split; [exact H|]. apply fs_id in Hok as (_ & [Hid _] & _). exact Hid.
  - congruence.
  - unfold fork_need in Hn. lia.
Defined.
