(* ===== verification/PgfaultSpec.v ===== *)
(** * The copy-on-write fault handler

    [pgfault] of lib/fork.c on the kernel: the copy of a page through the page
    tables, and the handler as one step on the address spaces. *)
From S2P Require Import Prelude Mmu Mem Console Kstate Pmap PmapAlloc PmapSpace PmapMap PmapDir Env EnvSpec KernInv Sched SchedSpec Syscall SyscallSpec UserMem Trap TrapSpec Cstring Ulib UserRun UserCalls ForkSpec.

Section pgfault.
Context (stack_tf envs_va lapic : Z) (ctx : Trapframe).

(** ** Copying a page *)

Section copy.
Context (s : kstate) (c : Z) (env : Env) (d : Z) (l : list Z) (D : gset Z) (M : aspace) (a b pa pb : Z).
Context (Hu : uready ctx s c env d l D M).
Context (Ha : 0 <= a < NUVPN) (Hb : 0 <= b < NUVPN) (Hab : a <> b).
Context (HMa : M !! (d, a) = Some pa) (HMb : M !! (d, b) = Some pb) (Hne : frame_of pa <> frame_of pb).
Context (HaU : has pa PTE_U = true) (HbU : has pb PTE_U = true) (HbW : has pb PTE_W = true).

(** The first [k] words are copied, the rest of memory is as it was. *)
Definition copied (k : Z) (s' : kstate) : Prop :=
  exists m, s' = set_mem m s /\ uready ctx s' c env d l D M /\
    (forall j, 0 <= j < k -> entry m (frame_of pb) j = entry (mem s) (frame_of pa) j) /\
    (forall t j, t <> frame_of pb -> 0 <= j < 1024 -> entry m t j = entry (mem s) t j).

Lemma copy_word k s' :
  0 <= k < 1024 -> copied k s' ->
  exists s2, (w <- uload32 stack_tf envs_va lapic ctx (u32 (4096 * a + 4 * 1 * k)) ;;
    ustore32 stack_tf envs_va lapic ctx (u32 (4096 * b + 4 * 1 * k)) w) s' = Ret tt s2 /\ copied (k + 1) s2.
Proof.
  intros Hk (m & -> & Hu' & Hdone & Hrest).
  assert (HU : UTOP <= 0xf0000000 /\ NUVPN * 4096 = UTOP) by done. destruct HU as [HUT HNU].
  rewrite !u32_small by lia. pose proof (vo_mem _ _ _ _ _ (ur_vm _ _ _ _ _ _ _ _ Hu')) as Hm.
  rewrite (bind_ret _ _ _ _ _ (uload32_mapped stack_tf envs_va lapic ctx _ c env d l D M Hu' (4096 * a + 4 * 1 * k) pa ltac:(lia)
    ltac:(lia) ltac:(replace ((4096 * a + 4 * 1 * k) / 4096) with a by lia; done) HaU)).
  replace ((4096 * a + 4 * 1 * k) mod 4096) with (4 * k) by lia.
  destruct (ustore32_mapped stack_tf envs_va lapic ctx _ c env d l D M (4096 * b + 4 * 1 * k)
    (load32 (mem (set_mem m s)) (4096 * frame_of pa + 4 * k)) pb Hu' ltac:(lia) ltac:(lia)
    ltac:(replace ((4096 * b + 4 * 1 * k) / 4096) with b by lia; done) HbU HbW) as [H Hu2].
  replace ((4096 * b + 4 * 1 * k) mod 4096) with (4 * k) in H, Hu2 by lia.
  eexists. split; [exact H|]. eexists. split; [done|]. split; [exact Hu2|]. change (mem (set_mem m s)) with m in *.
  fold (ent_addr (frame_of pa) k) (ent_addr (frame_of pb) k). fold (entry m (frame_of pa) k). split.
  - intros j Hj. destruct (decide (j = k)) as [->|Hjk].
    + rewrite entry_store_eq, u32_small by (by apply load32_range). by apply Hrest.
    + rewrite entry_store_ne by (lia || congruence). apply Hdone. lia.
  - intros t j Ht Hj. rewrite entry_store_ne by (lia || congruence). by apply Hrest.
Qed.

Lemma copy_page_ok : exists s2,
  user_memcpy stack_tf envs_va lapic ctx (4096 * b) (4096 * a) PGSIZE s = Ret tt s2 /\ copied 1024 s2.
Proof.
  assert (HU : UTOP <= 0xf0000000 /\ NUVPN * 4096 = UTOP) by done. destruct HU as [HUT HNU]. unfold user_memcpy.
  rewrite (u32_small (4096 * a + PGSIZE)) by (unfold PGSIZE; lia).
  replace ((4096 * a <? 4096 * b) && (4096 * a + PGSIZE >? 4096 * b)) with false by (unfold PGSIZE; lia).
  replace (aligned4 (4096 * a) && aligned4 (4096 * b) && aligned4 PGSIZE) with true
    by (unfold aligned4, PGSIZE; symmetry; rewrite !andb_true_iff; lia).
  apply (for_each_seqZ (fun k s' => copied k s')).
  - done.
  - exists (mem s). split; [by destruct s|]. split; [done|]. split; [lia|done].
  - intros k s' Hk Hc. by apply copy_word.
Qed.
End copy.

(** ** The handler *)

Definition tmp_page : Z := PFTEMP / PGSIZE.
Definition URW : Z := (PTE_U .| PTE_P) .| PTE_W.

(** A fault of the handler's kind: a write to a copy-on-write page. *)
Definition cow_fault (pte err : Z) : bool :=
  has err FEC_WR && (pte .& ((PTE_U .| PTE_P) .| PTE_COW) =? (PTE_U .| PTE_P) .| PTE_COW).

Section handler.
Context (s : kstate) (c : Z) (env : Env) (d : Z) (l : list Z) (D : gset Z) (M : aspace) (utf upte addr pte err : Z).

Record fault_ready : Prop := {
  fh_ready : uready ctx s c env d l D M;
  fh_utf : 0 <= utf < UTOP /\ utf mod 4 = 0 /\ utf mod PGSIZE + 8 <= PGSIZE;
  fh_upte : M !! (d, utf / 4096) = Some upte /\ has upte PTE_U = true;
  fh_addr : load32 (mem s) (4096 * frame_of upte + utf mod 4096) = addr;
  fh_err : load32 (mem s) (4096 * frame_of upte + utf mod 4096 + 4) = err;
  fh_range : 0 <= addr < UTOP;
  fh_pte : M !! (d, addr / 4096) = Some pte;
  fh_tmp : M !! (d, tmp_page) = None;
  fh_count k : mappings M k + 2 < 0x10000 }.

(** The caller's page is now its own, writable, with the contents the shared one has. *)
Record fault_handled (s' : kstate) (env' : Env) (l' : list Z) (M' : aspace) (p : Z) : Prop := {
  fd_ready : uready ctx s' c env' d l' D M';
  fd_env : env_sim env env' /\ envs s' = <[c := env']> (envs s);
  fd_fresh : head l = Some p;
  fd_map i : M' !! i = if decide (i = (d, addr / 4096)) then Some (pte_of p URW) else M !! i;
  fd_copy j : 0 <= j < 1024 -> entry (mem s') p j = entry (mem s) (frame_of pte) j;
  fd_rest k pte' : k <> (d, addr / 4096) -> M !! k = Some pte' ->
    forall j, 0 <= j < 1024 -> entry (mem s') (frame_of pte') j = entry (mem s) (frame_of pte') j }.

Lemma uvpt_mapped v : uready ctx s c env d l D M -> 0 <= v < NUVPN -> M !! (d, v) = Some pte ->
  uvpt stack_tf envs_va lapic ctx v s = Ret pte s.
Proof.
  intros Hu Hv HM. destruct (read_page stack_tf envs_va lapic ctx s c env d l D M v Hu Hv) as (pde & _ & Hrd).
  destruct (has pde PTE_P); [|congruence]. destruct Hrd as (e & He & Hp). rewrite He.
  destruct (has e PTE_P); congruence.
Qed.

(** The words of the user trap frame. *)
Lemma read_utf : fault_ready ->
  uload32 stack_tf envs_va lapic ctx utf s = Ret addr s /\
  uload32 stack_tf envs_va lapic ctx (u32 (utf + 4)) s = Ret err s.
Proof.
  intros [Hu (Hr & Hal & Hin) [HM HU] <- <- _ _ _ _]. assert (HUT : UTOP <= 0xf0000000 /\ UTOP mod 4096 = 0) by done.
  unfold PGSIZE in Hin.
  assert (Hq : (utf + 4) / 4096 = utf / 4096 /\ (utf + 4) mod 4096 = utf mod 4096 + 4) by lia.
  split; [by apply (uload32_mapped stack_tf envs_va lapic ctx s c env d l D M)|].
  rewrite u32_small by lia. rewrite (uload32_mapped stack_tf envs_va lapic ctx s c env d l D M Hu (utf + 4) upte); [|lia|lia|by rewrite (proj1 Hq)|done].
  by rewrite (proj2 Hq), Z.add_assoc.
Qed.

(** The handler's test. *)
Lemma fault_check : fault_ready ->
  (if negb (has err FEC_WR) then ret true
   else pte <- uvpt stack_tf envs_va lapic ctx (PGNUM addr) ;;
     ret (negb (pte .& ((PTE_U .| PTE_P) .| PTE_COW) =? (PTE_U .| PTE_P) .| PTE_COW))) s = Ret (negb (cow_fault pte err)) s.
Proof.
  intros Hr. assert (Hv : 0 <= addr / 4096 < NUVPN).
  { pose proof (fh_range Hr). assert (HNU : NUVPN * 4096 = UTOP) by done. lia. }
  unfold cow_fault. destruct (has err FEC_WR); [|done]. cbn [negb andb]. cbv iota. rewrite PGNUM_div.
  by rewrite (bind_ret _ _ _ _ _ (uvpt_mapped _ (fh_ready Hr) Hv (fh_pte Hr))).
Qed.

Lemma pgfault_bad : fault_ready -> cow_fault pte err = false ->
  exists s', pgfault stack_tf envs_va lapic ctx utf s = Monitor s'.
Proof.
  intros Hr Hb. destruct (read_utf Hr) as [H1 H2]. unfold pgfault. rewrite (bind_ret _ _ _ _ _ H1), (bind_ret _ _ _ _ _ H2). cbv zeta.
  rewrite (bind_ret _ _ _ _ _ (fault_check Hr)), Hb. cbn [negb]. cbv iota. eapply user_panic_ok, (fh_ready Hr).
Qed.

(** The rights of a copy-on-write entry. *)
Lemma cow_fault_user : cow_fault pte err = true -> has pte PTE_U = true.
Proof.
  unfold cow_fault. intros [_ H%Z.eqb_eq]%andb_true_iff. unfold has. apply negb_true_iff, Z.eqb_neq. intros Hz.
  assert (E : (pte .& ((PTE_U .| PTE_P) .| PTE_COW)) .& PTE_U = PTE_U) by (by rewrite H).
  rewrite (Z.land_comm pte), <- Z.land_assoc, Hz, Z.land_0_r in E. discriminate.
Qed.

(** From the fresh page at PFTEMP on. *)
Lemma pgfault_move s1 env1 l1 p :
  fault_ready -> cow_fault pte err = true -> p ∈ l -> (forall t, t ∈ l1 -> t ∈ l) ->
  uready ctx s1 c env1 d l1 D (<[(d, tmp_page) := pte_of p URW]> M) -> env_sim env env1 ->
  envs s1 = <[c := env1]> (envs s) -> data_frame s s1 l D ->
  exists s' env' l' M',
    (user_memcpy stack_tf envs_va lapic ctx PFTEMP (ROUNDDOWN addr PGSIZE) PGSIZE ;;
     r <- user_sys_page_map stack_tf envs_va lapic ctx 0 PFTEMP 0 (ROUNDDOWN addr PGSIZE) URW ;;
     if r <? 0 then user_panic stack_tf envs_va lapic ctx
     else
       r <- user_sys_page_unmap stack_tf envs_va lapic ctx 0 PFTEMP ;;
       if r <? 0 then user_panic stack_tf envs_va lapic ctx else ret tt) s1 = Ret tt s' /\
    uready ctx s' c env' d l' D M' /\ env_sim env env' /\ envs s' = <[c := env']> (envs s) /\
    (forall i, M' !! i = if decide (i = (d, addr / 4096)) then Some (pte_of p URW) else M !! i) /\
    (forall j, 0 <= j < 1024 -> entry (mem s') p j = entry (mem s) (frame_of pte) j) /\
    (forall k pte', k <> (d, addr / 4096) -> M !! k = Some pte' ->
       forall j, 0 <= j < 1024 -> entry (mem s') (frame_of pte') j = entry (mem s) (frame_of pte') j).
Proof.
  intros Hr Hcow Hp Hl1 Hu1 Hs1 Hes1 Hdf1. set (v := addr / 4096). set (M1 := <[_ := _]> M) in Hu1.
  pose proof (fh_range Hr) as Hra. assert (HNU : NUVPN * 4096 = UTOP /\ UTOP <= 0xf0000000) by done.
  pose proof (fh_pte Hr) as HM. fold v in HM.
  assert (Hvt : v <> tmp_page) by (intros E; rewrite E, (fh_tmp Hr) in HM; done).
  assert (Hrd : ROUNDDOWN addr PGSIZE = 4096 * v) by (unfold ROUNDDOWN, PGSIZE; rewrite u32_small by lia; lia).
  assert (Htp : PFTEMP = 4096 * tmp_page) by done. rewrite Hrd, Htp.
  assert (HM1 : M1 !! (d, v) = Some pte) by (unfold M1; by rewrite lookup_insert_ne by congruence).
  assert (HMt : M1 !! (d, tmp_page) = Some (pte_of p URW)) by apply lookup_insert_eq.
  pose proof (ur_vm _ _ _ _ _ _ _ _ (fh_ready Hr)) as Hvm. pose proof (ur_vm _ _ _ _ _ _ _ _ Hu1) as Hvm1.
  assert (Hpr : 0 <= p < 1048576).
  { pose proof (alloc_ok_range s l p (vo_alloc _ _ _ _ _ Hvm) Hp). pose proof (vm_npages Hvm). lia. }
  destruct (frame_of_page_entry p URW Hpr ltac:(done)) as (_ & Hfr & _ & Hlow). fold (pte_of p URW) in Hfr, Hlow.
  assert (HU : has (pte_of p URW) PTE_U = true) by (by rewrite has_mod, Hlow).
  assert (HW : has (pte_of p URW) PTE_W = true) by (by rewrite has_mod, Hlow).
  assert (Hfree : forall k e, M !! k = Some e -> frame_of e <> p).
  { intros k e He E. destruct (mapped_no_table _ _ _ _ _ _ _ Hvm He) as [Hn _]. by rewrite E in Hn. }
  destruct (copy_page_ok s1 c env1 d l1 D M1 v tmp_page pte (pte_of p URW) Hu1 ltac:(lia) ltac:(done) Hvt HM1 HMt)
    as (s2 & H2 & m & -> & Hu2 & Hcp & Hkeep); [rewrite Hfr; by eapply Hfree|by apply cow_fault_user|done|done|].
  rewrite Hfr in Hcp, Hkeep. rewrite (bind_ret _ _ _ _ _ H2).
  destruct (user_page_map_ok stack_tf envs_va lapic ctx _ c env1 d l1 D M1 0 c env1 d tmp_page (4096 * tmp_page) v (4096 * v) URW
    (pte_of p URW) eq_refl eq_refl Hu2) as (s3 & env3 & r & H3 & Hs3 & Hes3 & Hcase); try done.
  { by eapply ur_cur. }
  { by eapply ur_env. }
  { by eapply ur_pgdir. }
  { lia. }
  { intros k. pose proof (fh_count Hr k). pose proof (mappings_insert_le M (d, tmp_page) (pte_of p URW) k). fold M1 in H0. case_decide; lia. }
  assert (Hpres : present (mem (set_mem m s1)) d (v / 1024) = true).
  { destruct (mapped_present _ l1 D M1 no_refs d (4096 * v) pte (ur_vm _ _ _ _ _ _ _ _ Hu2) (ur_dir _ _ _ _ _ _ _ _ Hu2)) as (Hx & _);
      [lia|by replace (4096 * v / 4096) with v by lia|]. rewrite <- Hx. f_equal. rewrite PDX_div. unfold NUVPN in HNU. lia. }
  destruct Hcase as [(_ & _ & _ & _ & Hx)|(l3 & -> & Hu3 & Hdf3 & Hl3)]; [congruence|].
  rewrite (bind_ret _ _ _ _ _ H3). change (0 <? 0) with false. cbv iota. rewrite Hfr in Hu3. set (M3 := <[_ := _]> M1) in Hu3.
  destruct (user_page_unmap_ok stack_tf envs_va lapic ctx s3 c env3 d l3 D M3 tmp_page (4096 * tmp_page) eq_refl Hu3 ltac:(done))
    as (s4 & env4 & l4 & H4 & Hu4 & Hs4 & Hes4 & Hdf4).
  rewrite (bind_ret _ _ _ _ _ H4). change (0 <? 0) with false. cbv iota.
  exists s4, env4, l4, (delete (d, tmp_page) M3). split; [done|]. split; [done|]. split; [by etrans; [exact Hs1|]; etrans; [exact Hs3|]|].
  split; [rewrite Hes4, Hes3; simpl; by rewrite Hes1, !insert_insert_eq|].
  assert (HM3 : forall k e, k <> (d, v) -> M !! k = Some e -> M3 !! k = Some e).
  { intros k e Hk He. unfold M3, M1. rewrite !lookup_insert_ne; [done|intros <-; rewrite (fh_tmp Hr) in He; done|done]. }
  split; [|split].
  - intros i. unfold M3, M1. rewrite lookup_delete, !lookup_insert. destruct (decide (i = (d, v))) as [->|Hi].
    + rewrite decide_False by congruence. by rewrite decide_True.
    + rewrite (decide_False (P := (d, v) = i)) by congruence. case_decide as E; [|done]. subst i. by rewrite (fh_tmp Hr).
  - intros j Hj. assert (HMv : M3 !! (d, v) = Some (pte_of p URW)) by apply lookup_insert_eq.
    rewrite <- Hfr at 1. rewrite (mapped_kept s3 s4 _ _ _ _ _ _ (ur_vm _ _ _ _ _ _ _ _ Hu3) Hdf4 HMv) by done.
    rewrite (mapped_kept _ s3 _ _ _ _ _ _ (ur_vm _ _ _ _ _ _ _ _ Hu2) Hdf3 HMt) by done.
    rewrite Hfr. simpl. rewrite Hcp by done. by apply (mapped_kept s s1 _ _ _ _ _ _ Hvm Hdf1 HM).
  - intros k e Hk He j Hj. assert (HM1k : M1 !! k = Some e).
    { unfold M1. rewrite lookup_insert_ne; [done|]. intros <-. rewrite (fh_tmp Hr) in He. done. }
    rewrite (mapped_kept s3 s4 _ _ _ _ _ _ (ur_vm _ _ _ _ _ _ _ _ Hu3) Hdf4 (HM3 _ _ Hk He)) by done.
    rewrite (mapped_kept _ s3 _ _ _ _ _ _ (ur_vm _ _ _ _ _ _ _ _ Hu2) Hdf3 HM1k) by done.
    simpl. rewrite Hkeep by (done || by eapply Hfree). by apply (mapped_kept s s1 _ _ _ _ _ _ Hvm Hdf1 He).
Qed.

Lemma pgfault_ok :
  fault_ready ->
  let r := pgfault stack_tf envs_va lapic ctx utf s in
  if cow_fault pte err
  then (exists s' env' l' M' p, r = Ret tt s' /\ fault_handled s' env' l' M' p) \/
       (exists s', r = Monitor s' /\ (length l <= 1)%nat)
  else exists s', r = Monitor s'.
Proof.
  intros Hr. cbv zeta. destruct (cow_fault pte err) eqn:Hcow; [|by apply pgfault_bad].
  destruct (read_utf Hr) as [H1 H2]. unfold pgfault. rewrite (bind_ret _ _ _ _ _ H1), (bind_ret _ _ _ _ _ H2). cbv zeta.
  rewrite (bind_ret _ _ _ _ _ (fault_check Hr)), Hcow. cbn [negb]. cbv iota. fold URW. pose proof (fh_ready Hr) as Hu.
  destruct (user_page_alloc_ok stack_tf envs_va lapic ctx s c env d l D M 0 c env tmp_page PFTEMP URW d eq_refl Hu)
    as (s1 & env1 & r & H3 & Hs1 & Hes1 & _ & Hcase); [by eapply ur_cur|by eapply ur_env|by eapply ur_pgdir|done..|].
  rewrite (bind_ret _ _ _ _ _ H3). destruct Hcase as [(-> & Hu1 & Hl)|(p & l1 & -> & Hhd & Hu1 & Hdf1 & _ & Hl1)].
  { change (- E_NO_MEM <? 0) with true. cbv iota. right. destruct (user_panic_ok (A := unit) stack_tf envs_va lapic ctx s1 c env1 d l D M Hu1) as (s' & Hp).
    by exists s'. }
  change (0 <? 0) with false. cbv iota. left. change (pte_of p _) with (pte_of p URW) in Hu1.
  assert (Hp : p ∈ l) by (destruct l; [done|injection Hhd as ->; by left]).
  destruct (pgfault_move s1 env1 l1 p Hr Hcow Hp) as (s' & env' & l' & M' & H4 & Hu' & Hs' & Hes' & HM' & Hcp & Hrest); [|done..|].
  - intros t. rewrite Hl1, freed_by_none by apply (fh_tmp Hr). intros Ht. apply elem_of_tail_if in Ht.
    by apply (elem_of_tail_if false).
  - exists s', env', l', M', p. split; [exact H4|]. by split.
Qed.
End handler.
End pgfault.

(** C2: the handler makes the page its caller wrote to the caller's own: a fresh page,
    writable, with the same contents, in place of the shared one, and no other
    mapping and no other page changes.  It panics when the fault is no write to a
    copy-on-write page, or when no page is free. *)
Theorem pgfault_correct stack_tf envs_va lapic ctx s c env d l D M utf upte addr pte err :
  fault_ready ctx s c env d l D M utf upte addr pte err ->
  let r := pgfault stack_tf envs_va lapic ctx utf s in
  if cow_fault pte err
  then (exists s' env' l' M' p, r = Ret tt s' /\ fault_handled ctx s c env d l D M addr pte s' env' l' M' p) \/
       (exists s', r = Monitor s' /\ (length l <= 1)%nat)
  else exists s', r = Monitor s'.
Proof. apply pgfault_ok. Qed.

(** ** A concrete fault: page 0x801 is copy-on-write, the frame is at 0x800000 *)

Lemma roomy_fault : exists s env l M upte pte,
  fault_ready fork_tf s 0 env 3 l {[3]} M 0x800000 upte 0x801004 pte 7 /\ cow_fault pte 7 = true /\ (1 < length l)%nat.
Proof.
  destruct roomy_ready as (s & env & l & upte & Hu & HU & HW & _ & _ & _ & Hl & _).
  destruct (user_page_alloc_ok 0 0 0 fork_tf s 0 env 3 l {[3]} _ 0 0 env 2049 0x801000 ((PTE_U .| PTE_P) .| PTE_COW) 3 eq_refl Hu)
    as (s1 & env1 & r & _ & _ & _ & _ & Hcase).
  - exact (ur_cur _ _ _ _ _ _ _ _ Hu).
  - exact (ur_env _ _ _ _ _ _ _ _ Hu).
  - exact (ur_pgdir _ _ _ _ _ _ _ _ Hu).
  - lia.
  - unfold NUVPN. lia.
  - split; [discriminate|reflexivity].
  - reflexivity.
  - destruct Hcase as [(_ & _ & Hl')|(p & l1 & _ & Hhd & Hu1 & _ & _ & Hl1)]; [lia|].
    set (perm := (PTE_U .| PTE_P) .| _) in *. set (M0 := <[(3, 2048) := upte]> ∅) in *.
    assert (Hp : 0 <= p < 1048576).
    { pose proof (ur_vm _ _ _ _ _ _ _ _ Hu) as Hvm. pose proof (vm_npages Hvm).
      assert (Hin : p ∈ l) by (destruct l; [done|injection Hhd as ->; by left]).
      pose proof (alloc_ok_range s l p (vo_alloc _ _ _ _ _ Hvm) Hin). lia. }
    destruct (frame_of_page_entry p perm Hp ltac:(split; [discriminate|reflexivity])) as (_ & _ & _ & Hlow).
    fold (pte_of p perm) in Hlow.
    assert (HM : <[(3, 2049) := pte_of p perm]> M0 !! (3, 0x800000 / 4096) = Some upte) by (unfold M0; by rewrite lookup_insert_ne).
    destruct (ustore32_mapped 0 0 0 fork_tf s1 0 env1 3 l1 {[3]} _ 0x800000 0x801004 upte Hu1 ltac:(split; [discriminate|reflexivity])
      eq_refl HM HU HW) as [_ Hu2].
    destruct (ustore32_mapped 0 0 0 fork_tf _ 0 env1 3 l1 {[3]} _ 0x800004 7 upte Hu2 ltac:(split; [discriminate|reflexivity])
      eq_refl HM HU HW) as [_ Hu3].
    eexists _, env1, l1, _, upte, (pte_of p perm). split; [|split].
    + split; [exact Hu3|by split|by split| | |done|by rewrite lookup_insert_eq| |].
      * simpl. rewrite load32_store32_ne by (change (0x800000 mod 4096) with 0; change (0x800004 mod 4096) with 4; lia).
        apply load32_store32_eq.
      * simpl. change (0x800000 mod 4096) with 0. change (0x800004 mod 4096) with 4. rewrite Z.add_0_r. apply load32_store32_eq.
      * unfold M0. by rewrite !lookup_insert_ne.
      * intros k. pose proof (mappings_insert_le M0 (3, 2049) (pte_of p perm) k).
        pose proof (mappings_insert_le ∅ (3, 2048) upte k) as H0. fold M0 in H0. change (mappings ∅ k) with 0 in H0.
        repeat case_decide; lia.
    + unfold cow_fault. rewrite (land_mod (pte_of p perm)), Hlow by done. reflexivity.
    + rewrite Hl1, freed_by_none by (unfold M0; by rewrite lookup_insert_ne).
      destruct (present _ _ _), l as [|? [|? [|? [|? ?]]]]; simpl in *; lia.
Qed.

Lemma pgfault_correct_witness : exists s s', pgfault 0 0 0 fork_tf 0x800000 s = Ret tt s'.
Proof.
  destruct roomy_fault as (s & env & l & M & upte & pte & Hr & Hc & Hl).
  pose proof (pgfault_correct 0 0 0 fork_tf s 0 env 3 l {[3]} M 0x800000 upte 0x801004 pte 7 Hr) as H.
  cbv zeta in H. rewrite Hc in H. destruct H as [(s' & env' & l' & M' & p & H & _)|(s' & _ & H)]; [|lia].
  exists s, s'. exact H.
Defined.
