(* ===== verification/KernMap.v ===== *)
(** * The kernel's part of the address space

    Theorems on kern/pmap.c's [boot_map_region], [mmio_map_region] and the mappings
    that [mem_init] makes above UTOP: what the page tables of a directory translate
    afterwards, page by page. *)
From S2P Require Import Prelude Mmu Mem Console Kstate Pmap PmapAlloc PmapSpace.

(** ** A directory while the kernel's mappings are made *)

(** The entries of directory [d] but the one that maps the directory itself. *)
Definition tab_index (i : Z) : Prop := 0 <= i < 1024 /\ i <> UVPDE.

(** [l] is the free list; the tables of [d] are used pages, one for each entry. *)
Record kdir (s : kstate) (l : list Z) (d : Z) : Prop := {
  kd_alloc : alloc_ok s l;
  kd_mem : mem_ok (mem s);
  kd_dir : d ∉ l /\ 0 <= d < npages s;
  kd_tab i : tab_index i -> present (mem s) d i = true ->
    let t := frame_of (entry (mem s) d i) in t ∉ l /\ t <> d /\ 0 <= t < npages s;
  kd_inj i i' : tab_index i -> tab_index i' -> present (mem s) d i = true -> present (mem s) d i' = true ->
    frame_of (entry (mem s) d i) = frame_of (entry (mem s) d i') -> i = i' }.

(** The entry of virtual page [v]. *)
Definition kpte (m : bytemem) (d v : Z) : option Z := uent m d (v / 1024) (v mod 1024).
Definition kpage (v : Z) : Prop := 0 <= v < 0x100000 /\ v / 1024 <> UVPDE.

Lemma kpage_parts v : kpage v -> tab_index (v / 1024) /\ 0 <= v mod 1024 < 1024.
Proof. intros [H1 H2]. split; [split; [lia|done]|lia]. Qed.

(** Pages that are neither free nor part of the page tables keep their bytes, the
    directory its entry for itself. *)
Definition kframe (d : Z) (l : list Z) (s s' : kstate) : Prop :=
  vm_frame s s' /\ trace s' = trace s /\ entry (mem s') d UVPDE = entry (mem s) d UVPDE /\
  forall t j, t ∉ l -> t <> d -> (forall i, tab_index i -> present (mem s) d i = true -> frame_of (entry (mem s) d i) <> t) ->
    0 <= j < 1024 -> entry (mem s') t j = entry (mem s) t j /\
    (forall i, tab_index i -> present (mem s') d i = true -> frame_of (entry (mem s') d i) <> t).

Lemma kframe_refl d l s : kframe d l s s.
Proof. done. Qed.

Lemma kframe_trans d l1 l2 s1 s2 s3 : (forall t, t ∈ l2 -> t ∈ l1) ->
  kframe d l1 s1 s2 -> kframe d l2 s2 s3 -> kframe d l1 s1 s3.
Proof.
  intros Hl (F1 & T1 & E1 & H1) (F2 & T2 & E2 & H2). split; [by etrans|]. do 2 (split; [congruence|]).
  intros t j Ht Hd Htab Hj. destruct (H1 t j Ht Hd Htab Hj) as [E Htab2].
  destruct (H2 t j) as [E' Htab3]; [by intros ?%Hl|done|done|done|]. split; [congruence|done].
Qed.

(** ** The walk *)

Lemma kdir_npages s l d : kdir s l d -> 0 <= npages s <= 65536.
Proof. intros H. apply (ao_pages _ _ (kd_alloc _ _ _ H)). Qed.

Lemma kwalk_present s l d va c : kdir s l d -> tab_index (PDX va) -> present (mem s) d (PDX va) = true ->
  pgdir_walk (pgdir_kva d) va c s = Ret (Some (KERNBASE + ent_addr (frame_of (entry (mem s) d (PDX va))) (PTX va))) s.
Proof.
  intros Hk Hi Hp. destruct (kd_dir _ _ _ Hk) as [_ Hd]. destruct (kd_tab _ _ _ Hk _ Hi Hp) as (_ & _ & Ht). pose proof (kdir_npages _ _ _ Hk).
  unfold pgdir_walk. replace (pgdir_kva d + 4 * PDX va) with (KERNBASE + ent_addr d (PDX va)) by (unfold pgdir_kva, ent_addr; lia).
  rewrite (bind_ret _ _ _ _ _ (kload_entry s d (PDX va) ltac:(lia) ltac:(apply PDX_range))).
  unfold present in Hp. rewrite Hp, PTE_ADDR_div. fold (frame_of (entry (mem s) d (PDX va))).
  erewrite bind_ret by (apply KADDR_eq; [apply (kd_alloc _ _ _ Hk)|lia]). unfold ret, ent_addr. do 2 f_equal. lia.
Qed.

Lemma kwalk_none s d va : kdir s [] d -> present (mem s) d (PDX va) = false -> pgdir_walk (pgdir_kva d) va 1 s = Ret None s.
Proof.
  intros Hk Hp. destruct (kd_dir _ _ _ Hk) as [_ Hd].
  unfold pgdir_walk. replace (pgdir_kva d + 4 * PDX va) with (KERNBASE + ent_addr d (PDX va)) by (unfold pgdir_kva, ent_addr; lia).
  rewrite (bind_ret _ _ _ _ _ (kload_entry s d (PDX va) ltac:(lia) ltac:(apply PDX_range))).
  unfold present in Hp. rewrite Hp. change (negb (1 =? 0)) with true. cbv iota.
  by rewrite (bind_ret _ _ _ _ _ (page_alloc_nil s ALLOC_ZERO (kd_alloc _ _ _ Hk))).
Qed.

Section newtab.
Context {s : kstate} {n : Z} {l : list Z} {d : Z} (Hk : kdir s (n :: l) d).
Context (i : Z) (Hi : tab_index i) (Habs : present (mem s) d i = false).

(** Memory with the new table [n], all zero, as entry [i]. *)
Lemma newtab_entry p t j : 0 <= j < 1024 ->
  entry (mem (new_table (s := s) (n := n) d i p)) t j =
    if decide ((t, j) = (d, i)) then 4096 * n + 7 else if decide (t = n) then 0 else entry (mem s) t j.
Proof.
  intros Hj. assert (0 <= n < npages s) by (eapply alloc_ok_range; [apply (kd_alloc _ _ _ Hk)|set_solver]).
  pose proof (kdir_npages _ _ _ Hk). destruct Hi as [Hi1 _]. unfold new_table, alloc_post. simpl. case_decide as E.
  - injection E as -> ->. rewrite entry_store_eq. apply u32_small. lia.
  - rewrite entry_store_ne by (lia || congruence). by apply entry_fill.
Qed.

Lemma newtab_dir p k : 0 <= k < 1024 ->
  entry (mem (new_table (s := s) (n := n) d i p)) d k = if decide (k = i) then 4096 * n + 7 else entry (mem s) d k.
Proof.
  intros Hk'. rewrite newtab_entry by done. destruct (kd_dir _ _ _ Hk) as [[Hdn _]%not_elem_of_cons _].
  repeat case_decide; congruence || done.
Qed.

Lemma newtab_present p k : 0 <= k < 1024 ->
  present (mem (new_table (s := s) (n := n) d i p)) d k = if decide (k = i) then true else present (mem s) d k.
Proof.
  intros Hk'. unfold present. rewrite newtab_dir by done. case_decide; [|done]. apply pde_value_props.
Qed.

Lemma newtab_ok p : pages s !! n = Some p -> alloc_ok (alloc_post ALLOC_ZERO n p s) l -> kdir (new_table (s := s) (n := n) d i p) l d.
Proof.
  intros Hp Hok. destruct (kd_dir _ _ _ Hk) as [[Hdn Hdl]%not_elem_of_cons Hd].
  assert (Hnl : n ∉ l) by (pose proof (ao_nodup _ _ (kd_alloc _ _ _ Hk)) as Hx; by apply NoDup_cons in Hx as [? _]).
  assert (Hn : 0 <= n < npages s) by (eapply alloc_ok_range; [apply (kd_alloc _ _ _ Hk)|set_solver]).
  destruct (pde_value_props n) as [Hv1 Hv2].
  split.
  - unfold new_table. eapply (alloc_ok_frame (set_pages _ (alloc_post ALLOC_ZERO n p s)));
      [..|eapply (alloc_ok_ref _ l n _ 1 Hok); [|done]]; try done.
    unfold alloc_post. simpl. apply lookup_insert_eq.
  - unfold new_table, alloc_post. simpl. apply mem_ok_store32, mem_ok_fill, (kd_mem _ _ _ Hk).
  - done.
  - intros k Hk' Hpk. rewrite newtab_dir by apply Hk'. rewrite newtab_present in Hpk by apply Hk'. case_decide.
    + rewrite Hv2. done.
    + destruct (kd_tab _ _ _ Hk k Hk' Hpk) as ([_ ?]%not_elem_of_cons & ? & ?). done.
  - intros k k' Hk1 Hk2 Hp1 Hp2. rewrite !newtab_dir by (apply Hk1 || apply Hk2).
    rewrite newtab_present in Hp1 by apply Hk1. rewrite newtab_present in Hp2 by apply Hk2.
    assert (Hne : forall q, tab_index q -> present (mem s) d q = true -> frame_of (entry (mem s) d q) <> n).
    { intros q Hq Hpq E. destruct (kd_tab _ _ _ Hk q Hq Hpq) as ([? _]%not_elem_of_cons & _). done. }
    destruct (decide (k = i)) as [E1|E1], (decide (k' = i)) as [E2|E2]; rewrite ?Hv2; intros E; [congruence|exfalso..|].
    + by apply (Hne k').
    + by apply (Hne k).
    + by apply (kd_inj _ _ _ Hk).
Qed.

Lemma newtab_uent p k j : tab_index k -> 0 <= j < 1024 ->
  uent (mem (new_table (s := s) (n := n) d i p)) d k j = uent (mem s) d k j.
Proof.
  intros Hk' Hj. destruct (kd_dir _ _ _ Hk) as [[Hdn Hdl]%not_elem_of_cons Hd]. unfold uent.
  rewrite newtab_present, newtab_dir by apply Hk'. destruct (pde_value_props n) as [Hv1 Hv2]. case_decide as E.
  - subst k. rewrite Habs, Hv2, newtab_entry by done. rewrite decide_False by congruence. by rewrite decide_True.
  - destruct (present (mem s) d k) eqn:Hp; [|done]. destruct (kd_tab _ _ _ Hk k Hk' Hp) as ([Hne _]%not_elem_of_cons & Hnd & _).
    rewrite newtab_entry by done. rewrite !decide_False by (done || congruence). done.
Qed.

Lemma newtab_frame p : kframe d (n :: l) s (new_table (s := s) (n := n) d i p).
Proof.
  split; [|split; [done|split]].
  - unfold new_table. etrans; [apply (alloc_post_frame ALLOC_ZERO n p)|].
    generalize (alloc_post ALLOC_ZERO n p s). intros s1. etrans; [|apply set_mem_vm_frame]. apply sbp_vm_frame, sbp_pages.
  - rewrite newtab_dir by done. destruct Hi as [_ Hne]. rewrite decide_False; [done|congruence].
  - intros t j [Htn Htl]%not_elem_of_cons Htd Htab Hj. rewrite newtab_entry, !decide_False by (done || congruence). split; [done|].
    intros k Hk' Hp. rewrite newtab_dir by apply Hk'. rewrite newtab_present in Hp by apply Hk'.
    case_decide; [destruct (pde_value_props n) as [_ ->]; congruence|by apply Htab].
Qed.
End newtab.

(** The walk that may create a table. *)
Lemma kwalk_create s n l d va : kdir s (n :: l) d -> tab_index (PDX va) -> present (mem s) d (PDX va) = false ->
  exists s', pgdir_walk (pgdir_kva d) va 1 s = Ret (Some (KERNBASE + ent_addr n (PTX va))) s' /\
    kdir s' l d /\ kframe d (n :: l) s s' /\
    (forall k, 0 <= k < 1024 -> present (mem s') d k = if decide (k = PDX va) then true else present (mem s) d k) /\
    frame_of (entry (mem s') d (PDX va)) = n /\
    (forall k j, tab_index k -> 0 <= j < 1024 -> uent (mem s') d k j = uent (mem s) d k j).
Proof.
  intros Hk Hi Habs. destruct (page_alloc_cons s ALLOC_ZERO n l (kd_alloc _ _ _ Hk)) as (p & Hp & Hr & Heq & Hok).
  destruct (kd_dir _ _ _ Hk) as [_ Hd]. pose proof (kdir_npages _ _ _ Hk).
  assert (Hn : 0 <= n < npages s) by (by eapply pages_ok_range; [apply (kd_alloc _ _ _ Hk)|]).
  exists (new_table (n := n) d (PDX va) (s := s) p).
  split; [|split; [by apply (newtab_ok Hk)|split; [by apply (newtab_frame Hk)|split; [by apply (newtab_present Hk)|split]]]].
  - unfold pgdir_walk. replace (pgdir_kva d + 4 * PDX va) with (KERNBASE + ent_addr d (PDX va)) by (unfold pgdir_kva, ent_addr; lia).
    rewrite (bind_ret _ _ _ _ _ (kload_entry s d (PDX va) ltac:(lia) ltac:(apply PDX_range))).
    unfold present in Habs. rewrite Habs. change (negb (1 =? 0)) with true. cbv iota. rewrite (bind_ret _ _ _ _ _ Heq).
    apply (create_tail (alloc_post ALLOC_ZERO n p s) n d (PDX va) (PTX va) (set_pp_link None p)); try lia; try done.
    + apply (ao_pages _ _ Hok).
    + apply lookup_insert_eq.
    + apply PDX_range.
  - rewrite (newtab_dir Hk) by (done || apply Hi). rewrite decide_True by done. apply pde_value_props.
  - intros k j. by apply (newtab_uent Hk).
Qed.

(** ** A page table entry *)

Lemma kstore_pte s l d i j e : kdir s l d -> tab_index i -> 0 <= j < 1024 -> present (mem s) d i = true ->
  has e PTE_P = true -> 0 <= e < 0x100000000 ->
  let t := frame_of (entry (mem s) d i) in
  exists s', kstore32 (KERNBASE + ent_addr t j) e s = Ret tt s' /\ kdir s' l d /\ kframe d l s s' /\
    (forall k, 0 <= k < 1024 -> entry (mem s') d k = entry (mem s) d k) /\
    (forall k q, tab_index k -> 0 <= q < 1024 ->
       uent (mem s') d k q = if decide (k = i /\ q = j) then Some e else uent (mem s) d k q).
Proof.
  intros Hk Hi Hj Hp He Her t. destruct (kd_tab _ _ _ Hk i Hi Hp) as (Htl & Htd & Htr). fold t in Htl, Htd, Htr.
  exists (set_mem (store32 (mem s) (ent_addr t j) e) s). split; [apply kstore_entry; lia|].
  assert (Hent : forall t' j', 0 <= j' < 1024 -> entry (store32 (mem s) (ent_addr t j) e) t' j' =
    if decide ((t, j) = (t', j')) then e else entry (mem s) t' j').
  { intros t' j' Hj'. case_decide as E; [injection E as <- <-; rewrite entry_store_eq; by apply u32_small|by apply entry_store_ne]. }
  assert (Hdir : forall k, 0 <= k < 1024 -> entry (store32 (mem s) (ent_addr t j) e) d k = entry (mem s) d k).
  { intros k Hk'. rewrite Hent, decide_False by (done || congruence). done. }
  assert (Hpres : forall k, 0 <= k < 1024 -> present (store32 (mem s) (ent_addr t j) e) d k = present (mem s) d k).
  { intros k Hk'. unfold present. by rewrite Hdir. }
  split; [|split; [|split]].
  - destruct Hk as [K1 K2 K3 K4 K5]. split; simpl.
    + by eapply (alloc_ok_frame s).
    + by apply mem_ok_store32.
    + done.
    + intros k Hk'. rewrite Hpres, Hdir by apply Hk'. by apply K4.
    + intros k k' H1 H2. rewrite !Hpres, !Hdir by (apply H1 || apply H2). by apply K5.
  - split; [apply set_mem_vm_frame|]. split; [done|]. split; [by apply Hdir|]. intros t' j' Ht' Hd' Htab Hj'. cbn [mem set_mem].
    rewrite Hent by done. rewrite decide_False by (intros [= E _]; by apply (Htab i Hi Hp)). split; [done|].
    intros k Hk'. rewrite Hpres, Hdir by apply Hk'. by apply Htab.
  - exact Hdir.
  - intros k q Hk' Hq. unfold uent. cbn [mem set_mem]. rewrite Hpres, Hdir by apply Hk'. destruct (present (mem s) d k) eqn:Hpk.
    + rewrite Hent by done. case_decide as E.
      * injection E as E1 E2. unfold t in E1. pose proof (kd_inj _ _ _ Hk i k Hi Hk' Hp Hpk E1) as ->. by rewrite decide_True, He by done.
      * case_decide as E'; [|done]. destruct E' as [-> ->]. by destruct E.
    + case_decide as E; [|done]. destruct E as [-> _]. congruence.
Qed.

(** ** One page *)

(** The entry that maps a page to physical address [pa]. *)
Definition map_entry (pa perm : Z) : Z := (PTE_ADDR pa .| perm) .| PTE_P.

Lemma map_entry_ok pa perm : 0 <= pa < 0x100000000 -> 0 <= perm < 4096 ->
  has (map_entry pa perm) PTE_P = true /\ 0 <= map_entry pa perm < 0x100000000.
Proof.
  intros Hpa Hperm. destruct (frame_of_page_entry (pa / 4096) perm) as (H1 & _ & H2 & _); [lia|done|].
  rewrite page2pa_eq in H1, H2 by lia. unfold map_entry. rewrite PTE_ADDR_div. done.
Qed.

(** What is needed to map page [v]: a table, or a free page for one. *)
Definition table_need (m : bytemem) (d v : Z) : Z := if present m d (v / 1024) then 0 else 1.

Lemma boot_map_page_ok s l d va pa perm i :
  kdir s l d -> let v := u32 (va + i) / 4096 in kpage v -> 0 <= perm < 4096 -> table_need (mem s) d v <= Z.of_nat (length l) ->
  exists s' l', boot_map_page (pgdir_kva d) va pa perm i s = Ret tt s' /\ kdir s' l' d /\ kframe d l s s' /\
    (exists l0, l = l0 ++ l') /\
    Z.of_nat (length l') = Z.of_nat (length l) - table_need (mem s) d v /\
    (forall k, 0 <= k < 1024 -> present (mem s') d k = if decide (k = v / 1024) then true else present (mem s) d k) /\
    (forall w, kpage w -> kpte (mem s') d w = if decide (w = v) then Some (map_entry (u32 (pa + i)) perm) else kpte (mem s) d w).
Proof.
  intros Hk v Hv Hperm Hneed. pose proof (u32_range (va + i)) as Hr.
  assert (Hx : PDX (u32 (va + i)) = v / 1024 /\ PTX (u32 (va + i)) = v mod 1024) by (rewrite PDX_div, PTX_div; unfold v; lia).
  destruct Hx as [Hpdx Hptx]. destruct (kpage_parts v Hv) as [Hi Hj].
  assert (Hwalk : exists s1 l1, pgdir_walk (pgdir_kva d) (u32 (va + i)) 1 s =
      Ret (Some (KERNBASE + ent_addr (frame_of (entry (mem s1) d (v / 1024))) (v mod 1024))) s1 /\
    kdir s1 l1 d /\ kframe d l s s1 /\ (exists l0, l = l0 ++ l1) /\
    Z.of_nat (length l1) = Z.of_nat (length l) - table_need (mem s) d v /\
    (forall k, 0 <= k < 1024 -> present (mem s1) d k = if decide (k = v / 1024) then true else present (mem s) d k) /\
    (forall k j, tab_index k -> 0 <= j < 1024 -> uent (mem s1) d k j = uent (mem s) d k j)).
  { unfold table_need in *. rewrite <- Hpdx, <- Hptx. rewrite <- Hpdx in Hi, Hneed. destruct (present (mem s) d (PDX (u32 (va + i)))) eqn:Hp.
    - exists s, l. split; [by apply (kwalk_present s l)|]. split; [done|]. split; [apply kframe_refl|]. split; [by exists []|]. split; [lia|].
      split; [|done]. intros k Hk'. by case_decide; [subst k|].
    - destruct l as [|n l1]; simpl in Hneed; [lia|]. destruct (kwalk_create s n l1 d _ Hk Hi Hp) as (s1 & H1 & K1 & F1 & P1 & E1 & U1).
      exists s1, l1. rewrite E1. split; [done|]. split; [done|]. split; [done|]. split; [by exists [n]|]. split; [simpl; lia|]. done. }
  destruct Hwalk as (s1 & l1 & H1 & K1 & F1 & (l0 & ->) & Hl1 & P1 & U1).
  destruct (map_entry_ok (u32 (pa + i)) perm (u32_range _) Hperm) as [He Her].
  destruct (kstore_pte s1 l1 d (v / 1024) (v mod 1024) (map_entry (u32 (pa + i)) perm) K1 Hi Hj) as (s2 & H2 & K2 & F2 & D2 & U2); [|done..|].
  { rewrite P1 by apply Hi. by rewrite decide_True. }
  exists s2, l1. split; [|split; [done|split; [|split; [by exists l0|split; [done|split]]]]].
  - unfold boot_map_page. rewrite (bind_ret _ _ _ _ _ H1). exact H2.
  - eapply kframe_trans; [|exact F1|exact F2]. set_solver.
  - intros k Hk'. unfold present. rewrite D2 by done. fold (present (mem s1) d k). by apply P1.
  - intros w Hw. destruct (kpage_parts w Hw) as [Hwi Hwj]. unfold kpte. rewrite U2, U1 by done.
    destruct (decide (w = v)) as [->|Hne]; [by rewrite decide_True|]. rewrite decide_False; [done|]. unfold v in *. lia.
Qed.

(** ** A region *)

Lemma kpte_present m d v e : kpte m d v = Some e -> present m d (v / 1024) = true.
Proof. unfold kpte, uent. by destruct (present m d (v / 1024)). Qed.

(** The tables that the pages from [v] to [last] may need. *)
Definition tables_need (m : bytemem) (d v last : Z) : Z := last / 1024 - v / 1024 + table_need m d v.

(** The translation of page [w], once [n] pages from [v0] on are mapped to [pa] and up. *)
Definition over (v0 n pa perm w : Z) (old : option Z) : option Z :=
  if decide (v0 <= w < v0 + n) then Some (map_entry (pa + 4096 * (w - v0)) perm) else old.

Lemma boot_map_pages n s l d v0 pa perm :
  kdir s l d -> 0 < n -> 0 <= v0 -> v0 + n <= 0x100000 -> (forall w, v0 <= w < v0 + n -> w / 1024 <> UVPDE) ->
  0 <= pa -> pa + 4096 * (n - 1) < 0x100000000 -> 0 <= perm < 4096 ->
  tables_need (mem s) d v0 (v0 + n - 1) <= Z.of_nat (length l) ->
  exists s' l', for_each (seqZ 0 n) (fun k => boot_map_page (pgdir_kva d) (4096 * v0) pa perm (PGSIZE * k)) s = Ret tt s' /\
    kdir s' l' d /\ kframe d l s s' /\ (exists l0, l = l0 ++ l') /\
    Z.of_nat (length l) - Z.of_nat (length l') <= tables_need (mem s) d v0 (v0 + n - 1) /\
    forall w, kpage w -> kpte (mem s') d w = over v0 n pa perm w (kpte (mem s) d w).
Proof.
  intros Hk Hn Hv0 Hvn Huv Hpa Hpan Hperm Hneed.
  set (P := fun k s' => exists l', kdir s' l' d /\ kframe d l s s' /\ (exists l0, l = l0 ++ l') /\
    (forall w, kpage w -> kpte (mem s') d w = over v0 k pa perm w (kpte (mem s) d w)) /\
    Z.of_nat (length l) - Z.of_nat (length l') <= tables_need (mem s) d v0 (v0 + n - 1) /\
    (k < n -> tables_need (mem s') d (v0 + k) (v0 + n - 1) <= Z.of_nat (length l')) /\
    (k < n -> Z.of_nat (length l) - Z.of_nat (length l') <=
       tables_need (mem s) d v0 (v0 + n - 1) - tables_need (mem s') d (v0 + k) (v0 + n - 1))).
  destruct (for_each_seqZ P 0 n (fun k => boot_map_page (pgdir_kva d) (4096 * v0) pa perm (PGSIZE * k)) s) as (s' & Hs & Hp).
  - lia.
  - exists l. split; [done|]. split; [apply kframe_refl|]. split; [by exists []|]. split; [|rewrite Z.add_0_r; unfold tables_need, table_need in *; case_match; lia].
    intros w _. unfold over. by rewrite decide_False by lia.
  - intros k s1 Hk1 (l1 & K1 & F1 & (l0 & Hl0) & M1 & C1 & N1 & U1). specialize (N1 ltac:(lia)). specialize (U1 ltac:(lia)).
    assert (Hv : u32 (4096 * v0 + PGSIZE * k) / 4096 = v0 + k).
    { unfold PGSIZE. rewrite u32_small by lia. lia. }
    assert (Hpage : kpage (v0 + k)) by (split; [lia|apply Huv; lia]).
    destruct (boot_map_page_ok s1 l1 d (4096 * v0) pa perm (PGSIZE * k) K1) as (s2 & l2 & H2 & K2 & F2 & (l3 & Hl3) & Hlen & P2 & M2).
    { by rewrite Hv. } { done. } { rewrite Hv. unfold tables_need in N1. lia. }
    rewrite Hv in *. exists s2. split; [exact H2|]. exists l2. split; [done|]. split; [|split; [|split; [|split; [|split]]]].
    + eapply kframe_trans; [|exact F1|exact F2]. subst. set_solver.
    + exists (l0 ++ l3). by rewrite <- app_assoc, <- Hl3.
    + intros w Hw. rewrite M2, M1 by done. unfold over. rewrite u32_small by (unfold PGSIZE; lia).
      destruct (decide (w = v0 + k)) as [->|Hne].
      * rewrite decide_True by lia. do 2 f_equal. unfold PGSIZE. lia.
      * repeat case_decide; lia || done.
    + unfold tables_need in *. lia.
    + intros Hk2. unfold tables_need in *. unfold table_need at 1.
      rewrite P2 by lia. case_decide; [lia|]. destruct (present _ _ _); lia.
    + intros Hk2. unfold tables_need in *. unfold table_need at 2.
      rewrite P2 by lia. case_decide; [lia|]. destruct (present _ _ _); lia.
  - rewrite Z.add_0_l in Hp. destruct Hp as (l' & K' & F' & L' & M' & C' & _). by exists s', l'.
Qed.

(** [s'] is [s] with the translation of directory [d] changed by [F], for which at most
    [c] pages were taken from the free list. *)
Definition remapped (d : Z) (s : kstate) (l : list Z) (F : Z -> option Z -> option Z) (c : Z) (s' : kstate) (l' : list Z) : Prop :=
  kdir s' l' d /\ kframe d l s s' /\ (exists l0, l = l0 ++ l') /\ Z.of_nat (length l) - Z.of_nat (length l') <= c /\
  forall w, kpage w -> kpte (mem s') d w = F w (kpte (mem s) d w).

Lemma remapped_trans d s1 l1 F c s2 l2 G c' s3 l3 :
  remapped d s1 l1 F c s2 l2 -> remapped d s2 l2 G c' s3 l3 -> remapped d s1 l1 (fun w o => G w (F w o)) (c + c') s3 l3.
Proof.
  intros (K1 & F1 & (l0 & H1) & C1 & M1) (K2 & F2 & (l0' & H2) & C2 & M2). split; [done|]. split; [|split; [|split; [lia|]]].
  - eapply kframe_trans; [|exact F1|exact F2]. subst. set_solver.
  - exists (l0 ++ l0'). by rewrite <- app_assoc, <- H2.
  - intros w Hw. by rewrite M2, M1.
Qed.

Lemma remapped_free d s l F c s' l' : remapped d s l F c s' l' -> Z.of_nat (length l) - c <= Z.of_nat (length l').
Proof. intros (_ & _ & _ & H & _). lia. Qed.

(** How many pages, and page tables, a region takes at most. *)
Definition region_pages (size : Z) : Z := (size + 4095) / 4096.
Definition region_tables (va size : Z) : Z := (va + size - 1) / 0x400000 - va / 0x400000 + 1.

(** The index of the loop does not wrap. *)
Lemma boot_map_region_eq d va size pa perm s : size <= 0x100000000 - PGSIZE ->
  boot_map_region d va size pa perm s =
  for_each (seqZ 0 ((size + PGSIZE - 1) / PGSIZE)) (fun k => boot_map_page d va pa perm (PGSIZE * k)) s.
Proof.
  intros H. unfold boot_map_region. replace (size <=? 0x100000000 - PGSIZE) with true by lia.
  unfold bind at 1. by destruct (for_each _ _ s) as [[]| | | | | |].
Qed.

Lemma boot_map_region_ok s l d va size pa perm :
  kdir s l d -> va mod 4096 = 0 -> 0 <= va -> 0 <= size -> va + size <= 0x100000000 ->
  va + size <= UVPT \/ UVPT + PTSIZE <= va -> 0 <= pa -> pa + size <= 0x100000000 -> 0 <= perm < 4096 ->
  region_tables va size <= Z.of_nat (length l) ->
  exists s' l', boot_map_region (pgdir_kva d) va size pa perm s = Ret tt s' /\
    remapped d s l (over (va / 4096) (region_pages size) pa perm) (region_tables va size) s' l'.
Proof.
  intros Hk Hal Hva Hsz Hvs Huv Hpa Hps Hperm Hneed.
  assert (Hidx : size <= 0x100000000 - PGSIZE) by (autounfold with jconst in Huv; change PTSIZE with 0x400000 in Huv; unfold PGSIZE; lia).
  rewrite boot_map_region_eq by exact Hidx. clear Hidx. unfold PGSIZE in *.
  replace ((size + 4096 - 1) / 4096) with (region_pages size) by (unfold region_pages; f_equal; lia).
  destruct (decide (size = 0)) as [->|Hsz0].
  { exists s, l. split; [done|]. split; [done|]. split; [apply kframe_refl|]. split; [by exists []|]. split; [unfold region_tables; lia|].
    intros w _. unfold over. rewrite decide_False; [done|]. unfold region_pages. lia. }
  assert (Hn : 0 < region_pages size /\ 4096 * (region_pages size - 1) < size /\ size <= 4096 * region_pages size) by (unfold region_pages; lia).
  assert (Hva' : 4096 * (va / 4096) = va) by lia.
  assert (Htab : forall t, 0 <= t <= 1 -> (va / 4096 + region_pages size - 1) / 1024 - va / 4096 / 1024 + t <= region_tables va size).
  { intros t Ht. unfold region_tables. set (n := region_pages size) in *. lia. }
  destruct (boot_map_pages (region_pages size) s l d (va / 4096) pa perm Hk) as (s' & l' & H & K & F & L & C & M); try done; try lia.
  - intros w Hw. unfold UVPDE. autounfold with jconst in Huv. change PTSIZE with 0x400000 in Huv. set (n := region_pages size) in *. lia.
  - unfold tables_need, table_need in *. case_match; [specialize (Htab 0)|specialize (Htab 1)]; lia.
  - exists s', l'. rewrite Hva' in H. split; [exact H|]. split; [done|]. split; [done|]. split; [done|]. split; [|done].
    unfold tables_need, table_need in *. case_match; [specialize (Htab 0)|specialize (Htab 1)]; lia.
Qed.

(** ** The kernel's address space *)

Lemma kframe_pgdir d l s s' : kframe d l s s' -> kern_pgdir s' = kern_pgdir s /\ npages s' = npages s /\ mmio_base s' = mmio_base s.
Proof. by intros ((m & fl & pg & tr & ->) & _). Qed.

Lemma PADDR_ok kva s : KERNBASE <= kva -> PADDR kva s = Ret (kva - KERNBASE) s.
Proof. intros H. unfold PADDR. by replace (kva <? KERNBASE) with false by lia. Qed.

Definition flags_kernel : Z := PTE_W .| PTE_P.
Definition flags_user : Z := PTE_U .| PTE_P.

(** The stacks of the first [n] CPUs, each below an unmapped gap of its size; the
    stacks lie one after the other from physical address [pa] on. *)
Definition stack_map (pa n w : Z) (old : option Z) : option Z :=
  let off := KSTACKTOP / 4096 - 1 - w in
  if decide (0 <= off < 16 * n /\ off mod 16 < 8)
  then Some (map_entry (pa + KSTKSIZE * (off / 16) + 4096 * (7 - off mod 16)) flags_kernel)
  else old.

(** What [mem_init] puts into the page tables: physical memory from KERNBASE up, the
    stacks below it, and read-only copies of [pages] and [envs] for the user. *)
Definition kern_map (np pages_pa envs_pa stacks_pa w : Z) (old : option Z) : option Z :=
  if decide (KERNBASE / 4096 <= w) then Some (map_entry (4096 * (w - KERNBASE / 4096)) flags_kernel)
  else stack_map stacks_pa NCPU w
    (over (UENVS / 4096) (region_pages (NENV * sizeof_Env)) envs_pa flags_user w
      (over (UPAGES / 4096) (region_pages (sizeof_PageInfo * np)) pages_pa flags_user w old)).

Lemma stack_map_step pa i w o : 0 <= i < NCPU ->
  over ((KSTACKTOP - i * (KSTKSIZE + KSTKGAP) - KSTKSIZE) / 4096) (region_pages KSTKSIZE) (pa + i * KSTKSIZE) flags_kernel w (stack_map pa i w o) =
  stack_map pa (i + 1) w o.
Proof.
  intros Hi. unfold over, stack_map. unfold NCPU in Hi.
  change (region_pages KSTKSIZE) with 8. change (KSTACKTOP / 4096) with 0xF0000. change KSTKSIZE with 0x8000. change KSTKGAP with 0x8000.
  replace ((KSTACKTOP - i * (0x8000 + 0x8000) - 0x8000) / 4096) with (0xF0000 - 16 * i - 8) by (change KSTACKTOP with 0xF0000000; lia).
  set (off := 0xF0000 - 1 - w). destruct (decide (0 <= off < 16 * (i + 1) /\ off mod 16 < 8)) as [H|H].
  - destruct (decide (0xF0000 - 16 * i - 8 <= w < 0xF0000 - 16 * i - 8 + 8)).
    + do 2 f_equal. assert (off / 16 = i /\ off mod 16 = 0xF0000 - 1 - w - 16 * i) as [-> ->] by (unfold off; lia). lia.
    + rewrite decide_True; [done|]. unfold off in *. lia.
  - rewrite !decide_False; [done|unfold off in *; lia..].
Qed.

Lemma mem_init_mp_ok percpu_kstacks s l d :
  kern_pgdir s = pgdir_kva d -> kdir s l d -> KERNBASE <= percpu_kstacks -> percpu_kstacks mod 4096 = 0 ->
  percpu_kstacks + NCPU * KSTKSIZE <= 0x100000000 -> NCPU <= Z.of_nat (length l) ->
  exists s' l', mem_init_mp percpu_kstacks s = Ret tt s' /\
    remapped d s l (stack_map (percpu_kstacks - KERNBASE) NCPU) NCPU s' l'.
Proof.
  intros Hkp Hk Hps Hal Hpe Hl. unfold mem_init_mp. kpure. rewrite Hkp.
  set (P := fun i s' => exists l', remapped d s l (stack_map (percpu_kstacks - KERNBASE) i) i s' l').
  destruct (for_each_seqZ P 0 NCPU (fun i => pa <- PADDR (percpu_kstacks + i * KSTKSIZE) ;;
    boot_map_region (pgdir_kva d) (KSTACKTOP - i * (KSTKSIZE + KSTKGAP) - KSTKSIZE) KSTKSIZE pa flags_kernel) s) as (s' & Hs & l' & Hp).
  - done.
  - exists l. split; [done|]. split; [apply kframe_refl|]. split; [by exists []|]. split; [lia|].
    intros w _. unfold stack_map. by rewrite decide_False by lia.
  - intros i s1 Hi (l1 & R1). rewrite Z.add_0_l in Hi. pose proof (remapped_free _ _ _ _ _ _ _ R1) as Hfree. pose proof R1 as (K1 & _).
    assert (Hc : 0 <= i < 8 /\ percpu_kstacks + 0x40000 <= 0x100000000 /\ 8 <= Z.of_nat (length l)) by (split; [exact Hi|]; split; [exact Hpe|exact Hl]).
    assert (Ht : region_tables (KSTACKTOP - i * (KSTKSIZE + KSTKGAP) - KSTKSIZE) KSTKSIZE = 1).
    { unfold region_tables. change KSTACKTOP with 0xF0000000. change KSTKSIZE with 0x8000. change KSTKGAP with 0x8000. lia. }
    destruct (boot_map_region_ok s1 l1 d (KSTACKTOP - i * (KSTKSIZE + KSTKGAP) - KSTKSIZE) KSTKSIZE (percpu_kstacks + i * KSTKSIZE - KERNBASE) flags_kernel K1)
      as (s2 & l2 & H2 & R2); change KSTACKTOP with 0xF0000000 in *; change KSTKSIZE with 0x8000 in *; change KSTKGAP with 0x8000 in *;
      change UVPT with 0xEF400000 in *; change PTSIZE with 0x400000 in *; change KERNBASE with 0xF0000000 in *; try lia.
    { done. }
    exists s2. split; [|exists l2].
    + erewrite bind_ret by (apply PADDR_ok; change KERNBASE with 0xF0000000; lia). exact H2.
    + pose proof (remapped_trans _ _ _ _ _ _ _ _ _ _ _ R1 R2) as (Ka & Fa & La & Ca & Ma). split; [done|]. split; [done|]. split; [done|].
      split; [lia|]. intros w Hw. rewrite Ma by done.
      replace (percpu_kstacks + i * 0x8000 - 0xF0000000) with (percpu_kstacks - 0xF0000000 + i * 0x8000) by lia.
      apply (stack_map_step (percpu_kstacks - 0xF0000000) i w). exact Hi.
  - exists s', l'. split; [exact Hs|exact Hp].
Qed.

(** A region mapped after others. *)
Lemma region_then s0 l0 F c s l d va size pa perm :
  remapped d s0 l0 F c s l -> va mod 4096 = 0 -> 0 <= va -> 0 <= size -> va + size <= 0x100000000 ->
  va + size <= UVPT \/ UVPT + PTSIZE <= va -> 0 <= pa -> pa + size <= 0x100000000 -> 0 <= perm < 4096 ->
  c + region_tables va size <= Z.of_nat (length l0) ->
  exists s' l', boot_map_region (pgdir_kva d) va size pa perm s = Ret tt s' /\
    remapped d s0 l0 (fun w o => over (va / 4096) (region_pages size) pa perm w (F w o)) (c + region_tables va size) s' l'.
Proof.
  intros HR Hal Hva Hsz Hvs Huv Hpa Hps Hperm Hneed. pose proof (remapped_free _ _ _ _ _ _ _ HR). pose proof HR as (HK & _).
  destruct (boot_map_region_ok s l d va size pa perm HK) as (s' & l' & H' & HR'); try done; [lia|].
  exists s', l'. split; [done|]. by apply (remapped_trans _ _ _ _ _ _ _ _ _ _ _ HR HR').
Qed.

Lemma remapped_weaken d s l F c s' l' G c' : remapped d s l F c s' l' -> c <= c' ->
  (forall w o, kpage w -> F w o = G w o) -> remapped d s l G c' s' l'.
Proof.
  intros (K & Fr & L & C & M) Hc HFG. split; [done|]. split; [done|]. split; [done|]. split; [lia|].
  intros w Hw. by rewrite M, HFG.
Qed.

(** An array in the kernel's part of memory, on a page of its own. *)
Definition kobject (va size : Z) : Prop := KERNBASE <= va /\ va mod 4096 = 0 /\ va + size <= 0x100000000.

(** The free pages that the kernel's tables take at most. *)
Definition KERN_TABLES : Z := 77.

Lemma kern_map_compose np pages_va envs_pa stack_pa stacks_pa w o :
  0 <= np <= 65536 -> KERNBASE <= pages_va -> pages_va mod 4096 = 0 -> kpage w ->
  over (KERNBASE / 4096) (region_pages (u32 (- KERNBASE))) 0 flags_kernel w
   (stack_map stacks_pa NCPU w
     (over ((KSTACKTOP - KSTKSIZE) / 4096) (region_pages KSTKSIZE) stack_pa flags_kernel w
       (over (UENVS / 4096) (region_pages (NENV * sizeof_Env)) envs_pa flags_user w
         (over (pages_va / 4096) (region_pages (sizeof_PageInfo * np)) (pages_va - KERNBASE) flags_kernel w
           (over (UPAGES / 4096) (region_pages (sizeof_PageInfo * np)) (pages_va - KERNBASE) flags_user w o))))) =
  kern_map np (pages_va - KERNBASE) envs_pa stacks_pa w o.
Proof.
  intros Hnp Hpv Hpa [Hw _]. unfold kern_map. change (KERNBASE / 4096) with 0xF0000. change (region_pages (u32 (- KERNBASE))) with 0x10000.
  unfold over at 1. case_decide as Hk.
  { rewrite decide_True by lia. f_equal. }
  rewrite decide_False by lia. unfold stack_map. change (KSTACKTOP / 4096) with 0xF0000. change NCPU with 8. case_decide as Hs; [done|].
  unfold over at 1. change ((KSTACKTOP - KSTKSIZE) / 4096) with 0xEFFF8. change (region_pages KSTKSIZE) with 8.
  rewrite decide_False by lia. f_equal.
  unfold over at 1. change KERNBASE with 0xF0000000 in *. rewrite decide_False by lia. done.
Qed.

Lemma mem_init_map_ok bootstack percpu_kstacks pages_va envs_va s l d :
  kern_pgdir s = pgdir_kva d -> kdir s l d -> KERN_TABLES <= Z.of_nat (length l) ->
  kobject pages_va (sizeof_PageInfo * npages s) -> kobject envs_va (NENV * sizeof_Env) ->
  kobject bootstack KSTKSIZE -> kobject percpu_kstacks (NCPU * KSTKSIZE) ->
  exists s' l', mem_init_map bootstack percpu_kstacks pages_va envs_va s = Ret tt s' /\
    remapped d s l (kern_map (npages s) (pages_va - KERNBASE) (envs_va - KERNBASE) (percpu_kstacks - KERNBASE)) KERN_TABLES s' l'.
Proof.
  intros Hkp Hk Hl (P1 & P2 & P3) (E1 & E2 & E3) (B1 & B2 & B3) (S1 & S2 & S3). pose proof (kdir_npages _ _ _ Hk) as Hnp.
  unfold mem_init_map. kpure. rewrite Hkp. unfold KERN_TABLES in *. change sizeof_PageInfo with 8 in *.
  rewrite (u32_small (npages s * 8)) by lia. rewrite (Z.mul_comm (npages s)). set (psz := 8 * npages s) in *.
  assert (Hpsz : 0 <= psz <= 0x80000) by (unfold psz; lia).
  assert (Tc : region_tables UPAGES psz <= 1 /\ region_tables pages_va psz <= 2 /\ region_tables UENVS (NENV * sizeof_Env) = 1 /\
    region_tables (KSTACKTOP - KSTKSIZE) KSTKSIZE = 1 /\ region_tables KERNBASE (u32 (- KERNBASE)) = 64).
  { split; [unfold region_tables; change UPAGES with 0xEF000000; lia|]. split; [unfold region_tables; lia|]. done. }
  destruct Tc as (T1 & T2 & T3 & T4 & T5).
  assert (R0 : remapped d s l (fun _ o => o) 0 s l).
  { split; [done|]. split; [apply kframe_refl|]. split; [by exists []|]. split; [lia|done]. }
  rewrite (bind_ret _ _ _ _ _ (PADDR_ok pages_va s P1)). change KERNBASE with 0xF0000000 in *.
  destruct (region_then _ _ _ _ _ _ _ UPAGES psz (pages_va - 0xF0000000) flags_user R0) as (s1 & l1 & H1 & R1);
    try done; try lia; try jlia.
  rewrite (bind_ret _ _ _ _ _ H1).
  destruct (region_then _ _ _ _ _ _ _ pages_va psz (pages_va - 0xF0000000) flags_kernel R1) as (s2 & l2 & H2 & R2);
    try done; try lia; try jlia.
  rewrite (bind_ret _ _ _ _ _ H2). rewrite (bind_ret _ _ _ _ _ (PADDR_ok envs_va s2 E1)). change KERNBASE with 0xF0000000.
  change (NENV * sizeof_Env) with 126976 in *.
  destruct (region_then _ _ _ _ _ _ _ UENVS 126976 (envs_va - 0xF0000000) flags_user R2) as (s3 & l3 & H3 & R3);
    try done; try lia; try jlia.
  rewrite (bind_ret _ _ _ _ _ H3). rewrite (bind_ret _ _ _ _ _ (PADDR_ok bootstack s3 B1)). change KERNBASE with 0xF0000000.
  change KSTKSIZE with 0x8000 in *. change (KSTACKTOP - 0x8000) with 0xEFFF8000 in *.
  destruct (region_then _ _ _ _ _ _ _ 0xEFFF8000 0x8000 (bootstack - 0xF0000000) flags_kernel R3) as (s4 & l4 & H4 & R4);
    try done; try lia; try jlia.
  rewrite (bind_ret _ _ _ _ _ H4).
  assert (Hkp4 : kern_pgdir s4 = pgdir_kva d) by (destruct R4 as (_ & Fr & _); by destruct (kframe_pgdir _ _ _ _ Fr) as (-> & _)).
  pose proof (remapped_free _ _ _ _ _ _ _ R4) as Hf4. change NCPU with 8 in *.
  destruct (mem_init_mp_ok percpu_kstacks s4 l4 d Hkp4 (proj1 R4) S1 S2) as (s5 & l5 & H5 & R5); [exact S3|change NCPU with 8; lia|].
  rewrite (bind_ret _ _ _ _ _ H5). pose proof (remapped_trans _ _ _ _ _ _ _ _ _ _ _ R4 R5) as R45. change NCPU with 8 in R45.
  change KERNBASE with 0xF0000000 in *. change (u32 (Z.opp 0xF0000000)) with 0x10000000 in *.
  destruct (region_then _ _ _ _ _ _ _ 0xF0000000 0x10000000 0 flags_kernel R45) as (s6 & l6 & H6 & R6);
    try done; try lia; try jlia.
  exists s6, l6. split; [exact H6|]. eapply remapped_weaken; [exact R6|lia|]. intros w o Hw.
  apply (kern_map_compose (npages s) pages_va (envs_va - 0xF0000000) (bootstack - 0xF0000000) (percpu_kstacks - 0xF0000000) w o Hnp P1 P2 Hw).
Qed.

Lemma ROUNDUP_page size : 0 <= ROUNDUP size PGSIZE <= 0xfffff000 /\ ROUNDUP size PGSIZE mod 4096 = 0.
Proof.
  unfold ROUNDUP, ROUNDDOWN, PGSIZE. pose proof (u32_range (u32 size + 4096 - 1)) as H. revert H.
  generalize (u32 (u32 size + 4096 - 1)). intros z Hz. rewrite ?(u32_small z) by lia. rewrite ?u32_small by lia. lia.
Qed.

Lemma mmio_map_region_ok s l d pa size :
  kern_pgdir s = pgdir_kva d -> kdir s l d -> (0 < length l)%nat ->
  mmio_base s mod 4096 = 0 -> MMIOBASE <= mmio_base s ->
  0 <= pa -> pa + ROUNDUP size PGSIZE <= 0x100000000 -> mmio_base s + ROUNDUP size PGSIZE <= MMIOLIM ->
  exists s' l', mmio_map_region pa size s = Ret (mmio_base s) (set_mmio_base (mmio_base s + ROUNDUP size PGSIZE) s') /\
    remapped d s l (over (mmio_base s / 4096) (region_pages (ROUNDUP size PGSIZE)) pa ((PTE_PCD .| PTE_PWT) .| PTE_W)) 1 s' l'.
Proof.
  intros Hkp Hk Hl Hal Hb Hpa Hps Hfit. unfold mmio_map_region. pose proof (ROUNDUP_page size) as Hr.
  set (fixed := ROUNDUP size PGSIZE) in *. rewrite bind_gets. change MMIOLIM with 0xEFC00000 in *. change MMIOBASE with 0xEF800000 in *.
  rewrite (u32_small (mmio_base s + fixed)) by lia.
  replace (mmio_base s + fixed >? 0xEFC00000) with false by lia. rewrite bind_gets, Hkp.
  assert (Ht : region_tables (mmio_base s) fixed <= 1) by (unfold region_tables; lia).
  destruct (boot_map_region_ok s l d (mmio_base s) fixed pa ((PTE_PCD .| PTE_PWT) .| PTE_W) Hk) as (s' & l' & H & R); try done; try lia; try jlia.
  rewrite (bind_ret _ _ _ _ _ H). kpure. exists s', l'. split; [done|]. by eapply remapped_weaken.
Qed.

Lemma kdir_mmio s l d b : kdir s l d -> kdir (set_mmio_base b s) l d.
Proof. intros [K1 K2 K3 K4 K5]. split; try done. by eapply (alloc_ok_frame s). Qed.

(** ** Theorems *)

(** C7: boot_map_region maps every page of the region, the last one whole even if the size
    is not a multiple of the page size, to the physical pages from [pa] on with the
    permissions and PTE_P; no other page's translation changes, and no byte outside of
    the page tables.  It takes a free page for each table that is missing. *)
Theorem boot_map_region_correct s l d va size pa perm :
  kdir s l d -> va mod 4096 = 0 -> 0 <= va -> 0 <= size -> va + size <= 0x100000000 ->
  va + size <= UVPT \/ UVPT + PTSIZE <= va -> 0 <= pa -> pa + size <= 0x100000000 -> 0 <= perm < 4096 ->
  region_tables va size <= Z.of_nat (length l) ->
  exists s' l', boot_map_region (pgdir_kva d) va size pa perm s = Ret tt s' /\ kdir s' l' d /\ kframe d l s s' /\
    Z.of_nat (length l) - Z.of_nat (length l') <= region_tables va size /\
    forall w, kpage w -> kpte (mem s') d w =
      if decide (va <= 4096 * w < va + size) then Some (map_entry (pa + (4096 * w - va)) perm) else kpte (mem s) d w.
Proof.
  intros Hk Hal Hva Hsz Hvs Huv Hpa Hps Hperm Hneed.
  destruct (boot_map_region_ok s l d va size pa perm) as (s' & l' & H & K & Fr & _ & C & M); try done.
  exists s', l'. split; [done|]. split; [done|]. split; [done|]. split; [done|]. intros w Hw. rewrite M by done.
  unfold over, region_pages. repeat case_decide; try lia; [|done]. do 2 f_equal. lia.
Qed.

(** C6: mem_init's mappings make the kernel's address space: physical memory from KERNBASE
    up, each CPU's stack below KERNBASE with an unmapped gap under it, [pages] and [envs]
    for the user to read only; whatever was mapped elsewhere stays.  Seventy-seven free
    pages are enough for the tables. *)
Theorem mem_init_map_correct bootstack percpu_kstacks pages_va envs_va s l d :
  kern_pgdir s = pgdir_kva d -> kdir s l d -> KERN_TABLES <= Z.of_nat (length l) ->
  kobject pages_va (sizeof_PageInfo * npages s) -> kobject envs_va (NENV * sizeof_Env) ->
  kobject bootstack KSTKSIZE -> kobject percpu_kstacks (NCPU * KSTKSIZE) ->
  exists s' l', mem_init_map bootstack percpu_kstacks pages_va envs_va s = Ret tt s' /\
    kdir s' l' d /\ kframe d l s s' /\ Z.of_nat (length l) - Z.of_nat (length l') <= KERN_TABLES /\
    forall w, kpage w -> kpte (mem s') d w =
      kern_map (npages s) (pages_va - KERNBASE) (envs_va - KERNBASE) (percpu_kstacks - KERNBASE) w (kpte (mem s) d w).
Proof.
  intros Hkp Hk Hl HP HE HB HS.
  destruct (mem_init_map_ok bootstack percpu_kstacks pages_va envs_va s l d) as (s' & l' & H & K & Fr & _ & C & M); try done.
  by exists s', l'.
Qed.

(** C14: for every size, rounded up to pages as the code rounds it (modulo 2^32):
    mmio_map_region maps the device's pages, uncached, at the next free address of the
    MMIO region when they fit below MMIOLIM, and panics when they end between MMIOLIM and
    2^32.  When they would end beyond 2^32 the check, which is computed in 32 bits, does not
    notice: the region is mapped over what lies above MMIOLIM. *)
Theorem mmio_map_region_correct s l d pa size :
  kern_pgdir s = pgdir_kva d -> kdir s l d -> (0 < length l)%nat ->
  mmio_base s mod 4096 = 0 -> MMIOBASE <= mmio_base s <= MMIOLIM -> 0 <= pa ->
  let fixed := ROUNDUP size PGSIZE in
  if decide (mmio_base s + fixed <= MMIOLIM) then
    pa + fixed <= 0x100000000 ->
    exists s' l', mmio_map_region pa size s = Ret (mmio_base s) s' /\ kdir s' l' d /\
      mmio_base s' = mmio_base s + fixed /\
      forall w, kpage w -> kpte (mem s') d w =
        if decide (mmio_base s <= 4096 * w < mmio_base s + fixed)
        then Some (map_entry (pa + (4096 * w - mmio_base s)) ((PTE_PCD .| PTE_PWT) .| PTE_W))
        else kpte (mem s) d w
  else if decide (mmio_base s + fixed < 0x100000000) then mmio_map_region pa size s = panic s
  else mmio_map_region pa size s =
    (boot_map_region (pgdir_kva d) (mmio_base s) fixed pa ((PTE_PCD .| PTE_PWT) .| PTE_W) ;;
     modify (set_mmio_base (mmio_base s + fixed - 0x100000000)) ;; ret (mmio_base s)) s.
Proof.
  intros Hkp Hk Hl Hal Hb Hpa fixed. pose proof (ROUNDUP_page size) as Hr. fold fixed in Hr. case_decide as Hfit; [|case_decide as Hw].
  - intros Hps. destruct (mmio_map_region_ok s l d pa size) as (s' & l' & H & K & _ & _ & _ & M); try done; try lia.
    exists (set_mmio_base (mmio_base s + fixed) s'), l'. split; [done|]. split; [by apply kdir_mmio|]. split; [done|].
    intros w Hkw. cbn [mem set_mmio_base]. rewrite M by done. fold fixed. unfold over, region_pages. repeat case_decide; try lia; [|done]. do 2 f_equal. lia.
  - unfold mmio_map_region. rewrite bind_gets. fold fixed. change MMIOLIM with 0xEFC00000 in *. rewrite (u32_small (mmio_base s + _)) by lia.
    by replace (mmio_base s + fixed >? 0xEFC00000) with true by lia.
  - unfold mmio_map_region. rewrite bind_gets. fold fixed. change MMIOLIM with 0xEFC00000 in *.
    assert (E : u32 (mmio_base s + fixed) = mmio_base s + fixed - 0x100000000) by (unfold u32; lia). rewrite E.
    replace (mmio_base s + fixed - 0x100000000 >? 0xEFC00000) with false by lia. by rewrite bind_gets, Hkp.
Qed.

(** ** A machine with a hundred free pages *)

Definition kern_dir : Z := 20.
Definition blank_machine : kstate := set_kern_pgdir (pgdir_kva kern_dir) (zero_kstate 256).

Lemma blank_entry j t : entry (mem blank_machine) t j = 0.
Proof. done. Qed.

(** The state after the loop that frees the pages from 100 on. *)
Lemma free_machine : exists s, mem s = mem blank_machine /\ npages s = 256 /\ kern_pgdir s = pgdir_kva kern_dir /\
  mmio_base s = MMIOBASE /\ kdir s (rev (seqZ 100 100)) kern_dir.
Proof.
  assert (H0 : alloc_ok blank_machine []) by (eapply (alloc_ok_frame (zero_kstate 256)); [..|apply zero_alloc_ok; lia]; done).
  destruct (page_init_release (seqZ 100 100) blank_machine [] H0) as (s & _ & Hok & (fl & pg & ->) & _).
  { apply NoDup_seqZ. }
  { intros i Hi%elem_of_seqZ. change (npages blank_machine) with 256. split; [lia|apply not_elem_of_nil]. }
  rewrite app_nil_r in Hok. exists (set_page_free_list fl (set_pages pg blank_machine)). split; [done|]. split; [done|]. split; [done|]. split; [done|].
  split; [exact Hok|done| |done|done]. split; [|done]. rewrite list_elem_of_In, <- in_rev, <- list_elem_of_In, elem_of_seqZ. unfold kern_dir. lia.
Qed.

Lemma free_machine_free : Z.of_nat (length (rev (seqZ 100 100))) = 100.
Proof. by rewrite length_rev, length_seqZ. Qed.

Lemma boot_map_region_correct_witness : exists s s', boot_map_region (pgdir_kva kern_dir) UENVS 0x1800 0x5000 5 s = Ret tt s' /\
  kpte (mem s') kern_dir (UENVS / 4096 + 1) = Some 0x6005.
Proof.
  destruct free_machine as (s & _ & _ & _ & _ & Hk). pose proof free_machine_free as Hl.
  destruct (boot_map_region_correct s _ kern_dir UENVS 0x1800 0x5000 5 Hk) as (s' & l' & H & _ & _ & _ & M); try done; try (rewrite Hl; done); [by left|].
  exists s, s'. split; [exact H|]. rewrite M; [vm_compute; reflexivity|]. split; [vm_compute; split; [discriminate|reflexivity]|vm_compute; discriminate].
Defined.

Lemma mem_init_map_correct_witness : exists s s', mem_init_map 0xF0010000 0xF0020000 0xF0060000 0xF0080000 s = Ret tt s' /\
  kpte (mem s') kern_dir (KERNBASE / 4096 + 7) = Some 0x7003 /\
  kpte (mem s') kern_dir ((KSTACKTOP - (KSTKSIZE + KSTKGAP)) / 4096 - 1) = Some 0x2F003.
Proof.
  destruct free_machine as (s & _ & Hn & Hkp & _ & Hk). pose proof free_machine_free as Hl.
  destruct (mem_init_map_correct 0xF0010000 0xF0020000 0xF0060000 0xF0080000 s _ kern_dir Hkp Hk) as (s' & l' & H & _ & _ & _ & M);
    try (unfold kobject; rewrite ?Hn; done).
  exists s, s'. split; [exact H|]. rewrite Hn in M.
  split; (rewrite M; [vm_compute; reflexivity|split; [vm_compute; split; [discriminate|reflexivity]|vm_compute; discriminate]]).
Defined.

Lemma mmio_map_region_correct_witness : exists s s', mmio_map_region 0xFEE00000 4096 s = Ret MMIOBASE s' /\ mmio_base s' = MMIOBASE + 4096.
Proof.
  destruct free_machine as (s & _ & Hn & Hkp & Hb & Hk). pose proof free_machine_free as Hl.
  assert (Hl0 : (0 < length (rev (seqZ 100 100)))%nat) by lia.
  pose proof (mmio_map_region_correct s _ kern_dir 0xFEE00000 4096 Hkp Hk Hl0) as H. rewrite Hb in H. cbv zeta in H.
  assert (Hfit : MMIOBASE + ROUNDUP 4096 PGSIZE <= MMIOLIM) by (vm_compute; discriminate).
  rewrite (decide_True _ _ Hfit) in H.
  assert (HA : MMIOBASE <= MMIOBASE <= MMIOLIM) by (split; vm_compute; discriminate).
  assert (HC : 0 <= 0xFEE00000) by lia.
  assert (HD : 0xFEE00000 + ROUNDUP 4096 PGSIZE <= 0x100000000) by (vm_compute; discriminate).
  destruct (H eq_refl HA HC HD) as (s' & l' & H1 & _ & H2 & _).
  exists s, s'. split; [exact H1|exact H2].
Defined.
