(* ===== verification/InitSpec.v ===== *)
(** * The start of the other CPUs: theorems

    [lapic_startap], [lapic_init] and [mp_main] up to its status, and [boot_aps]:
    when it returns, every other CPU has been sent the start-up interrupts and runs
    with a stack of its own in its task state. *)
From S2P Require Import Prelude Mmu Mem Console Kstate Pmap PmapAlloc PmapSpace Env Trap TrapSpec Cstring CstringSpec Kbytes Mpconfig Lapic Init KernMap.

(** ** Memory outside of the page tables *)

(** Page [p] is neither free nor part of directory [d]. *)
Definition plain (s : kstate) (l : list Z) (d p : Z) : Prop :=
  p ∉ l /\ p <> d /\ forall i, tab_index i -> present (mem s) d i = true -> frame_of (entry (mem s) d i) <> p.

(** [m'] differs from [m] in page [p] only. *)
Definition page_only (p : Z) (m m' : bytemem) : Prop :=
  forall a, ~ (4096 * p <= a < 4096 * p + 4096) -> load8 m' a = load8 m a.

Lemma page_only_entry p m m' t j : page_only p m m' -> t <> p -> 0 <= j < 1024 -> entry m' t j = entry m t j.
Proof. intros H Ht Hj. unfold entry, load32, ent_addr. by rewrite !H by lia. Qed.

(** Words that agree have the same bytes. *)
Lemma entry_byte m m' t a : mem_ok m -> mem_ok m' -> (forall j, 0 <= j < 1024 -> entry m' t j = entry m t j) ->
  4096 * t <= a < 4096 * t + 4096 -> load8 m' a = load8 m a.
Proof.
  intros H H' He Ha. specialize (He ((a - 4096 * t) / 4) ltac:(lia)). unfold entry, load32 in He.
  set (b := ent_addr t ((a - 4096 * t) / 4)) in *.
  assert (Hb : a = b \/ a = b + 1 \/ a = b + 2 \/ a = b + 3) by (unfold b, ent_addr; lia).
  pose proof (H b). pose proof (H (b + 1)). pose proof (H (b + 2)). pose proof (H (b + 3)).
  pose proof (H' b). pose proof (H' (b + 1)). pose proof (H' (b + 2)). pose proof (H' (b + 3)).
  clearbody b. destruct Hb as [->|[->|[->| ->]]]; lia.
Qed.

Lemma plain_write s l d p m' : kdir s l d -> plain s l d p -> page_only p (mem s) m' -> mem_ok m' ->
  kdir (set_mem m' s) l d /\ (forall q, plain s l d q -> plain (set_mem m' s) l d q) /\
  forall w, kpage w -> kpte m' d w = kpte (mem s) d w.
Proof.
  intros [K1 K2 K3 K4 K5] (Hpl & Hpd & Hpt) Hm Hok.
  assert (Hd : forall k, 0 <= k < 1024 -> entry m' d k = entry (mem s) d k) by (intros; by apply (page_only_entry p)).
  assert (Hp : forall k, 0 <= k < 1024 -> present m' d k = present (mem s) d k) by (intros; unfold present; by rewrite Hd).
  split; [|split].
  - split; cbn [mem set_mem].
    + by eapply (alloc_ok_frame s).
    + done.
    + done.
    + intros i Hi. rewrite Hp, Hd by apply Hi. by apply K4.
    + intros i i' Hi Hi'. rewrite !Hp, !Hd by (apply Hi || apply Hi'). by apply K5.
  - intros q (H1 & H2 & H3). split; [done|]. split; [done|]. intros i Hi. cbn [mem set_mem]. rewrite Hp, Hd by apply Hi. by apply H3.
  - intros w Hw. destruct (kpage_parts w Hw) as [Hi Hj]. unfold kpte, uent. rewrite Hp, Hd by apply Hi.
    destruct (present (mem s) d (w / 1024)) eqn:E; [|done]. by rewrite (page_only_entry p (mem s)) by (done || by apply Hpt).
Qed.

Lemma plain_kframe s s' l l0 l' d p : l = l0 ++ l' -> kframe d l s s' -> plain s l d p -> plain s' l' d p.
Proof.
  intros -> (_ & _ & _ & H) (H1 & H2 & H3). split; [set_solver|]. split; [done|].
  by destruct (H p 0 H1 H2 H3 ltac:(lia)) as [_ Hx].
Qed.

(** ** Starting a CPU *)

(** What the other CPUs leave alone. *)
Record kept (s s' : kstate) : Prop := {
  kp_cpu : this_cpu s' = this_cpu s;
  kp_lock : kernel_lock s' = kernel_lock s;
  kp_envs : envs s' = envs s;
  kp_npages : npages s' = npages s;
  kp_pgdir : kern_pgdir s' = kern_pgdir s;
  kp_trace : exists t, trace s' = trace s ++ t }.

#[export] Instance kept_preorder : PreOrder kept.
Proof.
  split.
  - intros s. split; try done. exists []. by rewrite app_nil_r.
  - intros s1 s2 s3 [A1 A2 A3 A4 A5 (t & A6)] [B1 B2 B3 B4 B5 (t' & B6)]. split; try congruence.
    exists (t ++ t'). by rewrite B6, A6, app_assoc.
Qed.

Lemma kept_emit s t : kept s (set_trace (trace s ++ t) s).
Proof. split; try done. by exists t. Qed.

Definition startap_events (apicid addr : Z) : list kevent :=
  [EOutb 0x70 0xF; EOutb 0x71 0x0A; ELapicw ICRHI (u32 (apicid .<< 24)); ELapicw ICRLO (u32 ((INIT .| LEVEL) .| ASSERT));
   ELapicw ICRLO (u32 (INIT .| LEVEL));
   ELapicw ICRHI (u32 (apicid .<< 24)); ELapicw ICRLO (u32 (STARTUP .| (addr .>> 12)));
   ELapicw ICRHI (u32 (apicid .<< 24)); ELapicw ICRLO (u32 (STARTUP .| (addr .>> 12)))].

(** An event after others. *)
Lemma emit_at {B} e t s (k : unit -> K B) : bind (emit e) k (set_trace t s) = k tt (set_trace (t ++ [e]) s).
Proof. done. Qed.

Lemma kstore16_at k v s : 0 <= k -> kstore16 (KERNBASE + k) v s = Ret tt (set_mem (store8 (store8 (mem s) k v) (k + 1) (v .>> 8)) s).
Proof.
  intros Hk. unfold kstore16, bind, kstore8. replace (KERNBASE + k <? KERNBASE) with false by lia.
  replace (KERNBASE + k + 1 <? KERNBASE) with false by lia. cbn [mem set_mem].
  replace (KERNBASE + k - KERNBASE) with k by lia. by replace (KERNBASE + k + 1 - KERNBASE) with (k + 1) by lia.
Qed.

(** The warm reset vector, and the interrupts. *)
Lemma lapic_startap_ok apicid addr s : 0 < npages s <= 65536 -> mem_ok (mem s) ->
  exists m', lapic_startap apicid addr s = Ret tt (set_trace (trace s ++ startap_events apicid addr) (set_mem m' s)) /\
    mem_ok m' /\ page_only 0 (mem s) m'.
Proof.
  intros Hn Hok. set (m' := store8 (store8 (store8 (store8 (mem s) 0x467 0) 0x468 (0 .>> 8)) 0x469 (addr .>> 4)) 0x46A ((addr .>> 4) .>> 8)).
  exists m'. split; [|split].
  - assert (Hs : s = set_trace (trace s) s) by (by destruct s).
    unfold lapic_startap. rewrite Hs at 1. rewrite !emit_at. change (0x40 .<< 4 .| 0x67) with 0x467.
    set (t := (trace s ++ _) ++ _).
    assert (HK : KADDR 0x467 (set_trace t s) = Ret (KERNBASE + 0x467) (set_trace t s)) by (apply KADDR_mem; [lia|change (0 < npages s); lia|change (npages s <= 0x10000); lia]).
    rewrite (bind_ret _ _ _ _ _ HK). rewrite (bind_ret _ _ _ _ _ (kstore16_at 0x467 0 (set_trace t s) ltac:(lia))).
    rewrite <- (Z.add_assoc KERNBASE 0x467 2).
    rewrite (bind_ret _ _ _ _ _ (kstore16_at (0x467 + 2) (addr .>> 4) _ ltac:(lia))).
    match goal with |- _ ?S = _ => change S with (set_trace t (set_mem m' s)) end.
    unfold lapicw, microdelay. change (seqZ 0 2) with [0; 1]. cbn [for_each]. generalize (set_mem m' s). intros s1.
    repeat first [rewrite emit_at | rewrite bind_ret_l | rewrite bind_assoc]. unfold ret, t. by rewrite <- !app_assoc.
  - intros a. unfold m'. rewrite !load8_store8. repeat case_decide; try apply u8_range. apply Hok.
  - intros a Ha. unfold m'. rewrite !load8_store8. repeat case_decide; lia || done.
Qed.

(** ** What the other CPUs need *)

(** Enough of the kernel's address space, [room] more pages of it for devices, and two
    pages outside of the page tables: page 0, and page 7, which holds the words [code]. *)
Record ap_ready (d room : Z) (code : Z -> Z) (s : kstate) (l : list Z) : Prop := {
  ar_pgdir : kern_pgdir s = pgdir_kva d;
  ar_dir : kdir s l d;
  ar_vector : plain s l d 0;
  ar_entry : plain s l d (MPENTRY_PADDR / 4096);
  ar_npages : 7 < npages s <= 0x10000;
  ar_mmio : mmio_base s mod 4096 = 0 /\ MMIOBASE <= mmio_base s /\ mmio_base s + 4096 * room <= MMIOLIM;
  ar_room : room <= Z.of_nat (length l);
  ar_code j : 0 <= j < 1024 -> entry (mem s) (MPENTRY_PADDR / 4096) j = code j }.

(** It depends on the memory and on the page allocator only. *)
Lemma ap_ready_frame d room code s s' l : mem s' = mem s -> npages s' = npages s -> pages s' = pages s ->
  page_free_list s' = page_free_list s -> kern_pgdir s' = kern_pgdir s -> mmio_base s' = mmio_base s ->
  ap_ready d room code s l -> ap_ready d room code s' l.
Proof.
  intros Hm Hn Hp Hf Hk Hb [A1 [K1 K2 K3 K4 K5] A3 A4 A5 A6 A7 A8].
  split; unfold plain; rewrite ?Hm, ?Hn, ?Hk, ?Hb; try done.
  split; rewrite ?Hm, ?Hn; try done. by eapply (alloc_ok_frame s).
Qed.

(** [m] returns [a] and only adds to the trace. *)
Definition logs {A} (m : K A) (s : kstate) (a : A) : Prop := exists t, m s = Ret a (set_trace (trace s ++ t) s).

Lemma logs_ret {A} (a : A) s : logs (ret a) s a.
Proof. exists []. rewrite app_nil_r. by destruct s. Qed.
Lemma logs_emit {B} e (k : unit -> K B) s b : (forall t, logs (k tt) (set_trace t s) b) -> logs (bind (emit e) k) s b.
Proof.
  intros H. destruct (H (trace s ++ [e])) as (t & Ht). exists (e :: t).
  change (k tt (set_trace (trace s ++ [e]) s) = Ret b (set_trace (trace s ++ e :: t) s)).
  rewrite Ht. cbn [trace set_trace]. by rewrite <- app_assoc.
Qed.
Lemma logs_when {B} (c : bool) e (k : unit -> K B) s b :
  (forall t, logs (k tt) (set_trace t s) b) -> logs (bind (when c (emit e)) k) s b.
Proof.
  intros H. destruct c; [by apply logs_emit|]. unfold when. unfold logs. rewrite bind_ret_l.
  specialize (H (trace s)). by destruct s.
Qed.
Lemma logs_wait icr s : Exists (fun v => has v DELIVS = false) icr -> logs (wait_delivs icr) s tt.
Proof. induction 1 as [v icr H|v icr H IH]; simpl; [rewrite H; apply logs_ret|]. destruct (has v DELIVS); [done|apply logs_ret]. Qed.
Lemma logs_bind {A B} (m : K A) (k : A -> K B) s a b :
  logs m s a -> (forall t, logs (k a) (set_trace t s) b) -> logs (bind m k) s b.
Proof.
  intros (t & H) Hk. destruct (Hk (trace s ++ t)) as (t' & H'). exists (t ++ t'). unfold bind. rewrite H, H'.
  cbn [trace set_trace]. by rewrite app_assoc.
Qed.
Lemma logs_gets {A B} (f : kstate -> A) (k : A -> K B) s b : logs (k (f s)) s b -> logs (bind (gets f) k) s b.
Proof. done. Qed.

(** A sequence of writes to devices. *)
Ltac logs_go := unfold lapicw; repeat first
  [ apply logs_ret | apply logs_gets; cbv beta | apply logs_when; intros ?; cbv beta | apply logs_emit; intros ?; cbv beta ].

(** ** The local APIC *)

Lemma lapic_init_ok lapicaddr bootcpu ver icr lapic d room code s l :
  ap_ready d room code s l -> 1 <= room -> 0 < lapicaddr -> lapicaddr + 4096 <= 0x100000000 ->
  Exists (fun v => has v DELIVS = false) icr ->
  exists s' l', lapic_init lapicaddr bootcpu ver icr lapic s = Ret (mmio_base s) s' /\
    ap_ready d (room - 1) code s' l' /\ kept s s' /\ cpus s' = cpus s.
Proof.
  intros [A1 A2 A3 A4 A5 (A6 & A7 & A8) A9 A10] Hroom Hla Hla2 Hicr.
  assert (HR : ROUNDUP 4096 PGSIZE = 4096) by reflexivity.
  destruct (mmio_map_region_ok s l d lapicaddr 4096 A1 A2 ltac:(lia) A6 A7 ltac:(lia)) as (s1 & l1 & H1 & Hr); [lia..|].
  rewrite HR in H1. clear HR.
  pose proof (remapped_free _ _ _ _ _ _ _ Hr) as Hlen.
  destruct Hr as (K & F & (l0 & Hl) & _ & _).
  set (s2 := set_mmio_base _ s1) in H1.
  unfold lapic_init. replace (lapicaddr =? 0) with false by lia. rewrite (bind_ret _ _ _ _ _ H1).
  match goal with |- exists s' l', ?m s2 = _ /\ _ => assert (HL : logs m s2 (mmio_base s)) end.
  { logs_go. eapply logs_bind; [by apply logs_wait|]. intros ?. logs_go. }
  destruct HL as (t0 & ->). exists (set_trace (trace s2 ++ t0) s2), l1. split; [done|].
  pose proof F as ((m & fl & pg & tr & Hs1) & Ht & _ & Fe).
  assert (Hk : kept s s2 /\ cpus s2 = cpus s /\ npages s2 = npages s /\ kern_pgdir s2 = kern_pgdir s).
  { assert (trace s2 = trace s) by (by unfold s2). unfold s2 in *. rewrite Hs1 in *. split; [|done].
    split; try done. exists []. by rewrite app_nil_r. }
  destruct Hk as (Hk & Hc & Hn & Hp). split; [|split; [etrans; [exact Hk|apply kept_emit]|done]].
  apply (ap_ready_frame d _ code s2); try done. clear Hs1. split.
  - by rewrite Hp.
  - by apply kdir_mmio.
  - by apply (plain_kframe s s1 l l0 l1).
  - by apply (plain_kframe s s1 l l0 l1).
  - by rewrite Hn.
  - unfold s2. cbn [mmio_base set_mmio_base]. lia.
  - lia.
  - intros j Hj. destruct A4 as (B1 & B2 & B3). rewrite <- A10 by done. by destruct (Fe _ j B1 B2 B3 Hj).
Qed.

(** ** A CPU of its own *)

Section aps.
Context (mpentry_start mpentry_end percpu_kstacks : Z) (cpu_ts_addr : Z -> Z) (ver : Z) (icr : list Z) (v : mpvars).
Hypothesis lapic_device : 0 < lapicaddr v /\ lapicaddr v + 4096 <= 0x100000000.
Hypothesis lapic_idle : Exists (fun r => has r DELIVS = false) icr.

(** [cpus[c]] once the CPU has written its status. *)
Definition started (c : CpuInfo) : CpuInfo :=
  set_cpu_status CPU_STARTED (set_cpu_ts (mkTs (percpu_kstacks + cpu_id c * KSTKSIZE + KSTKSIZE) GD_KD sizeof_Taskstate) c).

Lemma trap_init_percpu_ok s : exists g t, trap_init_percpu percpu_kstacks cpu_ts_addr s =
  Ret tt (set_trace (trace s ++ t) (set_gdt g (upd_thiscpu (set_cpu_ts
    (mkTs (percpu_kstacks + cpu_id (thiscpu s) * KSTKSIZE + KSTKSIZE) GD_KD sizeof_Taskstate)) s))).
Proof. rewrite trap_init_percpu_eq. by eexists _, _. Qed.

Lemma mp_main_setup_ok lapic d room code s l : ap_ready d room code s l -> 1 <= room ->
  exists s' l', mp_main_setup percpu_kstacks cpu_ts_addr ver icr v lapic s = Ret (mmio_base s) s' /\
    ap_ready d (room - 1) code s' l' /\ kept s s' /\ cpus s' = <[this_cpu s := started (thiscpu s)]> (cpus s).
Proof.
  intros A Hroom. unfold mp_main_setup. rewrite bind_gets.
  assert (Hd : 0 <= d) by (apply ar_dir, kd_dir in A; lia).
  assert (HP : PADDR (kern_pgdir s) s = Ret (4096 * d) s).
  { rewrite (ar_pgdir _ _ _ _ _ A). unfold PADDR, pgdir_kva. replace (KERNBASE + 4096 * d <? KERNBASE) with false by lia.
    unfold ret. f_equal. lia. }
  rewrite (bind_ret _ _ _ _ _ HP). clear HP. unfold lcr3, cprintf, emit. kpure.
  match goal with |- context [bind (lapic_init _ _ _ _ _) _ ?S] => set (s0 := S) end.
  assert (A0 : ap_ready d room code s0 l) by (by apply (ap_ready_frame d room code s)).
  destruct lapic_device as [L1 L2].
  destruct (lapic_init_ok (lapicaddr v) (bootcpu v) ver icr lapic d room code s0 l A0 Hroom L1 L2 lapic_idle) as (s1 & l1 & H1 & A1 & K1 & C1).
  rewrite (bind_ret _ _ _ _ _ H1). clear H1. unfold env_init_percpu at 1, emit. rewrite bind_modify.
  set (s2 := set_trace _ s1). destruct (trap_init_percpu_ok s2) as (g & t & H). rewrite (bind_ret _ _ _ _ _ H). clear H. kpure.
  eexists _, l1. split; [done|].
  assert (K0 : kept s s0).
  { unfold s0. split; try done. exists [ELcr3 (4096 * d); EPrintf "SMP: CPU %d starting\n" [VInt (this_cpu s)]].
    cbn [trace set_trace set_cr3]. by rewrite <- app_assoc. }
  assert (K2 : kept s s2) by (etrans; [exact K0|etrans; [exact K1|apply kept_emit]]).
  assert (C2 : cpus s2 = cpus s) by (unfold s2; cbn [cpus set_trace]; by rewrite C1).
  assert (A2 : ap_ready d (room - 1) code s2 l1) by (by apply (ap_ready_frame d _ code s1)).
  clear K0 K1 C1 A1. clearbody s2. split; [by apply (ap_ready_frame d _ code s2)|]. split.
  - etrans; [exact K2|]. split; try done. by exists t.
  - destruct K2 as [E _ _ _ _ _]. unfold upd_thiscpu, thiscpu, cpu_of. cbn [cpus this_cpu set_trace set_gdt set_cpus].
    rewrite lookup_insert_eq, insert_insert_eq, E, C2. done.
Qed.

Lemma ap_ready_vector d room code s l m' tr : ap_ready d room code s l -> mem_ok m' -> page_only 0 (mem s) m' ->
  ap_ready d room code (set_trace tr (set_mem m' s)) l.
Proof.
  intros [A1 A2 A3 A4 A5 A6 A7 A8] Hok Hm. destruct (plain_write s l d 0 m' A2 A3 Hm Hok) as (K & P & _).
  apply (ap_ready_frame d room code (set_mem m' s)); try done.
  split; cbn [kern_pgdir npages mmio_base set_mem]; try done; try (by apply P).
  intros j Hj. rewrite <- A8 by done. cbn [mem set_mem]. by apply (page_only_entry 0).
Qed.

Lemma boot_ap_ok x d room code s l c : ap_ready d room code s l -> 1 <= room -> c <> this_cpu s ->
  exists s' l', boot_ap percpu_kstacks cpu_ts_addr ver icr v c x s =
      Ret (mkSmp (mmio_base s) (u32 (percpu_kstacks + c * KSTKSIZE + KSTKSIZE))) s' /\
    ap_ready d (room - 1) code s' l' /\ kept s s' /\ cpus s' = <[c := started (cpu_of s c)]> (cpus s) /\
    exists t, trace s' = trace s ++ startap_events (cpu_id (cpu_of s c)) MPENTRY_PADDR ++ t.
Proof.
  intros A Hroom Hc. unfold boot_ap. rewrite bind_gets. replace (c =? this_cpu s) with false by lia. rewrite bind_gets.
  pose proof (ar_npages _ _ _ _ _ A) as Hn.
  destruct (lapic_startap_ok (cpu_id (cpu_of s c)) MPENTRY_PADDR s) as (m' & H1 & Hok & Hm); [lia|apply A|].
  rewrite (bind_ret _ _ _ _ _ H1). clear H1. set (tr := trace s ++ _).
  pose proof (ap_ready_vector _ _ _ _ _ _ tr A Hok Hm) as A1. set (s1 := set_trace tr (set_mem m' s)) in *.
  unfold on_cpu. kpure.
  assert (A2 : ap_ready d room code (set_this_cpu c s1) l) by (by apply (ap_ready_frame d room code s1)).
  destruct (mp_main_setup_ok (lapic_va x) d room code (set_this_cpu c s1) l A2 Hroom) as (s2 & l2 & H2 & A3 & K2 & C2).
  rewrite (bind_ret _ _ _ _ _ H2). clear H2. kpure.
  set (s3 := set_cr3 _ _).
  assert (C3 : cpus s3 = <[c := started (cpu_of s c)]> (cpus s)) by (unfold s3; cbn [cpus set_cr3 set_this_cpu]; by rewrite C2).
  replace (cpu_status (cpu_of s3 c) =? CPU_STARTED) with true; [|unfold cpu_of; by rewrite C3, lookup_insert_eq].
  exists s3, l2. split; [done|]. split; [by apply (ap_ready_frame d _ code s2)|].
  destruct K2 as [_ K2 K3 K4 K5 (t & K6)]. split; [|split; [done|]].
  - split; unfold s3; cbn [this_cpu kernel_lock envs npages kern_pgdir trace set_cr3 set_this_cpu]; try done.
    exists (startap_events (cpu_id (cpu_of s c)) MPENTRY_PADDR ++ t). rewrite K6. unfold s1, tr. cbn [trace set_trace set_this_cpu]. by rewrite app_assoc.
  - exists t. unfold s3. cbn [trace set_cr3 set_this_cpu]. rewrite K6. unfold s1, tr. cbn [trace set_trace set_this_cpu]. by rewrite app_assoc.
Qed.

Lemma boot_ap_list_ok d code cs x s l : ap_ready d (Z.of_nat (length cs)) code s l -> NoDup cs ->
  exists s' x' l', boot_ap_list percpu_kstacks cpu_ts_addr ver icr v cs x s = Ret x' s' /\
    ap_ready d 0 code s' l' /\ kept s s' /\
    (forall c, cpus s' !! c = if decide (c ∈ cs /\ c <> this_cpu s) then Some (started (cpu_of s c)) else cpus s !! c) /\
    forall c, c ∈ cs -> c <> this_cpu s -> exists t1 t2, trace s' = trace s ++ t1 ++ startap_events (cpu_id (cpu_of s c)) MPENTRY_PADDR ++ t2.
Proof.
  revert x s l. induction cs as [|c cs IH]; intros x s l A Hnd; cbn [boot_ap_list].
  { exists s, x, l. split; [done|]. split; [done|]. split; [done|]. split; [|set_solver]. intros c. rewrite decide_False by set_solver. done. }
  apply NoDup_cons in Hnd as [Hc Hnd]. rewrite length_cons, Nat2Z.inj_succ in A.
  destruct (decide (c = this_cpu s)) as [->|Hme].
  - assert (H : boot_ap percpu_kstacks cpu_ts_addr ver icr v (this_cpu s) x s = Ret x s) by (unfold boot_ap; rewrite bind_gets, Z.eqb_refl; done).
    rewrite (bind_ret _ _ _ _ _ H). destruct (IH x s l) as (s' & x' & l' & H1 & A1 & K1 & C1 & T1); [|done|].
    { destruct A as [? ? ? ? ? ? ? ?]. split; try done; lia. }
    exists s', x', l'. do 3 (split; [done|]). split; [|intros c Hin Hne; apply T1; set_solver].
    intros c. rewrite C1. repeat case_decide; set_solver.
  - destruct (boot_ap_ok x d _ code s l c A ltac:(lia) Hme) as (s1 & l1 & H & A1 & K1 & C1 & (t & T1)).
    rewrite (bind_ret _ _ _ _ _ H). clear H. replace (Z.succ (Z.of_nat (length cs)) - 1) with (Z.of_nat (length cs)) in A1 by lia.
    destruct (IH (mkSmp (mmio_base s) (u32 (percpu_kstacks + c * KSTKSIZE + KSTKSIZE))) s1 l1 A1 Hnd) as (s2 & x2 & l2 & H2 & A2 & K2 & C2 & T2). exists s2, x2, l2.
    rewrite (kp_cpu _ _ K1) in C2, T2.
    split; [done|]. split; [done|]. split; [by etrans|]. split.
    + intros k. rewrite C2. destruct (decide (k = c)) as [->|Hk].
      * rewrite decide_False by tauto. rewrite decide_True by set_solver. by rewrite C1, lookup_insert_eq.
      * unfold cpu_of. rewrite C1, lookup_insert_ne by done. repeat case_decide; set_solver.
    + intros k Hin Hne. destruct (decide (k = c)) as [->|Hk].
      * destruct (kp_trace _ _ K2) as (t2 & ->). exists [], (t ++ t2). rewrite T1. by rewrite <- !app_assoc.
      * destruct (T2 k ltac:(set_solver) Hne) as (t1 & t2 & ->). rewrite T1. unfold cpu_of. rewrite C1, lookup_insert_ne by done.
        exists (startap_events (cpu_id (cpu_of s c)) MPENTRY_PADDR ++ t ++ t1), t2. by rewrite <- !app_assoc.
Qed.

(** The start-up code, copied to where the CPUs start. *)
Lemma copy_entry_ok d room code s l : ap_ready d room code s l ->
  KERNBASE <= mpentry_start <= mpentry_end -> mpentry_end - mpentry_start <= 4096 -> mpentry_end < 0x100000000 ->
  let m := memmove (mem s) MPENTRY_PADDR (mpentry_start - KERNBASE) (mpentry_end - mpentry_start) in
  ap_ready d room (entry m (MPENTRY_PADDR / 4096)) (set_mem m s) l /\ mem_ok m /\
  forall i, 0 <= i < mpentry_end - mpentry_start -> load8 m (MPENTRY_PADDR + i) = load8 (mem s) (mpentry_start - KERNBASE + i).
Proof.
  intros [A1 A2 A3 A4 A5 A6 A7 A8] Hs Hn He m. pose proof (kd_mem _ _ _ A2) as Hok. unfold KERNBASE in *.
  assert (Hm : m = store_bytes (mem s) MPENTRY_PADDR (load_bytes (mem s) (mpentry_start - KERNBASE) (Z.to_nat (mpentry_end - mpentry_start)))).
  { unfold m. apply memmove_store; unfold KERNBASE, MPENTRY_PADDR; try done; lia. }
  assert (Hmok : mem_ok m) by (rewrite Hm; by apply store_bytes_mem_ok).
  assert (Hpo : page_only (MPENTRY_PADDR / 4096) (mem s) m).
  { intros a Ha. rewrite Hm, load8_store_bytes, length_load_bytes. rewrite decide_False; [done|].
    change (MPENTRY_PADDR / 4096) with 7 in Ha. unfold MPENTRY_PADDR. lia. }
  destruct (plain_write s l d (MPENTRY_PADDR / 4096) m A2 A4 Hpo Hmok) as (K & P & _).
  split; [|split; [done|]].
  - split; cbn [kern_pgdir npages mmio_base mem set_mem]; try done; by apply P.
  - intros i Hi. rewrite Hm, load8_store_bytes, length_load_bytes. rewrite decide_True by lia.
    replace (MPENTRY_PADDR + i - MPENTRY_PADDR) with i by lia. rewrite load_bytes_lookup, Z2Nat.id by lia.
    unfold u8. by rewrite Z.mod_small by apply Hok.
Qed.

(** C9: boot_aps returns, and by then every other CPU has been sent the start-up
    interrupts, has written its status, and has a task state whose kernel stack is the top of
    the stack of its own number; the code the CPUs start at is the copy of mpentry.S, and
    the kernel's locks, environments and the first CPU's entry are as before. *)
Theorem boot_aps_correct d code s l x :
  ap_ready d (ncpu v) code s l -> 0 <= ncpu v -> (forall c, 0 <= c < ncpu v -> cpu_id (cpu_of s c) = c) ->
  KERNBASE <= mpentry_start <= mpentry_end -> mpentry_end - mpentry_start <= 4096 -> mpentry_end < 0x100000000 ->
  exists s' x', boot_aps percpu_kstacks mpentry_start mpentry_end cpu_ts_addr ver icr v x s = Ret x' s' /\ kept s s' /\
    (forall c, 0 <= c < ncpu v -> c <> this_cpu s ->
      (exists ci, cpus s' !! c = Some ci /\ cpu_status ci = CPU_STARTED /\ cpu_env ci = cpu_env (cpu_of s c) /\
        ts_esp0 (cpu_ts ci) = percpu_kstacks + c * KSTKSIZE + KSTKSIZE) /\
      exists t1 t2, trace s' = trace s ++ t1 ++ startap_events c MPENTRY_PADDR ++ t2) /\
    (forall c, ~ (0 <= c < ncpu v) \/ c = this_cpu s -> cpus s' !! c = cpus s !! c) /\
    forall i, 0 <= i < mpentry_end - mpentry_start -> load8 (mem s') (MPENTRY_PADDR + i) = load8 (mem s) (mpentry_start - KERNBASE + i).
Proof.
  intros A Hn Hid Hs Hsz He. unfold boot_aps.
  destruct (ar_npages _ _ _ _ _ A) as [Hnp Hnp'].
  assert (HK : KADDR MPENTRY_PADDR s = Ret (KERNBASE + MPENTRY_PADDR) s) by (apply KADDR_mem; [done|exact Hnp|exact Hnp']).
  rewrite (bind_ret _ _ _ _ _ HK). clear HK.
  replace (KERNBASE + MPENTRY_PADDR - KERNBASE) with MPENTRY_PADDR by lia. rewrite bind_modify.
  destruct (copy_entry_ok d (ncpu v) code s l A Hs Hsz He) as (A1 & Hok & Hcopy). set (m := memmove _ _ _ _) in *.
  destruct (boot_ap_list_ok d (entry m (MPENTRY_PADDR / 4096)) (seqZ 0 (ncpu v)) x (set_mem m s) l) as (s' & x' & l' & H & A2 & K & C & T).
  { rewrite length_seqZ, Z2Nat.id by lia. exact A1. }
  { apply NoDup_seqZ. }
  exists s', x'. split; [done|]. split; [by destruct K; split|]. split; [|split].
  - intros c Hc Hne. split.
    + eexists. rewrite C, decide_True by (split; [by apply elem_of_seqZ|done]). split; [done|]. split; [done|]. split; [done|].
      cbn [started cpu_ts set_cpu_status set_cpu_ts ts_esp0]. change (cpu_of (set_mem m s) c) with (cpu_of s c). by rewrite Hid.
    + destruct (T c) as (t1 & t2 & E); [by apply elem_of_seqZ|done|].
      change (cpu_of (set_mem m s) c) with (cpu_of s c) in E. rewrite Hid in E by done. by exists t1, t2.
  - intros c Hc. rewrite C, decide_False; [done|]. rewrite elem_of_seqZ. cbn [this_cpu set_mem]. lia.
  - intros i Hi. rewrite <- Hcopy by done. apply (entry_byte m (mem s') (MPENTRY_PADDR / 4096)); [done|apply A2| |].
    + intros j Hj. by rewrite (ar_code _ _ _ _ _ A2).
    + change (4096 * (MPENTRY_PADDR / 4096)) with MPENTRY_PADDR. lia.
Qed.
End aps.

(** A machine with two CPUs. *)
Definition two_cpus : gmap Z CpuInfo :=
  {[0 := mkCpu 0 CPU_STARTED None (mkTs 0 0 0); 1 := mkCpu 1 CPU_UNUSED None (mkTs 0 0 0)]}.

Lemma two_cpus_ready : exists s l, ap_ready kern_dir 2 (fun _ => 0) s l /\ cpus s = two_cpus /\ this_cpu s = 0.
Proof.
  destruct free_machine as (s & Hm & Hn & Hkp & Hb & Hk). pose proof free_machine_free as Hl.
  assert (Hp : forall p, p ∉ rev (seqZ 100 100) -> p <> kern_dir -> plain s (rev (seqZ 100 100)) kern_dir p).
  { intros p H1 H2. split; [done|]. split; [done|]. intros i _. unfold present. rewrite Hm, blank_entry. done. }
  exists (set_this_cpu 0 (set_cpus two_cpus s)), (rev (seqZ 100 100)). split; [|done].
  apply (ap_ready_frame kern_dir 2 _ s); try done. split; try done.
  - apply Hp; [|done]. rewrite list_elem_of_In, <- in_rev, <- list_elem_of_In, elem_of_seqZ. lia.
  - apply Hp; [|done]. rewrite list_elem_of_In, <- in_rev, <- list_elem_of_In, elem_of_seqZ. change (MPENTRY_PADDR / 4096) with 7. lia.
  - rewrite Hn. lia.
  - rewrite Hb. split; [done|]. split; [done|]. vm_compute; discriminate.
  - intros j _. by rewrite Hm.
Qed.

Lemma boot_aps_correct_witness : exists s s' x',
  boot_aps 0xF0020000 0xF0010000 0xF0010080 (fun c => 0xF0030000 + 128 * c) 0x50014 [0x1000; 0] (mkMp 0 true 2 0xFEE00000) (mkSmp 0 0) s = Ret x' s' /\
  (exists ci, cpus s' !! 1 = Some ci /\ ts_esp0 (cpu_ts ci) = 0xF0030000) /\
  exists t1 t2, trace s' = trace s ++ t1 ++ startap_events 1 MPENTRY_PADDR ++ t2.
Proof.
  destruct two_cpus_ready as (s & l & A & Hc & Hme).
  destruct (boot_aps_correct 0xF0010000 0xF0010080 0xF0020000 (fun c => 0xF0030000 + 128 * c) 0x50014 [0x1000; 0]
    (mkMp 0 true 2 0xFEE00000)) with (d := kern_dir) (code := fun _ : Z => 0) (s := s) (l := l) (x := mkSmp 0 0)
    as (s' & x' & H & _ & C & _).
  - split; vm_compute; [reflexivity|discriminate].
  - apply Exists_cons_tl, Exists_cons_hd. reflexivity.
  - exact A.
  - vm_compute; discriminate.
  - cbn [ncpu]. intros c Hr. unfold cpu_of. rewrite Hc. assert (E : c = 0 \/ c = 1) by lia. by destruct E as [->| ->].
  - split; vm_compute; discriminate.
  - vm_compute; discriminate.
  - vm_compute; reflexivity.
  - exists s, s', x'. split; [exact H|]. destruct (C 1) as ((ci & C1 & _ & _ & C2) & T).
    + cbn [ncpu]. lia.
    + rewrite Hme. discriminate.
    + split; [|exact T]. exists ci. split; [exact C1|exact C2].
Defined.
