(* ===== verification/UserIpc.v ===== *)
(** * Messages between programs

    lib/ipc.c on the kernel: [ipc_send] to an environment that waits in a receive,
    from the program's call through the trap to its return, with what the receiver
    finds when it runs again. *)
From S2P Require Import Prelude Mmu Mem Console Kstate Pmap PmapAlloc PmapSpace PmapMap PmapDir Env EnvSpec KernInv Sched SchedSpec Syscall SyscallSpec IpcSpec UserMem Trap TrapSpec Ulib UserRun UserCalls ForkSpec.

Lemma syscall_ipc_try_send a1 a2 a3 a4 a5 :
  syscall SYS_ipc_try_send a1 a2 a3 a4 a5 = sys_ipc_try_send (i32 a1) a2 a3 a4.
Proof. reflexivity. Qed.

(** The first turn of a loop leaves it, or does not return. *)
Lemma kloop_first {A R} p (f : A -> K (A + R)) a s r s' : f a s = Ret (inr r) s' -> kloop p f a s = Ret (inr r) s'.
Proof. intros H. apply (kloop_exit 1); [|lia]. simpl. by rewrite (bind_ret _ _ _ _ _ H). Qed.
Lemma kloop_monitor {A R} p (f : A -> K (A + R)) a s s' : f a s = Monitor s' -> kloop p f a s = Monitor s'.
Proof.
  intros H. rewrite kloop_unary. destruct (Pos2Nat.is_succ p) as [n ->]. simpl. unfold bind. by rewrite H.
Qed.

(** ** The answer of the kernel *)

(** The sender has the page [src] and may give it with the permissions [perm]. *)
Definition page_offered (M : aspace) (d src perm pte : Z) : Prop :=
  src < UTOP /\ va_bad src = false /\ perm_bad perm = false /\ M !! (d, src / 4096) = Some pte /\
  (has perm PTE_W = true -> has pte PTE_W = true).

(** The message that [to] gets: [p] is the permission of the page that comes
    with it, and [M'] the address spaces then. *)
Definition page_sent (s : kstate) (l : list Z) (M : aspace) (d d' src dst perm perm0 : Z) (p : Z) (M' : aspace) : Prop :=
  (UTOP <= src /\ p = 0 /\ M' = M) \/
  exists pte, page_offered M d src perm pte /\
    ((UTOP <= dst /\ p = perm0 /\ M' = M) \/
     (dst < UTOP /\ p = perm /\ (present (mem s) d' (PDX dst) = false -> l <> []) /\
       M' = <[(d', dst / 4096) := pte_of (frame_of pte) perm]> M)).

(** Why a send to a waiting environment fails. *)
Definition send_refused (s : kstate) (l : list Z) (M : aspace) (d d' src dst perm : Z) : Prop :=
  src < UTOP /\ (va_bad src = true \/ perm_bad perm = true \/ M !! (d, src / 4096) = None \/
    (exists pte, M !! (d, src / 4096) = Some pte /\ has perm PTE_W = true /\ has pte PTE_W = false) \/
    (dst < UTOP /\ l = [] /\ present (mem s) d' (PDX dst) = false)).

Lemma page_sent_not_refused s l M d d' src dst perm perm0 p M' :
  page_sent s l M d d' src dst perm perm0 p M' -> ~ send_refused s l M d d' src dst perm.
Proof.
  intros H [Hu Hx]. destruct H as [(? & _)|(pte & (_ & Hv & Hp & HM & HW) & H)]; [lia|].
  destruct Hx as [Hx|[Hx|[Hx|[(pte' & HM' & HW1 & HW2)|(Hd & Hl & Hpr)]]]]; [congruence..| |].
  - rewrite HM in HM'. injection HM' as <-. rewrite HW in HW2 by done. discriminate.
  - destruct H as [(? & _)|(_ & _ & H & _)]; [lia|]. by apply H.
Qed.

Section ipc.
Context (stack_tf envs_va lapic : Z) (ctx : Trapframe).
Context (s : kstate) (c : Z) (env : Env) (d : Z) (l : list Z) (D : gset Z) (M : aspace).
Context (to e : Z) (renv : Env) (d' : Z).

(** A program that is not itself in a receive, and an environment that is. *)
Record rendezvous : Prop := {
  rv_ready : uready ctx s c env d l D M;
  rv_running : env_ipc_recving env = false;
  rv_to : 0 <= to < 0x80000000 /\ may_use s to false e;
  rv_env : envs s !! e = Some renv;
  rv_waits : env_ipc_recving renv = true;
  rv_pgdir : env_pgdir renv = pgdir_kva d';
  rv_dst i ei : envs s !! i = Some ei -> 0 <= env_ipc_dstva ei;
  rv_refs k : mappings M k + 1 < 0x10000 }.

Section returns.
Context (value src perm : Z) (Hu : uready ctx s c env d l D M).
Let tf := syscall_tf ctx SYS_ipc_try_send (u32 to) value src (u32 perm) 0.
Let s0 := entered s c env tf.

(** The way back to the sender, when nothing was sent. *)
Lemma send_returns r s1 : syscall SYS_ipc_try_send (u32 to) value src (u32 perm) 0 s0 = Ret r s1 -> same_cpu s0 s1 ->
  envs s1 !! c = Some (set_env_tf tf env) -> kinv s1 l D M -> -0x80000000 <= r < 0 -> r <> - E_IPC_NOT_RECV ->
  send_refused s l M d d' src (env_ipc_dstva renv) perm ->
  exists s' env' r, user_sys_ipc_try_send stack_tf envs_va lapic ctx to value src perm s = Ret r s' /\
    r <> 0 /\ r <> - E_IPC_NOT_RECV /\ uready ctx s' c env' d l D M /\
    send_refused s l M d d' src (env_ipc_dstva renv) perm.
Proof.
  intros H1 Hcpu Hc1 Hk1 Hr Hr' Hx. pose proof (ur_dir _ _ _ _ _ _ _ _ Hu) as HdD.
  destruct (user_call stack_tf envs_va lapic ctx s c env d l D M Hu SYS_ipc_try_send (u32 to) value src (u32 perm) 0 false
    r s1 (set_env_tf tf env) l D M H1 Hcpu Hc1 eq_refl eq_refl Hk1 HdD ltac:(lia)) as (s2 & env2 & H2 & Hu2 & _).
  exists s2, env2, r. split; [exact H2|]. split; [lia|done].
Qed.

(** And when the message is delivered. *)
Lemma send_delivers s1 p l1 M1 : e <> c ->
  syscall SYS_ipc_try_send (u32 to) value src (u32 perm) 0 s0 = Ret 0 s1 -> same_cpu s0 s1 ->
  envs s1 = <[e := delivered value (env_id env) (set_env_ipc_perm p renv)]> (envs s0) -> kinv s1 l1 D M1 ->
  page_sent s l M d d' src (env_ipc_dstva renv) perm (env_ipc_perm renv) p M1 -> data_frame s0 s1 l D ->
  exists s' env' p l' M', user_sys_ipc_try_send stack_tf envs_va lapic ctx to value src perm s = Ret 0 s' /\
    uready ctx s' c env' d l' D M' /\ env_sim env env' /\
    envs s' = <[c := env']> (<[e := delivered value (env_id env) (set_env_ipc_perm p renv)]> (envs s)) /\
    page_sent s l M d d' src (env_ipc_dstva renv) perm (env_ipc_perm renv) p M' /\ data_frame s s' l D.
Proof.
  intros Hec H1 Hcpu He1 Hk1 Hps Hdf. pose proof (ur_dir _ _ _ _ _ _ _ _ Hu) as HdD.
  destruct (user_call stack_tf envs_va lapic ctx s c env d l D M Hu SYS_ipc_try_send (u32 to) value src (u32 perm) 0 false
    0 s1 (set_env_tf tf env) l1 D M1 H1 Hcpu) as (s2 & env2 & H2 & Hu2 & Hs2 & Hes2 & Hmm & _); try done.
  { rewrite He1, lookup_insert_ne by done. apply lookup_insert_eq. }
  exists s2, env2, p, l1, M1. split; [exact H2|]. split; [done|]. split; [by etrans; [apply (env_sim_tf tf)|]|]. split; [|split; [done|]].
  - rewrite Hes2, He1. unfold s0, entered. simpl. rewrite (insert_insert_ne _ e c) by done. by rewrite insert_insert_eq.
  - by eapply (data_frame_ext s0 s s1 s2).
Qed.
End returns.

Lemma try_send_ok value src perm : rendezvous -> 0 <= src -> 0 <= perm < 0x100000000 ->
  (exists s' env' p l' M', user_sys_ipc_try_send stack_tf envs_va lapic ctx to value src perm s = Ret 0 s' /\
     uready ctx s' c env' d l' D M' /\ env_sim env env' /\
     envs s' = <[c := env']> (<[e := delivered value (env_id env) (set_env_ipc_perm p renv)]> (envs s)) /\
     page_sent s l M d d' src (env_ipc_dstva renv) perm (env_ipc_perm renv) p M' /\ data_frame s s' l D) \/
  (exists s' env' r, user_sys_ipc_try_send stack_tf envs_va lapic ctx to value src perm s = Ret r s' /\
     r <> 0 /\ r <> - E_IPC_NOT_RECV /\ uready ctx s' c env' d l D M /\
     send_refused s l M d d' src (env_ipc_dstva renv) perm).
Proof.
  intros [Hu Hnr [Hto Hm] He Hw Hpg Hdst Hrefs] Hsrc Hperm.
  assert (Hec : e <> c) by (intros ->; rewrite (ur_env _ _ _ _ _ _ _ _ Hu) in He; congruence).
  set (num := SYS_ipc_try_send). set (a1 := u32 to). set (a4 := u32 perm).
  pose proof (entered_kinv ctx s c env d l D M Hu num a1 value src a4 0) as Hk0.
  pose proof (entered_cur0 ctx s c env d l D M Hu num a1 value src a4 0) as Hc0.
  pose proof (entered_may_use ctx s c env d l D M Hu num a1 value src a4 0 _ _ _ Hm) as Hm0.
  set (tf := syscall_tf ctx num a1 value src a4 0) in *. set (s0 := entered s c env tf) in *.
  assert (Hce0 : envs s0 !! c = Some (set_env_tf tf env)) by apply lookup_insert_eq.
  assert (He0 : envs s0 !! e = Some renv) by (unfold s0, entered; simpl; by rewrite lookup_insert_ne).
  assert (Hes0 : envs s0 = <[c := set_env_tf tf env]> (envs s)) by done.
  pose proof (sys_ipc_try_send_ok s0 l D M to value src perm Hk0 ltac:(by eexists) Hsrc Hrefs) as Hres.
  assert (Hd0 : forall i ei, envs s0 !! i = Some ei -> 0 <= env_ipc_dstva ei).
  { intros i ei. rewrite Hes0, lookup_insert. case_decide; [intros [= <-]|apply Hdst].
    apply (Hdst c env), (ur_env _ _ _ _ _ _ _ _ Hu). }
  specialize (Hres Hd0).
  assert (Hcall : syscall num a1 value src a4 0 s0 = sys_ipc_try_send to value src perm s0).
  { unfold num. rewrite syscall_ipc_try_send. unfold a1, a4. by rewrite i32_u32, u32_small by lia. }
  rewrite <- Hcall in Hres. clear Hcall.
  pose proof (send_returns value src perm Hu) as Hbad. pose proof (fun s1 p l1 M1 => send_delivers value src perm Hu s1 p l1 M1 Hec) as Hok.
  change (syscall_tf ctx SYS_ipc_try_send (u32 to) value src (u32 perm) 0) with tf in Hbad, Hok.
  change (syscall SYS_ipc_try_send (u32 to) value src (u32 perm) 0) with (syscall num a1 value src a4 0) in Hbad, Hok. fold s0 in Hbad, Hok.
  pose proof (ur_pgdir _ _ _ _ _ _ _ _ Hu) as Hpc.
  assert (Hms : mem s0 = mem s) by done. clear Hu Hd0. clearbody s0.
  assert (Hdet : forall e1 ev1, may_use s0 to false e1 -> envs s0 !! e1 = Some ev1 -> e1 = e /\ ev1 = renv).
  { intros e1 ev1 H1 H2. assert (e1 = e) as -> by (by eapply may_use_det). split; [done|congruence]. }
  assert (Hcur : forall c1 cv d1, curenv s0 = Some c1 -> envs s0 !! c1 = Some cv -> c1 = c /\ cv = set_env_tf tf env /\
    (env_pgdir cv = pgdir_kva d1 -> d1 = d)).
  { intros c1 cv d1 H1 H2. assert (c1 = c) as -> by congruence. assert (cv = set_env_tf tf env) as -> by congruence.
    split; [done|]. split; [done|]. intros H3. apply pgdir_kva_inj. rewrite <- H3. exact Hpc. }
  destruct (syscall num a1 value src a4 0 s0) as [r s1| | | | | |] eqn:Hsys; [|by inversion Hres..].
  inversion Hres as [Hx|e1 ev1 Hx1 Hx2 Hx3|e1 ev1 Hx1 Hx2 Hx3 Hx4 Hx5|e1 ev1 c1 cv1 d1 Hx1 Hx2 Hx3 Hy1 Hy2 Hy3 Hx4 Hx5 Hx6 Hx7
    |e1 ev1 c1 cv1 d1 pte Hx1 Hx2 Hx3 Hy1 Hy2 Hy3 Hx4 Hx5 Hx6 Hx7 Hx8 Hx9
    |e1 ev1 d1 Hx1 Hx2 Hx3 Hs1 Hx4 Hx5 Hx6 Hx7 Hx8|e1 ev1 c1 cv1 s3 Hx1 Hx2 Hx3 Hy1 Hy2 Hx4 Hx5 Hx6
    |e1 ev1 c1 cv1 d1 pte s3 Hx1 Hx2 Hx3 Hy1 Hy2 Hy3 Hs1 Hx4 Hx5 Hx6 Hx7 Hx8 Hx9 Hk1
    |e1 ev1 c1 cv1 d1 d2 pte s3 l3 Hx1 Hx2 Hx3 Hy1 Hy2 Hy3 Hx4 Hx5 Hx6 Hx7 Hs1 Hx8 Hx9 Hroom Hk1 Hx10 Hx11 Hx12]; subst.
  - by destruct (Hx e).
  - destruct (Hdet _ _ Hx1 Hx2) as [-> ->]. congruence.
  - right. apply (Hbad _ s1 eq_refl); try done. split; [done|]. tauto.
  - right. destruct (Hcur _ _ d1 Hy1 Hy2) as (-> & -> & E). apply (Hbad _ s1 eq_refl); try done. split; [done|].
    rewrite <- (E Hy3). tauto.
  - right. destruct (Hcur _ _ d1 Hy1 Hy2) as (-> & -> & E). apply (Hbad _ s1 eq_refl); try done. split; [done|].
    rewrite <- (E Hy3). do 3 right. left. by exists pte.
  - right. destruct (Hdet _ _ Hx1 Hx2) as [-> ->]. eapply (Hbad _ _ eq_refl); try done; [simpl; by rewrite lookup_insert_ne|].
    assert (d1 = d') as -> by (apply pgdir_kva_inj; congruence). split; [done|]. do 4 right. by rewrite <- Hms.
  - left. destruct (Hdet _ _ Hx1 Hx2) as [-> ->]. destruct (Hcur _ _ 0 Hy1 Hy2) as (-> & -> & _).
    apply (Hok _ 0 l M eq_refl); try done. by left.
  - left. destruct (Hdet _ _ Hx1 Hx2) as [-> ->]. destruct (Hcur _ _ d1 Hy1 Hy2) as (-> & -> & E).
    apply (Hok _ (env_ipc_perm renv) l M eq_refl); try done.
    right. exists pte. rewrite <- (E Hy3). split; [done|]. by left.
  - left. destruct (Hdet _ _ Hx1 Hx2) as [-> ->]. destruct (Hcur _ _ d1 Hy1 Hy2) as (-> & -> & E).
    assert (d2 = d') as -> by (apply pgdir_kva_inj; congruence).
    apply (Hok s1 perm l3 (<[(d', env_ipc_dstva renv / 4096) := pte_of (frame_of pte) perm]> M) eq_refl); try done.
    right. exists pte. rewrite <- (E Hy3). split; [done|]. right. by rewrite <- Hms.
Qed.

(** C20: ipc_send to an environment that waits in a receive returns after one turn of its
    loop, with the value, the sender's id and, if both sides want one, the page in the
    receiver, which is runnable and finds 0 as the result of its own call; or
    it panics, exactly when the page cannot be given, and then nothing was sent. *)
Theorem ipc_send_correct turns value pg perm : rendezvous -> 0 <= pg -> 0 <= perm < 0x100000000 ->
  let src := if pg =? 0 then KERNBASE else pg in
  let r := ipc_send stack_tf envs_va lapic ctx turns to value pg perm s in
  (exists s' env' p l' M', r = Ret (inr tt) s' /\ uready ctx s' c env' d l' D M' /\ env_sim env env' /\
     envs s' = <[c := env']> (<[e := delivered value (env_id env) (set_env_ipc_perm p renv)]> (envs s)) /\
     page_sent s l M d d' src (env_ipc_dstva renv) perm (env_ipc_perm renv) p M' /\ data_frame s s' l D /\
     ~ send_refused s l M d d' src (env_ipc_dstva renv) perm) \/
  (exists s', r = Monitor s' /\ send_refused s l M d d' src (env_ipc_dstva renv) perm).
Proof.
  intros Hr Hpg Hperm. cbv zeta. unfold ipc_send. set (src := if pg =? 0 then KERNBASE else pg).
  assert (Hsrc : 0 <= src) by (unfold src, KERNBASE; destruct (pg =? 0); lia).
  destruct (try_send_ok value src perm Hr Hsrc Hperm)
    as [(s' & env' & p & l' & M' & H & H1 & H2 & H3 & Hx & H4)|(s' & env' & r & H & Hr0 & Hr1 & Hu & Hx)].
  - left. exists s', env', p, l', M'. split; [|do 5 (split; [done|]); by eapply page_sent_not_refused]. apply kloop_first. unfold ipc_send_turn. by rewrite (bind_ret _ _ _ _ _ H).
  - right. destruct (@user_panic_ok stack_tf envs_va lapic ctx (unit + unit) s' c env' d l D M Hu) as (s2 & H2).
    exists s2. split; [|exact Hx]. apply kloop_monitor. unfold ipc_send_turn. rewrite (bind_ret _ _ _ _ _ H).
    replace (r =? 0) with false by lia. replace (r =? - E_IPC_NOT_RECV) with false by lia. exact H2.
Qed.
End ipc.

(** ** A child that waits *)

Lemma uready_other_env ctx s c env d l D M e ei ei' : uready ctx s c env d l D M -> e <> c -> envs s !! e = Some ei ->
  live ei -> live ei' -> env_pgdir ei' = env_pgdir ei -> uready ctx (set_env_at e ei' s) c env d l D M.
Proof.
  intros [Hk [] Hp Hd Hc] Hec He Hl Hl' Hpg. split; try done; [by eapply kinv_set_env|]. split; try done.
  simpl. by rewrite lookup_insert_ne.
Qed.

Lemma two_programs : exists s env l D M to renv d', rendezvous fork_tf s 0 env 3 l D M to 1 renv d' /\
  env_status renv = ENV_NOT_RUNNABLE /\ UTOP <= env_ipc_dstva renv.
Proof.
  destruct roomy_ready as (s & env & l & pte & Hu & HU & HW & Hs & Hes & Hef & Hl & _).
  assert (Hall : forall i ei, envs s !! i = Some ei -> ei = env \/ ei = env_zero).
  { intros i ei. rewrite Hes. change (envs (one_env roomy_vm)) with (envs small_env). rewrite lookup_insert. case_decide as Hi.
    - intros [= <-]. by left.
    - intros Hei. assert (Hr : 0 <= i < NENV) by (apply small_env_dom; by eexists).
      rewrite small_env_lookup in Hei by done. case_decide; injection Hei as <-; [done|by right]. }
  pose proof (user_exofork_ok 0 0 0 fork_tf s 0 env 3 l {[3]} (<[(3, 2048) := pte]> ∅) Hu) as Hfork. rewrite Hef in Hfork.
  destruct l as [|n l]; [simpl in Hl; lia|].
  destruct Hfork as (s2 & env2 & free & _ & Hch & Hx & Hfree & _ & _ & Hu2 & Hs2 & Hes2 & _).
  { intros i ei Hi. destruct (Hall _ _ Hi) as [->| ->]; [destruct Hs as (? & ? & ->)|]; split; discriminate || done. }
  set (child := exofork_child fork_tf env 1 n free) in *. set (id := next_env_id (env_id free) 1) in *.
  assert (Hc2 : envs s2 !! 1 = Some child) by (rewrite Hes2, lookup_insert_ne by done; apply lookup_insert_eq).
  assert (Hrecv : env_ipc_recving env2 = false) by (destruct Hs2 as (? & ? & ->), Hs as (? & ? & ->); done).
  exists (set_env_at 1 (waiting UTOP child) s2), env2, l, ({[n]} ∪ {[3]}), (<[(3, 2048) := pte]> ∅), id, (waiting UTOP child), n.
  split; [|split; [done|change (UTOP <= UTOP); lia]]. split.
  - eapply (uready_other_env _ s2); [exact Hu2|done|exact Hc2|discriminate|discriminate|done].
  - exact Hrecv.
  - split; [lia|]. unfold may_use. destruct (Z.eqb_spec id 0); [lia|]. split; [done|].
    exists (waiting UTOP child). split; [apply lookup_insert_eq|]. split; [discriminate|]. split; [done|discriminate].
  - apply lookup_insert_eq.
  - done.
  - done.
  - intros i ei. simpl. rewrite lookup_insert. case_decide; [intros [= <-]; discriminate|].
    rewrite Hes2, lookup_insert. case_decide; [intros [= <-]; destruct Hs2 as (? & ? & ->), Hs as (? & ? & ->); discriminate|].
    rewrite lookup_insert_ne by done. intros Hi. destruct (Hall _ _ Hi) as [->| ->]; [destruct Hs as (? & ? & ->)|]; discriminate.
  - intros k. pose proof (mappings_insert_le ∅ (3, 2048) pte k) as Hj. change (mappings ∅ k) with 0 in Hj. case_decide; lia.
Qed.

Lemma ipc_send_correct_witness : exists s s' env renv, envs s !! 1 = Some renv /\ env_status renv = ENV_NOT_RUNNABLE /\
  (exists to, ipc_send 0 0 0 fork_tf 1 to 42 0 0 s = Ret (inr tt) s') /\
  exists renv', envs s' !! 1 = Some renv' /\ env_status renv' = ENV_RUNNABLE /\ env_ipc_value renv' = 42 /\ env_ipc_from renv' = env_id env.
Proof.
  destruct two_programs as (s & env & l & D & M & to & renv & d' & Hr & Hst & Hdst).
  destruct (ipc_send_correct 0 0 0 fork_tf s 0 env 3 l D M to 1 renv d' 1 42 0 0 Hr) as [(s' & env' & p & l' & M' & H & _ & _ & Hes & _)|(s' & _ & Hx & _)].
  - lia.
  - lia.
  - exists s, s', env, renv. split; [apply (rv_env _ _ _ _ _ _ _ _ _ _ _ _ Hr)|]. split; [exact Hst|]. split; [by exists to|].
    eexists. split; [rewrite Hes, lookup_insert_ne by done; apply lookup_insert_eq|]. done.
  - cbv iota in Hx. change (0 =? 0) with true in Hx. cbv iota in Hx. change UTOP with 0xeec00000 in Hx. unfold KERNBASE in Hx. lia.
Defined.
